(* ===== verification/_CoqProject ===== *)
-Q . S2P
Prelude.v
GoStd.v
K8s.v
Clientset.v
ApiTypes.v
GoHeap.v
DeepCopy.v
InformerFactory.v
FakeClientset.v
DraHelpers.v
ConfigMap.v
ConfigTyping.v
TlsProfile.v
K8sObjects.v
PodWebhook.v
Effects.v
ApplyConfig.v
Monad.v
Cert.v
ResourceApply.v
Finalizer.v
Reconciler.v
Discovery.v
Conditions.v
CachedApply.v
Cleanup.v
Manage.v
Managed.v
Sync.v
Inventory.v
Termination.v
SyncSafety.v
Refinement.v
Liveness.v
Steady.v
SteadyState.v
SteadySync.v
OperatorClient.v
Builders.v
Aliasing.v
Starter.v
Command.v
InformerStart.v
