(* ===== verification/Prelude.v ===== *)
(** * A verification of the Kueue operator

    The Kueue operator installs and configures Kueue on a Kubernetes or
    OpenShift cluster. A singleton custom resource, [Kueue/cluster], describes
    the configuration; the operator generates Kueue's own configuration from
    it, applies several dozen objects (RBAC, CRDs, webhooks, certificates,
    network policies, flow control, the deployment), reports the state of the
    deployment as status conditions, and removes everything when the resource
    is deleted. This development models that logic, the Go code under [src/pkg]
    and [src/bindata/assets.go], with the generated clients, informers, apply
    configurations and deep copies it runs on, and proves it correct.

    ** The parts and their files

    Shared:
    - [Prelude]: notation scope, tactics, lemmas on lists and on 64-bit integers.
    - [GoStd]: the functions of Go's standard library the code calls
      ([strings], [strconv], [slices.Sort], [time.Duration] arithmetic).
    - [K8s]: API errors and their classification, [ObjectMeta], owner
      references, library-go's metadata merge ([object_merger.go]),
      unstructured JSON, label selectors and what they match.
    - [K8sObjects]: the objects the operator reads and writes. A body spells
      out the fields the code touches and carries the rest unchanged as JSON.

    The memory of Go:
    - [GoHeap]: a heap of cells; pointers, slices and maps as locations in it.
      [GoType] says what value a piece of Go data stands for ([view]), which
      locations it owns ([reach]) and that it shares none of them within itself
      ([tree]); [copies f] is the specification of a deep copy: the copy has
      the same value, owns only new locations, and nothing old was written.
    - [DeepCopy] ([pkg/apis/kueueoperator/v1/zz_generated.deepcopy.go]): the
      API's structs as they lie in memory, in [Module Go], and their copies.

    Generated code (under [pkg/generated]):
    - [InformerFactory] ([informers/externalversions], [listers]): the shared
      informer factory as a state of maps and goroutines, and its accessors over
      the interface [SharedInformerFactory].
    - [ApplyConfig] ([applyconfiguration]): the builders; [Applied] relates a
      configuration to the API object it describes.
    - [Clientset] ([clientset/versioned], [register.go]): the clients.
    - [FakeClientset] ([clientset/versioned/fake], [scheme],
      [applyconfiguration/internal]): the clientset for tests, the registration
      of the types in a scheme, the schema parser.

    Pure translations:
    - [ApiTypes] ([pkg/apis/kueueoperator/v1/types.go]): the custom resource,
      and the validation markers as boolean predicates [valid_*].
    - [DraHelpers] ([pkg/util/dra_helpers.go]).
    - [ConfigMap] ([pkg/configmap/configmap.go]): the configuration of Kueue;
      [Module Config] holds the generated types.
    - [ConfigTyping]: the schema of that configuration as typing judgements,
      and that a valid resource's configuration has it.
    - [TlsProfile] ([pkg/tlsprofile/tlsprofile.go]): the cluster's TLS profile
      as Kueue's TLS options.
    - [PodWebhook] ([pkg/webhook/pod_webhook.go]): which admission webhooks
      are registered, and for which namespaces.

    Effects:
    - [Effects]: an interaction with the cluster is a [call] with a typed
      response, a program a tree of calls ([prog]), an execution a trace of
      answered calls ([runs]). The answers are arbitrary and a run may stop
      after any call, so what holds of every run also holds when the operator
      is killed between two calls. [wp] is the weakest precondition with a
      monitor on the calls, given the history; [twp] its total counterpart
      against a [handler] (a concrete environment).
    - [Monad]: state, errors and panics over [prog]; the methods of the
      reconciler are values of [M TCR]. Loops over slices are [mfold]; retries
      are client-go's [OnError] with the number of steps of the backoff.
    - [Cert] ([pkg/cert/cert.go]): waiting for a certificate.
    - [ResourceApply] ([pkg/util/resourceapply]): applying flow schemas,
      priority levels and network policies.

    The reconciler ([pkg/operator/target_config_reconciler.go]):
    - [Reconciler]: its state [TCR] (the data of [TargetConfigReconciler]; the
      clients are the calls), the class [Env] of what is linked but not
      defined here, the embedded manifests ([bindata/assets.go]), the hashes.
    - [Finalizer]: [updateFinalizer], the patch it computes and what a server
      makes of it.
    - [Discovery]: CRDs, versions, the platform.
    - [Conditions]: the condition builders and the status update.
    - [CachedApply]: the eight [apply*WithCache] methods over library-go's
      resource cache.
    - [Cleanup]: the five [cleanUp*] methods; [stage_allowed] says what each
      may list and delete.
    - [Manage]: the [manage*] methods; what each applies is a pure function
      [desired*] where the code computes something.
    - [Managed]: the contract between these methods and [sync]: every object a
      [manage*] method sends is owned, in the operator's namespace, confined.
      [SyncSafety] uses the contract only.
    - [Sync]: [sync], cut into one definition per block, in the code's order.
    - [SyncSafety]: the safety of [sync] as a whole, and runs of it.
    - [Inventory]: what the operand consists of, and that a successful
      [syncOperand] has put all of it in the cluster.
    - [Termination]: [sync] returns against every environment that answers.
    - [Refinement]: the abstract specification of a reconciliation, a machine
      of phases, and that [sync] refines it.
    - [Liveness]: in a healthy cluster [sync] succeeds.
    - [Steady]: two runs of a program in a settled cluster, related by
      [steady K Q m m2]: what the first leaves in the resource cache under the
      keys [K] makes the second quiet. The rules follow the monad.
    - [SteadyState]: the keys of the operand, and that every step of
      [syncOperand] is steady for its own ([syncOperand_steady]).
    - [SteadySync]: the whole of [sync] in a settled cluster: what its steps
      before the operand return there ([yields]), and that a reconciliation
      which succeeded makes the next one quiet.

    Around the reconciler:
    - [OperatorClient] ([pkg/operator/operatorclient/interfaces.go]): the
      client used by library-go's controllers.
    - [Starter] ([pkg/operator/starter.go], [NewTargetConfigReconciler],
      [pkg/namespace/namespace.go]): the start of the operator as a program
      over a log of actions, event handlers, and its connection to [sync].
    - [Builders]: what [OperatorClient] and [Conditions] send is what the
      generated builders build.
    - [Aliasing]: [updateFinalizer] and the operator client change their deep
      copies in place; here on the heap, related to the value-level models of
      [Finalizer] and [OperatorClient].
    - [InformerStart]: the log of [Starter] replayed on [InformerFactory].
    - [Command] ([cmd/kueue-operator/main.go], [pkg/cmd/operator],
      [pkg/version]): the process around [RunOperator].

    ** The theorems

    - The reconciliation: [sync_safe] states as a monitor on traces what may be
      done when, with [finalizeKueue_spec] for the deletion,
      [sync_without_cert_manager] and [updateDRAGates_spec] for branches.
      [sync_refines] relates it to the phase machine, with [sync_invariant]
      for what has been achieved wherever it stops; [sync_success] says what a success means,
      [syncOperand_complete] that nothing of the operand is missing then,
      [sync_terminates] that there is an outcome and [sync_live] that in a
      healthy cluster it is success. [sync_steady] is about the next one: after a
      reconciliation that succeeded, another one in a cluster that has settled
      writes nothing that the resource cache covers. It assumes that the keys
      of the manifests are distinct ([operandKeys] has no duplicates) and none
      is cert-manager's, as with those shipped; the witness evaluates both.
    - The start: [RunOperator_spec] (all or nothing),
      [sync_reads_informed] (every cache [sync] reads is filled) and
      [kueue_informer_started] (the informer of the resource runs, once).
    - Informers: [factory_once] (one informer and at most one goroutine per
      type, in every reachable state), [Informer_shared] (accessors agree),
      [Shutdown_spec] (nothing starts after it, and it returns when the contexts
      end), [WaitForCacheSync_spec] (what its results mean).
    - Memory: [generated_deep_copies], [Kueue_DeepCopyObject_spec], and what
      they are for: [modifiedKueue_spec] and [UpdateOperator_copies_spec], the
      objects of the caches are not written.
    - Builders and clients: [KueueConfiguration_roundtrip],
      [ExtractKueueFrom_identity], [builders_send], [NewForConfig_spec]; for
      tests [NewSimpleClientset_spec] (a fake clientset is its tracker and a
      log), [Parser_calls_spec] and [init_scheme_spec].
    - The process: [main_spec].
    - What is generated: [template_well_typed],
      [defaultKueueConfigurationTemplate_spec] and the
      [build*_spec] theorems (with overflow bounds under the validation),
      [desiredDeployment_spec], [desiredMutatingWebhook_spec],
      [scopeManagerRoleResourceNames_spec], the network policies, the TLS
      options, the webhook selection with its label-selector semantics.
    - Waiting and retrying: [WaitForCertificateReady_sound] and
      [WaitForCertificateReady_terminates], [updateFinalizer_spec], the
      cleanup's [cleanUp*_spec].
    - Applying: [SafeToSkipApply_after_update], [applyWithCache_spec],
      [ApplyNetworkPolicy_converges],
      [ApplyPriorityLevelConfiguration_shares].
    - Theorems that state a defect as it is: [patched_finalizers_add_loses],
      [patched_finalizers_remove_keeps], [metricsServerName_matches],
      [cleanUpResources_absent], [ApplyOperatorStatus_never_skips],
      [buildFrameworkList_JaxJob].

    Every theorem with a hypothesis has a witness [<name>_witness] that applies
    it to a concrete input.

    ** Bounds and fuel

    The only loop that is not structural is the polling of a certificate:
    [certificateFuel] iterations, one every two seconds for two minutes;
    [WaitForCertificateReady_terminates] proves that they are never exhausted
    against a clock that advances by what is slept. Retries are bounded by the
    code: five attempts for [DefaultRetry], four for [DefaultBackoff], six
    for [detectOpenShift]. Durations are [int64] nanoseconds, and wrap.

    ** Parameters

    [ConfigCodec] and [Env] hold float parsing, YAML and JSON marshalling,
    SHA-256, the hash of library-go's cache, the embedded file system, manifest
    decoding and the extraction of apply configurations. They are arbitrary
    functions in every theorem; the witnesses use [example_env]. What the API
    server answers is arbitrary too; the convergence theorems use a server
    that stores one object.

    ** What is not modelled

    Log lines; client-go's table of informer names, which [Shutdown] updates
    last; the contexts and resync timers of the informers and the
    scheduling of [sync] by library-go's controller; cobra's dispatch and
    library-go's controller command. The constructors of clients and the
    registration of event handlers are parameters of [Starter]; an informer of
    client-go is what it was configured with; the structured-merge parser of the
    apply configurations is a parameter. [GoHeap] has no slices that start
    inside an array. The builders of [ApplyConfig] are values, not pointers: a
    configuration that is changed after it was passed on is not described. The object
    tracker of the fake clientset is a parameter. library-go's
    [ApplyFoo] functions are single calls: what they write is their argument,
    how they merge it with the stored object is not described. Events carry
    their reason and message. Go maps are visited in one order here; that the
    order does not matter is proved where a map is searched
    ([search_framework_order]) and, for plain keys, merged ([MergeMap_plain]).

    ** What is left

    The merges of library-go's vendored [ApplyFoo] functions: with them the
    answers that [sync_steady] assumes of a settled cluster could be derived
    for each kind, as [ApplyNetworkPolicy_converges] does for the functions of
    [pkg/util/resourceapply]. The objects of cert-manager go through the
    resource cache inside one library-go call, which decides there whether to
    write: [sync_steady] does not say that it does not. *)
From Stdlib Require Export Ascii.
From stdpp Require Export base tactics numbers sorting pretty strings list gmap fin_maps.
From stdpp Require Export options.

(** ** Notation scope of the development *)

Declare Scope kueue_scope.
Delimit Scope kueue_scope with kueue.

(** Decidable string equality as a boolean: Go's [==] on strings. *)
Notation "s =s t" := (bool_decide (s = t :> string))
  (at level 70, no associativity) : kueue_scope.
Global Open Scope kueue_scope.

(** ** Tactics *)

(** Turns boolean conjunctions and decisions of the context and of the goal
    into propositions. *)
Ltac bsplit :=
  repeat match goal with
    | H : _ && _ = true |- _ => apply andb_true_iff in H; destruct H
    | H : Is_true (_ && _) |- _ => apply andb_True in H; destruct H
    | H : Is_true (bool_decide _) |- _ => apply bool_decide_unpack in H
    | H : bool_decide _ = true |- _ => apply bool_decide_eq_true in H
    | H : bool_decide _ = false |- _ => apply bool_decide_eq_false in H
    | H : negb _ = true |- _ => apply negb_true_iff in H
    | H : negb _ = false |- _ => apply negb_false_iff in H
    | H : (_ <=? _)%Z = true |- _ => apply Z.leb_le in H
    | H : (_ <? _)%Z = true |- _ => apply Z.ltb_lt in H
    | H : (_ =? _)%Z = true |- _ => apply Z.eqb_eq in H
    | H : (_ <=? _)%Z = false |- _ => apply Z.leb_gt in H
    | H : (_ <? _)%Z = false |- _ => apply Z.ltb_ge in H
    | H : (_ =? _)%Z = false |- _ => apply Z.eqb_neq in H
    | |- _ && _ = true => apply andb_true_iff; split
    | |- bool_decide _ = true => apply bool_decide_eq_true
    end.

(** Case analysis on every [match] and [if] of the goal. *)
Ltac split_matches := repeat (case_match; simplify_eq/=; try done).

(** ** Lists *)

(** The entries of [l] that [f] maps to [true] before position [i] do not
    matter for [l !! i]. *)
Lemma existsb_elem_of {A} (f : A → bool) (l : list A) :
  existsb f l = true ↔ ∃ x, x ∈ l ∧ f x = true.
Proof.
  rewrite existsb_exists. split; intros (x & Hx & Hf); exists x;
    (split; [by apply list_elem_of_In|done]).
Qed.

Lemma existsb_false_elem_of {A} (f : A → bool) (l : list A) :
  existsb f l = false ↔ ∀ x, x ∈ l → f x = false.
Proof.
  rewrite <-not_true_iff_false, existsb_elem_of. split.
  - intros H x Hx. apply not_true_iff_false. naive_solver.
  - intros H (x & Hx & Hf). rewrite (H x Hx) in Hf. done.
Qed.

Lemma forallb_elem_of {A} (f : A → bool) (l : list A) :
  forallb f l = true ↔ ∀ x, x ∈ l → f x = true.
Proof.
  rewrite forallb_forall. split; intros H x Hx; apply H;
    by apply list_elem_of_In.
Qed.

(** [find] as a search that returns the first match. *)
Lemma find_Some_elem_of {A} (f : A → bool) (l : list A) x :
  List.find f l = Some x → x ∈ l ∧ f x = true.
Proof. intros [Hx Hf]%find_some. split; [by apply list_elem_of_In|done]. Qed.

Lemma find_None_elem_of {A} (f : A → bool) (l : list A) :
  List.find f l = None ↔ ∀ x, x ∈ l → f x = false.
Proof.
  split.
  - intros H x Hx. apply (find_none f l H). by apply list_elem_of_In.
  - induction l as [|y l IH]; simpl; [done|]; intros H.
    rewrite (H y) by constructor. apply IH. intros x Hx. apply H. by constructor.
Qed.

(** A list without hits: a filter keeps nothing of it, a search goes past it. *)
Lemma filter_no_hit {A} (f : A → bool) (l : list A) :
  (∀ x, x ∈ l → f x = false) → List.filter f l = [].
Proof.
  induction l as [|a l IH]; intros H; simpl; [done|]. rewrite (H a) by constructor.
  apply IH. intros x Hx. apply H. by constructor.
Qed.
Lemma find_skip {A} (f : A → bool) (l k : list A) :
  (∀ x, x ∈ l → f x = false) → List.find f (l ++ k) = List.find f k.
Proof.
  induction l as [|a l IH]; intros H; simpl; [done|]. rewrite (H a) by constructor.
  apply IH. intros x Hx. apply H. by constructor.
Qed.

(** A search whose matches are unique does not depend on the order of the
    list: the fact behind every [for ... range] over a Go map that returns at
    the first hit. *)
Lemma find_Permutation_unique {A} (f : A → bool) (l1 l2 : list A) :
  l1 ≡ₚ l2 →
  (∀ x y, x ∈ l1 → y ∈ l1 → f x = true → f y = true → x = y) →
  List.find f l1 = List.find f l2.
Proof.
  intros Hperm Huniq.
  destruct (List.find f l1) as [x|] eqn:H1, (List.find f l2) as [y|] eqn:H2.
  - apply find_Some_elem_of in H1 as [??], H2 as [Hy ?].
    f_equal. apply Huniq; auto. by rewrite Hperm.
  - apply find_Some_elem_of in H1 as [Hx Hf].
    rewrite Hperm in Hx. by rewrite (proj1 (find_None_elem_of f l2) H2 x Hx) in Hf.
  - rename y into x. apply find_Some_elem_of in H2 as [Hx Hf].
    rewrite <-Hperm in Hx. by rewrite (proj1 (find_None_elem_of f l1) H1 x Hx) in Hf.
  - done.
Qed.

(** ** Machine integers *)

Definition int32_min : Z := - 2 ^ 31.
Definition int32_max : Z := 2 ^ 31 - 1.
Definition int64_min : Z := - 2 ^ 63.
Definition int64_max : Z := 2 ^ 63 - 1.

Definition in_int32 (z : Z) : Prop := (int32_min ≤ z ≤ int32_max)%Z.
Definition in_int64 (z : Z) : Prop := (int64_min ≤ z ≤ int64_max)%Z.

#[export] Instance in_int32_dec z : Decision (in_int32 z).
Proof. unfold in_int32. apply _. Defined.
#[export] Instance in_int64_dec z : Decision (in_int64 z).
Proof. unfold in_int64. apply _. Defined.

(** The two's-complement wrap-around of Go's [int64] arithmetic. *)
Definition wrap64 (z : Z) : Z := ((z + 2 ^ 63) mod 2 ^ 64 - 2 ^ 63)%Z.

Lemma wrap64_id z : in_int64 z → wrap64 z = z.
Proof.
  unfold in_int64, int64_min, int64_max, wrap64. intros ?.
  rewrite Z.mod_small by lia. lia.
Qed.

Lemma wrap64_range z : in_int64 (wrap64 z).
Proof.
  unfold in_int64, int64_min, int64_max, wrap64.
  pose proof (Z.mod_pos_bound (z + 2 ^ 63) (2 ^ 64)). lia.
Qed.

(** ** Hint databases *)

(** [go_str]: rewriting with the laws of the string functions of [GoStd]. *)
Create Rewrite HintDb go_str.
(** [calls]: which external calls a program makes (see [Effects]). *)
Create HintDb calls.
