(* ===== verification/GoStd.v ===== *)
(** * The Go standard library functions the operator uses

    Packages [strings], [strconv], [slices] and [time], each function on the
    fragment the sources use: strings are byte strings, upper/lower case is
    the ASCII one (the program only lower-cases the ASCII kind names written
    in its own text). *)
From S2P Require Import Prelude.

#[local] Arguments String.append !_ _ /.

(** ** Package strings *)

(** [strings.HasPrefix(s, p)]. *)
Fixpoint HasPrefix (s p : string) : bool :=
  match p, s with
  | EmptyString, _ => true
  | String a p, String b s => bool_decide (a = b) && HasPrefix s p
  | String _ _, EmptyString => false
  end.

(** [s[n:]] for [n <= len(s)]. *)
Fixpoint str_drop (n : nat) (s : string) : string :=
  match n, s with
  | S n, String _ s => str_drop n s
  | _, _ => s
  end.

(** [s[:n]] for [n <= len(s)]. *)
Fixpoint str_take (n : nat) (s : string) : string :=
  match n, s with
  | S n, String a s => String a (str_take n s)
  | _, _ => EmptyString
  end.

(** [strings.HasSuffix(s, p)]. *)
Definition HasSuffix (s p : string) : bool :=
  (String.length p <=? String.length s) &&
  (str_drop (String.length s - String.length p) s =s p).

(** [strings.TrimPrefix(s, p)]. *)
Definition TrimPrefix (s p : string) : string :=
  if HasPrefix s p then str_drop (String.length p) s else s.

(** [strings.TrimSuffix(s, p)]. *)
Definition TrimSuffix (s p : string) : string :=
  if HasSuffix s p then str_take (String.length s - String.length p) s else s.

(** [strings.Contains(s, sub)]. *)
Fixpoint Contains (s sub : string) : bool :=
  HasPrefix s sub ||
  match s with
  | EmptyString => false
  | String _ s => Contains s sub
  end.

(** [strings.TrimRight(s, cutset)] for a cutset of one byte. *)
Fixpoint TrimRight (s : string) (cut : ascii) : string :=
  match s with
  | EmptyString => EmptyString
  | String a s =>
      match TrimRight s cut with
      | EmptyString => if bool_decide (a = cut) then EmptyString else String a EmptyString
      | t => String a t
      end
  end.

Definition ascii_lower (a : ascii) : ascii :=
  let n := N_of_ascii a in
  if bool_decide (65 ≤ n ≤ 90)%N then ascii_of_N (n + 32) else a.

(** [strings.ToLower(s)]. *)
Fixpoint ToLower (s : string) : string :=
  match s with
  | EmptyString => EmptyString
  | String a s => String (ascii_lower a) (ToLower s)
  end.

(** [strings.Join(l, sep)]. *)
Fixpoint Join (l : list string) (sep : string) : string :=
  match l with
  | [] => ""
  | [s] => s
  | s :: l => s +:+ sep +:+ Join l sep
  end.

(** ** Package strconv *)

Definition digit_val (a : ascii) : option Z :=
  let n := N_of_ascii a in
  if bool_decide (48 ≤ n ≤ 57)%N then Some (Z.of_N n - 48)%Z else None.

Fixpoint parse_digits (acc : Z) (s : string) : option Z :=
  match s with
  | EmptyString => Some acc
  | String a s => d ← digit_val a; parse_digits (10 * acc + d)%Z s
  end.

(** An unsigned decimal number: at least one digit. *)
Definition parse_uint (s : string) : option Z :=
  match s with EmptyString => None | _ => parse_digits 0 s end.

(** [strconv.Atoi(s)] on a 64-bit platform: an optional sign and decimal
    digits; [None] is the returned error (syntax or range). *)
Definition Atoi (s : string) : option Z :=
  v ← match s with
      | String "+" s => parse_uint s
      | String "-" s => Z.opp <$> parse_uint s
      | _ => parse_uint s
      end;
  if bool_decide (in_int64 v) then Some v else None.

(** [strconv.FormatInt(n, 10)] and [%d]. *)
Definition FormatInt (n : Z) : string := pretty n.

(** [%q] of an ASCII string. *)
Definition hex_digit (n : N) : ascii :=
  if bool_decide (n < 10)%N then ascii_of_N (48 + n) else ascii_of_N (87 + n).

Definition quote_byte (a : ascii) : string :=
  let n := N_of_ascii a in
  if bool_decide (n = 34)%N then String "\" (String a "")
  else if bool_decide (n = 92)%N then "\\"
  else if bool_decide (n = 7)%N then "\a" else if bool_decide (n = 8)%N then "\b"
  else if bool_decide (n = 12)%N then "\f" else if bool_decide (n = 10)%N then "\n"
  else if bool_decide (n = 13)%N then "\r" else if bool_decide (n = 9)%N then "\t"
  else if bool_decide (n = 11)%N then "\v"
  else if bool_decide (32 ≤ n < 127)%N then String a ""
  else "\x" +:+ String (hex_digit (n `div` 16)) (String (hex_digit (n `mod` 16)) "").

Fixpoint quote_bytes (s : string) : string :=
  match s with
  | EmptyString => ""
  | String a s => quote_byte a +:+ quote_bytes s
  end.

(** The double-quote character, and a string between two of them. *)
Definition dquote : string := String (ascii_of_N 34) "".
Definition Quote (s : string) : string := dquote +:+ quote_bytes s +:+ dquote.

(** ** Package slices *)

(** [slices.Contains(l, x)]. *)
Definition slices_Contains (l : list string) (x : string) : bool :=
  bool_decide (x ∈ l).

(** [slices.Sort(l)] on strings: the byte-wise order of Go's [<]. *)
Definition slices_Sort (l : list string) : list string := merge_sort String.le l.

(** ** Package time *)

(** A [time.Duration] is an [int64] count of nanoseconds. *)
Definition Nanosecond : Z := 1.
Definition Second : Z := 1000000000.
Definition Minute : Z := 60 * Second.
Definition Hour : Z := 60 * Minute.

(** [time.Duration(n) * time.Second]: an [int64] product. *)
Definition seconds (n : Z) : Z := wrap64 (n * Second).

(** [Duration.String()]: hours, minutes and seconds, or a smaller unit below one
    second; [fmtFrac] prints the last [prec] digits of [v] as a fraction without
    trailing zeros. *)
Fixpoint fmtFrac (prec : nat) (v : Z) (print : bool) (acc : string) : string * Z :=
  match prec with
  | 0 => (if print then "." +:+ acc else acc, v)
  | S prec =>
      let digit := (v mod 10)%Z in
      let print := print || negb (digit =? 0)%Z in
      fmtFrac prec (v / 10) print (if print then FormatInt digit +:+ acc else acc)
  end.

Definition Duration_String (d : Z) : string :=
  let u := Z.abs d in
  let unit prec suffix := let '(frac, v) := fmtFrac prec u false "" in FormatInt v +:+ frac +:+ suffix in
  let text :=
    if (u =? 0)%Z then "0s"
    else if (u <? 1000)%Z then unit 0 "ns"
    else if (u <? 1000000)%Z then unit 3 "µs"
    else if (u <? Second)%Z then unit 6 "ms"
    else
      let '(frac, v) := fmtFrac 9 u false "" in
      let text := FormatInt (v mod 60) +:+ frac +:+ "s" in
      let minutes := (v / 60)%Z in
      if (0 <? minutes)%Z then
        let text := FormatInt (minutes mod 60) +:+ "m" +:+ text in
        let hours := (minutes / 60)%Z in
        if (0 <? hours)%Z then FormatInt hours +:+ "h" +:+ text else text
      else text in
  if (d <? 0)%Z then "-" +:+ text else text.

Example Duration_String_examples :
  map Duration_String [2 * Minute; 1500 * 1000000; 1500; 999; 25 * Hour + Second; - Second]%Z =
  ["2m0s"; "1.5s"; "1.5µs"; "999ns"; "25h0m1s"; "-1s"].
Proof. vm_compute. reflexivity. Qed.

(** ** Laws of the string functions *)

Lemma HasPrefix_app s t : HasPrefix (s +:+ t) s = true.
Proof. induction s; simpl; [by destruct t|]. by rewrite bool_decide_true. Qed.

Lemma HasPrefix_spec s p : HasPrefix s p = true ↔ ∃ t, s = p +:+ t.
Proof.
  split; [|intros [t ->]; apply HasPrefix_app].
  revert s. induction p as [|a p IH]; intros s H; [by exists s|].
  destruct s as [|b s]; simpl in H; [done|]. bsplit; subst.
  destruct (IH s) as [t ->]; [done|]. by exists t.
Qed.

Lemma str_drop_app s t : str_drop (String.length s) (s +:+ t) = t.
Proof. induction s; simpl; [by destruct t|done]. Qed.

Lemma str_take_app s t : str_take (String.length s) (s +:+ t) = s.
Proof. induction s; simpl; [by destruct t|by f_equal]. Qed.

Lemma str_length_app s t : String.length (s +:+ t) = String.length s + String.length t.
Proof. induction s; simpl; congruence. Qed.

Lemma str_app_nil_r s : s +:+ "" = s.
Proof. induction s as [|a s IH]; [done|]. change (String a (s +:+ "") = String a s). by rewrite IH. Qed.

Lemma str_app_assoc s t u : (s +:+ t) +:+ u = s +:+ (t +:+ u).
Proof. induction s as [|a s IH]; [done|]. change (String a ((s +:+ t) +:+ u) = String a (s +:+ (t +:+ u))). by rewrite IH. Qed.

Lemma HasSuffix_app s t : HasSuffix (s +:+ t) t = true.
Proof.
  unfold HasSuffix. rewrite str_length_app, Nat.add_sub, str_drop_app.
  bsplit; [|done]. apply Nat.leb_le. lia.
Qed.

Lemma TrimPrefix_app s t : TrimPrefix (s +:+ t) s = t.
Proof. unfold TrimPrefix. by rewrite HasPrefix_app, str_drop_app. Qed.

Lemma TrimSuffix_app s t : TrimSuffix (s +:+ t) t = s.
Proof.
  unfold TrimSuffix. by rewrite HasSuffix_app, str_length_app, Nat.add_sub, str_take_app.
Qed.

#[export] Hint Rewrite HasPrefix_app HasSuffix_app TrimPrefix_app TrimSuffix_app
  str_drop_app str_take_app str_app_nil_r : go_str.

Lemma Contains_unfold s sub :
  Contains s sub = HasPrefix s sub || match s with "" => false | String _ s => Contains s sub end.
Proof. by destruct s. Qed.

Lemma Contains_spec s sub : Contains s sub = true ↔ ∃ p t, s = p +:+ sub +:+ t.
Proof.
  split.
  - induction s as [|a s IH]; rewrite Contains_unfold, orb_true_iff; intros [H|H]; try done.
    + apply HasPrefix_spec in H as [t ->]. by exists "", t.
    + apply HasPrefix_spec in H as [t ->]. by exists "", t.
    + destruct (IH H) as (p & t & ->). by exists (String a p), t.
  - intros (p & t & ->). induction p as [|a p IH]; rewrite Contains_unfold.
    + simpl. by rewrite HasPrefix_app.
    + simpl. rewrite IH. apply orb_true_r.
Qed.

(** Trimming a byte that ends the string once, after a text without it. *)
Fixpoint str_all (P : ascii → bool) (s : string) : bool :=
  match s with
  | EmptyString => true
  | String a s => P a && str_all P s
  end.

Definition is_digit (a : ascii) : bool := bool_decide (is_Some (digit_val a)).

Lemma str_all_app P s t : str_all P (s +:+ t) = str_all P s && str_all P t.
Proof. induction s; simpl; [done|]. rewrite IHs. apply andb_assoc. Qed.

Lemma TrimRight_none s c :
  str_all (λ a, negb (bool_decide (a = c))) s = true → TrimRight s c = s.
Proof.
  induction s as [|a s IH]; simpl; [done|]. intros H. bsplit.
  rewrite IH by done. destruct s; [|done]. by rewrite bool_decide_false.
Qed.

Lemma TrimRight_snoc s c :
  str_all (λ a, negb (bool_decide (a = c))) s = true →
  TrimRight (s +:+ String c "") c = s.
Proof.
  induction s as [|a s IH]; [intros _|].
  - simpl. by rewrite bool_decide_true.
  - intros H. change (TrimRight (String a (s +:+ String c "")) c = String a s).
    simpl in *. bsplit. rewrite IH by done. destruct s; [|done].
    by rewrite bool_decide_false.
Qed.

(** ** Decimal round trip: [strconv.Atoi] inverts [%d] *)

Lemma digit_val_pretty x :
  (x < 10)%N → digit_val (pretty_N_char x) = Some (Z.of_N x).
Proof.
  intros H.
  assert (x = 0 ∨ x = 1 ∨ x = 2 ∨ x = 3 ∨ x = 4 ∨ x = 5 ∨ x = 6 ∨ x = 7 ∨ x = 8
    ∨ x = 9)%N as Hx by lia.
  repeat (destruct Hx as [->|Hx]; [done|]). by subst.
Qed.

Lemma parse_digits_pretty_go acc x s :
  (0 < x)%N →
  ∃ k, (0 ≤ k)%Z ∧
    parse_digits acc (pretty_N_go x s) = parse_digits (10 ^ k * acc + Z.of_N x) s.
Proof.
  revert acc s. induction (N.lt_wf_0 x) as [x _ IH]; intros acc s Hx.
  rewrite pretty_N_go_step by done.
  pose proof (N.div_mod x 10 ltac:(done)) as Hdm.
  pose proof (N.mod_lt x 10 ltac:(done)) as Hm.
  set (q := (x `div` 10)%N) in *. set (r := (x `mod` 10)%N) in *.
  assert (q = 0 ∨ 0 < q)%N as [H0|H0] by lia.
  - rewrite H0, pretty_N_go_0. exists 1%Z. split; [lia|]. simpl.
    rewrite digit_val_pretty by done. simpl. f_equal; lia.
  - destruct (IH q ltac:(lia) acc (String (pretty_N_char r) s) H0) as (k & Hk & ->).
    exists (k + 1)%Z. split; [lia|]. simpl.
    rewrite digit_val_pretty by done. simpl. f_equal.
    rewrite Z.pow_add_r by lia. lia.
Qed.

Lemma pretty_go_all_digits x s :
  str_all is_digit s = true → str_all is_digit (pretty_N_go x s) = true.
Proof.
  revert s. induction (N.lt_wf_0 x) as [x _ IH]; intros s Hs.
  assert (x = 0 ∨ 0 < x)%N as [->|Hx] by lia; [by rewrite pretty_N_go_0|].
  rewrite pretty_N_go_step by done. apply IH; [by apply N.div_lt|]. simpl.
  rewrite Hs, andb_true_r. unfold is_digit.
  rewrite digit_val_pretty by (apply N.mod_lt; done). done.
Qed.

(** The text of a natural number: nonempty, all digits. *)
Lemma FormatInt_digits n : (0 ≤ n)%Z →
  str_all is_digit (FormatInt n) = true ∧ FormatInt n ≠ "".
Proof.
  intros Hn. destruct n as [|p|p]; [done| |lia].
  unfold FormatInt, pretty, pretty_Z, pretty, pretty_positive, pretty, pretty_N.
  rewrite decide_False by done. split; [by apply pretty_go_all_digits|].
  intros H. destruct (parse_digits_pretty_go 0 (N.pos p) "") as (k & _ & E); [done|].
  rewrite H in E. injection E as E. lia.
Qed.

Lemma parse_digits_FormatInt n : (0 ≤ n)%Z → parse_digits 0 (FormatInt n) = Some n.
Proof.
  intros Hn. destruct n as [|p|p]; [done| |lia].
  unfold FormatInt, pretty, pretty_Z, pretty, pretty_positive, pretty, pretty_N.
  rewrite decide_False by done.
  destruct (parse_digits_pretty_go 0 (N.pos p) "") as (k & _ & ->); [done|].
  simpl. f_equal. lia.
Qed.

Lemma Atoi_FormatInt n : (0 ≤ n)%Z → in_int64 n → Atoi (FormatInt n) = Some n.
Proof.
  intros Hn Hr. destruct (FormatInt_digits n Hn) as [Hd Hne].
  pose proof (parse_digits_FormatInt n Hn) as Hp.
  destruct (FormatInt n) as [|a s] eqn:E; [done|].
  simpl in Hd. bsplit. unfold is_digit in *. bsplit.
  assert (parse_uint (String a s) = Some n) as Hu by done.
  unfold Atoi.
  assert (Hna : (match String a s with
      | String "+" s => parse_uint s
      | String "-" s => Z.opp <$> parse_uint s
      | _ => parse_uint (String a s) end) = parse_uint (String a s)).
  { destruct a as [[][][][][][][][]]; try done; by destruct H as [? [=]]. }
  rewrite Hna, Hu. simpl. by rewrite bool_decide_true.
Qed.

(** ** Sorting *)

Lemma slices_Sort_Permutation l : slices_Sort l ≡ₚ l.
Proof. apply merge_sort_Permutation. Qed.

Lemma slices_Sort_Sorted l : StronglySorted String.le (slices_Sort l).
Proof. apply StronglySorted_merge_sort; apply _. Qed.

(** ** Durations *)

Lemma seconds_exact n : in_int32 n → seconds n = (n * Second)%Z.
Proof.
  unfold seconds, in_int32, int32_min, int32_max, Second. intros ?.
  apply wrap64_id. unfold in_int64, int64_min, int64_max. lia.
Qed.

Example Atoi_plus : Atoi "36+" = None. Proof. reflexivity. Qed.
Example Atoi_36 : Atoi (TrimRight "36+" "+") = Some 36%Z. Proof. reflexivity. Qed.
Example ToLower_issuer : ToLower "Issuer" = "issuer". Proof. reflexivity. Qed.
Example Contains_kueue : Contains "xxkueue-operator" "kueue" = true. Proof. reflexivity. Qed.
