(* ===== verification/K8s.v ===== *)
(** * Kubernetes building blocks: errors, metadata, label selectors, JSON

    The parts of [k8s.io/apimachinery] and of library-go's [resourcemerge]
    that every component of the operator relies on: API errors and their
    classification, [metav1.ObjectMeta] with the merge that an update applies
    to it, label selectors with their matching, and untyped
    ([unstructured]) objects as JSON trees. *)
From S2P Require Import Prelude GoStd.

(** ** Errors *)

(** The errors the program creates or inspects: a [metav1.Status] returned by
    the API server, [errors.New]/[fmt.Errorf] without [%w],
    [fmt.Errorf("<prefix>%w", err)], [utilerrors.NewAggregate], and
    [context.Canceled]/[context.DeadlineExceeded]. *)
Inductive error : Type :=
  | StatusError (reason : string) (code : Z) (message : string)
  | ErrorString (message : string)
  | WrapError (prefix : string) (inner : error)
  | Aggregate (errs : list error)
  | ContextError (message : string).

(** [sets.NewString] deduplication of the messages of an aggregate. *)
Fixpoint dedup_strings (seen l : list string) : list string :=
  match l with
  | [] => []
  | s :: l =>
      if bool_decide (s ∈ seen) then dedup_strings seen l
      else s :: dedup_strings (s :: seen) l
  end.

(** The text of an error and, for an aggregate, the messages its [visit]
    yields. *)
Fixpoint Error_visit (e : error) : string * list string :=
  match e with
  | StatusError _ _ m => (m, [m])
  | ErrorString m => (m, [m])
  | WrapError p e => let m := p +:+ fst (Error_visit e) in (m, [m])
  | ContextError m => (m, [m])
  | Aggregate es =>
      let rs := map Error_visit es in
      let ms := concat (map snd rs) in
      let text :=
        match rs with
        | [] => ""
        | [(m, _)] => m
        | _ => match dedup_strings [] ms with
               | [m] => m
               | ds => "[" +:+ Join ds ", " +:+ "]"
               end
        end in
      (text, ms)
  end.

(** [err.Error()]. *)
Definition Error (e : error) : string := fst (Error_visit e).

(** [utilerror.NewAggregate] of a list without nil errors: nil when empty. *)
Definition NewAggregate (errs : list error) : option error :=
  match errs with [] => None | _ => Some (Aggregate errs) end.

Definition StatusReasonUnknown : string := "".
Definition StatusReasonNotFound : string := "NotFound".
Definition StatusReasonConflict : string := "Conflict".
Definition StatusReasonTooManyRequests : string := "TooManyRequests".

(** The keys of [knownReasons] (k8s.io/apimachinery/pkg/api/errors). *)
Definition knownReasons : list string :=
  ["Unauthorized"; "Forbidden"; "NotFound"; "AlreadyExists"; "Conflict"; "Gone";
   "Invalid"; "ServerTimeout"; "StoreReadError"; "Timeout"; "TooManyRequests";
   "BadRequest"; "MethodNotAllowed"; "NotAcceptable"; "RequestEntityTooLarge";
   "UnsupportedMediaType"; "InternalError"; "Expired"; "ServiceUnavailable"].

(** [reasonAndCodeForError]: [errors.As] looks through [%w] but not into an
    aggregate. *)
Fixpoint reasonAndCodeForError (e : error) : string * Z :=
  match e with
  | StatusError r c _ => (r, c)
  | WrapError _ e => reasonAndCodeForError e
  | _ => (StatusReasonUnknown, 0%Z)
  end.

Definition reason_or_code (r : string) (code : Z) (e : error) : bool :=
  let '(reason, c) := reasonAndCodeForError e in
  (reason =s r) || (negb (bool_decide (reason ∈ knownReasons)) && (c =? code)%Z).

Definition IsNotFound (e : error) : bool := reason_or_code StatusReasonNotFound 404 e.
Definition IsConflict (e : error) : bool := reason_or_code StatusReasonConflict 409 e.
Definition IsTooManyRequests (e : error) : bool :=
  let '(reason, c) := reasonAndCodeForError e in
  (reason =s StatusReasonTooManyRequests) || (c =? 429)%Z.

(** [errors.Is(err, context.Canceled) || errors.Is(err, context.DeadlineExceeded)]. *)
Fixpoint is_context_error (e : error) : bool :=
  match e with
  | ContextError _ => true
  | WrapError _ e => is_context_error e
  | Aggregate es => existsb is_context_error es
  | _ => false
  end.

(** Wrapping an error with [%w] keeps its classification. *)
Lemma IsNotFound_wrap p e : IsNotFound (WrapError p e) = IsNotFound e.
Proof. done. Qed.
Lemma IsNotFound_aggregate es : IsNotFound (Aggregate es) = false.
Proof. reflexivity. Qed.

(** ** Outcomes: a value, an error, or a panic *)

(** A Go call that can fail returns [Ok a] ([err == nil]), [Err e]
    ([err != nil]), or does not return: [Panic]. *)
Inductive res (A : Type) : Type :=
  | Ok (a : A)
  | Err (e : error)
  | Panic (msg : string).
Arguments Ok {A} a.
Arguments Err {A} e.
Arguments Panic {A} msg.

Definition res_bind {A B} (m : res A) (f : A → res B) : res B :=
  match m with Ok a => f a | Err e => Err e | Panic p => Panic p end.

Notation "'rlet' x := m 'in' k" := (res_bind m (λ x, k))
  (at level 10, x pattern, k at level 200) : kueue_scope.

Lemma res_bind_Ok {A B} (m : res A) (f : A → res B) b :
  res_bind m f = Ok b ↔ ∃ a, m = Ok a ∧ f a = Ok b.
Proof. destruct m; naive_solver. Qed.

(** A loop over a slice that returns at the first error. *)
Fixpoint res_map {A B} (f : A → res B) (l : list A) : res (list B) :=
  match l with
  | [] => Ok []
  | a :: l => rlet b := f a in rlet bs := res_map f l in Ok (b :: bs)
  end.

Lemma res_map_Ok {A B} (f : A → res B) l bs :
  res_map f l = Ok bs ↔ Forall2 (λ a b, f a = Ok b) l bs.
Proof.
  revert bs. induction l as [|a l IH]; intros bs; simpl.
  - split; [intros [= <-]; constructor|intros H; inversion H; done].
  - rewrite res_bind_Ok. setoid_rewrite res_bind_Ok. setoid_rewrite IH. split.
    + intros (b & Hb & bs' & H & [= <-]). by constructor.
    + intros H. inversion H; subst. eauto 6.
Qed.

(** ** Untyped objects *)

(** The values an [unstructured.Unstructured] holds. Objects are association
    lists; the first entry of a key is the one read. *)
Inductive json : Type :=
  | JNull
  | JBool (b : bool)
  | JNum (n : Z)
  | JStr (s : string)
  | JArr (l : list json)
  | JObj (m : list (string * json)).

#[export] Instance json_eq_dec : EqDecision json.
Proof.
  refine (fix go (x y : json) : Decision (x = y) :=
    match x, y with
    | JNull, JNull => left eq_refl
    | JBool a, JBool b => cast_if (decide (a = b))
    | JNum a, JNum b => cast_if (decide (a = b))
    | JStr a, JStr b => cast_if (decide (a = b))
    | JArr l, JArr k =>
        let _ : EqDecision json := go in cast_if (decide (l = k))
    | JObj l, JObj k =>
        let _ : EqDecision json := go in cast_if (decide (l = k))
    | _, _ => right _
    end); congruence.
Defined.

(** [m[k]] of a [map[string]interface{}]. *)
Fixpoint jlookup (k : string) (m : list (string * json)) : option json :=
  match m with
  | [] => None
  | (k', v) :: m => if k =s k' then Some v else jlookup k m
  end.

(** The results [(value, found, err)] of the [unstructured.Nested*] helpers. *)
Inductive nested (A : Type) : Type :=
  | Found (a : A)
  | NotFound
  | NestedErr.
Arguments Found {A} a.
Arguments NotFound {A}.
Arguments NestedErr {A}.

(** [unstructured.NestedFieldNoCopy]. *)
Fixpoint NestedFieldNoCopy (val : json) (fields : list string) : nested json :=
  match fields with
  | [] => Found val
  | f :: fields =>
      match val with
      | JNull => NotFound
      | JObj m => match jlookup f m with
                  | Some v => NestedFieldNoCopy v fields
                  | None => NotFound
                  end
      | _ => NestedErr
      end
  end.

(** [unstructured.NestedString], [NestedSlice] and [NestedMap]. *)
Definition NestedString (obj : json) (fields : list string) : nested string :=
  match NestedFieldNoCopy obj fields with
  | Found (JStr s) => Found s
  | Found _ => NestedErr
  | NotFound => NotFound
  | NestedErr => NestedErr
  end.

Definition NestedSlice (obj : json) (fields : list string) : nested (list json) :=
  match NestedFieldNoCopy obj fields with
  | Found (JArr l) => Found l
  | Found _ => NestedErr
  | NotFound => NotFound
  | NestedErr => NestedErr
  end.

Definition NestedMap (obj : json) (fields : list string) : nested (list (string * json)) :=
  match NestedFieldNoCopy obj fields with
  | Found (JObj m) => Found m
  | Found _ => NestedErr
  | NotFound => NotFound
  | NestedErr => NestedErr
  end.

(** The value of [s, _, _ := NestedString(...)]: empty unless found. *)
Definition nested_or_empty (n : nested string) : string :=
  match n with Found s => s | _ => "" end.

(** [GetNamespace] and [GetName] of an unstructured object. *)
Definition json_Namespace (j : json) : string :=
  nested_or_empty (NestedString j ["metadata"; "namespace"]).
Definition json_Name (j : json) : string :=
  nested_or_empty (NestedString j ["metadata"; "name"]).

(** ** Object metadata *)

(** [metav1.OwnerReference]. *)
Record OwnerReference := {
  or_APIVersion : string;
  or_Kind : string;
  or_Name : string;
  or_UID : string;
  or_Controller : option bool;
  or_BlockOwnerDeletion : option bool;
}.
#[export] Instance OwnerReference_eq_dec : EqDecision OwnerReference.
Proof. solve_decision. Defined.

(** [metav1.ObjectMeta]: the fields the operator reads or writes. A map field
    is [None] when the Go map is nil. *)
Record ObjectMeta := {
  om_Name : string;
  om_Namespace : string;
  om_UID : string;
  om_ResourceVersion : string;
  om_Generation : Z;
  om_DeletionTimestamp : option string;
  om_Labels : option (gmap string string);
  om_Annotations : option (gmap string string);
  om_OwnerReferences : list OwnerReference;
  om_Finalizers : list string;
}.
#[export] Instance ObjectMeta_eq_dec : EqDecision ObjectMeta.
Proof. solve_decision. Defined.

(** An object's metadata with just a name and a namespace. *)
Definition meta_named (ns name : string) : ObjectMeta := {|
  om_Name := name; om_Namespace := ns; om_UID := ""; om_ResourceVersion := "";
  om_Generation := 0; om_DeletionTimestamp := None; om_Labels := None;
  om_Annotations := None; om_OwnerReferences := []; om_Finalizers := [] |}.

Definition meta_set_Name (n : string) (m : ObjectMeta) : ObjectMeta := {|
  om_Name := n; om_Namespace := om_Namespace m; om_UID := om_UID m;
  om_ResourceVersion := om_ResourceVersion m; om_Generation := om_Generation m;
  om_DeletionTimestamp := om_DeletionTimestamp m; om_Labels := om_Labels m;
  om_Annotations := om_Annotations m; om_OwnerReferences := om_OwnerReferences m;
  om_Finalizers := om_Finalizers m |}.
Definition meta_set_Namespace (ns : string) (m : ObjectMeta) : ObjectMeta := {|
  om_Name := om_Name m; om_Namespace := ns; om_UID := om_UID m;
  om_ResourceVersion := om_ResourceVersion m; om_Generation := om_Generation m;
  om_DeletionTimestamp := om_DeletionTimestamp m; om_Labels := om_Labels m;
  om_Annotations := om_Annotations m; om_OwnerReferences := om_OwnerReferences m;
  om_Finalizers := om_Finalizers m |}.
Definition meta_set_ResourceVersion (v : string) (m : ObjectMeta) : ObjectMeta := {|
  om_Name := om_Name m; om_Namespace := om_Namespace m; om_UID := om_UID m;
  om_ResourceVersion := v; om_Generation := om_Generation m;
  om_DeletionTimestamp := om_DeletionTimestamp m; om_Labels := om_Labels m;
  om_Annotations := om_Annotations m; om_OwnerReferences := om_OwnerReferences m;
  om_Finalizers := om_Finalizers m |}.
Definition meta_set_Labels (l : option (gmap string string)) (m : ObjectMeta) : ObjectMeta := {|
  om_Name := om_Name m; om_Namespace := om_Namespace m; om_UID := om_UID m;
  om_ResourceVersion := om_ResourceVersion m; om_Generation := om_Generation m;
  om_DeletionTimestamp := om_DeletionTimestamp m; om_Labels := l;
  om_Annotations := om_Annotations m; om_OwnerReferences := om_OwnerReferences m;
  om_Finalizers := om_Finalizers m |}.
Definition meta_set_Annotations (a : option (gmap string string)) (m : ObjectMeta) : ObjectMeta := {|
  om_Name := om_Name m; om_Namespace := om_Namespace m; om_UID := om_UID m;
  om_ResourceVersion := om_ResourceVersion m; om_Generation := om_Generation m;
  om_DeletionTimestamp := om_DeletionTimestamp m; om_Labels := om_Labels m;
  om_Annotations := a; om_OwnerReferences := om_OwnerReferences m;
  om_Finalizers := om_Finalizers m |}.
Definition meta_set_OwnerReferences (o : list OwnerReference) (m : ObjectMeta) : ObjectMeta := {|
  om_Name := om_Name m; om_Namespace := om_Namespace m; om_UID := om_UID m;
  om_ResourceVersion := om_ResourceVersion m; om_Generation := om_Generation m;
  om_DeletionTimestamp := om_DeletionTimestamp m; om_Labels := om_Labels m;
  om_Annotations := om_Annotations m; om_OwnerReferences := o;
  om_Finalizers := om_Finalizers m |}.
Definition meta_set_Finalizers (f : list string) (m : ObjectMeta) : ObjectMeta := {|
  om_Name := om_Name m; om_Namespace := om_Namespace m; om_UID := om_UID m;
  om_ResourceVersion := om_ResourceVersion m; om_Generation := om_Generation m;
  om_DeletionTimestamp := om_DeletionTimestamp m; om_Labels := om_Labels m;
  om_Annotations := om_Annotations m; om_OwnerReferences := om_OwnerReferences m;
  om_Finalizers := f |}.

(** ** [controller.EnsureOwnerRef] (library-go) *)

Definition same_owner (a b : OwnerReference) : bool :=
  (or_APIVersion a =s or_APIVersion b) && (or_Kind a =s or_Kind b) &&
  (or_Name a =s or_Name b).

(** The loop stops at the first owner with the same API version, kind and
    name: nothing to do when it is equal, otherwise the list is rebuilt with
    the new reference in front. *)
Definition EnsureOwnerRef (new : OwnerReference) (refs : list OwnerReference)
    : list OwnerReference * bool :=
  match List.find (λ e, same_owner e new) refs with
  | Some e =>
      if decide (e = new) then (refs, false)
      else (new :: List.filter (λ e, negb (same_owner e new)) refs, true)
  | None => (refs ++ [new], true)
  end.

Lemma EnsureOwnerRef_present o : EnsureOwnerRef o [o] = ([o], false).
Proof.
  unfold EnsureOwnerRef, same_owner. simpl. rewrite !bool_decide_true by done.
  simpl. by rewrite decide_True.
Qed.

(** ** [resourcemerge] (library-go) *)

(** [SetStringIfSet(modified, existing, required)]. *)
Definition SetStringIfSet (modified : bool) (existing required : string) : bool * string :=
  if required =s "" then (modified, existing)
  else if existing =s required then (modified, existing) else (true, required).

(** One iteration of [MergeMap]: a key ending in [-] removes the key without
    its trailing dashes. *)
Definition MergeMap_step (st : bool * gmap string string) (kv : string * string)
    : bool * gmap string string :=
  let '(modified, existing) := st in
  let '(k, v) := kv in
  if HasSuffix k "-" then
    let actualKey := TrimRight k "-" in
    match existing !! actualKey with
    | None => (modified, existing)
    | Some _ => (true, delete actualKey existing)
    end
  else
    match existing !! k with
    | Some v' => if v =s v' then (modified, existing) else (true, <[k := v]> existing)
    | None => (true, <[k := v]> existing)
    end.

(** [MergeMap]: ranges over [required] in an unspecified order; [order] is
    the sequence of entries the range visits. *)
Definition MergeMap_in_order (order : list (string * string)) (modified : bool)
    (existing : option (gmap string string)) : bool * gmap string string :=
  foldl MergeMap_step (modified, default ∅ existing) order.

Definition MergeMap (modified : bool) (existing required : option (gmap string string))
    : bool * gmap string string :=
  MergeMap_in_order (map_to_list (default ∅ required)) modified existing.

(** [schema.ParseGroupVersion]: the group of an [apiVersion], [None] on a
    parse error. *)
Fixpoint split_on (sep : ascii) (s cur : string) : list string :=
  match s with
  | EmptyString => [cur]
  | String a s =>
      if bool_decide (a = sep) then cur :: split_on sep s ""
      else split_on sep s (cur +:+ String a "")
  end.

Definition ParseGroupVersion_group (gv : string) : option string :=
  if (gv =s "") || (gv =s "/") then Some ""
  else match split_on "/" gv "" with
       | [_] => Some ""
       | [g; _] => Some g
       | _ => None
       end.

Definition ownerRefMatched (existing required : OwnerReference) : bool :=
  (or_Name existing =s or_Name required) && (or_Kind existing =s or_Kind required) &&
  match ParseGroupVersion_group (or_APIVersion existing),
        ParseGroupVersion_group (or_APIVersion required) with
  | Some g1, Some g2 => g1 =s g2
  | _, _ => false
  end.

Fixpoint find_index {A} (f : A → bool) (l : list A) : option nat :=
  match l with
  | [] => None
  | a :: l => if f a then Some 0 else S <$> find_index f l
  end.

Definition MergeOwnerRefs_step (st : bool * list OwnerReference) (o : OwnerReference)
    : bool * list OwnerReference :=
  let '(modified, existing) := st in
  let removeOwner := HasSuffix (or_UID o) "-" in
  match find_index (ownerRefMatched o) existing with
  | None => if removeOwner then (modified, existing) else (true, existing ++ [o])
  | Some i =>
      if removeOwner then (true, delete i existing)
      else if bool_decide (existing !! i = Some o) then (modified, existing)
      else (true, <[i := o]> existing)
  end.

Definition MergeOwnerRefs (modified : bool) (existing required : list OwnerReference)
    : bool * list OwnerReference :=
  foldl MergeOwnerRefs_step (modified, existing) required.

(** [EnsureObjectMeta(modified, existing, required)]. *)
Definition EnsureObjectMeta (modified : bool) (existing required : ObjectMeta)
    : bool * ObjectMeta :=
  let '(modified, ns) := SetStringIfSet modified (om_Namespace existing) (om_Namespace required) in
  let '(modified, name) := SetStringIfSet modified (om_Name existing) (om_Name required) in
  let '(modified, labels) := MergeMap modified (om_Labels existing) (om_Labels required) in
  let '(modified, annots) := MergeMap modified (om_Annotations existing) (om_Annotations required) in
  let '(modified, owners) :=
    MergeOwnerRefs modified (om_OwnerReferences existing) (om_OwnerReferences required) in
  (modified,
   meta_set_OwnerReferences owners (meta_set_Annotations (Some annots)
     (meta_set_Labels (Some labels) (meta_set_Name name (meta_set_Namespace ns existing))))).

(** [WithCleanLabelsAndAnnotations]: drops the entries that ask for a
    removal. *)
Definition cleanRemovalKeys (m : option (gmap string string)) : option (gmap string string) :=
  filter (λ kv, HasSuffix kv.1 "-" = false) <$> m.

Definition cleanRemovalOwnerRefs (l : list OwnerReference) : list OwnerReference :=
  List.filter (λ o, negb (HasSuffix (or_UID o) "-")) l.

Definition WithCleanLabelsAndAnnotations (m : ObjectMeta) : ObjectMeta :=
  meta_set_OwnerReferences (cleanRemovalOwnerRefs (om_OwnerReferences m))
    (meta_set_Labels (cleanRemovalKeys (om_Labels m))
       (meta_set_Annotations (cleanRemovalKeys (om_Annotations m)) m)).

(** *** Laws of the merge

    A required map is [plain] when it asks for no removal, which holds of
    every map the operator's manifests carry. *)
Definition plain_keys (m : gmap string string) : Prop :=
  ∀ k v, m !! k = Some v → HasSuffix k "-" = false.

#[export] Instance plain_keys_dec m : Decision (plain_keys m).
Proof.
  refine (cast_if (decide (map_Forall (λ k _, HasSuffix k "-" = false) m)));
    unfold plain_keys; naive_solver.
Defined.

Lemma MergeMap_step_plain b e k v :
  HasSuffix k "-" = false →
  MergeMap_step (b, e) (k, v) = (b || negb (bool_decide (e !! k = Some v)), <[k := v]> e).
Proof.
  intros Hk. simpl. rewrite Hk. destruct (e !! k) as [v'|] eqn:E.
  - destruct (decide (v = v')) as [->|Hne].
    + rewrite !bool_decide_true by done. rewrite insert_id by done. by rewrite orb_false_r.
    + rewrite !bool_decide_false by congruence. by rewrite orb_true_r.
  - rewrite bool_decide_false by done. by rewrite orb_true_r.
Qed.

Lemma MergeMap_in_order_plain order b e :
  NoDup order.*1 → (∀ k v, (k, v) ∈ order → HasSuffix k "-" = false) →
  MergeMap_in_order order b e =
    (b || existsb (λ kv, negb (bool_decide (default ∅ e !! kv.1 = Some kv.2))) order,
     list_to_map order ∪ default ∅ e).
Proof.
  unfold MergeMap_in_order. generalize (default ∅ e) as m. clear e.
  revert b. induction order as [|[k v] order IH]; intros b m Hnd Hp.
  - simpl. by rewrite orb_false_r, (left_id_L ∅ (∪)).
  - csimpl in Hnd. apply NoDup_cons in Hnd as [Hk Hnd].
    cbn [foldl]. rewrite MergeMap_step_plain by (eapply Hp; constructor).
    rewrite IH; [|done|intros k' v' ?; eapply Hp; by constructor].
    simpl. rewrite <-orb_assoc. f_equal.
    + f_equal. f_equal. clear IH Hp Hnd. induction order as [|[k' v'] order IH]; [done|].
      csimpl in *. apply not_elem_of_cons in Hk as [Hne Hk].
      rewrite lookup_insert_ne by done. by rewrite IH.
    + rewrite <-insert_union_r; [by rewrite insert_union_l|].
      by apply not_elem_of_list_to_map_1.
Qed.

(** The merge of a plain map is a left-biased union, whatever the order in
    which Go visits it, and it reports a modification exactly when the
    existing map lacks one of the required entries. *)
Lemma MergeMap_plain order b e r :
  plain_keys r → order ≡ₚ map_to_list r →
  MergeMap_in_order order b e = (b || negb (bool_decide (r ⊆ default ∅ e)), r ∪ default ∅ e).
Proof.
  intros Hp Hperm.
  assert (Hin : ∀ k v, (k, v) ∈ order ↔ r !! k = Some v).
  { intros k v. by rewrite Hperm, elem_of_map_to_list. }
  assert (Hnd : NoDup order.*1) by (rewrite Hperm; apply NoDup_fst_map_to_list).
  rewrite MergeMap_in_order_plain; [|done|intros k v H; apply Hin in H; eauto].
  f_equal.
  - f_equal. destruct (existsb _ order) eqn:E; symmetry.
    + apply existsb_elem_of in E as ([k v] & Hkv & H). simpl in H. bsplit.
      apply Hin in Hkv. apply negb_true_iff, bool_decide_eq_false.
      intros Hsub. apply H. by eapply lookup_weaken.
    + apply negb_false_iff, bool_decide_eq_true, map_subseteq_spec. intros k v Hkv.
      apply Hin in Hkv. apply (proj1 (existsb_false_elem_of _ _) E) in Hkv.
      simpl in Hkv. by bsplit.
  - f_equal. rewrite <-(list_to_map_to_list r).
    by apply list_to_map_proper.
Qed.

Lemma MergeMap_plain_eq b e r :
  plain_keys (default ∅ r) →
  MergeMap b e r =
    (b || negb (bool_decide (default ∅ r ⊆ default ∅ e)), default ∅ r ∪ default ∅ e).
Proof. intros ?. by apply MergeMap_plain. Qed.

(** Merging a second time changes nothing. *)
Lemma MergeMap_idemp b r m :
  plain_keys (default ∅ r) → default ∅ r ⊆ m → MergeMap b (Some m) r = (b, m).
Proof.
  intros Hp Hsub. rewrite MergeMap_plain_eq by done. simpl.
  rewrite bool_decide_true by done. rewrite orb_false_r. f_equal.
  by apply map_subseteq_union.
Qed.

Lemma ownerRefMatched_refl o :
  is_Some (ParseGroupVersion_group (or_APIVersion o)) → ownerRefMatched o o = true.
Proof.
  intros [g Hg]. unfold ownerRefMatched. rewrite Hg. by rewrite !bool_decide_true.
Qed.

Lemma find_index_Some {A} (f : A → bool) l i :
  find_index f l = Some i → ∃ x, l !! i = Some x ∧ f x = true.
Proof.
  revert i. induction l as [|a l IH]; intros i; simpl; [done|].
  case_match; [intros [= <-]; eauto|].
  intros (j & Hj & ->)%fmap_Some. by apply IH.
Qed.

Lemma find_index_app_hit {A} (f : A → bool) l k i :
  find_index f l = Some i → find_index f (l ++ k) = Some i.
Proof.
  revert i. induction l as [|a l IH]; intros i; simpl; [done|].
  case_match; [done|]. intros (j & Hj & ->)%fmap_Some. by rewrite (IH j).
Qed.

Lemma find_index_None_snoc {A} (f : A → bool) l a :
  find_index f l = None → f a = true → find_index f (l ++ [a]) = Some (length l).
Proof.
  induction l as [|b l IH]; simpl; intros H Ha; [by rewrite Ha|].
  case_match; [done|]. apply fmap_None in H. by rewrite IH.
Qed.

Lemma find_index_insert {A} (f : A → bool) l i a :
  find_index f l = Some i → f a = true → find_index f (<[i := a]> l) = Some i.
Proof.
  revert i. induction l as [|b l IH]; intros i; simpl; [done|].
  destruct (f b) eqn:Hb.
  - intros [= <-] Ha. simpl. by rewrite Ha.
  - intros (j & Hj & ->)%fmap_Some Ha. simpl. by rewrite Hb, (IH j).
Qed.

(** An owner reference the operator writes: a parseable API version and a UID
    that does not ask for a removal. *)
Definition owner_ok (o : OwnerReference) : Prop :=
  is_Some (ParseGroupVersion_group (or_APIVersion o)) ∧ HasSuffix (or_UID o) "-" = false.

Lemma MergeOwnerRefs_idemp b b' o refs refs' :
  owner_ok o → MergeOwnerRefs b refs [o] = (b', refs') →
  MergeOwnerRefs false refs' [o] = (false, refs').
Proof.
  intros [Hgv Huid]. unfold MergeOwnerRefs, MergeOwnerRefs_step. simpl.
  rewrite Huid. pose proof (ownerRefMatched_refl o Hgv) as Hm.
  destruct (find_index (ownerRefMatched o) refs) as [i|] eqn:E.
  - destruct (find_index_Some _ _ _ E) as (x & Hx & _).
    case_bool_decide as Hd; intros [= <- <-].
    + rewrite E. by rewrite bool_decide_true.
    + rewrite (find_index_insert _ _ _ _ E Hm). rewrite bool_decide_true; [done|].
      apply list_lookup_insert_eq. by apply lookup_lt_Some in Hx.
  - intros [= <- <-]. rewrite (find_index_None_snoc _ _ _ E Hm).
    rewrite bool_decide_true; [done|]. by rewrite lookup_app_r, Nat.sub_diag.
Qed.

Lemma SetStringIfSet_idemp b e r b' e' :
  SetStringIfSet b e r = (b', e') → SetStringIfSet false e' r = (false, e').
Proof.
  unfold SetStringIfSet. repeat case_bool_decide; intros [= <- <-]; try done;
    by rewrite bool_decide_true.
Qed.

(** Metadata the operator asks for: plain labels and annotations, one owner. *)
Record meta_ok (m : ObjectMeta) : Prop := {
  meta_ok_labels : plain_keys (default ∅ (om_Labels m));
  meta_ok_annotations : plain_keys (default ∅ (om_Annotations m));
  meta_ok_owner : ∃ o, om_OwnerReferences m = [o] ∧ owner_ok o;
}.

(** The result of a metadata merge needs no further merge: the fact that
    makes an apply loop converge. *)
Lemma EnsureObjectMeta_idemp b b' e r e' :
  meta_ok r → EnsureObjectMeta b e r = (b', e') → EnsureObjectMeta false e' r = (false, e').
Proof.
  intros [Hl Ha (o & Ho & Hok)]. unfold EnsureObjectMeta. rewrite Ho.
  destruct (SetStringIfSet b _ _) as [b1 ns] eqn:E1.
  destruct (SetStringIfSet b1 _ _) as [b2 nm] eqn:E2.
  rewrite !(MergeMap_plain_eq _ _ (om_Labels r)), !(MergeMap_plain_eq _ _ (om_Annotations r)) by done.
  destruct (MergeOwnerRefs _ _ _) as [b3 os] eqn:E3.
  intros [= <- <-]. simpl.
  rewrite (SetStringIfSet_idemp _ _ _ _ _ E1), (SetStringIfSet_idemp _ _ _ _ _ E2).
  rewrite !MergeMap_idemp by (done || apply map_union_subseteq_l).
  by rewrite (MergeOwnerRefs_idemp _ _ _ _ _ Hok E3).
Qed.

(** ** Label selectors *)

(** [metav1.LabelSelectorRequirement] and [metav1.LabelSelector]. *)
Record LabelSelectorRequirement := {
  lsr_Key : string;
  lsr_Operator : string;
  lsr_Values : list string;
}.
#[export] Instance LabelSelectorRequirement_eq_dec : EqDecision LabelSelectorRequirement.
Proof. solve_decision. Defined.

Record LabelSelector := {
  ls_MatchLabels : gmap string string;
  ls_MatchExpressions : list LabelSelectorRequirement;
}.
#[export] Instance LabelSelector_eq_dec : EqDecision LabelSelector.
Proof. solve_decision. Defined.

Definition LabelSelectorOpIn : string := "In".
Definition LabelSelectorOpNotIn : string := "NotIn".
Definition LabelSelectorOpExists : string := "Exists".
Definition LabelSelectorOpDoesNotExist : string := "DoesNotExist".

(** What a selector selects (the documented semantics of
    [metav1.LabelSelectorAsSelector]): an unknown operator makes the selector
    invalid, and nothing matches. *)
Definition requirement_matches (r : LabelSelectorRequirement) (labels : gmap string string) : bool :=
  if lsr_Operator r =s LabelSelectorOpIn then
    match labels !! lsr_Key r with Some v => bool_decide (v ∈ lsr_Values r) | None => false end
  else if lsr_Operator r =s LabelSelectorOpNotIn then
    match labels !! lsr_Key r with Some v => negb (bool_decide (v ∈ lsr_Values r)) | None => true end
  else if lsr_Operator r =s LabelSelectorOpExists then bool_decide (is_Some (labels !! lsr_Key r))
  else if lsr_Operator r =s LabelSelectorOpDoesNotExist then
    negb (bool_decide (is_Some (labels !! lsr_Key r)))
  else false.

Definition selector_matches (s : LabelSelector) (labels : gmap string string) : bool :=
  bool_decide (ls_MatchLabels s ⊆ labels) &&
  forallb (λ r, requirement_matches r labels) (ls_MatchExpressions s).
