(* ===== verification/Clientset.v ===== *)
(** * The generated clientset: pkg/generated/clientset/versioned

    [clientset.go] and [typed/kueueoperator/v1]: how a client of the [Kueue]
    API is made from a [rest.Config], and
    [pkg/apis/kueueoperator/v1/register.go], the group the client speaks. The
    constructors of client-go that these functions call are parameters; a rate
    limiter has state that its users share, so making one is an effect: it has
    an identity. *)
From S2P Require Import Prelude GoStd K8s.

Record GroupVersion := { gv_Group : string; gv_Version : string }.
#[export] Instance GroupVersion_eq_dec : EqDecision GroupVersion.
Proof. solve_decision. Defined.

(** ** register.go *)

Definition GroupName : string := "kueue.openshift.io".
Definition SchemeGroupVersion : GroupVersion := {| gv_Group := GroupName; gv_Version := "v1" |}.

(** [Resource(resource)]: group and resource. *)
Definition Resource (resource : string) : string * string := (gv_Group SchemeGroupVersion, resource).

(** [addKnownTypes]: the methods of the machinery's [runtime.Scheme] are
    parameters. It returns nil. *)
Definition addKnownTypes {Scheme : Type} (AddKnownTypes : GroupVersion → list string → Scheme → Scheme)
    (AddToGroupVersion : GroupVersion → Scheme → Scheme) (scheme : Scheme) : Scheme :=
  AddToGroupVersion SchemeGroupVersion (AddKnownTypes SchemeGroupVersion ["Kueue"; "KueueList"] scheme).

(** ** What client-go provides *)

Class RestTypes := {
  float32 : Type;
  positive32 : float32 → bool;
  httpClient : Type;
  (** The rest of a [rest.Config]: host, TLS, transport. *)
  transportConfig : Type;
  DefaultKubernetesUserAgent : string;
}.

(** A [flowcontrol.RateLimiter]: given by the caller, or the [id]-th made here. *)
Inductive RateLimiter `{RestTypes} : Type :=
  | GivenRateLimiter (name : string)
  | TokenBucketRateLimiter (id : nat) (qps : float32) (burst : Z).

Inductive serializer : Type := NoSerializer | WithoutConversion.

Record Config `{RestTypes} := {
  UserAgent : string;
  RateLimiter_ : option RateLimiter;
  QPS : float32;
  Burst : Z;
  ConfigGroupVersion : option GroupVersion;
  APIPath : string;
  NegotiatedSerializer : serializer;
  transport : transportConfig;
}.

Section clientset.
Context `{RestTypes}.

Definition set_UserAgent (ua : string) (c : Config) : Config := {|
  UserAgent := ua; RateLimiter_ := RateLimiter_ c; QPS := QPS c; Burst := Burst c;
  ConfigGroupVersion := ConfigGroupVersion c; APIPath := APIPath c;
  NegotiatedSerializer := NegotiatedSerializer c; transport := transport c |}.
Definition set_RateLimiter (r : option RateLimiter) (c : Config) : Config := {|
  UserAgent := UserAgent c; RateLimiter_ := r; QPS := QPS c; Burst := Burst c;
  ConfigGroupVersion := ConfigGroupVersion c; APIPath := APIPath c;
  NegotiatedSerializer := NegotiatedSerializer c; transport := transport c |}.

(** The clients remember what they were made from. *)
Record RESTClient := { rest_config : Config; rest_http : httpClient }.
Record DiscoveryClient := { disc_config : Config; disc_http : httpClient }.
Record KueueV1Client := { restClient : RESTClient }.
Record Clientset := { discoveryClient : DiscoveryClient; kueueV1 : KueueV1Client }.

(** [rest.HTTPClientFor], and the validation in
    [rest.RESTClientForConfigAndClient] and
    [discovery.NewDiscoveryClientForConfigAndClient]. *)
Context (HTTPClientFor : Config → error + httpClient).
Context (RESTClientError DiscoveryClientError : Config → httpClient → option error).

Definition RESTClientForConfigAndClient (c : Config) (h : httpClient) : res RESTClient :=
  match RESTClientError c h with
  | Some e => Err e
  | None => Ok {| rest_config := c; rest_http := h |}
  end.
Definition NewDiscoveryClientForConfigAndClient (c : Config) (h : httpClient) : res DiscoveryClient :=
  match DiscoveryClientError c h with
  | Some e => Err e
  | None => Ok {| disc_config := c; disc_http := h |}
  end.
Definition of_result {A} (r : error + A) : res A := match r with inl e => Err e | inr a => Ok a end.

(** [*c]: a nil pointer panics. *)
Definition deref (c : option Config) : res Config :=
  match c with Some c => Ok c | None => Panic "invalid memory address or nil pointer dereference" end.

(** ** typed/kueueoperator/v1/kueueoperator_client.go *)

Definition KueueV1_setConfigDefaults (config : Config) : Config := {|
  UserAgent := if UserAgent config =s "" then DefaultKubernetesUserAgent else UserAgent config;
  RateLimiter_ := RateLimiter_ config; QPS := QPS config; Burst := Burst config;
  ConfigGroupVersion := Some SchemeGroupVersion; APIPath := "/apis";
  NegotiatedSerializer := WithoutConversion; transport := transport config |}.

Definition KueueV1_NewForConfigAndClient (c : option Config) (h : httpClient) : res KueueV1Client :=
  rlet c := deref c in
  let config := KueueV1_setConfigDefaults c in
  rlet client := RESTClientForConfigAndClient config h in
  Ok {| restClient := client |}.

Definition KueueV1_NewForConfig (c : option Config) : res KueueV1Client :=
  rlet c := deref c in
  let config := KueueV1_setConfigDefaults c in
  rlet httpClient := of_result (HTTPClientFor config) in
  KueueV1_NewForConfigAndClient (Some config) httpClient.

Definition KueueV1_NewForConfigOrDie (c : option Config) : res KueueV1Client :=
  match KueueV1_NewForConfig c with Err e => Panic (Error e) | r => r end.

Definition KueueV1_New (c : RESTClient) : KueueV1Client := {| restClient := c |}.

Definition KueueV1_RESTClient (c : option KueueV1Client) : option RESTClient :=
  match c with None => None | Some c => Some (restClient c) end.

(** *** kueue.go: the client of the resource *)

Record kueues := {
  ks_resource : string;
  ks_client : option RESTClient;
  ks_namespace : string;
}.
Definition newKueues (c : option KueueV1Client) : kueues :=
  {| ks_resource := "kueues"; ks_client := KueueV1_RESTClient c; ks_namespace := "" |}.
Definition Kueues (c : option KueueV1Client) : kueues := newKueues c.

(** ** clientset.go *)

Definition burst_error : error :=
  ErrorString "burst is required to be greater than 0 when RateLimiter is not set and QPS is set to greater than 0".
Definition NewForConfigAndClient (c : option Config) (h : httpClient) (limiters : nat) : res Clientset * nat :=
  match deref c with
  | Ok configShallowCopy =>
      let limited :=
        match RateLimiter_ configShallowCopy with
        | None =>
            if positive32 (QPS configShallowCopy) then
              if (Burst configShallowCopy <=? 0)%Z
              then (Err burst_error, limiters)
              else (Ok (set_RateLimiter (Some (TokenBucketRateLimiter limiters
                          (QPS configShallowCopy) (Burst configShallowCopy))) configShallowCopy), S limiters)
            else (Ok configShallowCopy, limiters)
        | Some _ => (Ok configShallowCopy, limiters)
        end in
      (rlet configShallowCopy := limited.1 in
       rlet kueueV1 := KueueV1_NewForConfigAndClient (Some configShallowCopy) h in
       rlet discovery := NewDiscoveryClientForConfigAndClient configShallowCopy h in
       Ok {| discoveryClient := discovery; kueueV1 := kueueV1 |}, limited.2)
  | Err e => (Err e, limiters)
  | Panic p => (Panic p, limiters)
  end.

Definition NewForConfig (c : option Config) (limiters : nat) : res Clientset * nat :=
  match deref c with
  | Ok configShallowCopy =>
      let configShallowCopy :=
        if UserAgent configShallowCopy =s "" then set_UserAgent DefaultKubernetesUserAgent configShallowCopy
        else configShallowCopy in
      match HTTPClientFor configShallowCopy with
      | inl e => (Err e, limiters)
      | inr httpClient => NewForConfigAndClient (Some configShallowCopy) httpClient limiters
      end
  | Err e => (Err e, limiters)
  | Panic p => (Panic p, limiters)
  end.

Definition NewForConfigOrDie (c : option Config) (limiters : nat) : res Clientset * nat :=
  match NewForConfig c limiters with (Err e, n) => (Panic (Error e), n) | r => r end.

(** The discovery client over a REST client shares it. *)
Definition New (c : RESTClient) : Clientset := {|
  discoveryClient := {| disc_config := rest_config c; disc_http := rest_http c |};
  kueueV1 := KueueV1_New c |}.

(** [c.kueueV1] of a nil [c] panics; [Discovery] of a nil [c] is nil. *)
Definition KueueV1_ (c : option Clientset) : res KueueV1Client :=
  match c with
  | Some c => Ok (kueueV1 c)
  | None => Panic "invalid memory address or nil pointer dereference"
  end.
Definition Discovery (c : option Clientset) : option DiscoveryClient :=
  match c with None => None | Some c => Some (discoveryClient c) end.

(** ** Properties *)

(** The configuration the clients are made from. *)
Definition usable (c : Config) : bool :=
  match RateLimiter_ c with
  | None => negb (positive32 (QPS c)) || (0 <? Burst c)%Z
  | Some _ => true
  end.

(** The rate limiter of a clientset made when [n] were made before. *)
Definition limiter_of (c : Config) (n : nat) : option RateLimiter :=
  match RateLimiter_ c with
  | Some l => Some l
  | None => if positive32 (QPS c) then Some (TokenBucketRateLimiter n (QPS c) (Burst c)) else None
  end.

Definition limiter_made (c : Config) : bool :=
  match RateLimiter_ c with Some _ => false | None => positive32 (QPS c) end.

(** Both clients of [cs] use the one HTTP client [h] and the one rate limiter,
    identify themselves as [agent], and keep the caller's transport; the client
    of the resource is that of [/apis/kueue.openshift.io/v1]. *)
Definition shares (c : Config) (n : nat) (h : httpClient) (agent : string) (cs : Clientset) : Prop :=
  let typed := restClient (kueueV1 cs) in
  let disc := discoveryClient cs in
  rest_http typed = h ∧ disc_http disc = h ∧
  RateLimiter_ (rest_config typed) = limiter_of c n ∧ RateLimiter_ (disc_config disc) = limiter_of c n ∧
  (agent ≠ "" → UserAgent (rest_config typed) = agent) ∧ UserAgent (disc_config disc) = agent ∧
  transport (rest_config typed) = transport c ∧ transport (disc_config disc) = transport c ∧
  ConfigGroupVersion (rest_config typed) = Some {| gv_Group := "kueue.openshift.io"; gv_Version := "v1" |} ∧
  APIPath (rest_config typed) = "/apis" ∧
  ConfigGroupVersion (disc_config disc) = ConfigGroupVersion c.

Lemma shares_made c n h agent :
  let shared := set_RateLimiter (limiter_of c n) (set_UserAgent agent c) in
  shares c n h agent {| discoveryClient := {| disc_config := shared; disc_http := h |};
    kueueV1 := {| restClient := {| rest_config := KueueV1_setConfigDefaults shared; rest_http := h |} |} |}.
Proof. unfold shares; simpl; split_and!; try done. intros. by case_bool_decide. Qed.

Lemma set_RateLimiter_same r ua c : RateLimiter_ c = r → set_UserAgent ua c = set_RateLimiter r (set_UserAgent ua c).
Proof. by intros <-. Qed.

Lemma limiter_config c n ua :
  limiter_made c = false → set_UserAgent ua c = set_RateLimiter (limiter_of c n) (set_UserAgent ua c).
Proof.
  intros Hm. apply set_RateLimiter_same. revert Hm. unfold limiter_made, limiter_of.
  destruct (RateLimiter_ c), (positive32 (QPS c)); done.
Qed.

(** The whole function, given the HTTP client. *)
Lemma NewForConfigAndClient_eq c h n ua :
  let shared := set_RateLimiter (limiter_of c n) (set_UserAgent ua c) in
  NewForConfigAndClient (Some (set_UserAgent ua c)) h n =
  if usable c then
    (rlet typed := RESTClientForConfigAndClient (KueueV1_setConfigDefaults shared) h in
     rlet disc := NewDiscoveryClientForConfigAndClient shared h in
     Ok {| discoveryClient := disc; kueueV1 := {| restClient := typed |} |},
     if limiter_made c then S n else n)
  else (Err burst_error, n).
Proof.
  simpl. destruct (limiter_made c) eqn:Hm; [|rewrite <- (limiter_config _ _ _ Hm)]; revert Hm;
    unfold NewForConfigAndClient, usable, limiter_made, limiter_of, KueueV1_NewForConfigAndClient; simpl;
    destruct (RateLimiter_ c), (positive32 (QPS c)); try done; intros _; simpl.
  - destruct (Z.leb_spec (Burst c) 0), (Z.ltb_spec 0 (Burst c)); try lia; simpl; [done|].
    by destruct (RESTClientForConfigAndClient _ _).
  - by destruct (RESTClientForConfigAndClient _ _).
  - by destruct (RESTClientForConfigAndClient _ _).
  - by destruct (RESTClientForConfigAndClient _ _).
Qed.

(** C40: The clients of a clientset share what they should: one HTTP client,
    made from the caller's transport and a user agent that defaults to
    client-go's, and one rate limiter, the caller's own or a single new one
    when a positive rate asks for it; the client of the [Kueue] API speaks
    [/apis/kueue.openshift.io/v1]. A clientset is made exactly when the HTTP
    client is, a positive rate comes with a positive burst or a limiter, and
    the two clients accept their configurations, the shared one and the one of
    the [Kueue] API; otherwise it fails, without a panic, with the error of the
    first of these steps that failed. One rate limiter is made when the HTTP
    client was and the rate is usable and has no limiter yet, none otherwise. A
    nil configuration panics, and [NewForConfigOrDie] panics exactly when
    [NewForConfig] fails. *)
Theorem NewForConfig_spec (c : Config) n :
  let agent := if UserAgent c =s "" then DefaultKubernetesUserAgent else UserAgent c in
  let shared := set_RateLimiter (limiter_of c n) (set_UserAgent agent c) in
  let typed := KueueV1_setConfigDefaults shared in
  let http := HTTPClientFor (set_UserAgent agent c) in
  let '(r, n') := NewForConfig (Some c) n in
  ((∃ cs, r = Ok cs) ↔ ∃ h, http = inr h ∧ usable c = true ∧
     RESTClientError typed h = None ∧ DiscoveryClientError shared h = None) ∧
  (∀ cs, r = Ok cs → ∃ h, http = inr h ∧ shares c n h agent cs) ∧
  (∀ e, r = Err e → http = inl e ∨ ∃ h, http = inr h ∧
     ((usable c = false ∧ e = burst_error) ∨
      (usable c = true ∧
       (RESTClientError typed h = Some e ∨
        (RESTClientError typed h = None ∧ DiscoveryClientError shared h = Some e))))) ∧
  (n' = match http with inr _ => if usable c && limiter_made c then S n else n | inl _ => n end) ∧
  (∀ p, r ≠ Panic p) ∧
  (NewForConfigOrDie (Some c) n).1 = match r with Err e => Panic (Error e) | _ => r end ∧
  ∃ p, (NewForConfig None n).1 = Panic p.
Proof.
  intros agent shared typed http.
  assert (Ha : (if UserAgent c =s "" then set_UserAgent DefaultKubernetesUserAgent c else c)
               = set_UserAgent agent c).
  { subst agent. destruct c as [ua]; simpl. by destruct (ua =s ""). }
  unfold NewForConfigOrDie, NewForConfig; simpl. rewrite Ha. fold http.
  destruct http as [e|h] eqn:Hh.
  { split_and!; naive_solver. }
  rewrite NewForConfigAndClient_eq. pose proof (shares_made c n h agent) as Hs; simpl in Hs.
  unfold RESTClientForConfigAndClient, NewDiscoveryClientForConfigAndClient.
  fold shared in Hs |- *. fold typed in Hs |- *.
  destruct (usable c); simpl; [|split_and!; naive_solver].
  destruct (RESTClientError typed h) as [e|] eqn:Hr, (DiscoveryClientError shared h) as [e'|] eqn:Hd; simpl;
    split_and!; naive_solver.
Qed.
End clientset.

(** ** A concrete clientset *)

Module ClientsetExample.
#[local] Instance types : RestTypes := {|
  float32 := Z; positive32 q := (0 <? q)%Z; httpClient := string; transportConfig := string;
  DefaultKubernetesUserAgent := "operator/v1" |}.

Definition config : Config := {|
  UserAgent := ""; RateLimiter_ := None; QPS := 5%Z; Burst := 10%Z; ConfigGroupVersion := None;
  APIPath := ""; NegotiatedSerializer := NoSerializer; transport := "https" |}.
Definition http (c : Config) : error + string := inr (transport c ++ "+" ++ UserAgent c)%string.
Definition accepts (_ : Config) (_ : httpClient) : option error := None.

Lemma clientset_made :
  match NewForConfig http accepts accepts (Some config) 0 with
  | (Ok cs, n) =>
      (rest_http (restClient (kueueV1 cs)), RateLimiter_ (disc_config (discoveryClient cs)), n,
       ks_resource (Kueues (Some (kueueV1 cs))))
  | (_, n) => (""%string, None, n, ""%string)
  end = ("https+operator/v1"%string, Some (TokenBucketRateLimiter 0 5%Z 10%Z), 1, "kueues"%string).
Proof. reflexivity. Qed.
End ClientsetExample.
