(* ===== verification/ApiTypes.v ===== *)
(** * The Kueue operator API: pkg/apis/kueueoperator/v1/types.go

    The custom resource the operator reconciles, as the Go types, and the
    validation its CRD schema performs (the [+kubebuilder:validation] markers
    of the same file) as executable predicates [valid_*]. The Go enumerations
    are string types, so a field can hold any string; the predicates say which
    values the API server lets through. *)
From S2P Require Import Prelude GoStd K8s.

(** ** String formats of the validation markers *)

Definition is_lower (a : ascii) : bool := let n := N_of_ascii a in bool_decide (97 ≤ n ≤ 122)%N.
Definition is_upper (a : ascii) : bool := let n := N_of_ascii a in bool_decide (65 ≤ n ≤ 90)%N.
Definition is_lower_alnum (a : ascii) : bool := is_lower a || is_digit a.
Definition is_alnum (a : ascii) : bool := is_lower a || is_upper a || is_digit a.
Definition is_ascii (c a : ascii) : bool := bool_decide (a = c).

Fixpoint str_last (s : string) : option ascii :=
  match s with
  | EmptyString => None
  | String a EmptyString => Some a
  | String _ s => str_last s
  end.
Definition str_head (s : string) : option ascii :=
  match s with EmptyString => None | String a _ => Some a end.

(** [^e(m*e)?$] for character classes [m] (middle) and [e] (ends). *)
Definition match_ends (mid ends : ascii → bool) (s : string) : bool :=
  str_all mid s &&
  match str_head s, str_last s with
  | Some a, Some b => ends a && ends b
  | _, _ => false
  end.

(** [^[a-z0-9]([-a-z0-9]*[a-z0-9])?$] *)
Definition match_dns1123Label (s : string) : bool :=
  match_ends (λ a, is_lower_alnum a || is_ascii "-" a) is_lower_alnum s.
(** the same, repeated with dots in between *)
Definition match_dns1123Subdomain (s : string) : bool :=
  forallb match_dns1123Label (split_on "." s "").

(** [format.dns1123Label()] and [format.dns1123Subdomain()] *)
Definition dns1123Label (s : string) : bool :=
  (String.length s <=? 63) && match_dns1123Label s.
Definition dns1123Subdomain (s : string) : bool :=
  (String.length s <=? 253) && match_dns1123Subdomain s.

(** [format.qualifiedName()]: [(subdomain/)?name] with a name of at most 63
    characters of [-A-Za-z0-9_.] that starts and ends with an alphanumeric. *)
Definition qualifiedName_part (s : string) : bool :=
  (String.length s <=? 63) &&
  match_ends (λ a, is_alnum a || is_ascii "-" a || is_ascii "_" a || is_ascii "." a) is_alnum s.
Definition qualifiedName (s : string) : bool :=
  match split_on "/" s "" with
  | [n] => qualifiedName_part n
  | [p; n] => dns1123Subdomain p && qualifiedName_part n
  | _ => false
  end.

(** [+kubebuilder:validation:MinLength/MaxLength] *)
Definition length_in (lo hi : nat) (s : string) : bool :=
  (lo <=? String.length s) && (String.length s <=? hi).
(** [+kubebuilder:validation:Minimum/Maximum] of an omitted-when-zero integer *)
Definition int_in (lo hi v : Z) : bool := (lo <=? v)%Z && (v <=? hi)%Z.
Definition opt_int_in (lo hi v : Z) : bool := (v =? 0)%Z || int_in lo hi v.
(** [+kubebuilder:validation:Enum] *)
Definition enum (values : list string) (s : string) : bool := bool_decide (s ∈ values).
(** [+listType=map]/[set] keys, and CEL's uniqueness rules *)
Definition unique (l : list string) : bool := bool_decide (NoDup l).
Definition max_items {A} (n : nat) (l : list A) : bool := length l <=? n.

(** ** Enumerations *)

Definition SourceKind := string.
Definition SourceKindCohort : SourceKind := "Cohort".
Definition SourceKindLocalQueue : SourceKind := "LocalQueue".
Definition SourceKindClusterQueue : SourceKind := "ClusterQueue".

Definition SourceType := string.
Definition SourceAnnotation : SourceType := "Annotation".
Definition SourceLabel : SourceType := "Label".

Definition KueueIntegration := string.
Definition KueueIntegrationBatchJob : KueueIntegration := "BatchJob".
Definition KueueIntegrationRayJob : KueueIntegration := "RayJob".
Definition KueueIntegrationRayCluster : KueueIntegration := "RayCluster".
Definition KueueIntegrationRayService : KueueIntegration := "RayService".
Definition KueueIntegrationJobSet : KueueIntegration := "JobSet".
Definition KueueIntegrationMPIJob : KueueIntegration := "MPIJob".
Definition KueueIntegrationPaddleJob : KueueIntegration := "PaddleJob".
Definition KueueIntegrationPyTorchJob : KueueIntegration := "PyTorchJob".
Definition KueueIntegrationTFJob : KueueIntegration := "TFJob".
Definition KueueIntegrationTrainJob : KueueIntegration := "TrainJob".
Definition KueueIntegrationXGBoostJob : KueueIntegration := "XGBoostJob".
Definition KueueIntegrationJaxJob : KueueIntegration := "JaxJob".
Definition KueueIntegrationAppWrapper : KueueIntegration := "AppWrapper".
Definition KueueIntegrationPod : KueueIntegration := "Pod".
Definition KueueIntegrationDeployment : KueueIntegration := "Deployment".
Definition KueueIntegrationStatefulSet : KueueIntegration := "StatefulSet".
Definition KueueIntegrationLeaderWorkerSet : KueueIntegration := "LeaderWorkerSet".
Definition KueueIntegrationSparkApplication : KueueIntegration := "SparkApplication".

(** The Enum marker of [KueueIntegration]. *)
Definition KueueIntegration_values : list string :=
  ["BatchJob"; "RayJob"; "RayCluster"; "RayService"; "JobSet"; "MPIJob"; "PaddleJob";
   "PyTorchJob"; "TFJob"; "TrainJob"; "XGBoostJob"; "JaxJob"; "AppWrapper"; "Pod";
   "Deployment"; "StatefulSet"; "LeaderWorkerSet"; "SparkApplication"].

Definition AdmissionFairSharingConfiguration := string.
Definition AdmissionFairSharingConfigurationDefault : AdmissionFairSharingConfiguration := "Default".
Definition AdmissionFairSharingConfigurationCustom : AdmissionFairSharingConfiguration := "Custom".

Definition GangSchedulingPolicy := string.
Definition GangSchedulingPolicyByWorkload : GangSchedulingPolicy := "ByWorkload".
Definition GangSchedulingPolicyNone : GangSchedulingPolicy := "None".
Definition GangSchedulingPolicyByWorkloadDefaults : GangSchedulingPolicy := "ByWorkloadDefaults".

Definition GangSchedulingWorkloadAdmission := string.
Definition GangSchedulingWorkloadAdmissionSequential : GangSchedulingWorkloadAdmission := "Sequential".
Definition GangSchedulingWorkloadAdmissionParallel : GangSchedulingWorkloadAdmission := "Parallel".

Definition RequeuingTimeReference := string.
Definition EvictionTimestamp : RequeuingTimeReference := "Eviction".
Definition CreationTimestamp : RequeuingTimeReference := "Creation".

Definition LabelPolicy := string.
Definition LabelPolicyQueueName : LabelPolicy := "QueueName".
Definition LabelPolicyNone : LabelPolicy := "None".

Definition PreemptionPolicy := string.
Definition PreemptionStrategyClassical : PreemptionPolicy := "Classical".
Definition PreemptionStrategyFairsharing : PreemptionPolicy := "FairSharing".

Definition DeviceClassSourceType := string.
Definition DeviceClassSourceTypeCounter : DeviceClassSourceType := "Counter".
Definition DeviceClassSourceTypeCapacity : DeviceClassSourceType := "Capacity".

Definition DeviceSelectorType := string.
Definition DeviceSelectorTypeCEL : DeviceSelectorType := "CEL".

(** ** Metrics: [ControllerManager] *)

Record SourceKeyLabel := { skl_Key : string }.
Record SourceKeyAnnotation := { ska_Key : string }.
#[export] Instance SourceKeyLabel_eq_dec : EqDecision SourceKeyLabel.
Proof. solve_decision. Defined.
#[export] Instance SourceKeyAnnotation_eq_dec : EqDecision SourceKeyAnnotation.
Proof. solve_decision. Defined.

Record SourceKey := {
  sk_SourceType : SourceType;
  sk_Label : SourceKeyLabel;
  sk_Annotation : SourceKeyAnnotation;
}.
#[export] Instance SourceKey_eq_dec : EqDecision SourceKey.
Proof. solve_decision. Defined.

Record ControllerMetricsCustomLabel := {
  cml_Name : string;
  cml_SourceKey : SourceKey;
  cml_SourceKind : SourceKind;
}.
#[export] Instance ControllerMetricsCustomLabel_eq_dec : EqDecision ControllerMetricsCustomLabel.
Proof. solve_decision. Defined.

Record ControllerMetrics := { cm_CustomLabels : list ControllerMetricsCustomLabel }.
Record ControllerManager := { cmgr_Metrics : ControllerMetrics }.
#[export] Instance ControllerMetrics_eq_dec : EqDecision ControllerMetrics.
Proof. solve_decision. Defined.
#[export] Instance ControllerManager_eq_dec : EqDecision ControllerManager.
Proof. solve_decision. Defined.

(** A struct field with [omitzero] is present when it differs from the zero
    value; CEL's [has(self.f)] tests that. *)
Definition has {A} `{EqDecision A} (zero x : A) : bool := negb (bool_decide (x = zero)).

Definition valid_SourceKeyLabel (l : SourceKeyLabel) : bool :=
  length_in 1 317 (skl_Key l) && qualifiedName (skl_Key l).
Definition valid_SourceKeyAnnotation (a : SourceKeyAnnotation) : bool :=
  length_in 1 317 (ska_Key a) && qualifiedName (ska_Key a).

Definition zero_SourceKeyLabel : SourceKeyLabel := {| skl_Key := "" |}.
Definition zero_SourceKeyAnnotation : SourceKeyAnnotation := {| ska_Key := "" |}.

Definition valid_SourceKey (k : SourceKey) : bool :=
  enum [SourceLabel; SourceAnnotation] (sk_SourceType k) &&
  (if sk_SourceType k =s SourceLabel
   then has zero_SourceKeyLabel (sk_Label k) && valid_SourceKeyLabel (sk_Label k)
   else negb (has zero_SourceKeyLabel (sk_Label k))) &&
  (if sk_SourceType k =s SourceAnnotation
   then has zero_SourceKeyAnnotation (sk_Annotation k) && valid_SourceKeyAnnotation (sk_Annotation k)
   else negb (has zero_SourceKeyAnnotation (sk_Annotation k))).

(** [^[a-zA-Z][a-zA-Z0-9_]*$] *)
Definition match_label_name (s : string) : bool :=
  match s with
  | EmptyString => false
  | String a s => (is_lower a || is_upper a) && str_all (λ a, is_alnum a || is_ascii "_" a) s
  end.

Definition valid_ControllerMetricsCustomLabel (l : ControllerMetricsCustomLabel) : bool :=
  match_label_name (cml_Name l) && length_in 1 50 (cml_Name l) &&
  valid_SourceKey (cml_SourceKey l) &&
  enum [SourceKindCohort; SourceKindLocalQueue; SourceKindClusterQueue] (cml_SourceKind l).

Definition labels_of_kind (k : SourceKind) (l : list ControllerMetricsCustomLabel) :=
  List.filter (λ x, cml_SourceKind x =s k) l.

Definition valid_ControllerMetrics (m : ControllerMetrics) : bool :=
  let l := cm_CustomLabels m in
  forallb valid_ControllerMetricsCustomLabel l &&
  (1 <=? length l) && max_items 18 l &&
  max_items 6 (labels_of_kind SourceKindClusterQueue l) &&
  max_items 6 (labels_of_kind SourceKindLocalQueue l) &&
  max_items 6 (labels_of_kind SourceKindCohort l) &&
  unique (cml_Name <$> l).

Definition zero_ControllerManager : ControllerManager :=
  {| cmgr_Metrics := {| cm_CustomLabels := [] |} |}.
Definition valid_ControllerManager (c : ControllerManager) : bool :=
  negb (has zero_ControllerManager c) || valid_ControllerMetrics (cmgr_Metrics c).

(** ** Admission fair sharing *)

Record ResourceWeight := { rw_Name : string; rw_Weight : string }.
#[export] Instance ResourceWeight_eq_dec : EqDecision ResourceWeight.
Proof. solve_decision. Defined.

Record AdmissionFairSharingCustom := {
  afc_UsageHalfLifeTimeSeconds : Z;
  afc_UsageSamplingIntervalSeconds : Z;
  afc_ResourceWeights : list ResourceWeight;
}.
#[export] Instance AdmissionFairSharingCustom_eq_dec : EqDecision AdmissionFairSharingCustom.
Proof. solve_decision. Defined.

Record AdmissionFairSharing := {
  afs_Configuration : AdmissionFairSharingConfiguration;
  afs_Custom : AdmissionFairSharingCustom;
}.
#[export] Instance AdmissionFairSharing_eq_dec : EqDecision AdmissionFairSharing.
Proof. solve_decision. Defined.

(** [^[+]?([0-9]*\.?[0-9]+)([eE][+-]?[0-9]+)?$] *)
Fixpoint digits_then (k : string → bool) (s : string) : bool :=
  match s with
  | String a s' => if is_digit a then digits_then k s' else k s
  | EmptyString => k s
  end.
Definition match_exponent (s : string) : bool :=
  match s with
  | EmptyString => true
  | String a s =>
      (is_ascii "e" a || is_ascii "E" a) &&
      let s := match s with
               | String b s' => if is_ascii "+" b || is_ascii "-" b then s' else s
               | EmptyString => s
               end in
      negb (s =s "") && str_all is_digit s
  end.
Definition match_weight (s : string) : bool :=
  let s := match s with
           | String b s' => if is_ascii "+" b then s' else s
           | EmptyString => s
           end in
  (* digits, then a dot followed by digits or nothing, then the exponent *)
  match s with
  | String a s' =>
      if is_digit a then
        digits_then (λ r, match r with
          | String b r' =>
              if is_ascii "." b then
                match r' with
                | String d r'' => is_digit d && digits_then match_exponent r''
                | EmptyString => false
                end
              else match_exponent r
          | EmptyString => true
          end) s'
      else if is_ascii "." a then
        match s' with
        | String d r => is_digit d && digits_then match_exponent r
        | EmptyString => false
        end
      else false
  | EmptyString => false
  end.

Definition valid_ResourceWeight (w : ResourceWeight) : bool :=
  length_in 1 317 (rw_Name w) && qualifiedName (rw_Name w) &&
  length_in 1 32 (rw_Weight w) && match_weight (rw_Weight w).

Definition valid_AdmissionFairSharingCustom (c : AdmissionFairSharingCustom) : bool :=
  int_in 1 31536000 (afc_UsageHalfLifeTimeSeconds c) &&
  opt_int_in 1 3600 (afc_UsageSamplingIntervalSeconds c) &&
  forallb valid_ResourceWeight (afc_ResourceWeights c) &&
  max_items 16 (afc_ResourceWeights c) && unique (rw_Name <$> afc_ResourceWeights c).

Definition zero_AdmissionFairSharingCustom : AdmissionFairSharingCustom := {|
  afc_UsageHalfLifeTimeSeconds := 0; afc_UsageSamplingIntervalSeconds := 0;
  afc_ResourceWeights := [] |}.
Definition zero_AdmissionFairSharing : AdmissionFairSharing := {|
  afs_Configuration := ""; afs_Custom := zero_AdmissionFairSharingCustom |}.

Definition valid_AdmissionFairSharing (a : AdmissionFairSharing) : bool :=
  negb (has zero_AdmissionFairSharing a) ||
  (enum [AdmissionFairSharingConfigurationDefault; AdmissionFairSharingConfigurationCustom]
     (afs_Configuration a) &&
   if afs_Configuration a =s AdmissionFairSharingConfigurationCustom
   then has zero_AdmissionFairSharingCustom (afs_Custom a) &&
        valid_AdmissionFairSharingCustom (afs_Custom a)
   else negb (has zero_AdmissionFairSharingCustom (afs_Custom a))).

(** ** Integrations *)

Record ExternalFramework := {
  ef_Group : string;
  ef_Resource : string;
  ef_Version : string;
}.
#[export] Instance ExternalFramework_eq_dec : EqDecision ExternalFramework.
Proof. solve_decision. Defined.

Definition valid_ExternalFramework (f : ExternalFramework) : bool :=
  length_in 1 253 (ef_Group f) && match_dns1123Subdomain (ef_Group f) &&
  length_in 1 63 (ef_Resource f) && match_dns1123Label (ef_Resource f) &&
  length_in 1 63 (ef_Version f) && match_dns1123Label (ef_Version f).

Record LabelKeys := { lk_Key : string }.
#[export] Instance LabelKeys_eq_dec : EqDecision LabelKeys.
Proof. solve_decision. Defined.

(** [^(subdomain/)?label$] *)
Definition match_label_key (s : string) : bool :=
  match split_on "/" s "" with
  | [n] => match_dns1123Label n
  | [p; n] => match_dns1123Subdomain p && match_dns1123Label n
  | _ => false
  end.
Definition valid_LabelKeys (k : LabelKeys) : bool :=
  length_in 1 317 (lk_Key k) && match_label_key (lk_Key k).

Record Integrations := {
  in_Frameworks : list KueueIntegration;
  in_ExternalFrameworks : list ExternalFramework;
  in_LabelKeysToCopy : list LabelKeys;
}.
#[export] Instance Integrations_eq_dec : EqDecision Integrations.
Proof. solve_decision. Defined.

Definition valid_Integrations (i : Integrations) : bool :=
  forallb (enum KueueIntegration_values) (in_Frameworks i) &&
  (1 <=? length (in_Frameworks i)) && max_items 18 (in_Frameworks i) &&
  unique (in_Frameworks i) &&
  forallb valid_ExternalFramework (in_ExternalFrameworks i) &&
  max_items 32 (in_ExternalFrameworks i) && unique (ef_Group <$> in_ExternalFrameworks i) &&
  forallb valid_LabelKeys (in_LabelKeysToCopy i) &&
  max_items 64 (in_LabelKeysToCopy i) && unique (lk_Key <$> in_LabelKeysToCopy i).

(** ** Gang scheduling *)

Record RequeuingStrategy := {
  rs_TimeReference : RequeuingTimeReference;
  rs_RetryLimit : Z;
  rs_BackoffBaseSeconds : Z;
  rs_BackoffMaxSeconds : Z;
}.
#[export] Instance RequeuingStrategy_eq_dec : EqDecision RequeuingStrategy.
Proof. solve_decision. Defined.

Definition zero_RequeuingStrategy : RequeuingStrategy := {|
  rs_TimeReference := ""; rs_RetryLimit := 0; rs_BackoffBaseSeconds := 0;
  rs_BackoffMaxSeconds := 0 |}.

Definition valid_RequeuingStrategy (s : RequeuingStrategy) : bool :=
  enum [""; EvictionTimestamp; CreationTimestamp] (rs_TimeReference s) &&
  opt_int_in 1 200 (rs_RetryLimit s) &&
  opt_int_in 30 3600 (rs_BackoffBaseSeconds s) &&
  opt_int_in 30 7200 (rs_BackoffMaxSeconds s) &&
  ((rs_BackoffBaseSeconds s =? 0)%Z || (rs_BackoffMaxSeconds s =? 0)%Z ||
   (rs_BackoffBaseSeconds s <=? rs_BackoffMaxSeconds s)%Z).

Record ByWorkload := {
  bw_Admission : GangSchedulingWorkloadAdmission;
  bw_TimeoutSeconds : Z;
  bw_RecoveryTimeoutSeconds : option Z;
  bw_RequeuingStrategy : RequeuingStrategy;
}.
#[export] Instance ByWorkload_eq_dec : EqDecision ByWorkload.
Proof. solve_decision. Defined.

Definition valid_ByWorkload (b : ByWorkload) : bool :=
  enum [""; GangSchedulingWorkloadAdmissionParallel; GangSchedulingWorkloadAdmissionSequential]
    (bw_Admission b) &&
  opt_int_in 30 86400 (bw_TimeoutSeconds b) &&
  match bw_RecoveryTimeoutSeconds b with Some t => int_in 0 86400 t | None => true end &&
  valid_RequeuingStrategy (bw_RequeuingStrategy b).

Record GangScheduling := {
  gs_Policy : GangSchedulingPolicy;
  gs_ByWorkload : option ByWorkload;
}.
#[export] Instance GangScheduling_eq_dec : EqDecision GangScheduling.
Proof. solve_decision. Defined.

Definition valid_GangScheduling (g : GangScheduling) : bool :=
  enum [""; GangSchedulingPolicyByWorkload; GangSchedulingPolicyByWorkloadDefaults;
        GangSchedulingPolicyNone] (gs_Policy g) &&
  match gs_ByWorkload g with
  | Some b => (gs_Policy g =s GangSchedulingPolicyByWorkload) && valid_ByWorkload b
  | None => negb (gs_Policy g =s GangSchedulingPolicyByWorkload)
  end.

(** ** Workload management and preemption *)

Record WorkloadManagement := { wm_LabelPolicy : LabelPolicy }.
Record Preemption := { pr_PreemptionPolicy : PreemptionPolicy }.
#[export] Instance WorkloadManagement_eq_dec : EqDecision WorkloadManagement.
Proof. solve_decision. Defined.
#[export] Instance Preemption_eq_dec : EqDecision Preemption.
Proof. solve_decision. Defined.

Definition valid_WorkloadManagement (w : WorkloadManagement) : bool :=
  enum [""; LabelPolicyQueueName; LabelPolicyNone] (wm_LabelPolicy w).
Definition valid_Preemption (p : Preemption) : bool :=
  enum [""; PreemptionStrategyClassical; PreemptionStrategyFairsharing] (pr_PreemptionPolicy p).

(** ** Resources: device class mappings *)

Record CELDeviceSelector := { cel_Expression : string }.
Record DeviceSelector := { ds_Type : DeviceSelectorType; ds_CEL : CELDeviceSelector }.
#[export] Instance CELDeviceSelector_eq_dec : EqDecision CELDeviceSelector.
Proof. solve_decision. Defined.
#[export] Instance DeviceSelector_eq_dec : EqDecision DeviceSelector.
Proof. solve_decision. Defined.

Definition zero_CELDeviceSelector : CELDeviceSelector := {| cel_Expression := "" |}.
Definition zero_DeviceSelector : DeviceSelector :=
  {| ds_Type := ""; ds_CEL := zero_CELDeviceSelector |}.
Definition valid_CELDeviceSelector (c : CELDeviceSelector) : bool :=
  length_in 1 1024 (cel_Expression c).
Definition valid_DeviceSelector (d : DeviceSelector) : bool :=
  enum [DeviceSelectorTypeCEL] (ds_Type d) &&
  (if ds_Type d =s DeviceSelectorTypeCEL
   then has zero_CELDeviceSelector (ds_CEL d) && valid_CELDeviceSelector (ds_CEL d)
   else negb (has zero_CELDeviceSelector (ds_CEL d))).

Record DeviceClassCounterSource := {
  dcn_Name : string;
  dcn_Driver : string;
  dcn_DeviceSelector : DeviceSelector;
}.
Record DeviceClassCapacitySource := {
  dcp_Name : string;
  dcp_Driver : string;
  dcp_DeviceSelector : DeviceSelector;
}.
#[export] Instance DeviceClassCounterSource_eq_dec : EqDecision DeviceClassCounterSource.
Proof. solve_decision. Defined.
#[export] Instance DeviceClassCapacitySource_eq_dec : EqDecision DeviceClassCapacitySource.
Proof. solve_decision. Defined.

Definition zero_DeviceClassCounterSource : DeviceClassCounterSource :=
  {| dcn_Name := ""; dcn_Driver := ""; dcn_DeviceSelector := zero_DeviceSelector |}.
Definition zero_DeviceClassCapacitySource : DeviceClassCapacitySource :=
  {| dcp_Name := ""; dcp_Driver := ""; dcp_DeviceSelector := zero_DeviceSelector |}.

Definition valid_DeviceClassCounterSource (c : DeviceClassCounterSource) : bool :=
  length_in 1 63 (dcn_Name c) && dns1123Label (dcn_Name c) &&
  length_in 1 253 (dcn_Driver c) && dns1123Subdomain (dcn_Driver c) &&
  has zero_DeviceSelector (dcn_DeviceSelector c) && valid_DeviceSelector (dcn_DeviceSelector c).

(** [^[A-Za-z_][A-Za-z0-9_]*$] and [^[a-z0-9]([-a-z0-9.]*[a-z0-9])?$] *)
Definition match_identifier (s : string) : bool :=
  match s with
  | EmptyString => false
  | String a s =>
      (is_lower a || is_upper a || is_ascii "_" a) &&
      str_all (λ a, is_alnum a || is_ascii "_" a) s
  end.
Definition match_domain (s : string) : bool :=
  match_ends (λ a, is_lower_alnum a || is_ascii "-" a || is_ascii "." a) is_lower_alnum s.

(** the two CEL rules on a capacity name *)
Definition match_capacity_name (s : string) : bool :=
  match split_on "/" s "" with
  | [i] => match_identifier i && (String.length i <=? 32)
  | [d; i] => match_domain d && match_identifier i &&
              (String.length d <=? 63) && (String.length i <=? 32)
  | _ => false
  end.

Definition valid_DeviceClassCapacitySource (c : DeviceClassCapacitySource) : bool :=
  length_in 1 96 (dcp_Name c) && match_capacity_name (dcp_Name c) &&
  length_in 1 63 (dcp_Driver c) && dns1123Subdomain (dcp_Driver c) &&
  has zero_DeviceSelector (dcp_DeviceSelector c) && valid_DeviceSelector (dcp_DeviceSelector c).

Record DeviceClassSourceConfig := {
  dsc_Type : DeviceClassSourceType;
  dsc_Counter : DeviceClassCounterSource;
  dsc_Capacity : DeviceClassCapacitySource;
}.
#[export] Instance DeviceClassSourceConfig_eq_dec : EqDecision DeviceClassSourceConfig.
Proof. solve_decision. Defined.

Definition valid_DeviceClassSourceConfig (s : DeviceClassSourceConfig) : bool :=
  enum [DeviceClassSourceTypeCounter; DeviceClassSourceTypeCapacity] (dsc_Type s) &&
  (if dsc_Type s =s DeviceClassSourceTypeCounter
   then has zero_DeviceClassCounterSource (dsc_Counter s) &&
        valid_DeviceClassCounterSource (dsc_Counter s)
   else negb (has zero_DeviceClassCounterSource (dsc_Counter s))) &&
  (if dsc_Type s =s DeviceClassSourceTypeCapacity
   then has zero_DeviceClassCapacitySource (dsc_Capacity s) &&
        valid_DeviceClassCapacitySource (dsc_Capacity s)
   else negb (has zero_DeviceClassCapacitySource (dsc_Capacity s))).

Definition DeviceClassName := string.
Definition valid_DeviceClassName (d : DeviceClassName) : bool :=
  length_in 1 253 d && qualifiedName d.

Record DeviceClassMapping := {
  dm_Name : string;
  dm_DeviceClassNames : list DeviceClassName;
  dm_Sources : list DeviceClassSourceConfig;
}.
#[export] Instance DeviceClassMapping_eq_dec : EqDecision DeviceClassMapping.
Proof. solve_decision. Defined.

Definition valid_DeviceClassMapping (m : DeviceClassMapping) : bool :=
  length_in 1 253 (dm_Name m) && qualifiedName (dm_Name m) &&
  forallb valid_DeviceClassName (dm_DeviceClassNames m) &&
  (1 <=? length (dm_DeviceClassNames m)) && max_items 8 (dm_DeviceClassNames m) &&
  unique (dm_DeviceClassNames m) &&
  forallb valid_DeviceClassSourceConfig (dm_Sources m) && max_items 1 (dm_Sources m).

Record Resources := { rc_DeviceClassMappings : list DeviceClassMapping }.
#[export] Instance Resources_eq_dec : EqDecision Resources.
Proof. solve_decision. Defined.

(** [self.all(m1, m1.deviceClassNames.all(d, self.all(m2, m2 == m1 ||
    !m2.deviceClassNames.exists(e, e == d))))] *)
Definition each_class_mapped_once (l : list DeviceClassMapping) : bool :=
  forallb (λ m1, forallb (λ d, forallb (λ m2,
    bool_decide (m2 = m1) || negb (bool_decide (d ∈ dm_DeviceClassNames m2))) l)
    (dm_DeviceClassNames m1)) l.

Definition valid_Resources (r : Resources) : bool :=
  let l := rc_DeviceClassMappings r in
  forallb valid_DeviceClassMapping l && max_items 16 l && unique (dm_Name <$> l) &&
  each_class_mapped_once l.

(** ** MultiKueue *)

Record MultiKueue := { mk_ExternalFrameworks : list ExternalFramework }.
#[export] Instance MultiKueue_eq_dec : EqDecision MultiKueue.
Proof. solve_decision. Defined.

Definition valid_MultiKueue (m : MultiKueue) : bool :=
  let l := mk_ExternalFrameworks m in
  forallb valid_ExternalFramework l && max_items 32 l && unique (ef_Group <$> l).

(** ** The configuration and the custom resource *)

Record KueueConfiguration := {
  kc_Integrations : Integrations;
  kc_WorkloadManagement : WorkloadManagement;
  kc_GangScheduling : GangScheduling;
  kc_Preemption : Preemption;
  kc_Resources : Resources;
  kc_MultiKueue : option MultiKueue;
  kc_AdmissionFairSharing : AdmissionFairSharing;
  kc_ControllerManager : ControllerManager;
}.
#[export] Instance KueueConfiguration_eq_dec : EqDecision KueueConfiguration.
Proof. solve_decision. Defined.

Definition valid_KueueConfiguration (c : KueueConfiguration) : bool :=
  valid_Integrations (kc_Integrations c) &&
  valid_WorkloadManagement (kc_WorkloadManagement c) &&
  valid_GangScheduling (kc_GangScheduling c) &&
  valid_Preemption (kc_Preemption c) &&
  valid_Resources (kc_Resources c) &&
  match kc_MultiKueue c with Some m => valid_MultiKueue m | None => true end &&
  valid_AdmissionFairSharing (kc_AdmissionFairSharing c) &&
  valid_ControllerManager (kc_ControllerManager c).

(** [operatorv1.OperatorSpec]: the log level is the field the operator reads;
    the others travel unchanged. *)
Record OperatorSpec := {
  os_ManagementState : string;
  os_LogLevel : string;
  os_OperatorLogLevel : string;
  os_other : json;
}.
#[export] Instance OperatorSpec_eq_dec : EqDecision OperatorSpec.
Proof. solve_decision. Defined.

Record KueueOperandSpec := {
  ks_OperatorSpec : OperatorSpec;
  ks_Config : KueueConfiguration;
}.
#[export] Instance KueueOperandSpec_eq_dec : EqDecision KueueOperandSpec.
Proof. solve_decision. Defined.

(** [operatorv1.OperatorCondition], [GenerationStatus] and [OperatorStatus]. *)
Record OperatorCondition := {
  oc_Type : string;
  oc_Status : string;
  oc_LastTransitionTime : option Z;
  oc_Reason : string;
  oc_Message : string;
}.
#[export] Instance OperatorCondition_eq_dec : EqDecision OperatorCondition.
Proof. solve_decision. Defined.

Record GenerationStatus := {
  gn_Group : string;
  gn_Resource : string;
  gn_Namespace : string;
  gn_Name : string;
  gn_LastGeneration : Z;
}.
#[export] Instance GenerationStatus_eq_dec : EqDecision GenerationStatus.
Proof. solve_decision. Defined.

Record OperatorStatus := {
  ost_Conditions : list OperatorCondition;
  ost_Generations : list GenerationStatus;
  ost_ReadyReplicas : Z;
  ost_other : json;
}.
#[export] Instance OperatorStatus_eq_dec : EqDecision OperatorStatus.
Proof. solve_decision. Defined.

Record KueueStatus := { kst_OperatorStatus : OperatorStatus }.
#[export] Instance KueueStatus_eq_dec : EqDecision KueueStatus.
Proof. solve_decision. Defined.

Record Kueue := {
  ku_ObjectMeta : ObjectMeta;
  ku_Spec : KueueOperandSpec;
  ku_Status : KueueStatus;
}.
#[export] Instance Kueue_eq_dec : EqDecision Kueue.
Proof. solve_decision. Defined.

(** The marker of the type: the resource is a singleton named [cluster]. *)
Definition valid_Kueue (k : Kueue) : bool :=
  (om_Name (ku_ObjectMeta k) =s "cluster") && valid_KueueConfiguration (ks_Config (ku_Spec k)).

Record KueueList := { kl_Items : list Kueue }.
Definition valid_KueueList (l : KueueList) : bool := max_items 1 (kl_Items l).

Definition kueue_set_meta (m : ObjectMeta) (k : Kueue) : Kueue :=
  {| ku_ObjectMeta := m; ku_Spec := ku_Spec k; ku_Status := ku_Status k |}.

(** ** Facts about the formats *)

Example weight_ok :
  forallb match_weight ["1.0"; "0.5"; ".5"; "+0.5"; "1e-3"; "10"] = true.
Proof. reflexivity. Qed.
Example weight_bad :
  existsb match_weight [""; "1."; "-1"; "1e"; "."; "abc"; "1.2.3"] = false.
Proof. reflexivity. Qed.
Example qualified_ok : forallb qualifiedName ["nvidia.com/gpu"; "gpu"; "A_b.c"] = true.
Proof. reflexivity. Qed.
Example qualified_bad : existsb qualifiedName [""; "/gpu"; "a/b/c"; "-a"; "A.com/x"] = false.
Proof. reflexivity. Qed.

(** A minimal configuration: the batch Job integration and the defaults. *)
Definition minimal_config : KueueConfiguration := {|
  kc_Integrations := {| in_Frameworks := [KueueIntegrationBatchJob];
                        in_ExternalFrameworks := []; in_LabelKeysToCopy := [] |};
  kc_WorkloadManagement := {| wm_LabelPolicy := "" |};
  kc_GangScheduling := {| gs_Policy := ""; gs_ByWorkload := None |};
  kc_Preemption := {| pr_PreemptionPolicy := "" |};
  kc_Resources := {| rc_DeviceClassMappings := [] |};
  kc_MultiKueue := None;
  kc_AdmissionFairSharing := zero_AdmissionFairSharing;
  kc_ControllerManager := zero_ControllerManager |}.

Example minimal_config_valid : valid_KueueConfiguration minimal_config = true.
Proof. vm_compute. reflexivity. Qed.
