(* ===== verification/GoHeap.v ===== *)
(** * A heap for Go values

    Elsewhere in the development a Go struct is the value it stands for. Where
    the code is about sharing, as the generated [DeepCopyInto] functions are,
    that is not enough: here a pointer, a slice and a map are an address of a
    [heap] (or nil), and a struct is a record of such addresses. [view] follows
    the addresses and gives the value of the rest of the development, [reach]
    is the set of the addresses that are followed. *)
From S2P Require Import Prelude.
From stdpp Require Import sets.

#[local] Set Default Proof Using "Type*".

Notation loc := positive.

(** ** Values in memory *)

(** [*A], [[]A] and [map[K]V] (whose content is [M]): the address of the
    content, or nil. A slice has a length, at most that of its array, which is
    its capacity; every slice starts where its array does. *)
Record ptr (A : Type) : Type := Ptr { addr : option loc }.
Arguments Ptr {A} _.
Arguments addr {A} _.
Record slice (A : Type) : Type := Slice { array : option loc; len : nat }.
Arguments Slice {A} _ _.
Arguments array {A} _.
Arguments len {A} _.
Record gomap (M : Type) : Type := GoMap { buckets : option loc }.
Arguments GoMap {M} _.
Arguments buckets {M} _.

(** What the cells of a heap hold: a closed universe [cell], of which every
    type with addresses to it is a part. *)
Class Stored (cell A : Type) := {
  inj : A → cell;
  proj : cell → option A;
  proj_inj a : proj (inj a) = Some a;
}.

Section heap.
Context {cell : Type}.
Notation heap := (gmap loc cell).

(** Code that reads and writes the heap; [None] when it dereferences nil or an
    address that holds something else. *)
Definition Mem (A : Type) : Type := heap → option (A * heap).

#[global] Instance Mem_ret : MRet Mem := λ A a h, Some (a, h).
#[global] Instance Mem_bind : MBind Mem := λ A B f m h,
  match m h with Some (a, h) => f a h | None => None end.

Definition content {A} `{Stored cell A} (h : heap) (l : loc) : option A :=
  c ← h !! l; proj c.

Definition load {A} `{Stored cell A} (l : loc) : Mem A := λ h, a ← content h l; Some (a, h).
Definition new {A} `{Stored cell A} (a : A) : Mem loc := λ h,
  let l := fresh (dom h) in Some (l, <[l := inj a]> h).
Definition store {A} `{Stored cell A} (l : loc) (a : A) : Mem unit := λ h, Some (tt, <[l := inj a]> h).

Fixpoint mapMem {A} (f : A → Mem A) (l : list A) : Mem (list A) :=
  match l with
  | [] => mret []
  | a :: l => a' ← f a; l' ← mapMem f l; mret (a' :: l')
  end.
End heap.
Arguments Mem : clear implicits.

(** ** Following the addresses *)

(** [A] as the heap has it, [V] the value it stands for; [tree]: no address is
    met twice on the way. *)
Class GoType (cell A V : Type) := {
  view : gmap loc cell → A → option V;
  reach : gmap loc cell → A → gset loc;
  tree : gmap loc cell → A → Prop;
}.
#[export] Hint Mode GoType - ! - : typeclass_instances.

(** A value that can be read has all its addresses in the heap, and depends on
    what they hold only. *)
Definition agree {cell} (h h' : gmap loc cell) (D : gset loc) : Prop := ∀ l, l ∈ D → h !! l = h' !! l.
Class GoTypeOk (cell A V : Type) `{GoType cell A V} : Prop := {
  view_reach h (a : A) (v : V) : view h a = Some v → reach h a ⊆ dom h;
  view_frame h h' (a : A) : agree h h' (reach h a) →
    view h' a = view h a ∧ reach h' a = reach h a ∧ (tree h' a ↔ tree h a);
}.

(** Types without addresses. *)
Class Flat (A : Type) := flat : unit.
#[export] Instance flat_type cell A `{Flat A} : GoType cell A A := {|
  view := λ _ a, Some a; reach := λ _ _, ∅; tree := λ _ _, True |}.
#[export] Instance flat_type_ok cell A `{Flat A} : GoTypeOk cell A A.
Proof. split; [set_solver|done]. Qed.

Section types.
Context {cell A V : Type} `{GoTypeOk cell A V}.

#[export] Instance ptr_type `{Stored cell A} : GoType cell (ptr A) (option V) := {|
  view h p := match addr p with
              | None => Some None
              | Some l => a ← content (A := A) h l; v ← view h a; Some (Some v)
              end;
  reach h p := match addr p with
               | None => ∅
               | Some l => {[l]} ∪ match content (A := A) h l with Some a => reach h a | None => ∅ end
               end;
  tree h p := match addr p with
              | None => True
              | Some l => match content (A := A) h l with
                          | Some a => l ∉ reach h a ∧ tree h a
                          | None => True
                          end
              end |}.

(** The elements of an array, read one by one. *)
Definition views (h : gmap loc cell) (l : list A) : option (list V) := mapM (view h) l.
Definition reaches (h : gmap loc cell) (l : list A) : gset loc := ⋃ (reach h <$> l).
Fixpoint trees (h : gmap loc cell) (l : list A) : Prop :=
  match l with [] => True | a :: l => tree h a ∧ reach h a ## reaches h l ∧ trees h l end.

#[export] Instance slice_type `{Stored cell (list A)} : GoType cell (slice A) (list V) := {|
  view h p := match array p with
              | None => Some []
              | Some l =>
                  a ← content h l;
                  if len p <=? length a then views h (take (len p) a) else None
              end;
  reach h p := match array p with
               | None => ∅
               | Some l => {[l]} ∪ match content h l with Some a => reaches h (take (len p) a) | None => ∅ end
               end;
  tree h p := match array p with
              | None => True
              | Some l => match content h l with
                          | Some a => l ∉ reaches h (take (len p) a) ∧ trees h (take (len p) a)
                          | None => True
                          end
              end |}.
End types.
#[global] Arguments views : simpl never.
#[global] Arguments reaches : simpl never.

#[export] Instance map_type {cell M} `{Stored cell M} : GoType cell (gomap M) (option M) := {|
  view h p := match buckets p with None => Some None | Some l => m ← content h l; Some (Some m) end;
  reach h p := match buckets p with None => ∅ | Some l => {[l]} end;
  tree h p := True |}.

(** A struct is read like the tuple of its fields, then put together. *)
#[export] Instance prod_type {cell A B V W} `{GoType cell A V} `{GoType cell B W} :
    GoType cell (A * B) (V * W) := {|
  view h x := v ← view h x.1; w ← view h x.2; Some (v, w);
  reach h x := reach h x.1 ∪ reach h x.2;
  tree h x := tree h x.1 ∧ tree h x.2 ∧ reach h x.1 ## reach h x.2 |}.
Definition struct_type {cell A T V W} `{GoType cell T W} (fields : A → T) (value : W → V) :
    GoType cell A V := {|
  view h a := value <$> view h (fields a);
  reach h a := reach h (fields a);
  tree h a := tree h (fields a) |}.

Section laws.
Context {cell : Type}.
Implicit Types h : gmap loc cell.

Lemma agree_sub h h' D D' : D' ⊆ D → agree h h' D → agree h h' D'.
Proof. unfold agree. set_solver. Qed.

Lemma agree_content `{Stored cell A} h h' D l :
  agree h h' D → l ∈ D → content (A := A) h' l = content h l.
Proof. intros Ha Hl. unfold content. by rewrite (Ha l Hl). Qed.

Lemma content_dom `{Stored cell A} h l (a : A) : content h l = Some a → l ∈ dom h.
Proof. unfold content. destruct (h !! l) eqn:E; [|done]. intros _. by apply elem_of_dom_2 in E. Qed.

Context {A V : Type} `{GoTypeOk cell A V}.

#[export] Instance ptr_type_ok `{Stored cell A} : GoTypeOk cell (ptr A) (option V).
Proof.
  split.
  - intros h [[l|]] v; cbn; [|set_solver]. destruct (content h l) as [a|] eqn:E; [|done]. cbn.
    destruct (view h a) as [w|] eqn:Hw; [|done]. intros _.
    pose proof (content_dom _ _ _ E). pose proof (view_reach _ _ _ Hw). set_solver.
  - intros h h' [[l|]] Ha; cbn in *; [|done].
    rewrite (agree_content _ _ _ l Ha) by set_solver. destruct (content h l) as [a|]; [|done]. cbn.
    destruct (view_frame h h' a) as (-> & -> & Ht); [eapply agree_sub; [|exact Ha]; set_solver|].
    by rewrite Ht.
Qed.

Lemma views_reach h (l : list A) (v : list V) : views h l = Some v → reaches h l ⊆ dom h.
Proof.
  unfold views, reaches. revert v. induction l as [|a l IH]; cbn; intros v; [set_solver|].
  destruct (view h a) as [w|] eqn:Hw; [|done]. cbn. destruct (mapM _ l) as [ws|] eqn:Hws; [|done].
  intros _. pose proof (view_reach _ _ _ Hw). specialize (IH _ eq_refl). set_solver.
Qed.
Lemma views_frame h h' (l : list A) : agree h h' (reaches h l) →
  views h' l = views h l ∧ reaches h' l = reaches h l ∧ (trees h' l ↔ trees h l).
Proof.
  unfold views, reaches. induction l as [|a l IH]; cbn; intros Ha; [done|].
  destruct (view_frame h h' a) as (-> & -> & Ht); [eapply agree_sub; [|exact Ha]; set_solver|].
  destruct IH as (-> & Hr & Ht'); [eapply agree_sub; [|exact Ha]; set_solver|].
  unfold reaches. by rewrite Hr, Ht, Ht'.
Qed.

#[export] Instance slice_type_ok `{Stored cell (list A)} : GoTypeOk cell (slice A) (list V).
Proof.
  split.
  - intros h [[l|] n] v; cbn; [|set_solver]. destruct (content h l) as [a|] eqn:E; [|done]. cbn.
    destruct (n <=? length a); [|done].
    intros Hv. pose proof (content_dom _ _ _ E). pose proof (views_reach _ _ _ Hv). set_solver.
  - intros h h' [[l|] n] Ha; cbn in *; [|done].
    rewrite (agree_content _ _ _ l Ha) by set_solver. destruct (content h l) as [a|]; [|done]. cbn.
    destruct (views_frame h h' (take n a)) as (-> & -> & Ht);
      [eapply agree_sub; [|exact Ha]; set_solver|]. by rewrite Ht.
Qed.

#[export] Instance prod_type_ok {B W} `{GoTypeOk cell B W} : GoTypeOk cell (A * B) (V * W).
Proof.
  split.
  - intros h [x y] v; cbn. destruct (view h x) as [a|] eqn:E; [|done]. cbn.
    destruct (view h y) as [b|] eqn:E'; [|done]. intros _.
    pose proof (view_reach _ _ _ E). pose proof (view_reach _ _ _ E'). set_solver.
  - intros h h' [x y] Ha; cbn in *.
    destruct (view_frame h h' x) as (-> & -> & Ht); [eapply agree_sub; [|exact Ha]; set_solver|].
    destruct (view_frame h h' y) as (-> & -> & Ht'); [eapply agree_sub; [|exact Ha]; set_solver|].
    by rewrite Ht, Ht'.
Qed.

Lemma struct_type_ok {B W} (fields : B → A) (value : V → W) :
  GoTypeOk cell B W (H := struct_type fields value).
Proof.
  split.
  - intros h b w; cbn. intros (v & Hv & _)%fmap_Some. by eapply view_reach.
  - intros h h' b Ha; cbn in *. by destruct (view_frame h h' (fields b) Ha) as (-> & -> & ->).
Qed.

#[export] Instance map_type_ok `{Stored cell M} : GoTypeOk cell (gomap M) (option M).
Proof.
  split.
  - intros h [[l|]] v; cbn; [|set_solver]. destruct (content h l) as [a|] eqn:E; [|done].
    intros _. pose proof (content_dom _ _ _ E). set_solver.
  - intros h h' [[l|]] Ha; cbn in *; [|done].
    by rewrite (agree_content _ _ _ l Ha) by set_solver.
Qed.
End laws.

(** ** Copying *)

(** The statements of generated copy code. A nil pointer, slice or map stays
    nil. *)
Section copying.
Context {cell : Type}.

(** [*out = new(A); ( *in).DeepCopyInto( *out)], also the body of [DeepCopy]. *)
Definition copyPtr {A} `{Stored cell A} (f : A → Mem cell A) (in_ : ptr A) : Mem cell (ptr A) :=
  match addr in_ with
  | None => mret (Ptr None)
  | Some l => a ← load l; out ← new a; a' ← f a; store out a' ;; mret (Ptr (Some out))
  end.

(** [*out = make([]A, len( *in)); copy( *out, *in)]: the elements as they are. *)
Definition copySlice {A} `{Stored cell (list A)} (in_ : slice A) : Mem cell (slice A) :=
  match array in_ with
  | None => mret (Slice None 0)
  | Some l =>
      a ← load (A := list A) l; let a := take (len in_) a in
      out ← new a; mret (Slice (Some out) (length a))
  end.

(** [*out = make([]A, len( *in)); for i := range *in
    { ( *in)[i].DeepCopyInto(&( *out)[i]) }], with one write for the loop. *)
Definition copyElements {A} `{Stored cell (list A)} (f : A → Mem cell A) (in_ : slice A)
    : Mem cell (slice A) :=
  match array in_ with
  | None => mret (Slice None 0)
  | Some l =>
      a ← load (A := list A) l; let a := take (len in_) a in
      out ← new a; a' ← mapMem f a; store out a' ;; mret (Slice (Some out) (length a'))
  end.

(** The fields of a struct one after the other. *)
Definition copyPair {A B} (f : A → Mem cell A) (g : B → Mem cell B) (in_ : A * B) : Mem cell (A * B) :=
  x ← f in_.1; y ← g in_.2; mret (x, y).

(** [*out = make(map[K]V, len( *in)); for key, val := range *in
    { ( *out)[key] = val }] *)
Definition copyMap {M} `{Stored cell M} (in_ : gomap M) : Mem cell (gomap M) :=
  match buckets in_ with
  | None => mret (GoMap None)
  | Some l => m ← load (A := M) l; out ← new m; mret (GoMap (Some out))
  end.
End copying.

(** [copied h0 h a v]: in [h], [a] stands for [v], shares nothing with what
    [h0] holds, and nothing within itself. *)
Definition copied {cell A V} `{GoType cell A V} (h0 h : gmap loc cell) (a : A) (v : V) : Prop :=
  view h a = Some v ∧ reach h a ## dom h0 ∧ tree h a.

(** A correct copy: it succeeds on every value, changes nothing that was
    there, and what it returns is equal and separate. *)
Definition copies {cell A V} `{GoType cell A V} (f : A → Mem cell A) : Prop :=
  ∀ h a (v : V), view h a = Some v →
    ∃ a' h', f a h = Some (a', h') ∧ h ⊆ h' ∧ copied h h' a' v.

Notation "f ⊗ g" := (copyPair f g) (at level 40, left associativity) : kueue_scope.

Section rules.
Context {cell : Type}.
Implicit Types h : gmap loc cell.

Lemma sub_agree h h' D : h ⊆ h' → D ⊆ dom h → agree h h' D.
Proof.
  intros Hs HD l Hl. apply HD, elem_of_dom in Hl as [c Hc]. rewrite Hc. symmetry.
  by eapply lookup_weaken.
Qed.

Lemma view_mono {A V} `{GoTypeOk cell A V} h h' (a : A) (v : V) :
  h ⊆ h' → view h a = Some v →
  view h' a = Some v ∧ reach h' a = reach h a ∧ (tree h' a ↔ tree h a).
Proof.
  intros Hs Hv. destruct (view_frame h h' a) as (-> & -> & Ht); [|done].
  apply sub_agree; [done|]. by eapply view_reach.
Qed.

Lemma views_mono {A V} `{GoTypeOk cell A V} h h' (l : list A) (v : list V) :
  h ⊆ h' → views h l = Some v → views h' l = Some v.
Proof.
  intros Hs Hv. destruct (views_frame h h' l) as [-> _]; [|done].
  apply sub_agree; [done|]. by eapply views_reach.
Qed.

(** *** Structs and tuples *)

Lemma view_flat_inv {A} `{Flat A} h (a v : A) : view h a = Some v → v = a.
Proof. by intros [= <-]. Qed.

Lemma view_pair_inv {A V B W} `{GoType cell A V} `{GoType cell B W} h (a : A) (b : B) (x : V * W) :
  view h (a, b) = Some x → ∃ v w, x = (v, w) ∧ view h a = Some v ∧ view h b = Some w.
Proof. cbn. destruct (view h a), (view h b); naive_solver. Qed.

Lemma view_pair {A V B W} `{GoType cell A V} `{GoType cell B W} h (a : A) (b : B) (v : V) (w : W) :
  view h a = Some v → view h b = Some w → view h (a, b) = Some (v, w).
Proof. cbn. by intros -> ->. Qed.

Lemma view_struct_inv {A T V W} `{GoType cell T W} (fields : A → T) (value : W → V) h a v :
  view (GoType := struct_type fields value) h a = Some v →
  ∃ w, v = value w ∧ view h (fields a) = Some w.
Proof. cbn. intros (w & ? & ?)%fmap_Some. by exists w. Qed.

Lemma view_struct {A T V W} `{GoType cell T W} (fields : A → T) (value : W → V) h a w v :
  view h (fields a) = Some w → v = value w → view (GoType := struct_type fields value) h a = Some v.
Proof. cbn. by intros -> ->. Qed.

Lemma tree_pair_inv {A V B W} `{GoType cell A V} `{GoType cell B W} h (a : A) (b : B) :
  tree h (a, b) → tree h a ∧ tree h b ∧ reach h a ## reach h b.
Proof. done. Qed.
Lemma reach_pair {A V B W} `{GoType cell A V} `{GoType cell B W} h (a : A) (b : B) :
  reach h (a, b) = reach h a ∪ reach h b.
Proof. done. Qed.
Lemma tree_struct_inv {A T V W} `{GoType cell T W} (fields : A → T) (value : W → V) h a :
  tree (GoType := struct_type fields value) h a → tree h (fields a).
Proof. done. Qed.
Lemma reach_struct {A T V W} `{GoType cell T W} (fields : A → T) (value : W → V) h a D :
  D ⊆ reach h (fields a) → D ⊆ reach (GoType := struct_type fields value) h a.
Proof. done. Qed.

Lemma view_agree {A V} `{GoTypeOk cell A V} h h' (a : A) (v : V) :
  view h a = Some v → agree h h' (reach h a) → view h' a = Some v.
Proof. intros Hv Ha. by destruct (view_frame h h' a Ha) as [-> _]. Qed.

(** *** Memory *)

Lemma content_new {A} `{Stored cell A} h (l : loc) (a : A) : content (<[l := inj a]> h) l = Some a.
Proof. unfold content. rewrite lookup_insert_eq. cbn. apply proj_inj. Qed.

Lemma content_other {A} `{Stored cell A} h (l l' : loc) c :
  l ≠ l' → content (A := A) (<[l' := c]> h) l = content h l.
Proof. intros Hne. unfold content. by rewrite lookup_insert_ne. Qed.

Lemma new_fresh h : fresh (dom h) ∉ dom h.
Proof. apply is_fresh. Qed.

Lemma new_sub h (l : loc) c : l ∉ dom h → h ⊆ <[l := c]> h.
Proof. intros Hl. apply insert_subseteq. by apply not_elem_of_dom. Qed.

(** Writing an address that is not reached changes nothing. *)
Lemma agree_store h (l : loc) c D : l ∉ D → agree h (<[l := c]> h) D.
Proof. intros Hl x Hx. rewrite lookup_insert_ne; [done|]. set_solver. Qed.

(** What was there stays when the new address is allocated first and written
    last. *)
Lemma sub_store h h2 (l : loc) b c : l ∉ dom h → <[l := b]> h ⊆ h2 → h ⊆ <[l := c]> h2.
Proof.
  intros Hl Hs. apply map_subseteq_spec. intros x y Hx.
  assert (x ≠ l) as Hne by (intros ->; apply Hl; by eapply elem_of_dom_2).
  rewrite lookup_insert_ne by done. eapply lookup_weaken; [|exact Hs].
  by rewrite lookup_insert_ne by done.
Qed.

(** *** One rule per statement *)

Lemma copies_flat {A} `{Flat A} : copies (mret (M := Mem cell) (A := A)).
Proof. intros h a v [= <-]. exists a, h. split_and!; [done..|]. split_and!; [done| |done]. cbn. set_solver. Qed.

Lemma copies_pair {A V B W} `{GoTypeOk cell A V} `{GoTypeOk cell B W} (f : A → Mem cell A) (g : B → Mem cell B) :
  copies f → copies g → copies (f ⊗ g).
Proof.
  intros Hf Hg h [a b] v; cbn. destruct (view h a) as [va|] eqn:Ea; [|done]. cbn.
  destruct (view h b) as [vb|] eqn:Eb; [|done]. intros [= <-].
  destruct (Hf h a va Ea) as (a' & h1 & Hfa & Hs1 & Hva & Hra & Hta).
  destruct (view_mono _ _ _ _ Hs1 Eb) as (Eb' & _).
  destruct (Hg h1 b vb Eb') as (b' & h2 & Hgb & Hs2 & Hvb & Hrb & Htb).
  destruct (view_mono _ _ _ _ Hs2 Hva) as (Hva2 & Hra2 & Hta2).
  pose proof (view_reach _ _ _ Hva). apply subseteq_dom in Hs1 as Hd.
  exists (a', b'), h2. split_and!.
  - unfold copyPair, mbind, Mem_bind. cbn. by rewrite Hfa, Hgb.
  - by etrans.
  - split_and!; cbn.
    + by rewrite Hva2, Hvb.
    + rewrite Hra2. set_solver.
    + rewrite Hta2, Hra2. split_and!; [done..|]. set_solver.
Qed.

(** A struct is copied when the tuple of its fields is. *)
Lemma copies_struct {A T V W} `{GoType cell T W} (fields : A → T) (value : W → V) (build : T → A)
    (f : T → Mem cell T) (into : A → Mem cell A) :
  copies f → (∀ t, fields (build t) = t) →
  (∀ a h, into a h = (t ← f (fields a); mret (build t)) h) →
  copies (H := struct_type fields value) into.
Proof.
  intros Hf Hb He h a v Hv. cbn in Hv. apply fmap_Some in Hv as (w & Hw & ->).
  destruct (Hf h _ w Hw) as (t & h' & Hft & Hs & Hvt & Hrt & Htt).
  exists (build t), h'. rewrite He. unfold mbind, Mem_bind. rewrite Hft. split_and!; [done..|].
  split_and!; cbn; rewrite Hb; [by rewrite Hvt|done|done].
Qed.

Lemma copies_nil {A V} `{GoType cell A V} h (a : A) (v : V) :
  view h a = Some v → reach h a = ∅ → tree h a → copied h h a v.
Proof. intros Hv Hr Ht. split_and!; [done| |done]. rewrite Hr. set_solver. Qed.

Lemma copies_ptr {A V} `{GoTypeOk cell A V} `{Stored cell A} (f : A → Mem cell A) :
  copies f → copies (copyPtr f).
Proof.
  intros Hf h [[l|]] v; unfold copyPtr; cbn [addr].
  2:{ intros [= <-]. exists (Ptr None), h. split_and!; [done..|]. by apply copies_nil. }
  cbn. intros Hv. destruct (content h l) as [a|] eqn:E; [|done]. cbn in Hv.
  destruct (view h a) as [w|] eqn:Hw; [|done]. injection Hv as <-.
  set (out := fresh (dom h)). assert (out ∉ dom h) as Hout by apply new_fresh.
  destruct (Hf (<[out := inj a]> h) a w) as (a' & h2 & Hfa & Hs & Hv2 & Hr2 & Ht2).
  { by apply (view_mono h); [apply new_sub|]. }
  rewrite dom_insert_L in Hr2.
  destruct (view_frame h2 (<[out := inj a']> h2) a') as (Hv3 & Hr3 & Ht3).
  { apply agree_store. set_solver. }
  exists (Ptr (Some out)), (<[out := inj a']> h2). split; [|split].
  - unfold mbind, Mem_bind, load, new, store. rewrite E. cbn. fold out. by rewrite Hfa.
  - by eapply sub_store.
  - split_and!; cbn; rewrite content_new; cbn.
    + by rewrite Hv3, Hv2.
    + rewrite Hr3. set_solver.
    + rewrite Hr3, Ht3. split; [set_solver|done].
Qed.

Lemma copies_mapMem {A V} `{GoTypeOk cell A V} (f : A → Mem cell A) h (l : list A) (v : list V) :
  copies f → views h l = Some v →
  ∃ l' h', mapMem f l h = Some (l', h') ∧ h ⊆ h' ∧
    views h' l' = Some v ∧ reaches h' l' ## dom h ∧ trees h' l'.
Proof.
  intros Hf. revert h v. induction l as [|a l IH]; intros h v.
  { intros [= <-]. exists [], h. split_and!; [done..| |done]. unfold reaches. set_solver. }
  unfold views. cbn. destruct (view h a) as [w|] eqn:Hw; [|done]. cbn.
  destruct (mapM _ l) as [ws|] eqn:Hws; [|done].
  intros [= <-]. destruct (Hf h a w Hw) as (a' & h1 & Hfa & Hs1 & Hva & Hra & Hta).
  destruct (IH h1 ws) as (l' & h2 & Hl & Hs2 & Hv2 & Hr2 & Ht2).
  { eapply views_mono; [exact Hs1|exact Hws]. }
  destruct (view_mono _ _ _ _ Hs2 Hva) as (Hva2 & Hra2 & Hta2).
  pose proof (view_reach _ _ _ Hva). apply subseteq_dom in Hs1 as Hd.
  exists (a' :: l'), h2. split_and!.
  - unfold mbind, Mem_bind. rewrite Hfa. by rewrite Hl.
  - by etrans.
  - cbn. rewrite Hva2. cbn. unfold views in Hv2. by rewrite Hv2.
  - unfold reaches in *. cbn. rewrite Hra2. set_solver.
  - cbn. rewrite Hra2, Hta2. split_and!; [done| |done]. set_solver.
Qed.

Lemma mapMem_length {A} (f : A → Mem cell A) l h l' h' :
  mapMem f l h = Some (l', h') → length l' = length l.
Proof.
  revert h l'. induction l as [|a l IH]; cbn; intros h l'; [by intros [= <- <-]|].
  unfold mbind, Mem_bind. destruct (f a h) as [[a' h1]|]; [|done].
  destruct (mapMem f l h1) as [[k h2]|] eqn:E; [|done]. intros [= <- <-]. cbn. by rewrite (IH _ _ E).
Qed.

Lemma copies_elements {A V} `{GoTypeOk cell A V} `{Stored cell (list A)} (f : A → Mem cell A) :
  copies f → copies (copyElements f).
Proof.
  intros Hf h [[l|] n] v; unfold copyElements; cbn [array len].
  2:{ intros [= <-]. exists (Slice None 0), h. split_and!; [done..|]. by apply copies_nil. }
  cbn. intros Hv. destruct (content h l) as [a0|] eqn:E; [|done]. cbn in Hv.
  destruct (n <=? length a0); [|done].
  set (a := take n a0) in *.
  set (out := fresh (dom h)). assert (out ∉ dom h) as Hout by apply new_fresh.
  destruct (copies_mapMem f (<[out := inj a]> h) a v Hf) as (a' & h2 & Hfa & Hs & Hv2 & Hr2 & Ht2).
  { eapply views_mono; [by apply new_sub|exact Hv]. }
  rewrite dom_insert_L in Hr2.
  destruct (views_frame h2 (<[out := inj a']> h2) a') as (Hv3 & Hr3 & Ht3).
  { apply agree_store. set_solver. }
  exists (Slice (Some out) (length a')), (<[out := inj a']> h2). split; [|split].
  - unfold mbind, Mem_bind, load, new, store. rewrite E. cbn. fold a out. by rewrite Hfa.
  - by eapply sub_store.
  - split_and!; cbn; rewrite content_new; cbn; rewrite take_ge by done.
    + by rewrite Nat.leb_refl, Hv3, Hv2.
    + rewrite Hr3. set_solver.
    + rewrite Hr3, Ht3. split; [set_solver|done].
Qed.

Lemma reaches_flat {A} `{Flat A} h (l : list A) : reaches h l = ∅.
Proof.
  unfold reaches. apply set_eq. intros x. rewrite elem_of_union_list. split; [|set_solver].
  by intros (X & (y & -> & _)%list_elem_of_fmap & Hx).
Qed.

Lemma trees_flat {A} `{Flat A} h (l : list A) : trees h l.
Proof. induction l as [|x l IH]; cbn; [done|]. split_and!; [done| |done]. set_solver. Qed.

(** An array copied as it is: right only for elements without addresses. *)
Lemma copies_slice {A} `{Flat A} `{Stored cell (list A)} : copies (copySlice (A := A)).
Proof.
  intros h [[l|] n] v; unfold copySlice; cbn [array len].
  2:{ intros [= <-]. exists (Slice None 0), h. split_and!; [done..|]. by apply copies_nil. }
  cbn. intros Hv. destruct (content h l) as [a0|] eqn:E; [|done]. cbn in Hv.
  destruct (n <=? length a0); [|done].
  set (a := take n a0) in *. pose proof (new_fresh h).
  exists (Slice (Some (fresh (dom h))) (length a)), (<[fresh (dom h) := inj a]> h). split; [|split].
  - unfold mbind, Mem_bind, load, new. by rewrite E.
  - by apply new_sub.
  - split_and!; cbn; rewrite content_new; cbn; rewrite take_ge by done; rewrite ?reaches_flat.
    + by rewrite Nat.leb_refl.
    + set_solver.
    + split; [set_solver|apply trees_flat].
Qed.

Lemma copies_map {M} `{Stored cell M} : copies (copyMap (M := M)).
Proof.
  intros h [[l|]] v; unfold copyMap; cbn [buckets].
  2:{ intros [= <-]. exists (GoMap None), h. split_and!; [done..|]. by apply copies_nil. }
  cbn. intros Hv. destruct (content h l) as [a|] eqn:E; [|done]. injection Hv as <-.
  pose proof (new_fresh h).
  exists (GoMap (Some (fresh (dom h)))), (<[fresh (dom h) := inj a]> h). split; [|split].
  - unfold mbind, Mem_bind, load, new. by rewrite E.
  - by apply new_sub.
  - split_and!; cbn; [by rewrite content_new|set_solver|done].
Qed.

(** *** Pointers and slices, for code that changes what it copied *)

Section access.
Context {A V : Type} `{GoTypeOk cell A V} `{Stored cell A}.

Lemma view_ptr_inv h (p : ptr A) v : view h p = Some (Some v) →
  ∃ l a, p = Ptr (Some l) ∧ content h l = Some a ∧ view h a = Some v.
Proof.
  destruct p as [[l|]]; cbn; [|done]. destruct (content h l) as [a|] eqn:E; [|done]. cbn.
  destruct (view h a) as [w|] eqn:Hw; [|done]. intros [= <-]. by exists l, a.
Qed.
Lemma view_ptr h (l : loc) (a : A) v :
  content h l = Some a → view h a = Some v → view h (Ptr (A := A) (Some l)) = Some (Some v).
Proof. intros E Hv. cbn. rewrite E. cbn. by rewrite Hv. Qed.
Lemma reach_ptr h (l : loc) (a : A) :
  content h l = Some a → reach h (Ptr (A := A) (Some l)) = {[l]} ∪ reach h a.
Proof. intros E. cbn. by rewrite E. Qed.
Lemma tree_ptr_inv h (l : loc) (a : A) :
  content h l = Some a → tree h (Ptr (A := A) (Some l)) → l ∉ reach h a ∧ tree h a.
Proof. intros E. cbn. by rewrite E. Qed.
End access.

Lemma views_flat {A} `{Flat A} h (l : list A) : views h l = Some l.
Proof. unfold views. induction l as [|a l IH]; cbn in *; [done|]. by rewrite IH. Qed.

Lemma view_slice_inv {A} `{Flat A} `{Stored cell (list A)} h (s : slice A) (v : list A) :
  view h s = Some v →
  match array s with
  | None => v = []
  | Some l => ∃ a, content h l = Some a ∧ len s ≤ length a ∧ v = take (len s) a
  end.
Proof.
  destruct s as [[l|] n]; cbn; [|by intros [= <-]]. destruct (content h l) as [a|] eqn:E; [|done].
  cbn. destruct (Nat.leb_spec n (length a)); [|done]. rewrite views_flat. intros [= <-]. by exists a.
Qed.
Lemma view_slice {A} `{Flat A} `{Stored cell (list A)} h (l : loc) (a : list A) n :
  content h l = Some a → n ≤ length a → view h (Slice (A := A) (Some l) n) = Some (take n a).
Proof. intros E Hn. cbn. rewrite E. cbn. rewrite views_flat. by destruct (Nat.leb_spec n (length a)); [|lia]. Qed.
Lemma reach_slice {A} `{Flat A} `{Stored cell (list A)} h (l : loc) (a : list A) n :
  content h l = Some a → reach h (Slice (A := A) (Some l) n) = {[l]}.
Proof. intros E. cbn. rewrite E, reaches_flat. set_solver. Qed.
End rules.

(** ** Independence *)

(** What a correct copy means for the code that uses it: the original and the
    copy stand for the same value, nothing that was there has changed, and
    whatever is written later through one of them, by code that can reach only
    what it reaches or allocates, leaves the other as it is. *)
Definition writes_within {cell} (D : gset loc) (h h' : gmap loc cell) : Prop :=
  ∀ l, l ∈ dom h → l ∉ D → h' !! l = h !! l.

Definition independent_copy {cell A V} `{GoType cell A V} (h h' : gmap loc cell) (a a' : A) (v : V) : Prop :=
  h ⊆ h' ∧ view h' a = Some v ∧ view h' a' = Some v ∧
  tree h' a' ∧ reach h' a' ## reach h' a ∧
  (∀ h2, writes_within (reach h' a') h' h2 → view h2 a = Some v) ∧
  (∀ h2, writes_within (reach h' a) h' h2 → view h2 a' = Some v).

Lemma copies_independent {cell A V} `{GoTypeOk cell A V} (f : A → Mem cell A) h (a : A) (v : V) :
  copies f → view h a = Some v → ∃ a' h', f a h = Some (a', h') ∧ independent_copy h h' a a' v.
Proof.
  intros Hf Hv. destruct (Hf h a v Hv) as (a' & h' & Hfa & Hs & Hv' & Hr' & Ht').
  destruct (view_mono _ _ _ _ Hs Hv) as (Hva & Hra & _).
  pose proof (view_reach _ _ _ Hv). pose proof (view_reach _ _ _ Hv'). apply subseteq_dom in Hs as Hd.
  assert (reach h' a' ## reach h' a) by (rewrite Hra; set_solver).
  exists a', h'. split; [done|]. split_and!; [done..| |].
  - intros h2 Hw. destruct (view_frame h' h2 a) as [-> _]; [|done].
    intros l Hl. symmetry. apply Hw; set_solver.
  - intros h2 Hw. destruct (view_frame h' h2 a') as [-> _]; [|done].
    intros l Hl. symmetry. apply Hw; set_solver.
Qed.

(** [set_solver] with the sets [reach h a] as atoms. *)
Ltac reach_solver :=
  repeat match goal with
  | H : context [reach ?h ?x] |- _ => let X := fresh "X" in set (X := reach h x) in *; clearbody X
  | |- context [reach ?h ?x] => let X := fresh "X" in set (X := reach h x) in *; clearbody X
  end; set_solver.

(** From here on a type is read by the rules above. *)
#[global] Arguments view : simpl never.
#[global] Arguments reach : simpl never.
#[global] Arguments tree : simpl never.
