(* ===== verification/DeepCopy.v ===== *)
(** * The generated deep copies: pkg/apis/kueueoperator/v1/zz_generated.deepcopy.go

    The API types with references as a [GoHeap] has them, and the functions
    [DeepCopyInto] and [DeepCopy] of every type. The rest of the development
    uses the values these structs stand for and passes them by copy; here it is
    proved that a deep copy is such a copy: equal, and sharing no address with
    what was there, so that code which changes its copy of an object from a
    lister or a client does not change the object in the cache.

    [Module Go] has the located types, under the names of [ApiTypes], and
    [view] relates them to those. [DeepCopyInto(out)] is a function from the
    value of the receiver to what it writes into [*out]; [*out = *in] copies the
    fields, addresses included, and the statements after it replace some. A
    slice is the address of its array: no two slices overlap in part.

    The vendored structs inside ([ObjectMeta], [ListMeta], [OperatorSpec],
    [OperatorStatus]) have the fields that [K8s] and [ApiTypes] keep; a
    [RawExtension] is the address of its JSON. *)
From stdpp Require Import sets.
From S2P Require Import Prelude GoStd K8s ApiTypes GoHeap.

Module Go.

(** ** Located types *)

(** [metav1.TypeMeta] *)
Record TypeMeta := { tm_Kind : string; tm_APIVersion : string }.

Record AdmissionFairSharingCustom := {
  afc_UsageHalfLifeTimeSeconds : Z;
  afc_UsageSamplingIntervalSeconds : Z;
  afc_ResourceWeights : slice ResourceWeight;
}.
Record AdmissionFairSharing := {
  afs_Configuration : AdmissionFairSharingConfiguration;
  afs_Custom : AdmissionFairSharingCustom;
}.
Record ByWorkload := {
  bw_Admission : GangSchedulingWorkloadAdmission;
  bw_TimeoutSeconds : Z;
  bw_RecoveryTimeoutSeconds : ptr Z;
  bw_RequeuingStrategy : RequeuingStrategy;
}.
Record ControllerMetrics := {
  cm_CustomLabels : slice ControllerMetricsCustomLabel;
}.
Record ControllerManager := {
  cmgr_Metrics : ControllerMetrics;
}.
Record DeviceClassMapping := {
  dm_Name : string;
  dm_DeviceClassNames : slice DeviceClassName;
  dm_Sources : slice DeviceClassSourceConfig;
}.
Record GangScheduling := {
  gs_Policy : GangSchedulingPolicy;
  gs_ByWorkload : ptr ByWorkload;
}.
Record Integrations := {
  in_Frameworks : slice KueueIntegration;
  in_ExternalFrameworks : slice ExternalFramework;
  in_LabelKeysToCopy : slice LabelKeys;
}.
Record MultiKueue := {
  mk_ExternalFrameworks : slice ExternalFramework;
}.
Record Resources := {
  rc_DeviceClassMappings : slice DeviceClassMapping;
}.
Record KueueConfiguration := {
  kc_Integrations : Integrations;
  kc_WorkloadManagement : WorkloadManagement;
  kc_GangScheduling : GangScheduling;
  kc_Preemption : Preemption;
  kc_Resources : Resources;
  kc_MultiKueue : ptr MultiKueue;
  kc_AdmissionFairSharing : AdmissionFairSharing;
  kc_ControllerManager : ControllerManager;
}.
Record OperatorSpec := {
  os_ManagementState : string;
  os_LogLevel : string;
  os_OperatorLogLevel : string;
  os_UnsupportedConfigOverrides : ptr json;
  os_ObservedConfig : ptr json;
}.
Record KueueOperandSpec := {
  ks_OperatorSpec : OperatorSpec;
  ks_Config : KueueConfiguration;
}.
Record OperatorStatus := {
  ost_Conditions : slice OperatorCondition;
  ost_Generations : slice GenerationStatus;
  ost_ReadyReplicas : Z;
  ost_other : json;
}.
Record KueueStatus := {
  kst_OperatorStatus : OperatorStatus;
}.
Record OwnerReference := {
  or_APIVersion : string;
  or_Kind : string;
  or_Name : string;
  or_UID : string;
  or_Controller : ptr bool;
  or_BlockOwnerDeletion : ptr bool;
}.
Record ObjectMeta := {
  om_Name : string;
  om_Namespace : string;
  om_UID : string;
  om_ResourceVersion : string;
  om_Generation : Z;
  om_DeletionTimestamp : ptr string;
  om_Labels : gomap (gmap string string);
  om_Annotations : gomap (gmap string string);
  om_OwnerReferences : slice OwnerReference;
  om_Finalizers : slice string;
}.
Record ListMeta := {
  lm_ResourceVersion : string;
  lm_Continue : string;
  lm_RemainingItemCount : ptr Z;
}.
Record Kueue := {
  ku_TypeMeta : TypeMeta;
  ku_ObjectMeta : ObjectMeta;
  ku_Spec : KueueOperandSpec;
  ku_Status : KueueStatus;
}.
Record KueueList := {
  kl_TypeMeta : TypeMeta;
  kl_ListMeta : ListMeta;
  kl_Items : slice Kueue;
}.

(** What a heap holds: a value behind a pointer, the array of a slice, the
    entries of a map. *)
Inductive cell : Type :=
  | Z_cell (x : Z)
  | bool_cell (x : bool)
  | string_cell (x : string)
  | json_cell (x : json)
  | AdmissionFairSharing_cell (x : AdmissionFairSharing)
  | AdmissionFairSharingCustom_cell (x : AdmissionFairSharingCustom)
  | ByWorkload_cell (x : ByWorkload)
  | CELDeviceSelector_cell (x : CELDeviceSelector)
  | ControllerManager_cell (x : ControllerManager)
  | ControllerMetrics_cell (x : ControllerMetrics)
  | ControllerMetricsCustomLabel_cell (x : ControllerMetricsCustomLabel)
  | DeviceClassCapacitySource_cell (x : DeviceClassCapacitySource)
  | DeviceClassCounterSource_cell (x : DeviceClassCounterSource)
  | DeviceClassMapping_cell (x : DeviceClassMapping)
  | DeviceClassSourceConfig_cell (x : DeviceClassSourceConfig)
  | DeviceSelector_cell (x : DeviceSelector)
  | ExternalFramework_cell (x : ExternalFramework)
  | GangScheduling_cell (x : GangScheduling)
  | Integrations_cell (x : Integrations)
  | Kueue_cell (x : Kueue)
  | KueueConfiguration_cell (x : KueueConfiguration)
  | KueueList_cell (x : KueueList)
  | KueueOperandSpec_cell (x : KueueOperandSpec)
  | KueueStatus_cell (x : KueueStatus)
  | LabelKeys_cell (x : LabelKeys)
  | MultiKueue_cell (x : MultiKueue)
  | Preemption_cell (x : Preemption)
  | RequeuingStrategy_cell (x : RequeuingStrategy)
  | ResourceWeight_cell (x : ResourceWeight)
  | Resources_cell (x : Resources)
  | SourceKey_cell (x : SourceKey)
  | SourceKeyAnnotation_cell (x : SourceKeyAnnotation)
  | SourceKeyLabel_cell (x : SourceKeyLabel)
  | WorkloadManagement_cell (x : WorkloadManagement)
  | string_array (x : list string)
  | ResourceWeight_array (x : list ResourceWeight)
  | ControllerMetricsCustomLabel_array (x : list ControllerMetricsCustomLabel)
  | DeviceClassSourceConfig_array (x : list DeviceClassSourceConfig)
  | ExternalFramework_array (x : list ExternalFramework)
  | LabelKeys_array (x : list LabelKeys)
  | OperatorCondition_array (x : list OperatorCondition)
  | GenerationStatus_array (x : list GenerationStatus)
  | DeviceClassMapping_array (x : list DeviceClassMapping)
  | OwnerReference_array (x : list OwnerReference)
  | Kueue_array (x : list Kueue)
  | map_cell (x : gmap string string).

#[export] Instance Z_stored : Stored cell (Z) :=
  {| inj := Z_cell; proj c := match c with Z_cell x => Some x | _ => None end; proj_inj _ := eq_refl |}.
#[export] Instance bool_stored : Stored cell (bool) :=
  {| inj := bool_cell; proj c := match c with bool_cell x => Some x | _ => None end; proj_inj _ := eq_refl |}.
#[export] Instance string_stored : Stored cell (string) :=
  {| inj := string_cell; proj c := match c with string_cell x => Some x | _ => None end; proj_inj _ := eq_refl |}.
#[export] Instance json_stored : Stored cell (json) :=
  {| inj := json_cell; proj c := match c with json_cell x => Some x | _ => None end; proj_inj _ := eq_refl |}.
#[export] Instance AdmissionFairSharing_stored : Stored cell (AdmissionFairSharing) :=
  {| inj := AdmissionFairSharing_cell; proj c := match c with AdmissionFairSharing_cell x => Some x | _ => None end; proj_inj _ := eq_refl |}.
#[export] Instance AdmissionFairSharingCustom_stored : Stored cell (AdmissionFairSharingCustom) :=
  {| inj := AdmissionFairSharingCustom_cell; proj c := match c with AdmissionFairSharingCustom_cell x => Some x | _ => None end; proj_inj _ := eq_refl |}.
#[export] Instance ByWorkload_stored : Stored cell (ByWorkload) :=
  {| inj := ByWorkload_cell; proj c := match c with ByWorkload_cell x => Some x | _ => None end; proj_inj _ := eq_refl |}.
#[export] Instance CELDeviceSelector_stored : Stored cell (CELDeviceSelector) :=
  {| inj := CELDeviceSelector_cell; proj c := match c with CELDeviceSelector_cell x => Some x | _ => None end; proj_inj _ := eq_refl |}.
#[export] Instance ControllerManager_stored : Stored cell (ControllerManager) :=
  {| inj := ControllerManager_cell; proj c := match c with ControllerManager_cell x => Some x | _ => None end; proj_inj _ := eq_refl |}.
#[export] Instance ControllerMetrics_stored : Stored cell (ControllerMetrics) :=
  {| inj := ControllerMetrics_cell; proj c := match c with ControllerMetrics_cell x => Some x | _ => None end; proj_inj _ := eq_refl |}.
#[export] Instance ControllerMetricsCustomLabel_stored : Stored cell (ControllerMetricsCustomLabel) :=
  {| inj := ControllerMetricsCustomLabel_cell; proj c := match c with ControllerMetricsCustomLabel_cell x => Some x | _ => None end; proj_inj _ := eq_refl |}.
#[export] Instance DeviceClassCapacitySource_stored : Stored cell (DeviceClassCapacitySource) :=
  {| inj := DeviceClassCapacitySource_cell; proj c := match c with DeviceClassCapacitySource_cell x => Some x | _ => None end; proj_inj _ := eq_refl |}.
#[export] Instance DeviceClassCounterSource_stored : Stored cell (DeviceClassCounterSource) :=
  {| inj := DeviceClassCounterSource_cell; proj c := match c with DeviceClassCounterSource_cell x => Some x | _ => None end; proj_inj _ := eq_refl |}.
#[export] Instance DeviceClassMapping_stored : Stored cell (DeviceClassMapping) :=
  {| inj := DeviceClassMapping_cell; proj c := match c with DeviceClassMapping_cell x => Some x | _ => None end; proj_inj _ := eq_refl |}.
#[export] Instance DeviceClassSourceConfig_stored : Stored cell (DeviceClassSourceConfig) :=
  {| inj := DeviceClassSourceConfig_cell; proj c := match c with DeviceClassSourceConfig_cell x => Some x | _ => None end; proj_inj _ := eq_refl |}.
#[export] Instance DeviceSelector_stored : Stored cell (DeviceSelector) :=
  {| inj := DeviceSelector_cell; proj c := match c with DeviceSelector_cell x => Some x | _ => None end; proj_inj _ := eq_refl |}.
#[export] Instance ExternalFramework_stored : Stored cell (ExternalFramework) :=
  {| inj := ExternalFramework_cell; proj c := match c with ExternalFramework_cell x => Some x | _ => None end; proj_inj _ := eq_refl |}.
#[export] Instance GangScheduling_stored : Stored cell (GangScheduling) :=
  {| inj := GangScheduling_cell; proj c := match c with GangScheduling_cell x => Some x | _ => None end; proj_inj _ := eq_refl |}.
#[export] Instance Integrations_stored : Stored cell (Integrations) :=
  {| inj := Integrations_cell; proj c := match c with Integrations_cell x => Some x | _ => None end; proj_inj _ := eq_refl |}.
#[export] Instance Kueue_stored : Stored cell (Kueue) :=
  {| inj := Kueue_cell; proj c := match c with Kueue_cell x => Some x | _ => None end; proj_inj _ := eq_refl |}.
#[export] Instance KueueConfiguration_stored : Stored cell (KueueConfiguration) :=
  {| inj := KueueConfiguration_cell; proj c := match c with KueueConfiguration_cell x => Some x | _ => None end; proj_inj _ := eq_refl |}.
#[export] Instance KueueList_stored : Stored cell (KueueList) :=
  {| inj := KueueList_cell; proj c := match c with KueueList_cell x => Some x | _ => None end; proj_inj _ := eq_refl |}.
#[export] Instance KueueOperandSpec_stored : Stored cell (KueueOperandSpec) :=
  {| inj := KueueOperandSpec_cell; proj c := match c with KueueOperandSpec_cell x => Some x | _ => None end; proj_inj _ := eq_refl |}.
#[export] Instance KueueStatus_stored : Stored cell (KueueStatus) :=
  {| inj := KueueStatus_cell; proj c := match c with KueueStatus_cell x => Some x | _ => None end; proj_inj _ := eq_refl |}.
#[export] Instance LabelKeys_stored : Stored cell (LabelKeys) :=
  {| inj := LabelKeys_cell; proj c := match c with LabelKeys_cell x => Some x | _ => None end; proj_inj _ := eq_refl |}.
#[export] Instance MultiKueue_stored : Stored cell (MultiKueue) :=
  {| inj := MultiKueue_cell; proj c := match c with MultiKueue_cell x => Some x | _ => None end; proj_inj _ := eq_refl |}.
#[export] Instance Preemption_stored : Stored cell (Preemption) :=
  {| inj := Preemption_cell; proj c := match c with Preemption_cell x => Some x | _ => None end; proj_inj _ := eq_refl |}.
#[export] Instance RequeuingStrategy_stored : Stored cell (RequeuingStrategy) :=
  {| inj := RequeuingStrategy_cell; proj c := match c with RequeuingStrategy_cell x => Some x | _ => None end; proj_inj _ := eq_refl |}.
#[export] Instance ResourceWeight_stored : Stored cell (ResourceWeight) :=
  {| inj := ResourceWeight_cell; proj c := match c with ResourceWeight_cell x => Some x | _ => None end; proj_inj _ := eq_refl |}.
#[export] Instance Resources_stored : Stored cell (Resources) :=
  {| inj := Resources_cell; proj c := match c with Resources_cell x => Some x | _ => None end; proj_inj _ := eq_refl |}.
#[export] Instance SourceKey_stored : Stored cell (SourceKey) :=
  {| inj := SourceKey_cell; proj c := match c with SourceKey_cell x => Some x | _ => None end; proj_inj _ := eq_refl |}.
#[export] Instance SourceKeyAnnotation_stored : Stored cell (SourceKeyAnnotation) :=
  {| inj := SourceKeyAnnotation_cell; proj c := match c with SourceKeyAnnotation_cell x => Some x | _ => None end; proj_inj _ := eq_refl |}.
#[export] Instance SourceKeyLabel_stored : Stored cell (SourceKeyLabel) :=
  {| inj := SourceKeyLabel_cell; proj c := match c with SourceKeyLabel_cell x => Some x | _ => None end; proj_inj _ := eq_refl |}.
#[export] Instance WorkloadManagement_stored : Stored cell (WorkloadManagement) :=
  {| inj := WorkloadManagement_cell; proj c := match c with WorkloadManagement_cell x => Some x | _ => None end; proj_inj _ := eq_refl |}.
#[export] Instance strings_stored : Stored cell (list string) :=
  {| inj := string_array; proj c := match c with string_array x => Some x | _ => None end; proj_inj _ := eq_refl |}.
#[export] Instance ResourceWeights_stored : Stored cell (list ResourceWeight) :=
  {| inj := ResourceWeight_array; proj c := match c with ResourceWeight_array x => Some x | _ => None end; proj_inj _ := eq_refl |}.
#[export] Instance ControllerMetricsCustomLabels_stored : Stored cell (list ControllerMetricsCustomLabel) :=
  {| inj := ControllerMetricsCustomLabel_array; proj c := match c with ControllerMetricsCustomLabel_array x => Some x | _ => None end; proj_inj _ := eq_refl |}.
#[export] Instance DeviceClassSourceConfigs_stored : Stored cell (list DeviceClassSourceConfig) :=
  {| inj := DeviceClassSourceConfig_array; proj c := match c with DeviceClassSourceConfig_array x => Some x | _ => None end; proj_inj _ := eq_refl |}.
#[export] Instance ExternalFrameworks_stored : Stored cell (list ExternalFramework) :=
  {| inj := ExternalFramework_array; proj c := match c with ExternalFramework_array x => Some x | _ => None end; proj_inj _ := eq_refl |}.
#[export] Instance LabelKeyss_stored : Stored cell (list LabelKeys) :=
  {| inj := LabelKeys_array; proj c := match c with LabelKeys_array x => Some x | _ => None end; proj_inj _ := eq_refl |}.
#[export] Instance OperatorConditions_stored : Stored cell (list OperatorCondition) :=
  {| inj := OperatorCondition_array; proj c := match c with OperatorCondition_array x => Some x | _ => None end; proj_inj _ := eq_refl |}.
#[export] Instance GenerationStatuss_stored : Stored cell (list GenerationStatus) :=
  {| inj := GenerationStatus_array; proj c := match c with GenerationStatus_array x => Some x | _ => None end; proj_inj _ := eq_refl |}.
#[export] Instance DeviceClassMappings_stored : Stored cell (list DeviceClassMapping) :=
  {| inj := DeviceClassMapping_array; proj c := match c with DeviceClassMapping_array x => Some x | _ => None end; proj_inj _ := eq_refl |}.
#[export] Instance OwnerReferences_stored : Stored cell (list OwnerReference) :=
  {| inj := OwnerReference_array; proj c := match c with OwnerReference_array x => Some x | _ => None end; proj_inj _ := eq_refl |}.
#[export] Instance Kueues_stored : Stored cell (list Kueue) :=
  {| inj := Kueue_array; proj c := match c with Kueue_array x => Some x | _ => None end; proj_inj _ := eq_refl |}.
#[export] Instance map_stored : Stored cell (gmap string string) :=
  {| inj := map_cell; proj c := match c with map_cell x => Some x | _ => None end; proj_inj _ := eq_refl |}.

Notation Mem := (GoHeap.Mem cell).

(** ** What they stand for *)

#[export] Instance Z_flat : Flat Z := tt.
#[export] Instance bool_flat : Flat bool := tt.
#[export] Instance string_flat : Flat string := tt.
#[export] Instance json_flat : Flat json := tt.
#[export] Instance TypeMeta_flat : Flat TypeMeta := tt.
#[export] Instance OperatorCondition_flat : Flat OperatorCondition := tt.
#[export] Instance GenerationStatus_flat : Flat GenerationStatus := tt.
#[export] Instance CELDeviceSelector_flat : Flat CELDeviceSelector := tt.
#[export] Instance ControllerMetricsCustomLabel_flat : Flat ControllerMetricsCustomLabel := tt.
#[export] Instance DeviceClassCapacitySource_flat : Flat DeviceClassCapacitySource := tt.
#[export] Instance DeviceClassCounterSource_flat : Flat DeviceClassCounterSource := tt.
#[export] Instance DeviceClassSourceConfig_flat : Flat DeviceClassSourceConfig := tt.
#[export] Instance DeviceSelector_flat : Flat DeviceSelector := tt.
#[export] Instance ExternalFramework_flat : Flat ExternalFramework := tt.
#[export] Instance LabelKeys_flat : Flat LabelKeys := tt.
#[export] Instance Preemption_flat : Flat Preemption := tt.
#[export] Instance RequeuingStrategy_flat : Flat RequeuingStrategy := tt.
#[export] Instance ResourceWeight_flat : Flat ResourceWeight := tt.
#[export] Instance SourceKey_flat : Flat SourceKey := tt.
#[export] Instance SourceKeyAnnotation_flat : Flat SourceKeyAnnotation := tt.
#[export] Instance SourceKeyLabel_flat : Flat SourceKeyLabel := tt.
#[export] Instance WorkloadManagement_flat : Flat WorkloadManagement := tt.

(** The two raw extensions of an [OperatorSpec], as the object that holds
    those that are set. *)
Definition raw_extensions (overrides observed : option json) : json :=
  JObj (from_option (λ j, [("unsupportedConfigOverrides", j)]) [] overrides ++
        from_option (λ j, [("observedConfig", j)]) [] observed).

Record ListMeta_value := {
  lmv_ResourceVersion : string;
  lmv_Continue : string;
  lmv_RemainingItemCount : option Z;
}.

#[export] Instance AdmissionFairSharingCustom_type : GoType cell AdmissionFairSharingCustom (ApiTypes.AdmissionFairSharingCustom) := struct_type
  (λ x, (afc_UsageHalfLifeTimeSeconds x, afc_UsageSamplingIntervalSeconds x, afc_ResourceWeights x))
  (λ '(usageHalfLifeTimeSeconds, usageSamplingIntervalSeconds, resourceWeights), ApiTypes.Build_AdmissionFairSharingCustom usageHalfLifeTimeSeconds usageSamplingIntervalSeconds resourceWeights).
#[export] Instance AdmissionFairSharingCustom_type_ok : GoTypeOk cell AdmissionFairSharingCustom (ApiTypes.AdmissionFairSharingCustom).
Proof. apply struct_type_ok. Qed.
#[export] Instance AdmissionFairSharing_type : GoType cell AdmissionFairSharing (ApiTypes.AdmissionFairSharing) := struct_type
  (λ x, (afs_Configuration x, afs_Custom x))
  (λ '(configuration, custom), ApiTypes.Build_AdmissionFairSharing configuration custom).
#[export] Instance AdmissionFairSharing_type_ok : GoTypeOk cell AdmissionFairSharing (ApiTypes.AdmissionFairSharing).
Proof. apply struct_type_ok. Qed.
#[export] Instance ByWorkload_type : GoType cell ByWorkload (ApiTypes.ByWorkload) := struct_type
  (λ x, (bw_Admission x, bw_TimeoutSeconds x, bw_RecoveryTimeoutSeconds x, bw_RequeuingStrategy x))
  (λ '(admission, timeoutSeconds, recoveryTimeoutSeconds, requeuingStrategy), ApiTypes.Build_ByWorkload admission timeoutSeconds recoveryTimeoutSeconds requeuingStrategy).
#[export] Instance ByWorkload_type_ok : GoTypeOk cell ByWorkload (ApiTypes.ByWorkload).
Proof. apply struct_type_ok. Qed.
#[export] Instance ControllerMetrics_type : GoType cell ControllerMetrics (ApiTypes.ControllerMetrics) := struct_type
  (λ x, cm_CustomLabels x)
  (λ customLabels, ApiTypes.Build_ControllerMetrics customLabels).
#[export] Instance ControllerMetrics_type_ok : GoTypeOk cell ControllerMetrics (ApiTypes.ControllerMetrics).
Proof. apply struct_type_ok. Qed.
#[export] Instance ControllerManager_type : GoType cell ControllerManager (ApiTypes.ControllerManager) := struct_type
  (λ x, cmgr_Metrics x)
  (λ metrics, ApiTypes.Build_ControllerManager metrics).
#[export] Instance ControllerManager_type_ok : GoTypeOk cell ControllerManager (ApiTypes.ControllerManager).
Proof. apply struct_type_ok. Qed.
#[export] Instance DeviceClassMapping_type : GoType cell DeviceClassMapping (ApiTypes.DeviceClassMapping) := struct_type
  (λ x, (dm_Name x, dm_DeviceClassNames x, dm_Sources x))
  (λ '(name, deviceClassNames, sources), ApiTypes.Build_DeviceClassMapping name deviceClassNames sources).
#[export] Instance DeviceClassMapping_type_ok : GoTypeOk cell DeviceClassMapping (ApiTypes.DeviceClassMapping).
Proof. apply struct_type_ok. Qed.
#[export] Instance GangScheduling_type : GoType cell GangScheduling (ApiTypes.GangScheduling) := struct_type
  (λ x, (gs_Policy x, gs_ByWorkload x))
  (λ '(policy, byWorkload), ApiTypes.Build_GangScheduling policy byWorkload).
#[export] Instance GangScheduling_type_ok : GoTypeOk cell GangScheduling (ApiTypes.GangScheduling).
Proof. apply struct_type_ok. Qed.
#[export] Instance Integrations_type : GoType cell Integrations (ApiTypes.Integrations) := struct_type
  (λ x, (in_Frameworks x, in_ExternalFrameworks x, in_LabelKeysToCopy x))
  (λ '(frameworks, externalFrameworks, labelKeysToCopy), ApiTypes.Build_Integrations frameworks externalFrameworks labelKeysToCopy).
#[export] Instance Integrations_type_ok : GoTypeOk cell Integrations (ApiTypes.Integrations).
Proof. apply struct_type_ok. Qed.
#[export] Instance MultiKueue_type : GoType cell MultiKueue (ApiTypes.MultiKueue) := struct_type
  (λ x, mk_ExternalFrameworks x)
  (λ externalFrameworks, ApiTypes.Build_MultiKueue externalFrameworks).
#[export] Instance MultiKueue_type_ok : GoTypeOk cell MultiKueue (ApiTypes.MultiKueue).
Proof. apply struct_type_ok. Qed.
#[export] Instance Resources_type : GoType cell Resources (ApiTypes.Resources) := struct_type
  (λ x, rc_DeviceClassMappings x)
  (λ deviceClassMappings, ApiTypes.Build_Resources deviceClassMappings).
#[export] Instance Resources_type_ok : GoTypeOk cell Resources (ApiTypes.Resources).
Proof. apply struct_type_ok. Qed.
#[export] Instance KueueConfiguration_type : GoType cell KueueConfiguration (ApiTypes.KueueConfiguration) := struct_type
  (λ x, (kc_Integrations x, kc_WorkloadManagement x, kc_GangScheduling x, kc_Preemption x, kc_Resources x, kc_MultiKueue x, kc_AdmissionFairSharing x, kc_ControllerManager x))
  (λ '(integrations, workloadManagement, gangScheduling, preemption, resources, multiKueue, admissionFairSharing, controllerManager), ApiTypes.Build_KueueConfiguration integrations workloadManagement gangScheduling preemption resources multiKueue admissionFairSharing controllerManager).
#[export] Instance KueueConfiguration_type_ok : GoTypeOk cell KueueConfiguration (ApiTypes.KueueConfiguration).
Proof. apply struct_type_ok. Qed.
#[export] Instance OperatorSpec_type : GoType cell OperatorSpec (ApiTypes.OperatorSpec) := struct_type
  (λ x, (os_ManagementState x, os_LogLevel x, os_OperatorLogLevel x, os_UnsupportedConfigOverrides x, os_ObservedConfig x))
  (λ '(managementState, logLevel, operatorLogLevel, unsupportedConfigOverrides, observedConfig), ApiTypes.Build_OperatorSpec managementState logLevel operatorLogLevel
    (raw_extensions unsupportedConfigOverrides observedConfig)).
#[export] Instance OperatorSpec_type_ok : GoTypeOk cell OperatorSpec (ApiTypes.OperatorSpec).
Proof. apply struct_type_ok. Qed.
#[export] Instance KueueOperandSpec_type : GoType cell KueueOperandSpec (ApiTypes.KueueOperandSpec) := struct_type
  (λ x, (ks_OperatorSpec x, ks_Config x))
  (λ '(operatorSpec, config), ApiTypes.Build_KueueOperandSpec operatorSpec config).
#[export] Instance KueueOperandSpec_type_ok : GoTypeOk cell KueueOperandSpec (ApiTypes.KueueOperandSpec).
Proof. apply struct_type_ok. Qed.
#[export] Instance OperatorStatus_type : GoType cell OperatorStatus (ApiTypes.OperatorStatus) := struct_type
  (λ x, (ost_Conditions x, ost_Generations x, ost_ReadyReplicas x, ost_other x))
  (λ '(conditions, generations, readyReplicas, other), ApiTypes.Build_OperatorStatus conditions generations readyReplicas other).
#[export] Instance OperatorStatus_type_ok : GoTypeOk cell OperatorStatus (ApiTypes.OperatorStatus).
Proof. apply struct_type_ok. Qed.
#[export] Instance KueueStatus_type : GoType cell KueueStatus (ApiTypes.KueueStatus) := struct_type
  (λ x, kst_OperatorStatus x)
  (λ operatorStatus, ApiTypes.Build_KueueStatus operatorStatus).
#[export] Instance KueueStatus_type_ok : GoTypeOk cell KueueStatus (ApiTypes.KueueStatus).
Proof. apply struct_type_ok. Qed.
#[export] Instance OwnerReference_type : GoType cell OwnerReference (K8s.OwnerReference) := struct_type
  (λ x, (or_APIVersion x, or_Kind x, or_Name x, or_UID x, or_Controller x, or_BlockOwnerDeletion x))
  (λ '(aPIVersion, kind, name, uID, controller, blockOwnerDeletion), K8s.Build_OwnerReference aPIVersion kind name uID controller blockOwnerDeletion).
#[export] Instance OwnerReference_type_ok : GoTypeOk cell OwnerReference (K8s.OwnerReference).
Proof. apply struct_type_ok. Qed.
#[export] Instance ObjectMeta_type : GoType cell ObjectMeta (K8s.ObjectMeta) := struct_type
  (λ x, (om_Name x, om_Namespace x, om_UID x, om_ResourceVersion x, om_Generation x, om_DeletionTimestamp x, om_Labels x, om_Annotations x, om_OwnerReferences x, om_Finalizers x))
  (λ '(name, namespace, uID, resourceVersion, generation, deletionTimestamp, labels, annotations, ownerReferences, finalizers), K8s.Build_ObjectMeta name namespace uID resourceVersion generation deletionTimestamp labels annotations ownerReferences finalizers).
#[export] Instance ObjectMeta_type_ok : GoTypeOk cell ObjectMeta (K8s.ObjectMeta).
Proof. apply struct_type_ok. Qed.
#[export] Instance ListMeta_type : GoType cell ListMeta (ListMeta_value) := struct_type
  (λ x, (lm_ResourceVersion x, lm_Continue x, lm_RemainingItemCount x))
  (λ '(resourceVersion, continue, remainingItemCount), Build_ListMeta_value resourceVersion continue remainingItemCount).
#[export] Instance ListMeta_type_ok : GoTypeOk cell ListMeta (ListMeta_value).
Proof. apply struct_type_ok. Qed.
#[export] Instance Kueue_type : GoType cell Kueue (TypeMeta * ApiTypes.Kueue) := struct_type
  (λ x, (ku_TypeMeta x, ku_ObjectMeta x, ku_Spec x, ku_Status x))
  (λ '(typeMeta, objectMeta, spec, status), (typeMeta, ApiTypes.Build_Kueue objectMeta spec status)).
#[export] Instance Kueue_type_ok : GoTypeOk cell Kueue (TypeMeta * ApiTypes.Kueue).
Proof. apply struct_type_ok. Qed.
#[export] Instance KueueList_type : GoType cell KueueList (TypeMeta * ListMeta_value * list (TypeMeta * ApiTypes.Kueue)) := struct_type
  (λ x, (kl_TypeMeta x, kl_ListMeta x, kl_Items x))
  (λ '(typeMeta, listMeta, items), (typeMeta, listMeta, items)).
#[export] Instance KueueList_type_ok : GoTypeOk cell KueueList (TypeMeta * ListMeta_value * list (TypeMeta * ApiTypes.Kueue)).
Proof. apply struct_type_ok. Qed.

(** ** The functions *)

Definition CELDeviceSelector_DeepCopyInto (in_ : CELDeviceSelector) : Mem CELDeviceSelector := mret in_.
Definition CELDeviceSelector_DeepCopy : ptr CELDeviceSelector → Mem (ptr CELDeviceSelector) := copyPtr CELDeviceSelector_DeepCopyInto.

Definition DeviceSelector_DeepCopyInto (in_ : DeviceSelector) : Mem DeviceSelector :=
  mret {| ds_Type := ds_Type in_; ds_CEL := ds_CEL in_ |}.
Definition DeviceSelector_DeepCopy : ptr DeviceSelector → Mem (ptr DeviceSelector) := copyPtr DeviceSelector_DeepCopyInto.

Definition DeviceClassCapacitySource_DeepCopyInto (in_ : DeviceClassCapacitySource) : Mem DeviceClassCapacitySource :=
  mret {| dcp_Name := dcp_Name in_; dcp_Driver := dcp_Driver in_; dcp_DeviceSelector := dcp_DeviceSelector in_ |}.
Definition DeviceClassCapacitySource_DeepCopy : ptr DeviceClassCapacitySource → Mem (ptr DeviceClassCapacitySource) := copyPtr DeviceClassCapacitySource_DeepCopyInto.

Definition DeviceClassCounterSource_DeepCopyInto (in_ : DeviceClassCounterSource) : Mem DeviceClassCounterSource :=
  mret {| dcn_Name := dcn_Name in_; dcn_Driver := dcn_Driver in_; dcn_DeviceSelector := dcn_DeviceSelector in_ |}.
Definition DeviceClassCounterSource_DeepCopy : ptr DeviceClassCounterSource → Mem (ptr DeviceClassCounterSource) := copyPtr DeviceClassCounterSource_DeepCopyInto.

Definition DeviceClassSourceConfig_DeepCopyInto (in_ : DeviceClassSourceConfig) : Mem DeviceClassSourceConfig :=
  mret {| dsc_Type := dsc_Type in_; dsc_Counter := dsc_Counter in_; dsc_Capacity := dsc_Capacity in_ |}.
Definition DeviceClassSourceConfig_DeepCopy : ptr DeviceClassSourceConfig → Mem (ptr DeviceClassSourceConfig) := copyPtr DeviceClassSourceConfig_DeepCopyInto.

Definition ExternalFramework_DeepCopyInto (in_ : ExternalFramework) : Mem ExternalFramework := mret in_.
Definition ExternalFramework_DeepCopy : ptr ExternalFramework → Mem (ptr ExternalFramework) := copyPtr ExternalFramework_DeepCopyInto.

Definition LabelKeys_DeepCopyInto (in_ : LabelKeys) : Mem LabelKeys := mret in_.
Definition LabelKeys_DeepCopy : ptr LabelKeys → Mem (ptr LabelKeys) := copyPtr LabelKeys_DeepCopyInto.

Definition Preemption_DeepCopyInto (in_ : Preemption) : Mem Preemption := mret in_.
Definition Preemption_DeepCopy : ptr Preemption → Mem (ptr Preemption) := copyPtr Preemption_DeepCopyInto.

Definition RequeuingStrategy_DeepCopyInto (in_ : RequeuingStrategy) : Mem RequeuingStrategy := mret in_.
Definition RequeuingStrategy_DeepCopy : ptr RequeuingStrategy → Mem (ptr RequeuingStrategy) := copyPtr RequeuingStrategy_DeepCopyInto.

Definition ResourceWeight_DeepCopyInto (in_ : ResourceWeight) : Mem ResourceWeight := mret in_.
Definition ResourceWeight_DeepCopy : ptr ResourceWeight → Mem (ptr ResourceWeight) := copyPtr ResourceWeight_DeepCopyInto.

Definition SourceKeyAnnotation_DeepCopyInto (in_ : SourceKeyAnnotation) : Mem SourceKeyAnnotation := mret in_.
Definition SourceKeyAnnotation_DeepCopy : ptr SourceKeyAnnotation → Mem (ptr SourceKeyAnnotation) := copyPtr SourceKeyAnnotation_DeepCopyInto.

Definition SourceKeyLabel_DeepCopyInto (in_ : SourceKeyLabel) : Mem SourceKeyLabel := mret in_.
Definition SourceKeyLabel_DeepCopy : ptr SourceKeyLabel → Mem (ptr SourceKeyLabel) := copyPtr SourceKeyLabel_DeepCopyInto.

Definition SourceKey_DeepCopyInto (in_ : SourceKey) : Mem SourceKey :=
  mret {| sk_SourceType := sk_SourceType in_; sk_Label := sk_Label in_; sk_Annotation := sk_Annotation in_ |}.
Definition SourceKey_DeepCopy : ptr SourceKey → Mem (ptr SourceKey) := copyPtr SourceKey_DeepCopyInto.

Definition ControllerMetricsCustomLabel_DeepCopyInto (in_ : ControllerMetricsCustomLabel) : Mem ControllerMetricsCustomLabel :=
  mret {| cml_Name := cml_Name in_; cml_SourceKey := cml_SourceKey in_; cml_SourceKind := cml_SourceKind in_ |}.
Definition ControllerMetricsCustomLabel_DeepCopy : ptr ControllerMetricsCustomLabel → Mem (ptr ControllerMetricsCustomLabel) := copyPtr ControllerMetricsCustomLabel_DeepCopyInto.

Definition WorkloadManagement_DeepCopyInto (in_ : WorkloadManagement) : Mem WorkloadManagement := mret in_.
Definition WorkloadManagement_DeepCopy : ptr WorkloadManagement → Mem (ptr WorkloadManagement) := copyPtr WorkloadManagement_DeepCopyInto.

Definition OwnerReference_DeepCopyInto (in_ : OwnerReference) : Mem OwnerReference :=
  controller ← copyPtr mret (or_Controller in_);
  blockOwnerDeletion ← copyPtr mret (or_BlockOwnerDeletion in_);
  mret {| or_APIVersion := or_APIVersion in_; or_Kind := or_Kind in_; or_Name := or_Name
          in_; or_UID := or_UID in_; or_Controller := controller; or_BlockOwnerDeletion :=
          blockOwnerDeletion |}.
Definition ObjectMeta_DeepCopyInto (in_ : ObjectMeta) : Mem ObjectMeta :=
  deletionTimestamp ← copyPtr mret (om_DeletionTimestamp in_);
  labels ← copyMap (om_Labels in_);
  annotations ← copyMap (om_Annotations in_);
  ownerReferences ← copyElements OwnerReference_DeepCopyInto (om_OwnerReferences in_);
  finalizers ← copySlice (om_Finalizers in_);
  mret {| om_Name := om_Name in_; om_Namespace := om_Namespace in_; om_UID := om_UID in_;
          om_ResourceVersion := om_ResourceVersion in_; om_Generation := om_Generation in_;
          om_DeletionTimestamp := deletionTimestamp; om_Labels := labels; om_Annotations :=
          annotations; om_OwnerReferences := ownerReferences; om_Finalizers := finalizers
          |}.
Definition ListMeta_DeepCopyInto (in_ : ListMeta) : Mem ListMeta :=
  remainingItemCount ← copyPtr mret (lm_RemainingItemCount in_);
  mret {| lm_ResourceVersion := lm_ResourceVersion in_; lm_Continue := lm_Continue in_;
          lm_RemainingItemCount := remainingItemCount |}.
Definition OperatorSpec_DeepCopyInto (in_ : OperatorSpec) : Mem OperatorSpec :=
  unsupportedConfigOverrides ← copyPtr mret (os_UnsupportedConfigOverrides in_);
  observedConfig ← copyPtr mret (os_ObservedConfig in_);
  mret {| os_ManagementState := os_ManagementState in_; os_LogLevel := os_LogLevel in_;
          os_OperatorLogLevel := os_OperatorLogLevel in_; os_UnsupportedConfigOverrides :=
          unsupportedConfigOverrides; os_ObservedConfig := observedConfig |}.
Definition OperatorStatus_DeepCopyInto (in_ : OperatorStatus) : Mem OperatorStatus :=
  conditions ← copyElements mret (ost_Conditions in_);
  generations ← copySlice (ost_Generations in_);
  mret {| ost_Conditions := conditions; ost_Generations := generations; ost_ReadyReplicas :=
          ost_ReadyReplicas in_; ost_other := ost_other in_ |}.
Definition AdmissionFairSharingCustom_DeepCopyInto (in_ : AdmissionFairSharingCustom) : Mem AdmissionFairSharingCustom :=
  resourceWeights ← copySlice (afc_ResourceWeights in_);
  mret {| afc_UsageHalfLifeTimeSeconds := afc_UsageHalfLifeTimeSeconds in_;
          afc_UsageSamplingIntervalSeconds := afc_UsageSamplingIntervalSeconds in_;
          afc_ResourceWeights := resourceWeights |}.
Definition AdmissionFairSharingCustom_DeepCopy : ptr AdmissionFairSharingCustom → Mem (ptr AdmissionFairSharingCustom) := copyPtr AdmissionFairSharingCustom_DeepCopyInto.

Definition AdmissionFairSharing_DeepCopyInto (in_ : AdmissionFairSharing) : Mem AdmissionFairSharing :=
  custom ← AdmissionFairSharingCustom_DeepCopyInto (afs_Custom in_);
  mret {| afs_Configuration := afs_Configuration in_; afs_Custom := custom |}.
Definition AdmissionFairSharing_DeepCopy : ptr AdmissionFairSharing → Mem (ptr AdmissionFairSharing) := copyPtr AdmissionFairSharing_DeepCopyInto.

Definition ByWorkload_DeepCopyInto (in_ : ByWorkload) : Mem ByWorkload :=
  recoveryTimeoutSeconds ← copyPtr mret (bw_RecoveryTimeoutSeconds in_);
  mret {| bw_Admission := bw_Admission in_; bw_TimeoutSeconds := bw_TimeoutSeconds in_;
          bw_RecoveryTimeoutSeconds := recoveryTimeoutSeconds; bw_RequeuingStrategy :=
          bw_RequeuingStrategy in_ |}.
Definition ByWorkload_DeepCopy : ptr ByWorkload → Mem (ptr ByWorkload) := copyPtr ByWorkload_DeepCopyInto.

Definition ControllerMetrics_DeepCopyInto (in_ : ControllerMetrics) : Mem ControllerMetrics :=
  customLabels ← copySlice (cm_CustomLabels in_);
  mret {| cm_CustomLabels := customLabels |}.
Definition ControllerMetrics_DeepCopy : ptr ControllerMetrics → Mem (ptr ControllerMetrics) := copyPtr ControllerMetrics_DeepCopyInto.

Definition ControllerManager_DeepCopyInto (in_ : ControllerManager) : Mem ControllerManager :=
  metrics ← ControllerMetrics_DeepCopyInto (cmgr_Metrics in_);
  mret {| cmgr_Metrics := metrics |}.
Definition ControllerManager_DeepCopy : ptr ControllerManager → Mem (ptr ControllerManager) := copyPtr ControllerManager_DeepCopyInto.

Definition DeviceClassMapping_DeepCopyInto (in_ : DeviceClassMapping) : Mem DeviceClassMapping :=
  deviceClassNames ← copySlice (dm_DeviceClassNames in_);
  sources ← copySlice (dm_Sources in_);
  mret {| dm_Name := dm_Name in_; dm_DeviceClassNames := deviceClassNames; dm_Sources :=
          sources |}.
Definition DeviceClassMapping_DeepCopy : ptr DeviceClassMapping → Mem (ptr DeviceClassMapping) := copyPtr DeviceClassMapping_DeepCopyInto.

Definition GangScheduling_DeepCopyInto (in_ : GangScheduling) : Mem GangScheduling :=
  byWorkload ← copyPtr ByWorkload_DeepCopyInto (gs_ByWorkload in_);
  mret {| gs_Policy := gs_Policy in_; gs_ByWorkload := byWorkload |}.
Definition GangScheduling_DeepCopy : ptr GangScheduling → Mem (ptr GangScheduling) := copyPtr GangScheduling_DeepCopyInto.

Definition Integrations_DeepCopyInto (in_ : Integrations) : Mem Integrations :=
  frameworks ← copySlice (in_Frameworks in_);
  externalFrameworks ← copySlice (in_ExternalFrameworks in_);
  labelKeysToCopy ← copySlice (in_LabelKeysToCopy in_);
  mret {| in_Frameworks := frameworks; in_ExternalFrameworks := externalFrameworks;
          in_LabelKeysToCopy := labelKeysToCopy |}.
Definition Integrations_DeepCopy : ptr Integrations → Mem (ptr Integrations) := copyPtr Integrations_DeepCopyInto.

Definition MultiKueue_DeepCopyInto (in_ : MultiKueue) : Mem MultiKueue :=
  externalFrameworks ← copySlice (mk_ExternalFrameworks in_);
  mret {| mk_ExternalFrameworks := externalFrameworks |}.
Definition MultiKueue_DeepCopy : ptr MultiKueue → Mem (ptr MultiKueue) := copyPtr MultiKueue_DeepCopyInto.

Definition Resources_DeepCopyInto (in_ : Resources) : Mem Resources :=
  deviceClassMappings ← copyElements DeviceClassMapping_DeepCopyInto (rc_DeviceClassMappings in_);
  mret {| rc_DeviceClassMappings := deviceClassMappings |}.
Definition Resources_DeepCopy : ptr Resources → Mem (ptr Resources) := copyPtr Resources_DeepCopyInto.

Definition KueueConfiguration_DeepCopyInto (in_ : KueueConfiguration) : Mem KueueConfiguration :=
  integrations ← Integrations_DeepCopyInto (kc_Integrations in_);
  gangScheduling ← GangScheduling_DeepCopyInto (kc_GangScheduling in_);
  resources ← Resources_DeepCopyInto (kc_Resources in_);
  multiKueue ← copyPtr MultiKueue_DeepCopyInto (kc_MultiKueue in_);
  admissionFairSharing ← AdmissionFairSharing_DeepCopyInto (kc_AdmissionFairSharing in_);
  controllerManager ← ControllerManager_DeepCopyInto (kc_ControllerManager in_);
  mret {| kc_Integrations := integrations; kc_WorkloadManagement := kc_WorkloadManagement
          in_; kc_GangScheduling := gangScheduling; kc_Preemption := kc_Preemption in_;
          kc_Resources := resources; kc_MultiKueue := multiKueue; kc_AdmissionFairSharing :=
          admissionFairSharing; kc_ControllerManager := controllerManager |}.
Definition KueueConfiguration_DeepCopy : ptr KueueConfiguration → Mem (ptr KueueConfiguration) := copyPtr KueueConfiguration_DeepCopyInto.

Definition KueueOperandSpec_DeepCopyInto (in_ : KueueOperandSpec) : Mem KueueOperandSpec :=
  operatorSpec ← OperatorSpec_DeepCopyInto (ks_OperatorSpec in_);
  config ← KueueConfiguration_DeepCopyInto (ks_Config in_);
  mret {| ks_OperatorSpec := operatorSpec; ks_Config := config |}.
Definition KueueOperandSpec_DeepCopy : ptr KueueOperandSpec → Mem (ptr KueueOperandSpec) := copyPtr KueueOperandSpec_DeepCopyInto.

Definition KueueStatus_DeepCopyInto (in_ : KueueStatus) : Mem KueueStatus :=
  operatorStatus ← OperatorStatus_DeepCopyInto (kst_OperatorStatus in_);
  mret {| kst_OperatorStatus := operatorStatus |}.
Definition KueueStatus_DeepCopy : ptr KueueStatus → Mem (ptr KueueStatus) := copyPtr KueueStatus_DeepCopyInto.

Definition Kueue_DeepCopyInto (in_ : Kueue) : Mem Kueue :=
  objectMeta ← ObjectMeta_DeepCopyInto (ku_ObjectMeta in_);
  spec ← KueueOperandSpec_DeepCopyInto (ku_Spec in_);
  status ← KueueStatus_DeepCopyInto (ku_Status in_);
  mret {| ku_TypeMeta := ku_TypeMeta in_; ku_ObjectMeta := objectMeta; ku_Spec := spec;
          ku_Status := status |}.
Definition Kueue_DeepCopy : ptr Kueue → Mem (ptr Kueue) := copyPtr Kueue_DeepCopyInto.

Definition KueueList_DeepCopyInto (in_ : KueueList) : Mem KueueList :=
  listMeta ← ListMeta_DeepCopyInto (kl_ListMeta in_);
  items ← copyElements Kueue_DeepCopyInto (kl_Items in_);
  mret {| kl_TypeMeta := kl_TypeMeta in_; kl_ListMeta := listMeta; kl_Items := items |}.
Definition KueueList_DeepCopy : ptr KueueList → Mem (ptr KueueList) := copyPtr KueueList_DeepCopyInto.

(** A [runtime.Object]: an interface value, nil ([None]) or a typed pointer,
    which may itself be nil. *)
Inductive Object : Type :=
  | KueueObject (p : ptr Kueue)
  | KueueListObject (p : ptr KueueList).

(** [if c := in.DeepCopy(); c != nil { return c }; return nil] *)
Definition Kueue_DeepCopyObject (in_ : ptr Kueue) : Mem (option Object) :=
  c ← Kueue_DeepCopy in_;
  match addr c with Some _ => mret (Some (KueueObject c)) | None => mret None end.
Definition KueueList_DeepCopyObject (in_ : ptr KueueList) : Mem (option Object) :=
  c ← KueueList_DeepCopy in_;
  match addr c with Some _ => mret (Some (KueueListObject c)) | None => mret None end.
End Go.
Export (hints) Go.

(** ** Every function copies *)

Section correct.
Import Go.

(** The fields of a struct in their order, each copied by the rule of its
    statement. *)
Create HintDb copies discriminated.
#[local] Hint Resolve copies_flat copies_pair copies_slice copies_map copies_ptr copies_elements : copies.
#[local] Hint Extern 1 (GoTypeOk _ _ _) => typeclasses eauto : copies.

(** [copy_struct into f b]: [into] copies the tuple of the fields by [f] and
    builds the struct by [b]. *)
#[local] Tactic Notation "copy_struct" constr(into) uconstr(f) uconstr(b) :=
  refine (copies_struct _ _ b f into _ _ _);
  [solve [eauto 12 with copies]
  |by intros; repeat match goal with x : _ * _ |- _ => destruct x end
  |intros; unfold into, copyPair, mbind, Mem_bind; cbn; repeat (case_match; simpl); done].

Lemma OwnerReference_copies : copies OwnerReference_DeepCopyInto.
Proof.
  copy_struct OwnerReference_DeepCopyInto
    (mret ⊗ mret ⊗ mret ⊗ mret ⊗ copyPtr mret ⊗ copyPtr mret)
    (λ '(x0, x1, x2, x3, x4, x5), Build_OwnerReference x0 x1 x2 x3 x4 x5).
Qed.
#[local] Hint Resolve OwnerReference_copies : copies.
Lemma ObjectMeta_copies : copies ObjectMeta_DeepCopyInto.
Proof.
  copy_struct ObjectMeta_DeepCopyInto
    (mret ⊗ mret ⊗ mret ⊗ mret ⊗ mret ⊗ copyPtr mret ⊗ copyMap ⊗ copyMap ⊗ copyElements OwnerReference_DeepCopyInto ⊗ copySlice)
    (λ '(x0, x1, x2, x3, x4, x5, x6, x7, x8, x9), Build_ObjectMeta x0 x1 x2 x3 x4 x5 x6 x7 x8 x9).
Qed.
#[local] Hint Resolve ObjectMeta_copies : copies.
Lemma ListMeta_copies : copies ListMeta_DeepCopyInto.
Proof.
  copy_struct ListMeta_DeepCopyInto
    (mret ⊗ mret ⊗ copyPtr mret)
    (λ '(x0, x1, x2), Build_ListMeta x0 x1 x2).
Qed.
#[local] Hint Resolve ListMeta_copies : copies.
Lemma OperatorSpec_copies : copies OperatorSpec_DeepCopyInto.
Proof.
  copy_struct OperatorSpec_DeepCopyInto
    (mret ⊗ mret ⊗ mret ⊗ copyPtr mret ⊗ copyPtr mret)
    (λ '(x0, x1, x2, x3, x4), Build_OperatorSpec x0 x1 x2 x3 x4).
Qed.
#[local] Hint Resolve OperatorSpec_copies : copies.
Lemma OperatorStatus_copies : copies OperatorStatus_DeepCopyInto.
Proof.
  copy_struct OperatorStatus_DeepCopyInto
    (copyElements mret ⊗ copySlice ⊗ mret ⊗ mret)
    (λ '(x0, x1, x2, x3), Build_OperatorStatus x0 x1 x2 x3).
Qed.
#[local] Hint Resolve OperatorStatus_copies : copies.
Lemma AdmissionFairSharingCustom_copies : copies AdmissionFairSharingCustom_DeepCopyInto.
Proof.
  copy_struct AdmissionFairSharingCustom_DeepCopyInto
    (mret ⊗ mret ⊗ copySlice)
    (λ '(x0, x1, x2), Build_AdmissionFairSharingCustom x0 x1 x2).
Qed.
#[local] Hint Resolve AdmissionFairSharingCustom_copies : copies.
Lemma AdmissionFairSharing_copies : copies AdmissionFairSharing_DeepCopyInto.
Proof.
  copy_struct AdmissionFairSharing_DeepCopyInto
    (mret ⊗ AdmissionFairSharingCustom_DeepCopyInto)
    (λ '(x0, x1), Build_AdmissionFairSharing x0 x1).
Qed.
#[local] Hint Resolve AdmissionFairSharing_copies : copies.
Lemma ByWorkload_copies : copies ByWorkload_DeepCopyInto.
Proof.
  copy_struct ByWorkload_DeepCopyInto
    (mret ⊗ mret ⊗ copyPtr mret ⊗ mret)
    (λ '(x0, x1, x2, x3), Build_ByWorkload x0 x1 x2 x3).
Qed.
#[local] Hint Resolve ByWorkload_copies : copies.
Lemma ControllerMetrics_copies : copies ControllerMetrics_DeepCopyInto.
Proof.
  copy_struct ControllerMetrics_DeepCopyInto
    (copySlice)
    Build_ControllerMetrics.
Qed.
#[local] Hint Resolve ControllerMetrics_copies : copies.
Lemma ControllerManager_copies : copies ControllerManager_DeepCopyInto.
Proof.
  copy_struct ControllerManager_DeepCopyInto
    (ControllerMetrics_DeepCopyInto)
    Build_ControllerManager.
Qed.
#[local] Hint Resolve ControllerManager_copies : copies.
Lemma DeviceClassMapping_copies : copies DeviceClassMapping_DeepCopyInto.
Proof.
  copy_struct DeviceClassMapping_DeepCopyInto
    (mret ⊗ copySlice ⊗ copySlice)
    (λ '(x0, x1, x2), Build_DeviceClassMapping x0 x1 x2).
Qed.
#[local] Hint Resolve DeviceClassMapping_copies : copies.
Lemma GangScheduling_copies : copies GangScheduling_DeepCopyInto.
Proof.
  copy_struct GangScheduling_DeepCopyInto
    (mret ⊗ copyPtr ByWorkload_DeepCopyInto)
    (λ '(x0, x1), Build_GangScheduling x0 x1).
Qed.
#[local] Hint Resolve GangScheduling_copies : copies.
Lemma Integrations_copies : copies Integrations_DeepCopyInto.
Proof.
  copy_struct Integrations_DeepCopyInto
    (copySlice ⊗ copySlice ⊗ copySlice)
    (λ '(x0, x1, x2), Build_Integrations x0 x1 x2).
Qed.
#[local] Hint Resolve Integrations_copies : copies.
Lemma MultiKueue_copies : copies MultiKueue_DeepCopyInto.
Proof.
  copy_struct MultiKueue_DeepCopyInto
    (copySlice)
    Build_MultiKueue.
Qed.
#[local] Hint Resolve MultiKueue_copies : copies.
Lemma Resources_copies : copies Resources_DeepCopyInto.
Proof.
  copy_struct Resources_DeepCopyInto
    (copyElements DeviceClassMapping_DeepCopyInto)
    Build_Resources.
Qed.
#[local] Hint Resolve Resources_copies : copies.
Lemma KueueConfiguration_copies : copies KueueConfiguration_DeepCopyInto.
Proof.
  copy_struct KueueConfiguration_DeepCopyInto
    (Integrations_DeepCopyInto ⊗ mret ⊗ GangScheduling_DeepCopyInto ⊗ mret ⊗ Resources_DeepCopyInto ⊗ copyPtr MultiKueue_DeepCopyInto ⊗ AdmissionFairSharing_DeepCopyInto ⊗ ControllerManager_DeepCopyInto)
    (λ '(x0, x1, x2, x3, x4, x5, x6, x7), Build_KueueConfiguration x0 x1 x2 x3 x4 x5 x6 x7).
Qed.
#[local] Hint Resolve KueueConfiguration_copies : copies.
Lemma KueueOperandSpec_copies : copies KueueOperandSpec_DeepCopyInto.
Proof.
  copy_struct KueueOperandSpec_DeepCopyInto
    (OperatorSpec_DeepCopyInto ⊗ KueueConfiguration_DeepCopyInto)
    (λ '(x0, x1), Build_KueueOperandSpec x0 x1).
Qed.
#[local] Hint Resolve KueueOperandSpec_copies : copies.
Lemma KueueStatus_copies : copies KueueStatus_DeepCopyInto.
Proof.
  copy_struct KueueStatus_DeepCopyInto
    (OperatorStatus_DeepCopyInto)
    Build_KueueStatus.
Qed.
#[local] Hint Resolve KueueStatus_copies : copies.
Lemma Kueue_copies : copies Kueue_DeepCopyInto.
Proof.
  copy_struct Kueue_DeepCopyInto
    (mret ⊗ ObjectMeta_DeepCopyInto ⊗ KueueOperandSpec_DeepCopyInto ⊗ KueueStatus_DeepCopyInto)
    (λ '(x0, x1, x2, x3), Build_Kueue x0 x1 x2 x3).
Qed.
#[local] Hint Resolve Kueue_copies : copies.
Lemma KueueList_copies : copies KueueList_DeepCopyInto.
Proof.
  copy_struct KueueList_DeepCopyInto
    (mret ⊗ ListMeta_DeepCopyInto ⊗ copyElements Kueue_DeepCopyInto)
    (λ '(x0, x1, x2), Build_KueueList x0 x1 x2).
Qed.
#[local] Hint Resolve KueueList_copies : copies.

(** Structs without addresses: assigning a field of the receiver again changes
    nothing. *)
Lemma copies_same {A} `{Flat A} (f : A → Mem A) : (∀ a, f a = mret a) → copies f.
Proof. intros Hf h a v Hv. rewrite Hf. by apply copies_flat. Qed.

#[local] Ltac copy_flat := apply copies_same; intros []; reflexivity.

Lemma CELDeviceSelector_copies : copies CELDeviceSelector_DeepCopyInto. Proof. copy_flat. Qed.
#[local] Hint Resolve CELDeviceSelector_copies : copies.
Lemma DeviceSelector_copies : copies DeviceSelector_DeepCopyInto. Proof. copy_flat. Qed.
#[local] Hint Resolve DeviceSelector_copies : copies.
Lemma DeviceClassCapacitySource_copies : copies DeviceClassCapacitySource_DeepCopyInto. Proof. copy_flat. Qed.
#[local] Hint Resolve DeviceClassCapacitySource_copies : copies.
Lemma DeviceClassCounterSource_copies : copies DeviceClassCounterSource_DeepCopyInto. Proof. copy_flat. Qed.
#[local] Hint Resolve DeviceClassCounterSource_copies : copies.
Lemma DeviceClassSourceConfig_copies : copies DeviceClassSourceConfig_DeepCopyInto. Proof. copy_flat. Qed.
#[local] Hint Resolve DeviceClassSourceConfig_copies : copies.
Lemma ExternalFramework_copies : copies ExternalFramework_DeepCopyInto. Proof. copy_flat. Qed.
#[local] Hint Resolve ExternalFramework_copies : copies.
Lemma LabelKeys_copies : copies LabelKeys_DeepCopyInto. Proof. copy_flat. Qed.
#[local] Hint Resolve LabelKeys_copies : copies.
Lemma Preemption_copies : copies Preemption_DeepCopyInto. Proof. copy_flat. Qed.
#[local] Hint Resolve Preemption_copies : copies.
Lemma RequeuingStrategy_copies : copies RequeuingStrategy_DeepCopyInto. Proof. copy_flat. Qed.
#[local] Hint Resolve RequeuingStrategy_copies : copies.
Lemma ResourceWeight_copies : copies ResourceWeight_DeepCopyInto. Proof. copy_flat. Qed.
#[local] Hint Resolve ResourceWeight_copies : copies.
Lemma SourceKeyAnnotation_copies : copies SourceKeyAnnotation_DeepCopyInto. Proof. copy_flat. Qed.
#[local] Hint Resolve SourceKeyAnnotation_copies : copies.
Lemma SourceKeyLabel_copies : copies SourceKeyLabel_DeepCopyInto. Proof. copy_flat. Qed.
#[local] Hint Resolve SourceKeyLabel_copies : copies.
Lemma SourceKey_copies : copies SourceKey_DeepCopyInto. Proof. copy_flat. Qed.
#[local] Hint Resolve SourceKey_copies : copies.
Lemma ControllerMetricsCustomLabel_copies : copies ControllerMetricsCustomLabel_DeepCopyInto. Proof. copy_flat. Qed.
#[local] Hint Resolve ControllerMetricsCustomLabel_copies : copies.
Lemma WorkloadManagement_copies : copies WorkloadManagement_DeepCopyInto. Proof. copy_flat. Qed.
#[local] Hint Resolve WorkloadManagement_copies : copies.

(** What is asked of a type's two functions: [DeepCopyInto] makes a correct
    copy of the struct, and [DeepCopy] of a pointer, nil included, one that is
    independent of the original. *)
Definition deep_copies {A V} `{GoType cell A V} `{Stored cell A}
    (into : A → Mem A) (copy : ptr A → Mem (ptr A)) : Prop :=
  copies into ∧
  ∀ h (p : ptr A) v, view h p = Some v →
    ∃ p' h', copy p h = Some (p', h') ∧ independent_copy h h' p p' v ∧
      (addr p' = None ↔ addr p = None).

Lemma copyPtr_nil {A} `{Stored cell A} (into : A → Mem A) h p p' h' :
  copyPtr into p h = Some (p', h') → addr p' = None ↔ addr p = None.
Proof.
  destruct p as [[l|]]; cbn; [|by intros [= <- _]]. unfold mbind, Mem_bind.
  repeat case_match; try done. by intros [= <- _].
Qed.

Lemma deep_copies_ptr {A V} `{GoTypeOk cell A V} `{Stored cell A} (into : A → Mem A) :
  copies into → deep_copies into (copyPtr into).
Proof.
  intros Hc. split; [done|]. intros h p v Hv.
  destruct (copies_independent (copyPtr into) h p v) as (p' & h' & E & Hi); [by apply copies_ptr|done|].
  exists p', h'. split_and!; [done..|]. by eapply copyPtr_nil.
Qed.

(** C9: every generated deep copy is correct: [DeepCopyInto] and [DeepCopy] of
    each type succeed on every value, return an equal one that shares no
    address with anything that was there nor within itself, change nothing, and
    writes through the copy or the original do not reach the other; the copy of
    nil is nil. *)
Theorem generated_deep_copies :
  deep_copies AdmissionFairSharing_DeepCopyInto AdmissionFairSharing_DeepCopy ∧
  deep_copies AdmissionFairSharingCustom_DeepCopyInto AdmissionFairSharingCustom_DeepCopy ∧
  deep_copies ByWorkload_DeepCopyInto ByWorkload_DeepCopy ∧
  deep_copies CELDeviceSelector_DeepCopyInto CELDeviceSelector_DeepCopy ∧
  deep_copies ControllerManager_DeepCopyInto ControllerManager_DeepCopy ∧
  deep_copies ControllerMetrics_DeepCopyInto ControllerMetrics_DeepCopy ∧
  deep_copies ControllerMetricsCustomLabel_DeepCopyInto ControllerMetricsCustomLabel_DeepCopy ∧
  deep_copies DeviceClassCapacitySource_DeepCopyInto DeviceClassCapacitySource_DeepCopy ∧
  deep_copies DeviceClassCounterSource_DeepCopyInto DeviceClassCounterSource_DeepCopy ∧
  deep_copies DeviceClassMapping_DeepCopyInto DeviceClassMapping_DeepCopy ∧
  deep_copies DeviceClassSourceConfig_DeepCopyInto DeviceClassSourceConfig_DeepCopy ∧
  deep_copies DeviceSelector_DeepCopyInto DeviceSelector_DeepCopy ∧
  deep_copies ExternalFramework_DeepCopyInto ExternalFramework_DeepCopy ∧
  deep_copies GangScheduling_DeepCopyInto GangScheduling_DeepCopy ∧
  deep_copies Integrations_DeepCopyInto Integrations_DeepCopy ∧
  deep_copies Kueue_DeepCopyInto Kueue_DeepCopy ∧
  deep_copies KueueConfiguration_DeepCopyInto KueueConfiguration_DeepCopy ∧
  deep_copies KueueList_DeepCopyInto KueueList_DeepCopy ∧
  deep_copies KueueOperandSpec_DeepCopyInto KueueOperandSpec_DeepCopy ∧
  deep_copies KueueStatus_DeepCopyInto KueueStatus_DeepCopy ∧
  deep_copies LabelKeys_DeepCopyInto LabelKeys_DeepCopy ∧
  deep_copies MultiKueue_DeepCopyInto MultiKueue_DeepCopy ∧
  deep_copies Preemption_DeepCopyInto Preemption_DeepCopy ∧
  deep_copies RequeuingStrategy_DeepCopyInto RequeuingStrategy_DeepCopy ∧
  deep_copies ResourceWeight_DeepCopyInto ResourceWeight_DeepCopy ∧
  deep_copies Resources_DeepCopyInto Resources_DeepCopy ∧
  deep_copies SourceKey_DeepCopyInto SourceKey_DeepCopy ∧
  deep_copies SourceKeyAnnotation_DeepCopyInto SourceKeyAnnotation_DeepCopy ∧
  deep_copies SourceKeyLabel_DeepCopyInto SourceKeyLabel_DeepCopy ∧
  deep_copies WorkloadManagement_DeepCopyInto WorkloadManagement_DeepCopy.
Proof. split_and!; apply deep_copies_ptr; auto with copies. Qed.

(** [DeepCopyObject] of a nil pointer is the nil interface, not an
    interface that holds a nil pointer; otherwise it holds an independent copy. *)
Theorem Kueue_DeepCopyObject_spec h (p : ptr Kueue) v :
  view h p = Some v →
  match addr p with
  | None => Kueue_DeepCopyObject p h = Some (None, h)
  | Some _ => ∃ p' h', Kueue_DeepCopyObject p h = Some (Some (KueueObject p'), h') ∧
                addr p' ≠ None ∧ independent_copy h h' p p' v
  end.
Proof.
  intros Hv. destruct (deep_copies_ptr _ Kueue_copies) as [_ Hd].
  destruct (Hd h p v Hv) as (p' & h' & E & Hi & Hn).
  unfold Kueue_DeepCopyObject, mbind, Mem_bind. destruct p as [[l|]]; cbn [addr] in *; [|done].
  exists p', h'. unfold Kueue_DeepCopy. rewrite E. destruct p' as [[l'|]]; cbn in *; [done|].
  destruct Hn as [Hn _]. by specialize (Hn eq_refl).
Qed.
End correct.

(** ** An example

    [Kueue/cluster] with two finalizers, labels and one framework. *)
Module Example.
Import Go.

Definition nil {A} : slice A := Slice None 0.

Definition kueue : Go.Kueue := {|
  ku_TypeMeta := {| tm_Kind := "Kueue"; tm_APIVersion := "kueue.openshift.io/v1" |};
  ku_ObjectMeta := {|
    om_Name := "cluster"; om_Namespace := ""; om_UID := "u"; om_ResourceVersion := "7";
    om_Generation := 2; om_DeletionTimestamp := Ptr None; om_Labels := GoMap (Some 4%positive);
    om_Annotations := GoMap None; om_OwnerReferences := nil;
    om_Finalizers := Slice (Some 2%positive) 2 |};
  ku_Spec := {|
    ks_OperatorSpec := {|
      os_ManagementState := "Managed"; os_LogLevel := "Normal"; os_OperatorLogLevel := "Normal";
      os_UnsupportedConfigOverrides := Ptr None; os_ObservedConfig := Ptr None |};
    ks_Config := {|
      kc_Integrations := {| in_Frameworks := Slice (Some 3%positive) 1;
                            in_ExternalFrameworks := nil; in_LabelKeysToCopy := nil |};
      kc_WorkloadManagement := {| wm_LabelPolicy := "" |};
      kc_GangScheduling := {| gs_Policy := ""; gs_ByWorkload := Ptr None |};
      kc_Preemption := {| pr_PreemptionPolicy := "" |};
      kc_Resources := {| rc_DeviceClassMappings := nil |};
      kc_MultiKueue := Ptr None;
      kc_AdmissionFairSharing := {|
        afs_Configuration := "";
        afs_Custom := {| afc_UsageHalfLifeTimeSeconds := 0; afc_UsageSamplingIntervalSeconds := 0;
                         afc_ResourceWeights := nil |} |};
      kc_ControllerManager := {| cmgr_Metrics := {| cm_CustomLabels := nil |} |} |} |};
  ku_Status := {| kst_OperatorStatus := {|
    ost_Conditions := nil; ost_Generations := nil; ost_ReadyReplicas := 1; ost_other := JNull |} |}
|}.

Definition heap : gmap loc cell :=
  {[ 1%positive := Kueue_cell kueue;
     2%positive := string_array ["other"; "kueue.openshift.io/finalizer"; "left over"];
     3%positive := string_array ["BatchJob"];
     4%positive := map_cell {[ "app" := "kueue" ]} ]}.

Definition original : ptr Go.Kueue := Ptr (Some 1%positive).

Definition value : ApiTypes.Kueue := {|
  ApiTypes.ku_ObjectMeta := {|
    K8s.om_Name := "cluster"; K8s.om_Namespace := ""; K8s.om_UID := "u";
    K8s.om_ResourceVersion := "7"; K8s.om_Generation := 2; K8s.om_DeletionTimestamp := None;
    K8s.om_Labels := Some {[ "app" := "kueue" ]}; K8s.om_Annotations := None;
    K8s.om_OwnerReferences := [];
    K8s.om_Finalizers := ["other"; "kueue.openshift.io/finalizer"] |};
  ApiTypes.ku_Spec := {|
    ApiTypes.ks_OperatorSpec := {|
      ApiTypes.os_ManagementState := "Managed"; ApiTypes.os_LogLevel := "Normal";
      ApiTypes.os_OperatorLogLevel := "Normal"; os_other := JObj [] |};
    ApiTypes.ks_Config := minimal_config |};
  ApiTypes.ku_Status := {| ApiTypes.kst_OperatorStatus := {|
    ApiTypes.ost_Conditions := []; ApiTypes.ost_Generations := [];
    ApiTypes.ost_ReadyReplicas := 1; ApiTypes.ost_other := JNull |} |}
|}.
End Example.

Lemma example_view :
  view Example.heap Example.original = Some (Some (Go.ku_TypeMeta Example.kueue, Example.value)).
Proof. vm_compute. reflexivity. Qed.

Lemma Kueue_DeepCopyObject_spec_witness :
  view Example.heap Example.original = Some (Some (Go.ku_TypeMeta Example.kueue, Example.value)) ∧
  ∃ p' h', Go.Kueue_DeepCopyObject Example.original Example.heap = Some (Some (Go.KueueObject p'), h') ∧
    addr p' ≠ None ∧
    independent_copy Example.heap h' Example.original p' (Some (Go.ku_TypeMeta Example.kueue, Example.value)).
Proof. split; [exact example_view|exact (Kueue_DeepCopyObject_spec _ _ _ example_view)]. Defined.
