(* ===== verification/InformerFactory.v ===== *)
(** * The generated informers: pkg/generated/informers/externalversions

    [factory.go], [generic.go], [kueueoperator/interface.go],
    [kueueoperator/v1/interface.go], [kueueoperator/v1/kueue.go] and
    [internalinterfaces/factory_interfaces.go]: the factory that
    [RunOperator] asks for the informer of the [Kueue] resource, and starts.

    A method that holds the factory's lock is one step on a [world]: the
    factory, the informers that were made and the goroutines it launched.
    [step] interleaves the callers' calls with the cancellation of contexts
    and the end of goroutines. The informers themselves are client-go's: made
    from a configuration, they have an identity; [RunWithContext] returns when
    its context is done. *)
From S2P Require Import Prelude GoStd K8s.

(** ** Informers *)

(** [reflect.TypeOf(obj)] *)
Definition reflect_Type := string.
Definition KueueType : reflect_Type := "*v1.Kueue".

Record GroupVersionResource := { gvr_Group : string; gvr_Version : string; gvr_Resource : string }.
#[export] Instance GroupVersionResource_eq_dec : EqDecision GroupVersionResource.
Proof. solve_decision. Defined.
Record GroupResource := { gr_Group : string; gr_Resource : string }.

(** [v1.SchemeGroupVersion.WithResource("kueues")] *)
Definition kueuesResource : GroupVersionResource :=
  {| gvr_Group := "kueue.openshift.io"; gvr_Version := "v1"; gvr_Resource := "kueues" |}.

(** [versioned.Interface], [metav1.ListOptions], [cache.TransformFunc] and
    [context.Context] (identified by name). *)
Class InformerTypes := {
  Interface : Type;
  ListOptions : Type;
  TransformFunc : Type;
}.
Definition Context := string.

Section informers.
Context `{InformerTypes}.

(** [func( *v1.ListOptions)], on what the pointer points to. *)
Definition TweakListOptionsFunc := ListOptions → ListOptions.

Record InformerOptions := {
  io_ResyncPeriod : Z;
  io_Indexers : list string;
  io_InformerName : option string;
  io_TweakListOptions : option TweakListOptionsFunc;
}.

(** A request on [client.KueueV1().Kueues()]. *)
Inductive request : Type :=
  | List (client : Interface) (ctx : Context) (opts : ListOptions)
  | Watch (client : Interface) (ctx : Context) (opts : ListOptions).
Definition Background : Context := "".

Record ListWatch := {
  lw_ListFunc : ListOptions → request;
  lw_WatchFunc : ListOptions → request;
  lw_ListWithContextFunc : Context → ListOptions → request;
  lw_WatchFuncWithContext : Context → ListOptions → request;
}.

(** What [cache.NewSharedIndexInformerWithOptions] is given, and the
    transformation set later. *)
Record informerConfig := {
  ic_ListWatch : ListWatch;
  ic_exampleObject : reflect_Type;
  ic_ResyncPeriod : Z;
  ic_Indexers : list string;
  ic_Identifier : option string * GroupVersionResource;
  ic_transform : option TransformFunc;
}.

(** A [cache.SharedIndexInformer]: an informer, or a typed wrapper that passes
    every call on to the one inside. *)
Inductive SharedIndexInformer : Type :=
  | sharedIndexInformer (c : informerConfig)
  | typedSharedIndexInformer (T : reflect_Type) (inner : SharedIndexInformer).
Fixpoint config (i : SharedIndexInformer) : informerConfig :=
  match i with
  | sharedIndexInformer c => c
  | typedSharedIndexInformer _ i => config i
  end.
Fixpoint SetTransform (t : TransformFunc) (i : SharedIndexInformer) : SharedIndexInformer :=
  match i with
  | sharedIndexInformer c => sharedIndexInformer {|
      ic_ListWatch := ic_ListWatch c; ic_exampleObject := ic_exampleObject c;
      ic_ResyncPeriod := ic_ResyncPeriod c; ic_Indexers := ic_Indexers c;
      ic_Identifier := ic_Identifier c; ic_transform := Some t |}
  | typedSharedIndexInformer T i => typedSharedIndexInformer T (SetTransform t i)
  end.

(** *** kueueoperator/v1/kueue.go: the constructors *)

Definition tweak (f : option TweakListOptionsFunc) (opts : ListOptions) : ListOptions :=
  match f with Some f => f opts | None => opts end.

Definition NewTypedKueueInformerWithOptions (client : Interface) (options : InformerOptions)
    : SharedIndexInformer :=
  let gvr := {| gvr_Group := "kueue.openshift.io"; gvr_Version := "v1"; gvr_Resource := "kueues" |} in
  let identifier := (io_InformerName options, gvr) in
  let tweakListOptions := io_TweakListOptions options in
  typedSharedIndexInformer KueueType (sharedIndexInformer {|
    ic_ListWatch := {|
      lw_ListFunc opts := List client Background (tweak tweakListOptions opts);
      lw_WatchFunc opts := Watch client Background (tweak tweakListOptions opts);
      lw_ListWithContextFunc ctx opts := List client ctx (tweak tweakListOptions opts);
      lw_WatchFuncWithContext ctx opts := Watch client ctx (tweak tweakListOptions opts) |};
    ic_exampleObject := KueueType;
    ic_ResyncPeriod := io_ResyncPeriod options;
    ic_Indexers := io_Indexers options;
    ic_Identifier := identifier;
    ic_transform := None |}).

Definition NewKueueInformerWithOptions (client : Interface) (options : InformerOptions)
    : SharedIndexInformer :=
  NewTypedKueueInformerWithOptions client options.

Definition NewTypedFilteredKueueInformer (client : Interface) (resyncPeriod : Z)
    (indexers : list string) (tweakListOptions : option TweakListOptionsFunc) : SharedIndexInformer :=
  NewTypedKueueInformerWithOptions client {| io_ResyncPeriod := resyncPeriod; io_Indexers := indexers;
    io_InformerName := None; io_TweakListOptions := tweakListOptions |}.
Definition NewFilteredKueueInformer (client : Interface) (resyncPeriod : Z)
    (indexers : list string) (tweakListOptions : option TweakListOptionsFunc) : SharedIndexInformer :=
  NewTypedKueueInformerWithOptions client {| io_ResyncPeriod := resyncPeriod; io_Indexers := indexers;
    io_InformerName := None; io_TweakListOptions := tweakListOptions |}.
Definition NewTypedKueueInformer (client : Interface) (resyncPeriod : Z) (indexers : list string)
    : SharedIndexInformer :=
  NewTypedKueueInformerWithOptions client {| io_ResyncPeriod := resyncPeriod; io_Indexers := indexers;
    io_InformerName := None; io_TweakListOptions := None |}.
Definition NewKueueInformer (client : Interface) (resyncPeriod : Z) (indexers : list string)
    : SharedIndexInformer :=
  NewKueueInformerWithOptions client {| io_ResyncPeriod := resyncPeriod; io_Indexers := indexers;
    io_InformerName := None; io_TweakListOptions := None |}.

(** [ToKueueIndexInformer]: the type assertion holds for a wrapper of the
    right type. *)
Definition ToKueueIndexInformer (informer : SharedIndexInformer) : SharedIndexInformer :=
  match informer with
  | typedSharedIndexInformer T _ =>
      if T =s KueueType then informer else typedSharedIndexInformer KueueType informer
  | sharedIndexInformer _ => typedSharedIndexInformer KueueType informer
  end.

(** ** What an informer asks of a factory

    [internalinterfaces.SharedInformerFactory]: the operations on a state [W],
    and what the accessors rely on: an informer that was handed out for a type
    is handed out again, unchanged, whatever was asked for in between. *)
Definition NewInformerFunc := Interface → Z → SharedIndexInformer.

Class SharedInformerFactory (W : Type) := {
  Start : Context → W → W;
  InformerFor : reflect_Type → NewInformerFunc → W → SharedIndexInformer * W;
  InformerName : W → option string;
  (** [has w t i]: [i] is the informer of type [t]. *)
  has : W → reflect_Type → SharedIndexInformer → Prop;
  has_InformerFor w t newFunc : has (InformerFor t newFunc w).2 t (InformerFor t newFunc w).1;
  has_same w t newFunc i : has w t i → InformerFor t newFunc w = (i, w);
  has_keep_InformerFor w t i t' newFunc : has w t i → has (InformerFor t' newFunc w).2 t i;
  has_keep_Start w t i ctx : has w t i → has (Start ctx w) t i;
}.

(** ** The accessors, over any factory

    [group], [version] and [kueueInformer] hold the factory and the list
    options of the moment they were made. *)
Record group := { g_namespace : string; g_tweakListOptions : option TweakListOptionsFunc }.
Record version := { v_namespace : string; v_tweakListOptions : option TweakListOptionsFunc }.
Record kueueInformer := { ki_tweakListOptions : option TweakListOptionsFunc }.

(** [kueueoperator.New] and [v1.New]. *)
Definition kueueoperator_New (namespace : string) (tweakListOptions : option TweakListOptionsFunc) : group :=
  {| g_namespace := namespace; g_tweakListOptions := tweakListOptions |}.
Definition v1_New (namespace : string) (tweakListOptions : option TweakListOptionsFunc) : version :=
  {| v_namespace := namespace; v_tweakListOptions := tweakListOptions |}.
Definition V1 (g : group) : version := v1_New (g_namespace g) (g_tweakListOptions g).
Definition Kueues (v : version) : kueueInformer := {| ki_tweakListOptions := v_tweakListOptions v |}.

Definition NamespaceIndex : string := "namespace".

Section accessors.
Context {W : Type} `{SharedInformerFactory W}.

Definition defaultInformer (name : option string) (k : kueueInformer) : NewInformerFunc :=
  λ client resyncPeriod, NewTypedKueueInformerWithOptions client {|
    io_ResyncPeriod := resyncPeriod; io_Indexers := [NamespaceIndex]; io_InformerName := name;
    io_TweakListOptions := ki_tweakListOptions k |}.

Definition TypedInformer (k : kueueInformer) (w : W) : SharedIndexInformer * W :=
  let '(i, w) := InformerFor KueueType (defaultInformer (InformerName w) k) w in
  (typedSharedIndexInformer KueueType i, w).
Definition Informer (k : kueueInformer) (w : W) : SharedIndexInformer * W := TypedInformer k w.

(** A lister reads the indexer of the informer it was made from. *)
Record KueueLister := { kl_indexer : SharedIndexInformer; kl_resource : GroupResource }.
Definition NewKueueLister (indexer : SharedIndexInformer) : KueueLister := {|
  kl_indexer := indexer;
  kl_resource := {| gr_Group := "kueue.openshift.io"; gr_Resource := "kueue" |} |}.
Definition Lister (k : kueueInformer) (w : W) : KueueLister * W :=
  let '(i, w) := Informer k w in (NewKueueLister i, w).

(** *** Typed and untyped informers

    A value of the interface [KueueInformer]; its dynamic type may have the
    method of [TypedKueueInformer]. *)
Record KueueInformer := {
  ui_Informer : W → SharedIndexInformer * W;
  ui_Lister : W → KueueLister * W;
  ui_TypedInformer : option (W → SharedIndexInformer * W);
}.
Record TypedKueueInformer := {
  ti_Informer : W → SharedIndexInformer * W;
  ti_TypedInformer : W → SharedIndexInformer * W;
  ti_Lister : W → KueueLister * W;
}.
Definition adapter_TypedInformer (a : KueueInformer) (w : W) : SharedIndexInformer * W :=
  let '(i, w) := ui_Informer a w in (typedSharedIndexInformer KueueType i, w).
Definition kueueTypedInformerAdapter (a : KueueInformer) : TypedKueueInformer := {|
  ti_Informer := ui_Informer a; ti_TypedInformer := adapter_TypedInformer a; ti_Lister := ui_Lister a |}.
Definition ToTypedKueueInformer (informer : KueueInformer) : TypedKueueInformer :=
  match ui_TypedInformer informer with
  | Some typedInformer => {| ti_Informer := ui_Informer informer; ti_TypedInformer := typedInformer;
                             ti_Lister := ui_Lister informer |}
  | None => kueueTypedInformerAdapter informer
  end.

(** The conversion keeps what the informer's methods return, and its typed
    informer is of the Kueue type around the same configuration, when the
    informer's own is. *)
Lemma ToTypedKueueInformer_spec (i : KueueInformer) :
  let typed_of f := ∀ w, (f w).2 = (ui_Informer i w).2 ∧ config (f w).1 = config (ui_Informer i w).1 ∧
    ∃ inner, (f w).1 = typedSharedIndexInformer KueueType inner in
  (∀ f, ui_TypedInformer i = Some f → typed_of f) →
  let t := ToTypedKueueInformer i in
  ti_Informer t = ui_Informer i ∧ ti_Lister t = ui_Lister i ∧ typed_of (ti_TypedInformer t).
Proof.
  intros typed_of Hf t. subst t. unfold ToTypedKueueInformer.
  destruct (ui_TypedInformer i) as [f|]; (split; [done|]; split; [done|]).
  - by apply Hf.
  - intros w. cbn. unfold adapter_TypedInformer. destruct (ui_Informer i w) as [j w']. cbn. eauto.
Qed.
End accessors.
End informers.

(** ** The factory: factory.go *)

Section factory.
Context `{InformerTypes}.

(** The lock has no data; [wg] counts the goroutines of the [world] below. *)
Record sharedInformerFactory := {
  client : Interface;
  namespace : string;
  tweakListOptions : option TweakListOptionsFunc;
  defaultResync : Z;
  customResync : gmap reflect_Type Z;
  transform : option TransformFunc;
  informerName : option string;
  informers : gmap reflect_Type SharedIndexInformer;
  startedInformers : gmap reflect_Type bool;
  shuttingDown : bool;
}.

Definition SharedInformerOption := sharedInformerFactory → sharedInformerFactory.

(** [for k, v := range resyncConfig { factory.customResync[reflect.TypeOf(k)] = v }]:
    [resyncConfig] in the order the range visits it. *)
Definition WithCustomResyncConfig (resyncConfig : list (reflect_Type * Z)) : SharedInformerOption := λ f, {|
  client := client f; namespace := namespace f; tweakListOptions := tweakListOptions f;
  defaultResync := defaultResync f;
  customResync := foldl (λ m kv, <[kv.1 := kv.2]> m) (customResync f) resyncConfig;
  transform := transform f; informerName := informerName f; informers := informers f;
  startedInformers := startedInformers f; shuttingDown := shuttingDown f |}.
Definition WithTweakListOptions (t : option TweakListOptionsFunc) : SharedInformerOption := λ f, {|
  client := client f; namespace := namespace f; tweakListOptions := t;
  defaultResync := defaultResync f; customResync := customResync f;
  transform := transform f; informerName := informerName f; informers := informers f;
  startedInformers := startedInformers f; shuttingDown := shuttingDown f |}.
Definition WithNamespace (ns : string) : SharedInformerOption := λ f, {|
  client := client f; namespace := ns; tweakListOptions := tweakListOptions f;
  defaultResync := defaultResync f; customResync := customResync f;
  transform := transform f; informerName := informerName f; informers := informers f;
  startedInformers := startedInformers f; shuttingDown := shuttingDown f |}.
Definition WithTransform (t : option TransformFunc) : SharedInformerOption := λ f, {|
  client := client f; namespace := namespace f; tweakListOptions := tweakListOptions f;
  defaultResync := defaultResync f; customResync := customResync f;
  transform := t; informerName := informerName f; informers := informers f;
  startedInformers := startedInformers f; shuttingDown := shuttingDown f |}.
Definition WithInformerName (n : option string) : SharedInformerOption := λ f, {|
  client := client f; namespace := namespace f; tweakListOptions := tweakListOptions f;
  defaultResync := defaultResync f; customResync := customResync f;
  transform := transform f; informerName := n; informers := informers f;
  startedInformers := startedInformers f; shuttingDown := shuttingDown f |}.

Definition NamespaceAll : string := "".

Definition NewSharedInformerFactoryWithOptions (c : Interface) (resync : Z)
    (options : list SharedInformerOption) : sharedInformerFactory :=
  foldl (λ f opt, opt f)
    {| client := c; namespace := NamespaceAll; tweakListOptions := None; defaultResync := resync;
       customResync := ∅; transform := None; informerName := None; informers := ∅;
       startedInformers := ∅; shuttingDown := false |}
    options.
Definition NewSharedInformerFactory (c : Interface) (resync : Z) : sharedInformerFactory :=
  NewSharedInformerFactoryWithOptions c resync [].
Definition NewFilteredSharedInformerFactory (c : Interface) (resync : Z) (ns : string)
    (t : option TweakListOptionsFunc) : sharedInformerFactory :=
  NewSharedInformerFactoryWithOptions c resync [WithNamespace ns; WithTweakListOptions t].

(** *** The world *)

(** A goroutine of [f.wg]: [informer.RunWithContext(ctx)]. *)
Record goroutine := { go_type : reflect_Type; go_informer : SharedIndexInformer; go_ctx : Context }.

(** [w_made] and [w_launched] record, for the theorems, what was made by
    [newFunc] and what was launched, in order. *)
Record world := {
  w_factory : sharedInformerFactory;
  w_running : list goroutine;
  w_made : list (reflect_Type * SharedIndexInformer);
  w_launched : list goroutine;
}.

Definition new_world (f : sharedInformerFactory) : world :=
  {| w_factory := f; w_running := []; w_made := []; w_launched := [] |}.

Definition set_informers (m : gmap reflect_Type SharedIndexInformer) (f : sharedInformerFactory) := {|
  client := client f; namespace := namespace f; tweakListOptions := tweakListOptions f;
  defaultResync := defaultResync f; customResync := customResync f; transform := transform f;
  informerName := informerName f; informers := m;
  startedInformers := startedInformers f; shuttingDown := shuttingDown f |}.
Definition set_started (m : gmap reflect_Type bool) (f : sharedInformerFactory) := {|
  client := client f; namespace := namespace f; tweakListOptions := tweakListOptions f;
  defaultResync := defaultResync f; customResync := customResync f; transform := transform f;
  informerName := informerName f; informers := informers f;
  startedInformers := m; shuttingDown := shuttingDown f |}.
Definition set_shuttingDown (b : bool) (f : sharedInformerFactory) := {|
  client := client f; namespace := namespace f; tweakListOptions := tweakListOptions f;
  defaultResync := defaultResync f; customResync := customResync f; transform := transform f;
  informerName := informerName f; informers := informers f;
  startedInformers := startedInformers f; shuttingDown := b |}.

(** [InformerFor] *)
Definition factory_InformerFor (informerType : reflect_Type) (newFunc : NewInformerFunc) (w : world)
    : SharedIndexInformer * world :=
  let f := w_factory w in
  match informers f !! informerType with
  | Some informer => (informer, w)
  | None =>
      let resyncPeriod := default (defaultResync f) (customResync f !! informerType) in
      let informer := newFunc (client f) resyncPeriod in
      let informer := match transform f with Some t => SetTransform t informer | None => informer end in
      (informer, {| w_factory := set_informers (<[informerType := informer]> (informers f)) f;
                    w_running := w_running w; w_made := w_made w ++ [(informerType, informer)];
                    w_launched := w_launched w |})
  end.

(** The loop of [StartWithContext], over the informers in the order the range
    visits them. *)
Definition start_step (ctx : Context) (w : world) (ti : reflect_Type * SharedIndexInformer) : world :=
  let f := w_factory w in
  if default false (startedInformers f !! ti.1) then w
  else
    let g := {| go_type := ti.1; go_informer := ti.2; go_ctx := ctx |} in
    {| w_factory := set_started (<[ti.1 := true]> (startedInformers f)) f;
       w_running := w_running w ++ [g]; w_made := w_made w; w_launched := w_launched w ++ [g] |}.
Definition StartWithContext (ctx : Context) (w : world) : world :=
  if shuttingDown (w_factory w) then w
  else foldl (start_step ctx) w (map_to_list (informers (w_factory w))).

(** [Start(stopCh)]: [wait.ContextForChannel(stopCh)] is done when the channel
    is closed; both have one name here. *)
Definition factory_Start (stopCh : Context) (w : world) : world := StartWithContext stopCh w.

(** [Shutdown] up to the unlock; it returns when no goroutine of the group is
    left. The [informerName.Release()] on the way out acts on client-go's table
    of the names in use, which is not part of this state: the factory and its
    goroutines stay as they are. *)
Definition Shutdown (w : world) : world := {|
  w_factory := set_shuttingDown true (w_factory w); w_running := w_running w; w_made := w_made w;
  w_launched := w_launched w |}.
Definition Shutdown_returns (w : world) : bool := shuttingDown (w_factory w) && bool_decide (length (w_running w) = 0).

(** A goroutine ends. *)
Definition exit (i : nat) (w : world) : world := {|
  w_factory := w_factory w; w_running := delete i (w_running w); w_made := w_made w;
  w_launched := w_launched w |}.

(** The group's accessor of the factory. *)
Definition factory_Kueue (w : world) : group :=
  kueueoperator_New (namespace (w_factory w)) (tweakListOptions (w_factory w)).

(** *** Waiting for the caches *)

Record SyncResult := { Synced : gmap reflect_Type bool; sr_Err : option error }.

(** The informers waited for, taken under the lock. *)
Definition startedOf (f : sharedInformerFactory) : gmap reflect_Type SharedIndexInformer :=
  map_imap (λ t i, if default false (startedInformers f !! t) then Some i else None) (informers f).

(** The part after [cache.WaitFor]: [HasSynced] and [context.Cause] are what
    the informers and the context answer then. *)
Definition syncResult (HasSynced : SharedIndexInformer → bool) (cause : option error)
    (started : gmap reflect_Type SharedIndexInformer) : SyncResult :=
  let synced := HasSynced <$> started in
  let failed := existsb (λ p, negb p.2) (map_to_list synced) in
  {| Synced := synced; sr_Err := if failed then cause else None |}.
Definition WaitForCacheSyncWithContext (HasSynced : SharedIndexInformer → bool) (cause : option error)
    (w : world) : SyncResult :=
  syncResult HasSynced cause (startedOf (w_factory w)).
Definition WaitForCacheSync (HasSynced : SharedIndexInformer → bool) (cause : option error)
    (w : world) : gmap reflect_Type bool :=
  Synced (WaitForCacheSyncWithContext HasSynced cause w).
End factory.

(** ** ForResource: generic.go *)

Section generic.
Context `{InformerTypes}.

#[export] Instance world_factory : SharedInformerFactory world.
Proof.
  refine {|
    Start := factory_Start;
    InformerFor := factory_InformerFor;
    InformerName w := informerName (w_factory w);
    has w t i := informers (w_factory w) !! t = Some i |}.
  - intros w t n. unfold factory_InformerFor. destruct (informers (w_factory w) !! t) eqn:E; [done|].
    apply lookup_insert_eq.
  - intros w t n i Hi. unfold factory_InformerFor. by rewrite Hi.
  - intros w t i t' n Hi. unfold factory_InformerFor. destruct (informers _ !! t') eqn:E; [done|].
    cbn. rewrite lookup_insert_ne; [done|]. congruence.
  - intros w t i ctx Hi. unfold factory_Start, StartWithContext. destruct (shuttingDown _); [done|].
    generalize (map_to_list (informers (w_factory w))). intros l. revert w Hi.
    induction l as [|ti l IH]; intros w Hi; [done|]. apply IH. unfold start_step. by case_match.
Defined.

Record genericInformer := { gi_informer : SharedIndexInformer; gi_resource : GroupResource }.
Record GenericLister := { gl_indexer : SharedIndexInformer; gl_resource : GroupResource }.
Definition genericInformer_Informer (f : genericInformer) : SharedIndexInformer := gi_informer f.
Definition genericInformer_Lister (f : genericInformer) : GenericLister :=
  {| gl_indexer := genericInformer_Informer f; gl_resource := gi_resource f |}.

(** [GroupVersionResource.String] *)
Definition gvr_String (r : GroupVersionResource) : string :=
  gvr_Group r +:+ "/" +:+ gvr_Version r +:+ ", Resource=" +:+ gvr_Resource r.

Definition ForResource (resource : GroupVersionResource) (w : world) : res genericInformer * world :=
  if bool_decide (resource = kueuesResource) then
    let '(i, w) := Informer (Kueues (V1 (factory_Kueue w))) w in
    (Ok {| gi_informer := i;
           gi_resource := {| gr_Group := gvr_Group resource; gr_Resource := gvr_Resource resource |} |}, w)
  else (Err (ErrorString ("no informer found for " +:+ gvr_String resource)), w).

(** The interface of the factory's users, [SharedInformerFactory] of
    factory.go: that of the accessors and the life cycle. The waits are given
    what the caches and the context answer. *)
Record externalversions_SharedInformerFactory (W : Type) := {
  esf_internal : SharedInformerFactory W;
  esf_Start : Context → W → W;
  esf_StartWithContext : Context → W → W;
  esf_Shutdown : W → W;
  esf_WaitForCacheSync : (SharedIndexInformer → bool) → option error → W → gmap reflect_Type bool;
  esf_WaitForCacheSyncWithContext : (SharedIndexInformer → bool) → option error → W → SyncResult;
  esf_ForResource : GroupVersionResource → W → res genericInformer * W;
  esf_InformerFor : reflect_Type → NewInformerFunc → W → SharedIndexInformer * W;
  esf_Kueue : W → group;
}.
Definition factory_interface : externalversions_SharedInformerFactory world := {|
  esf_internal := world_factory; esf_Start := factory_Start; esf_StartWithContext := StartWithContext;
  esf_Shutdown := Shutdown; esf_WaitForCacheSync := WaitForCacheSync;
  esf_WaitForCacheSyncWithContext := WaitForCacheSyncWithContext; esf_ForResource := ForResource;
  esf_InformerFor := factory_InformerFor; esf_Kueue := factory_Kueue |}.
End generic.

(** ** Interleavings *)

Section steps.
Context `{InformerTypes}.

(** The loop of [StartWithContext] in another order. *)
Definition StartInOrder (ctx : Context) (order : list (reflect_Type * SharedIndexInformer)) (w : world) : world :=
  if shuttingDown (w_factory w) then w else foldl (start_step ctx) w order.

(** Calls from any number of goroutines, one critical section at a time;
    contexts are cancelled, and the informers that run with them return. *)
Inductive step : world * gset Context → world * gset Context → Prop :=
  | step_InformerFor t newFunc w d : step (w, d) ((factory_InformerFor t newFunc w).2, d)
  | step_Start ctx order w d : order ≡ₚ map_to_list (informers (w_factory w)) →
      step (w, d) (StartInOrder ctx order w, d)
  | step_Shutdown w d : step (w, d) (Shutdown w, d)
  | step_cancel ctx w d : step (w, d) (w, {[ctx]} ∪ d)
  | step_exit i g w d : w_running w !! i = Some g → go_ctx g ∈ d → step (w, d) (exit i w, d).

Lemma step_StartWithContext ctx w d : step (w, d) (StartWithContext ctx w, d).
Proof. by apply (step_Start ctx (map_to_list (informers (w_factory w)))). Qed.

(** What holds of every reachable world. *)
Record factory_inv (w : world) : Prop := {
  inv_made_once : NoDup (w_made w).*1;
  inv_made t i : informers (w_factory w) !! t = Some i ↔ (t, i) ∈ w_made w;
  inv_launched_once : NoDup (go_type <$> w_launched w);
  inv_launched g : g ∈ w_launched w → informers (w_factory w) !! go_type g = Some (go_informer g);
  inv_started t b : startedInformers (w_factory w) !! t = Some b ↔
    b = true ∧ t ∈ go_type <$> w_launched w;
  inv_running : w_running w ⊆+ w_launched w;
}.

Lemma inv_new f : informers f = ∅ → startedInformers f = ∅ → factory_inv (new_world f).
Proof.
  intros Hi Hs. split; cbn; rewrite ?Hi, ?Hs; try by constructor.
  - intros t i. rewrite lookup_empty. set_solver.
  - intros g. set_solver.
  - intros t b. rewrite lookup_empty. set_solver.
Qed.

Lemma inv_InformerFor t newFunc w : factory_inv w → factory_inv (factory_InformerFor t newFunc w).2.
Proof.
  intros [Hm1 Hm Hl1 Hl Hs Hr]. unfold factory_InformerFor.
  destruct (informers (w_factory w) !! t) as [i|] eqn:E; [done|]. split; cbn; try done.
  - rewrite fmap_app. apply NoDup_app. split_and!; [done| |by apply NoDup_singleton].
    intros t' Ht' Heq. cbn in Heq. apply list_elem_of_singleton in Heq as ->. apply list_elem_of_fmap in Ht' as ([t' i] & -> & Hti).
    apply Hm in Hti. cbn in E. congruence.
  - intros t' i. rewrite elem_of_app, list_elem_of_singleton. rewrite <-Hm.
    destruct (decide (t' = t)) as [->|Hne].
    + rewrite lookup_insert_eq, E. naive_solver.
    + rewrite lookup_insert_ne by done. naive_solver.
  - intros g Hg. specialize (Hl g Hg). rewrite lookup_insert_ne; [done|]. congruence.
Qed.

Lemma inv_start_step ctx t i w :
  factory_inv w → informers (w_factory w) !! t = Some i → factory_inv (start_step ctx w (t, i)).
Proof.
  intros [Hm1 Hm Hl1 Hl Hs Hr] Hi. unfold start_step. cbn [fst snd].
  destruct (startedInformers (w_factory w) !! t) as [[]|] eqn:E; cbn; try done.
  { apply Hs in E as [? _]. done. }
  assert (t ∉ go_type <$> w_launched w) as Ht.
  { intros Ht. assert (startedInformers (w_factory w) !! t = Some true) by (by apply Hs). congruence. }
  split; cbn; try done.
  - rewrite fmap_app. apply NoDup_app. split_and!; [done| |by apply NoDup_singleton].
    intros t' Ht' Heq. cbn in Heq. by apply list_elem_of_singleton in Heq as ->.
  - intros g [Hg| ->%list_elem_of_singleton]%elem_of_app; [by apply Hl|done].
  - intros t' b. rewrite fmap_app, elem_of_app. cbn. rewrite list_elem_of_singleton.
    destruct (decide (t' = t)) as [->|Hne].
    + rewrite lookup_insert_eq. naive_solver.
    + rewrite lookup_insert_ne by done. rewrite Hs. naive_solver.
  - by apply submseteq_app.
Qed.

Lemma start_step_informers ctx w ti : informers (w_factory (start_step ctx w ti)) = informers (w_factory w).
Proof. unfold start_step. by case_match. Qed.

Lemma inv_start_loop ctx l w :
  factory_inv w → (∀ t i, (t, i) ∈ l → informers (w_factory w) !! t = Some i) →
  factory_inv (foldl (start_step ctx) w l).
Proof.
  revert w. induction l as [|[t i] l IH]; intros w Hw Hl; [done|]. cbn. apply IH.
  - apply inv_start_step; [done|]. apply Hl. by left.
  - intros t' i' Hin. rewrite start_step_informers. apply Hl. by right.
Qed.

Lemma inv_Start ctx order w :
  order ≡ₚ map_to_list (informers (w_factory w)) → factory_inv w → factory_inv (StartInOrder ctx order w).
Proof.
  intros Ho Hw. unfold StartInOrder. destruct (shuttingDown _); [done|]. apply inv_start_loop; [done|].
  intros t i Hin. rewrite Ho in Hin. by apply elem_of_map_to_list.
Qed.

Lemma inv_exit i w : factory_inv w → factory_inv (exit i w).
Proof.
  intros [Hm1 Hm Hl1 Hl Hs Hr]. split; cbn; try done. etrans; [|exact Hr].
  apply sublist_submseteq, sublist_delete.
Qed.

Lemma inv_step s s' : step s s' → factory_inv s.1 → factory_inv s'.1.
Proof.
  intros [] Hw; cbn in *; [by apply inv_InformerFor|by apply inv_Start| |done|by apply inv_exit].
  by destruct Hw.
Qed.

Lemma inv_steps s s' : rtc step s s' → factory_inv s.1 → factory_inv s'.1.
Proof. induction 1; [done|]. intros. by eapply IHrtc, inv_step. Qed.
End steps.

(** ** Properties *)

Section properties.
Context `{InformerTypes}.

(** C8: Whatever the callers do concurrently, the factory makes at most one
    informer of a type and launches it at most once; what runs is the informer
    that the factory hands out for its type, and is marked as started. *)
Theorem factory_once f w d d' :
  informers f = ∅ → startedInformers f = ∅ → rtc step (new_world f, d) (w, d') →
  NoDup (w_made w).*1 ∧ NoDup (go_type <$> w_launched w) ∧ NoDup (go_type <$> w_running w) ∧
  ∀ g, g ∈ w_running w →
    informers (w_factory w) !! go_type g = Some (go_informer g) ∧
    startedInformers (w_factory w) !! go_type g = Some true.
Proof.
  intros Hi Hs Hr. destruct (inv_steps _ _ Hr (inv_new f Hi Hs)) as [Hm1 Hm Hl1 Hl Hst Hrun]. cbn in *.
  split_and!; [done..| |].
  - assert (go_type <$> w_running w ⊆+ go_type <$> w_launched w) as Hsub by by apply fmap_submseteq.
    apply submseteq_Permutation in Hsub as [k Hk]. rewrite Hk in Hl1. by apply NoDup_app in Hl1 as [? _].
  - intros g Hg. assert (g ∈ w_launched w) as Hgl by by eapply elem_of_submseteq.
    split; [by apply Hl|]. apply Hst. split; [done|]. by apply list_elem_of_fmap_2.
Qed.

(** *** Shutdown *)

Lemma step_shutdown s s' : step s s' → shuttingDown (w_factory s.1) = true →
  shuttingDown (w_factory s'.1) = true ∧ w_launched s'.1 = w_launched s.1 ∧
  w_running s'.1 ⊆+ w_running s.1 ∧ s.2 ⊆ s'.2.
Proof.
  intros [] Hd; cbn in *; [|unfold StartInOrder; rewrite Hd| | |]; split_and!; try done; try set_solver.
  1-3: unfold factory_InformerFor; by case_match.
  apply sublist_submseteq, sublist_delete.
Qed.

Lemma steps_shutdown s s' : rtc step s s' → shuttingDown (w_factory s.1) = true →
  shuttingDown (w_factory s'.1) = true ∧ w_launched s'.1 = w_launched s.1 ∧
  w_running s'.1 ⊆+ w_running s.1 ∧ s.2 ⊆ s'.2.
Proof.
  induction 1 as [s|s s1 s2 Hs _ IH]; intros Hd; [done|].
  destruct (step_shutdown _ _ Hs Hd) as (Hd1 & Hl1 & Hr1 & H1). destruct (IH Hd1) as (? & Hl & Hr & ?).
  split_and!; [done|congruence|by etrans|by etrans].
Qed.

Lemma exits n w d : length (w_running w) = n → (∀ g, g ∈ w_running w → go_ctx g ∈ d) →
  ∃ w', rtc step (w, d) (w', d) ∧ w_running w' = [] ∧ w_factory w' = w_factory w.
Proof.
  revert w. induction n as [|n IH]; intros w Hn Hg.
  - exists w. split; [done|]. by apply nil_length_inv in Hn.
  - destruct (w_running w) as [|g l] eqn:E; [done|].
    destruct (IH (exit 0 w)) as (w' & Hst & Hr & Hf).
    + cbn. rewrite E. cbn in *. lia.
    + cbn. rewrite E. cbn. intros g' Hg'. apply Hg. by right.
    + exists w'. split_and!; [|done..]. eapply rtc_l; [|exact Hst].
      apply (step_exit 0 g); [by rewrite E|]. apply Hg. by left.
Qed.

(** C24: Once [Shutdown] was called no informer is launched any more, and when
    it has returned none runs, ever after. It can return: when the contexts the
    informers run with are done they end, and [Shutdown] with them. *)
Theorem Shutdown_spec w d w1 d1 w' d' :
  rtc step (Shutdown w, d) (w1, d1) → rtc step (w1, d1) (w', d') →
  w_launched w' = w_launched w ∧ w_running w' ⊆+ w_running w ∧
  (Shutdown_returns w1 = true → w_running w' = [] ∧ Shutdown_returns w' = true) ∧
  ((∀ g, g ∈ w_running w → go_ctx g ∈ d') → ∃ w2, rtc step (w', d') (w2, d') ∧ Shutdown_returns w2 = true).
Proof.
  intros Hs1 Hs. destruct (steps_shutdown _ _ Hs1 eq_refl) as (Hd1 & Hl1 & Hr1 & _).
  destruct (steps_shutdown _ _ Hs Hd1) as (Hd' & Hl & Hr & _). cbn in *.
  assert (w_running w' ⊆+ w_running w) as Hrw by by etrans.
  split_and!; [congruence|done| |].
  - unfold Shutdown_returns. rewrite Hd1, Hd'. cbn. intros Hn%bool_decide_eq_true.
    apply nil_length_inv in Hn. rewrite Hn in Hr. apply submseteq_nil_r in Hr. by rewrite Hr.
  - intros Hc. destruct (exits _ w' d' eq_refl) as (w2 & Hst & Hr2 & Hf2).
    { intros g Hg. apply Hc. by eapply elem_of_submseteq. }
    exists w2. split; [done|]. unfold Shutdown_returns. by rewrite Hf2, Hd', Hr2.
Qed.

(** *** One informer for every accessor *)

Lemma steps_informer t i s s' :
  rtc step s s' → informers (w_factory s.1) !! t = Some i → informers (w_factory s'.1) !! t = Some i.
Proof.
  induction 1 as [s|s s1 s2 Hs _ IH]; intros Hi; [done|]. apply IH. destruct Hs; cbn in *; [|..|done|done|done].
  - exact (has_keep_InformerFor (W := world) w t i t0 newFunc Hi).
  - unfold StartInOrder. destruct (shuttingDown _); [done|].
    clear -Hi. revert w Hi. induction order as [|x order IH]; intros w Hi; [done|].
    apply IH. by rewrite start_step_informers.
Qed.

Lemma Informer_had k w i : informers (w_factory w) !! KueueType = Some i →
  Informer k w = (typedSharedIndexInformer KueueType i, w).
Proof. intros Hi. unfold Informer, TypedInformer. by rewrite (has_same (W := world) w _ _ i). Qed.

Lemma Informer_has k w : ∃ i, informers (w_factory (Informer k w).2) !! KueueType = Some i ∧
  (Informer k w).1 = typedSharedIndexInformer KueueType i.
Proof.
  unfold Informer, TypedInformer.
  pose proof (has_InformerFor (W := world) w KueueType (defaultInformer (InformerName w) k)) as Hh.
  destruct (InformerFor _ _ w) as [i w']. by exists i.
Qed.

(** C23: The informer of the [Kueue] resource is shared: after it was asked for
    once, every accessor returns it, whatever happened in between and whichever
    list options the accessor holds, and [ForResource] too, for this resource
    only. The first to ask decides: its list options restrict what is listed
    and watched, with the factory's client, resync interval (the type's own if
    it has one) and transformation. *)
Theorem Informer_shared k w d w' d' k' :
  rtc step ((Informer k w).2, d) (w', d') →
  Informer k' w' = ((Informer k w).1, w') ∧
  (∀ r, ForResource r w' =
     (if bool_decide (r = kueuesResource)
      then Ok {| gi_informer := (Informer k w).1;
                 gi_resource := {| gr_Group := "kueue.openshift.io"; gr_Resource := "kueues" |} |}
      else Err (ErrorString ("no informer found for " +:+ gvr_String r)), w')) ∧
  (informers (w_factory w) !! KueueType = None →
   let c := config (Informer k w).1 in
   let f := w_factory w in
   ic_exampleObject c = KueueType ∧
   ic_ResyncPeriod c = default (defaultResync f) (customResync f !! KueueType) ∧
   ic_transform c = transform f ∧
   ic_Identifier c = (informerName f, kueuesResource) ∧
   ∀ ctx opts, lw_ListWithContextFunc (ic_ListWatch c) ctx opts =
                 List (client f) ctx (tweak (ki_tweakListOptions k) opts) ∧
               lw_WatchFuncWithContext (ic_ListWatch c) ctx opts =
                 Watch (client f) ctx (tweak (ki_tweakListOptions k) opts)).
Proof.
  intros Hs. destruct (Informer_has k w) as (i & Hi & Hk).
  pose proof (steps_informer _ _ _ _ Hs Hi) as Hi'. cbn in Hi'. split_and!.
  - by rewrite (Informer_had k' w' i Hi'), Hk.
  - intros r. unfold ForResource. case_bool_decide as Hr; [|done].
    rewrite (Informer_had _ w' i Hi'), Hk, Hr. done.
  - intros Hn. cbv zeta. unfold Informer, TypedInformer. cbn. unfold factory_InformerFor. rewrite Hn. cbn.
    destruct (transform (w_factory w)); cbn; by split_and!.
Qed.

(** *** Waiting *)

Lemma startedOf_lookup f t i : startedOf f !! t = Some i ↔
  informers f !! t = Some i ∧ startedInformers f !! t = Some true.
Proof.
  unfold startedOf. rewrite map_lookup_imap. destruct (informers f !! t) as [j|]; cbn; [|naive_solver].
  destruct (startedInformers f !! t) as [[]|]; cbn; naive_solver.
Qed.

(** C30: The result of waiting has the informers that were started and nothing
    else, each with what it says of itself; there is no error exactly when all
    have synced, provided that waiting stops early only for a context with a
    cause, and the error is that cause. *)
Theorem WaitForCacheSync_spec HasSynced cause w :
  ((∀ t i, startedOf (w_factory w) !! t = Some i → HasSynced i = true) ∨ cause ≠ None) →
  let r := WaitForCacheSyncWithContext HasSynced cause w in
  WaitForCacheSync HasSynced cause w = Synced r ∧
  (∀ t b, Synced r !! t = Some b ↔ ∃ i, informers (w_factory w) !! t = Some i ∧
     startedInformers (w_factory w) !! t = Some true ∧ b = HasSynced i) ∧
  (sr_Err r = None ↔ ∀ t b, Synced r !! t = Some b → b = true) ∧
  (sr_Err r ≠ None → sr_Err r = cause).
Proof.
  intros Hc r. set (st := startedOf (w_factory w)) in *.
  assert (Hf : existsb (λ p : reflect_Type * bool, negb p.2) (map_to_list (HasSynced <$> st)) = false ↔
    ∀ t b, (HasSynced <$> st) !! t = Some b → b = true).
  { rewrite <-not_true_iff_false, existsb_exists. split.
    - intros Hn t [] Ht; [done|]. destruct Hn. exists (t, false).
      by rewrite <-list_elem_of_In, elem_of_map_to_list.
    - intros Ha ([t b] & Hin & Hb). rewrite <-list_elem_of_In, elem_of_map_to_list in Hin.
      by rewrite (Ha _ _ Hin) in Hb. }
  split_and!; [done| | |].
  - intros t b. cbn. fold st. rewrite lookup_fmap, fmap_Some. split.
    + intros (i & Hi & ->). apply startedOf_lookup in Hi as [? ?]. by exists i.
    + intros (i & ? & ? & ->). exists i. split; [by apply startedOf_lookup|done].
  - unfold r, WaitForCacheSyncWithContext, syncResult. cbn. fold st. rewrite <-Hf.
    destruct (existsb _ _) eqn:E; [|done]. split; [|done]. intros ->. exfalso.
    destruct Hc as [Hc|Hc]; [|done]. cut (true = false); [done|]. apply Hf.
    intros t b. rewrite lookup_fmap, fmap_Some. intros (i & Hi & ->). by eapply Hc.
  - unfold r, WaitForCacheSyncWithContext, syncResult. cbn. by case_match.
Qed.
End properties.

(** ** An example *)

Module Example.
#[export] Instance types : InformerTypes :=
  {| Interface := string; ListOptions := string; TransformFunc := string |}.

Definition factory : sharedInformerFactory :=
  NewSharedInformerFactoryWithOptions ("client" : Interface) 600
    [WithCustomResyncConfig [(KueueType, 60%Z)]; WithTransform (Some ("strip" : TransformFunc))].
Definition kueues : kueueInformer := Kueues (V1 (factory_Kueue (new_world factory))).
Definition asked : world := (Informer kueues (new_world factory)).2.
Definition started : world := StartWithContext "ctx" asked.

Definition other : kueueInformer :=
  {| ki_tweakListOptions := Some ((λ o : string, o +:+ "!") : @TweakListOptionsFunc types) |}.

Lemma runs : rtc step (new_world factory, ∅) (started, ∅).
Proof.
  eapply rtc_l; [exact (step_InformerFor KueueType (defaultInformer None kueues) _ _)|].
  eapply rtc_l; [exact (step_StartWithContext "ctx" asked ∅)|]. constructor.
Qed.
End Example.

Lemma factory_once_witness :
  rtc step (new_world Example.factory, ∅) (Example.started, ∅) ∧
  NoDup (go_type <$> w_launched Example.started) ∧ length (w_running Example.started) = 1 ∧
  ic_ResyncPeriod (config (Informer Example.kueues Example.started).1) = 60%Z.
Proof.
  split; [exact Example.runs|]. split; [|split; vm_compute; reflexivity].
  exact (proj1 (proj2 (factory_once Example.factory Example.started ∅ ∅ eq_refl eq_refl Example.runs))).
Defined.

Lemma Shutdown_spec_witness :
  length (w_running (Shutdown Example.started)) = 1 ∧
  ∃ w2, rtc step (Shutdown Example.started, {["ctx"]} ∪ ∅) (w2, {["ctx"]} ∪ ∅) ∧ Shutdown_returns w2 = true.
Proof.
  split; [vm_compute; reflexivity|].
  refine (proj2 (proj2 (proj2 (Shutdown_spec Example.started ∅ (Shutdown Example.started) ∅
    (Shutdown Example.started) ({["ctx"]} ∪ ∅) (rtc_refl _ _) (rtc_once _ _ (step_cancel "ctx" _ ∅))))) _).
  intros g Hg. apply list_elem_of_singleton in Hg as ->. vm_compute. reflexivity.
Defined.

Lemma Informer_shared_witness :
  Informer Example.other (StartWithContext "ctx" Example.asked) =
    ((Informer Example.kueues (new_world Example.factory)).1, Example.started).
Proof.
  refine (proj1 (Informer_shared Example.kueues (new_world Example.factory) ∅ Example.started ∅
    Example.other _)).
  apply rtc_once. exact (step_StartWithContext "ctx" Example.asked ∅).
Defined.

Lemma WaitForCacheSync_spec_witness :
  let r := WaitForCacheSyncWithContext (λ _, false) (Some (ContextError "context canceled")) Example.started in
  Synced r !! KueueType = Some false ∧ sr_Err r = Some (ContextError "context canceled") ∧
  (sr_Err r = None ↔ ∀ t b, Synced r !! t = Some b → b = true).
Proof.
  intros r. split; [vm_compute; reflexivity|]. split; [vm_compute; reflexivity|].
  refine (proj1 (proj2 (proj2 (WaitForCacheSync_spec (λ _, false) (Some (ContextError "context canceled"))
    Example.started _)))).
  right. discriminate.
Defined.
