(* ===== verification/FakeClientset.v ===== *)
(** * Schemes, the schema parser and the fake clientset

    [pkg/apis/kueueoperator/v1/register.go],
    [pkg/generated/clientset/versioned/scheme] and [fake/register.go]: what is
    registered in the schemes; [pkg/generated/applyconfiguration/internal]: the
    parser that is made once; [pkg/generated/clientset/versioned/fake] and
    [typed/kueueoperator/v1/fake]: the clientset for tests, over client-go's
    [testing.Fake] and [gentype]. Schemes, trackers and watches are client-go's:
    their operations are parameters. *)
From S2P Require Import Prelude GoStd K8s ApiTypes Clientset.
From S2P Require InformerFactory.

(** ** Schemes *)

Section scheme.
Context {Scheme : Type} (AddKnownTypes : GroupVersion → list string → Scheme → Scheme)
  (AddToGroupVersion : GroupVersion → Scheme → Scheme).

(** [runtime.SchemeBuilder] and its [AddToScheme]: up to the first error. *)
Definition SchemeBuilder := list (Scheme → option error * Scheme).
Fixpoint SchemeBuilder_AddToScheme (sb : SchemeBuilder) (s : Scheme) : option error * Scheme :=
  match sb with
  | [] => (None, s)
  | f :: sb =>
      match f s with
      | (Some err, s) => (Some err, s)
      | (None, s) => SchemeBuilder_AddToScheme sb s
      end
  end.

(** [SchemeBuilder] of register.go, after [init] has registered
    [addKnownTypes] a second time; [AddToScheme] is bound to the variable. *)
Definition v1_SchemeBuilder : SchemeBuilder :=
  let addKnownTypes s := (None, addKnownTypes AddKnownTypes AddToGroupVersion s) in
  [addKnownTypes] ++ [addKnownTypes].
Definition v1_AddToScheme : Scheme → option error * Scheme := SchemeBuilder_AddToScheme v1_SchemeBuilder.

(** scheme/register.go and fake/register.go *)
Definition localSchemeBuilder : SchemeBuilder := [v1_AddToScheme].
Definition AddToScheme : Scheme → option error * Scheme := SchemeBuilder_AddToScheme localSchemeBuilder.
Definition init_scheme (NewScheme : Scheme) : res Scheme :=
  let Scheme := AddToGroupVersion {| gv_Group := ""; gv_Version := "v1" |} NewScheme in
  match AddToScheme Scheme with
  | (Some err, _) => Panic (Error err)
  | (None, Scheme) => Ok Scheme
  end.
Definition fake_localSchemeBuilder : SchemeBuilder := [v1_AddToScheme].
Definition fake_AddToScheme : Scheme → option error * Scheme := SchemeBuilder_AddToScheme fake_localSchemeBuilder.
Definition fake_init_scheme (NewScheme : Scheme) : res Scheme :=
  let scheme := AddToGroupVersion {| gv_Group := ""; gv_Version := "v1" |} NewScheme in
  match fake_AddToScheme scheme with
  | (Some err, _) => Panic (Error err)
  | (None, scheme) => Ok scheme
  end.

(** [RegisterDefaults]: no type has defaults in Go. *)
Definition RegisterDefaults (scheme : Scheme) : option error * Scheme := (None, scheme).

(** The initialisation does not panic. The types are added twice, which has
    no effect when adding them again has none. *)
Theorem init_scheme_spec (s : Scheme) :
  (∀ s, addKnownTypes AddKnownTypes AddToGroupVersion (addKnownTypes AddKnownTypes AddToGroupVersion s) =
        addKnownTypes AddKnownTypes AddToGroupVersion s) →
  init_scheme s = Ok (addKnownTypes AddKnownTypes AddToGroupVersion
    (AddToGroupVersion {| gv_Group := ""; gv_Version := "v1" |} s)) ∧
  fake_init_scheme s = init_scheme s.
Proof. intros Hidem. unfold init_scheme, fake_init_scheme. cbn. by rewrite Hidem. Qed.
End scheme.

(** ** The parser of the apply configurations: internal.go *)

Section parser.
Context {Parser_t : Type} (NewParser : string → error + Parser_t).

Definition schemaYAML : string := "types:
- name: com.github.openshift.kueue-operator.pkg.apis.kueueoperator.v1.Kueue
  scalar: untyped
  list:
    elementType:
      namedType: __untyped_atomic_
    elementRelationship: atomic
  map:
    elementType:
      namedType: __untyped_deduced_
    elementRelationship: separable
- name: __untyped_atomic_
  scalar: untyped
  list:
    elementType:
      namedType: __untyped_atomic_
    elementRelationship: atomic
  map:
    elementType:
      namedType: __untyped_atomic_
    elementRelationship: atomic
- name: __untyped_deduced_
  scalar: untyped
  list:
    elementType:
      namedType: __untyped_atomic_
    elementRelationship: atomic
  map:
    elementType:
      namedType: __untyped_deduced_
    elementRelationship: separable
".

(** The package's variables: whether [parserOnce] has run, and [parser]. *)
Record parser_vars := { parserOnce : bool; parser : option Parser_t }.

(** A [sync.Once] whose function panicked does not run it again. *)
Definition Parser (v : parser_vars) : res (option Parser_t) * parser_vars :=
  if parserOnce v then (Ok (parser v), v)
  else match NewParser schemaYAML with
       | inl err => (Panic ("Failed to parse schema: " +:+ Error err), {| parserOnce := true; parser := None |})
       | inr p => (Ok (Some p), {| parserOnce := true; parser := Some p |})
       end.

(** [NewTypeConverter]: of a scheme and the parser. *)
Definition NewTypeConverter {Scheme TypeConverter} (NewSchemeTypeConverter : Scheme → option Parser_t → TypeConverter)
    (scheme : Scheme) (v : parser_vars) : res TypeConverter * parser_vars :=
  let '(p, v) := Parser v in (rlet p := p in Ok (NewSchemeTypeConverter scheme p), v).

Fixpoint Parser_calls (n : nat) (v : parser_vars) : list (res (option Parser_t)) :=
  match n with 0 => [] | S n => let '(r, v) := Parser v in r :: Parser_calls n v end.

(** All callers get one parser. When the schema cannot be parsed only the
    first call panics: the later ones return nil. *)
Theorem Parser_calls_spec n :
  Parser_calls n {| parserOnce := false; parser := None |} =
  match n, NewParser schemaYAML with
  | 0, _ => []
  | S m, inr p => replicate (S m) (Ok (Some p))
  | S m, inl err => Panic ("Failed to parse schema: " +:+ Error err) :: replicate m (Ok None)
  end.
Proof.
  assert (∀ m q, Parser_calls m {| parserOnce := true; parser := q |} = replicate m (Ok q)) as Hdone.
  { intros m q. induction m as [|m IH]; [done|]. cbn. by rewrite IH. }
  destruct n as [|n]; [done|]. cbn [Parser_calls]. unfold Parser. cbn [parserOnce].
  destruct (NewParser schemaYAML); by rewrite Hdone.
Qed.
End parser.

(** ** The client of the resource

    [KueueInterface] of [typed/kueueoperator/v1/kueue.go]: the methods, on a
    state [W]. A result of Go has both a value and an error. *)

(** The options of the requests, the configurations to apply and the watches. *)
Class RequestTypes := {
  Options : Type;
  ListOptions : Type;
  emptyListOptions : ListOptions;
  KueueApplyConfiguration : Type;
  GetName : KueueApplyConfiguration → option string;
  json_Marshal_config : KueueApplyConfiguration → error + string;
  ListMeta : Type;
  emptyListMeta : ListMeta;
  (** [&v1.Kueue{}] *)
  emptyKueue : Kueue;
  (** The selector of [testing.ExtractFromListOptions], nil to match all. *)
  labelSelector : ListOptions → option (gmap string string → bool);
  WatchInterface : Type;
}.

(** [v1.KueueList], with the metadata the clients copy; nil items are [None]. *)
Record FakeKueueList `{RequestTypes} := { fl_ListMeta : ListMeta; fl_Items : option (list Kueue) }.

Section client.
Context `{RequestTypes}.

Record KueueInterface (W : Type) := {
  Create : Kueue → Options → W → res (Kueue * option error) * W;
  Update : Kueue → Options → W → res (Kueue * option error) * W;
  UpdateStatus : Kueue → Options → W → res (Kueue * option error) * W;
  Delete : string → Options → W → res (option error) * W;
  DeleteCollection : Options → ListOptions → W → res (option error) * W;
  Get : string → Options → W → res (Kueue * option error) * W;
  List : ListOptions → W → res (FakeKueueList * option error) * W;
  Watch : ListOptions → W → (option WatchInterface * option error) * W;
  Patch : string → string → string → Options → list string → W → res (Kueue * option error) * W;
  Apply : option KueueApplyConfiguration → Options → W → res (option Kueue * option error) * W;
  ApplyStatus : option KueueApplyConfiguration → Options → W → res (option Kueue * option error) * W;
}.

(** ** client-go's [testing.Fake] *)

Inductive runtime_Object : Type :=
  | KueueObject (k : Kueue)
  | KueueListObject (l : FakeKueueList)
  | OtherObject (typ : string).

Record ActionImpl := {
  ai_Namespace : string;
  ai_Verb : string;
  ai_Resource : InformerFactory.GroupVersionResource;
  ai_Subresource : string;
}.
Inductive Action : Type :=
  | GetActionImpl (a : ActionImpl) (Name : string) (opts : Options)
  | ListActionImpl (a : ActionImpl) (Kind : string) (opts : ListOptions)
  | CreateActionImpl (a : ActionImpl) (Object : runtime_Object) (opts : Options)
  | UpdateActionImpl (a : ActionImpl) (Object : runtime_Object) (opts : Options)
  | DeleteActionImpl (a : ActionImpl) (Name : string) (opts : Options)
  | DeleteCollectionActionImpl (a : ActionImpl) (opts : Options) (listOpts : ListOptions)
  | PatchActionImpl (a : ActionImpl) (Name PatchType Patch : string) (opts : Options)
  | WatchActionImpl (a : ActionImpl) (opts : ListOptions).
Definition action_impl (x : Action) : ActionImpl :=
  match x with
  | GetActionImpl a _ _ | ListActionImpl a _ _ | CreateActionImpl a _ _ | UpdateActionImpl a _ _
  | DeleteActionImpl a _ _ | DeleteCollectionActionImpl a _ _ | PatchActionImpl a _ _ _ _
  | WatchActionImpl a _ => a
  end.

(** [T]: the state of the tracker, and of whatever else the reactions of a
    test use. *)
Context {T : Type}.

Definition ReactionFunc := Action → T → (bool * option runtime_Object * option error) * T.
Definition WatchReactionFunc := Action → T → (bool * option WatchInterface * option error) * T.
Record SimpleReactor := { sr_Verb : string; sr_Resource : string; sr_Reaction : ReactionFunc }.
Record SimpleWatchReactor := { sw_Resource : string; sw_Reaction : WatchReactionFunc }.

(** A pattern is [*], a resource, or a resource and a subresource. *)
Definition resourceCovers (resource : string) (action : Action) : bool :=
  let a := action_impl action in
  if resource =s "*" then true
  else if resource =s InformerFactory.gvr_Resource (ai_Resource a) then true
  else if resource =s InformerFactory.gvr_Resource (ai_Resource a) +:+ "/" +:+ ai_Subresource a
       then str_all (λ c, negb (bool_decide (c = "/"%char))) (InformerFactory.gvr_Resource (ai_Resource a))
  else false.
Definition Handles (r : SimpleReactor) (action : Action) : bool :=
  ((sr_Verb r =s "*") || (sr_Verb r =s ai_Verb (action_impl action))) && resourceCovers (sr_Resource r) action.

Record Fake := {
  actions : list Action;
  ReactionChain : list SimpleReactor;
  WatchReactionChain : list SimpleWatchReactor;
}.
Definition AddReactor (verb resource : string) (reaction : ReactionFunc) (c : Fake) : Fake := {|
  actions := actions c;
  ReactionChain := ReactionChain c ++ [{| sr_Verb := verb; sr_Resource := resource; sr_Reaction := reaction |}];
  WatchReactionChain := WatchReactionChain c |}.
Definition AddWatchReactor (resource : string) (reaction : WatchReactionFunc) (c : Fake) : Fake := {|
  actions := actions c; ReactionChain := ReactionChain c;
  WatchReactionChain := WatchReactionChain c ++ [{| sw_Resource := resource; sw_Reaction := reaction |}] |}.
Definition record_action (action : Action) (c : Fake) : Fake := {|
  actions := actions c ++ [action]; ReactionChain := ReactionChain c;
  WatchReactionChain := WatchReactionChain c |}.

Definition world : Type := Fake * T.

Fixpoint react (chain : list SimpleReactor) (action : Action) (default : runtime_Object) (t : T)
    : (option runtime_Object * option error) * T :=
  match chain with
  | [] => ((Some default, None), t)
  | reactor :: chain =>
      if negb (Handles reactor action) then react chain action default t
      else
        let '((handled, ret, err), t) := sr_Reaction reactor action t in
        if negb handled then react chain action default t else ((ret, err), t)
  end.
Definition Invokes (action : Action) (defaultReturnObj : runtime_Object) (w : world)
    : (option runtime_Object * option error) * world :=
  let c := record_action action w.1 in
  let '(r, t) := react (ReactionChain c) action defaultReturnObj w.2 in (r, (c, t)).

Definition unhandled_watch : error := ErrorString "unhandled watch".
Fixpoint react_watch (chain : list SimpleWatchReactor) (action : Action) (t : T)
    : (option WatchInterface * option error) * T :=
  match chain with
  | [] => ((None, Some unhandled_watch), t)
  | reactor :: chain =>
      if negb (resourceCovers (sw_Resource reactor) action) then react_watch chain action t
      else
        let '((handled, ret, err), t) := sw_Reaction reactor action t in
        if negb handled then react_watch chain action t else ((ret, err), t)
  end.
Definition InvokesWatch (action : Action) (w : world) : (option WatchInterface * option error) * world :=
  let c := record_action action w.1 in
  let '(r, t) := react_watch (WatchReactionChain c) action w.2 in (r, (c, t)).

(** ** client-go's [gentype.FakeClientWithListAndApply]

    What the client of the resource is made from. *)
Record FakeClient := {
  fc_ns : string;
  fc_resource : InformerFactory.GroupVersionResource;
  fc_kind : string;
  fc_newObject : Kueue;
  fc_newList : FakeKueueList;
  fc_copyListMeta : FakeKueueList → FakeKueueList → FakeKueueList;
  fc_getItems : FakeKueueList → option (list Kueue);
  fc_setItems : FakeKueueList → option (list Kueue) → FakeKueueList;
}.

Definition interface_conversion : string := "interface conversion".
(** [if obj == nil { return emptyResult, err }; return obj.(T), err] *)
Definition result_Kueue (emptyResult : Kueue) (r : option runtime_Object * option error)
    : res (Kueue * option error) :=
  match r.1 with
  | None => Ok (emptyResult, r.2)
  | Some (KueueObject k) => Ok (k, r.2)
  | Some _ => Panic interface_conversion
  end.

Section fake_client.
Context (c : FakeClient).

Definition new_action (verb subresource : string) : ActionImpl := {|
  ai_Namespace := fc_ns c; ai_Verb := verb; ai_Resource := fc_resource c; ai_Subresource := subresource |}.
Definition invoke_Kueue (action : Action) (w : world) : res (Kueue * option error) * world :=
  let '(r, w) := Invokes action (KueueObject (fc_newObject c)) w in (result_Kueue (fc_newObject c) r, w).

Definition fc_Get (name : string) (opts : Options) : world → res (Kueue * option error) * world :=
  invoke_Kueue (GetActionImpl (new_action "get" "") name opts).
Definition fc_Create (resource : Kueue) (opts : Options) : world → res (Kueue * option error) * world :=
  invoke_Kueue (CreateActionImpl (new_action "create" "") (KueueObject resource) opts).
Definition fc_Update (resource : Kueue) (opts : Options) : world → res (Kueue * option error) * world :=
  invoke_Kueue (UpdateActionImpl (new_action "update" "") (KueueObject resource) opts).
Definition fc_UpdateStatus (resource : Kueue) (opts : Options) : world → res (Kueue * option error) * world :=
  invoke_Kueue (UpdateActionImpl (new_action "update" "status") (KueueObject resource) opts).
Definition fc_Delete (name : string) (opts : Options) (w : world) : res (option error) * world :=
  let '(r, w) := Invokes (DeleteActionImpl (new_action "delete" "") name opts)
                   (KueueObject (fc_newObject c)) w in (Ok r.2, w).
Definition fc_DeleteCollection (opts : Options) (listOpts : ListOptions) (w : world)
    : res (option error) * world :=
  let '(r, w) := Invokes (DeleteCollectionActionImpl (new_action "delete-collection" "") opts listOpts)
                   (KueueListObject (fc_newList c)) w in (Ok r.2, w).
(** [path.Join(subresources...)] *)
Definition fc_Patch (name pt data : string) (opts : Options) (subresources : list string)
    : world → res (Kueue * option error) * world :=
  invoke_Kueue (PatchActionImpl (new_action "patch" (Join subresources "/")) name pt data opts).

(** The items the selector matches; an error of the list goes with it only
    when there is a selector. *)
Definition fc_List (opts : ListOptions) (w : world) : res (FakeKueueList * option error) * world :=
  let '(r, w) := Invokes (ListActionImpl (new_action "list" "") (fc_kind c) opts)
                   (KueueListObject (fc_newList c)) w in
  (match r.1 with
   | None => Ok (fc_newList c, r.2)
   | Some (KueueListObject l) =>
       match labelSelector opts with
       | None => Ok (l, None)
       | Some matches =>
           let list := fc_copyListMeta c (fc_newList c) l in
           let items := List.filter (λ k, matches (default ∅ (om_Labels (ku_ObjectMeta k))))
                          (default [] (fc_getItems c l)) in
           Ok (fc_setItems c list (match items with [] => None | _ => Some items end), r.2)
       end
   | Some _ => Panic interface_conversion
   end, w).
Definition fc_Watch (opts : ListOptions) : world → (option WatchInterface * option error) * world :=
  InvokesWatch (WatchActionImpl (new_action "watch" "") opts).

(** [Apply] and [ApplyStatus]: nil for the object with an error of the
    configuration. *)
Definition fc_apply (subresource : string) (configuration : option KueueApplyConfiguration) (opts : Options)
    (w : world) : res (option Kueue * option error) * world :=
  match configuration with
  | None => (Ok (None, Some (ErrorString "configuration provided to Apply must not be nil")), w)
  | Some configuration =>
      match json_Marshal_config configuration with
      | inl err => (Ok (None, Some err), w)
      | inr data =>
          match GetName configuration with
          | None => (Ok (None, Some (ErrorString "configuration.Name must be provided to Apply")), w)
          | Some name =>
              let '(r, w) := invoke_Kueue (PatchActionImpl (new_action "patch" subresource) name
                               "application/apply-patch+yaml" data opts) w in
              (rlet r := r in Ok (Some r.1, r.2), w)
          end
      end
  end.
End fake_client.

Definition NewFakeClientWithListAndApply (c : FakeClient) : KueueInterface world := {|
  Create := fc_Create c; Update := fc_Update c; UpdateStatus := fc_UpdateStatus c; Delete := fc_Delete c;
  DeleteCollection := fc_DeleteCollection c; Get := fc_Get c; List := fc_List c; Watch := fc_Watch c;
  Patch := fc_Patch c; Apply := fc_apply c ""; ApplyStatus := fc_apply c "status" |}.

(** ** typed/kueueoperator/v1/fake

    A client holds a pointer to the clientset's [Fake]: it is the [Fake] of the
    [world] its methods run in. *)
Record FakeKueueV1 := {}.

Definition newFakeKueues (fake : FakeKueueV1) : KueueInterface world :=
  NewFakeClientWithListAndApply {|
    fc_ns := "";
    fc_resource := InformerFactory.kueuesResource;
    fc_kind := "Kueue";
    fc_newObject := emptyKueue;
    fc_newList := {| fl_ListMeta := emptyListMeta; fl_Items := None |};
    fc_copyListMeta dst src := {| fl_ListMeta := fl_ListMeta src; fl_Items := fl_Items dst |};
    fc_getItems l := fl_Items l;
    fc_setItems l items := {| fl_ListMeta := fl_ListMeta l; fl_Items := items |} |}.
Definition FakeKueueV1_Kueues (c : FakeKueueV1) : KueueInterface world := newFakeKueues c.

(** An interface that holds a nil pointer: not the nil interface. *)
Definition FakeKueueV1_RESTClient (c : FakeKueueV1) {RESTClient} : option (option RESTClient) := Some None.

(** ** fake/clientset_generated.go *)

Section clientset.
Context (Add : runtime_Object → T → option error * T) (ObjectReaction : ReactionFunc)
  (tracker_Watch : InformerFactory.GroupVersionResource → string → ListOptions → T →
     (error + WatchInterface) * T).

(** The tracker's state is in the [world]. *)
Record FakeClientset := { cs_Fake : Fake }.

Fixpoint addAll (objects : list runtime_Object) (o : T) : option error * T :=
  match objects with
  | [] => (None, o)
  | obj :: objects =>
      match Add obj o with
      | (Some err, o) => (Some err, o)
      | (None, o) => addAll objects o
      end
  end.

Definition watchReaction : WatchReactionFunc := λ action o,
  let opts := match action with WatchActionImpl _ opts => opts | _ => emptyListOptions end in
  let gvr := ai_Resource (action_impl action) in
  let ns := ai_Namespace (action_impl action) in
  let '(watch, o) := tracker_Watch gvr ns opts o in
  match watch with
  | inl err => ((false, None, Some err), o)
  | inr watch => ((true, Some watch, None), o)
  end.

Definition emptyFake : Fake := {| actions := []; ReactionChain := []; WatchReactionChain := [] |}.

(** [o]: the tracker, [testing.NewObjectTracker(scheme, ...)]. *)
Definition NewSimpleClientset (o : T) (objects : list runtime_Object) : res (FakeClientset * T) :=
  match addAll objects o with
  | (Some err, _) => Panic (Error err)
  | (None, o) =>
      let cs := {| cs_Fake := AddReactor "*" "*" ObjectReaction emptyFake |} in
      let cs := {| cs_Fake := AddWatchReactor "*" watchReaction (cs_Fake cs) |} in
      Ok (cs, o)
  end.
(** [o]: [testing.NewFieldManagedObjectTracker(scheme, ..., NewTypeConverter(scheme))]. *)
Definition NewClientset (o : T) (objects : list runtime_Object) : res (FakeClientset * T) :=
  match addAll objects o with
  | (Some err, _) => Panic (Error err)
  | (None, o) =>
      let cs := {| cs_Fake := AddReactor "*" "*" ObjectReaction emptyFake |} in
      let cs := {| cs_Fake := AddWatchReactor "*" watchReaction (cs_Fake cs) |} in
      Ok (cs, o)
  end.

(** [Discovery] is over the same [Fake]; [Tracker] is the state it runs on. *)
Definition Clientset_Discovery (c : FakeClientset) : Fake := cs_Fake c.
Definition Clientset_Tracker (c : FakeClientset) (w : world) : T := w.2.
Definition IsWatchListSemanticsUnSupported (c : FakeClientset) : bool := true.
Definition Clientset_KueueV1 (c : FakeClientset) : FakeKueueV1 := Build_FakeKueueV1.

(** ** Properties *)

(** What the tracker alone answers. *)
Definition track (action : Action) (default : runtime_Object) (t : T)
    : (option runtime_Object * option error) * T :=
  let '((handled, ret, err), t) := ObjectReaction action t in
  if handled then ((ret, err), t) else ((Some default, None), t).

(** A sequence of requests, by whatever clients of the clientset. *)
Fixpoint invoke_all (requests : list (Action * runtime_Object)) (w : world)
    : list (option runtime_Object * option error) * world :=
  match requests with
  | [] => ([], w)
  | (a, d) :: requests =>
      let '(r, w) := Invokes a d w in let '(rs, w) := invoke_all requests w in (r :: rs, w)
  end.
Fixpoint track_all (requests : list (Action * runtime_Object)) (t : T)
    : list (option runtime_Object * option error) * T :=
  match requests with
  | [] => ([], t)
  | (a, d) :: requests =>
      let '(r, t) := track a d t in let '(rs, t) := track_all requests t in (r :: rs, t)
  end.

Definition fresh_chains (c : Fake) : Prop :=
  ReactionChain c = [{| sr_Verb := "*"; sr_Resource := "*"; sr_Reaction := ObjectReaction |}] ∧
  WatchReactionChain c = [{| sw_Resource := "*"; sw_Reaction := watchReaction |}].

Lemma Invokes_fresh a d (c : Fake) t :
  fresh_chains c → Invokes a d (c, t) = ((track a d t).1, (record_action a c, (track a d t).2)).
Proof.
  intros [Hc _]. unfold Invokes, track. cbn. rewrite Hc. cbn.
  destruct (ObjectReaction a t) as [[[handled ret] err] t']. by destruct handled.
Qed.

Lemma invoke_all_fresh requests (c : Fake) t :
  fresh_chains c → ∃ c', fresh_chains c' ∧ actions c' = actions c ++ requests.*1 ∧
    invoke_all requests (c, t) = ((track_all requests t).1, (c', (track_all requests t).2)).
Proof.
  revert c t. induction requests as [|[a d] requests IH]; intros c t Hc; cbn [invoke_all track_all].
  - exists c. by rewrite app_nil_r.
  - rewrite (Invokes_fresh _ _ _ _ Hc). destruct (track a d t) as [r t1]. cbn [fst snd].
    destruct (IH (record_action a c) t1 Hc) as (c' & Hc' & Ha & ->).
    exists c'. split; [done|]. rewrite Ha. cbn. split; [by rewrite <-app_assoc|].
    by destruct (track_all requests t1).
Qed.

(** A fake clientset is its tracker and a log: it panics exactly when an
    initial object cannot be added; otherwise whatever its clients request is
    answered by the tracker, in order, and recorded once. A request the
    tracker does not handle succeeds with the empty object. A watch that the
    tracker refuses ends with another error than the tracker's. *)
Theorem NewSimpleClientset_spec (o : T) (objects : list runtime_Object) :
  NewClientset o objects = NewSimpleClientset o objects ∧
  match addAll objects o with
  | (Some err, _) => NewSimpleClientset o objects = Panic (Error err)
  | (None, t) => ∃ cs, NewSimpleClientset o objects = Ok (cs, t) ∧
      ∀ requests, ∃ c', invoke_all requests (cs_Fake cs, t) =
          ((track_all requests t).1, (c', (track_all requests t).2)) ∧
        actions c' = requests.*1 ∧
        ∀ a err t1 t2, tracker_Watch (ai_Resource (action_impl a)) (ai_Namespace (action_impl a))
            (match a with WatchActionImpl _ opts => opts | _ => emptyListOptions end) t1 = (inl err, t2) →
          InvokesWatch a (c', t1) = ((None, Some unhandled_watch), (record_action a c', t2))
  end.
Proof.
  split; [done|]. unfold NewSimpleClientset. destruct (addAll objects o) as [[err|] t]; [done|].
  eexists. split; [done|]. intros requests.
  destruct (invoke_all_fresh requests (AddWatchReactor "*" watchReaction (AddReactor "*" "*" ObjectReaction emptyFake)) t)
    as (c' & [_ Hw] & Ha & Hi); [done|].
  exists c'. split; [exact Hi|]. split; [exact Ha|]. intros a err t1 t2 Ht.
  unfold InvokesWatch. cbn. rewrite Hw. cbn. unfold watchReaction. by rewrite Ht.
Qed.
End clientset.
End client.

(** ** Concrete instances *)

(** A scheme as the group versions and kinds it knows. *)
Lemma init_scheme_spec_witness :
  let add gv ts (s : gset (string * string)) := list_to_set (map (λ t, (gv_Version gv, t)) ts) ∪ s in
  init_scheme add (λ gv s, {[(gv_Version gv, "WatchEvent")]} ∪ s) ∅ =
    Ok {[("v1", "Kueue"); ("v1", "KueueList"); ("v1", "WatchEvent")]}.
Proof.
  intros add. rewrite (proj1 (init_scheme_spec add (λ gv s, {[(gv_Version gv, "WatchEvent")]} ∪ s) ∅
    ltac:(intros s; unfold addKnownTypes, add; cbn; set_solver))).
  vm_compute. reflexivity.
Defined.
