(* ===== verification/DraHelpers.v ===== *)
(** * pkg/util/dra_helpers.go: which device-class sources a configuration has *)
From S2P Require Import Prelude GoStd K8s ApiTypes.

(** [HasSourceOfType]: the nested loops with the switch on the requested type;
    any other type is never found. *)
Definition HasSourceOfType (resources : Resources) (sourceType : DeviceClassSourceType) : bool :=
  existsb (λ m, existsb (λ s,
    if sourceType =s DeviceClassSourceTypeCounter then
      dsc_Type s =s DeviceClassSourceTypeCounter
    else if sourceType =s DeviceClassSourceTypeCapacity then
      dsc_Type s =s DeviceClassSourceTypeCapacity
    else false) (dm_Sources m)) (rc_DeviceClassMappings resources).

Lemma HasSourceOfType_spec r t :
  t = DeviceClassSourceTypeCounter ∨ t = DeviceClassSourceTypeCapacity →
  HasSourceOfType r t = true ↔
  ∃ m s, m ∈ rc_DeviceClassMappings r ∧ s ∈ dm_Sources m ∧ dsc_Type s = t.
Proof.
  intros Ht. unfold HasSourceOfType. rewrite existsb_elem_of.
  setoid_rewrite existsb_elem_of.
  destruct Ht as [->| ->]; simpl; setoid_rewrite bool_decide_eq_true; naive_solver.
Qed.

Lemma HasSourceOfType_nil t : HasSourceOfType {| rc_DeviceClassMappings := [] |} t = false.
Proof. done. Qed.
