(* ===== verification/ConfigMap.v ===== *)
(** * pkg/configmap: the Kueue configuration generated from the custom resource

    [BuildConfigMap] translates the operator's API ([ApiTypes]) into the
    configuration of the Kueue controller manager
    ([sigs.k8s.io/kueue/apis/config/v1beta2]) and stores its YAML text in the
    ConfigMap [kueue-manager-config]. *)
From S2P Require Import Prelude GoStd K8s ApiTypes DraHelpers.

(** ** The generated configuration

    The records hold the fields the builder sets; every other field of the
    upstream types keeps its zero value and is left out. *)
Module Config.

Record DeviceSelector := { CEL : option string }.
Record DeviceClassCounterSource := {
  ccs_Name : string; ccs_Driver : string; ccs_DeviceSelector : DeviceSelector }.
Record DeviceClassCapacitySource := {
  cps_Name : string; cps_Driver : string; cps_DeviceSelector : DeviceSelector }.
Record DeviceClassSourceConfig := {
  Counter : option DeviceClassCounterSource;
  Capacity : option DeviceClassCapacitySource }.
Record DeviceClassMapping := {
  dcm_Name : string;
  dcm_DeviceClassNames : list string;
  dcm_Sources : list DeviceClassSourceConfig }.
Record Resources := { DeviceClassMappings : list DeviceClassMapping }.

Record Integrations := {
  Frameworks : list string;
  ExternalFrameworks : list string;
  LabelKeysToCopy : list string }.
(** [MultiKueueExternalFramework] is a struct with one field [Name]. *)
Record MultiKueueExternalFramework := { mkef_Name : string }.
Record MultiKueue := { mk_ExternalFrameworks : list MultiKueueExternalFramework }.

Record RequeuingStrategy := {
  Timestamp : option string;
  BackoffLimitCount : option Z;
  BackoffBaseSeconds : option Z;
  BackoffMaxSeconds : option Z }.
(** Durations are nanoseconds; [Timeout] is 0 when not set. *)
Record WaitForPodsReady := {
  Timeout : Z;
  BlockAdmission : option bool;
  wf_RequeuingStrategy : option RequeuingStrategy;
  RecoveryTimeout : option Z }.
Record FairSharing := { PreemptionStrategies : list string }.

Record ControllerMetricsCustomLabel := {
  cml_Name : string;
  SourceLabelKey : string;
  SourceAnnotationKey : string;
  SourceKind : option string }.

Record AdmissionFairSharing (float64 : Type) := {
  UsageHalfLifeTime : Z;
  UsageSamplingInterval : Z;
  ResourceWeights : option (gmap string float64) }.
Arguments Build_AdmissionFairSharing {float64}.
Arguments UsageHalfLifeTime {float64}.
Arguments UsageSamplingInterval {float64}.
Arguments ResourceWeights {float64}.

Record TLSOptions := {
  MinVersion : string;
  CipherSuites : list string;
  CurvePreferences : list Z }.

Record ControllerMetrics := {
  BindAddress : string;
  EnableClusterQueueResources : bool;
  CustomLabels : list ControllerMetricsCustomLabel }.
Record LeaderElection := {
  LeaderElect : option bool;
  LeaseDuration : Z;
  RenewDeadline : Z;
  RetryPeriod : Z }.
Record ControllerManager := {
  HealthProbeBindAddress : string;
  Metrics : ControllerMetrics;
  WebhookPort : option Z;
  GroupKindConcurrency : gmap string Z;
  cmg_LeaderElection : LeaderElection;
  TLS : option TLSOptions }.
(** [QPS] is the [float32] 50, an integer. *)
Record ClientConnection := { QPS : option Z; Burst : option Z }.

Record Configuration (float64 : Type) := {
  Kind : string;
  APIVersion : string;
  Namespace : option string;
  cfg_ControllerManager : ControllerManager;
  cfg_ClientConnection : option ClientConnection;
  cfg_Integrations : option Integrations;
  InternalCertManagement_Enable : option bool;
  ManagedJobsNamespaceSelector : option LabelSelector;
  ManageJobsWithoutQueueName : bool;
  cfg_WaitForPodsReady : option WaitForPodsReady;
  cfg_FairSharing : option FairSharing;
  cfg_Resources : option Resources;
  FeatureGates : option (gmap string bool);
  cfg_MultiKueue : option MultiKueue;
  cfg_AdmissionFairSharing : option (AdmissionFairSharing float64) }.
Arguments Build_Configuration {float64}.
Arguments Kind {float64}.
Arguments APIVersion {float64}.
Arguments Namespace {float64}.
Arguments cfg_ControllerManager {float64}.
Arguments cfg_ClientConnection {float64}.
Arguments cfg_Integrations {float64}.
Arguments InternalCertManagement_Enable {float64}.
Arguments ManagedJobsNamespaceSelector {float64}.
Arguments ManageJobsWithoutQueueName {float64}.
Arguments cfg_WaitForPodsReady {float64}.
Arguments cfg_FairSharing {float64}.
Arguments cfg_Resources {float64}.
Arguments FeatureGates {float64}.
Arguments cfg_MultiKueue {float64}.
Arguments cfg_AdmissionFairSharing {float64}.

End Config.

(** What the builder takes from elsewhere: [strconv.ParseFloat(s, 64)], with
    its type of floating-point numbers, and [sigs.k8s.io/yaml.Marshal]. *)
Class ConfigCodec := {
  float64 : Type;
  ParseFloat : string → error + float64;
  yaml_Marshal : Config.Configuration float64 → error + string;
}.

(** [corev1.ConfigMap]. *)
Record ConfigMapObj := {
  cfm_ObjectMeta : ObjectMeta;
  cfm_Data : gmap string string;
}.
#[export] Instance ConfigMapObj_eq_dec : EqDecision ConfigMapObj.
Proof. solve_decision. Defined.

(** ** Integrations *)

(** [conversionMap] of [buildFrameworkList]. *)
Definition conversionMap : gmap string string := list_to_map
  [(KueueIntegrationBatchJob, "batch/job");
   (KueueIntegrationMPIJob, "kubeflow.org/mpijob");
   (KueueIntegrationRayJob, "ray.io/rayjob");
   (KueueIntegrationRayCluster, "ray.io/raycluster");
   (KueueIntegrationRayService, "ray.io/rayservice");
   (KueueIntegrationJobSet, "jobset.x-k8s.io/jobset");
   (KueueIntegrationPaddleJob, "kubeflow.org/paddlejob");
   (KueueIntegrationPyTorchJob, "kubeflow.org/pytorchjob");
   (KueueIntegrationTFJob, "kubeflow.org/tfjob");
   (KueueIntegrationXGBoostJob, "kubeflow.org/xgboostjob");
   (KueueIntegrationAppWrapper, "workload.codeflare.dev/appwrapper");
   (KueueIntegrationPod, "pod");
   (KueueIntegrationDeployment, "deployment");
   (KueueIntegrationLeaderWorkerSet, "leaderworkerset.x-k8s.io/leaderworkerset");
   (KueueIntegrationStatefulSet, "statefulset");
   (KueueIntegrationTrainJob, "trainer.kubeflow.org/trainjob");
   (KueueIntegrationSparkApplication, "sparkoperator.k8s.io/sparkapplication")].

(** A missing key reads as the empty string. *)
Definition buildFrameworkList (kueuelist : list KueueIntegration) : list string :=
  map (λ val : string, default "" (conversionMap !! val)) kueuelist.

Definition buildExternalFrameworkList (kueuelist : list ExternalFramework) : list string :=
  map (λ val, ef_Resource val +:+ "." +:+ ef_Version val +:+ "." +:+ ef_Group val) kueuelist.

Definition buildLabelKeysCopy (labelKeys : list LabelKeys) : list string :=
  map lk_Key labelKeys.

Definition mapOperatorIntegrationsToKueue (integrations : Integrations) : Config.Integrations := {|
  Config.Frameworks := buildFrameworkList (in_Frameworks integrations);
  Config.ExternalFrameworks := buildExternalFrameworkList (in_ExternalFrameworks integrations);
  Config.LabelKeysToCopy := buildLabelKeysCopy (in_LabelKeysToCopy integrations) |}.

(** ** MultiKueue *)

(** The key [group/version/resource] of [gvrToKind]. *)
Definition gvrKey (fw : ExternalFramework) : string :=
  ef_Group fw +:+ "/" +:+ ef_Version fw +:+ "/" +:+ ef_Resource fw.

(** [gvrToKind] may be the nil map; reading it finds nothing. *)
Definition buildMultiKueueExternalFrameworkList (kueuelist : list ExternalFramework)
    (gvrToKind : gmap string string) : list Config.MultiKueueExternalFramework :=
  map (λ val,
    let kind := default (ef_Resource val) (gvrToKind !! gvrKey val) in
    {| Config.mkef_Name := kind +:+ "." +:+ ef_Version val +:+ "." +:+ ef_Group val |}) kueuelist.

Definition mapOperatorMultiKueueToKueue (multiKueue : option MultiKueue)
    (gvrToKind : gmap string string) : option Config.MultiKueue :=
  match multiKueue with
  | None => None
  | Some m => Some {| Config.mk_ExternalFrameworks :=
      buildMultiKueueExternalFrameworkList (mk_ExternalFrameworks m) gvrToKind |}
  end.

Definition buildManagedJobsWithoutQueueName (w : WorkloadManagement) : bool :=
  wm_LabelPolicy w =s LabelPolicyNone.

(** ** Gang scheduling *)

Definition opt_nonzero (z : Z) : option Z := if (z =? 0)%Z then None else Some z.

Definition buildRequeuingStrategy (s : RequeuingStrategy) : option Config.RequeuingStrategy :=
  if (rs_RetryLimit s =? 0)%Z && (rs_BackoffBaseSeconds s =? 0)%Z &&
     (rs_BackoffMaxSeconds s =? 0)%Z && (rs_TimeReference s =s "")
  then None
  else Some {|
    Config.Timestamp := if rs_TimeReference s =s "" then None else Some (rs_TimeReference s);
    Config.BackoffLimitCount := opt_nonzero (rs_RetryLimit s);
    Config.BackoffBaseSeconds := opt_nonzero (rs_BackoffBaseSeconds s);
    Config.BackoffMaxSeconds := opt_nonzero (rs_BackoffMaxSeconds s) |}.

Definition blockAdmission (admission : option ByWorkload) : option bool :=
  match admission with
  | None => Some false
  | Some a =>
      if bw_Admission a =s GangSchedulingWorkloadAdmissionSequential then Some true else Some false
  end.

Definition buildWaitForPodsReady (g : GangScheduling) : option Config.WaitForPodsReady :=
  if gs_Policy g =s GangSchedulingPolicyByWorkload then
    let block := blockAdmission (gs_ByWorkload g) in
    match gs_ByWorkload g with
    | Some bw => Some {|
        Config.Timeout := if (0 <? bw_TimeoutSeconds bw)%Z then seconds (bw_TimeoutSeconds bw) else 0;
        Config.BlockAdmission := block;
        Config.wf_RequeuingStrategy := buildRequeuingStrategy (bw_RequeuingStrategy bw);
        Config.RecoveryTimeout := seconds <$> bw_RecoveryTimeoutSeconds bw |}
    | None => Some {|
        Config.Timeout := 0; Config.BlockAdmission := block;
        Config.wf_RequeuingStrategy := None; Config.RecoveryTimeout := None |}
    end
  else if gs_Policy g =s GangSchedulingPolicyNone then Some {|
    Config.Timeout := (365 * 24 * Hour)%Z;
    Config.BlockAdmission := Some false;
    Config.wf_RequeuingStrategy := None;
    Config.RecoveryTimeout := None |}
  else None.

(** ** Preemption *)

Definition LessThanOrEqualToFinalShare : string := "LessThanOrEqualToFinalShare".
Definition LessThanInitialShare : string := "LessThanInitialShare".

Definition buildFairSharing (p : Preemption) : option Config.FairSharing :=
  if pr_PreemptionPolicy p =s PreemptionStrategyFairsharing
  then Some {| Config.PreemptionStrategies := [LessThanOrEqualToFinalShare; LessThanInitialShare] |}
  else None.

(** ** Device class mappings *)

Definition buildDeviceSelector (d : DeviceSelector) : Config.DeviceSelector :=
  if cel_Expression (ds_CEL d) =s "" then {| Config.CEL := None |}
  else {| Config.CEL := Some (cel_Expression (ds_CEL d)) |}.

(** One iteration of the loop over [m.Sources]: the sources it appends. *)
Definition buildSource (draConsumableCapacityEnabled : bool) (s : DeviceClassSourceConfig)
    : list Config.DeviceClassSourceConfig :=
  if dsc_Type s =s DeviceClassSourceTypeCounter then
    [{| Config.Counter := Some {|
          Config.ccs_Name := dcn_Name (dsc_Counter s);
          Config.ccs_Driver := dcn_Driver (dsc_Counter s);
          Config.ccs_DeviceSelector := buildDeviceSelector (dcn_DeviceSelector (dsc_Counter s)) |};
        Config.Capacity := None |}]
  else if dsc_Type s =s DeviceClassSourceTypeCapacity then
    if negb draConsumableCapacityEnabled then []
    else
      [{| Config.Counter := None;
          Config.Capacity := Some {|
            Config.cps_Name := dcp_Name (dsc_Capacity s);
            Config.cps_Driver := dcp_Driver (dsc_Capacity s);
            Config.cps_DeviceSelector := buildDeviceSelector (dcp_DeviceSelector (dsc_Capacity s)) |} |}]
  else [].

Definition buildMapping (draConsumableCapacityEnabled : bool) (m : DeviceClassMapping)
    : Config.DeviceClassMapping := {|
  Config.dcm_Name := dm_Name m;
  Config.dcm_DeviceClassNames := dm_DeviceClassNames m;
  Config.dcm_Sources := concat (map (buildSource draConsumableCapacityEnabled) (dm_Sources m)) |}.

Definition buildResources (resources : Resources) (draConsumableCapacityEnabled : bool)
    : option Config.Resources :=
  if length (rc_DeviceClassMappings resources) =? 0 then None
  else Some {| Config.DeviceClassMappings :=
    map (buildMapping draConsumableCapacityEnabled) (rc_DeviceClassMappings resources) |}.

(** ** Feature gates *)

(** The table [gates]. *)
Definition gates (c : KueueConfiguration) (draConsumableCapacityEnabled : bool)
    : list (string * bool) :=
  [("KueueDRAIntegrationConsumableCapacity",
     draConsumableCapacityEnabled &&
     HasSourceOfType (kc_Resources c) DeviceClassSourceTypeCapacity);
   ("SparkApplicationIntegration",
     slices_Contains (in_Frameworks (kc_Integrations c)) KueueIntegrationSparkApplication);
   ("ShortWorkloadNames",
     (0 <? length (in_ExternalFrameworks (kc_Integrations c))) ||
     match kc_MultiKueue c with
     | Some m => 0 <? length (mk_ExternalFrameworks m)
     | None => false
     end);
   ("CustomMetricLabels",
     0 <? length (cm_CustomLabels (cmgr_Metrics (kc_ControllerManager c))))].

(** The loop over the table. *)
Definition enable_gates (l : list (string * bool)) (m : gmap string bool) : gmap string bool :=
  foldl (λ m g, if g.2 : bool then <[g.1 := true]> m else m) m l.

Definition buildFeatureGates (c : KueueConfiguration) (draConsumableCapacityEnabled : bool)
    : option (gmap string bool) :=
  let featureGates := enable_gates (gates c draConsumableCapacityEnabled) ∅ in
  if size featureGates =? 0 then None else Some featureGates.

(** ** Custom metric labels *)

Definition buildControllerMetrics (cm : ControllerManager) : list Config.ControllerMetricsCustomLabel :=
  map (λ l,
    let ann := sk_SourceType (cml_SourceKey l) =s SourceAnnotation in
    {| Config.cml_Name := cml_Name l;
       Config.SourceLabelKey := if ann then "" else skl_Key (sk_Label (cml_SourceKey l));
       Config.SourceAnnotationKey := if ann then ska_Key (sk_Annotation (cml_SourceKey l)) else "";
       Config.SourceKind := Some (cml_SourceKind l) |}) (cm_CustomLabels (cmgr_Metrics cm)).

(** ** The whole configuration *)

Section Build.
Context `{CC : ConfigCodec}.

(** The loop over [custom.ResourceWeights]: stops at the first weight that
    does not parse. *)
Fixpoint parseWeights (l : list ResourceWeight) (acc : gmap string float64)
    : res (gmap string float64) :=
  match l with
  | [] => Ok acc
  | entry :: l =>
      match ParseFloat (rw_Weight entry) with
      | inl err =>
          Err (WrapError ("failed to parse resource weight for resource " +:+
                          rw_Name entry +:+ ": ") err)
      | inr f => parseWeights l (<[rw_Name entry := f]> acc)
      end
  end.

Definition buildAdmissionFairSharing (a : AdmissionFairSharing)
    : res (option (Config.AdmissionFairSharing float64)) :=
  if afs_Configuration a =s "" then Ok None
  else if afs_Configuration a =s AdmissionFairSharingConfigurationCustom then
    let custom := afs_Custom a in
    rlet weights := parseWeights (afc_ResourceWeights custom) ∅ in
    Ok (Some {|
      Config.UsageHalfLifeTime :=
        if (0 <? afc_UsageHalfLifeTimeSeconds custom)%Z
        then seconds (afc_UsageHalfLifeTimeSeconds custom) else 0;
      Config.UsageSamplingInterval :=
        if (0 <? afc_UsageSamplingIntervalSeconds custom)%Z
        then seconds (afc_UsageSamplingIntervalSeconds custom) else 0;
      Config.ResourceWeights := Some weights |})
  else
    Ok (Some {|
      Config.UsageHalfLifeTime := (30 * Minute)%Z;
      Config.UsageSamplingInterval := 0;
      Config.ResourceWeights := None |}).

Definition groupKindConcurrency : gmap string Z := list_to_map
  [("Job.batch", 5%Z); ("Pod", 5%Z); ("Workload.kueue.x-k8s.io", 5%Z);
   ("LocalQueue.kueue.x-k8s.io", 1%Z); ("ClusterQueue.kueue.x-k8s.io", 1%Z);
   ("ResourceFlavor.kueue.x-k8s.io", 1%Z)].

Definition defaultKueueConfigurationTemplate (namespace : string) (c : KueueConfiguration)
    (gvrToKind : gmap string string) (draConsumableCapacityEnabled : bool)
    (tlsOpts : option Config.TLSOptions) : res (Config.Configuration float64) :=
  match buildAdmissionFairSharing (kc_AdmissionFairSharing c) with
  | Err err => Err (WrapError "failed to build admission fair sharing: " err)
  | Panic p => Panic p
  | Ok admissionFairSharing =>
      let customMetricLabels := buildControllerMetrics (kc_ControllerManager c) in
      Ok {|
        Config.Kind := "Configuration";
        Config.APIVersion := "config.kueue.x-k8s.io/v1beta2";
        Config.Namespace := Some namespace;
        Config.cfg_ControllerManager := {|
          Config.HealthProbeBindAddress := ":8081";
          Config.Metrics := {|
            Config.BindAddress := ":8443";
            Config.EnableClusterQueueResources := true;
            Config.CustomLabels := customMetricLabels |};
          Config.WebhookPort := Some 9443%Z;
          Config.GroupKindConcurrency := groupKindConcurrency;
          Config.cmg_LeaderElection := {|
            Config.LeaderElect := Some true;
            Config.LeaseDuration := (137 * Second)%Z;
            Config.RenewDeadline := (107 * Second)%Z;
            Config.RetryPeriod := (26 * Second)%Z |};
          Config.TLS := tlsOpts |};
        Config.cfg_ClientConnection :=
          Some {| Config.QPS := Some 50%Z; Config.Burst := Some 100%Z |};
        Config.cfg_Integrations := Some (mapOperatorIntegrationsToKueue (kc_Integrations c));
        Config.InternalCertManagement_Enable := Some false;
        Config.ManagedJobsNamespaceSelector := Some {|
          ls_MatchLabels := {["kueue.openshift.io/managed" := "true"]};
          ls_MatchExpressions := [] |};
        Config.ManageJobsWithoutQueueName :=
          buildManagedJobsWithoutQueueName (kc_WorkloadManagement c);
        Config.cfg_WaitForPodsReady := buildWaitForPodsReady (kc_GangScheduling c);
        Config.cfg_FairSharing := buildFairSharing (kc_Preemption c);
        Config.cfg_Resources := buildResources (kc_Resources c) draConsumableCapacityEnabled;
        Config.FeatureGates := buildFeatureGates c draConsumableCapacityEnabled;
        Config.cfg_MultiKueue := mapOperatorMultiKueueToKueue (kc_MultiKueue c) gvrToKind;
        Config.cfg_AdmissionFairSharing := admissionFairSharing |}
  end.

Definition controllerManagerConfigYaml : string := "controller_manager_config.yaml".

Definition BuildConfigMap (namespace : string) (c : KueueConfiguration)
    (gvrToKind : gmap string string) (draConsumableCapacityEnabled : bool)
    (tlsOpts : option Config.TLSOptions) : res ConfigMapObj :=
  rlet config := defaultKueueConfigurationTemplate namespace c gvrToKind
    draConsumableCapacityEnabled tlsOpts in
  match yaml_Marshal config with
  | inl err => Err err
  | inr cfg => Ok {|
      cfm_ObjectMeta := meta_named namespace "kueue-manager-config";
      cfm_Data := {[controllerManagerConfigYaml := cfg]} |}
  end.
End Build.

(** ** Properties *)

(** *** Frameworks *)

#[global] Opaque conversionMap.

Lemma conversionMap_dom (k : string) :
  k ∈ KueueIntegration_values → k ≠ KueueIntegrationJaxJob →
  ∃ n, conversionMap !! k = Some n ∧ n ≠ "".
Proof.
  intros Hk Hj.
  assert (forallb (λ k, (k =s KueueIntegrationJaxJob) ||
    negb (default "" (conversionMap !! k) =s "")) KueueIntegration_values = true) as H
    by (vm_compute; reflexivity).
  apply (proj1 (forallb_elem_of _ _) H) in Hk.
  rewrite bool_decide_false, orb_false_l in Hk by done. bsplit.
  destruct (conversionMap !! k) as [n|]; [exists n; split; [done|exact Hk]|by destruct Hk].
Qed.

(** The upstream names of distinct integrations are distinct. *)
Lemma conversionMap_inj (k1 k2 n : string) :
  conversionMap !! k1 = Some n → conversionMap !! k2 = Some n → k1 = k2.
Proof.
  assert (bool_decide (NoDup (map_to_list conversionMap).*2) = true) as H
    by (vm_compute; reflexivity).
  apply bool_decide_eq_true in H. intros H1 H2.
  apply elem_of_map_to_list, list_elem_of_lookup in H1 as [i Hi].
  apply elem_of_map_to_list, list_elem_of_lookup in H2 as [j Hj].
  assert (i = j) as <-.
  { apply (NoDup_lookup _ _ _ n H); by rewrite list_lookup_fmap, ?Hi, ?Hj. }
  rewrite Hi in Hj. by injection Hj.
Qed.

(** For every list of integrations the API accepts that does not contain
    JaxJob, the generated framework list has one entry per integration, none
    of them empty, and distinct integrations keep distinct entries. *)
Theorem buildFrameworkList_faithful (i : Integrations) :
  valid_Integrations i = true → KueueIntegrationJaxJob ∉ in_Frameworks i →
  length (buildFrameworkList (in_Frameworks i)) = length (in_Frameworks i) ∧
  "" ∉ buildFrameworkList (in_Frameworks i) ∧
  NoDup (buildFrameworkList (in_Frameworks i)).
Proof.
  unfold valid_Integrations, unique. intros Hv Hj. bsplit.
  pose proof (proj1 (forallb_elem_of _ _) H) as Hen.
  assert (Hval : ∀ k : string, k ∈ in_Frameworks i → ∃ n, conversionMap !! k = Some n ∧ n ≠ "").
  { intros k Hk. apply conversionMap_dom; [|by intros ->].
    specialize (Hen k Hk). unfold enum in Hen. by bsplit. }
  unfold buildFrameworkList. split_and!.
  - apply length_map.
  - rewrite list_elem_of_fmap. intros (k & Hn & Hk).
    destruct (Hval k Hk) as (n & Hl & Hne). rewrite Hl in Hn. by apply Hne.
  - apply NoDup_fmap_2_strong; [|done]. intros k1 k2 Hk1 Hk2 Heq.
    destruct (Hval k1 Hk1) as (n1 & Hl1 & _), (Hval k2 Hk2) as (n2 & Hl2 & _).
    rewrite Hl1, Hl2 in Heq. apply (conversionMap_inj _ _ n1); [done|]. rewrite Hl2. by f_equal.
Qed.

Lemma buildFrameworkList_faithful_witness :
  let i := {| in_Frameworks := [KueueIntegrationBatchJob; KueueIntegrationPod];
              in_ExternalFrameworks := []; in_LabelKeysToCopy := [] |} in
  length (buildFrameworkList (in_Frameworks i)) = 2 ∧
  "" ∉ buildFrameworkList (in_Frameworks i) ∧
  NoDup (buildFrameworkList (in_Frameworks i)).
Proof.
  apply buildFrameworkList_faithful; [vm_compute; reflexivity|].
  apply (bool_decide_unpack _). vm_compute. exact I.
Defined.

(** The exception is real: JaxJob is accepted by the API, but has no
    upstream name, so every accepted configuration that enables it generates
    an empty framework name. *)
Theorem buildFrameworkList_JaxJob (i : Integrations) :
  valid_Integrations i = true → KueueIntegrationJaxJob ∈ in_Frameworks i →
  "" ∈ Config.Frameworks (mapOperatorIntegrationsToKueue i).
Proof.
  intros _ Hj. simpl. unfold buildFrameworkList. apply list_elem_of_fmap.
  exists KueueIntegrationJaxJob. split; [vm_compute; reflexivity|done].
Qed.

Lemma buildFrameworkList_JaxJob_witness :
  let i := {| in_Frameworks := [KueueIntegrationJaxJob];
              in_ExternalFrameworks := []; in_LabelKeysToCopy := [] |} in
  "" ∈ Config.Frameworks (mapOperatorIntegrationsToKueue i).
Proof.
  apply buildFrameworkList_JaxJob; [vm_compute; reflexivity|].
  constructor.
Defined.

(** *** Gang scheduling *)

Lemma opt_int_in_cases lo hi v :
  opt_int_in lo hi v = true → v = 0%Z ∨ (lo ≤ v ≤ hi)%Z.
Proof. unfold opt_int_in, int_in. rewrite orb_true_iff. intros [H|H]; bsplit; lia. Qed.

(** The bounds of a requeuing strategy survive the translation. *)
Lemma buildRequeuingStrategy_bounds s r :
  valid_RequeuingStrategy s = true → buildRequeuingStrategy s = Some r →
  ∀ b m, Config.BackoffBaseSeconds r = Some b → Config.BackoffMaxSeconds r = Some m →
    (30 ≤ b ≤ m)%Z ∧ (m ≤ 7200)%Z.
Proof.
  unfold valid_RequeuingStrategy, buildRequeuingStrategy, opt_nonzero.
  intros Hv Hb b m. bsplit. case_match; [done|]. simplify_eq/=.
  repeat case_match; intros; simplify_eq. bsplit.
  repeat match goal with X : opt_int_in _ _ _ = true |- _ => apply opt_int_in_cases in X end.
  match goal with X : _ || _ = true |- _ => rewrite !orb_true_iff in X; destruct X as [[X|X]|X] end;
    bsplit; lia.
Qed.

(** The timeout a generated gang-scheduling section holds for a validated
    duration in seconds: exact, without wrap-around. *)
Lemma seconds_of_validated lo hi v :
  int_in lo hi v = true → (int32_min ≤ lo)%Z → (hi ≤ int32_max)%Z → seconds v = (v * Second)%Z.
Proof.
  unfold int_in. intros H Hlo Hhi. bsplit. apply seconds_exact. unfold in_int32. lia.
Qed.

(** C32: The gang-scheduling section follows the validated policy: ByWorkload
    keeps the timeouts exactly (0 leaves the default to Kueue) and blocks
    admission exactly when Sequential is asked for; None disables gang
    scheduling with a year-long timeout that blocks nothing; any other policy
    generates no section. *)
Theorem buildWaitForPodsReady_spec (g : GangScheduling) :
  valid_GangScheduling g = true →
  (∃ bw w, gs_Policy g = GangSchedulingPolicyByWorkload ∧ gs_ByWorkload g = Some bw ∧
     buildWaitForPodsReady g = Some w ∧
     Config.Timeout w = (bw_TimeoutSeconds bw * Second)%Z ∧
     Config.RecoveryTimeout w = (λ s, (s * Second)%Z) <$> bw_RecoveryTimeoutSeconds bw ∧
     (Config.BlockAdmission w = Some true ↔
        bw_Admission bw = GangSchedulingWorkloadAdmissionSequential) ∧
     is_Some (Config.BlockAdmission w) ∧
     Config.wf_RequeuingStrategy w = buildRequeuingStrategy (bw_RequeuingStrategy bw)) ∨
  (gs_Policy g = GangSchedulingPolicyNone ∧
     buildWaitForPodsReady g =
       Some {| Config.Timeout := (31536000 * Second)%Z; Config.BlockAdmission := Some false;
               Config.wf_RequeuingStrategy := None; Config.RecoveryTimeout := None |}) ∨
  ((gs_Policy g = "" ∨ gs_Policy g = GangSchedulingPolicyByWorkloadDefaults) ∧
     buildWaitForPodsReady g = None).
Proof.
  unfold valid_GangScheduling, enum. intros Hv. bsplit.
  unfold buildWaitForPodsReady.
  destruct (decide (gs_Policy g = GangSchedulingPolicyByWorkload)) as [Hp|Hp].
  - left. rewrite bool_decide_true by done.
    destruct (gs_ByWorkload g) as [bw|]; [|rewrite bool_decide_true in H0 by done; done].
    bsplit. unfold valid_ByWorkload in *. bsplit. eexists bw, _. split_and!; try done; simpl.
    + destruct (opt_int_in_cases _ _ _ H4) as [Hz|Hz]; [by rewrite Hz|].
      rewrite (proj2 (Z.ltb_lt _ _)) by lia. apply seconds_exact.
      unfold in_int32, int32_min, int32_max. lia.
    + destruct (bw_RecoveryTimeoutSeconds bw); simpl; [|done]. f_equal.
      by apply (seconds_of_validated 0 86400).
    + case_bool_decide; naive_solver.
    + case_bool_decide; eauto.
  - right. rewrite bool_decide_false by done.
    destruct (decide (gs_Policy g = GangSchedulingPolicyNone)) as [Hn|Hn].
    + left. by rewrite bool_decide_true.
    + right. rewrite bool_decide_false by done. split; [|done]. set_solver.
Qed.

Lemma buildWaitForPodsReady_spec_witness :
  let g := {| gs_Policy := GangSchedulingPolicyNone; gs_ByWorkload := None |} in
  gs_Policy g = GangSchedulingPolicyByWorkload ∨ is_Some (buildWaitForPodsReady g).
Proof.
  pose proof (buildWaitForPodsReady_spec
    {| gs_Policy := GangSchedulingPolicyNone; gs_ByWorkload := None |}
    ltac:(vm_compute; reflexivity)) as H.
  destruct H as [(bw & w & H & _)|[[_ H]|[[H|H] _]]]; try discriminate H.
  right. rewrite H. eexists. reflexivity.
Defined.

(** A validated requeuing strategy keeps its invariant in the generated
    configuration: when both backoff bounds are written, the base is at least
    30 s and not above the maximum, which is at most two hours; and a field is
    written exactly when it was set. *)
Theorem buildRequeuingStrategy_spec (s : RequeuingStrategy) :
  valid_RequeuingStrategy s = true →
  match buildRequeuingStrategy s with
  | None => s = zero_RequeuingStrategy
  | Some r =>
      s ≠ zero_RequeuingStrategy ∧
      default 0%Z (Config.BackoffLimitCount r) = rs_RetryLimit s ∧
      default 0%Z (Config.BackoffBaseSeconds r) = rs_BackoffBaseSeconds s ∧
      default 0%Z (Config.BackoffMaxSeconds r) = rs_BackoffMaxSeconds s ∧
      default "" (Config.Timestamp r) = rs_TimeReference s ∧
      (∀ b m, Config.BackoffBaseSeconds r = Some b → Config.BackoffMaxSeconds r = Some m →
         (30 ≤ b ≤ m)%Z ∧ (m ≤ 7200)%Z)
  end.
Proof.
  intros Hv. destruct (buildRequeuingStrategy s) as [r|] eqn:E.
  - pose proof (buildRequeuingStrategy_bounds s r Hv E) as Hb.
    unfold buildRequeuingStrategy, opt_nonzero in E.
    case_match; [done|]. simplify_eq/=. split_and!; try done.
    + intros ->. discriminate.
    + destruct (Z.eqb_spec (rs_RetryLimit s) 0); done.
    + destruct (Z.eqb_spec (rs_BackoffBaseSeconds s) 0); done.
    + destruct (Z.eqb_spec (rs_BackoffMaxSeconds s) 0); done.
    + case_bool_decide; done.
  - unfold buildRequeuingStrategy in E. case_match; [|done]. bsplit.
    destruct s; simpl in *; by subst.
Qed.

Lemma buildRequeuingStrategy_spec_witness :
  let s := {| rs_TimeReference := EvictionTimestamp; rs_RetryLimit := 5;
              rs_BackoffBaseSeconds := 60; rs_BackoffMaxSeconds := 3600 |} in
  s ≠ zero_RequeuingStrategy.
Proof.
  exact (proj1 (buildRequeuingStrategy_spec
    {| rs_TimeReference := EvictionTimestamp; rs_RetryLimit := 5;
       rs_BackoffBaseSeconds := 60; rs_BackoffMaxSeconds := 3600 |}
    ltac:(vm_compute; reflexivity))).
Defined.

(** *** Device class mappings *)

(** The sources of a mapping that reach the configuration. *)
Definition source_kept (enabled : bool) (s : DeviceClassSourceConfig) : bool :=
  (dsc_Type s =s DeviceClassSourceTypeCounter) ||
  (enabled && (dsc_Type s =s DeviceClassSourceTypeCapacity)).

(** A generated selector carries the expression of the resource, if any. *)
Definition selector_built (d : DeviceSelector) (d' : Config.DeviceSelector) : Prop :=
  ∀ e, Config.CEL d' = Some e ↔ e = cel_Expression (ds_CEL d) ∧ e ≠ "".

(** [source_built s o]: [o] is the generated source for [s]. *)
Inductive source_built (s : DeviceClassSourceConfig) : Config.DeviceClassSourceConfig → Prop :=
  | counter_built c :
      dsc_Type s = DeviceClassSourceTypeCounter →
      Config.ccs_Name c = dcn_Name (dsc_Counter s) → Config.ccs_Driver c = dcn_Driver (dsc_Counter s) →
      selector_built (dcn_DeviceSelector (dsc_Counter s)) (Config.ccs_DeviceSelector c) →
      source_built s {| Config.Counter := Some c; Config.Capacity := None |}
  | capacity_built c :
      dsc_Type s = DeviceClassSourceTypeCapacity →
      Config.cps_Name c = dcp_Name (dsc_Capacity s) → Config.cps_Driver c = dcp_Driver (dsc_Capacity s) →
      selector_built (dcp_DeviceSelector (dsc_Capacity s)) (Config.cps_DeviceSelector c) →
      source_built s {| Config.Counter := None; Config.Capacity := Some c |}.

Lemma buildDeviceSelector_built d : selector_built d (buildDeviceSelector d).
Proof.
  unfold selector_built, buildDeviceSelector. intros e. case_bool_decide as H; simpl; naive_solver.
Qed.

Lemma buildSource_built enabled s :
  Forall2 source_built (List.filter (source_kept enabled) [s]) (buildSource enabled s).
Proof.
  unfold buildSource, source_kept. cbn [List.filter].
  case_bool_decide as H; cbn [orb].
  { constructor; [|constructor]. constructor; [done..|]. apply buildDeviceSelector_built. }
  case_bool_decide as H'; [|rewrite andb_false_r; constructor].
  destruct enabled; cbn [negb andb]; [|constructor].
  constructor; [|constructor]. constructor; [done..|]. apply buildDeviceSelector_built.
Qed.

Lemma buildSources_built enabled l :
  Forall2 source_built (List.filter (source_kept enabled) l) (concat (map (buildSource enabled) l)).
Proof.
  induction l as [|s l IH]; [constructor|]. change (s :: l) with ([s] ++ l).
  rewrite List.filter_app. apply Forall2_app; [apply buildSource_built|exact IH].
Qed.

(** C29: The device class mappings of the generated configuration are those of
    the custom resource, in order and with their names and device classes; the
    section is absent exactly when there are none. The sources of a mapping are
    those of the resource, in order: a counter source gives a counter and a
    capacity source a capacity, never both, with the name, the driver and the
    CEL expression of the source, which is left out when empty. With the
    consumable-capacity gate off, exactly the counter sources are kept; with it
    on, the capacity sources as well. *)
Theorem buildResources_spec (r : Resources) (enabled : bool) :
  (buildResources r enabled = None ↔ rc_DeviceClassMappings r = []) ∧
  (∀ s, source_kept enabled s = true ↔ dsc_Type s = DeviceClassSourceTypeCounter ∨
     (enabled = true ∧ dsc_Type s = DeviceClassSourceTypeCapacity)) ∧
  ∀ R, buildResources r enabled = Some R →
    Forall2 (λ m m',
      Config.dcm_Name m' = dm_Name m ∧ Config.dcm_DeviceClassNames m' = dm_DeviceClassNames m ∧
      Forall2 source_built (List.filter (source_kept enabled) (dm_Sources m)) (Config.dcm_Sources m'))
      (rc_DeviceClassMappings r) (Config.DeviceClassMappings R).
Proof.
  split_and!.
  - unfold buildResources. destruct (rc_DeviceClassMappings r); simpl; naive_solver.
  - intros s. unfold source_kept. rewrite orb_true_iff, andb_true_iff, !bool_decide_eq_true. done.
  - unfold buildResources. destruct (rc_DeviceClassMappings r) as [|m0 ms]; [done|].
    intros R [= <-]. cbn [Config.DeviceClassMappings].
    change (buildMapping enabled m0 :: map (buildMapping enabled) ms)
      with (buildMapping enabled <$> m0 :: ms).
    apply Forall2_fmap_r, Forall_Forall2_diag, Forall_true. intros m.
    split_and!; [done..|apply buildSources_built].
Qed.

(** One mapping with a source of either type. *)
Definition example_resources : Resources :=
  let selector e := {| ds_Type := DeviceSelectorTypeCEL; ds_CEL := {| cel_Expression := e |} |} in
  {| rc_DeviceClassMappings := [{|
       dm_Name := "gpu"; dm_DeviceClassNames := ["gpu.example.com"];
       dm_Sources := [
         {| dsc_Type := DeviceClassSourceTypeCapacity; dsc_Counter := zero_DeviceClassCounterSource;
            dsc_Capacity := {| dcp_Name := "memory"; dcp_Driver := "driver";
                               dcp_DeviceSelector := selector "" |} |};
         {| dsc_Type := DeviceClassSourceTypeCounter;
            dsc_Counter := {| dcn_Name := "slices"; dcn_Driver := "driver";
                              dcn_DeviceSelector := selector "device.driver == 'x'" |};
            dsc_Capacity := zero_DeviceClassCapacitySource |}] |}] |}.

Lemma buildResources_spec_witness :
  ∃ R m o, buildResources example_resources false = Some R ∧ Config.DeviceClassMappings R = [m] ∧
    Config.dcm_Sources m = [o] ∧ Config.ccs_Name <$> Config.Counter o = Some "slices" ∧
    Forall2 (λ m m',
      Config.dcm_Name m' = dm_Name m ∧ Config.dcm_DeviceClassNames m' = dm_DeviceClassNames m ∧
      Forall2 source_built (List.filter (source_kept false) (dm_Sources m)) (Config.dcm_Sources m'))
      (rc_DeviceClassMappings example_resources) [m].
Proof.
  eexists _, _, _. split; [reflexivity|]. split; [reflexivity|]. split; [reflexivity|].
  split; [reflexivity|].
  exact (proj2 (proj2 (buildResources_spec example_resources false)) _ eq_refl).
Defined.

(** *** Feature gates *)

Lemma enable_gates_lookup l m g :
  enable_gates l m !! g =
    if existsb (λ p, (p.1 =s g) && p.2) l then Some true else m !! g.
Proof.
  unfold enable_gates. revert m. induction l as [|[k b] l IH]; intros m; simpl; [done|].
  rewrite IH. destruct (existsb _ l); [by rewrite orb_true_r|]. rewrite orb_false_r.
  destruct b; simpl; [|by rewrite andb_false_r]. rewrite andb_true_r.
  case_bool_decide as H; [subst; by rewrite lookup_insert_eq|by rewrite lookup_insert_ne].
Qed.

(** A feature gate appears in the configuration exactly when its condition
    holds, always as [true], and the section is absent exactly when no
    condition holds. *)
Theorem buildFeatureGates_spec (c : KueueConfiguration) (dra : bool) (g : string) (b : bool) :
  (default ∅ (buildFeatureGates c dra) !! g = Some b ↔
     b = true ∧
     ((g = "KueueDRAIntegrationConsumableCapacity" ∧ dra = true ∧
         HasSourceOfType (kc_Resources c) DeviceClassSourceTypeCapacity = true) ∨
      (g = "SparkApplicationIntegration" ∧
         KueueIntegrationSparkApplication ∈ in_Frameworks (kc_Integrations c)) ∨
      (g = "ShortWorkloadNames" ∧
         (in_ExternalFrameworks (kc_Integrations c) ≠ [] ∨
          ∃ m, kc_MultiKueue c = Some m ∧ mk_ExternalFrameworks m ≠ [])) ∨
      (g = "CustomMetricLabels" ∧
         cm_CustomLabels (cmgr_Metrics (kc_ControllerManager c)) ≠ []))) ∧
  (buildFeatureGates c dra = None ↔ ∀ p, p ∈ gates c dra → p.2 = false).
Proof.
  assert (Hlen : ∀ {A} (l : list A), (0 <? length l) = true ↔ l ≠ []).
  { intros A []; simpl; naive_solver. }
  assert (Hd : default ∅ (buildFeatureGates c dra) = enable_gates (gates c dra) ∅).
  { unfold buildFeatureGates. case_match eqn:E; [|done]. simpl.
    apply Nat.eqb_eq, map_size_empty_iff in E. done. }
  split.
  - rewrite Hd, enable_gates_lookup, lookup_empty.
    transitivity (b = true ∧ existsb (λ p, (p.1 =s g) && p.2) (gates c dra) = true).
    { destruct (existsb _ _); naive_solver. }
    apply and_iff_compat_l. unfold gates. cbn [existsb fst snd].
    rewrite !orb_true_iff, !andb_true_iff, !bool_decide_eq_true, !orb_true_iff, !Hlen.
    unfold slices_Contains. rewrite bool_decide_eq_true.
    assert (Hmk : match kc_MultiKueue c with
                  | Some m => 0 <? length (mk_ExternalFrameworks m) | None => false end = true ↔
                  ∃ m, kc_MultiKueue c = Some m ∧ mk_ExternalFrameworks m ≠ []).
    { destruct (kc_MultiKueue c); [rewrite Hlen|]; naive_solver. }
    rewrite Hmk. naive_solver.
  - unfold buildFeatureGates. case_match eqn:E.
    + split; [intros _|done]. apply Nat.eqb_eq, map_size_empty_iff in E.
      intros [k v] Hp. simpl. apply not_true_iff_false. intros ->.
      pose proof (enable_gates_lookup (gates c dra) ∅ k) as Hl. rewrite E, lookup_empty in Hl.
      destruct (existsb _ _) eqn:Ex; [done|].
      apply (proj1 (existsb_false_elem_of _ _) Ex) in Hp. simpl in Hp.
      by rewrite bool_decide_true in Hp.
    + split; [done|]. intros H. apply Nat.eqb_neq in E. destruct E.
      apply map_size_empty_iff, map_eq. intros k. rewrite enable_gates_lookup, lookup_empty.
      destruct (existsb _ _) eqn:Ex; [|done].
      apply existsb_elem_of in Ex as (p & Hp & Hb). bsplit. by rewrite (H p Hp) in *.
Qed.

(** *** Admission fair sharing and the whole template *)

Section BuildProperties.
Context `{CC : ConfigCodec}.

Lemma parseWeights_Ok l acc :
  (∃ w, parseWeights l acc = Ok w) ↔
  ∀ e, e ∈ l → ∃ f, ParseFloat (rw_Weight e) = inr f.
Proof.
  revert acc. induction l as [|e l IH]; intros acc; simpl.
  - split; [intros _ e; by rewrite elem_of_nil|eauto].
  - destruct (ParseFloat (rw_Weight e)) as [err|f] eqn:E.
    + split; [intros [? [=]]|]. intros H. destruct (H e) as [f Hf]; [constructor|congruence].
    + rewrite IH. setoid_rewrite elem_of_cons. naive_solver.
Qed.

Lemma parseWeights_no_panic l acc p : parseWeights l acc ≠ Panic p.
Proof. revert acc. induction l; intros acc; simpl; [done|]. by case_match. Qed.

Lemma parseWeights_Err l acc err :
  parseWeights l acc = Err err → ∃ e, e ∈ l ∧ ∀ f, ParseFloat (rw_Weight e) ≠ inr f.
Proof.
  revert acc. induction l as [|e l IH]; intros acc; simpl; [done|].
  destruct (ParseFloat (rw_Weight e)) eqn:E.
  - intros _. exists e. split; [constructor|]. congruence.
  - intros (e' & ? & ?)%IH. exists e'. split; [by constructor|done].
Qed.

Lemma parseWeights_lookup l acc w :
  NoDup (map rw_Name l) → parseWeights l acc = Ok w →
  ∀ e, e ∈ l → ∃ f, ParseFloat (rw_Weight e) = inr f ∧ w !! rw_Name e = Some f.
Proof.
  revert acc. induction l as [|e l IH]; intros acc Hnd; [intros _ e; by rewrite elem_of_nil|].
  csimpl in Hnd. apply NoDup_cons in Hnd as [Hni Hnd]. simpl.
  destruct (ParseFloat (rw_Weight e)) as [err|f] eqn:E; [done|]. intros Hw e' [->|He]%elem_of_cons.
  - exists f. split; [done|].
    assert (Hkeep : ∀ l acc, rw_Name e ∉ map rw_Name l → parseWeights l acc = Ok w →
              w !! rw_Name e = acc !! rw_Name e).
    { clear. induction l as [|d l IH]; intros acc Hni; simpl; [by intros [= ->]|].
      destruct (ParseFloat _); [done|]. intros Hw. csimpl in Hni.
      apply not_elem_of_cons in Hni as [Hne Hni].
      rewrite (IH _ Hni Hw). by rewrite lookup_insert_ne. }
    rewrite (Hkeep _ _ Hni Hw). by rewrite lookup_insert_eq.
  - eauto.
Qed.

(** C31: Admission fair sharing. An unset section generates none; the default
    one a half life of 30 minutes; a validated custom one generates exactly
    the configured durations (no overflow of the nanosecond arithmetic) and
    one weight per resource. The only failure is a custom weight that is not
    a number. *)
Theorem buildAdmissionFairSharing_spec (a : AdmissionFairSharing) :
  valid_AdmissionFairSharing a = true →
  let custom := afs_Custom a in
  let weights_ok := ∀ e, e ∈ afc_ResourceWeights custom → ∃ f, ParseFloat (rw_Weight e) = inr f in
  match buildAdmissionFairSharing a with
  | Ok None => afs_Configuration a = ""
  | Ok (Some o) =>
      (afs_Configuration a = AdmissionFairSharingConfigurationDefault ∧
       Config.UsageHalfLifeTime o = (1800 * Second)%Z ∧ Config.ResourceWeights o = None) ∨
      (afs_Configuration a = AdmissionFairSharingConfigurationCustom ∧ weights_ok ∧
       Config.UsageHalfLifeTime o = (afc_UsageHalfLifeTimeSeconds custom * Second)%Z ∧
       Config.UsageSamplingInterval o = (afc_UsageSamplingIntervalSeconds custom * Second)%Z ∧
       ∃ w, Config.ResourceWeights o = Some w ∧
         ∀ e, e ∈ afc_ResourceWeights custom →
           ∃ f, ParseFloat (rw_Weight e) = inr f ∧ w !! rw_Name e = Some f)
  | Err _ => afs_Configuration a = AdmissionFairSharingConfigurationCustom ∧ ¬ weights_ok
  | Panic _ => False
  end.
Proof.
  intros Hv. cbn zeta. unfold buildAdmissionFairSharing.
  case_bool_decide as He; [done|].
  unfold valid_AdmissionFairSharing in Hv. apply orb_true_iff in Hv as [Hv|Hv].
  { unfold has in Hv. bsplit. by subst a. }
  bsplit. unfold enum in *. bsplit.
  case_bool_decide as Hc.
  - bsplit. unfold valid_AdmissionFairSharingCustom in *. bsplit.
    destruct (parseWeights _ _) as [w|e|p] eqn:E; cbn [res_bind].
    + right. split_and!; try done.
      * apply (parseWeights_Ok _ ∅). by exists w.
      * cbn [Config.UsageHalfLifeTime].
        match goal with X : int_in 1 31536000 _ = true |- _ =>
          pose proof (seconds_of_validated _ _ _ X ltac:(done) ltac:(done)) as -> end.
        unfold int_in in *. bsplit. case_match; bsplit; lia.
      * cbn [Config.UsageSamplingInterval].
        match goal with X : opt_int_in 1 3600 _ = true |- _ =>
          apply opt_int_in_cases in X as [->|X] end; [done|].
        case_match; bsplit; [|lia]. apply seconds_exact. unfold in_int32, int32_min, int32_max. lia.
      * exists w. split; [done|]. apply (parseWeights_lookup _ ∅); [|done].
        unfold unique in *. by bsplit.
    + split; [done|]. intros Hok%(parseWeights_Ok _ ∅). destruct Hok. congruence.
    + by destruct (parseWeights_no_panic (afc_ResourceWeights (afs_Custom a)) ∅ p).
  - left. split_and!; [|done..]. set_solver.
Qed.

(** C13: Generating the configuration fails only on an unparsable custom
    weight; otherwise the result always carries the fixed parts Kueue
    depends on: the namespace, the managed-namespace selector, disabled
    internal certificate management, and leader-election intervals that
    satisfy client-go's requirement lease > renew > 1.2 * retry. *)
Theorem defaultKueueConfigurationTemplate_spec ns c gvr dra tls :
  match defaultKueueConfigurationTemplate ns c gvr dra tls with
  | Ok cfg =>
      Config.Namespace cfg = Some ns ∧
      Config.InternalCertManagement_Enable cfg = Some false ∧
      (∀ labels, (∃ s, Config.ManagedJobsNamespaceSelector cfg = Some s ∧
           selector_matches s labels = true) ↔
         labels !! "kueue.openshift.io/managed" = Some "true") ∧
      (let le := Config.cmg_LeaderElection (Config.cfg_ControllerManager cfg) in
       (Config.RenewDeadline le < Config.LeaseDuration le)%Z ∧
       (12 * Config.RetryPeriod le < 10 * Config.RenewDeadline le)%Z) ∧
      Config.TLS (Config.cfg_ControllerManager cfg) = tls ∧
      (Config.ManageJobsWithoutQueueName cfg = true ↔
         wm_LabelPolicy (kc_WorkloadManagement c) = LabelPolicyNone) ∧
      (is_Some (Config.cfg_FairSharing cfg) ↔
         pr_PreemptionPolicy (kc_Preemption c) = PreemptionStrategyFairsharing)
  | Err _ => ∃ e, e ∈ afc_ResourceWeights (afs_Custom (kc_AdmissionFairSharing c)) ∧
                  ∀ f, ParseFloat (rw_Weight e) ≠ inr f
  | Panic _ => False
  end.
Proof.
  unfold defaultKueueConfigurationTemplate.
  destruct (buildAdmissionFairSharing _) as [o|e|p] eqn:E.
  - cbn -[buildFeatureGates selector_matches]. split_and!; try done.
    + intros labels. unfold selector_matches. split.
      * intros (s & [= <-] & H). simpl in H. bsplit.
        eapply lookup_weaken; [|exact H]. apply lookup_singleton_eq.
      * intros H. eexists; split; [done|]. simpl. rewrite andb_true_r.
        apply bool_decide_eq_true. by apply map_singleton_subseteq_l.
    + unfold buildManagedJobsWithoutQueueName. apply bool_decide_eq_true.
    + unfold buildFairSharing. case_bool_decide as Hp; simpl.
      * split; [done|]. by eexists.
      * split; [by intros [? [=]]|done].
  - unfold buildAdmissionFairSharing in E. do 2 (case_bool_decide; try done).
    destruct (parseWeights _ _) as [w|e'|p] eqn:Ew; try done. by eapply parseWeights_Err.
  - unfold buildAdmissionFairSharing in E. do 2 (case_bool_decide; try done).
    destruct (parseWeights _ _) as [w|e'|p'] eqn:Ew; try done. by apply parseWeights_no_panic in Ew.
Qed.
End BuildProperties.

Lemma buildAdmissionFairSharing_spec_witness :
  let CC := {| float64 := Z;
               ParseFloat := λ s, match Atoi s with Some z => inr z | None => inl (ErrorString "invalid syntax") end;
               yaml_Marshal := λ _, inl (ErrorString "unsupported") |} in
  let a := {| afs_Configuration := AdmissionFairSharingConfigurationCustom;
              afs_Custom := {| afc_UsageHalfLifeTimeSeconds := 3600;
                               afc_UsageSamplingIntervalSeconds := 60;
                               afc_ResourceWeights := [{| rw_Name := "cpu"; rw_Weight := "2" |}] |} |} in
  match buildAdmissionFairSharing (CC := CC) a with
  | Ok (Some o) => Config.UsageHalfLifeTime o = (3600 * Second)%Z
  | _ => False
  end.
Proof.
  intros CC a.
  pose proof (buildAdmissionFairSharing_spec (CC := CC) a ltac:(vm_compute; reflexivity)) as H.
  destruct H as [(H & _)|(_ & _ & H & _)]; [discriminate H|exact H].
Defined.
