(* ===== verification/ConfigTyping.v ===== *)
(** * The type of the generated configuration

    What the Kueue manager requires of its configuration file beyond the field
    types of [Config]: judgements [wt_*], and the proof that the builder maps
    every custom resource that the API server accepts to a well-typed
    configuration. *)
From S2P Require Import Prelude GoStd K8s ApiTypes DraHelpers ConfigMap.

(** ** The judgements *)

(** A selector holds a CEL expression that is not empty. *)
Definition wt_selector (d : Config.DeviceSelector) : Prop :=
  ∃ e, Config.CEL d = Some e ∧ length_in 1 1024 e = true.

(** A source is a counter or a capacity, and complete. *)
Inductive wt_source : Config.DeviceClassSourceConfig → Prop :=
  | wt_counter c :
      dns1123Label (Config.ccs_Name c) = true → dns1123Subdomain (Config.ccs_Driver c) = true →
      wt_selector (Config.ccs_DeviceSelector c) →
      wt_source {| Config.Counter := Some c; Config.Capacity := None |}
  | wt_capacity c :
      match_capacity_name (Config.cps_Name c) = true → dns1123Subdomain (Config.cps_Driver c) = true →
      wt_selector (Config.cps_DeviceSelector c) →
      wt_source {| Config.Counter := None; Config.Capacity := Some c |}.

Record wt_mapping (m : Config.DeviceClassMapping) : Prop := {
  wt_mapping_name : qualifiedName (Config.dcm_Name m) = true;
  wt_mapping_classes : Config.dcm_DeviceClassNames m ≠ [] ∧ NoDup (Config.dcm_DeviceClassNames m);
  wt_mapping_sources : Forall wt_source (Config.dcm_Sources m) ∧ length (Config.dcm_Sources m) ≤ 1;
}.

(** Names are unique, and so is the mapping of a device class. *)
Record wt_Resources (r : Config.Resources) : Prop := {
  wt_resources_some : Config.DeviceClassMappings r ≠ [];
  wt_resources_mappings : Forall wt_mapping (Config.DeviceClassMappings r);
  wt_resources_names : NoDup (Config.dcm_Name <$> Config.DeviceClassMappings r);
  wt_resources_functional m1 m2 d :
    m1 ∈ Config.DeviceClassMappings r → m2 ∈ Config.DeviceClassMappings r →
    d ∈ Config.dcm_DeviceClassNames m1 → d ∈ Config.dcm_DeviceClassNames m2 → m1 = m2;
}.

(** A custom label reads a label or an annotation. *)
Inductive wt_label : Config.ControllerMetricsCustomLabel → Prop :=
  | wt_from_label name key kind :
      qualifiedName key = true → key ≠ "" →
      kind ∈ [SourceKindCohort; SourceKindLocalQueue; SourceKindClusterQueue] →
      wt_label {| Config.cml_Name := name; Config.SourceLabelKey := key;
                  Config.SourceAnnotationKey := ""; Config.SourceKind := Some kind |}
  | wt_from_annotation name key kind :
      qualifiedName key = true → key ≠ "" →
      kind ∈ [SourceKindCohort; SourceKindLocalQueue; SourceKindClusterQueue] →
      wt_label {| Config.cml_Name := name; Config.SourceLabelKey := "";
                  Config.SourceAnnotationKey := key; Config.SourceKind := Some kind |}.

Record wt_labels (l : list Config.ControllerMetricsCustomLabel) : Prop := {
  wt_labels_each : Forall wt_label l;
  wt_labels_names : NoDup (Config.cml_Name <$> l);
  wt_labels_number : length l ≤ 18;
}.

(** Every framework has a name of Kueue, but JaxJob, whose name is empty. *)
Record wt_Integrations (jax : Prop) (i : Config.Integrations) : Prop := {
  wt_frameworks_some : Config.Frameworks i ≠ [];
  wt_frameworks_distinct : NoDup (Config.Frameworks i);
  wt_frameworks_known f : f ∈ Config.Frameworks i →
    (∃ k, conversionMap !! k = Some f ∧ f ≠ "") ∨ (f = "" ∧ jax);
}.

Definition wt_requeuing (r : Config.RequeuingStrategy) : Prop :=
  (∀ n, Config.BackoffLimitCount r = Some n → (1 ≤ n ≤ 200)%Z) ∧
  (∀ b, Config.BackoffBaseSeconds r = Some b → (30 ≤ b ≤ 3600)%Z) ∧
  (∀ m, Config.BackoffMaxSeconds r = Some m → (30 ≤ m ≤ 7200)%Z) ∧
  (∀ b m, Config.BackoffBaseSeconds r = Some b → Config.BackoffMaxSeconds r = Some m → (b ≤ m)%Z).

Record wt_WaitForPodsReady (w : Config.WaitForPodsReady) : Prop := {
  wt_timeout : (0 ≤ Config.Timeout w ≤ 31536000 * Second)%Z;
  wt_recovery t : Config.RecoveryTimeout w = Some t → (0 ≤ t ≤ 86400 * Second)%Z;
  wt_block : is_Some (Config.BlockAdmission w);
  wt_strategy s : Config.wf_RequeuingStrategy w = Some s → wt_requeuing s;
}.

Definition knownGates : list string :=
  ["KueueDRAIntegrationConsumableCapacity"; "SparkApplicationIntegration"; "ShortWorkloadNames";
   "CustomMetricLabels"].
Definition wt_gates (m : gmap string bool) : Prop :=
  m ≠ ∅ ∧ ∀ g b, m !! g = Some b → g ∈ knownGates ∧ b = true.

Section typing.
Context `{CC : ConfigCodec}.

Record wt_Configuration (jax : Prop) (cfg : Config.Configuration float64) : Prop := {
  wt_integrations : ∃ i, Config.cfg_Integrations cfg = Some i ∧ wt_Integrations jax i;
  wt_wait w : Config.cfg_WaitForPodsReady cfg = Some w → wt_WaitForPodsReady w;
  wt_resources r : Config.cfg_Resources cfg = Some r → wt_Resources r;
  wt_metrics : wt_labels (Config.CustomLabels (Config.Metrics (Config.cfg_ControllerManager cfg)));
  wt_featuregates m : Config.FeatureGates cfg = Some m → wt_gates m;
}.
End typing.

(** ** Each section *)

Lemma buildDeviceSelector_wt d :
  valid_DeviceSelector d = true → wt_selector (buildDeviceSelector d).
Proof.
  unfold valid_DeviceSelector, enum. intros Hv. bsplit.
  assert (ds_Type d = DeviceSelectorTypeCEL) as Ht by set_solver.
  rewrite bool_decide_true in * by done. bsplit. unfold buildDeviceSelector.
  assert (cel_Expression (ds_CEL d) ≠ "") as Hne.
  { intros He. unfold valid_CELDeviceSelector in *. by rewrite He in *. }
  rewrite bool_decide_false by done. by eexists.
Qed.

Lemma buildSource_wt enabled s :
  valid_DeviceClassSourceConfig s = true → Forall wt_source (buildSource enabled s).
Proof.
  unfold valid_DeviceClassSourceConfig, buildSource. intros Hv. bsplit.
  destruct (dsc_Type s =s DeviceClassSourceTypeCounter).
  - bsplit. unfold valid_DeviceClassCounterSource in *. bsplit.
    constructor; [|constructor]. constructor; cbn; [done..|by apply buildDeviceSelector_wt].
  - destruct (dsc_Type s =s DeviceClassSourceTypeCapacity); [|constructor].
    destruct enabled; [|constructor]. cbn [negb]. bsplit. unfold valid_DeviceClassCapacitySource in *. bsplit.
    constructor; [|constructor]. constructor; cbn; [done..|by apply buildDeviceSelector_wt].
Qed.

Lemma buildSource_length enabled s : length (buildSource enabled s) ≤ 1.
Proof. unfold buildSource. repeat case_match; cbn; lia. Qed.

Lemma buildMapping_wt enabled m :
  valid_DeviceClassMapping m = true → wt_mapping (buildMapping enabled m).
Proof.
  unfold valid_DeviceClassMapping, unique, max_items. intros Hv. bsplit.
  split; cbn [buildMapping Config.dcm_Name Config.dcm_DeviceClassNames Config.dcm_Sources].
  - done.
  - split; [|done]. by destruct (dm_DeviceClassNames m).
  - destruct (dm_Sources m) as [|s [|s2 l]]; [split; [constructor|cbn; lia]| |done].
    cbn [map concat forallb] in *. rewrite app_nil_r. bsplit.
    split; [by apply buildSource_wt|apply buildSource_length].
Qed.

Lemma buildResources_wt r enabled R :
  valid_Resources r = true → buildResources r enabled = Some R → wt_Resources R.
Proof.
  unfold valid_Resources, buildResources, unique, each_class_mapped_once.
  intros Hv Hb. bsplit. destruct (rc_DeviceClassMappings r) as [|m0 ms] eqn:Hl; [done|].
  rewrite <-Hl in *. assert (rc_DeviceClassMappings r ≠ []) as Hne by (by rewrite Hl).
  destruct (length (rc_DeviceClassMappings r) =? 0); [done|]. injection Hb as <-.
  pose proof (proj1 (forallb_elem_of _ _) H) as Hm. split; cbn [Config.DeviceClassMappings].
  - by destruct (rc_DeviceClassMappings r).
  - apply Forall_forall. intros m' Hm'. apply list_elem_of_fmap in Hm' as (m & -> & Hin).
    by apply buildMapping_wt, Hm.
  - change (NoDup (Config.dcm_Name <$> (buildMapping enabled <$> rc_DeviceClassMappings r))).
    by rewrite <-list_fmap_compose.
  - intros m1' m2' d Hm1 Hm2 Hd1 Hd2. apply list_elem_of_fmap in Hm1 as (m1 & -> & Hin1).
    apply list_elem_of_fmap in Hm2 as (m2 & -> & Hin2). cbn in Hd1, Hd2.
    assert (m2 = m1) as ->; [|done].
    match goal with X : forallb _ (rc_DeviceClassMappings r) = true |- _ =>
      match X with H => fail 1 | _ =>
      apply (proj1 (forallb_elem_of _ _) X), (proj1 (forallb_elem_of _ _)) with (x := d) in Hin1; [|done];
      apply (proj1 (forallb_elem_of _ _) Hin1) in Hin2 end end.
    apply orb_true_iff in Hin2 as [He|Hn]; bsplit; done.
Qed.

Lemma buildControllerMetrics_wt cm :
  valid_ControllerManager cm = true → wt_labels (buildControllerMetrics cm).
Proof.
  intros Hv. assert (valid_ControllerMetrics (cmgr_Metrics cm) = true ∨ cm = zero_ControllerManager) as [Hv'| ->].
  { unfold valid_ControllerManager, has in Hv. apply orb_true_iff in Hv as [Hz|?]; [right|by left].
    by bsplit. }
  2:{ split; [constructor|constructor|cbn; lia]. }
  clear Hv. unfold valid_ControllerMetrics, unique, max_items in Hv'. bsplit.
  unfold buildControllerMetrics. split.
  - apply Forall_map, Forall_forall. intros l Hin.
    apply (proj1 (forallb_elem_of _ _) H) in Hin. unfold valid_ControllerMetricsCustomLabel, valid_SourceKey, enum in Hin.
    bsplit. destruct (decide (sk_SourceType (cml_SourceKey l) = SourceAnnotation)) as [He|He].
    + rewrite !bool_decide_true in * by done. bsplit. unfold valid_SourceKeyAnnotation in *. bsplit.
      constructor; [done| |done]. intros Hk. by rewrite Hk in *.
    + assert (sk_SourceType (cml_SourceKey l) = SourceLabel) as Hs by set_solver.
      rewrite (bool_decide_true (_ = SourceLabel)) in * by done.
      rewrite !(bool_decide_false (_ = SourceAnnotation)) in * by done.
      unfold valid_SourceKeyLabel in *. bsplit. constructor; [done| |done]. intros Hk. by rewrite Hk in *.
  - by rewrite <-list_fmap_compose.
  - rewrite length_map. by apply Nat.leb_le.
Qed.

Lemma framework_known (k : string) :
  k ∈ KueueIntegration_values →
  (k ≠ KueueIntegrationJaxJob ∧ ∃ n, conversionMap !! k = Some n ∧ n ≠ "") ∨
  (k = KueueIntegrationJaxJob ∧ conversionMap !! k = None).
Proof.
  intros Hk. destruct (decide (k = KueueIntegrationJaxJob)) as [->|Hj].
  - right. split; [done|]. by vm_compute.
  - left. split; [done|]. by apply conversionMap_dom.
Qed.

Lemma mapOperatorIntegrations_wt i :
  valid_Integrations i = true →
  wt_Integrations (KueueIntegrationJaxJob ∈ in_Frameworks i) (mapOperatorIntegrationsToKueue i).
Proof.
  unfold valid_Integrations, unique, max_items. intros Hv. bsplit.
  pose proof (proj1 (forallb_elem_of _ _) H) as Hen. unfold enum in Hen.
  assert (∀ k : string, k ∈ in_Frameworks i →
    (k ≠ KueueIntegrationJaxJob ∧ ∃ n, conversionMap !! k = Some n ∧ n ≠ "") ∨
    (k = KueueIntegrationJaxJob ∧ conversionMap !! k = None)) as Hval.
  { intros k Hk. apply framework_known. by apply Hen, bool_decide_eq_true in Hk. }
  unfold mapOperatorIntegrationsToKueue, buildFrameworkList.
  split; cbn [Config.Frameworks].
  - by destruct (in_Frameworks i).
  - apply NoDup_fmap_2_strong; [|done]. intros k1 k2 Hk1 Hk2 Heq.
    destruct (Hval k1 Hk1) as [[_ (n1 & Hl1 & Hn1)]|[-> Hl1]], (Hval k2 Hk2) as [[_ (n2 & Hl2 & Hn2)]|[-> Hl2]];
      rewrite ?Hl1, ?Hl2 in Heq; cbn in Heq; try done; [|congruence..]. subst n2. by apply (conversionMap_inj _ _ n1).
  - intros f Hf. apply list_elem_of_fmap in Hf as (k & -> & Hk).
    destruct (Hval k Hk) as [[_ (n & Hl & Hn)]|[-> Hl]]; rewrite Hl; cbn [default from_option id].
    + left. by exists k.
    + by right.
Qed.

Lemma buildRequeuingStrategy_wt s r :
  valid_RequeuingStrategy s = true → buildRequeuingStrategy s = Some r → wt_requeuing r.
Proof.
  intros Hv Hb. pose proof (buildRequeuingStrategy_bounds _ _ Hv Hb) as Hbm.
  revert Hv Hb. unfold valid_RequeuingStrategy, buildRequeuingStrategy, opt_nonzero.
  intros Hv Hb. bsplit. case_match; [done|]. injection Hb as <-.
  repeat match goal with X : opt_int_in _ _ _ = true |- _ => apply opt_int_in_cases in X end.
  assert (∀ z lo hi n, z = 0%Z ∨ (lo ≤ z ≤ hi)%Z → (if (z =? 0)%Z then None else Some z) = Some n → (lo ≤ n ≤ hi)%Z)
    as Hopt.
  { intros z lo hi n Hz. destruct (Z.eqb_spec z 0); [done|]. intros [= <-]. lia. }
  split_and!; cbn in *; [eauto..|]. intros b m Hb Hm. destruct (Hbm b m Hb Hm). lia.
Qed.

Lemma seconds_nonneg hi v : (0 ≤ v ≤ hi)%Z → (hi ≤ 86400)%Z → (0 ≤ seconds v ≤ 86400 * Second)%Z.
Proof.
  intros Hv Hhi. rewrite seconds_exact.
  - unfold Second in *. nia.
  - unfold in_int32, int32_min, int32_max. lia.
Qed.

Lemma buildWaitForPodsReady_wt g w :
  valid_GangScheduling g = true → buildWaitForPodsReady g = Some w → wt_WaitForPodsReady w.
Proof.
  unfold valid_GangScheduling, buildWaitForPodsReady. intros Hv Hb. bsplit.
  destruct (gs_Policy g =s GangSchedulingPolicyByWorkload).
  - destruct (gs_ByWorkload g) as [bw|]; [|done]. injection Hb as <-. bsplit.
    unfold valid_ByWorkload in *. bsplit.
    match goal with X : opt_int_in _ _ _ = true |- _ => apply opt_int_in_cases in X as Ht end.
    split; cbn.
    + destruct (Z.ltb_spec 0 (bw_TimeoutSeconds bw)); [|unfold Second; lia].
      pose proof (seconds_nonneg 86400 (bw_TimeoutSeconds bw)). unfold Second in *. lia.
    + intros t. destruct (bw_RecoveryTimeoutSeconds bw) as [r|]; [|done]. intros [= <-].
      unfold int_in in *. bsplit. apply (seconds_nonneg 86400); lia.
    + destruct (bw_Admission bw =s GangSchedulingWorkloadAdmissionSequential); by eexists.
    + intros s. by apply buildRequeuingStrategy_wt.
  - destruct (gs_Policy g =s GangSchedulingPolicyNone); [|done]. injection Hb as <-.
    split; cbn; [by split; vm_compute|done|by eexists|done].
Qed.

Lemma buildFeatureGates_wt c dra m : buildFeatureGates c dra = Some m → wt_gates m.
Proof.
  unfold buildFeatureGates. set (fg := enable_gates (gates c dra) ∅). cbv zeta.
  destruct (Nat.eqb_spec (size fg) 0) as [|Hs]; [done|]. intros [= <-]. split.
  - intros He. by apply Hs, map_size_empty_iff.
  - intros g b. unfold fg. rewrite enable_gates_lookup, lookup_empty. destruct (existsb _ _) eqn:He; [|done].
    intros [= <-]. split; [|done]. apply existsb_elem_of in He as ([k v] & Hk & Hg). cbn in Hg. bsplit.
    unfold gates in Hk. unfold knownGates. set_solver.
Qed.

(** C10: The builder is well typed. For every configuration that the API server
    accepts, what is generated is well typed for Kueue: at least one
    framework, none twice, each under its Kueue name (only JaxJob's is empty);
    timeouts and backoffs within their bounds, without overflow; every device
    class in one mapping, every source a complete counter or capacity with a
    CEL expression; every metric label from exactly one of a label and an
    annotation; and only known feature gates, all enabled. *)
Theorem template_well_typed `{ConfigCodec} ns c gvrToKind capacity tls cfg :
  valid_KueueConfiguration c = true →
  defaultKueueConfigurationTemplate ns c gvrToKind capacity tls = Ok cfg →
  wt_Configuration (KueueIntegrationJaxJob ∈ in_Frameworks (kc_Integrations c)) cfg.
Proof.
  unfold valid_KueueConfiguration, defaultKueueConfigurationTemplate. intros Hv Hc. bsplit.
  destruct (buildAdmissionFairSharing _); [|done..]. injection Hc as <-. split; cbn.
  - eexists. split; [done|]. by apply mapOperatorIntegrations_wt.
  - intros w. by apply buildWaitForPodsReady_wt.
  - intros r. by apply buildResources_wt.
  - by apply buildControllerMetrics_wt.
  - intros m. apply buildFeatureGates_wt.
Qed.

Definition plain_codec : ConfigCodec := {|
  float64 := string; ParseFloat := inr; yaml_Marshal := λ _, inr "" |}.

(** A configuration with every section. *)
Definition full_config : KueueConfiguration := {|
  kc_Integrations := {|
    in_Frameworks := [KueueIntegrationBatchJob; KueueIntegrationSparkApplication; KueueIntegrationJaxJob];
    in_ExternalFrameworks := []; in_LabelKeysToCopy := [] |};
  kc_WorkloadManagement := {| wm_LabelPolicy := "" |};
  kc_GangScheduling := {| gs_Policy := GangSchedulingPolicyByWorkload; gs_ByWorkload := Some {|
    bw_Admission := ""; bw_TimeoutSeconds := 600; bw_RecoveryTimeoutSeconds := Some 60%Z;
    bw_RequeuingStrategy := {| rs_TimeReference := EvictionTimestamp; rs_RetryLimit := 3;
      rs_BackoffBaseSeconds := 30; rs_BackoffMaxSeconds := 60 |} |} |};
  kc_Preemption := {| pr_PreemptionPolicy := "" |};
  kc_Resources := {| rc_DeviceClassMappings := [{|
    dm_Name := "gpus"; dm_DeviceClassNames := ["gpu.example.com"];
    dm_Sources := [{| dsc_Type := DeviceClassSourceTypeCounter;
      dsc_Counter := {| dcn_Name := "gpu"; dcn_Driver := "gpu.example.com";
        dcn_DeviceSelector := {| ds_Type := DeviceSelectorTypeCEL; ds_CEL := {| cel_Expression := "true" |} |} |};
      dsc_Capacity := zero_DeviceClassCapacitySource |}] |}] |};
  kc_MultiKueue := None;
  kc_AdmissionFairSharing := zero_AdmissionFairSharing;
  kc_ControllerManager := {| cmgr_Metrics := {| cm_CustomLabels := [{|
    cml_Name := "team"; cml_SourceKind := SourceKindCohort;
    cml_SourceKey := {| sk_SourceType := SourceAnnotation; sk_Label := zero_SourceKeyLabel;
      sk_Annotation := {| ska_Key := "example.com/team" |} |} |}] |} |} |}.

Lemma template_well_typed_witness :
  valid_KueueConfiguration full_config = true ∧
  ∃ cfg, @defaultKueueConfigurationTemplate plain_codec "ns" full_config ∅ true None = Ok cfg ∧
    wt_Configuration (KueueIntegrationJaxJob ∈ in_Frameworks (kc_Integrations full_config)) cfg.
Proof.
  assert (valid_KueueConfiguration full_config = true) as Hv by (vm_compute; reflexivity).
  split; [exact Hv|]. eexists. split; [reflexivity|].
  exact (@template_well_typed plain_codec "ns" full_config ∅ true None _ Hv eq_refl).
Defined.
