(* ===== verification/TlsProfile.v ===== *)
(** * pkg/tlsprofile: the cluster's TLS profile as Kueue TLS options

    The tables [TLSProfiles] (openshift/api), [openSSLToIANACiphers] and
    [tlsGroupToCurveID] (library-go/pkg/crypto) are the vendored ones. The
    read of the APIServer object itself ([FetchAPIServerTLSProfile]) is in
    [Sync]. *)
From S2P Require Import Prelude GoStd K8s ApiTypes DraHelpers ConfigMap.

(** ** The profiles *)

Definition VersionTLS10 : string := "VersionTLS10".
Definition VersionTLS11 : string := "VersionTLS11".
Definition VersionTLS12 : string := "VersionTLS12".
Definition VersionTLS13 : string := "VersionTLS13".

Record TLSProfileSpec := {
  tps_Ciphers : list string;
  tps_Groups : list string;
  tps_MinTLSVersion : string;
}.

Definition TLSProfileOldType : string := "Old".
Definition TLSProfileIntermediateType : string := "Intermediate".
Definition TLSProfileModernType : string := "Modern".
Definition TLSProfileCustomType : string := "Custom".

(** The spec of the custom profile is embedded in [Custom]. *)
Record TLSSecurityProfile := {
  tsp_Type : string;
  tsp_Custom : option TLSProfileSpec;
}.

Definition defaultGroups : list string := ["X25519MLKEM768"; "X25519"; "secp256r1"; "secp384r1"].
Definition modernCiphers : list string :=
  ["TLS_AES_128_GCM_SHA256"; "TLS_AES_256_GCM_SHA384"; "TLS_CHACHA20_POLY1305_SHA256"].
Definition intermediateCiphers : list string := modernCiphers ++
  ["ECDHE-ECDSA-AES128-GCM-SHA256"; "ECDHE-RSA-AES128-GCM-SHA256";
   "ECDHE-ECDSA-AES256-GCM-SHA384"; "ECDHE-RSA-AES256-GCM-SHA384";
   "ECDHE-ECDSA-CHACHA20-POLY1305"; "ECDHE-RSA-CHACHA20-POLY1305"].
Definition oldCiphers : list string := intermediateCiphers ++
  ["ECDHE-ECDSA-AES128-SHA256"; "ECDHE-RSA-AES128-SHA256"; "ECDHE-ECDSA-AES128-SHA";
   "ECDHE-RSA-AES128-SHA"; "ECDHE-ECDSA-AES256-SHA384"; "ECDHE-RSA-AES256-SHA384";
   "ECDHE-ECDSA-AES256-SHA"; "ECDHE-RSA-AES256-SHA"; "AES128-GCM-SHA256";
   "AES256-GCM-SHA384"; "AES128-SHA256"; "AES256-SHA256"; "AES128-SHA"; "AES256-SHA";
   "DES-CBC3-SHA"].

Definition TLSProfiles (type : string) : option TLSProfileSpec :=
  if type =s TLSProfileOldType then
    Some {| tps_Ciphers := oldCiphers; tps_Groups := defaultGroups; tps_MinTLSVersion := VersionTLS10 |}
  else if type =s TLSProfileIntermediateType then
    Some {| tps_Ciphers := intermediateCiphers; tps_Groups := defaultGroups;
            tps_MinTLSVersion := VersionTLS12 |}
  else if type =s TLSProfileModernType then
    Some {| tps_Ciphers := modernCiphers; tps_Groups := defaultGroups;
            tps_MinTLSVersion := VersionTLS13 |}
  else None.

(** ** library-go's tables *)

Definition openSSLToIANACiphers : gmap string string := list_to_map
  [("TLS_AES_128_GCM_SHA256", "TLS_AES_128_GCM_SHA256");
   ("TLS_AES_256_GCM_SHA384", "TLS_AES_256_GCM_SHA384");
   ("TLS_CHACHA20_POLY1305_SHA256", "TLS_CHACHA20_POLY1305_SHA256");
   ("ECDHE-ECDSA-AES128-GCM-SHA256", "TLS_ECDHE_ECDSA_WITH_AES_128_GCM_SHA256");
   ("ECDHE-RSA-AES128-GCM-SHA256", "TLS_ECDHE_RSA_WITH_AES_128_GCM_SHA256");
   ("ECDHE-ECDSA-AES256-GCM-SHA384", "TLS_ECDHE_ECDSA_WITH_AES_256_GCM_SHA384");
   ("ECDHE-RSA-AES256-GCM-SHA384", "TLS_ECDHE_RSA_WITH_AES_256_GCM_SHA384");
   ("ECDHE-ECDSA-CHACHA20-POLY1305", "TLS_ECDHE_ECDSA_WITH_CHACHA20_POLY1305_SHA256");
   ("ECDHE-RSA-CHACHA20-POLY1305", "TLS_ECDHE_RSA_WITH_CHACHA20_POLY1305_SHA256");
   ("ECDHE-ECDSA-AES128-SHA256", "TLS_ECDHE_ECDSA_WITH_AES_128_CBC_SHA256");
   ("ECDHE-RSA-AES128-SHA256", "TLS_ECDHE_RSA_WITH_AES_128_CBC_SHA256");
   ("AES128-GCM-SHA256", "TLS_RSA_WITH_AES_128_GCM_SHA256");
   ("AES256-GCM-SHA384", "TLS_RSA_WITH_AES_256_GCM_SHA384");
   ("AES128-SHA256", "TLS_RSA_WITH_AES_128_CBC_SHA256");
   ("ECDHE-ECDSA-AES128-SHA", "TLS_ECDHE_ECDSA_WITH_AES_128_CBC_SHA");
   ("ECDHE-RSA-AES128-SHA", "TLS_ECDHE_RSA_WITH_AES_128_CBC_SHA");
   ("ECDHE-ECDSA-AES256-SHA", "TLS_ECDHE_ECDSA_WITH_AES_256_CBC_SHA");
   ("ECDHE-RSA-AES256-SHA", "TLS_ECDHE_RSA_WITH_AES_256_CBC_SHA");
   ("AES128-SHA", "TLS_RSA_WITH_AES_128_CBC_SHA");
   ("AES256-SHA", "TLS_RSA_WITH_AES_256_CBC_SHA");
   ("DES-CBC3-SHA", "TLS_RSA_WITH_3DES_EDE_CBC_SHA");
   ("ECDHE-RSA-DES-CBC3-SHA", "TLS_ECDHE_RSA_WITH_3DES_EDE_CBC_SHA")].

(** The [tls.CurveID] values, 16-bit unsigned integers. *)
Definition tlsGroupToCurveID : gmap string Z := list_to_map
  [("X25519", 29%Z); ("secp256r1", 23%Z); ("secp384r1", 24%Z); ("secp521r1", 25%Z);
   ("X25519MLKEM768", 4588%Z); ("SecP256r1MLKEM768", 4587%Z); ("SecP384r1MLKEM1024", 4589%Z)].

Definition OpenSSLToIANACipherSuites (ciphers : list string) : list string :=
  omap (λ c : string, openSSLToIANACiphers !! c) ciphers.

Fixpoint TLSGroupsToCurveIDs (groups : list string) : list Z * list string :=
  match groups with
  | [] => ([], [])
  | g :: groups =>
      let '(curves, unrecognized) := TLSGroupsToCurveIDs groups in
      match tlsGroupToCurveID !! g with
      | Some id => (id :: curves, unrecognized)
      | None => (curves, g :: unrecognized)
      end
  end.

(** ** The package *)

Definition findUnmappedCiphers (ciphers : list string) : list string :=
  List.filter (λ c, length (OpenSSLToIANACipherSuites [c]) =? 0) ciphers.

(** The conversion [int32(id)] of a [uint16] is exact. *)
Definition convertGroupsToCurvePreferences (groups : list string) : list Z * list string :=
  TLSGroupsToCurveIDs groups.

Definition getProfileSpec (profile : option TLSSecurityProfile) : res TLSProfileSpec :=
  match profile with
  | None =>
      match TLSProfiles TLSProfileIntermediateType with
      | Some s => Ok s
      | None => Panic "nil pointer dereference"
      end
  | Some p =>
      if tsp_Type p =s TLSProfileCustomType then
        match tsp_Custom p with
        | None => Err (ErrorString "custom TLS profile specified but custom configuration is nil")
        | Some s => Ok s
        end
      else
        match TLSProfiles (tsp_Type p) with
        | None => Err (ErrorString ("unsupported TLS profile type: " +:+ Quote (tsp_Type p)))
        | Some s => Ok s
        end
  end.

Definition TLSOptionsFromProfile (profile : option TLSSecurityProfile)
    : res (Config.TLSOptions * list string * list string) :=
  rlet spec := getProfileSpec profile in
  if (tps_MinTLSVersion spec =s VersionTLS10) || (tps_MinTLSVersion spec =s VersionTLS11) then
    let profileType := match profile with Some p => tsp_Type p | None => "Custom" end in
    Err (ErrorString ("TLS profile " +:+ Quote profileType +:+ " uses minimum version " +:+
      tps_MinTLSVersion spec +:+
      " which is not supported by Kueue (minimum supported: VersionTLS12)"))
  else
    let '(ciphers, unmappedCiphers) :=
      if tps_MinTLSVersion spec =s VersionTLS13 then ([], [])
      else (OpenSSLToIANACipherSuites (tps_Ciphers spec), findUnmappedCiphers (tps_Ciphers spec)) in
    let '(curves, unmappedGroups) :=
      if 0 <? length (tps_Groups spec) then convertGroupsToCurvePreferences (tps_Groups spec)
      else ([], []) in
    Ok ({| Config.MinVersion := tps_MinTLSVersion spec;
           Config.CipherSuites := ciphers;
           Config.CurvePreferences := curves |}, unmappedCiphers, unmappedGroups).

(** ** Properties *)

#[global] Opaque openSSLToIANACiphers tlsGroupToCurveID.

Lemma OpenSSLToIANACipherSuites_elem ciphers s :
  s ∈ OpenSSLToIANACipherSuites ciphers ↔ ∃ c, c ∈ ciphers ∧ openSSLToIANACiphers !! c = Some s.
Proof. apply list_elem_of_omap. Qed.

Lemma OpenSSLToIANACipherSuites_cons (c : string) l :
  OpenSSLToIANACipherSuites (c :: l) =
    match openSSLToIANACiphers !! c with
    | Some s => s :: OpenSSLToIANACipherSuites l
    | None => OpenSSLToIANACipherSuites l
    end.
Proof. done. Qed.

Lemma findUnmappedCiphers_elem ciphers c :
  c ∈ findUnmappedCiphers ciphers ↔ c ∈ ciphers ∧ openSSLToIANACiphers !! c = None.
Proof.
  unfold findUnmappedCiphers. rewrite list_elem_of_In, filter_In, <-list_elem_of_In.
  unfold OpenSSLToIANACipherSuites. csimpl.
  destruct (openSSLToIANACiphers !! c); simpl; naive_solver.
Qed.

Lemma ciphers_partition ciphers :
  length (OpenSSLToIANACipherSuites ciphers) + length (findUnmappedCiphers ciphers) =
  length ciphers.
Proof.
  unfold findUnmappedCiphers. induction ciphers as [|c l IH]; [done|].
  rewrite OpenSSLToIANACipherSuites_cons. cbn [List.filter].
  rewrite (OpenSSLToIANACipherSuites_cons c []).
  change (OpenSSLToIANACipherSuites []) with (@nil string).
  destruct (openSSLToIANACiphers !! c); cbn [length Nat.eqb]; lia.
Qed.

Lemma TLSGroupsToCurveIDs_spec groups curves unmapped :
  TLSGroupsToCurveIDs groups = (curves, unmapped) →
  curves = omap (λ g : string, tlsGroupToCurveID !! g) groups ∧
  (∀ g, g ∈ unmapped ↔ g ∈ groups ∧ tlsGroupToCurveID !! g = None).
Proof.
  revert curves unmapped. induction groups as [|g l IH]; intros curves unmapped; simpl.
  - intros [= <- <-]. split; [done|]. intros g. rewrite elem_of_nil. naive_solver.
  - destruct (TLSGroupsToCurveIDs l) as [cs us] eqn:E. destruct (IH _ _ eq_refl) as [-> Hu].
    csimpl. destruct (tlsGroupToCurveID !! g) eqn:Hg; intros [= <- <-]; (split; [done|]);
      intros g'; rewrite ?elem_of_cons, Hu; naive_solver.
Qed.

(** Every curve ID is a 16-bit value, so [int32] holds it exactly. *)
Lemma curveID_range (g : string) id :
  tlsGroupToCurveID !! g = Some id → (0 ≤ id < 2 ^ 16)%Z.
Proof.
  assert (map_Forall (λ _ id, (0 ≤ id < 2 ^ 16)%Z) tlsGroupToCurveID) as H
    by (apply (bool_decide_unpack _); vm_compute; exact I).
  apply H.
Qed.

(** The TLS options never allow a TLS version below 1.2: translation fails
    on TLS 1.0 and 1.1, on a custom profile without a spec and on an unknown
    profile type, and on nothing else; it never panics. *)
Theorem TLSOptionsFromProfile_version (profile : option TLSSecurityProfile) :
  match TLSOptionsFromProfile profile with
  | Ok (opts, _, _) =>
      Config.MinVersion opts ≠ VersionTLS10 ∧ Config.MinVersion opts ≠ VersionTLS11 ∧
      ∃ spec, getProfileSpec profile = Ok spec ∧ Config.MinVersion opts = tps_MinTLSVersion spec
  | Err _ =>
      ∃ p, profile = Some p ∧
        (tsp_Type p = TLSProfileOldType ∨
         (tsp_Type p = TLSProfileCustomType ∧
            ∀ spec, tsp_Custom p = Some spec → tps_MinTLSVersion spec ∈ [VersionTLS10; VersionTLS11]) ∨
         tsp_Type p ∉ [TLSProfileOldType; TLSProfileIntermediateType; TLSProfileModernType;
                       TLSProfileCustomType])
  | Panic _ => False
  end.
Proof.
  destruct profile as [p|]; [|vm_compute; split_and!; [done..|]; by eexists].
  unfold TLSOptionsFromProfile. destruct (getProfileSpec (Some p)) as [spec|e|m] eqn:E; cbn [res_bind].
  - destruct (_ || _) eqn:Hv.
    + exists p. split; [done|]. unfold getProfileSpec in E.
      destruct (decide (tsp_Type p = TLSProfileCustomType)) as [Hc|Hc].
      * rewrite bool_decide_true in E by done.
        right; left. split; [done|]. intros s Hs. rewrite Hs in E. injection E as ->.
        apply orb_true_iff in Hv as [Hv|Hv]; bsplit; rewrite Hv; set_solver.
      * rewrite bool_decide_false in E by done. left. unfold TLSProfiles in E.
        destruct (decide (tsp_Type p = TLSProfileOldType)) as [|H1]; [done|].
        rewrite bool_decide_false in E by done.
        destruct (bool_decide (tsp_Type p = TLSProfileIntermediateType));
          [injection E as <-; discriminate Hv|].
        destruct (bool_decide (tsp_Type p = TLSProfileModernType));
          [injection E as <-; discriminate Hv|]. discriminate E.
    + apply orb_false_iff in Hv as [Hv1 Hv2]. bsplit.
      destruct (if tps_MinTLSVersion spec =s VersionTLS13 then _ else _) as [ciphers us].
      destruct (if 0 <? length (tps_Groups spec) then _ else _) as [curves us'].
      cbn [Config.MinVersion]. eauto.
  - exists p. split; [done|]. unfold getProfileSpec in E. case_bool_decide as Hc.
    + right; left. split; [done|]. intros s Hs. by rewrite Hs in E.
    + right; right. unfold TLSProfiles in E. repeat case_bool_decide; try done. set_solver.
  - unfold getProfileSpec in E. repeat case_match; done.
Qed.

(** C28: Nothing is lost silently. When translation succeeds, the configured
    ciphers split into the translated suites (for TLS 1.3, where they are not
    configurable, none) and the reported unmapped names, every group is either
    a curve preference, in order, or reported, and every curve ID fits
    [int32]. *)
Theorem TLSOptionsFromProfile_accounting profile spec opts unmappedCiphers unmappedGroups :
  getProfileSpec profile = Ok spec →
  TLSOptionsFromProfile profile = Ok (opts, unmappedCiphers, unmappedGroups) →
  (tps_MinTLSVersion spec ≠ VersionTLS13 →
     length (Config.CipherSuites opts) + length unmappedCiphers = length (tps_Ciphers spec) ∧
     (∀ s, s ∈ Config.CipherSuites opts ↔
        ∃ c, c ∈ tps_Ciphers spec ∧ openSSLToIANACiphers !! c = Some s) ∧
     (∀ c, c ∈ unmappedCiphers ↔ c ∈ tps_Ciphers spec ∧ openSSLToIANACiphers !! c = None)) ∧
  (tps_MinTLSVersion spec = VersionTLS13 → Config.CipherSuites opts = [] ∧ unmappedCiphers = []) ∧
  Config.CurvePreferences opts = omap (λ g : string, tlsGroupToCurveID !! g) (tps_Groups spec) ∧
  (∀ g, g ∈ unmappedGroups ↔ g ∈ tps_Groups spec ∧ tlsGroupToCurveID !! g = None) ∧
  Forall in_int32 (Config.CurvePreferences opts).
Proof.
  intros Hs. unfold TLSOptionsFromProfile. rewrite Hs. cbn [res_bind].
  destruct (_ || _); [done|].
  destruct (if 0 <? length (tps_Groups spec) then _ else _) as [curves us] eqn:Eg.
  assert (curves = omap (λ g : string, tlsGroupToCurveID !! g) (tps_Groups spec) ∧
          ∀ g, g ∈ us ↔ g ∈ tps_Groups spec ∧ tlsGroupToCurveID !! g = None) as [-> Hu].
  { destruct (tps_Groups spec) as [|g gs] eqn:E; simpl in Eg.
    - injection Eg as <- <-. split; [done|]. intros g. rewrite elem_of_nil. naive_solver.
    - by apply TLSGroupsToCurveIDs_spec. }
  clear Eg.
  assert (Forall in_int32 (omap (λ g : string, tlsGroupToCurveID !! g) (tps_Groups spec))).
  { apply Forall_forall. intros id (g & _ & Hg)%list_elem_of_omap.
    apply curveID_range in Hg. unfold in_int32, int32_min, int32_max. lia. }
  case_bool_decide as H13; intros Heq; injection Heq as <- <- <-;
    cbn [Config.CipherSuites Config.CurvePreferences].
  - split_and!; done.
  - split_and!; try done. intros _. split_and!.
    + apply ciphers_partition.
    + apply OpenSSLToIANACipherSuites_elem.
    + apply findUnmappedCiphers_elem.
Qed.

Lemma TLSOptionsFromProfile_accounting_witness :
  ∃ opts, TLSOptionsFromProfile None = Ok (opts, [], []) ∧
          length (Config.CipherSuites opts) + 0 = 9.
Proof.
  eexists. split; [vm_compute; reflexivity|].
  destruct (TLSOptionsFromProfile_accounting None
    {| tps_Ciphers := intermediateCiphers; tps_Groups := defaultGroups;
       tps_MinTLSVersion := VersionTLS12 |} _ [] [] eq_refl ltac:(vm_compute; reflexivity)) as [H _].
  exact (proj1 (H ltac:(discriminate))).
Defined.
