(* ===== verification/K8sObjects.v ===== *)
(** * The Kubernetes objects the operator reads and writes

    Every object is its type metadata, its [metav1.ObjectMeta] and a body.
    The bodies spell out the fields the operator reads or writes; the rest of
    an object is carried unchanged as JSON. *)
From S2P Require Import Prelude GoStd K8s ApiTypes ConfigMap.

(** ** Objects *)

(** [TypeMeta] is what [getResourceMetadata] of library-go's resource cache
    reads: empty for an object built in Go, the manifest's for a decoded one. *)
Record KObj (B : Type) := {
  ko_Kind : string;
  ko_Group : string;
  ko_meta : ObjectMeta;
  ko_body : B;
}.
Arguments Build_KObj {B}.
Arguments ko_Kind {B}.
Arguments ko_Group {B}.
Arguments ko_meta {B}.
Arguments ko_body {B}.
#[export] Instance KObj_eq_dec {B} `{EqDecision B} : EqDecision (KObj B).
Proof. solve_decision. Defined.

Definition set_meta {B} (f : ObjectMeta → ObjectMeta) (o : KObj B) : KObj B :=
  {| ko_Kind := ko_Kind o; ko_Group := ko_Group o; ko_meta := f (ko_meta o); ko_body := ko_body o |}.
Definition set_body {B} (f : B → B) (o : KObj B) : KObj B :=
  {| ko_Kind := ko_Kind o; ko_Group := ko_Group o; ko_meta := ko_meta o; ko_body := f (ko_body o) |}.

Definition ko_Name {B} (o : KObj B) : string := om_Name (ko_meta o).
Definition ko_Namespace {B} (o : KObj B) : string := om_Namespace (ko_meta o).
Definition ko_Annotations {B} (o : KObj B) : option (gmap string string) :=
  om_Annotations (ko_meta o).

(** [required.OwnerReferences = []metav1.OwnerReference{ownerReference}] *)
Definition with_owner {B} (owner : OwnerReference) : KObj B → KObj B :=
  set_meta (meta_set_OwnerReferences [owner]).
Definition with_namespace {B} (ns : string) : KObj B → KObj B :=
  set_meta (meta_set_Namespace ns).

(** ** RBAC *)

Record PolicyRule := {
  pr_Verbs : list string;
  pr_APIGroups : list string;
  pr_Resources : list string;
  pr_ResourceNames : list string;
  pr_NonResourceURLs : list string;
}.
#[export] Instance PolicyRule_eq_dec : EqDecision PolicyRule.
Proof. solve_decision. Defined.

Record Subject := {
  sb_Kind : string;
  sb_APIGroup : string;
  sb_Name : string;
  sb_Namespace : string;
}.
#[export] Instance Subject_eq_dec : EqDecision Subject.
Proof. solve_decision. Defined.

Record RoleRef := { rr_APIGroup : string; rr_Kind : string; rr_Name : string }.
#[export] Instance RoleRef_eq_dec : EqDecision RoleRef.
Proof. solve_decision. Defined.

Record RoleBody := { ro_Rules : list PolicyRule }.
#[export] Instance RoleBody_eq_dec : EqDecision RoleBody.
Proof. solve_decision. Defined.

Record ClusterRoleBody := {
  cr_Rules : list PolicyRule;
  cr_AggregationRule : option json;
}.
#[export] Instance ClusterRoleBody_eq_dec : EqDecision ClusterRoleBody.
Proof. solve_decision. Defined.

(** RoleBindings and ClusterRoleBindings. *)
Record BindingBody := {
  bi_Subjects : list Subject;
  bi_RoleRef : RoleRef;
}.
#[export] Instance BindingBody_eq_dec : EqDecision BindingBody.
Proof. solve_decision. Defined.

Definition subject_set_Namespace (ns : string) (s : Subject) : Subject := {|
  sb_Kind := sb_Kind s; sb_APIGroup := sb_APIGroup s; sb_Name := sb_Name s;
  sb_Namespace := ns |}.

(** ** Admission webhooks *)

Record ServiceReference := {
  sr_Namespace : string;
  sr_Name : string;
  sr_other : json;
}.
#[export] Instance ServiceReference_eq_dec : EqDecision ServiceReference.
Proof. solve_decision. Defined.

Definition service_set_Namespace (ns : string) (s : ServiceReference) : ServiceReference :=
  {| sr_Namespace := ns; sr_Name := sr_Name s; sr_other := sr_other s |}.

(** [WebhookClientConfig]: [CABundle] is a byte slice, kept as a string. *)
Record WebhookClientConfig := {
  wcc_Service : option ServiceReference;
  wcc_CABundle : string;
  wcc_other : json;
}.
#[export] Instance WebhookClientConfig_eq_dec : EqDecision WebhookClientConfig.
Proof. solve_decision. Defined.

(** [ValidatingWebhook] and [MutatingWebhook] share these fields. *)
Record Webhook := {
  wh_Name : string;
  wh_ClientConfig : WebhookClientConfig;
  wh_NamespaceSelector : option LabelSelector;
  wh_other : json;
}.
#[export] Instance Webhook_eq_dec : EqDecision Webhook.
Proof. solve_decision. Defined.

Record WebhookConfigBody := { wc_Webhooks : list Webhook }.
#[export] Instance WebhookConfigBody_eq_dec : EqDecision WebhookConfigBody.
Proof. solve_decision. Defined.

Definition webhook_set_NamespaceSelector (s : option LabelSelector) (w : Webhook) : Webhook := {|
  wh_Name := wh_Name w; wh_ClientConfig := wh_ClientConfig w;
  wh_NamespaceSelector := s; wh_other := wh_other w |}.
Definition webhook_set_ClientConfig (c : WebhookClientConfig) (w : Webhook) : Webhook := {|
  wh_Name := wh_Name w; wh_ClientConfig := c;
  wh_NamespaceSelector := wh_NamespaceSelector w; wh_other := wh_other w |}.

(** ** Flow control *)

Record LimitedPriorityLevelConfiguration := {
  lp_NominalConcurrencyShares : option Z;
  lp_other : json;
}.
#[export] Instance LimitedPriorityLevelConfiguration_eq_dec :
  EqDecision LimitedPriorityLevelConfiguration.
Proof. solve_decision. Defined.

Record PriorityLevelConfigurationSpec := {
  plc_Type : string;
  plc_Limited : option LimitedPriorityLevelConfiguration;
  plc_Exempt : option json;
}.
#[export] Instance PriorityLevelConfigurationSpec_eq_dec :
  EqDecision PriorityLevelConfigurationSpec.
Proof. solve_decision. Defined.

(** ** Network policies *)

Record NetworkPolicyPeer := {
  npp_PodSelector : option LabelSelector;
  npp_NamespaceSelector : option LabelSelector;
  npp_IPBlock : option json;
}.
#[export] Instance NetworkPolicyPeer_eq_dec : EqDecision NetworkPolicyPeer.
Proof. solve_decision. Defined.

Record NetworkPolicyIngressRule := { npi_Ports : list json; npi_From : list NetworkPolicyPeer }.
Record NetworkPolicyEgressRule := { npe_Ports : list json; npe_To : list NetworkPolicyPeer }.
#[export] Instance NetworkPolicyIngressRule_eq_dec : EqDecision NetworkPolicyIngressRule.
Proof. solve_decision. Defined.
#[export] Instance NetworkPolicyEgressRule_eq_dec : EqDecision NetworkPolicyEgressRule.
Proof. solve_decision. Defined.

Record NetworkPolicySpec := {
  nps_PodSelector : LabelSelector;
  nps_Ingress : list NetworkPolicyIngressRule;
  nps_Egress : list NetworkPolicyEgressRule;
  nps_PolicyTypes : list string;
}.
#[export] Instance NetworkPolicySpec_eq_dec : EqDecision NetworkPolicySpec.
Proof. solve_decision. Defined.

(** ** Custom resource definitions and API services *)

Record CRDVersion := { cv_Name : string; cv_other : json }.
#[export] Instance CRDVersion_eq_dec : EqDecision CRDVersion.
Proof. solve_decision. Defined.

Record WebhookConversion := {
  wcv_ClientConfig : option WebhookClientConfig;
  wcv_ConversionReviewVersions : list string;
}.
#[export] Instance WebhookConversion_eq_dec : EqDecision WebhookConversion.
Proof. solve_decision. Defined.

Record CustomResourceConversion := {
  crc_Strategy : string;
  crc_Webhook : option WebhookConversion;
}.
#[export] Instance CustomResourceConversion_eq_dec : EqDecision CustomResourceConversion.
Proof. solve_decision. Defined.

Record CRDBody := {
  crd_Versions : list CRDVersion;
  crd_Conversion : option CustomResourceConversion;
  crd_other : json;
}.
#[export] Instance CRDBody_eq_dec : EqDecision CRDBody.
Proof. solve_decision. Defined.

Record APIServiceBody := {
  as_Service : option ServiceReference;
  as_InsecureSkipTLSVerify : bool;
  as_other : json;
}.
#[export] Instance APIServiceBody_eq_dec : EqDecision APIServiceBody.
Proof. solve_decision. Defined.

(** ** Deployments *)

Record KeyToPath := { kp_Key : string; kp_Path : string }.
#[export] Instance KeyToPath_eq_dec : EqDecision KeyToPath.
Proof. solve_decision. Defined.

Record SecretVolumeSource := {
  svs_SecretName : string;
  svs_Items : list KeyToPath;
  svs_Optional : option bool;
  svs_DefaultMode : option Z;
}.
#[export] Instance SecretVolumeSource_eq_dec : EqDecision SecretVolumeSource.
Proof. solve_decision. Defined.

(** A volume source that is not a secret (an [emptyDir], a config map) is
    [vs_other]. *)
Record VolumeSource := {
  vs_Secret : option SecretVolumeSource;
  vs_EmptyDir : option json;
  vs_other : option json;
}.
#[export] Instance VolumeSource_eq_dec : EqDecision VolumeSource.
Proof. solve_decision. Defined.

Record Volume := { vo_Name : string; vo_VolumeSource : VolumeSource }.
#[export] Instance Volume_eq_dec : EqDecision Volume.
Proof. solve_decision. Defined.

Record VolumeMount := { vm_Name : string; vm_MountPath : string; vm_ReadOnly : bool; vm_other : json }.
#[export] Instance VolumeMount_eq_dec : EqDecision VolumeMount.
Proof. solve_decision. Defined.

Record SecurityContext := { sc_ReadOnlyRootFilesystem : option bool; sc_other : json }.
#[export] Instance SecurityContext_eq_dec : EqDecision SecurityContext.
Proof. solve_decision. Defined.

(** Resource requirements: quantities are their canonical text. *)
Record ResourceRequirements := {
  rq_Limits : gmap string string;
  rq_Requests : gmap string string;
}.
#[export] Instance ResourceRequirements_eq_dec : EqDecision ResourceRequirements.
Proof. solve_decision. Defined.

Record Container := {
  co_Name : string;
  co_Image : string;
  co_Args : list string;
  co_VolumeMounts : list VolumeMount;
  co_SecurityContext : option SecurityContext;
  co_Resources : ResourceRequirements;
  co_other : json;
}.
#[export] Instance Container_eq_dec : EqDecision Container.
Proof. solve_decision. Defined.

Record WeightedPodAffinityTerm := {
  wpa_Weight : Z;
  wpa_LabelSelector : option LabelSelector;
  wpa_TopologyKey : string;
}.
#[export] Instance WeightedPodAffinityTerm_eq_dec : EqDecision WeightedPodAffinityTerm.
Proof. solve_decision. Defined.

(** The affinity the operator sets: a pod anti-affinity with preferred terms. *)
Record Affinity := { aff_PodAntiAffinity_Preferred : list WeightedPodAffinityTerm }.
#[export] Instance Affinity_eq_dec : EqDecision Affinity.
Proof. solve_decision. Defined.

Record PodSpec := {
  ps_Volumes : list Volume;
  ps_Containers : list Container;
  ps_Affinity : option Affinity;
  ps_PriorityClassName : string;
  ps_other : json;
}.
#[export] Instance PodSpec_eq_dec : EqDecision PodSpec.
Proof. solve_decision. Defined.

(** [DeploymentStrategy] with the rolling-update fields the operator sets. *)
Record DeploymentStrategy := {
  dst_Type : string;
  dst_MaxUnavailable : option Z;
}.
#[export] Instance DeploymentStrategy_eq_dec : EqDecision DeploymentStrategy.
Proof. solve_decision. Defined.

Record DeploymentSpec := {
  dp_Replicas : option Z;
  dp_Strategy : DeploymentStrategy;
  dp_TemplateAnnotations : option (gmap string string);
  dp_TemplateSpec : PodSpec;
  dp_other : json;
}.
#[export] Instance DeploymentSpec_eq_dec : EqDecision DeploymentSpec.
Proof. solve_decision. Defined.

Record DeploymentStatus := {
  ds_ReadyReplicas : Z;
  ds_UnavailableReplicas : Z;
}.
#[export] Instance DeploymentStatus_eq_dec : EqDecision DeploymentStatus.
Proof. solve_decision. Defined.

Record DeploymentBody := { dep_Spec : DeploymentSpec; dep_Status : DeploymentStatus }.
#[export] Instance DeploymentBody_eq_dec : EqDecision DeploymentBody.
Proof. solve_decision. Defined.

(** ** The kinds *)

Inductive kind : Type :=
  | KConfigMap | KSecret | KServiceAccount | KService
  | KRole | KRoleBinding | KClusterRole | KClusterRoleBinding
  | KFlowSchema | KPriorityLevelConfiguration | KNetworkPolicy
  | KCRD | KAPIService
  | KMutatingWebhookConfiguration | KValidatingWebhookConfiguration
  | KDeployment.
#[export] Instance kind_eq_dec : EqDecision kind.
Proof. solve_decision. Defined.

(** The resources read and written through the dynamic client, as
    [unstructured] objects. *)
Inductive dyn_resource : Type :=
  | RIssuers | RCertificates | RSecrets | RServiceMonitors.
#[export] Instance dyn_resource_eq_dec : EqDecision dyn_resource.
Proof. solve_decision. Defined.

(** The body of each kind. *)
Definition body (k : kind) : Type :=
  match k with
  | KConfigMap => gmap string string
  | KSecret => json
  | KServiceAccount => json
  | KService => json
  | KRole => RoleBody
  | KRoleBinding => BindingBody
  | KClusterRole => ClusterRoleBody
  | KClusterRoleBinding => BindingBody
  | KFlowSchema => json
  | KPriorityLevelConfiguration => PriorityLevelConfigurationSpec
  | KNetworkPolicy => NetworkPolicySpec
  | KCRD => CRDBody
  | KAPIService => APIServiceBody
  | KMutatingWebhookConfiguration => WebhookConfigBody
  | KValidatingWebhookConfiguration => WebhookConfigBody
  | KDeployment => DeploymentBody
  end.

Definition obj (k : kind) : Type := KObj (body k).

#[export] Instance body_eq_dec k : EqDecision (body k).
Proof. destruct k; simpl; apply _. Defined.
#[export] Instance obj_eq_dec k : EqDecision (obj k).
Proof. unfold obj. apply _. Defined.

Definition ConfigMap := obj KConfigMap.
Definition Role := obj KRole.
Definition RoleBinding := obj KRoleBinding.
Definition ClusterRole := obj KClusterRole.
Definition ClusterRoleBinding := obj KClusterRoleBinding.
Definition NetworkPolicy := obj KNetworkPolicy.
Definition CustomResourceDefinition := obj KCRD.
Definition APIService := obj KAPIService.
Definition FlowSchema := obj KFlowSchema.
Definition PriorityLevelConfiguration := obj KPriorityLevelConfiguration.
Definition MutatingWebhookConfiguration := obj KMutatingWebhookConfiguration.
Definition ValidatingWebhookConfiguration := obj KValidatingWebhookConfiguration.
Definition Deployment := obj KDeployment.

(** The ConfigMap of [BuildConfigMap] as an object: no type metadata. *)
Definition ConfigMap_of (c : ConfigMapObj) : ConfigMap := {|
  ko_Kind := ""; ko_Group := ""; ko_meta := cfm_ObjectMeta c; ko_body := cfm_Data c |}.
