(* ===== verification/PodWebhook.v ===== *)
(** * pkg/webhook: which admission webhooks Kueue gets, and for which namespaces

    [ModifyPodBasedValidatingWebhook] and [ModifyPodBasedMutatingWebhook] keep
    the webhooks of the enabled frameworks and restrict every namespaced one
    to the namespaces that opted in with [kueue.openshift.io/managed=true]. *)
From S2P Require Import Prelude GoStd K8s ApiTypes K8sObjects.

(** ** Definitions *)

Definition kueueManagedLabel : string := "kueue.openshift.io/managed".
Definition annotationWorkload : string := "kueue.x-k8s.io/workload".
Definition annotationClusterQueue : string := "kueue.x-k8s.io/clusterqueue".
Definition annotationResourceFlavor : string := "kueue.x-k8s.io/resourceflavor".
Definition annotationCohort : string := "kueue.x-k8s.io/cohort".

(** [webhooksList]: framework to webhook name. *)
Definition webhooksList : gmap string string := list_to_map
  [(KueueIntegrationBatchJob, "job");
   (KueueIntegrationMPIJob, "mpijob");
   (KueueIntegrationRayJob, "rayjob");
   (KueueIntegrationRayCluster, "raycluster");
   (KueueIntegrationRayService, "rayservice");
   (KueueIntegrationJobSet, "jobset");
   (KueueIntegrationPaddleJob, "paddlejob");
   (KueueIntegrationPyTorchJob, "pytorchjob");
   (KueueIntegrationTFJob, "tfjob");
   (KueueIntegrationXGBoostJob, "xgboostjob");
   (KueueIntegrationJaxJob, "jaxjob");
   (KueueIntegrationPod, "pod");
   (KueueIntegrationDeployment, "deployment");
   (KueueIntegrationStatefulSet, "statefulset");
   (KueueIntegrationTrainJob, "trainjob");
   (KueueIntegrationLeaderWorkerSet, "leaderworkerset");
   (annotationClusterQueue, "clusterqueue");
   (annotationWorkload, "workload");
   (annotationResourceFlavor, "resourceflavor");
   (annotationCohort, "cohort");
   (KueueIntegrationAppWrapper, "appwrapper");
   (KueueIntegrationSparkApplication, "sparkapplication")].

(** The search [for framework, s := range webhooksList]: Go visits the map in
    an unspecified [order]; the first hit is returned. *)
Definition search_framework (order : list (string * string)) (suffix name : string) : res string :=
  match List.find (λ p, p.2 =s suffix) order with
  | Some p => Ok p.1
  | None => Panic ("unregistered framework: " +:+ name)
  end.

Definition getFrameworkForValidatingWebhook (name : string) : res string :=
  search_framework (map_to_list webhooksList) (TrimSuffix (TrimPrefix name "v") ".kb.io") name.

Definition getFrameworkForMutatingWebhook (name : string) : res string :=
  search_framework (map_to_list webhooksList) (TrimSuffix (TrimPrefix name "m") ".kb.io") name.

Definition isClusterScopedFramework (framework : string) : bool :=
  (framework =s annotationClusterQueue) || (framework =s annotationResourceFlavor) ||
  (framework =s annotationCohort).

Definition defaultLabelSelector : LabelSelector := {|
  ls_MatchLabels := ∅;
  ls_MatchExpressions := [{| lsr_Key := kueueManagedLabel; lsr_Operator := LabelSelectorOpIn;
                             lsr_Values := ["true"] |}] |}.

(** One of the two deduplicating loops of [mergeSelectors]: the expressions it
    appends and the keys seen after it. *)
Fixpoint dedup_exprs (seen : gset string) (l : list LabelSelectorRequirement)
    : list LabelSelectorRequirement * gset string :=
  match l with
  | [] => ([], seen)
  | e :: l =>
      if bool_decide (lsr_Key e ∈ seen) then dedup_exprs seen l
      else let '(es, seen) := dedup_exprs ({[lsr_Key e]} ∪ seen) l in (e :: es, seen)
  end.

Definition mergeSelectors (crSelector existingSelector : option LabelSelector)
    : option LabelSelector :=
  match crSelector, existingSelector with
  | None, _ => existingSelector
  | Some c, None => Some c
  | Some c, Some e =>
      let '(es1, seen) := dedup_exprs ∅ (ls_MatchExpressions c) in
      let '(es2, _) := dedup_exprs seen (ls_MatchExpressions e) in
      Some {| ls_MatchLabels := ls_MatchLabels c ∪ ls_MatchLabels e;
              ls_MatchExpressions := es1 ++ es2 |}
  end.

(** [mergeNamespaceSelectors] on the webhooks of either kind of configuration. *)
Definition mergeNamespaceSelectors (getFramework : string → res string)
    (podSelector : LabelSelector) (webhooks : list Webhook) : res (list Webhook) :=
  res_map (λ w,
    rlet framework := getFramework (wh_Name w) in
    Ok (if isClusterScopedFramework framework then w
        else webhook_set_NamespaceSelector
               (mergeSelectors (Some podSelector) (wh_NamespaceSelector w)) w)) webhooks.

(** [buildEnabledFrameworks]: the keys mapped to [true]. *)
Definition buildEnabledFrameworks (c : KueueConfiguration) : gset string :=
  let enabled : gset string := list_to_set (in_Frameworks (kc_Integrations c)) in
  let enabled :=
    if bool_decide (KueueIntegrationLeaderWorkerSet ∈ enabled) ||
       bool_decide (KueueIntegrationStatefulSet ∈ enabled) ||
       bool_decide (KueueIntegrationDeployment ∈ enabled)
    then {[KueueIntegrationPod]} ∪ enabled else enabled in
  enabled ∪ list_to_set (List.filter (λ k, HasPrefix k "kueue.x-k8s.io/")
                           (map_to_list webhooksList).*1).

(** The loop that keeps the webhooks of enabled frameworks. *)
Fixpoint keep_enabled (getFramework : string → res string) (enabled : gset string)
    (webhooks : list Webhook) : res (list Webhook) :=
  match webhooks with
  | [] => Ok []
  | w :: ws =>
      rlet framework := getFramework (wh_Name w) in
      rlet ws := keep_enabled getFramework enabled ws in
      Ok (if bool_decide (framework ∈ enabled) then w :: ws else ws)
  end.

Definition ModifyPodBasedValidatingWebhook (c : KueueConfiguration)
    (current : ValidatingWebhookConfiguration) : res ValidatingWebhookConfiguration :=
  rlet kept := keep_enabled getFrameworkForValidatingWebhook (buildEnabledFrameworks c)
                 (wc_Webhooks (ko_body current)) in
  rlet merged := mergeNamespaceSelectors getFrameworkForValidatingWebhook
                   defaultLabelSelector kept in
  Ok (set_body (λ _, {| wc_Webhooks := merged |}) current).

Definition ModifyPodBasedMutatingWebhook (c : KueueConfiguration)
    (current : MutatingWebhookConfiguration) : res MutatingWebhookConfiguration :=
  rlet kept := keep_enabled getFrameworkForMutatingWebhook (buildEnabledFrameworks c)
                 (wc_Webhooks (ko_body current)) in
  rlet merged := mergeNamespaceSelectors getFrameworkForMutatingWebhook
                   defaultLabelSelector kept in
  Ok (set_body (λ _, {| wc_Webhooks := merged |}) current).

(** The webhooks of the shipped manifests [validatingwebhook.yaml] and
    [mutatingwebhook.yaml] of [bindata/assets/kueue-operator]. *)
Definition shipped_validating_webhooks : list string :=
  ["vpod.kb.io"; "vappwrapper.kb.io"; "vclusterqueue.kb.io"; "vcohort.kb.io";
   "vdeployment.kb.io"; "vjaxjob.kb.io"; "vjob.kb.io"; "vjobset.kb.io";
   "vleaderworkerset.kb.io"; "vmpijob.kb.io"; "vpaddlejob.kb.io"; "vpytorchjob.kb.io";
   "vraycluster.kb.io"; "vrayjob.kb.io"; "vrayservice.kb.io"; "vresourceflavor.kb.io";
   "vsparkapplication.kb.io"; "vstatefulset.kb.io"; "vtfjob.kb.io"; "vtrainjob.kb.io";
   "vworkload.kb.io"; "vxgboostjob.kb.io"].
Definition shipped_mutating_webhooks : list string :=
  ["mappwrapper.kb.io"; "mclusterqueue.kb.io"; "mdeployment.kb.io"; "mjaxjob.kb.io";
   "mjob.kb.io"; "mjobset.kb.io"; "mleaderworkerset.kb.io"; "mmpijob.kb.io";
   "mpaddlejob.kb.io"; "mpod.kb.io"; "mpytorchjob.kb.io"; "mraycluster.kb.io";
   "mrayjob.kb.io"; "mrayservice.kb.io"; "mresourceflavor.kb.io"; "msparkapplication.kb.io";
   "mstatefulset.kb.io"; "mtfjob.kb.io"; "mtrainjob.kb.io"; "mworkload.kb.io";
   "mxgboostjob.kb.io"].

(** ** The search *)

#[global] Opaque webhooksList.

Lemma webhooksList_inj (f g s : string) :
  webhooksList !! f = Some s → webhooksList !! g = Some s → f = g.
Proof.
  assert (bool_decide (NoDup (map_to_list webhooksList).*2) = true) as H
    by (vm_compute; reflexivity).
  apply bool_decide_eq_true in H. intros H1 H2.
  apply elem_of_map_to_list, list_elem_of_lookup in H1 as [i Hi].
  apply elem_of_map_to_list, list_elem_of_lookup in H2 as [j Hj].
  assert (i = j) as <-.
  { apply (NoDup_lookup _ _ _ s H); by rewrite list_lookup_fmap, ?Hi, ?Hj. }
  rewrite Hi in Hj. by injection Hj.
Qed.

Lemma search_framework_spec order suffix name :
  order ≡ₚ map_to_list webhooksList →
  search_framework order suffix name = search_framework (map_to_list webhooksList) suffix name ∧
  (∀ f, search_framework order suffix name = Ok f ↔ webhooksList !! f = Some suffix).
Proof.
  intros Hp.
  assert (Huniq : ∀ x y : string * string, x ∈ order → y ∈ order →
            (x.2 =s suffix) = true → (y.2 =s suffix) = true → x = y).
  { intros [f s] [g t] Hx Hy Hs Ht. simpl in *. bsplit. subst.
    rewrite Hp in Hx, Hy. apply elem_of_map_to_list in Hx, Hy.
    by rewrite (webhooksList_inj f g suffix). }
  split.
  - unfold search_framework. by rewrite (find_Permutation_unique _ _ _ Hp Huniq).
  - intros f. unfold search_framework.
    destruct (List.find _ _) as [[g s]|] eqn:E.
    + apply find_Some_elem_of in E as [Hg Hs]. simpl in *. bsplit. subst.
      rewrite Hp in Hg. apply elem_of_map_to_list in Hg. split; [by intros [= ->]|].
      intros Hf. f_equal. by eapply webhooksList_inj.
    + split; [done|]. intros Hf. apply elem_of_map_to_list in Hf. rewrite <-Hp in Hf.
      apply (proj1 (find_None_elem_of _ _) E) in Hf. simpl in Hf. by bsplit.
Qed.

(** The framework found for a webhook does not depend on the order in which
    Go iterates over [webhooksList], and it is the one registered under the
    webhook's name. *)
Theorem search_framework_order order suffix name f :
  order ≡ₚ map_to_list webhooksList →
  search_framework order suffix name = search_framework (map_to_list webhooksList) suffix name ∧
  (search_framework order suffix name = Ok f ↔ webhooksList !! f = Some suffix).
Proof. intros Hp. destruct (search_framework_spec order suffix name Hp). eauto. Qed.

Lemma search_framework_order_witness :
  search_framework (reverse (map_to_list webhooksList)) "job" "vjob.kb.io" =
  search_framework (map_to_list webhooksList) "job" "vjob.kb.io".
Proof.
  exact (proj1 (search_framework_order (reverse (map_to_list webhooksList)) "job" "vjob.kb.io"
    "BatchJob" (reverse_Permutation _))).
Defined.

(** A name is registered when its search succeeds. *)
Definition registered (getFramework : string → res string) (name : string) : Prop :=
  ∃ f, getFramework name = Ok f.

Lemma registered_forallb g l :
  forallb (λ n, match g n with Ok _ => true | _ => false end) l = true → Forall (registered g) l.
Proof.
  intros H. apply Forall_forall. intros n Hn.
  apply (proj1 (forallb_elem_of _ _) H) in Hn. unfold registered.
  destruct (g n); [eauto|done..].
Qed.

(** No shipped webhook makes the operator panic: each of the names in the
    two manifests belongs to a registered framework. *)
Theorem shipped_webhooks_registered :
  Forall (registered getFrameworkForValidatingWebhook) shipped_validating_webhooks ∧
  Forall (registered getFrameworkForMutatingWebhook) shipped_mutating_webhooks.
Proof. split; apply registered_forallb; vm_compute; reflexivity. Qed.

(** ** Merged selectors *)

Lemma dedup_exprs_elem seen l es seen' :
  dedup_exprs seen l = (es, seen') → ∀ e, e ∈ es → e ∈ l ∧ lsr_Key e ∉ seen.
Proof.
  revert seen es seen'. induction l as [|a l IH]; intros seen es seen'; simpl.
  - intros [= <- <-] e. by rewrite elem_of_nil.
  - case_bool_decide as Ha.
    + intros H e He. destruct (IH _ _ _ H e He). split; [by constructor|done].
    + destruct (dedup_exprs _ l) as [es1 s1] eqn:E. intros [= <- <-] e.
      intros [->|He]%elem_of_cons; [split; [constructor|done]|].
      destruct (IH _ _ _ E e He) as [Hin Hk]. split; [by constructor|set_solver].
Qed.

Lemma dedup_exprs_id seen l es seen' :
  dedup_exprs seen l = (es, seen') → NoDup (map lsr_Key l) →
  (∀ e, e ∈ l → lsr_Key e ∉ seen) → es = l.
Proof.
  revert seen es seen'. induction l as [|a l IH]; intros seen es seen'; simpl; [by intros [= <- <-]|].
  intros H Hnd Hk. csimpl in Hnd. apply NoDup_cons in Hnd as [Ha Hnd].
  rewrite bool_decide_false in H by (apply Hk; constructor).
  destruct (dedup_exprs _ l) as [es1 s1] eqn:E. injection H as <- <-. f_equal.
  eapply IH; [exact E|done|]. intros e He. apply not_elem_of_union. split.
  - rewrite elem_of_singleton. intros Heq. apply Ha. rewrite <-Heq.
    apply list_elem_of_fmap. eauto.
  - apply Hk. by constructor.
Qed.

Lemma dedup_exprs_NoDup seen l es seen' :
  dedup_exprs seen l = (es, seen') → NoDup (map lsr_Key es).
Proof.
  revert seen es seen'. induction l as [|a l IH]; intros seen es seen'; simpl.
  - intros [= <- <-]. constructor.
  - case_bool_decide; [apply IH|].
    destruct (dedup_exprs _ l) as [es1 s1] eqn:E. intros [= <- <-]. csimpl. constructor; [|by eapply IH].
    intros (e & Hk & He)%list_elem_of_fmap.
    destruct (dedup_exprs_elem _ _ _ _ E e He) as [_ Hs]. rewrite <-Hk in Hs. set_solver.
Qed.

(** Merging with the default selector: the opt-in requirement, followed by the
    existing requirements on other keys, each key once. *)
Lemma mergeSelectors_default (e : LabelSelector) :
  ∃ rest,
    mergeSelectors (Some defaultLabelSelector) (Some e) =
      Some {| ls_MatchLabels := ls_MatchLabels e;
              ls_MatchExpressions := ls_MatchExpressions defaultLabelSelector ++ rest |} ∧
    (∀ r, r ∈ rest → r ∈ ls_MatchExpressions e ∧ lsr_Key r ≠ kueueManagedLabel) ∧
    NoDup (map lsr_Key rest) ∧
    (NoDup (map lsr_Key (ls_MatchExpressions e)) →
     kueueManagedLabel ∉ map lsr_Key (ls_MatchExpressions e) → rest = ls_MatchExpressions e).
Proof.
  unfold mergeSelectors. cbn [defaultLabelSelector ls_MatchExpressions dedup_exprs].
  rewrite bool_decide_false by apply not_elem_of_empty.
  destruct (dedup_exprs ({[_]} ∪ ∅) (ls_MatchExpressions e)) as [rest s] eqn:E.
  exists rest. split_and!.
  - cbn [ls_MatchLabels defaultLabelSelector]. by rewrite (left_id_L ∅ (∪)).
  - intros r Hr. destruct (dedup_exprs_elem _ _ _ _ E r Hr). set_solver.
  - by eapply dedup_exprs_NoDup.
  - intros Hnd Hk. eapply dedup_exprs_id; [exact E|done|].
    intros r Hr. cbn [lsr_Key]. rewrite (right_id_L ∅ (∪)), elem_of_singleton. intros Heq.
    apply Hk. rewrite <-Heq. apply list_elem_of_fmap. eauto.
Qed.

Lemma defaultLabelSelector_matches labels :
  selector_matches defaultLabelSelector labels = true ↔ labels !! kueueManagedLabel = Some "true".
Proof.
  unfold selector_matches. cbn [defaultLabelSelector ls_MatchLabels ls_MatchExpressions forallb].
  rewrite bool_decide_true by apply map_empty_subseteq. rewrite andb_true_r, andb_true_l.
  unfold requirement_matches. cbn [lsr_Operator lsr_Key lsr_Values].
  rewrite bool_decide_true by done.
  destruct (labels !! kueueManagedLabel) as [v|]; [|naive_solver].
  rewrite bool_decide_eq_true, list_elem_of_singleton. naive_solver.
Qed.

(** Merging can only narrow a webhook to opted-in namespaces: whatever
    selector the manifest has, a namespace the merged selector selects carries
    [kueue.openshift.io/managed=true]. When the manifest's requirements have
    distinct keys and none is the opt-in label, the merged selector selects
    exactly the opted-in namespaces the manifest's selector selects. *)
Theorem mergeSelectors_spec (existing : option LabelSelector) :
  ∃ m, mergeSelectors (Some defaultLabelSelector) existing = Some m ∧
    (∀ labels, selector_matches m labels = true → labels !! kueueManagedLabel = Some "true") ∧
    ((∀ e, existing = Some e → NoDup (map lsr_Key (ls_MatchExpressions e)) ∧
                               kueueManagedLabel ∉ map lsr_Key (ls_MatchExpressions e)) →
     ∀ labels, selector_matches m labels = true ↔
       labels !! kueueManagedLabel = Some "true" ∧
       ∀ e, existing = Some e → selector_matches e labels = true).
Proof.
  assert (Happ : ∀ ml es rest labels,
    selector_matches {| ls_MatchLabels := ml; ls_MatchExpressions := es ++ rest |} labels = true ↔
    forallb (λ r, requirement_matches r labels) es = true ∧
    selector_matches {| ls_MatchLabels := ml; ls_MatchExpressions := rest |} labels = true).
  { intros. unfold selector_matches. cbn. rewrite forallb_app, !andb_true_iff. tauto. }
  assert (Hdef : ∀ labels,
    forallb (λ r, requirement_matches r labels) (ls_MatchExpressions defaultLabelSelector) = true ↔
    labels !! kueueManagedLabel = Some "true").
  { intros labels. rewrite <-defaultLabelSelector_matches. unfold selector_matches.
    by rewrite bool_decide_true by apply map_empty_subseteq. }
  destruct existing as [e|].
  - destruct (mergeSelectors_default e) as (rest & Hm & _ & _ & Hrest). rewrite Hm.
    eexists; split; [done|]. split.
    + intros labels. rewrite Happ, Hdef. naive_solver.
    + intros Hd labels. destruct (Hd e eq_refl) as [Hnd Hk]. rewrite (Hrest Hnd Hk).
      rewrite Happ, Hdef. destruct e as [ml es]. naive_solver.
  - exists defaultLabelSelector. split; [done|]. split.
    + intros labels. by rewrite defaultLabelSelector_matches.
    + intros _ labels. rewrite defaultLabelSelector_matches. naive_solver.
Qed.

(** The deduplication is by key alone, so the exactness of the merge needs
    distinct keys: a second requirement on the same key is dropped, and the
    merged selector selects opted-in namespaces the manifest excludes. *)
Theorem mergeSelectors_drops_same_key :
  ∃ e m labels,
    mergeSelectors (Some defaultLabelSelector) (Some e) = Some m ∧
    labels !! kueueManagedLabel = Some "true" ∧
    selector_matches m labels = true ∧ selector_matches e labels = false.
Proof.
  exists {| ls_MatchLabels := ∅;
            ls_MatchExpressions :=
              [{| lsr_Key := "env"; lsr_Operator := LabelSelectorOpExists; lsr_Values := [] |};
               {| lsr_Key := "env"; lsr_Operator := LabelSelectorOpNotIn; lsr_Values := ["dev"] |}] |}.
  eexists.
  exists (<[kueueManagedLabel := "true"]> (<["env" := "dev"]> ∅)).
  split; [reflexivity|]. split_and!; vm_compute; reflexivity.
Qed.

(** ** Enabled frameworks *)

Lemma core_frameworks (f : string) :
  f ∈ List.filter (λ k, HasPrefix k "kueue.x-k8s.io/") (map_to_list webhooksList).*1 ↔
  f ∈ [annotationClusterQueue; annotationWorkload; annotationResourceFlavor; annotationCohort].
Proof.
  set (l1 := List.filter _ _). set (l2 := [_; _; _; _]).
  assert (forallb (λ x, bool_decide (x ∈ l2)) l1 && forallb (λ x, bool_decide (x ∈ l1)) l2 = true)
    as H by (vm_compute; reflexivity).
  bsplit. rewrite forallb_elem_of in *.
  split; intros Hf; eapply bool_decide_eq_true; eauto.
Qed.

(** The enabled frameworks are the configured ones, the Pod integration
    when one of the pod-based workload integrations needs its gates, and the
    four webhooks of Kueue's own resources. *)
Theorem buildEnabledFrameworks_spec (c : KueueConfiguration) (f : string) :
  f ∈ buildEnabledFrameworks c ↔
    f ∈ in_Frameworks (kc_Integrations c) ∨
    (f = KueueIntegrationPod ∧
       ∃ g, g ∈ in_Frameworks (kc_Integrations c) ∧
            g ∈ [KueueIntegrationLeaderWorkerSet; KueueIntegrationStatefulSet;
                 KueueIntegrationDeployment]) ∨
    f ∈ [annotationClusterQueue; annotationWorkload; annotationResourceFlavor; annotationCohort].
Proof.
  unfold buildEnabledFrameworks. cbv zeta.
  rewrite elem_of_union.
  rewrite (elem_of_list_to_set (C := gset string) f (List.filter _ _)), core_frameworks.
  set (F := in_Frameworks _). set (P := ∃ g, _).
  set (E := list_to_set F : gset string).
  assert (HE : ∀ x, x ∈ E ↔ x ∈ F) by (intros x; apply elem_of_list_to_set).
  assert (Hp : bool_decide (KueueIntegrationLeaderWorkerSet ∈ E) ||
               bool_decide (KueueIntegrationStatefulSet ∈ E) ||
               bool_decide (KueueIntegrationDeployment ∈ E) = true ↔ P).
  { rewrite !orb_true_iff, !bool_decide_eq_true, !HE. unfold P.
    split; [intros [[H|H]|H]; eexists; (split; [exact H|set_solver])|].
    intros (g & Hg & Hin). rewrite !elem_of_cons, elem_of_nil in Hin. naive_solver. }
  clearbody E. destruct (_ || _ || _).
  - assert P by (by apply Hp). rewrite elem_of_union, elem_of_singleton, HE. tauto.
  - assert (¬ P) by (intros HP; by apply Hp in HP). rewrite HE. tauto.
Qed.

(** ** The modified configurations *)

(** What happens to one kept webhook of framework [f]. *)
Definition restrict (f : string) (w : Webhook) : Webhook :=
  if isClusterScopedFramework f then w
  else webhook_set_NamespaceSelector
         (mergeSelectors (Some defaultLabelSelector) (wh_NamespaceSelector w)) w.

Lemma keep_enabled_spec g enabled l :
  Forall (registered g) (map wh_Name l) →
  ∃ kept, keep_enabled g enabled l = Ok kept ∧ kept `sublist_of` l ∧
    ∀ w, w ∈ kept ↔ w ∈ l ∧ ∃ f, g (wh_Name w) = Ok f ∧ f ∈ enabled.
Proof.
  induction l as [|w l IH]; simpl; intros Hr.
  - exists []. split_and!; [done|constructor|]. intros w. rewrite elem_of_nil. naive_solver.
  - inversion Hr as [|? ? [f Hf] Hl]; subst. destruct (IH Hl) as (kept & -> & Hs & Hk).
    rewrite Hf. simpl. eexists; split; [done|]. case_bool_decide as He.
    + split; [by constructor|]. intros w'. rewrite !elem_of_cons, Hk. split.
      * intros [->|[? ?]]; [split; [by left|by eauto]|by auto].
      * intros [[->|?] ?]; auto.
    + split; [by constructor|]. intros w'. rewrite elem_of_cons, Hk. split.
      * intros [? ?]; auto.
      * intros [[->|?] (f' & Hf' & ?)]; [congruence|eauto].
Qed.

Lemma mergeNamespaceSelectors_spec g l :
  Forall (registered g) (map wh_Name l) →
  ∃ merged, mergeNamespaceSelectors g defaultLabelSelector l = Ok merged ∧
    Forall2 (λ w w', ∃ f, g (wh_Name w) = Ok f ∧ w' = restrict f w) l merged.
Proof.
  induction l as [|w l IH]; simpl; intros Hr.
  - exists []. split; [done|constructor].
  - inversion Hr as [|? ? [f Hf] Hl]; subst. destruct (IH Hl) as (merged & Hm & H2).
    unfold mergeNamespaceSelectors in *. cbn [res_map]. rewrite Hf. cbn [res_bind].
    rewrite Hm. cbn [res_bind].
    eexists; split; [done|]. constructor; [eauto|done].
Qed.

Lemma restrict_Name f w : wh_Name (restrict f w) = wh_Name w.
Proof. unfold restrict. by destruct (isClusterScopedFramework f). Qed.

Lemma modify_spec g enabled l :
  Forall (registered g) (map wh_Name l) →
  ∃ kept merged, keep_enabled g enabled l = Ok kept ∧
    mergeNamespaceSelectors g defaultLabelSelector kept = Ok merged ∧
    map wh_Name merged `sublist_of` map wh_Name l ∧
    ∀ w', w' ∈ merged ↔ ∃ w f, w ∈ l ∧ g (wh_Name w) = Ok f ∧ f ∈ enabled ∧ w' = restrict f w.
Proof.
  intros Hr. destruct (keep_enabled_spec g enabled l Hr) as (kept & Hkeep & Hsub & Hk).
  assert (Hr' : Forall (registered g) (map wh_Name kept)).
  { rewrite Forall_forall in *. intros n (w & -> & Hw)%list_elem_of_fmap.
    apply Hr. apply list_elem_of_fmap. exists w. split; [done|]. by apply Hk. }
  destruct (mergeNamespaceSelectors_spec g kept Hr') as (merged & Hm & H2).
  exists kept, merged. split_and!; [done..| |].
  - transitivity (map wh_Name kept); [|by apply fmap_sublist].
    assert (map wh_Name merged = map wh_Name kept) as ->; [|done].
    clear -H2. induction H2 as [|w w' l l' (f & _ & ->) _ IH]; [done|].
    simpl. by rewrite restrict_Name, IH.
  - intros w'. split.
    + intros Hw. apply list_elem_of_lookup in Hw as [i Hi].
      destruct (Forall2_lookup_r _ _ _ _ _ H2 Hi) as (w & Hwi & f & Hf & ->).
      apply list_elem_of_lookup_2, Hk in Hwi as (Hin & f' & Hf' & He).
      rewrite Hf in Hf'. injection Hf' as <-. eauto 6.
    + intros (w & f & Hw & Hf & He & ->).
      assert (w ∈ kept) as Hin by (apply Hk; eauto).
      apply list_elem_of_lookup in Hin as [i Hi].
      destruct (Forall2_lookup_l _ _ _ _ _ H2 Hi) as (w' & Hwi & f' & Hf' & ->).
      apply list_elem_of_lookup_2 in Hwi. congruence.
Qed.

(** C14: For a configuration whose webhooks are all registered, the modified
    validating webhooks are exactly those of the enabled frameworks, in their
    order; a namespaced one selects only namespaces labelled
    [kueue.openshift.io/managed=true], a cluster-scoped one is unchanged; and
    nothing but the webhook list is touched. *)
Theorem ModifyPodBasedValidatingWebhook_spec (c : KueueConfiguration)
    (cur : ValidatingWebhookConfiguration) :
  Forall (registered getFrameworkForValidatingWebhook) (map wh_Name (wc_Webhooks (ko_body cur))) →
  ∃ new, ModifyPodBasedValidatingWebhook c cur = Ok new ∧ ko_meta new = ko_meta cur ∧
    map wh_Name (wc_Webhooks (ko_body new)) `sublist_of` map wh_Name (wc_Webhooks (ko_body cur)) ∧
    (∀ w', w' ∈ wc_Webhooks (ko_body new) ↔
       ∃ w f, w ∈ wc_Webhooks (ko_body cur) ∧
         getFrameworkForValidatingWebhook (wh_Name w) = Ok f ∧
         f ∈ buildEnabledFrameworks c ∧ w' = restrict f w) ∧
    (∀ w' labels, w' ∈ wc_Webhooks (ko_body new) →
       match wh_NamespaceSelector w' with Some s => selector_matches s labels = true | None => True end →
       labels !! kueueManagedLabel = Some "true" ∨
       ∃ f, getFrameworkForValidatingWebhook (wh_Name w') = Ok f ∧ isClusterScopedFramework f = true).
Proof.
  intros Hr. destruct (modify_spec _ (buildEnabledFrameworks c) _ Hr) as (kept & merged & Hk & Hm & Hs & Hin).
  unfold ModifyPodBasedValidatingWebhook. rewrite Hk. cbn [res_bind]. rewrite Hm. cbn [res_bind].
  eexists; split; [done|]. split_and!; [done|done|exact Hin|].
  intros w' labels Hw Hsel. apply Hin in Hw as (w & f & _ & Hf & _ & ->).
  rewrite restrict_Name. destruct (isClusterScopedFramework f) eqn:Hc; [eauto|]. left.
  unfold restrict in Hsel. rewrite Hc in Hsel.
  destruct (mergeSelectors_spec (wh_NamespaceSelector w)) as (m & Heq & Hopt & _).
  cbn [webhook_set_NamespaceSelector wh_NamespaceSelector] in Hsel. rewrite Heq in Hsel. by apply Hopt.
Qed.

Definition example_webhook (name : string) : Webhook := {|
  wh_Name := name;
  wh_ClientConfig := {| wcc_Service := Some {| sr_Namespace := "openshift-kueue-operator";
                                               sr_Name := "kueue-webhook-service";
                                               sr_other := JNull |};
                        wcc_CABundle := ""; wcc_other := JNull |};
  wh_NamespaceSelector := None; wh_other := JNull |}.

Lemma ModifyPodBasedValidatingWebhook_spec_witness :
  ∃ new, ModifyPodBasedValidatingWebhook minimal_config
    {| ko_Kind := ""; ko_Group := ""; ko_meta := meta_named "" "kueue";
       ko_body := {| wc_Webhooks := map example_webhook shipped_validating_webhooks |} |} = Ok new ∧
    ko_meta new = meta_named "" "kueue".
Proof.
  destruct (ModifyPodBasedValidatingWebhook_spec minimal_config
    {| ko_Kind := ""; ko_Group := ""; ko_meta := meta_named "" "kueue";
       ko_body := {| wc_Webhooks := map example_webhook shipped_validating_webhooks |} |})
    as (new & H & Hm & _).
  - apply registered_forallb; vm_compute; reflexivity.
  - exists new. split; [exact H|exact Hm].
Defined.

(** ** Idempotence *)

Lemma mergeSelectors_idemp existing m :
  mergeSelectors (Some defaultLabelSelector) existing = Some m →
  mergeSelectors (Some defaultLabelSelector) (Some m) = Some m.
Proof.
  assert (Hrest : ∀ ml rest, NoDup (map lsr_Key rest) →
    (∀ r, r ∈ rest → lsr_Key r ≠ kueueManagedLabel) →
    let m := {| ls_MatchLabels := ml;
                ls_MatchExpressions := ls_MatchExpressions defaultLabelSelector ++ rest |} in
    mergeSelectors (Some defaultLabelSelector) (Some m) = Some m).
  { intros ml rest Hnd Hk. unfold mergeSelectors.
    cbn [defaultLabelSelector ls_MatchExpressions ls_MatchLabels dedup_exprs app lsr_Key].
    rewrite bool_decide_false by apply not_elem_of_empty. cbn [dedup_exprs lsr_Key].
    rewrite bool_decide_true by set_solver.
    destruct (dedup_exprs _ rest) as [es s] eqn:E.
    rewrite (dedup_exprs_id _ _ _ _ E Hnd); [by rewrite (left_id_L ∅ (∪))|].
    intros r Hr. specialize (Hk r Hr). set_solver. }
  destruct existing as [e|].
  - destruct (mergeSelectors_default e) as (rest & -> & Hin & Hnd & _). intros [= <-].
    apply Hrest; [done|]. intros r Hr. by destruct (Hin r Hr).
  - intros [= <-]. apply (Hrest ∅ []); [constructor|]. intros r. by rewrite elem_of_nil.
Qed.

Lemma restrict_idemp f w : restrict f (restrict f w) = restrict f w.
Proof.
  unfold restrict. destruct (isClusterScopedFramework f); [done|].
  destruct (mergeSelectors_spec (wh_NamespaceSelector w)) as (m & Hm & _). rewrite Hm.
  cbn [webhook_set_NamespaceSelector wh_NamespaceSelector].
  by rewrite (mergeSelectors_idemp _ _ Hm).
Qed.

Lemma modify_idemp g enabled l kept merged :
  keep_enabled g enabled l = Ok kept →
  mergeNamespaceSelectors g defaultLabelSelector kept = Ok merged →
  keep_enabled g enabled merged = Ok merged ∧
  mergeNamespaceSelectors g defaultLabelSelector merged = Ok merged.
Proof.
  revert kept merged. induction l as [|w l IH]; cbn [keep_enabled]; intros kept merged.
  { intros [= <-] [= <-]. done. }
  destruct (g (wh_Name w)) as [f|e|p] eqn:Hf; cbn [res_bind]; [|done..].
  destruct (keep_enabled g enabled l) as [kept'|e|p]; cbn [res_bind]; [|done..].
  intros [= <-]. case_bool_decide as He; [|by apply IH].
  unfold mergeNamespaceSelectors. cbn [res_map]. rewrite Hf. cbn [res_bind].
  rewrite res_bind_Ok. intros (merged' & Hm & [= <-]).
  change (if isClusterScopedFramework f then w else _) with (restrict f w).
  destruct (IH _ _ eq_refl Hm) as [IH1 IH2].
  cbn [keep_enabled res_map]. rewrite restrict_Name, Hf. cbn [res_bind]. rewrite IH1. cbn [res_bind].
  rewrite bool_decide_true by done. split; [done|].
  change (if isClusterScopedFramework f then restrict f w else _)
    with (restrict f (restrict f w)). rewrite restrict_idemp.
  unfold mergeNamespaceSelectors in IH2. rewrite IH2. done.
Qed.

(** Modifying the mutating webhooks is idempotent: applied to its own
    result for the same configuration it changes nothing. *)
Theorem ModifyPodBasedMutatingWebhook_idemp (c : KueueConfiguration)
    (cur new : MutatingWebhookConfiguration) :
  ModifyPodBasedMutatingWebhook c cur = Ok new → ModifyPodBasedMutatingWebhook c new = Ok new.
Proof.
  unfold ModifyPodBasedMutatingWebhook. rewrite res_bind_Ok. intros (kept & Hk & H).
  apply res_bind_Ok in H as (merged & Hm & [= <-]).
  destruct (modify_idemp _ _ _ _ _ Hk Hm) as [H1 H2].
  cbn [set_body ko_body wc_Webhooks]. rewrite H1. cbn [res_bind]. rewrite H2. done.
Qed.

Lemma ModifyPodBasedMutatingWebhook_idemp_witness :
  ∃ new, ModifyPodBasedMutatingWebhook minimal_config
    {| ko_Kind := ""; ko_Group := ""; ko_meta := meta_named "" "kueue";
       ko_body := {| wc_Webhooks := map example_webhook ["mpod.kb.io"; "mworkload.kb.io"] |} |} = Ok new ∧
    ModifyPodBasedMutatingWebhook minimal_config new = Ok new.
Proof.
  eexists. split; [vm_compute; reflexivity|].
  apply (ModifyPodBasedMutatingWebhook_idemp minimal_config
    {| ko_Kind := ""; ko_Group := ""; ko_meta := meta_named "" "kueue";
       ko_body := {| wc_Webhooks := map example_webhook ["mpod.kb.io"; "mworkload.kb.io"] |} |}).
  vm_compute. reflexivity.
Defined.
