(* ===== verification/Effects.v ===== *)
(** * External calls and the programs that make them

    The reconciler talks to the API server, the informers' caches, the
    discovery endpoint, the event recorder and the clock. Each interaction is
    a [call] with a response type [resp]; a program is a tree of calls
    ([prog]). What the environment answers is arbitrary: a theorem about a
    program quantifies over every run ([runs]), and a run may stop after any
    call, so safety theorems also cover a crash between two calls. *)
From S2P Require Import Prelude GoStd K8s ApiTypes ConfigMap TlsProfile K8sObjects.

(** ** The data of the calls *)

(** Apply configurations: pointers are options. *)
Record OperatorConditionApply := {
  ca_Type : option string;
  ca_Status : option string;
  ca_LastTransitionTime : option Z;
  ca_Reason : option string;
  ca_Message : option string;
}.
#[export] Instance OperatorConditionApply_eq_dec : EqDecision OperatorConditionApply.
Proof. solve_decision. Defined.

Record KueueStatusApply := {
  ksa_Conditions : list OperatorConditionApply;
  ksa_ReadyReplicas : option Z;
  ksa_other : json;
}.
#[export] Instance KueueStatusApply_eq_dec : EqDecision KueueStatusApply.
Proof. solve_decision. Defined.

(** [KueueApplyConfiguration]: the name, and the part that is set. *)
Record KueueApply := {
  kac_Name : string;
  kac_Spec : option json;
  kac_Status : option KueueStatusApply;
}.
#[export] Instance KueueApply_eq_dec : EqDecision KueueApply.
Proof. solve_decision. Defined.

Record APIResource := { ar_Name : string; ar_Kind : string }.

(** The part of the FeatureGate object the operator reads. *)
Record FeatureGateSpec := {
  fg_FeatureSet : string;
  fg_CustomNoUpgrade_Enabled : option (list string);
}.

(** The two operators whose configuration object is looked up. *)
Inductive operator_config : Type := JobSetOperatorConfig | LeaderWorkerSetOperatorConfig.

(** ** library-go's resource cache

    [cachedVersionKey] to [cachedResource] (hash of the required manifest,
    resource version of the object it produced). *)
Record cachedVersionKey := {
  ck_name : string; ck_namespace : string; ck_kind : string; ck_group : string }.
#[export] Instance cachedVersionKey_eq_dec : EqDecision cachedVersionKey.
Proof. solve_decision. Defined.
#[export] Instance cachedVersionKey_countable : Countable cachedVersionKey.
Proof.
  refine (inj_countable' (λ k, (ck_name k, ck_namespace k, ck_kind k, ck_group k))
    (λ '(n, ns, k, g), {| ck_name := n; ck_namespace := ns; ck_kind := k; ck_group := g |}) _).
  by intros [].
Defined.

Notation ResourceCache := (gmap cachedVersionKey (string * string)).

(** ** Calls *)

Inductive call : Type :=
  (* the informer cache of the Kueue resource: [GetByKey], and a write
     through the pointer it returned *)
  | CCacheGetKueue (key : string)
  | CCacheStoreKueue (k : Kueue)
  (* the event recorder *)
  | CEvent (warning : bool) (reason message : string)
  (* an informer's lister *)
  | CLister (k : kind) (ns name : string)
  (* discovery *)
  | CServerResourcesForGroupVersion (gv : string)
  | CServerVersion
  (* typed clients *)
  | CGet (k : kind) (ns name : string)
  | CList (k : kind)
  | CCreate (k : kind) (o : obj k)
  | CUpdate (k : kind) (o : obj k)
  | CDelete (k : kind) (ns name : string)
  (* library-go's [resourceapply.ApplyFoo]; with a cache for the [Improved]
     ones, with the expected generation for deployments *)
  | CApply (k : kind) (required : obj k) (expectedGeneration : Z)
  | CApplyImproved (k : kind) (required : obj k) (cache : ResourceCache)
  (* the dynamic client, and [ApplyUnstructuredResourceImproved] *)
  | CDynGet (r : dyn_resource) (ns name : string)
  | CDynList (r : dyn_resource) (ns : string)
  | CDynDelete (r : dyn_resource) (ns name : string)
  | CDynApply (r : dyn_resource) (required : json) (cache : ResourceCache)
  | CApplyServiceMonitor (required : json)
  (* the Kueue client *)
  | CKueueGet (name : string)
  | CKueueUpdate (k : Kueue)
  | CKueueUpdateStatus (k : Kueue)
  | CKueuePatch (name : string) (mergePatch : json)
  | CKueueApply (cfg : KueueApply) (force : bool) (fieldManager : string)
  | CKueueApplyStatus (cfg : KueueApply) (force : bool) (fieldManager : string)
  (* configuration of the cluster *)
  | COperatorConfigGet (o : operator_config) (name : string)
  | CFeatureGateGet (name : string)
  | CAPIServerGet (name : string)
  (* time: nanoseconds; a jittered backoff; waiting with a context *)
  | CNow
  | CSleep (d : Z)
  | CSleepBackoff
  | CSleepOrDone (d : Z)
  (* no progress: never answered *)
  | CDiverge.

Definition resp (c : call) : Type :=
  match c with
  | CCacheGetKueue _ => (error + option (option Kueue))%type
  | CCacheStoreKueue _ => unit
  | CEvent _ _ _ => unit
  | CLister k _ _ => (error + obj k)%type
  | CServerResourcesForGroupVersion _ => (error + list APIResource)%type
  | CServerVersion => (error + string)%type
  | CGet k _ _ => (error + obj k)%type
  | CList k => (error + list (obj k))%type
  | CCreate k _ => (error + obj k)%type
  | CUpdate k _ => (error + obj k)%type
  | CDelete _ _ _ => option error
  | CApply k _ _ => (error + obj k * bool)%type
  | CApplyImproved k _ _ => ((error + obj k * bool) * ResourceCache)%type
  | CDynGet _ _ _ => (error + json)%type
  | CDynList _ _ => (error + list json)%type
  | CDynDelete _ _ _ => option error
  | CDynApply _ _ _ => ((error + json * bool) * ResourceCache)%type
  | CApplyServiceMonitor _ => (error + json * bool)%type
  | CKueueGet _ => (error + Kueue)%type
  | CKueueUpdate _ => (error + Kueue)%type
  | CKueueUpdateStatus _ => (error + Kueue)%type
  | CKueuePatch _ _ => (error + Kueue)%type
  | CKueueApply _ _ _ => option error
  | CKueueApplyStatus _ _ _ => option error
  | COperatorConfigGet _ _ => option error
  | CFeatureGateGet _ => (error + FeatureGateSpec)%type
  | CAPIServerGet _ => (error + option TLSSecurityProfile)%type
  | CNow => Z
  | CSleep _ => unit
  | CSleepBackoff => unit
  | CSleepOrDone _ => bool
  | CDiverge => Empty_set
  end.

(** ** Programs *)

Inductive prog (A : Type) : Type :=
  | Ret (a : A)
  | Vis (c : call) (k : resp c → prog A).
Arguments Ret {A} a.
Arguments Vis {A} c k.

Fixpoint pbind {A B} (p : prog A) (f : A → prog B) : prog B :=
  match p with
  | Ret a => f a
  | Vis c k => Vis c (λ r, pbind (k r) f)
  end.

(** ** Runs *)

(** An event: a call and the answer it got. *)
Inductive event : Type := Ev (c : call) (r : resp c).
Definition ev_call (e : event) : call := let 'Ev c _ := e in c.
Definition trace := list event.

(** [runs p tr o]: [p] can make the calls of [tr] with their answers; it then
    returned ([o = Some a]) or was stopped ([None]). *)
Inductive runs {A} : prog A → trace → option A → Prop :=
  | runs_stop p : runs p [] None
  | runs_ret a : runs (Ret a) [] (Some a)
  | runs_vis c k r tr o : runs (k r) tr o → runs (Vis c k) (Ev c r :: tr) o.

(** Inversion of a run along the program. *)
Lemma runs_inv {A} (p : prog A) tr o :
  runs p tr o →
  match p with
  | Ret a => tr = [] ∧ (o = None ∨ o = Some a)
  | Vis c k => (tr = [] ∧ o = None) ∨ ∃ r tr', tr = Ev c r :: tr' ∧ runs (k r) tr' o
  end.
Proof. destruct 1 as [[a|c k]|a|c k r tr o H]; eauto 10. Qed.

Lemma runs_ret_inv {A} (a b : A) tr : runs (Ret a) tr (Some b) → tr = [] ∧ b = a.
Proof. intros H. apply runs_inv in H as [-> [?|?]]; [done|]. naive_solver. Qed.
Lemma runs_vis_inv {A} c (k : resp c → prog A) tr b :
  runs (Vis c k) tr (Some b) → ∃ r tr', tr = Ev c r :: tr' ∧ runs (k r) tr' (Some b).
Proof. intros H. apply runs_inv in H as [[_ ?]|?]; [done|]. done. Qed.

Lemma elem_of_last (h : trace) e : e ∈ h ++ [e].
Proof. apply elem_of_app. right. constructor. Qed.
Lemma elem_of_earlier (h t : trace) e : e ∈ h → e ∈ h ++ t.
Proof. intros H. apply elem_of_app. by left. Qed.

(** An environment with a state of its own; [None] when it never answers. *)
Definition handler (σ : Type) := σ → ∀ c, option (resp c * σ).

Fixpoint run {A σ} (H : handler σ) (p : prog A) (s : σ) : trace * option A * σ :=
  match p with
  | Ret a => ([], Some a, s)
  | Vis c k =>
      match H s c with
      | None => ([], None, s)
      | Some (r, s) => let '(tr, o, s) := run H (k r) s in (Ev c r :: tr, o, s)
      end
  end.

Lemma run_runs {A σ} (H : handler σ) (p : prog A) s tr o s' :
  run H p s = (tr, o, s') → runs p tr o.
Proof.
  revert s tr o s'. induction p as [a|c k IH]; simpl; intros s tr o s'.
  - intros [= <- <- <-]. constructor.
  - destruct (H s c) as [[r s1]|]; [|intros [= <- <- <-]; constructor].
    destruct (run H (k r) s1) as [[tr1 o1] s2] eqn:E. intros [= <- <- <-].
    constructor. by eapply IH.
Qed.

(** What a handler has answered. *)
Lemma run_answers {A σ} (h : handler σ) (p : prog A) w tr o w' :
  run h p w = (tr, o, w') → Forall (λ '(Ev c r), ∃ w1 w2, h w1 c = Some (r, w2)) tr.
Proof.
  revert w tr o w'. induction p as [a|c k IH]; cbn [run]; intros w tr o w'; [by intros [= <- _ _]|].
  destruct (h w c) as [[r w1]|] eqn:Hh; [|by intros [= <- _ _]].
  destruct (run h (k r) w1) as [[tr1 o1] w2] eqn:E. intros [= <- _ _]. constructor; [by eauto|by eapply IH].
Qed.

(** ** Weakest preconditions

    [wp allowed p h Q]: after the history [h], every call [p] makes is allowed
    by the history before it, and [Q] holds of the final history and the
    result. *)
Section wp.
Context (allowed : trace → call → Prop).

Fixpoint wp {A} (p : prog A) (h : trace) (Q : trace → A → Prop) : Prop :=
  match p with
  | Ret a => Q h a
  | Vis c k => allowed h c ∧ ∀ r, wp (k r) (h ++ [Ev c r]) Q
  end.

Lemma wp_mono {A} (p : prog A) h (Q Q' : trace → A → Prop) :
  (∀ h a, Q h a → Q' h a) → wp p h Q → wp p h Q'.
Proof.
  intros HQ. revert h. induction p as [a|c k IH]; simpl; intros h; [apply HQ|].
  intros [Hc Hk]. split; [done|]. intros r. by apply IH.
Qed.

(** The history only grows. *)
Lemma wp_extends {A} (p : prog A) h (Q : trace → A → Prop) :
  wp p h Q → wp p h (λ h' a, (∃ t, h' = h ++ t) ∧ Q h' a).
Proof.
  revert h. induction p as [a|c k IH]; simpl; intros h.
  - split; [exists []; by rewrite app_nil_r|done].
  - intros [Hc Hk]. split; [done|]. intros r. eapply wp_mono; [|apply IH, Hk].
    intros h' a [[t ->] HQ]. split; [|done]. eexists. by rewrite <-app_assoc.
Qed.

Lemma wp_bind {A B} (p : prog A) (f : A → prog B) h Q :
  wp p h (λ h a, wp (f a) h Q) → wp (pbind p f) h Q.
Proof.
  revert h. induction p as [a|c k IH]; simpl; intros h; [done|].
  intros [Hc Hk]. split; [done|]. intros r. by apply IH.
Qed.

(** Every call of the run was allowed by the events before it. *)
Fixpoint trace_allowed (h : trace) (tr : trace) : Prop :=
  match tr with
  | [] => True
  | Ev c r :: tr => allowed h c ∧ trace_allowed (h ++ [Ev c r]) tr
  end.

Lemma wp_runs {A} (p : prog A) tr o h Q :
  runs p tr o → wp p h Q →
  trace_allowed h tr ∧ ∀ a, o = Some a → Q (h ++ tr) a.
Proof.
  intros Hr. revert h. induction Hr as [p|a|c k r tr o Hr IH]; simpl; intros h.
  - intros _. split; [done|]. by intros ? [=].
  - intros HQ. split; [done|]. intros a' [= <-]. by rewrite app_nil_r.
  - intros [Hc Hk]. destruct (IH (h ++ [Ev c r]) (Hk r)) as [Ht Ho].
    split; [done|]. intros a Ha. specialize (Ho a Ha). by rewrite <-app_assoc in Ho.
Qed.

Lemma trace_allowed_split h tr1 c r tr2 :
  trace_allowed h (tr1 ++ Ev c r :: tr2) → allowed (h ++ tr1) c.
Proof.
  revert h. induction tr1 as [|[c1 r1] tr1 IH]; simpl; intros h [H1 H2].
  - by rewrite app_nil_r.
  - specialize (IH _ H2). by rewrite <-app_assoc in IH.
Qed.
End wp.

(** ** The calls a program can make *)

(** [calls_in C p]: whatever the answers, every call of [p] satisfies [C]. *)
Fixpoint calls_in {A} (C : call → Prop) (p : prog A) : Prop :=
  match p with
  | Ret _ => True
  | Vis c k => C c ∧ ∀ r, calls_in C (k r)
  end.

Lemma calls_in_bind {A B} C (p : prog A) (f : A → prog B) :
  calls_in C p → (∀ a, calls_in C (f a)) → calls_in C (pbind p f).
Proof. intros Hp Hf. induction p as [a|c k IH]; simpl in *; [done|naive_solver]. Qed.

Lemma calls_in_mono {A} (C C' : call → Prop) (p : prog A) :
  (∀ c, C c → C' c) → calls_in C p → calls_in C' p.
Proof. intros HC. induction p; simpl; naive_solver. Qed.

(** A program whose calls are all allowed after [h], however it goes on, only
    extends the history by such calls. *)
Lemma wp_calls_in {A} allowed C (p : prog A) h :
  calls_in C p →
  (∀ h' c, C c → Forall (C ∘ ev_call) h' → allowed (h ++ h') c) →
  wp allowed p h (λ h' _, ∃ t, h' = h ++ t ∧ Forall (C ∘ ev_call) t).
Proof.
  intros Hp Hall.
  assert (∀ t, Forall (C ∘ ev_call) t →
    wp allowed p (h ++ t) (λ h' _, ∃ t, h' = h ++ t ∧ Forall (C ∘ ev_call) t)) as H.
  { induction p as [a|c k IH]; simpl; intros t Ht; [eauto|]. destruct Hp as [Hc Hk].
    split; [by apply Hall|]. intros r. rewrite <-app_assoc. apply IH; [done|].
    apply Forall_app. split; [done|]. by constructor. }
  specialize (H []). rewrite app_nil_r in H. apply H. constructor.
Qed.

Lemma runs_calls_in {A} C (p : prog A) tr o :
  runs p tr o → calls_in C p → Forall (C ∘ ev_call) tr.
Proof. induction 1 as [| |c k r tr o Hr IH]; simpl; [done..|]. intros [Hc Hk]. constructor; auto. Qed.

(** [prog_in C R p]: every call satisfies [C] and every result [R]. *)
Fixpoint prog_in {A} (C : call → Prop) (R : A → Prop) (p : prog A) : Prop :=
  match p with
  | Ret a => R a
  | Vis c k => C c ∧ ∀ r, prog_in C R (k r)
  end.

Lemma prog_in_bind {A B} C (R : A → Prop) (R' : B → Prop) (p : prog A) (f : A → prog B) :
  prog_in C R p → (∀ a, R a → prog_in C R' (f a)) → prog_in C R' (pbind p f).
Proof. intros Hp Hf. induction p as [a|c k IH]; simpl in *; [auto|naive_solver]. Qed.

Lemma prog_in_mono {A} (C C' : call → Prop) (R R' : A → Prop) (p : prog A) :
  (∀ c, C c → C' c) → (∀ a, R a → R' a) → prog_in C R p → prog_in C' R' p.
Proof. intros HC HR. induction p; simpl; naive_solver. Qed.

Lemma wp_prog_in {A} allowed C R (p : prog A) h :
  prog_in C R p →
  (∀ h' c, C c → Forall (C ∘ ev_call) h' → allowed (h ++ h') c) →
  wp allowed p h (λ h' a, R a ∧ ∃ t, h' = h ++ t ∧ Forall (C ∘ ev_call) t).
Proof.
  intros Hp Hall.
  assert (∀ t, Forall (C ∘ ev_call) t →
    wp allowed p (h ++ t) (λ h' a, R a ∧ ∃ t, h' = h ++ t ∧ Forall (C ∘ ev_call) t)) as H.
  { induction p as [a|c k IH]; simpl; intros t Ht; [eauto|]. destruct Hp as [Hc Hk].
    split; [by apply Hall|]. intros r. rewrite <-app_assoc. apply IH; [done|].
    apply Forall_app. split; [done|]. by constructor. }
  specialize (H []). rewrite app_nil_r in H. apply H. constructor.
Qed.

(** A monitor that looks at single calls only. *)
Lemma wp_call_prog_in {A} (C : call → Prop) (R : A → Prop) (p : prog A) h :
  wp (λ _, C) p h (λ _ a, R a) → prog_in C R p.
Proof.
  revert h. induction p as [a|c k IH]; simpl; intros h; [done|].
  intros [Hc Hk]. split; [done|]. intros r. by eapply IH.
Qed.

(** A weaker monitor. *)
Lemma wp_weaken {A} (allowed1 allowed2 : trace → call → Prop) (p : prog A) h Q :
  wp allowed1 p h Q → (∀ t c, allowed1 (h ++ t) c → allowed2 (h ++ t) c) → wp allowed2 p h Q.
Proof.
  revert h. induction p as [a|c k IH]; simpl; intros h; [done|]. intros [Hc Hk] Hall.
  split; [rewrite <-(app_nil_r h); apply Hall; by rewrite app_nil_r|].
  intros r. apply IH; [apply Hk|]. intros t c' Hc'. rewrite <-app_assoc in *. by apply Hall.
Qed.

(** Two facts about a program in one. *)
Lemma wp_and {A} (allowed1 allowed2 : trace → call → Prop) (p : prog A) h Q1 Q2 :
  wp allowed1 p h Q1 → wp allowed2 p h Q2 → wp allowed1 p h (λ h a, Q1 h a ∧ Q2 h a).
Proof.
  revert h. induction p as [a|c k IH]; simpl; intros h; [done|]. intros [Hc Hk] [_ Hk2].
  split; [done|]. intros r. by apply IH.
Qed.

Lemma wp_trivial {A} (p : prog A) h : wp (λ _ _, True) p h (λ h' _, ∃ t, h' = h ++ t).
Proof.
  eapply wp_mono; [|apply (wp_extends _ _ _ (λ _ _, True))]; [naive_solver|].
  revert h. induction p as [a|c k IH]; intros h; [done|]. split; [done|]. intros r. apply IH.
Qed.

(** From one monitor to another that also knows what the calls since [h]
    were. *)
Lemma wp_along {A} (C : call → Prop) (now allowed : trace → call → Prop) (p : prog A) h Q :
  wp now p h Q →
  (∀ t c, now (h ++ t) c → C c) →
  (∀ t c, now (h ++ t) c → Forall (C ∘ ev_call) t → allowed (h ++ t) c) →
  wp allowed p h (λ h' a, Q h' a ∧ ∃ t, h' = h ++ t ∧ Forall (C ∘ ev_call) t).
Proof.
  intros Hp HC Hall.
  assert (∀ t, Forall (C ∘ ev_call) t → wp now p (h ++ t) Q →
    wp allowed p (h ++ t) (λ h' a, Q h' a ∧ ∃ t, h' = h ++ t ∧ Forall (C ∘ ev_call) t)) as H.
  { clear Hp. induction p as [a|c k IH]; simpl; intros t Ht; [eauto|]. intros [Hc Hk].
    split; [by apply Hall|]. intros r. rewrite <-app_assoc. apply IH.
    - apply Forall_app. split; [done|]. constructor; [|constructor]. by eapply HC.
    - rewrite app_assoc. apply Hk. }
  specialize (H []). rewrite app_nil_r in H. apply H; [constructor|done].
Qed.

(** ** Bounding the number of calls *)

(** [at_most P n p]: in every run [p] makes at most [n] calls that satisfy
    [P]. *)
Fixpoint at_most {A} (P : call → bool) (n : nat) (p : prog A) : Prop :=
  match p with
  | Ret _ => True
  | Vis c k =>
      if P c then match n with 0 => False | S n => ∀ r, at_most P n (k r) end
      else ∀ r, at_most P n (k r)
  end.

Definition count (P : call → bool) (tr : trace) : nat :=
  length (List.filter (λ e, P (ev_call e)) tr).

Lemma at_most_mono {A} P n m (p : prog A) : n ≤ m → at_most P n p → at_most P m p.
Proof.
  revert n m. induction p as [a|c k IH]; simpl; intros n m Hnm; [done|].
  destruct (P c); [|naive_solver].
  destruct n as [|n]; [done|]. destruct m as [|m]; [lia|]. intros Hk r.
  apply (IH r n); [lia|done].
Qed.

Lemma at_most_bind {A B} P n m (p : prog A) (f : A → prog B) :
  at_most P n p → (∀ a, at_most P m (f a)) → at_most P (n + m) (pbind p f).
Proof.
  revert n. induction p as [a|c k IH]; simpl; intros n Hp Hf.
  - eapply at_most_mono; [|apply Hf]. lia.
  - destruct (P c); [|naive_solver]. destruct n as [|n]; simpl; [done|]. naive_solver.
Qed.

Lemma at_most_calls_in {A} P (p : prog A) : calls_in (λ c, P c = false) p → at_most P 0 p.
Proof.
  induction p as [a|c k IH]; simpl; [done|]. intros [-> Hk] r. by apply IH.
Qed.

Lemma at_most_runs {A} P n (p : prog A) tr o :
  runs p tr o → at_most P n p → count P tr ≤ n.
Proof.
  unfold count. intros Hr. revert n. induction Hr as [| |c k r tr o Hr IH]; simpl; intros n; [lia..|].
  destruct (P c); simpl; [|naive_solver].
  destruct n as [|n]; [done|]. intros Hk. apply le_n_S. by apply IH.
Qed.

(** ** Total correctness in an environment

    [twp H p s Q]: run by the handler [H] from its state [s], the program
    returns, and [Q] holds of the result and the final state. *)
Fixpoint twp {A σ} (H : handler σ) (p : prog A) (s : σ) (Q : A → σ → Prop) : Prop :=
  match p with
  | Ret a => Q a s
  | Vis c k => ∃ r s', H s c = Some (r, s') ∧ twp H (k r) s' Q
  end.

Lemma twp_mono {A σ} (H : handler σ) (p : prog A) s (Q Q' : A → σ → Prop) :
  (∀ a s, Q a s → Q' a s) → twp H p s Q → twp H p s Q'.
Proof.
  intros HQ. revert s. induction p as [a|c k IH]; simpl; intros s; [apply HQ|].
  intros (r & s' & Hr & Hk). eauto.
Qed.

Lemma twp_bind {A B σ} (H : handler σ) (p : prog A) (f : A → prog B) s Q :
  twp H p s (λ a s, twp H (f a) s Q) → twp H (pbind p f) s Q.
Proof.
  revert s. induction p as [a|c k IH]; simpl; intros s; [done|].
  intros (r & s' & Hr & Hk). eauto.
Qed.

Lemma twp_run {A σ} (H : handler σ) (p : prog A) s Q :
  twp H p s Q → ∃ tr a s', run H p s = (tr, Some a, s') ∧ Q a s'.
Proof.
  revert s. induction p as [a|c k IH]; simpl; intros s; [eauto 6|].
  intros (r & s' & Hr & Hk). rewrite Hr. destruct (IH _ _ Hk) as (tr & a & s2 & -> & HQ). eauto 6.
Qed.

Lemma run_pbind {A B σ} (H : handler σ) (p : prog A) (f : A → prog B) s tr1 a s1 tr2 o s2 :
  run H p s = (tr1, Some a, s1) → run H (f a) s1 = (tr2, o, s2) →
  run H (pbind p f) s = (tr1 ++ tr2, o, s2).
Proof.
  revert s tr1. induction p as [a'|c k IH]; simpl; intros s tr1.
  - intros [= <- <- <-] Hf. exact Hf.
  - destruct (H s c) as [[r s']|]; [|done].
    destruct (run H (k r) s') as [[tr o'] s''] eqn:E. intros [= <- -> <-] Hf.
    by rewrite (IH _ _ _ E Hf).
Qed.
