(* ===== verification/ApplyConfig.v ===== *)
(** * Apply configurations: pkg/generated/applyconfiguration

    The declarative configurations with which the operator applies the [Kueue]
    resource: one struct of optional fields per API type, a constructor, and
    the [With] methods that fill it in. A method that changes its receiver and
    returns it is a function here. A pointer to a scalar or a struct is an
    option; a nil slice is the empty list. The configurations of the vendored
    packages that are embedded are records with all their fields. *)
From S2P Require Import Prelude GoStd K8s ApiTypes Effects.

(** The loop of a [With] method over pointers to structs: nil is refused, after
    the values before it were appended. *)
Fixpoint non_nil {A} (msg : string) (values : list (option A)) : res (list A) :=
  match values with
  | [] => Ok []
  | None :: _ => Panic msg
  | Some v :: values => rlet vs := non_nil msg values in Ok (v :: vs)
  end.

(** [for k, v := range entries { m[k] = v }], in the order of the range: a
    write to a nil map panics. *)
Fixpoint put_entries (m : option (gmap string string)) (entries : list (string * string))
    : res (option (gmap string string)) :=
  match entries with
  | [] => Ok m
  | (k, v) :: entries =>
      match m with
      | Some m => put_entries (Some (<[k := v]> m)) entries
      | None => Panic "assignment to entry in nil map"
      end
  end.

Module Apply.

(** ** Embedded and referenced structs of the vendored packages *)

Record TypeMetaApplyConfiguration := {
  atm_Kind : option string;
  atm_APIVersion : option string;
}.
Record OwnerReferenceApplyConfiguration := {
  aor_APIVersion : option string;
  aor_Kind : option string;
  aor_Name : option string;
  aor_UID : option string;
  aor_Controller : option bool;
  aor_BlockOwnerDeletion : option bool;
}.
Record ObjectMetaApplyConfiguration := {
  aom_Name : option string;
  aom_GenerateName : option string;
  aom_Namespace : option string;
  aom_UID : option string;
  aom_ResourceVersion : option string;
  aom_Generation : option Z;
  aom_CreationTimestamp : option string;
  aom_DeletionTimestamp : option string;
  aom_DeletionGracePeriodSeconds : option Z;
  aom_Labels : option (gmap string string);
  aom_Annotations : option (gmap string string);
  aom_OwnerReferences : list OwnerReferenceApplyConfiguration;
  aom_Finalizers : list string;
}.
Record OperatorSpecApplyConfiguration := {
  aos_ManagementState : option string;
  aos_LogLevel : option string;
  aos_OperatorLogLevel : option string;
  aos_UnsupportedConfigOverrides : option json;
  aos_ObservedConfig : option json;
}.
Record GenerationStatusApplyConfiguration := {
  agn_Group : option string;
  agn_Resource : option string;
  agn_Namespace : option string;
  agn_Name : option string;
  agn_LastGeneration : option Z;
  agn_Hash : option string;
}.
Record OperatorStatusApplyConfiguration := {
  aost_ObservedGeneration : option Z;
  aost_Conditions : list OperatorConditionApply;
  aost_Version : option string;
  aost_ReadyReplicas : option Z;
  aost_LatestAvailableRevision : option Z;
  aost_Generations : list GenerationStatusApplyConfiguration;
}.

(** Assignments to a field of an embedded struct. *)
Definition atm_set_Kind (v : option string) (b : TypeMetaApplyConfiguration) : TypeMetaApplyConfiguration :=
  {| atm_Kind := v; atm_APIVersion := atm_APIVersion b |}.
Definition atm_set_APIVersion (v : option string) (b : TypeMetaApplyConfiguration) : TypeMetaApplyConfiguration :=
  {| atm_Kind := atm_Kind b; atm_APIVersion := v |}.
Definition aom_set_Name (v : option string) (b : ObjectMetaApplyConfiguration) : ObjectMetaApplyConfiguration :=
  {| aom_Name := v; aom_GenerateName := aom_GenerateName b; aom_Namespace := aom_Namespace b;
     aom_UID := aom_UID b; aom_ResourceVersion := aom_ResourceVersion b;
     aom_Generation := aom_Generation b; aom_CreationTimestamp := aom_CreationTimestamp b;
     aom_DeletionTimestamp := aom_DeletionTimestamp b;
     aom_DeletionGracePeriodSeconds := aom_DeletionGracePeriodSeconds b;
     aom_Labels := aom_Labels b; aom_Annotations := aom_Annotations b;
     aom_OwnerReferences := aom_OwnerReferences b; aom_Finalizers := aom_Finalizers b |}.
Definition aom_set_GenerateName (v : option string) (b : ObjectMetaApplyConfiguration) : ObjectMetaApplyConfiguration :=
  {| aom_Name := aom_Name b; aom_GenerateName := v; aom_Namespace := aom_Namespace b;
     aom_UID := aom_UID b; aom_ResourceVersion := aom_ResourceVersion b;
     aom_Generation := aom_Generation b; aom_CreationTimestamp := aom_CreationTimestamp b;
     aom_DeletionTimestamp := aom_DeletionTimestamp b;
     aom_DeletionGracePeriodSeconds := aom_DeletionGracePeriodSeconds b;
     aom_Labels := aom_Labels b; aom_Annotations := aom_Annotations b;
     aom_OwnerReferences := aom_OwnerReferences b; aom_Finalizers := aom_Finalizers b |}.
Definition aom_set_Namespace (v : option string) (b : ObjectMetaApplyConfiguration) : ObjectMetaApplyConfiguration :=
  {| aom_Name := aom_Name b; aom_GenerateName := aom_GenerateName b; aom_Namespace := v;
     aom_UID := aom_UID b; aom_ResourceVersion := aom_ResourceVersion b;
     aom_Generation := aom_Generation b; aom_CreationTimestamp := aom_CreationTimestamp b;
     aom_DeletionTimestamp := aom_DeletionTimestamp b;
     aom_DeletionGracePeriodSeconds := aom_DeletionGracePeriodSeconds b;
     aom_Labels := aom_Labels b; aom_Annotations := aom_Annotations b;
     aom_OwnerReferences := aom_OwnerReferences b; aom_Finalizers := aom_Finalizers b |}.
Definition aom_set_UID (v : option string) (b : ObjectMetaApplyConfiguration) : ObjectMetaApplyConfiguration :=
  {| aom_Name := aom_Name b; aom_GenerateName := aom_GenerateName b;
     aom_Namespace := aom_Namespace b; aom_UID := v; aom_ResourceVersion := aom_ResourceVersion b;
     aom_Generation := aom_Generation b; aom_CreationTimestamp := aom_CreationTimestamp b;
     aom_DeletionTimestamp := aom_DeletionTimestamp b;
     aom_DeletionGracePeriodSeconds := aom_DeletionGracePeriodSeconds b;
     aom_Labels := aom_Labels b; aom_Annotations := aom_Annotations b;
     aom_OwnerReferences := aom_OwnerReferences b; aom_Finalizers := aom_Finalizers b |}.
Definition aom_set_ResourceVersion (v : option string) (b : ObjectMetaApplyConfiguration) : ObjectMetaApplyConfiguration :=
  {| aom_Name := aom_Name b; aom_GenerateName := aom_GenerateName b;
     aom_Namespace := aom_Namespace b; aom_UID := aom_UID b; aom_ResourceVersion := v;
     aom_Generation := aom_Generation b; aom_CreationTimestamp := aom_CreationTimestamp b;
     aom_DeletionTimestamp := aom_DeletionTimestamp b;
     aom_DeletionGracePeriodSeconds := aom_DeletionGracePeriodSeconds b;
     aom_Labels := aom_Labels b; aom_Annotations := aom_Annotations b;
     aom_OwnerReferences := aom_OwnerReferences b; aom_Finalizers := aom_Finalizers b |}.
Definition aom_set_Generation (v : option Z) (b : ObjectMetaApplyConfiguration) : ObjectMetaApplyConfiguration :=
  {| aom_Name := aom_Name b; aom_GenerateName := aom_GenerateName b;
     aom_Namespace := aom_Namespace b; aom_UID := aom_UID b;
     aom_ResourceVersion := aom_ResourceVersion b; aom_Generation := v;
     aom_CreationTimestamp := aom_CreationTimestamp b;
     aom_DeletionTimestamp := aom_DeletionTimestamp b;
     aom_DeletionGracePeriodSeconds := aom_DeletionGracePeriodSeconds b;
     aom_Labels := aom_Labels b; aom_Annotations := aom_Annotations b;
     aom_OwnerReferences := aom_OwnerReferences b; aom_Finalizers := aom_Finalizers b |}.
Definition aom_set_CreationTimestamp (v : option string) (b : ObjectMetaApplyConfiguration) : ObjectMetaApplyConfiguration :=
  {| aom_Name := aom_Name b; aom_GenerateName := aom_GenerateName b;
     aom_Namespace := aom_Namespace b; aom_UID := aom_UID b;
     aom_ResourceVersion := aom_ResourceVersion b; aom_Generation := aom_Generation b;
     aom_CreationTimestamp := v; aom_DeletionTimestamp := aom_DeletionTimestamp b;
     aom_DeletionGracePeriodSeconds := aom_DeletionGracePeriodSeconds b;
     aom_Labels := aom_Labels b; aom_Annotations := aom_Annotations b;
     aom_OwnerReferences := aom_OwnerReferences b; aom_Finalizers := aom_Finalizers b |}.
Definition aom_set_DeletionTimestamp (v : option string) (b : ObjectMetaApplyConfiguration) : ObjectMetaApplyConfiguration :=
  {| aom_Name := aom_Name b; aom_GenerateName := aom_GenerateName b;
     aom_Namespace := aom_Namespace b; aom_UID := aom_UID b;
     aom_ResourceVersion := aom_ResourceVersion b; aom_Generation := aom_Generation b;
     aom_CreationTimestamp := aom_CreationTimestamp b; aom_DeletionTimestamp := v;
     aom_DeletionGracePeriodSeconds := aom_DeletionGracePeriodSeconds b;
     aom_Labels := aom_Labels b; aom_Annotations := aom_Annotations b;
     aom_OwnerReferences := aom_OwnerReferences b; aom_Finalizers := aom_Finalizers b |}.
Definition aom_set_DeletionGracePeriodSeconds (v : option Z) (b : ObjectMetaApplyConfiguration) : ObjectMetaApplyConfiguration :=
  {| aom_Name := aom_Name b; aom_GenerateName := aom_GenerateName b;
     aom_Namespace := aom_Namespace b; aom_UID := aom_UID b;
     aom_ResourceVersion := aom_ResourceVersion b; aom_Generation := aom_Generation b;
     aom_CreationTimestamp := aom_CreationTimestamp b;
     aom_DeletionTimestamp := aom_DeletionTimestamp b; aom_DeletionGracePeriodSeconds := v;
     aom_Labels := aom_Labels b; aom_Annotations := aom_Annotations b;
     aom_OwnerReferences := aom_OwnerReferences b; aom_Finalizers := aom_Finalizers b |}.
Definition aom_set_Labels (v : option (gmap string string)) (b : ObjectMetaApplyConfiguration) : ObjectMetaApplyConfiguration :=
  {| aom_Name := aom_Name b; aom_GenerateName := aom_GenerateName b;
     aom_Namespace := aom_Namespace b; aom_UID := aom_UID b;
     aom_ResourceVersion := aom_ResourceVersion b; aom_Generation := aom_Generation b;
     aom_CreationTimestamp := aom_CreationTimestamp b;
     aom_DeletionTimestamp := aom_DeletionTimestamp b;
     aom_DeletionGracePeriodSeconds := aom_DeletionGracePeriodSeconds b; aom_Labels := v;
     aom_Annotations := aom_Annotations b; aom_OwnerReferences := aom_OwnerReferences b;
     aom_Finalizers := aom_Finalizers b |}.
Definition aom_set_Annotations (v : option (gmap string string)) (b : ObjectMetaApplyConfiguration) : ObjectMetaApplyConfiguration :=
  {| aom_Name := aom_Name b; aom_GenerateName := aom_GenerateName b;
     aom_Namespace := aom_Namespace b; aom_UID := aom_UID b;
     aom_ResourceVersion := aom_ResourceVersion b; aom_Generation := aom_Generation b;
     aom_CreationTimestamp := aom_CreationTimestamp b;
     aom_DeletionTimestamp := aom_DeletionTimestamp b;
     aom_DeletionGracePeriodSeconds := aom_DeletionGracePeriodSeconds b;
     aom_Labels := aom_Labels b; aom_Annotations := v;
     aom_OwnerReferences := aom_OwnerReferences b; aom_Finalizers := aom_Finalizers b |}.
Definition aom_set_OwnerReferences (v : list OwnerReferenceApplyConfiguration) (b : ObjectMetaApplyConfiguration) : ObjectMetaApplyConfiguration :=
  {| aom_Name := aom_Name b; aom_GenerateName := aom_GenerateName b;
     aom_Namespace := aom_Namespace b; aom_UID := aom_UID b;
     aom_ResourceVersion := aom_ResourceVersion b; aom_Generation := aom_Generation b;
     aom_CreationTimestamp := aom_CreationTimestamp b;
     aom_DeletionTimestamp := aom_DeletionTimestamp b;
     aom_DeletionGracePeriodSeconds := aom_DeletionGracePeriodSeconds b;
     aom_Labels := aom_Labels b; aom_Annotations := aom_Annotations b; aom_OwnerReferences := v;
     aom_Finalizers := aom_Finalizers b |}.
Definition aom_set_Finalizers (v : list string) (b : ObjectMetaApplyConfiguration) : ObjectMetaApplyConfiguration :=
  {| aom_Name := aom_Name b; aom_GenerateName := aom_GenerateName b;
     aom_Namespace := aom_Namespace b; aom_UID := aom_UID b;
     aom_ResourceVersion := aom_ResourceVersion b; aom_Generation := aom_Generation b;
     aom_CreationTimestamp := aom_CreationTimestamp b;
     aom_DeletionTimestamp := aom_DeletionTimestamp b;
     aom_DeletionGracePeriodSeconds := aom_DeletionGracePeriodSeconds b;
     aom_Labels := aom_Labels b; aom_Annotations := aom_Annotations b;
     aom_OwnerReferences := aom_OwnerReferences b; aom_Finalizers := v |}.
Definition aos_set_ManagementState (v : option string) (b : OperatorSpecApplyConfiguration) : OperatorSpecApplyConfiguration :=
  {| aos_ManagementState := v; aos_LogLevel := aos_LogLevel b;
     aos_OperatorLogLevel := aos_OperatorLogLevel b;
     aos_UnsupportedConfigOverrides := aos_UnsupportedConfigOverrides b;
     aos_ObservedConfig := aos_ObservedConfig b |}.
Definition aos_set_LogLevel (v : option string) (b : OperatorSpecApplyConfiguration) : OperatorSpecApplyConfiguration :=
  {| aos_ManagementState := aos_ManagementState b; aos_LogLevel := v;
     aos_OperatorLogLevel := aos_OperatorLogLevel b;
     aos_UnsupportedConfigOverrides := aos_UnsupportedConfigOverrides b;
     aos_ObservedConfig := aos_ObservedConfig b |}.
Definition aos_set_OperatorLogLevel (v : option string) (b : OperatorSpecApplyConfiguration) : OperatorSpecApplyConfiguration :=
  {| aos_ManagementState := aos_ManagementState b; aos_LogLevel := aos_LogLevel b;
     aos_OperatorLogLevel := v; aos_UnsupportedConfigOverrides := aos_UnsupportedConfigOverrides b;
     aos_ObservedConfig := aos_ObservedConfig b |}.
Definition aos_set_UnsupportedConfigOverrides (v : option json) (b : OperatorSpecApplyConfiguration) : OperatorSpecApplyConfiguration :=
  {| aos_ManagementState := aos_ManagementState b; aos_LogLevel := aos_LogLevel b;
     aos_OperatorLogLevel := aos_OperatorLogLevel b; aos_UnsupportedConfigOverrides := v;
     aos_ObservedConfig := aos_ObservedConfig b |}.
Definition aos_set_ObservedConfig (v : option json) (b : OperatorSpecApplyConfiguration) : OperatorSpecApplyConfiguration :=
  {| aos_ManagementState := aos_ManagementState b; aos_LogLevel := aos_LogLevel b;
     aos_OperatorLogLevel := aos_OperatorLogLevel b;
     aos_UnsupportedConfigOverrides := aos_UnsupportedConfigOverrides b;
     aos_ObservedConfig := v |}.
Definition aost_set_ObservedGeneration (v : option Z) (b : OperatorStatusApplyConfiguration) : OperatorStatusApplyConfiguration :=
  {| aost_ObservedGeneration := v; aost_Conditions := aost_Conditions b;
     aost_Version := aost_Version b; aost_ReadyReplicas := aost_ReadyReplicas b;
     aost_LatestAvailableRevision := aost_LatestAvailableRevision b;
     aost_Generations := aost_Generations b |}.
Definition aost_set_Conditions (v : list OperatorConditionApply) (b : OperatorStatusApplyConfiguration) : OperatorStatusApplyConfiguration :=
  {| aost_ObservedGeneration := aost_ObservedGeneration b; aost_Conditions := v;
     aost_Version := aost_Version b; aost_ReadyReplicas := aost_ReadyReplicas b;
     aost_LatestAvailableRevision := aost_LatestAvailableRevision b;
     aost_Generations := aost_Generations b |}.
Definition aost_set_Version (v : option string) (b : OperatorStatusApplyConfiguration) : OperatorStatusApplyConfiguration :=
  {| aost_ObservedGeneration := aost_ObservedGeneration b; aost_Conditions := aost_Conditions b;
     aost_Version := v; aost_ReadyReplicas := aost_ReadyReplicas b;
     aost_LatestAvailableRevision := aost_LatestAvailableRevision b;
     aost_Generations := aost_Generations b |}.
Definition aost_set_ReadyReplicas (v : option Z) (b : OperatorStatusApplyConfiguration) : OperatorStatusApplyConfiguration :=
  {| aost_ObservedGeneration := aost_ObservedGeneration b; aost_Conditions := aost_Conditions b;
     aost_Version := aost_Version b; aost_ReadyReplicas := v;
     aost_LatestAvailableRevision := aost_LatestAvailableRevision b;
     aost_Generations := aost_Generations b |}.
Definition aost_set_LatestAvailableRevision (v : option Z) (b : OperatorStatusApplyConfiguration) : OperatorStatusApplyConfiguration :=
  {| aost_ObservedGeneration := aost_ObservedGeneration b; aost_Conditions := aost_Conditions b;
     aost_Version := aost_Version b; aost_ReadyReplicas := aost_ReadyReplicas b;
     aost_LatestAvailableRevision := v; aost_Generations := aost_Generations b |}.
Definition aost_set_Generations (v : list GenerationStatusApplyConfiguration) (b : OperatorStatusApplyConfiguration) : OperatorStatusApplyConfiguration :=
  {| aost_ObservedGeneration := aost_ObservedGeneration b; aost_Conditions := aost_Conditions b;
     aost_Version := aost_Version b; aost_ReadyReplicas := aost_ReadyReplicas b;
     aost_LatestAvailableRevision := aost_LatestAvailableRevision b; aost_Generations := v |}.

Definition zero_TypeMetaApplyConfiguration : TypeMetaApplyConfiguration :=
  {| atm_Kind := None; atm_APIVersion := None |}.
Definition zero_ObjectMetaApplyConfiguration : ObjectMetaApplyConfiguration :=
  {| aom_Name := None; aom_GenerateName := None; aom_Namespace := None; aom_UID := None;
     aom_ResourceVersion := None; aom_Generation := None; aom_CreationTimestamp := None;
     aom_DeletionTimestamp := None; aom_DeletionGracePeriodSeconds := None; aom_Labels := None;
     aom_Annotations := None; aom_OwnerReferences := []; aom_Finalizers := [] |}.
Definition zero_OperatorSpecApplyConfiguration : OperatorSpecApplyConfiguration :=
  {| aos_ManagementState := None; aos_LogLevel := None; aos_OperatorLogLevel := None;
     aos_UnsupportedConfigOverrides := None; aos_ObservedConfig := None |}.
Definition zero_OperatorStatusApplyConfiguration : OperatorStatusApplyConfiguration :=
  {| aost_ObservedGeneration := None; aost_Conditions := []; aost_Version := None;
     aost_ReadyReplicas := None; aost_LatestAvailableRevision := None; aost_Generations := [] |}.

(** *** celdeviceselector.go *)

Record CELDeviceSelectorApplyConfiguration := {
  acel_Expression : option string;
}.
Definition CELDeviceSelector : CELDeviceSelectorApplyConfiguration :=
  {| acel_Expression := None |}.
Definition CELDeviceSelector_WithExpression (value : string)
    (b : CELDeviceSelectorApplyConfiguration) : CELDeviceSelectorApplyConfiguration :=
  {| acel_Expression := Some value |}.

(** *** deviceselector.go *)

Record DeviceSelectorApplyConfiguration := {
  ads_Type : option string;
  ads_CEL : option CELDeviceSelectorApplyConfiguration;
}.
Definition DeviceSelector : DeviceSelectorApplyConfiguration :=
  {| ads_Type := None; ads_CEL := None |}.
Definition DeviceSelector_WithType (value : string)
    (b : DeviceSelectorApplyConfiguration) : DeviceSelectorApplyConfiguration :=
  {| ads_Type := Some value; ads_CEL := ads_CEL b |}.
Definition DeviceSelector_WithCEL (value : option CELDeviceSelectorApplyConfiguration)
    (b : DeviceSelectorApplyConfiguration) : DeviceSelectorApplyConfiguration :=
  {| ads_Type := ads_Type b; ads_CEL := value |}.

(** *** deviceclasscapacitysource.go *)

Record DeviceClassCapacitySourceApplyConfiguration := {
  adcp_Name : option string;
  adcp_Driver : option string;
  adcp_DeviceSelector : option DeviceSelectorApplyConfiguration;
}.
Definition DeviceClassCapacitySource : DeviceClassCapacitySourceApplyConfiguration :=
  {| adcp_Name := None; adcp_Driver := None; adcp_DeviceSelector := None |}.
Definition DeviceClassCapacitySource_WithName (value : string)
    (b : DeviceClassCapacitySourceApplyConfiguration) : DeviceClassCapacitySourceApplyConfiguration :=
  {| adcp_Name := Some value; adcp_Driver := adcp_Driver b;
     adcp_DeviceSelector := adcp_DeviceSelector b |}.
Definition DeviceClassCapacitySource_WithDriver (value : string)
    (b : DeviceClassCapacitySourceApplyConfiguration) : DeviceClassCapacitySourceApplyConfiguration :=
  {| adcp_Name := adcp_Name b; adcp_Driver := Some value;
     adcp_DeviceSelector := adcp_DeviceSelector b |}.
Definition DeviceClassCapacitySource_WithDeviceSelector (value : option DeviceSelectorApplyConfiguration)
    (b : DeviceClassCapacitySourceApplyConfiguration) : DeviceClassCapacitySourceApplyConfiguration :=
  {| adcp_Name := adcp_Name b; adcp_Driver := adcp_Driver b; adcp_DeviceSelector := value |}.

(** *** deviceclasscountersource.go *)

Record DeviceClassCounterSourceApplyConfiguration := {
  adcn_Name : option string;
  adcn_Driver : option string;
  adcn_DeviceSelector : option DeviceSelectorApplyConfiguration;
}.
Definition DeviceClassCounterSource : DeviceClassCounterSourceApplyConfiguration :=
  {| adcn_Name := None; adcn_Driver := None; adcn_DeviceSelector := None |}.
Definition DeviceClassCounterSource_WithName (value : string)
    (b : DeviceClassCounterSourceApplyConfiguration) : DeviceClassCounterSourceApplyConfiguration :=
  {| adcn_Name := Some value; adcn_Driver := adcn_Driver b;
     adcn_DeviceSelector := adcn_DeviceSelector b |}.
Definition DeviceClassCounterSource_WithDriver (value : string)
    (b : DeviceClassCounterSourceApplyConfiguration) : DeviceClassCounterSourceApplyConfiguration :=
  {| adcn_Name := adcn_Name b; adcn_Driver := Some value;
     adcn_DeviceSelector := adcn_DeviceSelector b |}.
Definition DeviceClassCounterSource_WithDeviceSelector (value : option DeviceSelectorApplyConfiguration)
    (b : DeviceClassCounterSourceApplyConfiguration) : DeviceClassCounterSourceApplyConfiguration :=
  {| adcn_Name := adcn_Name b; adcn_Driver := adcn_Driver b; adcn_DeviceSelector := value |}.

(** *** deviceclasssourceconfig.go *)

Record DeviceClassSourceConfigApplyConfiguration := {
  adsc_Type : option string;
  adsc_Counter : option DeviceClassCounterSourceApplyConfiguration;
  adsc_Capacity : option DeviceClassCapacitySourceApplyConfiguration;
}.
Definition DeviceClassSourceConfig : DeviceClassSourceConfigApplyConfiguration :=
  {| adsc_Type := None; adsc_Counter := None; adsc_Capacity := None |}.
Definition DeviceClassSourceConfig_WithType (value : string)
    (b : DeviceClassSourceConfigApplyConfiguration) : DeviceClassSourceConfigApplyConfiguration :=
  {| adsc_Type := Some value; adsc_Counter := adsc_Counter b; adsc_Capacity := adsc_Capacity b |}.
Definition DeviceClassSourceConfig_WithCounter (value : option DeviceClassCounterSourceApplyConfiguration)
    (b : DeviceClassSourceConfigApplyConfiguration) : DeviceClassSourceConfigApplyConfiguration :=
  {| adsc_Type := adsc_Type b; adsc_Counter := value; adsc_Capacity := adsc_Capacity b |}.
Definition DeviceClassSourceConfig_WithCapacity (value : option DeviceClassCapacitySourceApplyConfiguration)
    (b : DeviceClassSourceConfigApplyConfiguration) : DeviceClassSourceConfigApplyConfiguration :=
  {| adsc_Type := adsc_Type b; adsc_Counter := adsc_Counter b; adsc_Capacity := value |}.

(** *** deviceclassmapping.go *)

Record DeviceClassMappingApplyConfiguration := {
  adm_Name : option string;
  adm_DeviceClassNames : list string;
  adm_Sources : list DeviceClassSourceConfigApplyConfiguration;
}.
Definition DeviceClassMapping : DeviceClassMappingApplyConfiguration :=
  {| adm_Name := None; adm_DeviceClassNames := []; adm_Sources := [] |}.
Definition DeviceClassMapping_WithName (value : string)
    (b : DeviceClassMappingApplyConfiguration) : DeviceClassMappingApplyConfiguration :=
  {| adm_Name := Some value; adm_DeviceClassNames := adm_DeviceClassNames b;
     adm_Sources := adm_Sources b |}.
Definition DeviceClassMapping_WithDeviceClassNames (values : list string)
    (b : DeviceClassMappingApplyConfiguration) : DeviceClassMappingApplyConfiguration :=
  {| adm_Name := adm_Name b; adm_DeviceClassNames := adm_DeviceClassNames b ++ values;
     adm_Sources := adm_Sources b |}.
Definition DeviceClassMapping_WithSources (values : list (option DeviceClassSourceConfigApplyConfiguration))
    (b : DeviceClassMappingApplyConfiguration) : res DeviceClassMappingApplyConfiguration :=
  rlet values := non_nil "nil value passed to WithSources" values in
  Ok {| adm_Name := adm_Name b; adm_DeviceClassNames := adm_DeviceClassNames b;
     adm_Sources := adm_Sources b ++ values |}.

(** *** resources.go *)

Record ResourcesApplyConfiguration := {
  arc_DeviceClassMappings : list DeviceClassMappingApplyConfiguration;
}.
Definition Resources : ResourcesApplyConfiguration :=
  {| arc_DeviceClassMappings := [] |}.
Definition Resources_WithDeviceClassMappings (values : list (option DeviceClassMappingApplyConfiguration))
    (b : ResourcesApplyConfiguration) : res ResourcesApplyConfiguration :=
  rlet values := non_nil "nil value passed to WithDeviceClassMappings" values in
  Ok {| arc_DeviceClassMappings := arc_DeviceClassMappings b ++ values |}.

(** *** externalframework.go *)

Record ExternalFrameworkApplyConfiguration := {
  aef_Group : option string;
  aef_Resource : option string;
  aef_Version : option string;
}.
Definition ExternalFramework : ExternalFrameworkApplyConfiguration :=
  {| aef_Group := None; aef_Resource := None; aef_Version := None |}.
Definition ExternalFramework_WithGroup (value : string)
    (b : ExternalFrameworkApplyConfiguration) : ExternalFrameworkApplyConfiguration :=
  {| aef_Group := Some value; aef_Resource := aef_Resource b; aef_Version := aef_Version b |}.
Definition ExternalFramework_WithResource (value : string)
    (b : ExternalFrameworkApplyConfiguration) : ExternalFrameworkApplyConfiguration :=
  {| aef_Group := aef_Group b; aef_Resource := Some value; aef_Version := aef_Version b |}.
Definition ExternalFramework_WithVersion (value : string)
    (b : ExternalFrameworkApplyConfiguration) : ExternalFrameworkApplyConfiguration :=
  {| aef_Group := aef_Group b; aef_Resource := aef_Resource b; aef_Version := Some value |}.

(** *** labelkeys.go *)

Record LabelKeysApplyConfiguration := {
  alk_Key : option string;
}.
Definition LabelKeys : LabelKeysApplyConfiguration :=
  {| alk_Key := None |}.
Definition LabelKeys_WithKey (value : string)
    (b : LabelKeysApplyConfiguration) : LabelKeysApplyConfiguration :=
  {| alk_Key := Some value |}.

(** *** integrations.go *)

Record IntegrationsApplyConfiguration := {
  ain_Frameworks : list string;
  ain_ExternalFrameworks : list ExternalFrameworkApplyConfiguration;
  ain_LabelKeysToCopy : list LabelKeysApplyConfiguration;
}.
Definition Integrations : IntegrationsApplyConfiguration :=
  {| ain_Frameworks := []; ain_ExternalFrameworks := []; ain_LabelKeysToCopy := [] |}.
Definition Integrations_WithFrameworks (values : list string)
    (b : IntegrationsApplyConfiguration) : IntegrationsApplyConfiguration :=
  {| ain_Frameworks := ain_Frameworks b ++ values;
     ain_ExternalFrameworks := ain_ExternalFrameworks b;
     ain_LabelKeysToCopy := ain_LabelKeysToCopy b |}.
Definition Integrations_WithExternalFrameworks (values : list (option ExternalFrameworkApplyConfiguration))
    (b : IntegrationsApplyConfiguration) : res IntegrationsApplyConfiguration :=
  rlet values := non_nil "nil value passed to WithExternalFrameworks" values in
  Ok {| ain_Frameworks := ain_Frameworks b;
     ain_ExternalFrameworks := ain_ExternalFrameworks b ++ values;
     ain_LabelKeysToCopy := ain_LabelKeysToCopy b |}.
Definition Integrations_WithLabelKeysToCopy (values : list (option LabelKeysApplyConfiguration))
    (b : IntegrationsApplyConfiguration) : res IntegrationsApplyConfiguration :=
  rlet values := non_nil "nil value passed to WithLabelKeysToCopy" values in
  Ok {| ain_Frameworks := ain_Frameworks b; ain_ExternalFrameworks := ain_ExternalFrameworks b;
     ain_LabelKeysToCopy := ain_LabelKeysToCopy b ++ values |}.

(** *** multikueue.go *)

Record MultiKueueApplyConfiguration := {
  amk_ExternalFrameworks : list ExternalFrameworkApplyConfiguration;
}.
Definition MultiKueue : MultiKueueApplyConfiguration :=
  {| amk_ExternalFrameworks := [] |}.
Definition MultiKueue_WithExternalFrameworks (values : list (option ExternalFrameworkApplyConfiguration))
    (b : MultiKueueApplyConfiguration) : res MultiKueueApplyConfiguration :=
  rlet values := non_nil "nil value passed to WithExternalFrameworks" values in
  Ok {| amk_ExternalFrameworks := amk_ExternalFrameworks b ++ values |}.

(** *** preemption.go *)

Record PreemptionApplyConfiguration := {
  apr_PreemptionPolicy : option string;
}.
Definition Preemption : PreemptionApplyConfiguration :=
  {| apr_PreemptionPolicy := None |}.
Definition Preemption_WithPreemptionPolicy (value : string)
    (b : PreemptionApplyConfiguration) : PreemptionApplyConfiguration :=
  {| apr_PreemptionPolicy := Some value |}.

(** *** requeuingstrategy.go *)

Record RequeuingStrategyApplyConfiguration := {
  ars_TimeReference : option string;
  ars_RetryLimit : option Z;
  ars_BackoffBaseSeconds : option Z;
  ars_BackoffMaxSeconds : option Z;
}.
Definition RequeuingStrategy : RequeuingStrategyApplyConfiguration :=
  {| ars_TimeReference := None; ars_RetryLimit := None; ars_BackoffBaseSeconds := None;
     ars_BackoffMaxSeconds := None |}.
Definition RequeuingStrategy_WithTimeReference (value : string)
    (b : RequeuingStrategyApplyConfiguration) : RequeuingStrategyApplyConfiguration :=
  {| ars_TimeReference := Some value; ars_RetryLimit := ars_RetryLimit b;
     ars_BackoffBaseSeconds := ars_BackoffBaseSeconds b;
     ars_BackoffMaxSeconds := ars_BackoffMaxSeconds b |}.
Definition RequeuingStrategy_WithRetryLimit (value : Z)
    (b : RequeuingStrategyApplyConfiguration) : RequeuingStrategyApplyConfiguration :=
  {| ars_TimeReference := ars_TimeReference b; ars_RetryLimit := Some value;
     ars_BackoffBaseSeconds := ars_BackoffBaseSeconds b;
     ars_BackoffMaxSeconds := ars_BackoffMaxSeconds b |}.
Definition RequeuingStrategy_WithBackoffBaseSeconds (value : Z)
    (b : RequeuingStrategyApplyConfiguration) : RequeuingStrategyApplyConfiguration :=
  {| ars_TimeReference := ars_TimeReference b; ars_RetryLimit := ars_RetryLimit b;
     ars_BackoffBaseSeconds := Some value; ars_BackoffMaxSeconds := ars_BackoffMaxSeconds b |}.
Definition RequeuingStrategy_WithBackoffMaxSeconds (value : Z)
    (b : RequeuingStrategyApplyConfiguration) : RequeuingStrategyApplyConfiguration :=
  {| ars_TimeReference := ars_TimeReference b; ars_RetryLimit := ars_RetryLimit b;
     ars_BackoffBaseSeconds := ars_BackoffBaseSeconds b; ars_BackoffMaxSeconds := Some value |}.

(** *** byworkload.go *)

Record ByWorkloadApplyConfiguration := {
  abw_Admission : option string;
  abw_TimeoutSeconds : option Z;
  abw_RecoveryTimeoutSeconds : option Z;
  abw_RequeuingStrategy : option RequeuingStrategyApplyConfiguration;
}.
Definition ByWorkload : ByWorkloadApplyConfiguration :=
  {| abw_Admission := None; abw_TimeoutSeconds := None; abw_RecoveryTimeoutSeconds := None;
     abw_RequeuingStrategy := None |}.
Definition ByWorkload_WithAdmission (value : string)
    (b : ByWorkloadApplyConfiguration) : ByWorkloadApplyConfiguration :=
  {| abw_Admission := Some value; abw_TimeoutSeconds := abw_TimeoutSeconds b;
     abw_RecoveryTimeoutSeconds := abw_RecoveryTimeoutSeconds b;
     abw_RequeuingStrategy := abw_RequeuingStrategy b |}.
Definition ByWorkload_WithTimeoutSeconds (value : Z)
    (b : ByWorkloadApplyConfiguration) : ByWorkloadApplyConfiguration :=
  {| abw_Admission := abw_Admission b; abw_TimeoutSeconds := Some value;
     abw_RecoveryTimeoutSeconds := abw_RecoveryTimeoutSeconds b;
     abw_RequeuingStrategy := abw_RequeuingStrategy b |}.
Definition ByWorkload_WithRecoveryTimeoutSeconds (value : Z)
    (b : ByWorkloadApplyConfiguration) : ByWorkloadApplyConfiguration :=
  {| abw_Admission := abw_Admission b; abw_TimeoutSeconds := abw_TimeoutSeconds b;
     abw_RecoveryTimeoutSeconds := Some value;
     abw_RequeuingStrategy := abw_RequeuingStrategy b |}.
Definition ByWorkload_WithRequeuingStrategy (value : option RequeuingStrategyApplyConfiguration)
    (b : ByWorkloadApplyConfiguration) : ByWorkloadApplyConfiguration :=
  {| abw_Admission := abw_Admission b; abw_TimeoutSeconds := abw_TimeoutSeconds b;
     abw_RecoveryTimeoutSeconds := abw_RecoveryTimeoutSeconds b;
     abw_RequeuingStrategy := value |}.

(** *** gangscheduling.go *)

Record GangSchedulingApplyConfiguration := {
  ags_Policy : option string;
  ags_ByWorkload : option ByWorkloadApplyConfiguration;
}.
Definition GangScheduling : GangSchedulingApplyConfiguration :=
  {| ags_Policy := None; ags_ByWorkload := None |}.
Definition GangScheduling_WithPolicy (value : string)
    (b : GangSchedulingApplyConfiguration) : GangSchedulingApplyConfiguration :=
  {| ags_Policy := Some value; ags_ByWorkload := ags_ByWorkload b |}.
Definition GangScheduling_WithByWorkload (value : option ByWorkloadApplyConfiguration)
    (b : GangSchedulingApplyConfiguration) : GangSchedulingApplyConfiguration :=
  {| ags_Policy := ags_Policy b; ags_ByWorkload := value |}.

(** *** resourceweight.go *)

Record ResourceWeightApplyConfiguration := {
  arw_Name : option string;
  arw_Weight : option string;
}.
Definition ResourceWeight : ResourceWeightApplyConfiguration :=
  {| arw_Name := None; arw_Weight := None |}.
Definition ResourceWeight_WithName (value : string)
    (b : ResourceWeightApplyConfiguration) : ResourceWeightApplyConfiguration :=
  {| arw_Name := Some value; arw_Weight := arw_Weight b |}.
Definition ResourceWeight_WithWeight (value : string)
    (b : ResourceWeightApplyConfiguration) : ResourceWeightApplyConfiguration :=
  {| arw_Name := arw_Name b; arw_Weight := Some value |}.

(** *** admissionfairsharingcustom.go *)

Record AdmissionFairSharingCustomApplyConfiguration := {
  aafc_UsageHalfLifeTimeSeconds : option Z;
  aafc_UsageSamplingIntervalSeconds : option Z;
  aafc_ResourceWeights : list ResourceWeightApplyConfiguration;
}.
Definition AdmissionFairSharingCustom : AdmissionFairSharingCustomApplyConfiguration :=
  {| aafc_UsageHalfLifeTimeSeconds := None; aafc_UsageSamplingIntervalSeconds := None;
     aafc_ResourceWeights := [] |}.
Definition AdmissionFairSharingCustom_WithUsageHalfLifeTimeSeconds (value : Z)
    (b : AdmissionFairSharingCustomApplyConfiguration) : AdmissionFairSharingCustomApplyConfiguration :=
  {| aafc_UsageHalfLifeTimeSeconds := Some value;
     aafc_UsageSamplingIntervalSeconds := aafc_UsageSamplingIntervalSeconds b;
     aafc_ResourceWeights := aafc_ResourceWeights b |}.
Definition AdmissionFairSharingCustom_WithUsageSamplingIntervalSeconds (value : Z)
    (b : AdmissionFairSharingCustomApplyConfiguration) : AdmissionFairSharingCustomApplyConfiguration :=
  {| aafc_UsageHalfLifeTimeSeconds := aafc_UsageHalfLifeTimeSeconds b;
     aafc_UsageSamplingIntervalSeconds := Some value;
     aafc_ResourceWeights := aafc_ResourceWeights b |}.
Definition AdmissionFairSharingCustom_WithResourceWeights (values : list (option ResourceWeightApplyConfiguration))
    (b : AdmissionFairSharingCustomApplyConfiguration) : res AdmissionFairSharingCustomApplyConfiguration :=
  rlet values := non_nil "nil value passed to WithResourceWeights" values in
  Ok {| aafc_UsageHalfLifeTimeSeconds := aafc_UsageHalfLifeTimeSeconds b;
     aafc_UsageSamplingIntervalSeconds := aafc_UsageSamplingIntervalSeconds b;
     aafc_ResourceWeights := aafc_ResourceWeights b ++ values |}.

(** *** admissionfairsharing.go *)

Record AdmissionFairSharingApplyConfiguration := {
  aafs_Configuration : option string;
  aafs_Custom : option AdmissionFairSharingCustomApplyConfiguration;
}.
Definition AdmissionFairSharing : AdmissionFairSharingApplyConfiguration :=
  {| aafs_Configuration := None; aafs_Custom := None |}.
Definition AdmissionFairSharing_WithConfiguration (value : string)
    (b : AdmissionFairSharingApplyConfiguration) : AdmissionFairSharingApplyConfiguration :=
  {| aafs_Configuration := Some value; aafs_Custom := aafs_Custom b |}.
Definition AdmissionFairSharing_WithCustom (value : option AdmissionFairSharingCustomApplyConfiguration)
    (b : AdmissionFairSharingApplyConfiguration) : AdmissionFairSharingApplyConfiguration :=
  {| aafs_Configuration := aafs_Configuration b; aafs_Custom := value |}.

(** *** sourcekeyannotation.go *)

Record SourceKeyAnnotationApplyConfiguration := {
  aska_Key : option string;
}.
Definition SourceKeyAnnotation : SourceKeyAnnotationApplyConfiguration :=
  {| aska_Key := None |}.
Definition SourceKeyAnnotation_WithKey (value : string)
    (b : SourceKeyAnnotationApplyConfiguration) : SourceKeyAnnotationApplyConfiguration :=
  {| aska_Key := Some value |}.

(** *** sourcekeylabel.go *)

Record SourceKeyLabelApplyConfiguration := {
  askl_Key : option string;
}.
Definition SourceKeyLabel : SourceKeyLabelApplyConfiguration :=
  {| askl_Key := None |}.
Definition SourceKeyLabel_WithKey (value : string)
    (b : SourceKeyLabelApplyConfiguration) : SourceKeyLabelApplyConfiguration :=
  {| askl_Key := Some value |}.

(** *** sourcekey.go *)

Record SourceKeyApplyConfiguration := {
  ask_SourceType : option string;
  ask_Label : option SourceKeyLabelApplyConfiguration;
  ask_Annotation : option SourceKeyAnnotationApplyConfiguration;
}.
Definition SourceKey : SourceKeyApplyConfiguration :=
  {| ask_SourceType := None; ask_Label := None; ask_Annotation := None |}.
Definition SourceKey_WithSourceType (value : string)
    (b : SourceKeyApplyConfiguration) : SourceKeyApplyConfiguration :=
  {| ask_SourceType := Some value; ask_Label := ask_Label b;
     ask_Annotation := ask_Annotation b |}.
Definition SourceKey_WithLabel (value : option SourceKeyLabelApplyConfiguration)
    (b : SourceKeyApplyConfiguration) : SourceKeyApplyConfiguration :=
  {| ask_SourceType := ask_SourceType b; ask_Label := value;
     ask_Annotation := ask_Annotation b |}.
Definition SourceKey_WithAnnotation (value : option SourceKeyAnnotationApplyConfiguration)
    (b : SourceKeyApplyConfiguration) : SourceKeyApplyConfiguration :=
  {| ask_SourceType := ask_SourceType b; ask_Label := ask_Label b; ask_Annotation := value |}.

(** *** controllermetricscustomlabel.go *)

Record ControllerMetricsCustomLabelApplyConfiguration := {
  acml_Name : option string;
  acml_SourceKey : option SourceKeyApplyConfiguration;
  acml_SourceKind : option string;
}.
Definition ControllerMetricsCustomLabel : ControllerMetricsCustomLabelApplyConfiguration :=
  {| acml_Name := None; acml_SourceKey := None; acml_SourceKind := None |}.
Definition ControllerMetricsCustomLabel_WithName (value : string)
    (b : ControllerMetricsCustomLabelApplyConfiguration) : ControllerMetricsCustomLabelApplyConfiguration :=
  {| acml_Name := Some value; acml_SourceKey := acml_SourceKey b;
     acml_SourceKind := acml_SourceKind b |}.
Definition ControllerMetricsCustomLabel_WithSourceKey (value : option SourceKeyApplyConfiguration)
    (b : ControllerMetricsCustomLabelApplyConfiguration) : ControllerMetricsCustomLabelApplyConfiguration :=
  {| acml_Name := acml_Name b; acml_SourceKey := value; acml_SourceKind := acml_SourceKind b |}.
Definition ControllerMetricsCustomLabel_WithSourceKind (value : string)
    (b : ControllerMetricsCustomLabelApplyConfiguration) : ControllerMetricsCustomLabelApplyConfiguration :=
  {| acml_Name := acml_Name b; acml_SourceKey := acml_SourceKey b;
     acml_SourceKind := Some value |}.

(** *** controllermetrics.go *)

Record ControllerMetricsApplyConfiguration := {
  acm_CustomLabels : list ControllerMetricsCustomLabelApplyConfiguration;
}.
Definition ControllerMetrics : ControllerMetricsApplyConfiguration :=
  {| acm_CustomLabels := [] |}.
Definition ControllerMetrics_WithCustomLabels (values : list (option ControllerMetricsCustomLabelApplyConfiguration))
    (b : ControllerMetricsApplyConfiguration) : res ControllerMetricsApplyConfiguration :=
  rlet values := non_nil "nil value passed to WithCustomLabels" values in
  Ok {| acm_CustomLabels := acm_CustomLabels b ++ values |}.

(** *** controllermanager.go *)

Record ControllerManagerApplyConfiguration := {
  acmgr_Metrics : option ControllerMetricsApplyConfiguration;
}.
Definition ControllerManager : ControllerManagerApplyConfiguration :=
  {| acmgr_Metrics := None |}.
Definition ControllerManager_WithMetrics (value : option ControllerMetricsApplyConfiguration)
    (b : ControllerManagerApplyConfiguration) : ControllerManagerApplyConfiguration :=
  {| acmgr_Metrics := value |}.

(** *** workloadmanagement.go *)

Record WorkloadManagementApplyConfiguration := {
  awm_LabelPolicy : option string;
}.
Definition WorkloadManagement : WorkloadManagementApplyConfiguration :=
  {| awm_LabelPolicy := None |}.
Definition WorkloadManagement_WithLabelPolicy (value : string)
    (b : WorkloadManagementApplyConfiguration) : WorkloadManagementApplyConfiguration :=
  {| awm_LabelPolicy := Some value |}.

(** *** kueueconfiguration.go *)

Record KueueConfigurationApplyConfiguration := {
  akc_Integrations : option IntegrationsApplyConfiguration;
  akc_WorkloadManagement : option WorkloadManagementApplyConfiguration;
  akc_GangScheduling : option GangSchedulingApplyConfiguration;
  akc_Preemption : option PreemptionApplyConfiguration;
  akc_Resources : option ResourcesApplyConfiguration;
  akc_MultiKueue : option MultiKueueApplyConfiguration;
  akc_AdmissionFairSharing : option AdmissionFairSharingApplyConfiguration;
  akc_ControllerManager : option ControllerManagerApplyConfiguration;
}.
Definition KueueConfiguration : KueueConfigurationApplyConfiguration :=
  {| akc_Integrations := None; akc_WorkloadManagement := None; akc_GangScheduling := None;
     akc_Preemption := None; akc_Resources := None; akc_MultiKueue := None;
     akc_AdmissionFairSharing := None; akc_ControllerManager := None |}.
Definition KueueConfiguration_WithIntegrations (value : option IntegrationsApplyConfiguration)
    (b : KueueConfigurationApplyConfiguration) : KueueConfigurationApplyConfiguration :=
  {| akc_Integrations := value; akc_WorkloadManagement := akc_WorkloadManagement b;
     akc_GangScheduling := akc_GangScheduling b; akc_Preemption := akc_Preemption b;
     akc_Resources := akc_Resources b; akc_MultiKueue := akc_MultiKueue b;
     akc_AdmissionFairSharing := akc_AdmissionFairSharing b;
     akc_ControllerManager := akc_ControllerManager b |}.
Definition KueueConfiguration_WithWorkloadManagement (value : option WorkloadManagementApplyConfiguration)
    (b : KueueConfigurationApplyConfiguration) : KueueConfigurationApplyConfiguration :=
  {| akc_Integrations := akc_Integrations b; akc_WorkloadManagement := value;
     akc_GangScheduling := akc_GangScheduling b; akc_Preemption := akc_Preemption b;
     akc_Resources := akc_Resources b; akc_MultiKueue := akc_MultiKueue b;
     akc_AdmissionFairSharing := akc_AdmissionFairSharing b;
     akc_ControllerManager := akc_ControllerManager b |}.
Definition KueueConfiguration_WithGangScheduling (value : option GangSchedulingApplyConfiguration)
    (b : KueueConfigurationApplyConfiguration) : KueueConfigurationApplyConfiguration :=
  {| akc_Integrations := akc_Integrations b; akc_WorkloadManagement := akc_WorkloadManagement b;
     akc_GangScheduling := value; akc_Preemption := akc_Preemption b;
     akc_Resources := akc_Resources b; akc_MultiKueue := akc_MultiKueue b;
     akc_AdmissionFairSharing := akc_AdmissionFairSharing b;
     akc_ControllerManager := akc_ControllerManager b |}.
Definition KueueConfiguration_WithPreemption (value : option PreemptionApplyConfiguration)
    (b : KueueConfigurationApplyConfiguration) : KueueConfigurationApplyConfiguration :=
  {| akc_Integrations := akc_Integrations b; akc_WorkloadManagement := akc_WorkloadManagement b;
     akc_GangScheduling := akc_GangScheduling b; akc_Preemption := value;
     akc_Resources := akc_Resources b; akc_MultiKueue := akc_MultiKueue b;
     akc_AdmissionFairSharing := akc_AdmissionFairSharing b;
     akc_ControllerManager := akc_ControllerManager b |}.
Definition KueueConfiguration_WithResources (value : option ResourcesApplyConfiguration)
    (b : KueueConfigurationApplyConfiguration) : KueueConfigurationApplyConfiguration :=
  {| akc_Integrations := akc_Integrations b; akc_WorkloadManagement := akc_WorkloadManagement b;
     akc_GangScheduling := akc_GangScheduling b; akc_Preemption := akc_Preemption b;
     akc_Resources := value; akc_MultiKueue := akc_MultiKueue b;
     akc_AdmissionFairSharing := akc_AdmissionFairSharing b;
     akc_ControllerManager := akc_ControllerManager b |}.
Definition KueueConfiguration_WithMultiKueue (value : option MultiKueueApplyConfiguration)
    (b : KueueConfigurationApplyConfiguration) : KueueConfigurationApplyConfiguration :=
  {| akc_Integrations := akc_Integrations b; akc_WorkloadManagement := akc_WorkloadManagement b;
     akc_GangScheduling := akc_GangScheduling b; akc_Preemption := akc_Preemption b;
     akc_Resources := akc_Resources b; akc_MultiKueue := value;
     akc_AdmissionFairSharing := akc_AdmissionFairSharing b;
     akc_ControllerManager := akc_ControllerManager b |}.
Definition KueueConfiguration_WithAdmissionFairSharing (value : option AdmissionFairSharingApplyConfiguration)
    (b : KueueConfigurationApplyConfiguration) : KueueConfigurationApplyConfiguration :=
  {| akc_Integrations := akc_Integrations b; akc_WorkloadManagement := akc_WorkloadManagement b;
     akc_GangScheduling := akc_GangScheduling b; akc_Preemption := akc_Preemption b;
     akc_Resources := akc_Resources b; akc_MultiKueue := akc_MultiKueue b;
     akc_AdmissionFairSharing := value; akc_ControllerManager := akc_ControllerManager b |}.
Definition KueueConfiguration_WithControllerManager (value : option ControllerManagerApplyConfiguration)
    (b : KueueConfigurationApplyConfiguration) : KueueConfigurationApplyConfiguration :=
  {| akc_Integrations := akc_Integrations b; akc_WorkloadManagement := akc_WorkloadManagement b;
     akc_GangScheduling := akc_GangScheduling b; akc_Preemption := akc_Preemption b;
     akc_Resources := akc_Resources b; akc_MultiKueue := akc_MultiKueue b;
     akc_AdmissionFairSharing := akc_AdmissionFairSharing b; akc_ControllerManager := value |}.

(** *** kueueoperandspec.go *)

Record KueueOperandSpecApplyConfiguration := {
  aks_OperatorSpecApplyConfiguration : OperatorSpecApplyConfiguration;
  aks_Config : option KueueConfigurationApplyConfiguration;
}.
Definition KueueOperandSpec : KueueOperandSpecApplyConfiguration :=
  {| aks_OperatorSpecApplyConfiguration := zero_OperatorSpecApplyConfiguration;
     aks_Config := None |}.
Definition KueueOperandSpec_WithManagementState (value : string)
    (b : KueueOperandSpecApplyConfiguration) : KueueOperandSpecApplyConfiguration :=
  {| aks_OperatorSpecApplyConfiguration :=
       aos_set_ManagementState (Some value) (aks_OperatorSpecApplyConfiguration b);
     aks_Config := aks_Config b |}.
Definition KueueOperandSpec_WithLogLevel (value : string)
    (b : KueueOperandSpecApplyConfiguration) : KueueOperandSpecApplyConfiguration :=
  {| aks_OperatorSpecApplyConfiguration :=
       aos_set_LogLevel (Some value) (aks_OperatorSpecApplyConfiguration b);
     aks_Config := aks_Config b |}.
Definition KueueOperandSpec_WithOperatorLogLevel (value : string)
    (b : KueueOperandSpecApplyConfiguration) : KueueOperandSpecApplyConfiguration :=
  {| aks_OperatorSpecApplyConfiguration :=
       aos_set_OperatorLogLevel (Some value) (aks_OperatorSpecApplyConfiguration b);
     aks_Config := aks_Config b |}.
Definition KueueOperandSpec_WithUnsupportedConfigOverrides (value : json)
    (b : KueueOperandSpecApplyConfiguration) : KueueOperandSpecApplyConfiguration :=
  {| aks_OperatorSpecApplyConfiguration :=
       aos_set_UnsupportedConfigOverrides (Some value) (aks_OperatorSpecApplyConfiguration b);
     aks_Config := aks_Config b |}.
Definition KueueOperandSpec_WithObservedConfig (value : json)
    (b : KueueOperandSpecApplyConfiguration) : KueueOperandSpecApplyConfiguration :=
  {| aks_OperatorSpecApplyConfiguration :=
       aos_set_ObservedConfig (Some value) (aks_OperatorSpecApplyConfiguration b);
     aks_Config := aks_Config b |}.
Definition KueueOperandSpec_WithConfig (value : option KueueConfigurationApplyConfiguration)
    (b : KueueOperandSpecApplyConfiguration) : KueueOperandSpecApplyConfiguration :=
  {| aks_OperatorSpecApplyConfiguration := aks_OperatorSpecApplyConfiguration b;
     aks_Config := value |}.

(** *** kueuestatus.go *)

Record KueueStatusApplyConfiguration := {
  akst_OperatorStatusApplyConfiguration : OperatorStatusApplyConfiguration;
}.
Definition KueueStatus : KueueStatusApplyConfiguration :=
  {| akst_OperatorStatusApplyConfiguration := zero_OperatorStatusApplyConfiguration |}.
Definition KueueStatus_WithObservedGeneration (value : Z)
    (b : KueueStatusApplyConfiguration) : KueueStatusApplyConfiguration :=
  {| akst_OperatorStatusApplyConfiguration :=
       aost_set_ObservedGeneration (Some value) (akst_OperatorStatusApplyConfiguration b) |}.
Definition KueueStatus_WithConditions (values : list (option OperatorConditionApply))
    (b : KueueStatusApplyConfiguration) : res KueueStatusApplyConfiguration :=
  rlet values := non_nil "nil value passed to WithConditions" values in
  Ok {| akst_OperatorStatusApplyConfiguration :=
       aost_set_Conditions (aost_Conditions (akst_OperatorStatusApplyConfiguration b) ++ values) (akst_OperatorStatusApplyConfiguration b) |}.
Definition KueueStatus_WithVersion (value : string)
    (b : KueueStatusApplyConfiguration) : KueueStatusApplyConfiguration :=
  {| akst_OperatorStatusApplyConfiguration :=
       aost_set_Version (Some value) (akst_OperatorStatusApplyConfiguration b) |}.
Definition KueueStatus_WithReadyReplicas (value : Z)
    (b : KueueStatusApplyConfiguration) : KueueStatusApplyConfiguration :=
  {| akst_OperatorStatusApplyConfiguration :=
       aost_set_ReadyReplicas (Some value) (akst_OperatorStatusApplyConfiguration b) |}.
Definition KueueStatus_WithLatestAvailableRevision (value : Z)
    (b : KueueStatusApplyConfiguration) : KueueStatusApplyConfiguration :=
  {| akst_OperatorStatusApplyConfiguration :=
       aost_set_LatestAvailableRevision (Some value) (akst_OperatorStatusApplyConfiguration b) |}.
Definition KueueStatus_WithGenerations (values : list (option GenerationStatusApplyConfiguration))
    (b : KueueStatusApplyConfiguration) : res KueueStatusApplyConfiguration :=
  rlet values := non_nil "nil value passed to WithGenerations" values in
  Ok {| akst_OperatorStatusApplyConfiguration :=
       aost_set_Generations (aost_Generations (akst_OperatorStatusApplyConfiguration b) ++ values) (akst_OperatorStatusApplyConfiguration b) |}.

(** *** kueue.go *)

Record KueueApplyConfiguration := {
  aku_TypeMetaApplyConfiguration : TypeMetaApplyConfiguration;
  aku_ObjectMetaApplyConfiguration : option ObjectMetaApplyConfiguration;
  aku_Spec : option KueueOperandSpecApplyConfiguration;
  aku_Status : option KueueStatusApplyConfiguration;
}.
Definition zero_Kueue : KueueApplyConfiguration :=
  {| aku_TypeMetaApplyConfiguration := zero_TypeMetaApplyConfiguration;
     aku_ObjectMetaApplyConfiguration := None; aku_Spec := None; aku_Status := None |}.
Definition ensureObjectMetaApplyConfigurationExists (b : KueueApplyConfiguration) : ObjectMetaApplyConfiguration :=
  default zero_ObjectMetaApplyConfiguration (aku_ObjectMetaApplyConfiguration b).
Definition Kueue_WithKind (value : string)
    (b : KueueApplyConfiguration) : KueueApplyConfiguration :=
  {| aku_TypeMetaApplyConfiguration :=
       atm_set_Kind (Some value) (aku_TypeMetaApplyConfiguration b);
     aku_ObjectMetaApplyConfiguration := aku_ObjectMetaApplyConfiguration b;
     aku_Spec := aku_Spec b; aku_Status := aku_Status b |}.
Definition Kueue_WithAPIVersion (value : string)
    (b : KueueApplyConfiguration) : KueueApplyConfiguration :=
  {| aku_TypeMetaApplyConfiguration :=
       atm_set_APIVersion (Some value) (aku_TypeMetaApplyConfiguration b);
     aku_ObjectMetaApplyConfiguration := aku_ObjectMetaApplyConfiguration b;
     aku_Spec := aku_Spec b; aku_Status := aku_Status b |}.
Definition Kueue_WithName (value : string)
    (b : KueueApplyConfiguration) : KueueApplyConfiguration :=
  {| aku_TypeMetaApplyConfiguration := aku_TypeMetaApplyConfiguration b;
     aku_ObjectMetaApplyConfiguration :=
       Some (aom_set_Name (Some value) (ensureObjectMetaApplyConfigurationExists b));
     aku_Spec := aku_Spec b; aku_Status := aku_Status b |}.
Definition Kueue_WithGenerateName (value : string)
    (b : KueueApplyConfiguration) : KueueApplyConfiguration :=
  {| aku_TypeMetaApplyConfiguration := aku_TypeMetaApplyConfiguration b;
     aku_ObjectMetaApplyConfiguration :=
       Some (aom_set_GenerateName (Some value) (ensureObjectMetaApplyConfigurationExists b));
     aku_Spec := aku_Spec b; aku_Status := aku_Status b |}.
Definition Kueue_WithNamespace (value : string)
    (b : KueueApplyConfiguration) : KueueApplyConfiguration :=
  {| aku_TypeMetaApplyConfiguration := aku_TypeMetaApplyConfiguration b;
     aku_ObjectMetaApplyConfiguration :=
       Some (aom_set_Namespace (Some value) (ensureObjectMetaApplyConfigurationExists b));
     aku_Spec := aku_Spec b; aku_Status := aku_Status b |}.
Definition Kueue_WithUID (value : string) (b : KueueApplyConfiguration) : KueueApplyConfiguration :=
  {| aku_TypeMetaApplyConfiguration := aku_TypeMetaApplyConfiguration b;
     aku_ObjectMetaApplyConfiguration :=
       Some (aom_set_UID (Some value) (ensureObjectMetaApplyConfigurationExists b));
     aku_Spec := aku_Spec b; aku_Status := aku_Status b |}.
Definition Kueue_WithResourceVersion (value : string)
    (b : KueueApplyConfiguration) : KueueApplyConfiguration :=
  {| aku_TypeMetaApplyConfiguration := aku_TypeMetaApplyConfiguration b;
     aku_ObjectMetaApplyConfiguration :=
       Some (aom_set_ResourceVersion (Some value) (ensureObjectMetaApplyConfigurationExists b));
     aku_Spec := aku_Spec b; aku_Status := aku_Status b |}.
Definition Kueue_WithGeneration (value : Z)
    (b : KueueApplyConfiguration) : KueueApplyConfiguration :=
  {| aku_TypeMetaApplyConfiguration := aku_TypeMetaApplyConfiguration b;
     aku_ObjectMetaApplyConfiguration :=
       Some (aom_set_Generation (Some value) (ensureObjectMetaApplyConfigurationExists b));
     aku_Spec := aku_Spec b; aku_Status := aku_Status b |}.
Definition Kueue_WithCreationTimestamp (value : string)
    (b : KueueApplyConfiguration) : KueueApplyConfiguration :=
  {| aku_TypeMetaApplyConfiguration := aku_TypeMetaApplyConfiguration b;
     aku_ObjectMetaApplyConfiguration :=
       Some (aom_set_CreationTimestamp (Some value) (ensureObjectMetaApplyConfigurationExists b));
     aku_Spec := aku_Spec b; aku_Status := aku_Status b |}.
Definition Kueue_WithDeletionTimestamp (value : string)
    (b : KueueApplyConfiguration) : KueueApplyConfiguration :=
  {| aku_TypeMetaApplyConfiguration := aku_TypeMetaApplyConfiguration b;
     aku_ObjectMetaApplyConfiguration :=
       Some (aom_set_DeletionTimestamp (Some value) (ensureObjectMetaApplyConfigurationExists b));
     aku_Spec := aku_Spec b; aku_Status := aku_Status b |}.
Definition Kueue_WithDeletionGracePeriodSeconds (value : Z)
    (b : KueueApplyConfiguration) : KueueApplyConfiguration :=
  {| aku_TypeMetaApplyConfiguration := aku_TypeMetaApplyConfiguration b;
     aku_ObjectMetaApplyConfiguration :=
       Some (aom_set_DeletionGracePeriodSeconds (Some value) (ensureObjectMetaApplyConfigurationExists b));
     aku_Spec := aku_Spec b; aku_Status := aku_Status b |}.
Definition Kueue_WithLabels (entries : list (string * string))
    (b : KueueApplyConfiguration) : res KueueApplyConfiguration :=
  let m := ensureObjectMetaApplyConfigurationExists b in
  let labels := match aom_Labels m with
                | None => if 0 <? length entries then Some ∅ else None
                | Some l => Some l
                end in
  rlet labels := put_entries labels entries in
  Ok {| aku_TypeMetaApplyConfiguration := aku_TypeMetaApplyConfiguration b;
     aku_ObjectMetaApplyConfiguration := Some (aom_set_Labels labels m); aku_Spec := aku_Spec b;
     aku_Status := aku_Status b |}.
Definition Kueue_WithAnnotations (entries : list (string * string))
    (b : KueueApplyConfiguration) : res KueueApplyConfiguration :=
  let m := ensureObjectMetaApplyConfigurationExists b in
  let labels := match aom_Annotations m with
                | None => if 0 <? length entries then Some ∅ else None
                | Some l => Some l
                end in
  rlet labels := put_entries labels entries in
  Ok {| aku_TypeMetaApplyConfiguration := aku_TypeMetaApplyConfiguration b;
     aku_ObjectMetaApplyConfiguration := Some (aom_set_Annotations labels m);
     aku_Spec := aku_Spec b; aku_Status := aku_Status b |}.
Definition Kueue_WithOwnerReferences (values : list (option OwnerReferenceApplyConfiguration))
    (b : KueueApplyConfiguration) : res KueueApplyConfiguration :=
  rlet values := non_nil "nil value passed to WithOwnerReferences" values in
  Ok {| aku_TypeMetaApplyConfiguration := aku_TypeMetaApplyConfiguration b;
     aku_ObjectMetaApplyConfiguration :=
       Some (aom_set_OwnerReferences (aom_OwnerReferences (ensureObjectMetaApplyConfigurationExists b) ++ values) (ensureObjectMetaApplyConfigurationExists b));
     aku_Spec := aku_Spec b; aku_Status := aku_Status b |}.
Definition Kueue_WithFinalizers (values : list string)
    (b : KueueApplyConfiguration) : KueueApplyConfiguration :=
  {| aku_TypeMetaApplyConfiguration := aku_TypeMetaApplyConfiguration b;
     aku_ObjectMetaApplyConfiguration :=
       Some (aom_set_Finalizers (aom_Finalizers (ensureObjectMetaApplyConfigurationExists b) ++ values) (ensureObjectMetaApplyConfigurationExists b));
     aku_Spec := aku_Spec b; aku_Status := aku_Status b |}.
Definition Kueue_WithSpec (value : option KueueOperandSpecApplyConfiguration)
    (b : KueueApplyConfiguration) : KueueApplyConfiguration :=
  {| aku_TypeMetaApplyConfiguration := aku_TypeMetaApplyConfiguration b;
     aku_ObjectMetaApplyConfiguration := aku_ObjectMetaApplyConfiguration b; aku_Spec := value;
     aku_Status := aku_Status b |}.
Definition Kueue_WithStatus (value : option KueueStatusApplyConfiguration)
    (b : KueueApplyConfiguration) : KueueApplyConfiguration :=
  {| aku_TypeMetaApplyConfiguration := aku_TypeMetaApplyConfiguration b;
     aku_ObjectMetaApplyConfiguration := aku_ObjectMetaApplyConfiguration b;
     aku_Spec := aku_Spec b; aku_Status := value |}.
(** *** kueue.go, continued: the resource's own constructor and accessors *)

Definition Kueue (name : string) : KueueApplyConfiguration :=
  Kueue_WithAPIVersion "kueue.openshift.io/v1" (Kueue_WithKind "Kueue" (Kueue_WithName name zero_Kueue)).

Definition Kueue_GetKind (b : KueueApplyConfiguration) : option string :=
  atm_Kind (aku_TypeMetaApplyConfiguration b).
Definition Kueue_GetAPIVersion (b : KueueApplyConfiguration) : option string :=
  atm_APIVersion (aku_TypeMetaApplyConfiguration b).

(** The getters of the metadata allocate it, too: the result and the receiver. *)
Definition Kueue_ensured (b : KueueApplyConfiguration) : KueueApplyConfiguration := {|
  aku_TypeMetaApplyConfiguration := aku_TypeMetaApplyConfiguration b;
  aku_ObjectMetaApplyConfiguration := Some (ensureObjectMetaApplyConfigurationExists b);
  aku_Spec := aku_Spec b; aku_Status := aku_Status b |}.
Definition Kueue_GetName (b : KueueApplyConfiguration) : option string * KueueApplyConfiguration :=
  (aom_Name (ensureObjectMetaApplyConfigurationExists b), Kueue_ensured b).
Definition Kueue_GetNamespace (b : KueueApplyConfiguration) : option string * KueueApplyConfiguration :=
  (aom_Namespace (ensureObjectMetaApplyConfigurationExists b), Kueue_ensured b).

(** [managedfields.ExtractInto] for the schema of the resource: what it writes
    into the empty configuration, or its error. *)
Section extract.
Context (ExtractInto : ApiTypes.Kueue → string → string → error + KueueApplyConfiguration).

Definition ExtractKueueFrom (kueue : ApiTypes.Kueue) (fieldManager subresource : string)
    : error + KueueApplyConfiguration :=
  match ExtractInto kueue fieldManager subresource with
  | inl err => inl err
  | inr b =>
      inr (Kueue_WithAPIVersion "kueue.openshift.io/v1" (Kueue_WithKind "Kueue"
        (Kueue_WithName (om_Name (ku_ObjectMeta kueue)) b)))
  end.
Definition ExtractKueue (kueue : ApiTypes.Kueue) (fieldManager : string) :=
  ExtractKueueFrom kueue fieldManager "".
Definition ExtractKueueStatus (kueue : ApiTypes.Kueue) (fieldManager : string) :=
  ExtractKueueFrom kueue fieldManager "status".
End extract.

(** ** ForKind: utils.go

    An empty configuration of the type of a kind. *)
Inductive configuration : Type :=
  | ForAdmissionFairSharing (c : AdmissionFairSharingApplyConfiguration)
  | ForAdmissionFairSharingCustom (c : AdmissionFairSharingCustomApplyConfiguration)
  | ForByWorkload (c : ByWorkloadApplyConfiguration)
  | ForCELDeviceSelector (c : CELDeviceSelectorApplyConfiguration)
  | ForControllerManager (c : ControllerManagerApplyConfiguration)
  | ForControllerMetrics (c : ControllerMetricsApplyConfiguration)
  | ForControllerMetricsCustomLabel (c : ControllerMetricsCustomLabelApplyConfiguration)
  | ForDeviceClassCapacitySource (c : DeviceClassCapacitySourceApplyConfiguration)
  | ForDeviceClassCounterSource (c : DeviceClassCounterSourceApplyConfiguration)
  | ForDeviceClassMapping (c : DeviceClassMappingApplyConfiguration)
  | ForDeviceClassSourceConfig (c : DeviceClassSourceConfigApplyConfiguration)
  | ForDeviceSelector (c : DeviceSelectorApplyConfiguration)
  | ForExternalFramework (c : ExternalFrameworkApplyConfiguration)
  | ForGangScheduling (c : GangSchedulingApplyConfiguration)
  | ForIntegrations (c : IntegrationsApplyConfiguration)
  | ForKueue (c : KueueApplyConfiguration)
  | ForKueueConfiguration (c : KueueConfigurationApplyConfiguration)
  | ForKueueOperandSpec (c : KueueOperandSpecApplyConfiguration)
  | ForKueueStatus (c : KueueStatusApplyConfiguration)
  | ForLabelKeys (c : LabelKeysApplyConfiguration)
  | ForMultiKueue (c : MultiKueueApplyConfiguration)
  | ForPreemption (c : PreemptionApplyConfiguration)
  | ForRequeuingStrategy (c : RequeuingStrategyApplyConfiguration)
  | ForResources (c : ResourcesApplyConfiguration)
  | ForResourceWeight (c : ResourceWeightApplyConfiguration)
  | ForSourceKey (c : SourceKeyApplyConfiguration)
  | ForSourceKeyAnnotation (c : SourceKeyAnnotationApplyConfiguration)
  | ForSourceKeyLabel (c : SourceKeyLabelApplyConfiguration)
  | ForWorkloadManagement (c : WorkloadManagementApplyConfiguration).

Record GroupVersionKind := { gvk_Group : string; gvk_Version : string; gvk_Kind : string }.
#[export] Instance GroupVersionKind_eq_dec : EqDecision GroupVersionKind.
Proof. solve_decision. Defined.
(** [v1.SchemeGroupVersion.WithKind] *)
Definition WithKind (kind : string) : GroupVersionKind :=
  {| gvk_Group := "kueue.openshift.io"; gvk_Version := "v1"; gvk_Kind := kind |}.

(** The cases of the switch, in order. *)
Definition kindCases : list (GroupVersionKind * configuration) :=
  [(WithKind "AdmissionFairSharing", ForAdmissionFairSharing AdmissionFairSharing);
   (WithKind "AdmissionFairSharingCustom", ForAdmissionFairSharingCustom AdmissionFairSharingCustom);
   (WithKind "ByWorkload", ForByWorkload ByWorkload);
   (WithKind "CELDeviceSelector", ForCELDeviceSelector CELDeviceSelector);
   (WithKind "ControllerManager", ForControllerManager ControllerManager);
   (WithKind "ControllerMetrics", ForControllerMetrics ControllerMetrics);
   (WithKind "ControllerMetricsCustomLabel", ForControllerMetricsCustomLabel ControllerMetricsCustomLabel);
   (WithKind "DeviceClassCapacitySource", ForDeviceClassCapacitySource DeviceClassCapacitySource);
   (WithKind "DeviceClassCounterSource", ForDeviceClassCounterSource DeviceClassCounterSource);
   (WithKind "DeviceClassMapping", ForDeviceClassMapping DeviceClassMapping);
   (WithKind "DeviceClassSourceConfig", ForDeviceClassSourceConfig DeviceClassSourceConfig);
   (WithKind "DeviceSelector", ForDeviceSelector DeviceSelector);
   (WithKind "ExternalFramework", ForExternalFramework ExternalFramework);
   (WithKind "GangScheduling", ForGangScheduling GangScheduling);
   (WithKind "Integrations", ForIntegrations Integrations);
   (WithKind "Kueue", ForKueue zero_Kueue);
   (WithKind "KueueConfiguration", ForKueueConfiguration KueueConfiguration);
   (WithKind "KueueOperandSpec", ForKueueOperandSpec KueueOperandSpec);
   (WithKind "KueueStatus", ForKueueStatus KueueStatus);
   (WithKind "LabelKeys", ForLabelKeys LabelKeys);
   (WithKind "MultiKueue", ForMultiKueue MultiKueue);
   (WithKind "Preemption", ForPreemption Preemption);
   (WithKind "RequeuingStrategy", ForRequeuingStrategy RequeuingStrategy);
   (WithKind "Resources", ForResources Resources);
   (WithKind "ResourceWeight", ForResourceWeight ResourceWeight);
   (WithKind "SourceKey", ForSourceKey SourceKey);
   (WithKind "SourceKeyAnnotation", ForSourceKeyAnnotation SourceKeyAnnotation);
   (WithKind "SourceKeyLabel", ForSourceKeyLabel SourceKeyLabel);
   (WithKind "WorkloadManagement", ForWorkloadManagement WorkloadManagement)].
Definition ForKind (kind : GroupVersionKind) : option configuration :=
  snd <$> List.find (λ c, bool_decide (kind = c.1)) kindCases.

(** ** What a configuration says

    [value] is the API object of a configuration alone: a field that is not
    there has its zero value. [apply] builds the configuration of an object
    with the [With] methods, field by field. *)
Class Applied (X A : Type) := {
  apply : X → res A;
  value : A → X;
  roundtrip x : ∃ a, apply x = Ok a ∧ value a = x;
}.

#[global] Arguments apply : simpl never.
#[global] Arguments value : simpl never.

Lemma roundtrip_list `{Applied X A} (l : list X) :
  ∃ las, res_map apply l = Ok las ∧ value <$> las = l.
Proof.
  induction l as [|x l (las & Hl & Hv)]; [by exists []|].
  destruct (roundtrip x) as (a & Ha & Hx). exists (a :: las). cbn. rewrite Ha, Hl. cbn.
  by rewrite Hx, Hv.
Qed.

Lemma roundtrip_option `{Applied X A} (x : option X) :
  ∃ oa, match x with Some x => rlet a := apply x in Ok (Some a) | None => Ok None end = Ok oa ∧
    value <$> oa = x.
Proof.
  destruct x as [x|]; [|by exists None]. destruct (roundtrip x) as (a & Ha & Hx).
  exists (Some a). rewrite Ha. cbn. by rewrite Hx.
Qed.

Lemma non_nil_Some {A} msg (l : list A) : non_nil msg (Some <$> l) = Ok l.
Proof. induction l as [|a l IH]; cbn; [done|]. by rewrite IH. Qed.

#[local] Ltac round_trip := repeat match goal with
  | |- context [res_map apply ?l] =>
      let a := fresh "a" in let E := fresh "E" in
      destruct (roundtrip_list l) as (a & E & <-); rewrite E; clear E; cbn
  | |- context [apply ?x] =>
      lazymatch x with context [match _ with _ => _ end] => fail | _ => idtac end;
      let a := fresh "a" in let E := fresh "E" in
      destruct (roundtrip x) as (a & E & <-); rewrite E; clear E; cbn
  | |- context [match ?x with Some _ => _ | None => _ end] => is_var x; destruct x; cbn
  | |- context [?with_ (Some <$> ?l) ?b] => unfold with_; rewrite non_nil_Some; cbn
  end; (eexists; split; [reflexivity|]; cbn; reflexivity).

#[export, refine] Instance CELDeviceSelector_applied : Applied ApiTypes.CELDeviceSelector CELDeviceSelectorApplyConfiguration := {|
  apply x :=
    let b := CELDeviceSelector in
    let b := CELDeviceSelector_WithExpression (cel_Expression x) b in
    Ok b;
  value a :=
    {| cel_Expression := default "" (acel_Expression a) |};
  roundtrip := _ |}.
Proof. intros []. cbn. round_trip. Defined.
#[export, refine] Instance DeviceSelector_applied : Applied ApiTypes.DeviceSelector DeviceSelectorApplyConfiguration := {|
  apply x :=
    let b := DeviceSelector in
    let b := DeviceSelector_WithType (ds_Type x) b in
    rlet v := apply (ds_CEL x) in let b := DeviceSelector_WithCEL (Some v) b in
    Ok b;
  value a :=
    {| ds_Type := default "" (ads_Type a);
       ds_CEL := value (default CELDeviceSelector (ads_CEL a)) |};
  roundtrip := _ |}.
Proof. intros []. cbn. round_trip. Defined.
#[export, refine] Instance DeviceClassCapacitySource_applied : Applied ApiTypes.DeviceClassCapacitySource DeviceClassCapacitySourceApplyConfiguration := {|
  apply x :=
    let b := DeviceClassCapacitySource in
    let b := DeviceClassCapacitySource_WithName (dcp_Name x) b in
    let b := DeviceClassCapacitySource_WithDriver (dcp_Driver x) b in
    rlet v := apply (dcp_DeviceSelector x) in let b := DeviceClassCapacitySource_WithDeviceSelector (Some v) b in
    Ok b;
  value a :=
    {| dcp_Name := default "" (adcp_Name a); dcp_Driver := default "" (adcp_Driver a);
       dcp_DeviceSelector := value (default DeviceSelector (adcp_DeviceSelector a)) |};
  roundtrip := _ |}.
Proof. intros []. cbn. round_trip. Defined.
#[export, refine] Instance DeviceClassCounterSource_applied : Applied ApiTypes.DeviceClassCounterSource DeviceClassCounterSourceApplyConfiguration := {|
  apply x :=
    let b := DeviceClassCounterSource in
    let b := DeviceClassCounterSource_WithName (dcn_Name x) b in
    let b := DeviceClassCounterSource_WithDriver (dcn_Driver x) b in
    rlet v := apply (dcn_DeviceSelector x) in let b := DeviceClassCounterSource_WithDeviceSelector (Some v) b in
    Ok b;
  value a :=
    {| dcn_Name := default "" (adcn_Name a); dcn_Driver := default "" (adcn_Driver a);
       dcn_DeviceSelector := value (default DeviceSelector (adcn_DeviceSelector a)) |};
  roundtrip := _ |}.
Proof. intros []. cbn. round_trip. Defined.
#[export, refine] Instance DeviceClassSourceConfig_applied : Applied ApiTypes.DeviceClassSourceConfig DeviceClassSourceConfigApplyConfiguration := {|
  apply x :=
    let b := DeviceClassSourceConfig in
    let b := DeviceClassSourceConfig_WithType (dsc_Type x) b in
    rlet v := apply (dsc_Counter x) in let b := DeviceClassSourceConfig_WithCounter (Some v) b in
    rlet v := apply (dsc_Capacity x) in let b := DeviceClassSourceConfig_WithCapacity (Some v) b in
    Ok b;
  value a :=
    {| dsc_Type := default "" (adsc_Type a);
       dsc_Counter := value (default DeviceClassCounterSource (adsc_Counter a));
       dsc_Capacity := value (default DeviceClassCapacitySource (adsc_Capacity a)) |};
  roundtrip := _ |}.
Proof. intros []. cbn. round_trip. Defined.
#[export, refine] Instance DeviceClassMapping_applied : Applied ApiTypes.DeviceClassMapping DeviceClassMappingApplyConfiguration := {|
  apply x :=
    let b := DeviceClassMapping in
    let b := DeviceClassMapping_WithName (dm_Name x) b in
    let b := DeviceClassMapping_WithDeviceClassNames (dm_DeviceClassNames x) b in
    rlet l := res_map apply (dm_Sources x) in rlet b := DeviceClassMapping_WithSources (Some <$> l) b in
    Ok b;
  value a :=
    {| dm_Name := default "" (adm_Name a); dm_DeviceClassNames := adm_DeviceClassNames a;
       dm_Sources := value <$> adm_Sources a |};
  roundtrip := _ |}.
Proof. intros []. cbn. round_trip. Defined.
#[export, refine] Instance Resources_applied : Applied ApiTypes.Resources ResourcesApplyConfiguration := {|
  apply x :=
    let b := Resources in
    rlet l := res_map apply (rc_DeviceClassMappings x) in rlet b := Resources_WithDeviceClassMappings (Some <$> l) b in
    Ok b;
  value a :=
    {| rc_DeviceClassMappings := value <$> arc_DeviceClassMappings a |};
  roundtrip := _ |}.
Proof. intros []. cbn. round_trip. Defined.
#[export, refine] Instance ExternalFramework_applied : Applied ApiTypes.ExternalFramework ExternalFrameworkApplyConfiguration := {|
  apply x :=
    let b := ExternalFramework in
    let b := ExternalFramework_WithGroup (ef_Group x) b in
    let b := ExternalFramework_WithResource (ef_Resource x) b in
    let b := ExternalFramework_WithVersion (ef_Version x) b in
    Ok b;
  value a :=
    {| ef_Group := default "" (aef_Group a); ef_Resource := default "" (aef_Resource a);
       ef_Version := default "" (aef_Version a) |};
  roundtrip := _ |}.
Proof. intros []. cbn. round_trip. Defined.
#[export, refine] Instance LabelKeys_applied : Applied ApiTypes.LabelKeys LabelKeysApplyConfiguration := {|
  apply x :=
    let b := LabelKeys in
    let b := LabelKeys_WithKey (lk_Key x) b in
    Ok b;
  value a :=
    {| lk_Key := default "" (alk_Key a) |};
  roundtrip := _ |}.
Proof. intros []. cbn. round_trip. Defined.
#[export, refine] Instance Integrations_applied : Applied ApiTypes.Integrations IntegrationsApplyConfiguration := {|
  apply x :=
    let b := Integrations in
    let b := Integrations_WithFrameworks (in_Frameworks x) b in
    rlet l := res_map apply (in_ExternalFrameworks x) in rlet b := Integrations_WithExternalFrameworks (Some <$> l) b in
    rlet l := res_map apply (in_LabelKeysToCopy x) in rlet b := Integrations_WithLabelKeysToCopy (Some <$> l) b in
    Ok b;
  value a :=
    {| in_Frameworks := ain_Frameworks a;
       in_ExternalFrameworks := value <$> ain_ExternalFrameworks a;
       in_LabelKeysToCopy := value <$> ain_LabelKeysToCopy a |};
  roundtrip := _ |}.
Proof. intros []. cbn. round_trip. Defined.
#[export, refine] Instance MultiKueue_applied : Applied ApiTypes.MultiKueue MultiKueueApplyConfiguration := {|
  apply x :=
    let b := MultiKueue in
    rlet l := res_map apply (mk_ExternalFrameworks x) in rlet b := MultiKueue_WithExternalFrameworks (Some <$> l) b in
    Ok b;
  value a :=
    {| mk_ExternalFrameworks := value <$> amk_ExternalFrameworks a |};
  roundtrip := _ |}.
Proof. intros []. cbn. round_trip. Defined.
#[export, refine] Instance Preemption_applied : Applied ApiTypes.Preemption PreemptionApplyConfiguration := {|
  apply x :=
    let b := Preemption in
    let b := Preemption_WithPreemptionPolicy (pr_PreemptionPolicy x) b in
    Ok b;
  value a :=
    {| pr_PreemptionPolicy := default "" (apr_PreemptionPolicy a) |};
  roundtrip := _ |}.
Proof. intros []. cbn. round_trip. Defined.
#[export, refine] Instance RequeuingStrategy_applied : Applied ApiTypes.RequeuingStrategy RequeuingStrategyApplyConfiguration := {|
  apply x :=
    let b := RequeuingStrategy in
    let b := RequeuingStrategy_WithTimeReference (rs_TimeReference x) b in
    let b := RequeuingStrategy_WithRetryLimit (rs_RetryLimit x) b in
    let b := RequeuingStrategy_WithBackoffBaseSeconds (rs_BackoffBaseSeconds x) b in
    let b := RequeuingStrategy_WithBackoffMaxSeconds (rs_BackoffMaxSeconds x) b in
    Ok b;
  value a :=
    {| rs_TimeReference := default "" (ars_TimeReference a);
       rs_RetryLimit := default 0%Z (ars_RetryLimit a);
       rs_BackoffBaseSeconds := default 0%Z (ars_BackoffBaseSeconds a);
       rs_BackoffMaxSeconds := default 0%Z (ars_BackoffMaxSeconds a) |};
  roundtrip := _ |}.
Proof. intros []. cbn. round_trip. Defined.
#[export, refine] Instance ByWorkload_applied : Applied ApiTypes.ByWorkload ByWorkloadApplyConfiguration := {|
  apply x :=
    let b := ByWorkload in
    let b := ByWorkload_WithAdmission (bw_Admission x) b in
    let b := ByWorkload_WithTimeoutSeconds (bw_TimeoutSeconds x) b in
    let b := match bw_RecoveryTimeoutSeconds x with Some v => ByWorkload_WithRecoveryTimeoutSeconds v b | None => b end in
    rlet v := apply (bw_RequeuingStrategy x) in let b := ByWorkload_WithRequeuingStrategy (Some v) b in
    Ok b;
  value a :=
    {| bw_Admission := default "" (abw_Admission a);
       bw_TimeoutSeconds := default 0%Z (abw_TimeoutSeconds a);
       bw_RecoveryTimeoutSeconds := abw_RecoveryTimeoutSeconds a;
       bw_RequeuingStrategy := value (default RequeuingStrategy (abw_RequeuingStrategy a)) |};
  roundtrip := _ |}.
Proof. intros []. cbn. round_trip. Defined.
#[export, refine] Instance GangScheduling_applied : Applied ApiTypes.GangScheduling GangSchedulingApplyConfiguration := {|
  apply x :=
    let b := GangScheduling in
    let b := GangScheduling_WithPolicy (gs_Policy x) b in
    rlet b := match gs_ByWorkload x with
              | Some v => rlet v := apply v in Ok (GangScheduling_WithByWorkload (Some v) b)
              | None => Ok b
              end in
    Ok b;
  value a :=
    {| gs_Policy := default "" (ags_Policy a); gs_ByWorkload := value <$> ags_ByWorkload a |};
  roundtrip := _ |}.
Proof. intros []. cbn. round_trip. Defined.
#[export, refine] Instance ResourceWeight_applied : Applied ApiTypes.ResourceWeight ResourceWeightApplyConfiguration := {|
  apply x :=
    let b := ResourceWeight in
    let b := ResourceWeight_WithName (rw_Name x) b in
    let b := ResourceWeight_WithWeight (rw_Weight x) b in
    Ok b;
  value a :=
    {| rw_Name := default "" (arw_Name a); rw_Weight := default "" (arw_Weight a) |};
  roundtrip := _ |}.
Proof. intros []. cbn. round_trip. Defined.
#[export, refine] Instance AdmissionFairSharingCustom_applied : Applied ApiTypes.AdmissionFairSharingCustom AdmissionFairSharingCustomApplyConfiguration := {|
  apply x :=
    let b := AdmissionFairSharingCustom in
    let b := AdmissionFairSharingCustom_WithUsageHalfLifeTimeSeconds (afc_UsageHalfLifeTimeSeconds x) b in
    let b := AdmissionFairSharingCustom_WithUsageSamplingIntervalSeconds (afc_UsageSamplingIntervalSeconds x) b in
    rlet l := res_map apply (afc_ResourceWeights x) in rlet b := AdmissionFairSharingCustom_WithResourceWeights (Some <$> l) b in
    Ok b;
  value a :=
    {| afc_UsageHalfLifeTimeSeconds := default 0%Z (aafc_UsageHalfLifeTimeSeconds a);
       afc_UsageSamplingIntervalSeconds := default 0%Z (aafc_UsageSamplingIntervalSeconds a);
       afc_ResourceWeights := value <$> aafc_ResourceWeights a |};
  roundtrip := _ |}.
Proof. intros []. cbn. round_trip. Defined.
#[export, refine] Instance AdmissionFairSharing_applied : Applied ApiTypes.AdmissionFairSharing AdmissionFairSharingApplyConfiguration := {|
  apply x :=
    let b := AdmissionFairSharing in
    let b := AdmissionFairSharing_WithConfiguration (afs_Configuration x) b in
    rlet v := apply (afs_Custom x) in let b := AdmissionFairSharing_WithCustom (Some v) b in
    Ok b;
  value a :=
    {| afs_Configuration := default "" (aafs_Configuration a);
       afs_Custom := value (default AdmissionFairSharingCustom (aafs_Custom a)) |};
  roundtrip := _ |}.
Proof. intros []. cbn. round_trip. Defined.
#[export, refine] Instance SourceKeyAnnotation_applied : Applied ApiTypes.SourceKeyAnnotation SourceKeyAnnotationApplyConfiguration := {|
  apply x :=
    let b := SourceKeyAnnotation in
    let b := SourceKeyAnnotation_WithKey (ska_Key x) b in
    Ok b;
  value a :=
    {| ska_Key := default "" (aska_Key a) |};
  roundtrip := _ |}.
Proof. intros []. cbn. round_trip. Defined.
#[export, refine] Instance SourceKeyLabel_applied : Applied ApiTypes.SourceKeyLabel SourceKeyLabelApplyConfiguration := {|
  apply x :=
    let b := SourceKeyLabel in
    let b := SourceKeyLabel_WithKey (skl_Key x) b in
    Ok b;
  value a :=
    {| skl_Key := default "" (askl_Key a) |};
  roundtrip := _ |}.
Proof. intros []. cbn. round_trip. Defined.
#[export, refine] Instance SourceKey_applied : Applied ApiTypes.SourceKey SourceKeyApplyConfiguration := {|
  apply x :=
    let b := SourceKey in
    let b := SourceKey_WithSourceType (sk_SourceType x) b in
    rlet v := apply (sk_Label x) in let b := SourceKey_WithLabel (Some v) b in
    rlet v := apply (sk_Annotation x) in let b := SourceKey_WithAnnotation (Some v) b in
    Ok b;
  value a :=
    {| sk_SourceType := default "" (ask_SourceType a);
       sk_Label := value (default SourceKeyLabel (ask_Label a));
       sk_Annotation := value (default SourceKeyAnnotation (ask_Annotation a)) |};
  roundtrip := _ |}.
Proof. intros []. cbn. round_trip. Defined.
#[export, refine] Instance ControllerMetricsCustomLabel_applied : Applied ApiTypes.ControllerMetricsCustomLabel ControllerMetricsCustomLabelApplyConfiguration := {|
  apply x :=
    let b := ControllerMetricsCustomLabel in
    let b := ControllerMetricsCustomLabel_WithName (cml_Name x) b in
    rlet v := apply (cml_SourceKey x) in let b := ControllerMetricsCustomLabel_WithSourceKey (Some v) b in
    let b := ControllerMetricsCustomLabel_WithSourceKind (cml_SourceKind x) b in
    Ok b;
  value a :=
    {| cml_Name := default "" (acml_Name a);
       cml_SourceKey := value (default SourceKey (acml_SourceKey a));
       cml_SourceKind := default "" (acml_SourceKind a) |};
  roundtrip := _ |}.
Proof. intros []. cbn. round_trip. Defined.
#[export, refine] Instance ControllerMetrics_applied : Applied ApiTypes.ControllerMetrics ControllerMetricsApplyConfiguration := {|
  apply x :=
    let b := ControllerMetrics in
    rlet l := res_map apply (cm_CustomLabels x) in rlet b := ControllerMetrics_WithCustomLabels (Some <$> l) b in
    Ok b;
  value a :=
    {| cm_CustomLabels := value <$> acm_CustomLabels a |};
  roundtrip := _ |}.
Proof. intros []. cbn. round_trip. Defined.
#[export, refine] Instance ControllerManager_applied : Applied ApiTypes.ControllerManager ControllerManagerApplyConfiguration := {|
  apply x :=
    let b := ControllerManager in
    rlet v := apply (cmgr_Metrics x) in let b := ControllerManager_WithMetrics (Some v) b in
    Ok b;
  value a :=
    {| cmgr_Metrics := value (default ControllerMetrics (acmgr_Metrics a)) |};
  roundtrip := _ |}.
Proof. intros []. cbn. round_trip. Defined.
#[export, refine] Instance WorkloadManagement_applied : Applied ApiTypes.WorkloadManagement WorkloadManagementApplyConfiguration := {|
  apply x :=
    let b := WorkloadManagement in
    let b := WorkloadManagement_WithLabelPolicy (wm_LabelPolicy x) b in
    Ok b;
  value a :=
    {| wm_LabelPolicy := default "" (awm_LabelPolicy a) |};
  roundtrip := _ |}.
Proof. intros []. cbn. round_trip. Defined.
#[export, refine] Instance KueueConfiguration_applied : Applied ApiTypes.KueueConfiguration KueueConfigurationApplyConfiguration := {|
  apply x :=
    let b := KueueConfiguration in
    rlet v := apply (kc_Integrations x) in let b := KueueConfiguration_WithIntegrations (Some v) b in
    rlet v := apply (kc_WorkloadManagement x) in let b := KueueConfiguration_WithWorkloadManagement (Some v) b in
    rlet v := apply (kc_GangScheduling x) in let b := KueueConfiguration_WithGangScheduling (Some v) b in
    rlet v := apply (kc_Preemption x) in let b := KueueConfiguration_WithPreemption (Some v) b in
    rlet v := apply (kc_Resources x) in let b := KueueConfiguration_WithResources (Some v) b in
    rlet b := match kc_MultiKueue x with
              | Some v => rlet v := apply v in Ok (KueueConfiguration_WithMultiKueue (Some v) b)
              | None => Ok b
              end in
    rlet v := apply (kc_AdmissionFairSharing x) in let b := KueueConfiguration_WithAdmissionFairSharing (Some v) b in
    rlet v := apply (kc_ControllerManager x) in let b := KueueConfiguration_WithControllerManager (Some v) b in
    Ok b;
  value a :=
    {| kc_Integrations := value (default Integrations (akc_Integrations a));
       kc_WorkloadManagement := value (default WorkloadManagement (akc_WorkloadManagement a));
       kc_GangScheduling := value (default GangScheduling (akc_GangScheduling a));
       kc_Preemption := value (default Preemption (akc_Preemption a));
       kc_Resources := value (default Resources (akc_Resources a));
       kc_MultiKueue := value <$> akc_MultiKueue a;
       kc_AdmissionFairSharing := value (default AdmissionFairSharing (akc_AdmissionFairSharing a));
       kc_ControllerManager := value (default ControllerManager (akc_ControllerManager a)) |};
  roundtrip := _ |}.
Proof. intros []. cbn. round_trip. Defined.

(** ** Properties *)

(** C25: Every configuration of Kueue can be applied: built field by field with
    the [With] methods of its 26 types, which never panic on it, the apply
    configuration says exactly this configuration, nothing lost and nothing
    added. *)
Theorem KueueConfiguration_roundtrip (c : ApiTypes.KueueConfiguration) :
  ∃ a : KueueConfigurationApplyConfiguration, apply c = Ok a ∧ value a = c.
Proof. apply roundtrip. Qed.

Lemma put_entries_Some m l : put_entries (Some m) l = Ok (Some (foldl (λ m kv, <[kv.1 := kv.2]> m) m l)).
Proof. revert m. induction l as [|[k v] l IH]; intros m; [done|]. apply IH. Qed.

(** What identifies the object is untouched by a method. *)
Definition identity (b : KueueApplyConfiguration) : option string * option string * option string :=
  (Kueue_GetKind b, Kueue_GetAPIVersion b, (Kueue_GetName b).1).

Lemma set_Labels_same m : aom_set_Labels (aom_Labels m) m = m.
Proof. by destruct m. Qed.

(** A configuration extracted from an object carries the identity that
    [Kueue(name)] gives to one built for it, whatever the field manager owns, so
    the two can differ in what is configured only; an error of the extraction is
    returned. The methods for the metadata, the spec and the status keep the
    identity, labels never write to a nil map, and an empty set of labels leaves
    the field out. *)
Theorem ExtractKueueFrom_identity ExtractInto kueue fieldManager subresource :
  match ExtractKueueFrom ExtractInto kueue fieldManager subresource with
  | inl err => ExtractInto kueue fieldManager subresource = inl err
  | inr b =>
      identity b = identity (Kueue (om_Name (ku_ObjectMeta kueue))) ∧
      identity b = (Some "Kueue", Some "kueue.openshift.io/v1", Some (om_Name (ku_ObjectMeta kueue))) ∧
      (∀ spec, identity (Kueue_WithSpec spec b) = identity b) ∧
      (∀ status, identity (Kueue_WithStatus status b) = identity b) ∧
      ∀ labels, ∃ b', Kueue_WithLabels labels b = Ok b' ∧ identity b' = identity b ∧
        (labels = [] → b' = Kueue_ensured b) ∧
        (labels ≠ [] → aom_Labels (ensureObjectMetaApplyConfigurationExists b') =
           Some (foldl (λ m kv, <[kv.1 := kv.2]> m)
             (default ∅ (aom_Labels (ensureObjectMetaApplyConfigurationExists b))) labels))
  end.
Proof.
  unfold ExtractKueueFrom. destruct (ExtractInto kueue fieldManager subresource) as [err|b0]; [done|].
  split_and!; [done..|]. intros labels. unfold Kueue_WithLabels. cbv zeta.
  set (b := Kueue_WithAPIVersion _ _). set (m := ensureObjectMetaApplyConfigurationExists b).
  destruct (aom_Labels m) as [l|] eqn:E; [|destruct labels as [|kv labels]]; cbn [length Nat.ltb Nat.leb].
  - rewrite put_entries_Some. eexists. split; [reflexivity|]. split_and!; [done| |done].
    intros ->. unfold Kueue_ensured. fold m. cbn [foldl]. by rewrite <-E, set_Labels_same.
  - eexists. split; [reflexivity|]. split_and!; [done| |done].
    intros _. unfold Kueue_ensured. fold m. by rewrite <-E, set_Labels_same.
  - rewrite put_entries_Some. eexists. split; [reflexivity|]. by split_and!.
Qed.


(** The cases of the switch do not overlap: each kind has the configuration of
    its own case. *)
Lemma ForKind_case k c : (k, c) ∈ kindCases ↔ ForKind k = Some c.
Proof.
  assert (NoDup kindCases.*1) as Hn by (apply (bool_decide_eq_true _); vm_compute; reflexivity).
  unfold ForKind. revert Hn. generalize kindCases. intros l. induction l as [|[k' c'] l IH]; cbn; intros Hn.
  { by split; [intros ?%not_elem_of_nil|]. }
  apply NoDup_cons in Hn as [Hk Hn]. rewrite elem_of_cons. case_bool_decide as Hd; cbn.
  - subst k'. split; [intros [[= <-]|Hin]; [done|]|by intros [= <-]; left].
    destruct Hk. by apply (list_elem_of_fmap_2 fst) in Hin.
  - rewrite <-(IH Hn). split; [intros [[= -> ->]|Hin]; [done|done]|auto].
Qed.
End Apply.
