(* ===== verification/Monad.v ===== *)
(** * The monad of the operator's code

    [M S A]: code with a receiver of state [S] that makes external calls and
    returns a value, an error or a panic. An error does not undo the changes
    to the receiver. The notations are stdpp's ([x ← m; k]). *)
From S2P Require Import Prelude GoStd K8s ApiTypes ConfigMap TlsProfile K8sObjects Effects.

Definition M (S A : Type) : Type := S → prog (S * res A).

#[export] Instance M_ret S : MRet (M S) := λ A a s, Ret (s, Ok a).
#[export] Instance M_bind S : MBind (M S) := λ A B f m s,
  pbind (m s) (λ p : S * res A,
    match p.2 with
    | Ok a => f a p.1
    | Err e => Ret (p.1, Err e)
    | Panic msg => Ret (p.1, Panic msg)
    end).

Section ops.
Context {S : Type}.

Definition throw {A} (e : error) : M S A := λ s, Ret (s, Err e).
Definition panic {A} (msg : string) : M S A := λ s, Ret (s, Panic msg).
Definition of_res {A} (r : res A) : M S A := λ s, Ret (s, r).
Definition of_sum {A} (r : error + A) : M S A :=
  match r with inl e => throw e | inr a => mret a end.
Definition of_err (r : option error) : M S unit :=
  match r with Some e => throw e | None => mret tt end.
Definition mcall (c : call) : M S (resp c) := λ s, Vis c (λ r, Ret (s, Ok r)).
Definition mget : M S S := λ s, Ret (s, Ok s).
Definition mmodify (f : S → S) : M S unit := λ s, Ret (f s, Ok tt).

(** [v, err := m]: the error as a value; a panic goes on unwinding. *)
Definition try {A} (m : M S A) : M S (error + A) := λ s,
  pbind (m s) (λ p : S * res A,
    match p.2 with
    | Ok a => Ret (p.1, Ok (inr a))
    | Err e => Ret (p.1, Ok (inl e))
    | Panic msg => Ret (p.1, Panic msg)
    end).

(** [if err != nil { return fmt.Errorf("<prefix>%w", err) }] *)
Definition wrap {A} (prefix : string) (m : M S A) : M S A :=
  r ← try m; match r with inl e => throw (WrapError prefix e) | inr a => mret a end.

(** A loop that threads an accumulator and stops at the first error. *)
Fixpoint mfold {A B} (f : B → A → M S B) (b : B) (l : list A) : M S B :=
  match l with
  | [] => mret b
  | a :: l => b' ← f b a; mfold f b' l
  end.

(** *** Calls *)

Definition Eventf (reason message : string) : M S unit := mcall (CEvent false reason message).
Definition Warningf (reason message : string) : M S unit := mcall (CEvent true reason message).
Definition lister (k : kind) (ns name : string) : M S (obj k) :=
  r ← mcall (CLister k ns name); of_sum r.
Definition client_get (k : kind) (ns name : string) : M S (obj k) :=
  r ← mcall (CGet k ns name); of_sum r.
Definition client_list (k : kind) : M S (list (obj k)) := r ← mcall (CList k); of_sum r.
Definition client_create (k : kind) (o : obj k) : M S (obj k) :=
  r ← mcall (CCreate k o); of_sum r.
Definition client_update (k : kind) (o : obj k) : M S (obj k) :=
  r ← mcall (CUpdate k o); of_sum r.
Definition client_delete (k : kind) (ns name : string) : M S unit :=
  r ← mcall (CDelete k ns name); of_err r.
Definition dyn_get (d : dyn_resource) (ns name : string) : M S json :=
  r ← mcall (CDynGet d ns name); of_sum r.
Definition dyn_list (d : dyn_resource) (ns : string) : M S (list json) :=
  r ← mcall (CDynList d ns); of_sum r.
Definition dyn_delete (d : dyn_resource) (ns name : string) : M S unit :=
  r ← mcall (CDynDelete d ns name); of_err r.
Definition kueue_get (name : string) : M S Kueue := r ← mcall (CKueueGet name); of_sum r.
Definition ServerResourcesForGroupVersion (gv : string) : M S (list APIResource) :=
  r ← mcall (CServerResourcesForGroupVersion gv); of_sum r.
Definition now : M S Z := mcall CNow.
Definition sleep (d : Z) : M S unit := mcall (CSleep d).

(** A computation without result: the fuel of a loop ran out. *)
Definition diverge {A} : M S A := λ s, Vis CDiverge (λ r : Empty_set, match r with end).
End ops.

(** ** client-go's retries *)

Definition ErrWaitTimeout : error := ErrorString "timed out waiting for the condition".

(** [retry.OnError]: at most [steps] attempts, sleeping between them, until
    one succeeds or fails with an error that is not retriable. The Go function
    returns only an error; what its closure assigns is the result here. *)
Fixpoint OnError_from {S A} (lastErr : option error) (steps : nat) (retriable : error → bool)
    (fn : M S A) : M S A :=
  match steps with
  | 0 => throw (default ErrWaitTimeout lastErr)
  | Datatypes.S steps =>
      r ← try fn;
      match r with
      | inr a => mret a
      | inl e =>
          if retriable e then
            match steps with
            | 0 => throw e
            | _ => mcall CSleepBackoff ;; OnError_from (Some e) steps retriable fn
            end
          else if is_context_error e then throw (default e lastErr)
          else throw e
      end
  end.

Definition OnError {S A} (steps : nat) (retriable : error → bool) (fn : M S A) : M S A :=
  OnError_from None steps retriable fn.
Definition RetryOnConflict {S A} (steps : nat) (fn : M S A) : M S A :=
  OnError steps IsConflict fn.

(** [retry.DefaultRetry] and [retry.DefaultBackoff]: the number of steps. *)
Definition DefaultRetry : nat := 5.
Definition DefaultBackoff : nat := 4.

(** ** Weakest preconditions and call sets for [M] *)

Section wpM.
Context {S : Type} (allowed : trace → call → Prop).

Definition wpM {A} (m : M S A) (s : S) (h : trace) (Q : trace → S → res A → Prop) : Prop :=
  wp allowed (m s) h (λ h p, Q h p.1 p.2).

Lemma wpM_mono {A} (m : M S A) s h (Q Q' : trace → S → res A → Prop) :
  (∀ h s r, Q h s r → Q' h s r) → wpM m s h Q → wpM m s h Q'.
Proof. intros HQ. apply wp_mono. intros h' p. apply HQ. Qed.

Lemma wpM_ret {A} (a : A) s h Q : Q h s (Ok a) → wpM (mret a) s h Q.
Proof. done. Qed.
Lemma wpM_throw {A} e s h (Q : trace → S → res A → Prop) : Q h s (Err e) → wpM (throw e) s h Q.
Proof. done. Qed.
Lemma wpM_of_res {A} (r : res A) s h Q : Q h s r → wpM (of_res r) s h Q.
Proof. done. Qed.
Lemma wpM_get s h Q : Q h s (Ok s) → wpM mget s h Q.
Proof. done. Qed.
Lemma wpM_modify f s h Q : Q h (f s) (Ok tt) → wpM (mmodify f) s h Q.
Proof. done. Qed.
Lemma wpM_call c s h Q :
  allowed h c → (∀ r, Q (h ++ [Ev c r]) s (Ok r)) → wpM (mcall c) s h Q.
Proof. intros ? ?. by split. Qed.

Lemma wpM_bind {A B} (m : M S A) (f : A → M S B) s h Q :
  wpM m s h (λ h s r, match r with
                      | Ok a => wpM (f a) s h Q
                      | Err e => Q h s (Err e)
                      | Panic p => Q h s (Panic p)
                      end) →
  wpM (m ≫= f) s h Q.
Proof.
  intros Hm. apply wp_bind. eapply wp_mono; [|exact Hm].
  intros h' [s' [a|e|p]]; simpl; done.
Qed.

(** A client call: [v, err := client.Get(...)] and the like. *)
Lemma wpM_call_sum {A} (c : call) (f : resp c → error + A) s h Q :
  allowed h c →
  (∀ r, match f r with inl e => Q (h ++ [Ev c r]) s (Err e) | inr a => Q (h ++ [Ev c r]) s (Ok a) end) →
  wpM (r ← mcall c; of_sum (f r)) s h Q.
Proof.
  intros Hc HQ. apply wpM_bind, wpM_call; [done|]. intros r. specialize (HQ r).
  by destruct (f r).
Qed.
Lemma wpM_call_err (c : call) (f : resp c → option error) s h Q :
  allowed h c →
  (∀ r, match f r with Some e => Q (h ++ [Ev c r]) s (Err e) | None => Q (h ++ [Ev c r]) s (Ok tt) end) →
  wpM (r ← mcall c; of_err (f r)) s h Q.
Proof.
  intros Hc HQ. apply wpM_bind, wpM_call; [done|]. intros r. specialize (HQ r).
  by destruct (f r).
Qed.

Lemma wpM_try {A} (m : M S A) s h Q :
  wpM m s h (λ h s r, match r with
                      | Ok a => Q h s (Ok (inr a))
                      | Err e => Q h s (Ok (inl e))
                      | Panic p => Q h s (Panic p)
                      end) →
  wpM (try m) s h Q.
Proof.
  intros Hm. apply wp_bind. eapply wp_mono; [|exact Hm].
  intros h' [s' [a|e|p]]; simpl; done.
Qed.

Lemma wpM_of_sum {A} (r : error + A) s h Q :
  (∀ e, r = inl e → Q h s (Err e)) → (∀ a, r = inr a → Q h s (Ok a)) → wpM (of_sum r) s h Q.
Proof. intros He Ha. destruct r; [by apply He|by apply Ha]. Qed.
Lemma wpM_of_err r s h Q :
  (∀ e, r = Some e → Q h s (Err e)) → (r = None → Q h s (Ok tt)) → wpM (of_err r) s h Q.
Proof. intros He Ha. destruct r; [by apply He|by apply Ha]. Qed.
End wpM.

(** Every call of [m] satisfies [C]. *)
Definition callsM {S A} (C : call → Prop) (m : M S A) : Prop := ∀ s, calls_in C (m s).

Section callsM.
Context {S : Type} (C : call → Prop).

Lemma callsM_ret {A} (a : A) : callsM C (mret (M := M S) a).
Proof. intros s. exact I. Qed.
Lemma callsM_throw {A} e : callsM C (throw (S := S) (A := A) e).
Proof. intros s. exact I. Qed.
Lemma callsM_panic {A} p : callsM C (panic (S := S) (A := A) p).
Proof. intros s. exact I. Qed.
Lemma callsM_of_res {A} (r : res A) : callsM C (of_res (S := S) r).
Proof. intros s. exact I. Qed.
Lemma callsM_of_sum {A} (r : error + A) : callsM C (of_sum (S := S) r).
Proof. intros s. by destruct r. Qed.
Lemma callsM_of_err r : callsM C (of_err (S := S) r).
Proof. intros s. by destruct r. Qed.
Lemma callsM_get : callsM C (mget (S := S)).
Proof. intros s. exact I. Qed.
Lemma callsM_modify (f : S → S) : callsM C (mmodify f).
Proof. intros s. exact I. Qed.
Lemma callsM_call c : C c → callsM C (mcall (S := S) c).
Proof. intros Hc s. split; [done|]. intros r. exact I. Qed.
Lemma callsM_bind {A B} (m : M S A) (f : A → M S B) :
  callsM C m → (∀ a, callsM C (f a)) → callsM C (m ≫= f).
Proof.
  intros Hm Hf s. apply calls_in_bind; [apply Hm|]. intros [s' [a|e|p]]; simpl; [apply Hf|done..].
Qed.
Lemma callsM_try {A} (m : M S A) : callsM C m → callsM C (try m).
Proof. intros Hm s. apply calls_in_bind; [apply Hm|]. by intros [s' [a|e|p]]. Qed.
Lemma callsM_wrap {A} p (m : M S A) : callsM C m → callsM C (wrap p m).
Proof.
  intros Hm. apply callsM_bind; [by apply callsM_try|]. intros [e|a] s; exact I.
Qed.
Lemma callsM_mfold {A B} (f : B → A → M S B) b l :
  (∀ b a, callsM C (f b a)) → callsM C (mfold f b l).
Proof.
  intros Hf. revert b. induction l as [|a l IH]; intros b; simpl; [apply callsM_ret|].
  apply callsM_bind; auto.
Qed.
Lemma callsM_diverge {A} : C CDiverge → callsM C (diverge (S := S) (A := A)).
Proof. intros Hc s. split; [done|]. intros []. Qed.
Lemma callsM_OnError_from {A} lastErr steps retriable (fn : M S A) :
  C CSleepBackoff → callsM C fn → callsM C (OnError_from lastErr steps retriable fn).
Proof.
  intros Hs Hf. revert lastErr. induction steps as [|n IH]; intros lastErr;
    cbn [OnError_from]; [apply callsM_throw|].
  apply callsM_bind; [by apply callsM_try|]. intros [e|a]; [|apply callsM_ret].
  destruct (retriable e).
  - destruct n; [apply callsM_throw|]. apply callsM_bind; [by apply callsM_call|auto].
  - destruct (is_context_error e); apply callsM_throw.
Qed.
Lemma callsM_OnError {A} steps retriable (fn : M S A) :
  C CSleepBackoff → callsM C fn → callsM C (OnError steps retriable fn).
Proof. apply callsM_OnError_from. Qed.
End callsM.

Lemma callsM_mono {S A} (C C' : call → Prop) (m : M S A) :
  (∀ c, C c → C' c) → callsM C m → callsM C' m.
Proof. intros HC Hm s. eapply calls_in_mono; eauto. Qed.

(** A computation whose calls are allowed whatever happens. *)
Lemma wpM_calls {S A} allowed C (m : M S A) s h Q :
  callsM C m →
  (∀ h' c, C c → Forall (C ∘ ev_call) h' → allowed (h ++ h') c) →
  (∀ t s r, Forall (C ∘ ev_call) t → Q (h ++ t) s r) →
  wpM allowed m s h Q.
Proof.
  intros Hm Hall HQ. eapply wp_mono; [|by apply (wp_calls_in _ C)].
  intros h' [s' r] (t & -> & Ht). by apply HQ.
Qed.

#[export] Hint Resolve callsM_ret callsM_throw callsM_panic callsM_of_res callsM_of_sum
  callsM_of_err callsM_get callsM_modify callsM_call callsM_try callsM_wrap callsM_mfold
  callsM_diverge callsM_OnError : calls.

(** Decomposes a program into its calls; what is left are the calls that need
    an argument. *)
Ltac calls_step :=
  match goal with
  | |- callsM _ (_ ≫= _) => apply callsM_bind; [|intros ?]
  | |- callsM _ (match ?x with _ => _ end) => destruct x
  | |- callsM _ (RetryOnConflict _ _) => apply callsM_OnError
  | |- callsM _ (mfold _ _ _) => apply callsM_mfold; intros ? ?
  | |- callsM _ (wrap _ _) => apply callsM_wrap
  | |- callsM _ (try _) => apply callsM_try
  | |- callsM _ (OnError _ _ _) => apply callsM_OnError
  | |- callsM _ (mcall _) => apply callsM_call
  | |- callsM _ _ => solve [auto with calls nocore]
  end.
Ltac solve_calls := repeat calls_step; try done; auto with calls.

(** ** The retry loop

    An attempt that fails leaves the invariant [I], which sleeping keeps; so
    the loop ends with a success of one attempt, or with an error and [I]. *)
Lemma wpM_OnError {S A} allowed steps retriable (fn : M S A) s h
    (I : trace → S → Prop) (Qok : trace → S → A → Prop) (Qp : trace → S → string → Prop) :
  (∀ h s, I h s → allowed h CSleepBackoff ∧ I (h ++ [Ev CSleepBackoff tt]) s) →
  (∀ h s, I h s → wpM allowed fn s h (λ h s r, match r with
     | Ok a => Qok h s a | Err _ => I h s | Panic p => Qp h s p end)) →
  I h s →
  wpM allowed (OnError steps retriable fn) s h (λ h s r, match r with
     | Ok a => Qok h s a | Err _ => I h s | Panic p => Qp h s p end).
Proof.
  intros Hsl Hfn HI. unfold OnError. generalize (@None error) as lastErr.
  revert s h HI. induction steps as [|n IH]; intros s h HI lastErr; cbn [OnError_from].
  { by apply wpM_throw. }
  apply wpM_bind, wpM_try. eapply wpM_mono; [|by apply Hfn].
  intros h' s' [a|e|p]; [done| |done]. intros Hi.
  destruct (retriable e).
  - destruct n; [by apply wpM_throw|]. destruct (Hsl _ _ Hi) as [Ha Hi'].
    apply wpM_bind, wpM_call; [done|]. intros []. by apply IH.
  - destruct (is_context_error e); by apply wpM_throw.
Qed.

(** The error of a retried function that was attempted at least once tells
    what its last attempt established. *)
Lemma wpM_OnError_failed {S A} allowed steps retriable (fn : M S A) s h
    (I E : trace → S → Prop) (Qok : trace → S → A → Prop) :
  (∀ h s, I h s → allowed h CSleepBackoff ∧ I (h ++ [Ev CSleepBackoff tt]) s) →
  (∀ h s, I h s → wpM allowed fn s h (λ h s r, match r with
     | Ok a => Qok h s a | Err _ => I h s ∧ E h s | Panic _ => False end)) →
  0 < steps → I h s →
  wpM allowed (OnError steps retriable fn) s h (λ h s r, match r with
     | Ok a => Qok h s a | Err _ => I h s ∧ E h s | Panic _ => False end).
Proof.
  intros Hsl Hfn. unfold OnError. generalize (@None error) as lastErr.
  revert s h. induction steps as [|n IH]; intros s h lastErr Hn HI; [lia|]. cbn [OnError_from].
  apply wpM_bind, wpM_try. eapply wpM_mono; [|by apply Hfn].
  intros h' s' [a|e|p]; [done| |done]. intros [Hi HE].
  destruct (retriable e).
  - destruct n; [by apply wpM_throw|]. destruct (Hsl _ _ Hi) as [Ha Hi'].
    apply wpM_bind, wpM_call; [done|]. intros []. apply IH; [lia|done].
  - destruct (is_context_error e); by apply wpM_throw.
Qed.

(** ** Loops

    [Inv done h s b]: what holds when the elements [done] were treated. *)
Lemma wpM_mfold {S A B} allowed (f : B → A → M S B) (l : list A) b s h
    (Inv : list A → trace → S → B → Prop) (QE : trace → S → error → Prop)
    (QP : trace → S → string → Prop) :
  (∀ done a todo b h s, l = done ++ a :: todo → Inv done h s b →
     wpM allowed (f b a) s h (λ h s r, match r with
       | Ok b => Inv (done ++ [a]) h s b | Err e => QE h s e | Panic p => QP h s p end)) →
  Inv [] h s b →
  wpM allowed (mfold f b l) s h (λ h s r, match r with
    | Ok b => Inv l h s b | Err e => QE h s e | Panic p => QP h s p end).
Proof.
  intros Hstep. assert (∀ todo done b h s, l = done ++ todo → Inv done h s b →
    wpM allowed (mfold f b todo) s h (λ h s r, match r with
      | Ok b => Inv l h s b | Err e => QE h s e | Panic p => QP h s p end)) as H.
  { induction todo as [|a todo IH]; intros dn b' h' s' -> HI.
    - rewrite app_nil_r in *. done.
    - cbn [mfold]. apply wpM_bind. eapply wpM_mono; [|by eapply Hstep].
      intros h2 s2 [b2|e|p]; [|done|done]. intros HI2.
      apply IH with (dn ++ [a]); [by rewrite <-app_assoc|done]. }
  intros HI. by apply (H l []).
Qed.

(** The history of a computation only grows. *)
Lemma wpM_extends {S A} allowed (m : M S A) s h Q :
  wpM allowed m s h Q → wpM allowed m s h (λ h' s' r, (∃ t, h' = h ++ t) ∧ Q h' s' r).
Proof. intros Hm. apply (wp_extends _ _ _ _ Hm). Qed.

(** ** Calls and an invariant of the receiver

    [inM I C m]: from a receiver that satisfies [I], every call of [m]
    satisfies [C] and the receiver satisfies [I] again, also after an error or
    a panic. *)
Definition inM {S A} (I : S → Prop) (C : call → Prop) (m : M S A) : Prop :=
  ∀ s, I s → prog_in C (λ p, I p.1) (m s).

Section inM.
Context {S : Type} (I : S → Prop) (C : call → Prop).

Lemma inM_ret {A} (a : A) : inM I C (mret (M := M S) a).
Proof. by intros s. Qed.
Lemma inM_throw {A} e : inM I C (throw (A := A) e).
Proof. by intros s. Qed.
Lemma inM_of_res {A} (r : res A) : inM I C (of_res r).
Proof. by intros s. Qed.
Lemma inM_of_sum {A} (r : error + A) : inM I C (of_sum r).
Proof. intros s. by destruct r. Qed.
Lemma inM_of_err r : inM I C (of_err r).
Proof. intros s. by destruct r. Qed.
Lemma inM_modify (f : S → S) : (∀ s, I s → I (f s)) → inM I C (mmodify f).
Proof. intros Hf s. apply Hf. Qed.
Lemma inM_call c : C c → inM I C (mcall c).
Proof. intros Hc s Hs. split; [done|]. by intros r. Qed.
Lemma inM_bind {A B} (m : M S A) (f : A → M S B) :
  inM I C m → (∀ a, inM I C (f a)) → inM I C (m ≫= f).
Proof.
  intros Hm Hf s Hs. eapply prog_in_bind; [by apply Hm|].
  intros [s' [a|e|p]] Hs'; simpl in *; [by apply Hf|done..].
Qed.
(** What is read from the receiver satisfies the invariant. *)
Lemma inM_bind_get {B} (f : S → M S B) :
  (∀ s, I s → inM I C (f s)) → inM I C (mget ≫= f).
Proof. intros Hf s Hs. by apply Hf. Qed.
(** The continuation of a pure result. *)
Lemma inM_bind_of_res {A B} (r : res A) (f : A → M S B) :
  (∀ a, r = Ok a → inM I C (f a)) → inM I C (of_res r ≫= f).
Proof. intros Hf s Hs. destruct r; [by apply Hf|done..]. Qed.
Lemma inM_try {A} (m : M S A) : inM I C m → inM I C (try m).
Proof.
  intros Hm s Hs. eapply prog_in_bind; [by apply Hm|]. by intros [s' [a|e|p]].
Qed.
Lemma inM_wrap {A} p (m : M S A) : inM I C m → inM I C (wrap p m).
Proof. intros Hm. apply inM_bind; [by apply inM_try|]. by intros [e|a] s. Qed.
Lemma inM_mfold {A B} (f : B → A → M S B) b l :
  (∀ b a, inM I C (f b a)) → inM I C (mfold f b l).
Proof.
  intros Hf. revert b. induction l as [|a l IH]; intros b; simpl; [apply inM_ret|].
  apply inM_bind; auto.
Qed.
Lemma inM_mono {A} (C0 : call → Prop) (m : M S A) :
  (∀ c, C0 c → C c) → inM I C0 m → inM I C m.
Proof. intros HC Hm s Hs. eapply prog_in_mono; [done| |by apply Hm]. done. Qed.
End inM.

Lemma wpM_inM {S A} allowed I C (m : M S A) s h Q :
  inM I C m → I s →
  (∀ h' c, C c → Forall (C ∘ ev_call) h' → allowed (h ++ h') c) →
  (∀ t s r, Forall (C ∘ ev_call) t → I s → Q (h ++ t) s r) →
  wpM allowed m s h Q.
Proof.
  intros Hm Hs Hall HQ. eapply wp_mono; [|apply (wp_prog_in _ C _ _ _ (Hm s Hs) Hall)].
  intros h' [s' r] (Hs' & t & -> & Ht). by apply HQ.
Qed.

Lemma wpM_weaken {S A} allowed1 allowed2 (m : M S A) s h Q :
  wpM allowed1 m s h Q → (∀ t c, allowed1 (h ++ t) c → allowed2 (h ++ t) c) → wpM allowed2 m s h Q.
Proof. apply wp_weaken. Qed.

Lemma wpM_and {S A} allowed1 allowed2 (m : M S A) s h Q1 Q2 :
  wpM allowed1 m s h Q1 → wpM allowed2 m s h Q2 → wpM allowed1 m s h (λ h s r, Q1 h s r ∧ Q2 h s r).
Proof. apply wp_and. Qed.

Lemma wpM_along {S A} C now allowed (m : M S A) s h Q :
  wpM now m s h Q →
  (∀ t c, now (h ++ t) c → C c) →
  (∀ t c, now (h ++ t) c → Forall (C ∘ ev_call) t → allowed (h ++ t) c) →
  wpM allowed m s h (λ h' s' r, Q h' s' r ∧ ∃ t, h' = h ++ t ∧ Forall (C ∘ ev_call) t).
Proof. intros Hm HC Hall. apply (wp_along C now allowed _ _ _ Hm HC Hall). Qed.

#[export] Hint Resolve inM_ret inM_throw inM_of_res inM_of_sum inM_of_err inM_call : calls.

(** Decomposes a program as [solve_calls] does. *)
Ltac in_step :=
  match goal with
  | |- inM _ _ (mget ≫= _) => apply inM_bind_get; intros ? ?
  | |- inM _ _ (_ ≫= _) => apply inM_bind; [|intros ?]
  | |- inM _ _ (match ?x with _ => _ end) => destruct x
  | |- inM _ _ (mfold _ _ _) => apply inM_mfold; intros ? ?
  | |- inM _ _ (wrap _ _) => apply inM_wrap
  | |- inM _ _ (try _) => apply inM_try
  | |- inM _ _ (mcall _) => apply inM_call
  | |- inM _ _ _ => solve [auto with calls nocore]
  end.
Ltac solve_in := repeat in_step; try done; auto with calls.

(** ** Bounding calls *)

Definition at_mostM {S A} (P : call → bool) (n : nat) (m : M S A) : Prop := ∀ s, at_most P n (m s).

Lemma at_mostM_bind {S A B} P n k (m : M S A) (f : A → M S B) :
  at_mostM P n m → (∀ a, at_mostM P k (f a)) → at_mostM P (n + k) (m ≫= f).
Proof.
  intros Hm Hf s. apply at_most_bind; [apply Hm|]. intros [s' [a|e|p]]; simpl; [apply Hf|done..].
Qed.

Lemma at_mostM_try {S A} P n (m : M S A) : at_mostM P n m → at_mostM P n (try m).
Proof.
  intros Hm s. rewrite <-(Nat.add_0_r n). apply at_most_bind; [apply Hm|].
  by intros [s' [a|e|p]].
Qed.

Lemma at_mostM_callsM {S A} P (m : M S A) : callsM (λ c, P c = false) m → at_mostM P 0 m.
Proof. intros Hm s. apply at_most_calls_in, Hm. Qed.

(** A retried function is attempted at most [steps] times. *)
Lemma at_mostM_OnError {S A} P n steps retriable (fn : M S A) :
  P CSleepBackoff = false → at_mostM P n fn → at_mostM P (steps * n) (OnError steps retriable fn).
Proof.
  intros Hs Hf. unfold OnError. generalize (@None error) as lastErr.
  induction steps as [|k IH]; intros lastErr; cbn [OnError_from]; [intros s; exact I|].
  cbn [Nat.mul]. apply at_mostM_bind; [by apply at_mostM_try|].
  intros [e|a]; [|intros s; exact I]. destruct (retriable e).
  - destruct k as [|k]; [intros s; exact I|].
    apply (at_mostM_bind _ 0); [|intros _; apply IH].
    intros s. simpl. by rewrite Hs.
  - destruct (is_context_error e); intros s; exact I.
Qed.

(** ** Total correctness for [M] *)

Definition twpM {S σ A} (H : handler σ) (m : M S A) (s : S) (w : σ) (Q : res A → S → σ → Prop) : Prop :=
  twp H (m s) w (λ p w, Q p.2 p.1 w).

Lemma twpM_bind {S σ A B} (H : handler σ) (m : M S A) (f : A → M S B) s w Q :
  twpM H m s w (λ r s w, match r with
                         | Ok a => twpM H (f a) s w Q
                         | Err e => Q (Err e) s w
                         | Panic p => Q (Panic p) s w
                         end) →
  twpM H (m ≫= f) s w Q.
Proof.
  intros Hm. apply twp_bind. eapply twp_mono; [|exact Hm]. by intros [s' [a|e|p]] w'.
Qed.

Lemma twpM_try {S σ A} (H : handler σ) (m : M S A) s w Q :
  twpM H m s w (λ r s w, match r with
                         | Ok a => Q (Ok (inr a)) s w
                         | Err e => Q (Ok (inl e)) s w
                         | Panic p => Q (Panic p) s w
                         end) →
  twpM H (try m) s w Q.
Proof.
  intros Hm. apply twp_bind. eapply twp_mono; [|exact Hm]. by intros [s' [a|e|p]] w'.
Qed.

Lemma twpM_of_res {S σ A} (H : handler σ) (r : res A) (s : S) w Q :
  Q r s w → twpM H (of_res r) s w Q.
Proof. done. Qed.

Lemma twpM_call {S σ} (H : handler σ) c (s : S) w Q :
  (∃ r w', H w c = Some (r, w') ∧ Q (Ok r) s w') → twpM H (mcall c) s w Q.
Proof. done. Qed.

Lemma twpM_call_sum {S σ A} (H : handler σ) c (f : resp c → error + A) (s : S) w Q :
  (∃ r w', H w c = Some (r, w') ∧
     match f r with inl e => Q (Err e) s w' | inr a => Q (Ok a) s w' end) →
  twpM H (r ← mcall c; of_sum (f r)) s w Q.
Proof.
  intros (r & w' & Hr & HQ). apply twpM_bind, twpM_call. exists r, w'. split; [done|].
  by destruct (f r).
Qed.

Lemma runM_bind {S σ A B} (H : handler σ) (m : M S A) (f : A → M S B) s w tr1 s1 a w1 tr2 o w2 :
  run H (m s) w = (tr1, Some (s1, Ok a), w1) → run H (f a s1) w1 = (tr2, o, w2) →
  run H ((m ≫= f) s) w = (tr1 ++ tr2, o, w2).
Proof. intros Hm Hf. by eapply run_pbind. Qed.

(** [v, err := client.Get(...)] answered with a value. *)
Lemma runM_try_call_sum {S σ A} (H : handler σ) c (f : resp c → error + A) (s : S) w r a w1 :
  H w c = Some (r, w1) → f r = inr a →
  run H (try (r ← mcall c; of_sum (f r)) s) w = ([Ev c r], Some (s, Ok (inr a)), w1).
Proof.
  intros Hc Hf. unfold try, mbind, M_bind, mcall. cbn [pbind run fst snd]. rewrite Hc.
  cbn [pbind run fst snd]. by rewrite Hf.
Qed.
