(* ===== verification/Cert.v ===== *)
(** * pkg/cert: cert-manager certificates

    [InjectCertAnnotation], and [WaitForCertificateReady]: a polling loop with
    a deadline. The loop gets fuel; running out of fuel is [diverge], a call
    that is never answered, and [WaitForCertificateReady_terminates] gives the
    fuel that is never exhausted. *)
From S2P Require Import Prelude GoStd K8s ApiTypes ConfigMap TlsProfile K8sObjects Effects Monad.

Definition injectCAFrom : string := "cert-manager.io/inject-ca-from".

(** The map is extended in place; a nil map is replaced by a new one. *)
Definition InjectCertAnnotation (annotation : option (gmap string string)) (namespace : string)
    : option (gmap string string) :=
  Some (<[injectCAFrom := namespace +:+ "/webhook-cert"]> (default ∅ annotation)).

(** ** The readiness of a certificate *)

(** One iteration of the loop over the status conditions: [(ready, issuing)]. *)
Definition scanCondition (st : bool * bool) (conditionRaw : json) : bool * bool :=
  let '(ready, issuing) := st in
  match conditionRaw with
  | JObj _ =>
      let condType := nested_or_empty (NestedString conditionRaw ["type"]) in
      let condStatus := nested_or_empty (NestedString conditionRaw ["status"]) in
      if condType =s "Ready" then
        if condStatus =s "True" then (true, issuing) else (ready, issuing)
      else if condType =s "Issuing" then
        if condStatus =s "True" then (ready, true) else (ready, issuing)
      else (ready, issuing)
  | _ => (ready, issuing)
  end.

Definition scanConditions (conditions : list json) : bool * bool :=
  foldl scanCondition (false, false) conditions.

(** The name of the secret of a certificate that is issued, [None] while the
    loop has to go on. *)
Definition readyCertificateSecret (cert : json) : option string :=
  match NestedSlice cert ["status"; "conditions"] with
  | Found conditions =>
      let '(ready, issuing) := scanConditions conditions in
      if issuing then None
      else if negb ready then None
      else match NestedString cert ["spec"; "secretName"] with
           | Found secretName => if secretName =s "" then None else Some secretName
           | _ => None
           end
  | _ => None
  end.

(** The secret holds a certificate and a key, both nonempty strings. *)
Definition secretComplete (secret : json) : bool :=
  match NestedMap secret ["data"] with
  | Found data =>
      match jlookup "tls.crt" data, jlookup "tls.key" data with
      | Some (JStr crt), Some (JStr key) => negb (crt =s "") && negb (key =s "")
      | _, _ => false
      end
  | _ => false
  end.

Section wait.
Context {S : Type}.

(** The body of the loop: [true] when all checks passed, [false] when the
    loop sleeps and continues. *)
Definition checkCertificate (namespace certificateName : string) : M S bool :=
  r ← try (dyn_get RCertificates namespace certificateName);
  match r with
  | inl err =>
      if IsNotFound err then mret false
      else throw (WrapError ("failed to get certificate " +:+ namespace +:+ "/" +:+
                             certificateName +:+ ": ") err)
  | inr cert =>
      match readyCertificateSecret cert with
      | None => mret false
      | Some secretName =>
          r ← try (dyn_get RSecrets namespace secretName);
          match r with
          | inl err =>
              if IsNotFound err then mret false
              else throw (WrapError ("failed to get certificate secret " +:+ namespace +:+ "/" +:+
                                     secretName +:+ ": ") err)
          | inr secret => mret (secretComplete secret)
          end
      end
  end.

Definition pollInterval : Z := 2 * Second.

Fixpoint waitLoop (fuel : nat) (namespace certificateName : string) (timeout deadline : Z) : M S unit :=
  match fuel with
  | 0 => diverge
  | Datatypes.S fuel =>
      t ← now;
      if (deadline <? t)%Z then
        throw (ErrorString ("timeout waiting for certificate " +:+ namespace +:+ "/" +:+
                            certificateName +:+ " to be ready after " +:+ Duration_String timeout))
      else
        ready ← checkCertificate namespace certificateName;
        if ready : bool then mret tt
        else sleep pollInterval ;; waitLoop fuel namespace certificateName timeout deadline
  end.

Definition WaitForCertificateReady (fuel : nat) (namespace certificateName : string)
    (timeout : Z) : M S unit :=
  t ← now; waitLoop fuel namespace certificateName timeout (t + timeout).

(** The fuel of the reconciler's waits of two minutes. *)
Definition certificateFuel : nat := 62.
End wait.

(** ** Properties *)

Lemma InjectCertAnnotation_lookup a ns k :
  default ∅ (InjectCertAnnotation a ns) !! k =
    if k =s injectCAFrom then Some (ns +:+ "/webhook-cert") else default ∅ a !! k.
Proof.
  unfold InjectCertAnnotation. cbn [default from_option id]. case_bool_decide as H.
  - subst. apply lookup_insert_eq.
  - by rewrite lookup_insert_ne.
Qed.

(** Injecting the certificate annotation keeps every other annotation and
    is idempotent. *)
Theorem InjectCertAnnotation_spec (a : option (gmap string string)) (ns k : string) :
  default ∅ (InjectCertAnnotation a ns) !! k =
    (if k =s injectCAFrom then Some (ns +:+ "/webhook-cert") else default ∅ a !! k) ∧
  InjectCertAnnotation (InjectCertAnnotation a ns) ns = InjectCertAnnotation a ns.
Proof.
  split; [apply InjectCertAnnotation_lookup|].
  unfold InjectCertAnnotation. cbn [default from_option id]. by rewrite insert_insert_eq.
Qed.

(** What a certificate that is issued looks like, and a secret that holds a
    key pair. *)
Definition has_condition (type status : string) (conditions : list json) : Prop :=
  ∃ m, JObj m ∈ conditions ∧ jlookup "type" m = Some (JStr type) ∧
       jlookup "status" m = Some (JStr status).

Definition certificate_issued (cert : json) (secretName : string) : Prop :=
  ∃ conditions,
    NestedFieldNoCopy cert ["status"; "conditions"] = Found (JArr conditions) ∧
    has_condition "Ready" "True" conditions ∧ ¬ has_condition "Issuing" "True" conditions ∧
    NestedFieldNoCopy cert ["spec"; "secretName"] = Found (JStr secretName) ∧ secretName ≠ "".

Definition holds_key_pair (secret : json) : Prop :=
  ∃ data crt key, NestedFieldNoCopy secret ["data"] = Found (JObj data) ∧
    jlookup "tls.crt" data = Some (JStr crt) ∧ crt ≠ "" ∧
    jlookup "tls.key" data = Some (JStr key) ∧ key ≠ "".

(** The environment answered that the certificate is issued and its secret
    complete. *)
Definition certificate_seen_ready (ns name : string) (h : trace) : Prop :=
  ∃ h0 cert secretName secret,
    h = h0 ++ [Ev (CDynGet RCertificates ns name) (inr cert);
               Ev (CDynGet RSecrets ns secretName) (inr secret)] ∧
    certificate_issued cert secretName ∧ holds_key_pair secret.

Lemma field_is m f v :
  v ≠ "" → nested_or_empty (NestedString (JObj m) [f]) = v ↔ jlookup f m = Some (JStr v).
Proof.
  intros Hv. unfold NestedString. cbn [NestedFieldNoCopy].
  destruct (jlookup f m) as [[]|]; cbn; naive_solver.
Qed.

(** The state of the scan is what the conditions seen so far say. *)
Definition is_condition (type status : string) (c : json) : bool :=
  match c with
  | JObj m => bool_decide (jlookup "type" m = Some (JStr type)) &&
              bool_decide (jlookup "status" m = Some (JStr status))
  | _ => false
  end.

Lemma is_condition_nested type status m : type ≠ "" → status ≠ "" →
  is_condition type status (JObj m) =
    (nested_or_empty (NestedString (JObj m) ["type"]) =s type) &&
    (nested_or_empty (NestedString (JObj m) ["status"]) =s status).
Proof. intros H1 H2. cbn [is_condition]. f_equal; apply bool_decide_ext; by rewrite field_is. Qed.

Lemma scanCondition_step ready issuing c :
  scanCondition (ready, issuing) c =
    (ready || is_condition "Ready" "True" c, issuing || is_condition "Issuing" "True" c).
Proof.
  destruct c as [| | | | |m]; cbn [scanCondition]; try by rewrite !orb_false_r.
  rewrite !is_condition_nested by done.
  generalize (nested_or_empty (NestedString (JObj m) ["status"])) as st.
  generalize (nested_or_empty (NestedString (JObj m) ["type"])) as ty. intros ty st.
  destruct (st =s "True"); rewrite ?andb_true_r, ?andb_false_r, ?orb_false_r;
    [|by destruct (ty =s "Ready"), (ty =s "Issuing")].
  destruct (decide (ty = "Ready")) as [->|H1]; [cbn; by rewrite orb_true_r, orb_false_r|].
  rewrite (bool_decide_false (ty = "Ready")) by done. rewrite orb_false_r.
  by destruct (ty =s "Issuing"); rewrite ?orb_true_r, ?orb_false_r.
Qed.

Lemma scanConditions_exists l :
  scanConditions l = (existsb (is_condition "Ready" "True") l, existsb (is_condition "Issuing" "True") l).
Proof.
  unfold scanConditions. induction l as [|c l IH] using rev_ind; [done|].
  rewrite foldl_snoc, IH, scanCondition_step, !existsb_app. cbn [existsb]. by rewrite !orb_false_r.
Qed.

Lemma has_condition_exists type status l :
  existsb (is_condition type status) l = true ↔ has_condition type status l.
Proof.
  rewrite existsb_elem_of. unfold has_condition. split.
  - intros ([| | | | |m] & Hm & Hc); try done. cbn [is_condition] in Hc. bsplit. by exists m.
  - intros (m & Hm & H1 & H2). exists (JObj m). split; [done|]. cbn [is_condition]. by bsplit.
Qed.

Lemma readyCertificateSecret_issued cert secretName :
  readyCertificateSecret cert = Some secretName → certificate_issued cert secretName.
Proof.
  unfold readyCertificateSecret, NestedSlice, NestedString, certificate_issued.
  destruct (NestedFieldNoCopy cert ["status"; "conditions"]) as [[| | | |l|]| |]; try done.
  rewrite scanConditions_exists.
  destruct (existsb (is_condition "Issuing" "True") l) eqn:Hi; [done|].
  destruct (existsb (is_condition "Ready" "True") l) eqn:Hr; [|done]. cbn [negb].
  apply has_condition_exists in Hr. rewrite <-not_true_iff_false, has_condition_exists in Hi.
  destruct (NestedFieldNoCopy cert ["spec"; "secretName"]) as [[| | |n| |]| |]; try done.
  case_bool_decide; [done|]. intros [= <-]. by exists l.
Qed.

Lemma secretComplete_key_pair secret : secretComplete secret = true → holds_key_pair secret.
Proof.
  unfold secretComplete, NestedMap, holds_key_pair.
  destruct (NestedFieldNoCopy secret ["data"]) as [[| | | | |m]| |]; try done.
  destruct (jlookup "tls.crt" m) as [[| | |crt| |]|] eqn:E1; try done.
  destruct (jlookup "tls.key" m) as [[| | |key| |]|] eqn:E2; try done.
  intros H. bsplit. by exists m, crt, key.
Qed.

(** The calls the wait makes. *)
Definition is_wait_call (c : call) : Prop :=
  match c with
  | CNow | CSleep _ | CDiverge | CDynGet RCertificates _ _ | CDynGet RSecrets _ _ => True
  | _ => False
  end.

Lemma checkCertificate_calls S ns name : callsM is_wait_call (checkCertificate (S := S) ns name).
Proof. unfold checkCertificate, dyn_get. solve_calls. Qed.

Lemma waitLoop_calls S fuel ns name timeout deadline :
  callsM is_wait_call (waitLoop (S := S) fuel ns name timeout deadline).
Proof.
  induction fuel as [|fuel IH]; cbn [waitLoop]; [by apply callsM_diverge|].
  unfold now, sleep. pose proof (checkCertificate_calls S ns name). solve_calls.
Qed.

Lemma WaitForCertificateReady_calls S fuel ns name timeout :
  callsM is_wait_call (WaitForCertificateReady (S := S) fuel ns name timeout).
Proof. unfold WaitForCertificateReady, now. pose proof waitLoop_calls. solve_calls. Qed.
#[export] Hint Resolve WaitForCertificateReady_calls : calls.

Lemma checkCertificate_sound {S} allowed ns name (s : S) h :
  (∀ h c, is_wait_call c → allowed h c) →
  wpM allowed (checkCertificate ns name) s h (λ h s' r, s' = s ∧
    (r = Ok true → certificate_seen_ready ns name h)).
Proof.
  intros Hall. unfold checkCertificate, dyn_get.
  apply wpM_bind, wpM_try. apply (wpM_call_sum _ (CDynGet RCertificates ns name) (λ r, r));
    [by apply Hall|]. intros [e|cert].
  { destruct (IsNotFound e); (split; [done|]); intros [=]. }
  destruct (readyCertificateSecret cert) as [secretName|] eqn:Er; [|split; [done|intros [=]]].
  apply wpM_bind, wpM_try. apply (wpM_call_sum _ (CDynGet RSecrets ns secretName) (λ r, r));
    [by apply Hall|]. intros [e|secret].
  { destruct (IsNotFound e); (split; [done|]); intros [=]. }
  split; [done|]. intros [= Hc]. exists h, cert, secretName, secret.
  split_and!; [by rewrite <-app_assoc|by apply readyCertificateSecret_issued|
    by apply secretComplete_key_pair].
Qed.

Lemma WaitForCertificateReady_wp {S} allowed fuel ns name timeout (s : S) h :
  (∀ h c, is_wait_call c → allowed h c) →
  wpM allowed (WaitForCertificateReady fuel ns name timeout) s h (λ h s' r, s' = s ∧
    (r = Ok tt → certificate_seen_ready ns name h)).
Proof.
  intros Hall. unfold WaitForCertificateReady, now.
  apply wpM_bind, wpM_call; [by apply Hall|]. intros t.
  generalize (t + timeout)%Z as deadline. generalize (h ++ [Ev CNow t]) as h1. clear t.
  induction fuel as [|fuel IH]; intros h1 deadline; cbn [waitLoop].
  { split; [by apply Hall|]. intros []. }
  apply wpM_bind, wpM_call; [by apply Hall|]. intros t.
  destruct (deadline <? t)%Z; [done|].
  apply wpM_bind. eapply wpM_mono; [|by apply checkCertificate_sound].
  intros h2 s2 [[|]|e|p] [-> Hr]; [|..|done|done].
  - split; [done|]. intros _. by apply Hr.
  - apply wpM_bind, wpM_call; [by apply Hall|]. intros []. apply IH.
Qed.

(** C17: Waiting is sound: whatever the environment answers,
    [WaitForCertificateReady] succeeds only when its last two reads returned a
    certificate that is Ready and not being re-issued, and that certificate's
    secret with a nonempty [tls.crt] and [tls.key]. *)
Theorem WaitForCertificateReady_sound {S} fuel ns name timeout (s s' : S) tr :
  runs (WaitForCertificateReady fuel ns name timeout s) tr (Some (s', Ok tt)) →
  certificate_seen_ready ns name tr.
Proof.
  intros Hr.
  destruct (wp_runs (λ _ c, True) _ _ _ [] _ Hr
    (WaitForCertificateReady_wp (λ _ _, True) fuel ns name timeout s [] (λ _ _ _, I))) as [_ H].
  specialize (H _ eq_refl) as [_ H]. by apply H.
Qed.

(** An environment with a clock: it answers the calls of the wait, time never
    goes back, and a sleep lasts at least as long as asked. *)
Record clocked {σ} (H : handler σ) (clock : σ → Z) : Prop := {
  clocked_now : ∀ w, ∃ w', H w CNow = Some (clock w, w') ∧ (clock w ≤ clock w')%Z;
  clocked_sleep : ∀ w d, ∃ w', H w (CSleep d) = Some (tt, w') ∧ (clock w + d ≤ clock w')%Z;
  clocked_get : ∀ w r ns n, ∃ a w', H w (CDynGet r ns n) = Some (a, w') ∧ (clock w ≤ clock w')%Z;
}.

Section termination.
Context {S σ : Type} (H : handler σ) (clock : σ → Z) (HC : clocked H clock).

Lemma checkCertificate_total ns name (s : S) w :
  twpM H (checkCertificate ns name) s w (λ r s' w', s' = s ∧ (clock w ≤ clock w')%Z ∧
    ∀ p, r ≠ Panic p).
Proof using HC.
  unfold checkCertificate. apply twpM_bind, twpM_try.
  apply (twpM_call_sum _ (CDynGet RCertificates ns name) (λ r, r)).
  destruct (clocked_get _ _ HC w RCertificates ns name) as (r & w1 & Hr & H1).
  exists r, w1. split; [done|]. destruct r as [e|cert].
  { by destruct (IsNotFound e). }
  destruct (readyCertificateSecret cert) as [secretName|]; [|done].
  apply twpM_bind, twpM_try. apply (twpM_call_sum _ (CDynGet RSecrets ns secretName) (λ r, r)).
  destruct (clocked_get _ _ HC w1 RSecrets ns secretName) as (r & w2 & Hr2 & H2).
  exists r, w2. split; [done|]. assert (clock w ≤ clock w2)%Z by lia.
  destruct r as [e|secret]; [by destruct (IsNotFound e)|done].
Qed.

Lemma waitLoop_total n ns name timeout deadline (s : S) w :
  (deadline < clock w + Z.of_nat n * pollInterval)%Z →
  twpM H (waitLoop (Datatypes.S n) ns name timeout deadline) s w (λ r s' _, s' = s ∧ ∀ p, r ≠ Panic p).
Proof using HC.
  revert w. induction n as [|n IH]; intros w Hd; cbn [waitLoop];
    apply twpM_bind, twpM_call; destruct (clocked_now _ _ HC w) as (w1 & Hn & H1);
    exists (clock w), w1; (split; [done|]).
  { rewrite (proj2 (Z.ltb_lt _ _)) by lia. done. }
  destruct (deadline <? clock w)%Z; [done|].
  apply twpM_bind. eapply twp_mono; [|apply checkCertificate_total].
  intros [s2 r] w2 (Hs & H2 & Hp). simpl in Hs, Hp |- *. subst s2.
  destruct r as [[|]|e|p]; [done| |done|by destruct (Hp p)].
  apply twpM_bind, twpM_call. destruct (clocked_sleep _ _ HC w2 pollInterval) as (w3 & Hs & H3).
  exists tt, w3. split; [done|]. apply IH. lia.
Qed.

Lemma WaitForCertificateReady_total ns name (s : S) w :
  twpM H (WaitForCertificateReady certificateFuel ns name (2 * Minute)) s w
    (λ r s' _, s' = s ∧ ∀ p, r ≠ Panic p).
Proof using HC.
  unfold WaitForCertificateReady. apply twpM_bind, twpM_call.
  destruct (clocked_now _ _ HC w) as (w1 & Hn & H1). exists (clock w), w1. split; [done|].
  apply waitLoop_total. unfold pollInterval, Minute, Second. lia.
Qed.

(** C18: The two-minute wait terminates: in every environment with a clock,
    polling every two seconds, the fuel is never exhausted, and the wait
    returns with a result or an error, never a panic. *)
Theorem WaitForCertificateReady_terminates ns name (s : S) w :
  ∃ tr r w',
    run H (WaitForCertificateReady certificateFuel ns name (2 * Minute) s) w =
      (tr, Some (s, r), w') ∧
    ∀ p, r ≠ Panic p.
Proof using HC.
  destruct (twp_run _ _ _ _ (WaitForCertificateReady_total ns name s w))
    as (tr & [s' r] & w' & Hr & Hs & Hp).
  simpl in Hs, Hp. subst. eauto 6.
Qed.
End termination.

(** *** Witnesses *)

Definition example_certificate : json :=
  JObj [("status", JObj [("conditions", JArr
          [JObj [("type", JStr "Ready"); ("status", JStr "True")]])]);
        ("spec", JObj [("secretName", JStr "kueue-webhook-server-cert")])].
Definition example_secret : json :=
  JObj [("data", JObj [("tls.crt", JStr "Y3J0"); ("tls.key", JStr "a2V5")])].

(** An environment with a clock in which the certificate becomes ready at the
    given time. *)
Definition example_cert_handler (readyAt : Z) : handler Z := λ clock c,
  match c as c return option (resp c * Z) with
  | CNow => Some (clock, clock)
  | CSleep d => Some (tt, (clock + d)%Z)
  | CDynGet RCertificates _ _ =>
      Some (if (readyAt <=? clock)%Z then inr example_certificate
            else inl (StatusError StatusReasonNotFound 404 "not found"), clock)
  | CDynGet _ _ _ => Some (inr example_secret, clock)
  | _ => None
  end.

Lemma example_cert_handler_clocked t : clocked (example_cert_handler t) (λ w, w).
Proof.
  split.
  - intros w. exists w. split; [done|lia].
  - intros w d. exists (w + d)%Z. split; [done|lia].
  - intros w r ns n. destruct r; simpl; eexists _, w; (split; [done|lia]).
Qed.

Lemma WaitForCertificateReady_sound_witness :
  ∃ tr, certificate_seen_ready "ns" "webhook-cert" tr ∧ length tr = 10.
Proof.
  eexists. split.
  - apply (WaitForCertificateReady_sound certificateFuel "ns" "webhook-cert" (2 * Minute) tt tt).
    eapply (run_runs (example_cert_handler (3 * Second)) _ 0%Z). vm_compute. reflexivity.
  - reflexivity.
Defined.

Lemma WaitForCertificateReady_terminates_witness :
  ∃ tr r w', run (example_cert_handler (Hour))
    (WaitForCertificateReady (S := unit) certificateFuel "ns" "webhook-cert" (2 * Minute) tt) 0%Z
    = (tr, Some (tt, r), w') ∧ ∀ p, r ≠ Panic p.
Proof.
  exact (WaitForCertificateReady_terminates _ _ (example_cert_handler_clocked Hour)
    "ns" "webhook-cert" tt 0%Z).
Defined.
