(* ===== verification/ResourceApply.v ===== *)
(** * pkg/util/resourceapply: applying flow schemas, priority levels and
    network policies

    The three functions share their shape: read the object, create it when it
    is missing, otherwise merge the metadata and replace the spec when
    something differs. [ApplyPriorityLevelConfiguration] can also leave an
    object alone that the administrator was allowed to change. *)
From S2P Require Import Prelude GoStd K8s ApiTypes ConfigMap TlsProfile K8sObjects Effects Monad.

(** ** Event messages: library-go's [resourcehelper] *)

(** [GuessObjectGroupVersionKind]: the type metadata, or what the scheme knows
    about the Go type. *)
Definition scheme_kind (k : kind) : string * string :=
  match k with
  | KConfigMap => ("ConfigMap", "")
  | KSecret => ("Secret", "")
  | KServiceAccount => ("ServiceAccount", "")
  | KService => ("Service", "")
  | KRole => ("Role", "rbac.authorization.k8s.io")
  | KRoleBinding => ("RoleBinding", "rbac.authorization.k8s.io")
  | KClusterRole => ("ClusterRole", "rbac.authorization.k8s.io")
  | KClusterRoleBinding => ("ClusterRoleBinding", "rbac.authorization.k8s.io")
  | KFlowSchema => ("FlowSchema", "flowcontrol.apiserver.k8s.io")
  | KPriorityLevelConfiguration => ("PriorityLevelConfiguration", "flowcontrol.apiserver.k8s.io")
  | KNetworkPolicy => ("NetworkPolicy", "networking.k8s.io")
  | KCRD => ("CustomResourceDefinition", "apiextensions.k8s.io")
  | KAPIService => ("APIService", "apiregistration.k8s.io")
  | KMutatingWebhookConfiguration => ("MutatingWebhookConfiguration", "admissionregistration.k8s.io")
  | KValidatingWebhookConfiguration => ("ValidatingWebhookConfiguration", "admissionregistration.k8s.io")
  | KDeployment => ("Deployment", "apps")
  end.

Definition GuessKind {k} (o : obj k) : string * string :=
  if negb (ko_Kind o =s "") then (ko_Kind o, ko_Group o) else scheme_kind k.

Definition FormatResourceForCLIWithNamespace {k} (o : obj k) : string :=
  let '(kind, group) := GuessKind o in
  kind +:+ (if group =s "" then "" else "." +:+ group) +:+ "/" +:+ ko_Name o +:+
  (if ko_Namespace o =s "" then "" else " -n " +:+ ko_Namespace o).

Section apply.
Context {S : Type}.

Definition ReportCreateEvent {k} (o : obj k) (err : option error) : M S unit :=
  match err with
  | None => Eventf ((GuessKind o).1 +:+ "Created")
              ("Created " +:+ FormatResourceForCLIWithNamespace o +:+ " because it was missing")
  | Some e => Warningf ((GuessKind o).1 +:+ "CreateFailed")
                ("Failed to create " +:+ FormatResourceForCLIWithNamespace o +:+ ": " +:+ Error e)
  end.

Definition ReportUpdateEvent {k} (o : obj k) (err : option error) : M S unit :=
  match err with
  | None => Eventf ((GuessKind o).1 +:+ "Updated")
              ("Updated " +:+ FormatResourceForCLIWithNamespace o +:+ " because it changed")
  | Some e => Warningf ((GuessKind o).1 +:+ "UpdateFailed")
                ("Failed to update " +:+ FormatResourceForCLIWithNamespace o +:+ ": " +:+ Error e)
  end.

Definition err_of {A} (r : error + A) : option error :=
  match r with inl e => Some e | inr _ => None end.

(** The common shape. [keep current want] is asked when something differs:
    [true] leaves the current object as it is; [ns] is the client's namespace,
    empty for a cluster-scoped kind. The result pairs the object with
    [diff]. *)
Definition applyObject (k : kind) (ns : string) (keep : obj k → obj k → res bool) (want : obj k)
    : M S (obj k * bool) :=
  r ← try (client_get k ns (ko_Name want));
  match r with
  | inl err =>
      if negb (IsNotFound err) then throw err
      else
        r ← try (client_create k (set_meta WithCleanLabelsAndAnnotations want));
        ReportCreateEvent want (err_of r) ;;
        current ← of_sum r;
        mret (current, false)
  | inr current =>
      let '(diff, meta) := EnsureObjectMeta false (ko_meta current) (ko_meta want) in
      if negb diff && bool_decide (ko_body current = ko_body want) then mret (current, false)
      else
        kept ← of_res (keep current want);
        if kept : bool then mret (current, false)
        else
          let copy := set_body (λ _, ko_body want) (set_meta (λ _, meta) current) in
          r ← try (client_update k copy);
          ReportUpdateEvent want (err_of r) ;;
          current ← of_sum r;
          mret (current, true)
  end.

Definition ApplyFlowSchema (want : FlowSchema) : M S (FlowSchema * bool) :=
  applyObject KFlowSchema "" (λ _ _, Ok false) want.

Definition ApplyNetworkPolicy (want : NetworkPolicy) : M S (NetworkPolicy * bool) :=
  applyObject KNetworkPolicy (ko_Namespace want) (λ _ _, Ok false) want.

Definition annotationAllowNominalConcurrencySharesUpdate : string :=
  "kueue.openshift.io/allow-nominal-concurrency-shares-update".
Definition annotationValueTrue : string := "true".

Definition shares (p : PriorityLevelConfiguration) : res Z :=
  match plc_Limited (ko_body p) with
  | Some l => match lp_NominalConcurrencyShares l with
              | Some n => Ok n
              | None => Panic "nil pointer dereference"
              end
  | None => Panic "nil pointer dereference"
  end.

(** The administrator may set the shares between the wanted value and 5, or
    to 0, once the annotation allows it. *)
Definition keepShares (current want : PriorityLevelConfiguration) : res bool :=
  if bool_decide (default ∅ (ko_Annotations current) !!
                    annotationAllowNominalConcurrencySharesUpdate = Some annotationValueTrue)
  then
    rlet n := shares current in
    rlet w := shares want in
    Ok (((w <=? n)%Z && (n <=? 5)%Z) || (n =? 0)%Z)
  else Ok false.

Definition ApplyPriorityLevelConfiguration (want : PriorityLevelConfiguration)
    : M S (PriorityLevelConfiguration * bool) :=
  applyObject KPriorityLevelConfiguration "" keepShares want.
End apply.

(** ** A server that stores one object

    It answers reads from its store, stores what is written, and gives every
    written object a fresh resource version: the behaviour of the API server
    the convergence of an apply relies on. *)
Definition stored (k : kind) : Type := nat * option (obj k).

Definition object_server (k : kind) : handler (stored k) := λ w c,
  match c as c return option (resp c * stored k) with
  | CGet k' _ _ =>
      match decide (k = k') with
      | left e =>
          match w.2 with
          | Some o => Some (inr (eq_rect k obj o k' e), w)
          | None => Some (inl (StatusError StatusReasonNotFound 404 "not found"), w)
          end
      | right _ => None
      end
  | CCreate k' o =>
      match decide (k' = k) with
      | left e =>
          let o' := set_meta (meta_set_ResourceVersion (pretty (Datatypes.S w.1))) o in
          Some (inr o', (Datatypes.S w.1, Some (eq_rect k' obj o' k e)))
      | right _ => None
      end
  | CUpdate k' o =>
      match decide (k' = k) with
      | left e =>
          let o' := set_meta (meta_set_ResourceVersion (pretty (Datatypes.S w.1))) o in
          Some (inr o', (Datatypes.S w.1, Some (eq_rect k' obj o' k e)))
      | right _ => None
      end
  | CEvent _ _ _ => Some (tt, w)
  | _ => None
  end.

(** A call that changes the cluster's objects. *)
Definition is_object_write (c : call) : bool :=
  match c with
  | CCreate _ _ | CUpdate _ _ | CDelete _ _ _ | CApply _ _ _ | CApplyImproved _ _ _
  | CDynDelete _ _ _ | CDynApply _ _ _ | CApplyServiceMonitor _ => true
  | _ => false
  end.

(** ** Convergence *)

Lemma object_server_get k ns n (w : stored k) :
  object_server k w (CGet k ns n) =
    Some (match w.2 with Some o => inr o
          | None => inl (StatusError StatusReasonNotFound 404 "not found") end, w).
Proof. destruct w as [v [o|]], k; reflexivity. Qed.

Definition versioned {k} (w : stored k) (o : obj k) : obj k :=
  set_meta (meta_set_ResourceVersion (pretty (Datatypes.S w.1))) o.

Lemma object_server_create k o (w : stored k) :
  object_server k w (CCreate k o) =
    Some (inr (versioned w o), (Datatypes.S w.1, Some (versioned w o))).
Proof. destruct w as [v so], k; reflexivity. Qed.
Lemma object_server_update k o (w : stored k) :
  object_server k w (CUpdate k o) =
    Some (inr (versioned w o), (Datatypes.S w.1, Some (versioned w o))).
Proof. destruct w as [v so], k; reflexivity. Qed.

(** The object needs no further change to be what is wanted. *)
Definition in_sync {k} (want o : obj k) : Prop :=
  ko_body o = ko_body want ∧ (EnsureObjectMeta false (ko_meta o) (ko_meta want)).1 = false.

(** The resource version plays no part in the merge. *)
Lemma EnsureObjectMeta_ResourceVersion b v e r :
  (EnsureObjectMeta b (meta_set_ResourceVersion v e) r).1 = (EnsureObjectMeta b e r).1.
Proof.
  unfold EnsureObjectMeta. cbn [meta_set_ResourceVersion om_Namespace om_Name om_Labels
    om_Annotations om_OwnerReferences].
  do 5 (match goal with |- context [let '(_, _) := ?x in _] => destruct x end). done.
Qed.

Lemma cleanRemovalKeys_plain m :
  plain_keys (default ∅ m) → cleanRemovalKeys m = m.
Proof.
  destruct m as [m|]; [|done]. unfold cleanRemovalKeys, plain_keys. simpl. intros Hp. f_equal.
  apply map_eq. intros k. destruct (m !! k) as [v|] eqn:E.
  - apply map_lookup_filter_Some. split; [done|]. eauto.
  - apply map_lookup_filter_None. by left.
Qed.

Lemma EnsureObjectMeta_clean m :
  meta_ok m → (EnsureObjectMeta false (WithCleanLabelsAndAnnotations m) m).1 = false.
Proof.
  intros [Hl Ha (o & Ho & Hgv & Huid)]. unfold EnsureObjectMeta, WithCleanLabelsAndAnnotations.
  cbn [meta_set_OwnerReferences meta_set_Labels meta_set_Annotations om_Namespace om_Name
    om_Labels om_Annotations om_OwnerReferences].
  rewrite !cleanRemovalKeys_plain by done. rewrite Ho.
  assert (Hs : ∀ s, SetStringIfSet false s s = (false, s)).
  { intros s. unfold SetStringIfSet. repeat case_bool_decide; done. }
  rewrite !Hs.
  assert (Hm : ∀ x : option (gmap string string), plain_keys (default ∅ x) →
            MergeMap false x x = (false, default ∅ x)).
  { intros x Hx. rewrite MergeMap_plain_eq by done. rewrite bool_decide_true by done.
    by rewrite map_subseteq_union by done. }
  rewrite !Hm by done. unfold cleanRemovalOwnerRefs. simpl. rewrite Huid. simpl.
  unfold MergeOwnerRefs, MergeOwnerRefs_step. simpl.
  rewrite Huid, ownerRefMatched_refl by done. simpl. by rewrite bool_decide_true.
Qed.

Section converges.
Context {S : Type} (k : kind) (ns : string) (keep : obj k → obj k → res bool) (want : obj k).
Context (Hok : meta_ok (ko_meta want)) (Hkeep : ∀ cur, keep cur want = Ok false).

Lemma twpM_report o (s : S) (w : stored k) (create : bool) Q :
  Q (Ok tt) s w →
  twpM (object_server k) (if create then ReportCreateEvent o None else ReportUpdateEvent (k:=k) o None)
    s w Q.
Proof using Type. destruct create; intros HQ; exists tt, w; done. Qed.

Lemma applyObject_reaches (s : S) w :
  twpM (object_server k) (applyObject k ns keep want) s w
    (λ r s' w', s' = s ∧ ∃ o b, r = Ok (o, b) ∧ w'.2 = Some o ∧ in_sync want o).
Proof using Hok Hkeep.
  unfold applyObject. apply twpM_bind, twpM_try.
  apply (twpM_call_sum _ (CGet k ns (ko_Name want)) (λ r, r)).
  rewrite object_server_get. eexists _, w; split; [done|].
  destruct w as [v [cur|]]; cbn [fst snd].
  - destruct (EnsureObjectMeta false (ko_meta cur) (ko_meta want)) as [diff meta] eqn:E.
    destruct (negb diff && bool_decide (ko_body cur = ko_body want)) eqn:Hd.
    { bsplit. destruct diff; [done|]. split; [done|]. exists cur, false.
      split_and!; [done..|]. unfold in_sync. by rewrite E. }
    apply twpM_bind, twpM_of_res. rewrite Hkeep. apply twpM_bind, twpM_try.
    apply (twpM_call_sum _ (CUpdate k _) (λ r, r)).
    rewrite object_server_update. eexists _, _; split; [done|]. cbn [fst snd].
    apply twpM_bind. apply (twpM_report _ _ _ false). split; [done|].
    eexists _, true. split_and!; [done..|]. split; [done|].
    unfold versioned. cbn [set_meta set_body ko_meta].
    rewrite EnsureObjectMeta_ResourceVersion.
    by rewrite (EnsureObjectMeta_idemp _ _ _ _ _ Hok E).
  - apply twpM_bind, twpM_try. apply (twpM_call_sum _ (CCreate k _) (λ r, r)).
    rewrite object_server_create. eexists _, _; split; [done|]. cbn [fst snd].
    apply twpM_bind. apply (twpM_report _ _ _ true). split; [done|].
    eexists _, false. split_and!; [done..|]. split; [done|].
    unfold versioned. cbn [set_meta ko_meta].
    rewrite EnsureObjectMeta_ResourceVersion. by apply EnsureObjectMeta_clean.
Qed.

Lemma applyObject_in_sync (s : S) (w : stored k) o :
  w.2 = Some o → in_sync want o →
  run (object_server k) (applyObject k ns keep want s) w =
    ([Ev (CGet k ns (ko_Name want)) (inr o)], Some (s, Ok (o, false)), w).
Proof using Type.
  intros Hw [Hb Hm]. unfold applyObject.
  apply (runM_bind _ _ _ _ _ [Ev (CGet k ns (ko_Name want)) (inr o)] s (inr o) w []).
  - apply (runM_try_call_sum _ (CGet k ns (ko_Name want)) (λ r, r) s w (inr o) o w); [|done].
    by rewrite object_server_get, Hw.
  - cbv beta iota. destruct (EnsureObjectMeta _ _ _) as [d m]. simpl in Hm. subst d.
    by rewrite bool_decide_true.
Qed.
End converges.

(** C33: Applying a network policy converges: against a server that stores what
    is written, one apply of a manifest with plain metadata and one owner
    brings the stored object in sync whatever was stored before, and a second
    apply reads it and writes nothing. *)
Theorem ApplyNetworkPolicy_converges {S} (want : NetworkPolicy) (s : S) (w : stored KNetworkPolicy) :
  meta_ok (ko_meta want) →
  ∃ tr o b w', run (object_server KNetworkPolicy) (ApplyNetworkPolicy want s) w =
                 (tr, Some (s, Ok (o, b)), w') ∧
    ko_body o = ko_body want ∧
    run (object_server KNetworkPolicy) (ApplyNetworkPolicy want s) w' =
      ([Ev (CGet KNetworkPolicy (ko_Namespace want) (ko_Name want)) (inr o)],
       Some (s, Ok (o, false)), w').
Proof.
  intros Hok.
  destruct (twp_run _ _ _ _ (applyObject_reaches KNetworkPolicy (ko_Namespace want)
    (λ _ _, Ok false) want Hok (λ _, eq_refl) s w)) as (tr & [s' r] & w' & Hr & Hs & o & b & Ho & Hw & Hsync).
  simpl in Hs, Ho. subst. exists tr, o, b, w'. split; [exact Hr|]. split; [apply Hsync|].
  by apply applyObject_in_sync.
Qed.

Definition example_policy : NetworkPolicy := {|
  ko_Kind := "NetworkPolicy"; ko_Group := "networking.k8s.io";
  ko_meta := meta_set_OwnerReferences
    [{| or_APIVersion := "kueue.openshift.io/v1"; or_Kind := "Kueue"; or_Name := "cluster";
        or_UID := "1"; or_Controller := None; or_BlockOwnerDeletion := None |}]
    (meta_named "ns" "kueue-deny-all");
  ko_body := {| nps_PodSelector := {| ls_MatchLabels := ∅; ls_MatchExpressions := [] |};
                nps_Ingress := []; nps_Egress := []; nps_PolicyTypes := ["Ingress"; "Egress"] |} |}.

Lemma ApplyNetworkPolicy_converges_witness :
  ∃ tr o b w', run (object_server KNetworkPolicy) (ApplyNetworkPolicy (S := unit) example_policy tt)
                 (0, None) = (tr, Some (tt, Ok (o, b)), w') ∧
    ko_body o = ko_body example_policy.
Proof.
  destruct (ApplyNetworkPolicy_converges example_policy tt (0, None)) as (tr & o & b & w' & H & Hb & _).
  - constructor; [by intros ??..|]. eexists. split; [reflexivity|].
    split; [eexists; vm_compute; reflexivity|vm_compute; reflexivity].
  - exists tr, o, b, w'. split; [exact H|exact Hb].
Defined.

(** ** Shares the administrator may set *)

Lemma keepShares_spec cur want n m :
  shares cur = Ok n → shares want = Ok m →
  keepShares cur want =
    Ok (bool_decide (default ∅ (ko_Annotations cur) !!
          annotationAllowNominalConcurrencySharesUpdate = Some annotationValueTrue) &&
        (((m <=? n)%Z && (n <=? 5)%Z) || (n =? 0)%Z)).
Proof. unfold keepShares. intros -> ->. by case_bool_decide. Qed.

(** The administrator's shares. Against a server that stores what is
    written, with the annotation on the stored object: shares between the
    wanted value and 5, or 0, leave the object exactly as it is; any other
    value ends with the wanted spec. No case panics when both specs are of
    the Limited type with shares. *)
Theorem ApplyPriorityLevelConfiguration_shares {S} (want cur : PriorityLevelConfiguration)
    (v : nat) (n m : Z) (s : S) :
  shares cur = Ok n → shares want = Ok m →
  default ∅ (ko_Annotations cur) !! annotationAllowNominalConcurrencySharesUpdate =
    Some annotationValueTrue →
  let w : stored KPriorityLevelConfiguration := (v, Some cur) in
  let out := run (object_server _) (ApplyPriorityLevelConfiguration want s) w in
  ((m ≤ n ≤ 5)%Z ∨ n = 0%Z →
     out = ([Ev (CGet KPriorityLevelConfiguration "" (ko_Name want)) (inr cur)],
            Some (s, Ok (cur, false)), w)) ∧
  (¬ ((m ≤ n ≤ 5)%Z ∨ n = 0%Z) →
     ∃ tr o b w', out = (tr, Some (s, Ok (o, b)), w') ∧ w'.2 = Some o ∧
                  ko_body o = ko_body want).
Proof.
  intros Hn Hm Ha w out. subst out.
  assert (Hget : run (object_server KPriorityLevelConfiguration)
    (try (client_get KPriorityLevelConfiguration "" (ko_Name want)) s) w =
    ([Ev (CGet KPriorityLevelConfiguration "" (ko_Name want)) (inr cur)], Some (s, Ok (inr cur)), w)).
  { by apply (runM_try_call_sum _ (CGet KPriorityLevelConfiguration "" (ko_Name want)) (λ r, r)
      s w (inr cur) cur w). }
  unfold ApplyPriorityLevelConfiguration, applyObject. split.
  - intros Hk. apply (runM_bind _ _ _ _ _ _ _ _ _ [] _ _ Hget). cbv beta iota.
    destruct (EnsureObjectMeta _ _ _) as [diff meta].
    destruct (_ && _); [done|].
    eapply (runM_bind _ _ _ _ _ [] s true w []); [|done].
    rewrite (keepShares_spec cur want n m Hn Hm), bool_decide_true by done.
    assert (((m <=? n)%Z && (n <=? 5)%Z) || (n =? 0)%Z = true) as ->; [|done].
    apply orb_true_iff. rewrite andb_true_iff, !Z.leb_le, Z.eqb_eq. lia.
  - intros Hk.
    assert (twpM (object_server KPriorityLevelConfiguration)
      (applyObject KPriorityLevelConfiguration "" keepShares want) s w (λ r s' w',
        s' = s ∧ ∃ o b, r = Ok (o, b) ∧ w'.2 = Some o ∧ ko_body o = ko_body want)) as Ht.
    { unfold applyObject. apply twpM_bind, twpM_try.
      apply (twpM_call_sum _ (CGet KPriorityLevelConfiguration "" (ko_Name want)) (λ r, r)).
      exists (inr cur), w. split; [done|].
      destruct (EnsureObjectMeta _ _ _) as [diff meta].
      destruct (_ && _) eqn:Hd; [bsplit; split; [done|]; by exists cur, false|].
      apply twpM_bind, twpM_of_res.
      rewrite (keepShares_spec cur want n m Hn Hm), bool_decide_true by done.
      assert (((m <=? n)%Z && (n <=? 5)%Z) || (n =? 0)%Z = false) as ->.
      { apply not_true_iff_false. rewrite orb_true_iff, andb_true_iff, !Z.leb_le, Z.eqb_eq. lia. }
      apply twpM_bind, twpM_try. apply (twpM_call_sum _ (CUpdate _ _) (λ r, r)).
      rewrite object_server_update. eexists _, _; split; [done|].
      apply twpM_bind. apply (twpM_report KPriorityLevelConfiguration _ _ _ false). split; [done|].
      eexists _, true. split_and!; done. }
    apply twp_run in Ht as (tr & [s' r] & w' & Hr & Hs & o & b & Ho & Hw & Hb).
    simpl in Hs, Ho. subst. eauto 10.
Qed.

Definition example_plc (annotation : string) (n : Z) : PriorityLevelConfiguration := {|
  ko_Kind := "PriorityLevelConfiguration"; ko_Group := "flowcontrol.apiserver.k8s.io";
  ko_meta := meta_set_Annotations
    (Some {[annotationAllowNominalConcurrencySharesUpdate := annotation]})
    (meta_named "" "kueue-visibility");
  ko_body := {| plc_Type := "Limited";
                plc_Limited := Some {| lp_NominalConcurrencyShares := Some n; lp_other := JNull |};
                plc_Exempt := None |} |}.

Lemma ApplyPriorityLevelConfiguration_shares_witness :
  run (object_server _) (ApplyPriorityLevelConfiguration (S := unit) (example_plc "false" 2) tt)
    (0, Some (example_plc "true" 4)) =
  ([Ev (CGet KPriorityLevelConfiguration "" "kueue-visibility") (inr (example_plc "true" 4))],
   Some (tt, Ok (example_plc "true" 4, false)), (0, Some (example_plc "true" 4))).
Proof.
  refine (proj1 (ApplyPriorityLevelConfiguration_shares (example_plc "false" 2)
    (example_plc "true" 4) 0 4 2 tt eq_refl eq_refl ltac:(vm_compute; reflexivity)) _).
  left. lia.
Defined.
