(* ===== verification/Finalizer.v ===== *)
(** * The finalizer of the Kueue resource

    [updateFinalizer] and its two callers of
    [pkg/operator/target_config_reconciler.go], with the strategic two-way
    patch it computes (k8s.io/apimachinery's [strategicpatch], for two
    documents that differ in [metadata.finalizers]) and the JSON merge patch
    (RFC 7386) as which it is sent. *)
From S2P Require Import Prelude GoStd K8s ApiTypes ConfigMap TlsProfile K8sObjects Effects Monad.

Definition KueueFinalizer : string := "kueue.openshift.io/finalizer".

(** ** controller-runtime's [controllerutil] *)

Definition ContainsFinalizer (k : Kueue) (f : string) : bool :=
  bool_decide (f ∈ om_Finalizers (ku_ObjectMeta k)).
Definition AddFinalizer (fs : list string) (f : string) : list string :=
  if bool_decide (f ∈ fs) then fs else fs ++ [f].
Definition RemoveFinalizer (fs : list string) (f : string) : list string :=
  List.filter (λ x, negb (x =s f)) fs.

(** ** The strategic two-way patch of two finalizer lists *)

(** The loop of [diffListsOfScalars] over the two sorted lists: the additions
    and the deletions. *)
Fixpoint diff_sorted (l1 : list string) : list string → list string * list string :=
  fix go (l2 : list string) :=
    match l1, l2 with
    | [], [] => ([], [])
    | [], y :: l2 => let '(a, d) := go l2 in (y :: a, d)
    | x :: l1, [] => let '(a, d) := diff_sorted l1 [] in (a, x :: d)
    | x :: l1', y :: l2' =>
        if x =s y then diff_sorted l1' l2'
        else if bool_decide (String.le x y)
             then let '(a, d) := diff_sorted l1' l2 in (a, x :: d)
             else let '(a, d) := go l2' in (y :: a, d)
    end.

Definition diffListsOfScalars (original modified : list string) : list string * list string :=
  let '(adds, dels) := diff_sorted (slices_Sort original) (slices_Sort modified) in
  (adds, dedup_strings [] dels).

(** [diffLists] for scalars, and [handleSliceDiff] under the merge strategy
    that [ObjectMeta.Finalizers] declares: the entries of the metadata patch.
    An empty list is omitted from the JSON document, so a list that becomes
    empty is a key that disappears, and one that was empty a key that is
    added. *)
Definition finalizers_patch (original modified : list string) : list (string * json) :=
  match original, modified with
  | [], [] => []
  | [], _ => [("finalizers", JArr (map JStr modified))]
  | _, [] => [("finalizers", JNull)]
  | _, _ =>
      let '(adds, dels) := diffListsOfScalars original modified in
      let addList := List.filter (λ x, bool_decide (x ∈ adds)) modified in
      (if bool_decide (addList = []) then [] else [("finalizers", JArr (map JStr addList))]) ++
      (if bool_decide (dels = []) then []
       else [("$deleteFromPrimitiveList/finalizers", JArr (map JStr dels))]) ++
      (if bool_decide (slices_Sort original = modified) && bool_decide (dels = []) then []
       else [("$setElementOrder/finalizers", JArr (map JStr modified))])
  end.

Definition CreateTwoWayMergePatch (original modified : list string) : json :=
  match finalizers_patch original modified with
  | [] => JObj []
  | entries => JObj [("metadata", JObj entries)]
  end.

(** ** [updateFinalizer] *)

Section finalizer.
Context {S : Type}.

(** One attempt. [*kueue = *patched] writes through the pointer the informer
    cache handed out; the result is the value [kueue] points to. *)
Definition updateFinalizer_attempt (kueue : Kueue) (add : bool) : M S Kueue :=
  original ← kueue_get (om_Name (ku_ObjectMeta kueue));
  if bool_decide (add = ContainsFinalizer original KueueFinalizer) then mret kueue
  else
    let fs := om_Finalizers (ku_ObjectMeta original) in
    let modified := if add then AddFinalizer fs KueueFinalizer
                    else RemoveFinalizer fs KueueFinalizer in
    let patch := CreateTwoWayMergePatch fs modified in
    r ← mcall (CKueuePatch (om_Name (ku_ObjectMeta original)) patch);
    patched ← of_sum r;
    mcall (CCacheStoreKueue patched) ;;
    mret patched.

Definition updateFinalizer (kueue : Kueue) (add : bool) : M S Kueue :=
  if bool_decide (add = ContainsFinalizer kueue KueueFinalizer) then mret kueue
  else RetryOnConflict DefaultRetry (updateFinalizer_attempt kueue add).

Definition addFinalizerToKueueInstance (kueue : Kueue) : M S Kueue := updateFinalizer kueue true.
Definition removeFinalizerFromKueueInstance (kueue : Kueue) : M S Kueue := updateFinalizer kueue false.
End finalizer.

(** ** JSON merge patch: RFC 7386

    The documented behaviour of the API server for [types.MergePatchType]. *)
Fixpoint jremove (k : string) (m : list (string * json)) : list (string * json) :=
  match m with
  | [] => []
  | (k', v) :: m => if k =s k' then jremove k m else (k', v) :: jremove k m
  end.
Definition jset (k : string) (v : json) (m : list (string * json)) : list (string * json) :=
  (k, v) :: jremove k m.

Fixpoint json_merge_patch (target patch : json) {struct patch} : json :=
  match patch with
  | JObj ps =>
      let t := match target with JObj t => t | _ => [] end in
      JObj ((fix loop (ps : list (string * json)) (t : list (string * json)) :=
        match ps with
        | [] => t
        | (n, v) :: ps =>
            loop ps (match v with
                     | JNull => jremove n t
                     | _ => jset n (json_merge_patch (default JNull (jlookup n t)) v) t
                     end)
        end) ps t)
  | _ => patch
  end.

(** The finalizers of a document; the server reads an [ObjectMeta], so keys it
    does not declare are dropped. *)
Definition json_strings (l : list json) : list string :=
  omap (λ j, match j with JStr s => Some s | _ => None end) l.
Definition doc_finalizers (doc : json) : list string :=
  match NestedSlice doc ["metadata"; "finalizers"] with Found l => json_strings l | _ => [] end.
Definition finalizers_doc (fs : list string) : json :=
  JObj [("metadata", JObj (match fs with [] => [] | _ => [("finalizers", JArr (map JStr fs))] end))].

(** The finalizers after the server applied the patch of [updateFinalizer]. *)
Definition patched_finalizers (fs : list string) (add : bool) : list string :=
  let modified := if add then AddFinalizer fs KueueFinalizer else RemoveFinalizer fs KueueFinalizer in
  doc_finalizers (json_merge_patch (finalizers_doc fs) (CreateTwoWayMergePatch fs modified)).

Example patched_add_first : patched_finalizers [] true = [KueueFinalizer].
Proof. vm_compute. reflexivity. Qed.
Example patched_remove_last : patched_finalizers [KueueFinalizer] false = [].
Proof. vm_compute. reflexivity. Qed.
Example patched_add_other : patched_finalizers ["foregroundDeletion"] true = [KueueFinalizer].
Proof. vm_compute. reflexivity. Qed.
Example patched_remove_other :
  patched_finalizers ["foregroundDeletion"; KueueFinalizer] false =
    ["foregroundDeletion"; KueueFinalizer].
Proof. vm_compute. reflexivity. Qed.

(** ** The difference of two sorted lists *)

Lemma diff_sorted_nil_l l2 : diff_sorted [] l2 = (l2, []).
Proof. induction l2 as [|y l2 IH]; [done|]. cbn in *. by rewrite IH. Qed.

Lemma diff_sorted_cons_eq x l1 l2 : diff_sorted (x :: l1) (x :: l2) = diff_sorted l1 l2.
Proof. cbn. by rewrite bool_decide_true. Qed.

Lemma diff_sorted_cons_nil x l : diff_sorted (x :: l) [] = let '(a, d) := diff_sorted l [] in (a, x :: d).
Proof. done. Qed.

Lemma diff_sorted_cons_lt x l1 y l2 :
  x ≠ y → String.le x y →
  diff_sorted (x :: l1) (y :: l2) = let '(a, d) := diff_sorted l1 (y :: l2) in (a, x :: d).
Proof. intros ??. cbn. by rewrite bool_decide_false, bool_decide_true. Qed.

Lemma diff_sorted_refl l : diff_sorted l l = ([], []).
Proof. induction l as [|x l IH]; [done|]. by rewrite diff_sorted_cons_eq. Qed.

Lemma string_le_antisym (x y : string) : String.le x y → String.le y x → x = y.
Proof. apply (anti_symm String.le). Qed.

(** One new element: it is the only addition. *)
Lemma diff_sorted_insert pre f post :
  f ∉ post → Forall (String.le f) post →
  diff_sorted (pre ++ post) (pre ++ f :: post) = ([f], []).
Proof.
  intros Hf Hle. induction pre as [|x pre IH].
  - destruct post as [|p post]; [done|]. cbn [app].
    inversion Hle as [|? ? Hfp Hall]; subst. apply not_elem_of_cons in Hf as [Hne Hf].
    cbn. rewrite bool_decide_false by congruence.
    rewrite bool_decide_false by (intros ?; apply Hne; by apply string_le_antisym).
    change ((let '(a, d) := diff_sorted (p :: post) (p :: post) in (f :: a, d)) = ([f], [])).
    by rewrite diff_sorted_refl.
  - cbn [app]. by rewrite diff_sorted_cons_eq.
Qed.

(** Removing an element: nothing is added, and only it is deleted. *)
Lemma diff_sorted_remove f l :
  StronglySorted String.le l →
  ∃ d, diff_sorted l (RemoveFinalizer l f) = ([], d) ∧ (∀ x, x ∈ d ↔ x = f ∧ f ∈ l).
Proof.
  induction 1 as [|x l Hs IH Hall].
  { exists []. split; [done|]. set_solver. }
  destruct IH as (d & Hd & Hin). unfold RemoveFinalizer. cbn [List.filter].
  destruct (decide (x = f)) as [->|Hne].
  - rewrite bool_decide_true by done. cbn [negb]. fold (RemoveFinalizer l f).
    exists (f :: d). split; [|set_solver].
    destruct (RemoveFinalizer l f) as [|y l2] eqn:E.
    + by rewrite diff_sorted_cons_nil, Hd.
    + assert (y ∈ RemoveFinalizer l f) as Hy by (rewrite E; constructor).
      unfold RemoveFinalizer in Hy. rewrite list_elem_of_In, filter_In, <-list_elem_of_In in Hy.
      destruct Hy as [Hy Hyf]. bsplit.
      rewrite Forall_forall in Hall. specialize (Hall y Hy).
      by rewrite diff_sorted_cons_lt, Hd by congruence.
  - rewrite bool_decide_false by done. cbn [negb]. fold (RemoveFinalizer l f).
    rewrite diff_sorted_cons_eq. exists d. split; [done|].
    set_solver.
Qed.

Lemma sorted_unique l1 l2 :
  StronglySorted String.le l1 → StronglySorted String.le l2 → l1 ≡ₚ l2 → l1 = l2.
Proof. apply (StronglySorted_unique String.le). Qed.

Lemma StronglySorted_filter (P : string → bool) l :
  StronglySorted String.le l → StronglySorted String.le (List.filter P l).
Proof.
  induction 1 as [|x l Hs IH Hall]; cbn [List.filter]; [constructor|].
  destruct (P x); [|done]. constructor; [done|].
  rewrite Forall_forall in *. intros y Hy.
  rewrite list_elem_of_In, filter_In, <-list_elem_of_In in Hy. by apply Hall, Hy.
Qed.

Lemma filter_Permutation (P : string → bool) l1 l2 :
  l1 ≡ₚ l2 → List.filter P l1 ≡ₚ List.filter P l2.
Proof.
  induction 1 as [|x l1 l2 _ IH|x y l|l1 l2 l3 _ IH1 _ IH2]; cbn [List.filter].
  - done.
  - destruct (P x); [by constructor|done].
  - destruct (P x), (P y); try done. constructor.
  - by etrans.
Qed.

Lemma slices_Sort_filter (P : string → bool) l :
  slices_Sort (List.filter P l) = List.filter P (slices_Sort l).
Proof.
  apply sorted_unique.
  - apply slices_Sort_Sorted.
  - apply StronglySorted_filter, slices_Sort_Sorted.
  - rewrite slices_Sort_Permutation. symmetry. apply filter_Permutation, slices_Sort_Permutation.
Qed.

Lemma StronglySorted_app_inv l1 x l2 :
  StronglySorted String.le (l1 ++ x :: l2) →
  StronglySorted String.le (l1 ++ l2) ∧ Forall (String.le x) l2.
Proof.
  induction l1 as [|a l1 IH]; cbn [app]; intros H; inversion H as [|? ? Hs Hall]; subst.
  - done.
  - destruct (IH Hs) as [H1 H2]. split; [|done]. constructor; [done|].
    rewrite Forall_app, Forall_cons in Hall. apply Forall_app. tauto.
Qed.

Lemma diffListsOfScalars_add fs f :
  f ∉ fs → diffListsOfScalars fs (fs ++ [f]) = ([f], []).
Proof.
  intros Hf. unfold diffListsOfScalars.
  assert (Hin : f ∈ slices_Sort (fs ++ [f])).
  { rewrite slices_Sort_Permutation. set_solver. }
  apply list_elem_of_split in Hin as (pre & post & Heq).
  pose proof (slices_Sort_Sorted (fs ++ [f])) as Hs. rewrite Heq in Hs.
  destruct (StronglySorted_app_inv _ _ _ Hs) as [Hs' Hle].
  assert (Hp : pre ++ post ≡ₚ fs).
  { apply (Permutation_cons_inv (a := f)). rewrite Permutation_middle, <-Heq.
    rewrite slices_Sort_Permutation. by rewrite Permutation_app_comm. }
  assert (slices_Sort fs = pre ++ post) as ->.
  { apply sorted_unique; [apply slices_Sort_Sorted|done|]. by rewrite slices_Sort_Permutation, Hp. }
  rewrite Heq, diff_sorted_insert; [done| |done].
  intros Hin. apply Hf. rewrite <-Hp. set_solver.
Qed.

Lemma diffListsOfScalars_remove fs f :
  f ∈ fs → ∃ d, diffListsOfScalars fs (RemoveFinalizer fs f) = ([], d).
Proof.
  intros Hf. unfold diffListsOfScalars, RemoveFinalizer. rewrite slices_Sort_filter.
  destruct (diff_sorted_remove f (slices_Sort fs) (slices_Sort_Sorted fs)) as (d & Hd & _).
  unfold RemoveFinalizer in Hd. rewrite Hd. by eexists.
Qed.

(** ** What the patch does *)

Lemma json_strings_map l : json_strings (map JStr l) = l.
Proof. unfold json_strings. induction l; csimpl; congruence. Qed.

Lemma doc_finalizers_doc fs : doc_finalizers (finalizers_doc fs) = fs.
Proof.
  destruct fs as [|f fs]; [reflexivity|].
  transitivity (json_strings (map JStr (f :: fs))); [reflexivity|apply json_strings_map].
Qed.

(** Adding the finalizer to a resource that carries none, and removing it
    when it is the only one, work: the patched resource has exactly the
    intended finalizers. *)
Theorem patched_finalizers_alone :
  patched_finalizers [] true = AddFinalizer [] KueueFinalizer ∧
  patched_finalizers [KueueFinalizer] false = RemoveFinalizer [KueueFinalizer] KueueFinalizer.
Proof. split; vm_compute; reflexivity. Qed.

Lemma patched_add_present (fs : list string) :
  fs ≠ [] → KueueFinalizer ∉ fs → patched_finalizers fs true = [KueueFinalizer].
Proof.
  intros Hne Hf. unfold patched_finalizers, AddFinalizer. rewrite bool_decide_false by done.
  unfold CreateTwoWayMergePatch, finalizers_patch.
  destruct fs as [|x fs]; [done|]. cbn [app].
  change (x :: fs ++ [KueueFinalizer]) with ((x :: fs) ++ [KueueFinalizer]).
  rewrite diffListsOfScalars_add by done.
  assert (List.filter (λ y, bool_decide (y ∈ [KueueFinalizer])) ((x :: fs) ++ [KueueFinalizer]) =
          [KueueFinalizer]) as ->.
  { rewrite List.filter_app.
    assert (List.filter (λ y, bool_decide (y ∈ [KueueFinalizer])) (x :: fs) = []) as ->.
    { revert Hf. generalize (x :: fs). clear. intros l Hf.
      induction l as [|y l IH]; [done|]. cbn [List.filter].
      apply not_elem_of_cons in Hf as [H1 H2]. rewrite bool_decide_false by set_solver. by apply IH. }
    cbn [app List.filter]. rewrite bool_decide_true by set_solver. done. }
  rewrite (bool_decide_false ([KueueFinalizer] = [])) by done.
  rewrite (bool_decide_true ([] = [])) by done. cbn [app].
  match goal with |- context [if ?b then [] else _] => destruct b end; reflexivity.
Qed.

(** C34: With other finalizers present, adding loses them: the strategic patch
    lists only the addition, and as a JSON merge patch that list replaces the
    whole field. *)
Theorem patched_finalizers_add_loses (fs : list string) :
  fs ≠ [] → KueueFinalizer ∉ fs →
  AddFinalizer fs KueueFinalizer = fs ++ [KueueFinalizer] ∧
  patched_finalizers fs true = [KueueFinalizer].
Proof.
  intros Hne Hf. split; [|by apply patched_add_present]. unfold AddFinalizer. by rewrite bool_decide_false.
Qed.

Lemma patched_finalizers_add_loses_witness :
  patched_finalizers ["foregroundDeletion"] true = [KueueFinalizer].
Proof. apply patched_finalizers_add_loses; [discriminate|set_solver]. Defined.

(** With other finalizers present, removing does nothing: the patch only
    carries strategic directives, which a JSON merge patch does not know, so
    the resource keeps the finalizer and its deletion never completes. *)
Theorem patched_finalizers_remove_keeps (fs : list string) :
  KueueFinalizer ∈ fs → RemoveFinalizer fs KueueFinalizer ≠ [] →
  patched_finalizers fs false = fs.
Proof.
  intros Hf Hne. unfold patched_finalizers, CreateTwoWayMergePatch, finalizers_patch.
  destruct fs as [|x fs]; [set_solver|].
  destruct (RemoveFinalizer (x :: fs) KueueFinalizer) as [|y ys] eqn:E; [done|].
  destruct (diffListsOfScalars_remove (x :: fs) KueueFinalizer Hf) as [d Hd].
  rewrite E in Hd. rewrite Hd.
  assert (List.filter (λ z, bool_decide (z ∈ [])) (y :: ys) = []) as ->.
  { generalize (y :: ys). intros l. induction l as [|z l IH]; [done|]. cbn [List.filter].
    by rewrite bool_decide_false by set_solver. }
  rewrite (bool_decide_true ([] = [])) by done. cbn [app].
  match goal with |- context [?b && bool_decide (d = [])] => destruct (b && bool_decide (d = [])) end;
    destruct (bool_decide (d = [])); cbn [app];
    (etransitivity; [|exact (doc_finalizers_doc (x :: fs))]); reflexivity.
Qed.

Lemma patched_finalizers_remove_keeps_witness :
  patched_finalizers ["foregroundDeletion"; KueueFinalizer] false =
    ["foregroundDeletion"; KueueFinalizer].
Proof. apply patched_finalizers_remove_keeps; [set_solver|discriminate]. Defined.

(** An added finalizer is there afterwards, whatever the others were. *)
Lemma patched_finalizers_add (fs : list string) :
  KueueFinalizer ∉ fs → KueueFinalizer ∈ patched_finalizers fs true.
Proof.
  intros Hf. destruct fs as [|x fs].
  - rewrite patched_add_first. set_solver.
  - rewrite patched_add_present by done. set_solver.
Qed.

(** ** The update as a program *)

Definition is_finalizer_call (c : call) : Prop :=
  match c with
  | CKueueGet _ | CKueuePatch _ _ | CCacheStoreKueue _ | CSleepBackoff => True
  | _ => False
  end.
(** The patch [updateFinalizer] computes from the resource [original] as read:
    towards [add], only when it is not as wanted. *)
Definition finalizer_patch (add : bool) (original : Kueue) (n : string) (p : json) : Prop :=
  let fs := om_Finalizers (ku_ObjectMeta original) in
  ContainsFinalizer original KueueFinalizer = negb add ∧ n = om_Name (ku_ObjectMeta original) ∧
  p = CreateTwoWayMergePatch fs
        (if add then AddFinalizer fs KueueFinalizer else RemoveFinalizer fs KueueFinalizer).

(** The calls of an update towards [add]: its patches add the finalizer, or
    remove it, from a resource that was read before. *)
Definition finalizer_call (add : bool) (h : trace) (c : call) : Prop :=
  match c with
  | CKueuePatch n p => ∃ m original, Ev (CKueueGet m) (inr original) ∈ h ∧ finalizer_patch add original n p
  | _ => is_finalizer_call c
  end.
Lemma finalizer_call_is add h c : finalizer_call add h c → is_finalizer_call c.
Proof. by destruct c. Qed.

Definition is_kueue_patch (c : call) : bool :=
  match c with CKueuePatch _ _ => true | _ => false end.

Lemma updateFinalizer_attempt_calls S kueue add :
  callsM is_finalizer_call (updateFinalizer_attempt (S := S) kueue add).
Proof. unfold updateFinalizer_attempt, kueue_get. solve_calls. Qed.

Lemma updateFinalizer_calls S kueue add :
  callsM is_finalizer_call (updateFinalizer (S := S) kueue add).
Proof.
  unfold updateFinalizer. case_bool_decide; [apply callsM_ret|].
  apply callsM_OnError; [done|apply updateFinalizer_attempt_calls].
Qed.
#[export] Hint Resolve updateFinalizer_calls : calls.

(** Why an update can report success: the finalizer was already as wanted, in
    the copy at hand or in the one just read, or a patch was accepted. *)
Definition finalizer_settled (kueue : Kueue) (add : bool) (h : trace) (k' : Kueue) : Prop :=
  (k' = kueue ∧ add = ContainsFinalizer kueue KueueFinalizer) ∨
  (k' = kueue ∧ ∃ n original, Ev (CKueueGet n) (inr original) ∈ h ∧
     add = ContainsFinalizer original KueueFinalizer) ∨
  (∃ n p, Ev (CKueuePatch n p) (inr k') ∈ h).

Lemma updateFinalizer_wp {S} allowed kueue add (s : S) h :
  (∀ h c, finalizer_call add h c → allowed h c) →
  wpM allowed (updateFinalizer kueue add) s h (λ h' s' r, s' = s ∧
    match r with Ok k' => finalizer_settled kueue add h' k' | Err _ => True | Panic _ => False end).
Proof.
  intros Hall. unfold updateFinalizer. case_bool_decide as Hc.
  { split; [done|]. left. done. }
  eapply wpM_mono; [|apply (wpM_OnError allowed DefaultRetry IsConflict
    (updateFinalizer_attempt kueue add) s h (λ _ s', s' = s)
    (λ h' s' k', s' = s ∧ finalizer_settled kueue add h' k') (λ _ _ _, False))].
  - intros h' s' [k'|e|p]; naive_solver.
  - intros h' s' ->. split; [by apply Hall|done].
  - intros h' s' ->. unfold updateFinalizer_attempt, kueue_get.
    apply wpM_bind. apply (wpM_call_sum _ (CKueueGet _) (λ r, r)); [by apply Hall|].
    intros [e|original]; [done|]. case_bool_decide as Ho.
    { split; [done|]. right; left. split; [done|]. eexists _, original. split; [apply elem_of_last|done]. }
    apply wpM_bind, wpM_call.
    { apply Hall. exists (om_Name (ku_ObjectMeta kueue)), original. split; [apply elem_of_last|].
      split; [|done]. by destruct add, (ContainsFinalizer original KueueFinalizer). }
    intros [e|patched]; [done|].
    apply wpM_bind, wpM_ret, wpM_bind, wpM_call; [by apply Hall|]. intros [].
    split; [done|]. right; right. eexists _, _.
    apply elem_of_earlier, elem_of_last.
  - done.
Qed.

(** C19: Updating the finalizer makes no call when the copy at hand already is
    as wanted; otherwise it patches at most five times, touches nothing but
    the Kueue resource, does not panic, and reports success only when the
    finalizer was already as wanted on the server or a patch was accepted. *)
Theorem updateFinalizer_spec {S} (kueue : Kueue) (add : bool) (s : S) tr o :
  runs (updateFinalizer kueue add s) tr o →
  (add = ContainsFinalizer kueue KueueFinalizer → tr = []) ∧
  count is_kueue_patch tr ≤ 5 ∧
  Forall (is_finalizer_call ∘ ev_call) tr ∧
  (∀ s' p, o ≠ Some (s', Panic p)) ∧
  (∀ s' k', o = Some (s', Ok k') → finalizer_settled kueue add tr k').
Proof.
  intros Hr.
  destruct (wp_runs (λ _ _, True) _ _ _ [] _ Hr
    (updateFinalizer_wp (λ _ _, True) kueue add s [] (λ _ _ _, I))) as [_ Hw].
  split_and!.
  - intros Hc. unfold updateFinalizer in Hr. rewrite bool_decide_true in Hr by done.
    by inversion Hr.
  - eapply (at_most_runs _ 5); [exact Hr|]. unfold updateFinalizer.
    case_bool_decide; [exact I|].
    apply (at_mostM_OnError is_kueue_patch 1 DefaultRetry IsConflict
      (updateFinalizer_attempt kueue add)); [done|]. unfold updateFinalizer_attempt, kueue_get.
    apply (at_mostM_bind _ 0 1).
    + apply at_mostM_callsM. solve_calls.
    + intros original. case_bool_decide; [intros ?; exact I|].
      apply (at_mostM_bind _ 1 0); [intros ? ?; exact I|].
      intros r. apply at_mostM_callsM. solve_calls.
  - eapply runs_calls_in; [exact Hr|apply updateFinalizer_calls].
  - intros s' p ->. destruct (Hw _ eq_refl) as [_ Hf]. exact Hf.
  - intros s' k' ->. destruct (Hw _ eq_refl) as [_ Hf]. exact Hf.
Qed.

Definition example_kueue (fs : list string) : Kueue := {|
  ku_ObjectMeta := meta_set_Finalizers fs (meta_named "" "cluster");
  ku_Spec := {| ks_OperatorSpec := {| os_ManagementState := "Managed"; os_LogLevel := "Normal";
                                      os_OperatorLogLevel := "Normal"; os_other := JNull |};
                ks_Config := minimal_config |};
  ku_Status := {| kst_OperatorStatus := {| ost_Conditions := []; ost_Generations := [];
                    ost_ReadyReplicas := 0; ost_other := JNull |} |} |}.

(** A server that accepts every patch of the Kueue resource. *)
Definition patching_server : handler (list string) := λ fs c,
  match c as c return option (resp c * list string) with
  | CKueueGet _ => Some (inr (example_kueue fs), fs)
  | CKueuePatch _ patch =>
      let fs' := doc_finalizers (json_merge_patch (finalizers_doc fs) patch) in
      Some (inr (example_kueue fs'), fs')
  | CCacheStoreKueue _ => Some (tt, fs)
  | _ => None
  end.

Lemma updateFinalizer_spec_witness :
  ∃ tr, count is_kueue_patch tr ≤ 5 ∧ length tr = 3.
Proof.
  eexists. split.
  - refine (proj1 (proj2 (updateFinalizer_spec (example_kueue []) true tt _ _ _))).
    eapply (run_runs patching_server _ []). vm_compute. reflexivity.
  - reflexivity.
Defined.
