(* ===== verification/Reconciler.v ===== *)
(** * The target config reconciler: state, environment, manifests, hashing

    [TCR] is the part of [TargetConfigReconciler] that is data (its clients
    are the calls of [Effects]). [Env] gathers the code the operator links but
    does not define: serialisation, hashing, the embedded files and their
    decoding, and the generated apply-configuration extraction. *)
From S2P Require Import Prelude GoStd K8s ApiTypes ConfigMap TlsProfile K8sObjects Effects Monad.

Record TCR := {
  operatorNamespace : string;
  resourceCache : ResourceCache;
  kueueImage : string;
  serviceMonitorSupport : bool;
  isOpenShift : bool;
  draPartitionableDevicesEnabled : bool;
  draConsumableCapacityEnabled : bool;
}.

Definition tcr_set_resourceCache (c : ResourceCache) (t : TCR) : TCR := {|
  operatorNamespace := operatorNamespace t; resourceCache := c; kueueImage := kueueImage t;
  serviceMonitorSupport := serviceMonitorSupport t; isOpenShift := isOpenShift t;
  draPartitionableDevicesEnabled := draPartitionableDevicesEnabled t;
  draConsumableCapacityEnabled := draConsumableCapacityEnabled t |}.
Definition tcr_set_serviceMonitorSupport (b : bool) (t : TCR) : TCR := {|
  operatorNamespace := operatorNamespace t; resourceCache := resourceCache t;
  kueueImage := kueueImage t; serviceMonitorSupport := b; isOpenShift := isOpenShift t;
  draPartitionableDevicesEnabled := draPartitionableDevicesEnabled t;
  draConsumableCapacityEnabled := draConsumableCapacityEnabled t |}.
Definition tcr_set_isOpenShift (b : bool) (t : TCR) : TCR := {|
  operatorNamespace := operatorNamespace t; resourceCache := resourceCache t;
  kueueImage := kueueImage t; serviceMonitorSupport := serviceMonitorSupport t; isOpenShift := b;
  draPartitionableDevicesEnabled := draPartitionableDevicesEnabled t;
  draConsumableCapacityEnabled := draConsumableCapacityEnabled t |}.
Definition tcr_set_draPartitionableDevicesEnabled (b : bool) (t : TCR) : TCR := {|
  operatorNamespace := operatorNamespace t; resourceCache := resourceCache t;
  kueueImage := kueueImage t; serviceMonitorSupport := serviceMonitorSupport t;
  isOpenShift := isOpenShift t; draPartitionableDevicesEnabled := b;
  draConsumableCapacityEnabled := draConsumableCapacityEnabled t |}.
Definition tcr_set_draConsumableCapacityEnabled (b : bool) (t : TCR) : TCR := {|
  operatorNamespace := operatorNamespace t; resourceCache := resourceCache t;
  kueueImage := kueueImage t; serviceMonitorSupport := serviceMonitorSupport t;
  isOpenShift := isOpenShift t;
  draPartitionableDevicesEnabled := draPartitionableDevicesEnabled t;
  draConsumableCapacityEnabled := b |}.

(** What [computeSpecHash] is applied to. *)
Inductive hashable : Type :=
  | HJson (j : json)
  | HData (m : gmap string string)
  | HString (s : string)
  | HRules (rules : list PolicyRule)
  | HBinding (subjects : list Subject) (roleRef : RoleRef)
  | HWebhooks (webhooks : list Webhook)
  | HSpec (k : kind) (spec : body k).

(** An entry of an embedded directory: its name and whether it is one. *)
Record DirEntry := { de_Name : string; de_IsDir : bool }.

(** The part of [monitoringv1.ServiceMonitor] that is set. *)
Record SecretKeySelector := { sks_Name : string; sks_Key : string }.
Record ServiceMonitorTLS := {
  smt_InsecureSkipVerify : option bool;
  smt_CA : SecretKeySelector;
  smt_Cert : SecretKeySelector;
  smt_KeySecret : SecretKeySelector;
  smt_ServerName : option string;
}.
Record ServiceMonitorEndpoint := {
  sme_Interval : string;
  sme_Path : string;
  sme_Port : string;
  sme_Scheme : option string;
  sme_BearerTokenFile : string;
  sme_TLSConfig : option ServiceMonitorTLS;
}.
Record ServiceMonitor := {
  sm_Kind : string;
  sm_APIVersion : string;
  sm_ObjectMeta : ObjectMeta;
  sm_Selector : LabelSelector;
  sm_Endpoints : list ServiceMonitorEndpoint;
}.

Class Env := {
  env_codec :: ConfigCodec;
  json_Marshal : hashable → error + string;
  sha256_hex : string → string;
  (* [json.Marshal] of the ServiceMonitor followed by [UnmarshalJSON] *)
  json_ServiceMonitor : ServiceMonitor → error + json;
  (* the md5 of [fmt.Sprintf("%v", o)] of library-go's resource cache *)
  hashOfResourceStruct : ∀ k, obj k → string;
  (* the embedded file system, and the [Read...OrDie] decoders: [None] when
     they panic *)
  fs_ReadFile : string → error + string;
  fs_ReadDir : string → error + list DirEntry;
  decode : ∀ k, string → option (obj k);
  ExtractKueue : Kueue → string → error + KueueApply;
  ExtractKueueStatus : Kueue → string → error + KueueApply;
}.

(** ** bindata/assets.go *)

Section bindata.
Context `{Env}.

Definition Asset (name : string) : error + string := fs_ReadFile name.

Definition MustAsset (name : string) : res string :=
  match fs_ReadFile name with inl e => Panic (Error e) | inr data => Ok data end.

Definition AssetDir (dir : string) : error + list string :=
  match fs_ReadDir dir with
  | inl e => inl (WrapError ("failed to read directory " +:+ dir +:+ ": ") e)
  | inr entries => inr (map de_Name (List.filter (λ e, negb (de_IsDir e)) entries))
  end.

(** [ReadFooOrDie(bindata.MustAsset(path))] *)
Definition ReadOrDie (k : kind) (path : string) : res (obj k) :=
  rlet data := MustAsset path in
  match decode k data with
  | Some o => Ok o
  | None => Panic "failed to decode raw bytes"
  end.
End bindata.

(** [filepath.Join(dir, file)] for a clean directory and a plain file name. *)
Definition filepath_Join (dir file : string) : string := dir +:+ "/" +:+ file.

Section hashing.
Context `{Env}.

Definition computeSpecHash (o : hashable) : error + string :=
  match json_Marshal o with
  | inl e => inl e
  | inr jsonBytes => inr (sha256_hex jsonBytes)
  end.

(** [hash, err := computeSpecHash(o)], the error wrapped, and
    [specAnnotations[key] = hash]. *)
Definition annotateHash {S} (what key : string) (o : hashable) (specAnnotations : gmap string string)
    : M S (gmap string string) :=
  match computeSpecHash o with
  | inl e => throw (WrapError ("failed to hash " +:+ what +:+ ": ") e)
  | inr hash => mret (<[key := hash]> specAnnotations)
  end.
End hashing.

Lemma callsM_annotateHash `{Env} {S} C what key o ann :
  callsM (S := S) C (annotateHash what key o ann).
Proof. unfold annotateHash. solve_calls. Qed.
#[export] Hint Resolve callsM_annotateHash : calls.

(** ** An example environment

    Files hold their own path, and a manifest decodes to an object named after
    its file. Used by the concrete instances of the theorems. *)
Definition example_webhook_config (name : string) : Webhook := {|
  wh_Name := name;
  wh_ClientConfig := {|
    wcc_Service := Some {| sr_Namespace := "default"; sr_Name := "webhook-service"; sr_other := JNull |};
    wcc_CABundle := ""; wcc_other := JNull |};
  wh_NamespaceSelector := None; wh_other := JNull |}.

Definition example_selector : LabelSelector :=
  {| ls_MatchLabels := ∅; ls_MatchExpressions := [] |}.

Definition example_deployment_spec : DeploymentSpec := {|
  dp_Replicas := Some 1%Z;
  dp_Strategy := {| dst_Type := ""; dst_MaxUnavailable := None |};
  dp_TemplateAnnotations := None;
  dp_TemplateSpec := {|
    ps_Volumes := [{| vo_Name := "manager-config";
      vo_VolumeSource := {| vs_Secret := None; vs_EmptyDir := None; vs_other := Some JNull |} |}];
    ps_Containers := [{|
      co_Name := "manager"; co_Image := "image";
      co_Args := ["--config=/controller_manager_config.yaml"; "--zap-log-level=2"];
      co_VolumeMounts := []; co_SecurityContext := Some {| sc_ReadOnlyRootFilesystem := None; sc_other := JNull |};
      co_Resources := {| rq_Limits := ∅; rq_Requests := ∅ |}; co_other := JNull |}];
    ps_Affinity := None; ps_PriorityClassName := ""; ps_other := JNull |};
  dp_other := JNull |}.

Definition example_body (k : kind) : body k :=
  match k with
  | KConfigMap => ∅
  | KSecret | KServiceAccount | KService | KFlowSchema => JNull
  | KRole => {| ro_Rules := [] |}
  | KClusterRole => {| cr_Rules := []; cr_AggregationRule := None |}
  | KRoleBinding | KClusterRoleBinding => {|
      bi_Subjects := [{| sb_Kind := "ServiceAccount"; sb_APIGroup := "";
        sb_Name := "kueue-controller-manager"; sb_Namespace := "default" |}];
      bi_RoleRef := {| rr_APIGroup := "rbac.authorization.k8s.io"; rr_Kind := "Role"; rr_Name := "role" |} |}
  | KPriorityLevelConfiguration => {| plc_Type := "Limited";
      plc_Limited := Some {| lp_NominalConcurrencyShares := Some 25%Z; lp_other := JNull |};
      plc_Exempt := None |}
  | KNetworkPolicy => {|
      nps_PodSelector := example_selector; nps_Ingress := []; nps_Egress := []; nps_PolicyTypes := [] |}
  | KCRD => {| crd_Versions := [{| cv_Name := "v1beta1"; cv_other := JNull |}];
      crd_Conversion := None; crd_other := JNull |}
  | KAPIService => {| as_Service := Some {| sr_Namespace := "default"; sr_Name := "visibility-server"; sr_other := JNull |};
      as_InsecureSkipTLSVerify := true; as_other := JNull |}
  | KMutatingWebhookConfiguration => {| wc_Webhooks := map example_webhook_config ["mpod.kb.io"; "mworkload.kb.io"] |}
  | KValidatingWebhookConfiguration => {| wc_Webhooks := map example_webhook_config ["vpod.kb.io"; "vworkload.kb.io"] |}
  | KDeployment => {| dep_Spec := example_deployment_spec;
      dep_Status := {| ds_ReadyReplicas := 0; ds_UnavailableReplicas := 0 |} |}
  end.

Definition example_obj (k : kind) (typ : string) (m : ObjectMeta) : obj k :=
  {| ko_Kind := typ; ko_Group := ""; ko_meta := m; ko_body := example_body k |}.

#[export] Instance example_codec : ConfigCodec := {|
  float64 := string; ParseFloat := inr; yaml_Marshal := λ _, inr "apiVersion: config.kueue.x-k8s.io/v1beta1" |}.

Definition example_env : Env := {|
  env_codec := example_codec;
  json_Marshal := λ o, inr match o with HString s => s | HData m => Join (map snd (map_to_list m)) "," | _ => "{}" end;
  sha256_hex := λ s, "sha256:" +:+ s;
  json_ServiceMonitor := λ m, inr (JObj [("kind", JStr (sm_Kind m));
    ("metadata", JObj [("name", JStr (om_Name (sm_ObjectMeta m)))]); ("spec", JObj [])]);
  hashOfResourceStruct := λ k o,
    Join (om_Name (ko_meta o) :: map snd (map_to_list (default ∅ (om_Annotations (ko_meta o))))) "/";
  fs_ReadFile := inr;
  fs_ReadDir := λ dir, inr [{| de_Name := "one.yaml"; de_IsDir := false |};
                            {| de_Name := "nested"; de_IsDir := true |}];
  decode := λ k path, Some (example_obj k "Kind" (meta_named "default" path));
  ExtractKueue := λ k _, inr {| kac_Name := om_Name (ku_ObjectMeta k); kac_Spec := None; kac_Status := None |};
  ExtractKueueStatus := λ k _, inr {| kac_Name := om_Name (ku_ObjectMeta k); kac_Spec := None; kac_Status := None |};
|}.

Definition example_tcr : TCR := {|
  operatorNamespace := "openshift-kueue-operator"; resourceCache := ∅; kueueImage := "kueue:v1";
  serviceMonitorSupport := true; isOpenShift := true;
  draPartitionableDevicesEnabled := false; draConsumableCapacityEnabled := false |}.
