(* ===== verification/Discovery.v ===== *)
(** * Discovery: what the cluster offers

    The functions of [target_config_reconciler.go] that ask the discovery
    endpoint, the CRD informer or another operator's configuration. *)
From S2P Require Import Prelude GoStd K8s ApiTypes DraHelpers ConfigMap TlsProfile K8sObjects.
From S2P Require Import Effects Monad Reconciler.

Record GroupVersionKind := { gvk_Group : string; gvk_Version : string; gvk_Kind : string }.

(** [GroupVersion.String()]: the version alone for the core group. *)
Definition GroupVersion_String (group version : string) : string :=
  if group =s "" then version else group +:+ "/" +:+ version.

Definition draConsumableCapacityMissingDependency : string :=
  "DRA Consumable Capacity requires Kubernetes 1.36+ (OCP 4.23+) and the DRAConsumableCapacity feature gate to be enabled".

Definition missingConsumableCapacityDependencies (resources : Resources) (enabled : bool)
    : list string :=
  if HasSourceOfType resources DeviceClassSourceTypeCapacity && negb enabled
  then [draConsumableCapacityMissingDependency] else [].

(** The parse of the server's minor version, which may end in [+]. *)
Definition parseMinor (minor : string) : option Z := Atoi (TrimRight minor "+").

Section discovery.
Context {S : Type}.

Definition isKubernetesMinorAtLeast (minor : Z) : M S bool :=
  r ← mcall CServerVersion;
  match r with
  | inl _ => mret false
  | inr version =>
      match parseMinor version with
      | None => mret false
      | Some parsedMinor => mret (minor <=? parsedMinor)%Z
      end
  end.

Definition isResourceRegistered (gvk : GroupVersionKind) : M S bool :=
  r ← try (ServerResourcesForGroupVersion (GroupVersion_String (gvk_Group gvk) (gvk_Version gvk)));
  match r with
  | inl err => if IsNotFound err then mret false else throw err
  | inr resources => mret (existsb (λ r, ar_Kind r =s gvk_Kind gvk) resources)
  end.

Definition isResourceRegisteredCached (gvk : GroupVersionKind) : M S bool :=
  let plural := ToLower (gvk_Kind gvk) +:+ "s" in
  let crdName := plural +:+ "." +:+ gvk_Group gvk in
  r ← try (lister KCRD "" crdName);
  match r with
  | inl err => if IsNotFound err then mret false else throw err
  | inr _ => mret true
  end.

(** The loop of [detectOpenShift]; [CSleepOrDone] answers [true] when the
    context was cancelled while waiting. *)
Fixpoint detectOpenShift_loop (tries : nat) : M S bool :=
  match tries with
  | 0 => mret false
  | Datatypes.S tries =>
      r ← try (ServerResourcesForGroupVersion "project.openshift.io/v1");
      match r with
      | inr _ => mret true
      | inl err =>
          if IsNotFound err then mret false
          else
            cancelled ← mcall (CSleepOrDone (5 * Second));
            if cancelled : bool then mret false else detectOpenShift_loop tries
      end
  end.
Definition detectOpenShift : M S bool := detectOpenShift_loop 6.

(** [getConfig] is the [Get] of the operator's configuration client. *)
Definition isOperatorAvailability (operatorName : string) (getConfig : operator_config) : M S bool :=
  found ← isResourceRegisteredCached
    {| gvk_Group := "operator.openshift.io"; gvk_Version := "v1"; gvk_Kind := operatorName |};
  if negb found then mret false
  else
    r ← mcall (COperatorConfigGet getConfig "cluster");
    match r with
    | Some err => if IsNotFound err then mret false else throw err
    | None => mret true
    end.

(** One iteration of [resolveGVRsToKinds]. *)
Definition resolveGVR (mapping : gmap string string) (fw : ExternalFramework)
    : M S (gmap string string) :=
  r ← try (ServerResourcesForGroupVersion (ef_Group fw +:+ "/" +:+ ef_Version fw));
  match r with
  | inl _ => mret mapping
  | inr resources =>
      match List.find (λ r, ar_Name r =s ef_Resource fw) resources with
      | Some r => mret (<[gvrKey fw := ar_Kind r]> mapping)
      | None => mret mapping
      end
  end.
Definition resolveGVRsToKinds (frameworks : list ExternalFramework) : M S (gmap string string) :=
  mfold resolveGVR ∅ frameworks.
End discovery.

(** ** Properties *)

(** The calls of this file: none changes anything. *)
Definition is_discovery_call (c : call) : Prop :=
  match c with
  | CServerVersion | CServerResourcesForGroupVersion _ | CLister KCRD _ _ | CSleepOrDone _
  | COperatorConfigGet _ _ => True
  | _ => False
  end.

Lemma isKubernetesMinorAtLeast_calls S n :
  callsM is_discovery_call (isKubernetesMinorAtLeast (S := S) n).
Proof. unfold isKubernetesMinorAtLeast. solve_calls. Qed.
Lemma isResourceRegistered_calls S g : callsM is_discovery_call (isResourceRegistered (S := S) g).
Proof. unfold isResourceRegistered, ServerResourcesForGroupVersion. solve_calls. Qed.
Lemma isResourceRegisteredCached_calls S g :
  callsM is_discovery_call (isResourceRegisteredCached (S := S) g).
Proof. unfold isResourceRegisteredCached, lister. solve_calls. Qed.
#[export] Hint Resolve isKubernetesMinorAtLeast_calls isResourceRegistered_calls
  isResourceRegisteredCached_calls : calls.
Lemma isOperatorAvailability_calls S n g :
  callsM is_discovery_call (isOperatorAvailability (S := S) n g).
Proof. unfold isOperatorAvailability. solve_calls. Qed.
Lemma resolveGVRsToKinds_calls S l : callsM is_discovery_call (resolveGVRsToKinds (S := S) l).
Proof. unfold resolveGVRsToKinds, resolveGVR, ServerResourcesForGroupVersion. solve_calls. Qed.
Lemma detectOpenShift_calls S : callsM is_discovery_call (detectOpenShift (S := S)).
Proof.
  unfold detectOpenShift. generalize 6. intros n. induction n as [|n IH]; cbn [detectOpenShift_loop];
    [apply callsM_ret|]. unfold ServerResourcesForGroupVersion. solve_calls.
Qed.
#[export] Hint Resolve isOperatorAvailability_calls resolveGVRsToKinds_calls detectOpenShift_calls
  : calls.

(** *** Versions *)

Lemma digits_no_plus s : str_all is_digit s = true → str_all (λ a, negb (bool_decide (a = "+"%char))) s = true.
Proof.
  induction s as [|a s IH]; simpl; [done|]. intros H. bsplit; [|by apply IH].
  apply negb_true_iff, bool_decide_eq_false. by intros ->.
Qed.

Lemma parseMinor_FormatInt n :
  (0 ≤ n)%Z → in_int64 n →
  parseMinor (FormatInt n) = Some n ∧ parseMinor (FormatInt n +:+ "+") = Some n.
Proof.
  intros Hn Hr. destruct (FormatInt_digits n Hn) as [Hd _]. apply digits_no_plus in Hd.
  unfold parseMinor. rewrite (TrimRight_none _ _ Hd), (TrimRight_snoc _ _ Hd).
  by rewrite Atoi_FormatInt.
Qed.

(** The version gate is exact: a server that reports minor version [v],
    with or without the [+] of a managed cluster, is at least [n] exactly when
    [v >= n]; a server that does not answer never passes. *)
Theorem isKubernetesMinorAtLeast_spec {S} (n : Z) (s : S) tr s' b :
  runs (isKubernetesMinorAtLeast n s) tr (Some (s', Ok b)) →
  ∃ r, tr = [Ev CServerVersion r] ∧ s' = s ∧
    (∀ e, r = inl e → b = false) ∧
    (∀ v, (0 ≤ v)%Z → in_int64 v → r = inr (FormatInt v) ∨ r = inr (FormatInt v +:+ "+") →
       b = (n <=? v)%Z).
Proof.
  intros Hr. apply runs_vis_inv in Hr as (r & tr' & -> & Hr).
  destruct r as [e|version]; simpl in Hr.
  - apply runs_ret_inv in Hr as [-> [= -> ->]]. eexists. split_and!; [done..|]. naive_solver.
  - exists (inr version).
    assert (tr' = [] ∧ s' = s ∧ b = match parseMinor version with Some m => (n <=? m)%Z | None => false end)
      as (-> & -> & ->).
    { destruct (parseMinor version); simpl in Hr; apply runs_ret_inv in Hr as [-> [= -> ->]]; done. }
    split; [done|]. split; [done|]. split; [intros e He; discriminate He|].
    intros v Hv Hi Hor. destruct (parseMinor_FormatInt v Hv Hi) as [H1 H2].
    destruct Hor as [Hv'|Hv']; injection Hv' as ->; by rewrite ?H1, ?H2.
Qed.

Lemma isKubernetesMinorAtLeast_spec_witness :
  (36 <=? 36)%Z = true.
Proof.
  destruct (isKubernetesMinorAtLeast_spec (S := unit) 36 tt [Ev CServerVersion (inr "36+")] tt true)
    as (r & Htr & _ & _ & H).
  - apply (runs_vis CServerVersion _ (inr "36+")). apply runs_ret.
  - pose proof (f_equal (λ tr, match tr with [Ev CServerVersion r] => Some r | _ => None end) Htr)
      as Hr.
    symmetry. apply (H 36%Z); [lia|vm_compute; split; discriminate|].
    right. injection Hr as <-. reflexivity.
Defined.

(** *** Detecting the platform *)

Definition is_server_resources (c : call) : bool :=
  match c with CServerResourcesForGroupVersion _ => true | _ => false end.

Definition answered (tr : trace) : Prop :=
  ∃ gv l, Ev (CServerResourcesForGroupVersion gv) (inr l) ∈ tr.

Definition ev_resources (e : event) : option (error + list APIResource) :=
  match e with Ev (CServerResourcesForGroupVersion _) r => Some r | _ => None end.

Lemma answered_nil : ¬ answered [].
Proof. intros (? & ? & H). by apply elem_of_nil in H. Qed.

Lemma answered_cons e tr :
  answered (e :: tr) ↔ (∃ l, ev_resources e = Some (inr l)) ∨ answered tr.
Proof.
  unfold answered. setoid_rewrite elem_of_cons. split.
  - intros (gv & l & [He|H]); [|eauto]. left. exists l. by rewrite <-He.
  - intros [(l & He)|(gv & l & H)]; [|eauto]. destruct e as [[] r]; try discriminate He.
    simpl in He. injection He as ->. eauto.
Qed.

Lemma detectOpenShift_loop_spec {S} n (s : S) tr o :
  runs (detectOpenShift_loop n s) tr o →
  count is_server_resources tr ≤ n ∧
  ∀ s' r, o = Some (s', r) → s' = s ∧ ∃ b, r = Ok b ∧ (b = true ↔ answered tr).
Proof.
  assert (Hret : ∀ (b : bool) tr, (b = true ↔ answered tr) →
    ∀ o, o = None ∨ o = Some (s, Ok b) → ∀ s' r, o = Some (s', r) →
    s' = s ∧ ∃ b, r = Ok b ∧ (b = true ↔ answered tr)).
  { intros b tr' Hb o' Ho s' r ->. destruct Ho as [?|[= -> ->]]; [done|]. eauto. }
  revert tr o. induction n as [|n IH]; intros tr o Hr; cbn [detectOpenShift_loop] in Hr.
  { apply runs_inv in Hr as [-> Ho]. split; [unfold count; simpl; lia|].
    apply (Hret false); [|done]. pose proof answered_nil. naive_solver. }
  apply runs_inv in Hr as [[-> ->]|(r & tr' & -> & Hr)]; [split; [unfold count; simpl; lia|done]|].
  destruct r as [e|l]; simpl in Hr.
  - destruct (IsNotFound e).
    + apply runs_inv in Hr as [-> Ho]. split; [unfold count; simpl; lia|].
      apply (Hret false); [|done]. rewrite answered_cons. pose proof answered_nil. naive_solver.
    + apply runs_inv in Hr as [[-> ->]|(c & tr2 & -> & Hr)];
        [split; [unfold count; simpl; lia|done]|].
      assert (Heq : answered (Ev (CServerResourcesForGroupVersion "project.openshift.io/v1") (inl e)
                :: Ev (CSleepOrDone (5 * Second)) c :: tr2) ↔ answered tr2).
      { rewrite !answered_cons. simpl. naive_solver. }
      destruct c; simpl in Hr.
      * apply runs_inv in Hr as [-> Ho]. split; [unfold count; simpl; lia|].
        apply (Hret false); [|done]. rewrite Heq. pose proof answered_nil. naive_solver.
      * destruct (IH _ _ Hr) as [Hc Ho]. split; [unfold count in *; simpl; lia|].
        intros s' r ->. destruct (Ho _ _ eq_refl) as (-> & b & -> & Hb). split; [done|].
        exists b. split; [done|]. by rewrite Hb.
  - apply runs_inv in Hr as [-> Ho]. split; [unfold count; simpl; lia|].
    apply (Hret true); [|done]. rewrite answered_cons. simpl. naive_solver.
Qed.

(** Platform detection asks at most six times, never fails, and reports
    OpenShift exactly when one of its questions about [project.openshift.io]
    was answered. *)
Theorem detectOpenShift_spec {S} (s : S) tr o :
  runs (detectOpenShift s) tr o →
  count is_server_resources tr ≤ 6 ∧
  ∀ s' r, o = Some (s', r) → s' = s ∧ ∃ b, r = Ok b ∧ (b = true ↔ answered tr).
Proof. apply detectOpenShift_loop_spec. Qed.

Lemma detectOpenShift_spec_witness :
  count is_server_resources [Ev (CServerResourcesForGroupVersion "project.openshift.io/v1") (inr [])] ≤ 6.
Proof.
  refine (proj1 (detectOpenShift_spec (S := unit) tt _ (Some (tt, Ok true)) _)).
  apply (runs_vis (CServerResourcesForGroupVersion "project.openshift.io/v1") _ (inr [])).
  apply runs_ret.
Defined.
