(* ===== verification/Conditions.v ===== *)
(** * Status conditions of the Kueue resource

    The condition builders and [updateKueueStatus] of
    [target_config_reconciler.go], with library-go's
    [SetApplyConditionsLastTransitionTime]. *)
From S2P Require Import Prelude GoStd K8s ApiTypes DraHelpers ConfigMap TlsProfile K8sObjects.
From S2P Require Import Effects Monad Reconciler.

Definition ConditionTrue : string := "True".
Definition ConditionFalse : string := "False".

(** [applyoperatorv1.OperatorCondition().WithType(t).WithStatus(s).WithReason(r).WithMessage(m)] *)
Definition condition (type status reason message : string) : OperatorConditionApply := {|
  ca_Type := Some type; ca_Status := Some status; ca_LastTransitionTime := None;
  ca_Reason := Some reason; ca_Message := Some message |}.

Definition buildOperatorConditions (deployment : Deployment)
    (dependencyCondition : option OperatorConditionApply) : list OperatorConditionApply :=
  let body : DeploymentBody := ko_body deployment in
  let desired := default 1%Z (dp_Replicas (dep_Spec body)) in
  let ready := ds_ReadyReplicas (dep_Status body) in
  let unavailable := ds_UnavailableReplicas (dep_Status body) in
  let allReady := (ready =? desired)%Z && (0 <? ready)%Z in
  let availableCond :=
    if allReady
    then condition "Available" ConditionTrue "AllReplicasReady"
           ("All " +:+ FormatInt ready +:+ " replicas are ready")
    else condition "Available" ConditionFalse "NotEnoughReplicas"
           (FormatInt ready +:+ "/" +:+ FormatInt desired +:+ " replicas are ready") in
  let progressingCond :=
    if allReady
    then condition "Progressing" ConditionFalse "AsExpected" "Deployment is up to date"
    else condition "Progressing" ConditionTrue "Reconciling" "Deployment is reconciling" in
  let degradedCond :=
    if (0 <? unavailable)%Z
    then condition "Degraded" ConditionTrue "UnavailableReplicas"
           (FormatInt unavailable +:+ " replicas unavailable")
    else if (ready =? 0)%Z && (0 <? desired)%Z
    then condition "Degraded" ConditionTrue "NoReplicasReady"
           ("No replicas ready (desired: " +:+ FormatInt desired +:+ ")")
    else condition "Degraded" ConditionFalse "AsExpected" "" in
  let degradedCond := default degradedCond dependencyCondition in
  let certManagerCond := condition "CertManagerAvailable" ConditionTrue "CertManagerInstalled"
                           "cert-manager is installed" in
  [availableCond; progressingCond; degradedCond; certManagerCond].

Definition buildCertManagerMissingConditions : list OperatorConditionApply :=
  [condition "Available" ConditionFalse "MissingDependency"
     "cert-manager is required but not installed";
   condition "Progressing" ConditionFalse "MissingDependency"
     "waiting for cert-manager to be installed";
   condition "Degraded" ConditionTrue "MissingDependency"
     "please make sure that cert-manager is installed on your cluster"].

Definition buildUnsupportedTLSProfileConditions (tlsErr : error) : list OperatorConditionApply :=
  [condition "Available" ConditionFalse "UnsupportedTLSProfile"
     "Kueue cannot be configured with the current cluster TLS profile";
   condition "Progressing" ConditionFalse "UnsupportedTLSProfile"
     "waiting for a supported TLS profile to be configured";
   condition "Degraded" ConditionTrue "UnsupportedTLSProfile"
     ("The cluster TLS security profile is not supported: " +:+ Error tlsErr +:+
      ". Kueue requires a minimum TLS version of 1.2. Please use Intermediate, Modern, or a Custom profile with at least VersionTLS12.")].

(** ** library-go's transition times *)

Definition FindApplyCondition (haystack : list OperatorConditionApply) (conditionType : option string)
    : option OperatorConditionApply :=
  List.find (λ c, bool_decide (ca_Type c = conditionType)) haystack.

Definition set_LastTransitionTime (t : option Z) (c : OperatorConditionApply) : OperatorConditionApply := {|
  ca_Type := ca_Type c; ca_Status := ca_Status c; ca_LastTransitionTime := t;
  ca_Reason := ca_Reason c; ca_Message := ca_Message c |}.

Definition withTransitionTime (now : Z) (oldConditions : list OperatorConditionApply)
    (newCondition : OperatorConditionApply) : OperatorConditionApply :=
  let newCondition :=
    match FindApplyCondition oldConditions (ca_Type newCondition) with
    | Some existing =>
        if bool_decide (ca_Status existing = ca_Status newCondition)
        then set_LastTransitionTime (ca_LastTransitionTime existing) newCondition
        else newCondition
    | None => newCondition
    end in
  match ca_LastTransitionTime newCondition with
  | None => set_LastTransitionTime (Some now) newCondition
  | Some _ => newCondition
  end.

Definition SetApplyConditionsLastTransitionTime (now : Z)
    (newConditions oldConditions : list OperatorConditionApply) : list OperatorConditionApply :=
  map (withTransitionTime now oldConditions) newConditions.

(** ** [updateKueueStatus] *)

Section status.
Context `{Env} {S : Type}.

(** The conditions that the operator owns in the resource at hand. *)
Definition existingConditions (kueue : Kueue) : list OperatorConditionApply :=
  if 0 <? length (ost_Conditions (kst_OperatorStatus (ku_Status kueue))) then
    match ExtractKueueStatus kueue "kueue-operator" with
    | inr extracted =>
        match kac_Status extracted with Some st => ksa_Conditions st | None => [] end
    | inl _ => []
    end
  else [].

Definition updateKueueStatus (kueue : Kueue) (conditions : list OperatorConditionApply)
    (readyReplicas : option Z) : M S unit :=
  t ← now;
  let config := {|
    kac_Name := "cluster"; kac_Spec := None;
    kac_Status := Some {|
      ksa_Conditions := SetApplyConditionsLastTransitionTime t conditions (existingConditions kueue);
      ksa_ReadyReplicas := readyReplicas; ksa_other := JNull |} |} in
  r ← mcall (CKueueApplyStatus config false "kueue-operator");
  of_err r.
End status.

Definition is_status_call (c : call) : Prop :=
  match c with CNow | CKueueApplyStatus _ _ _ => True | _ => False end.

Lemma updateKueueStatus_calls `{Env} S k cs n :
  callsM is_status_call (updateKueueStatus (S := S) k cs n).
Proof. unfold updateKueueStatus, now. solve_calls. Qed.
Lemma updateKueueStatus_inM `{Env} S I C k cs n :
  (∀ c, is_status_call c → C c) → inM I C (updateKueueStatus (S := S) k cs n).
Proof. intros HC. unfold updateKueueStatus, now. solve_in; by apply HC. Qed.
#[export] Hint Resolve updateKueueStatus_calls : calls.

(** ** Properties *)

(** The status of the condition of a type. *)
Definition status_of (type : string) (cs : list OperatorConditionApply) : option string :=
  c ← FindApplyCondition cs (Some type); ca_Status c.

(** The statuses [buildOperatorConditions] reports. *)
Lemma operator_statuses (d : Deployment) dep :
  (∀ c, dep = Some c → ca_Type c = Some "Degraded") →
  let cs := buildOperatorConditions d dep in
  let desired := default 1%Z (dp_Replicas (dep_Spec (ko_body d))) in
  let ready := ds_ReadyReplicas (dep_Status (ko_body d)) in
  let allReady := (ready =? desired)%Z && (0 <? ready)%Z in
  map ca_Type cs = [Some "Available"; Some "Progressing"; Some "Degraded"; Some "CertManagerAvailable"] ∧
  status_of "Available" cs = Some (if allReady then ConditionTrue else ConditionFalse) ∧
  status_of "Progressing" cs = Some (if allReady then ConditionFalse else ConditionTrue) ∧
  status_of "Degraded" cs =
    (match dep with
     | Some c => ca_Status c
     | None => Some (if (0 <? ds_UnavailableReplicas (dep_Status (ko_body d)))%Z ||
                        ((ready =? 0)%Z && (0 <? desired)%Z)
                     then ConditionTrue else ConditionFalse)
     end) ∧
  status_of "CertManagerAvailable" cs = Some ConditionTrue ∧
  (∀ c, dep = Some c → c ∈ cs).
Proof.
  intros Hdep cs desired ready allReady. subst cs. unfold buildOperatorConditions. cbv zeta.
  fold desired ready allReady.
  destruct dep as [[ty st lt rs ms]|].
  - specialize (Hdep _ eq_refl). simpl in Hdep. subst ty.
    destruct allReady; (split_and!; [reflexivity..|]); intros c [= <-];
      apply elem_of_cons; right; apply elem_of_cons; right; constructor.
  - destruct allReady, (0 <? _)%Z, ((ready =? 0)%Z && (0 <? desired)%Z);
      (split_and!; [reflexivity..|]); intros c [=].
Qed.

(** C27: The reported conditions say what the deployment's status says.
    Available and Progressing are opposite, and Available exactly when all
    desired replicas (at least one) are ready. Without a missing dependency,
    Degraded exactly when a replica is unavailable or none of the desired ones
    is ready; a missing dependency replaces it. cert-manager is reported
    available, and every type appears once. *)
Theorem buildOperatorConditions_spec (d : Deployment) (dep : option OperatorConditionApply) :
  (∀ c, dep = Some c → ca_Type c = Some "Degraded") →
  let cs := buildOperatorConditions d dep in
  let desired := default 1%Z (dp_Replicas (dep_Spec (ko_body d))) in
  let ready := ds_ReadyReplicas (dep_Status (ko_body d)) in
  map ca_Type cs = [Some "Available"; Some "Progressing"; Some "Degraded"; Some "CertManagerAvailable"] ∧
  (status_of "Available" cs = Some ConditionTrue ↔ ready = desired ∧ (0 < ready)%Z) ∧
  (status_of "Progressing" cs = Some ConditionTrue ↔ status_of "Available" cs = Some ConditionFalse) ∧
  (status_of "Available" cs = Some ConditionTrue ∨ status_of "Available" cs = Some ConditionFalse) ∧
  (dep = None →
     (status_of "Degraded" cs = Some ConditionTrue ↔
        (0 < ds_UnavailableReplicas (dep_Status (ko_body d)))%Z ∨ (ready = 0 ∧ 0 < desired)%Z)) ∧
  (∀ c, dep = Some c → c ∈ cs ∧ status_of "Degraded" cs = ca_Status c) ∧
  status_of "CertManagerAvailable" cs = Some ConditionTrue.
Proof.
  intros Hdep cs desired ready.
  destruct (operator_statuses d dep Hdep) as (Ht & Ha & Hp & Hd & Hc & Hin).
  fold cs in Ht, Ha, Hp, Hd, Hc, Hin. fold desired ready in Ha, Hp, Hd.
  assert (Hall : (ready =? desired)%Z && (0 <? ready)%Z = true ↔ ready = desired ∧ (0 < ready)%Z).
  { by rewrite andb_true_iff, Z.eqb_eq, Z.ltb_lt. }
  rewrite Ha, Hp, Hc. split; [done|]. split.
  { rewrite <-Hall. by destruct (_ && _). }
  split; [by destruct (_ && _)|]. split; [destruct (_ && _); auto|]. split.
  { intros ->. rewrite Hd. set (n := ds_UnavailableReplicas _).
    transitivity ((0 <? n)%Z || ((ready =? 0)%Z && (0 <? desired)%Z) = true);
      [by destruct (_ || _)|].
    by rewrite orb_true_iff, andb_true_iff, Z.eqb_eq, !Z.ltb_lt. }
  split; [|done]. intros c ->. split; [by apply Hin|done].
Qed.

Lemma buildOperatorConditions_spec_witness :
  let d : Deployment := {| ko_Kind := ""; ko_Group := ""; ko_meta := meta_named "ns" "kueue-controller-manager";
    ko_body := {|
      dep_Spec := {| dp_Replicas := Some 2%Z; dp_Strategy := {| dst_Type := ""; dst_MaxUnavailable := None |};
        dp_TemplateAnnotations := None;
        dp_TemplateSpec := {| ps_Volumes := []; ps_Containers := []; ps_Affinity := None;
                              ps_PriorityClassName := ""; ps_other := JNull |};
        dp_other := JNull |};
      dep_Status := {| ds_ReadyReplicas := 2; ds_UnavailableReplicas := 0 |} |} |} in
  status_of "Available" (buildOperatorConditions d None) = Some ConditionTrue.
Proof.
  intros d.
  apply (proj1 (proj2 (buildOperatorConditions_spec d None ltac:(discriminate)))).
  split; [reflexivity|vm_compute; reflexivity].
Defined.

(** Transition times: what a condition says is never changed; every
    condition gets a time; and the time of the existing condition of the same
    type is kept exactly while the status does not change. *)
Theorem SetApplyConditionsLastTransitionTime_spec (now : Z) (new old : list OperatorConditionApply) i c :
  new !! i = Some c →
  ∃ c', SetApplyConditionsLastTransitionTime now new old !! i = Some c' ∧
    ca_Type c' = ca_Type c ∧ ca_Status c' = ca_Status c ∧
    ca_Reason c' = ca_Reason c ∧ ca_Message c' = ca_Message c ∧
    is_Some (ca_LastTransitionTime c') ∧
    (∀ e t, FindApplyCondition old (ca_Type c) = Some e → ca_LastTransitionTime e = Some t →
       ca_Status e = ca_Status c → ca_LastTransitionTime c' = Some t) ∧
    ((∀ e, FindApplyCondition old (ca_Type c) = Some e → ca_Status e ≠ ca_Status c) →
       ca_LastTransitionTime c = None → ca_LastTransitionTime c' = Some now).
Proof.
  intros Hi. unfold SetApplyConditionsLastTransitionTime.
  exists (withTransitionTime now old c). rewrite list_lookup_fmap, Hi. split; [done|].
  unfold withTransitionTime. destruct (FindApplyCondition old (ca_Type c)) as [e|].
  - case_bool_decide as Hs.
    + destruct (ca_LastTransitionTime e) as [t|] eqn:Ht; simpl; rewrite ?Ht; split_and!; simpl;
        try done; naive_solver.
    + destruct (ca_LastTransitionTime c) as [t|] eqn:Ht; simpl; rewrite ?Ht; split_and!; simpl;
        try done; naive_solver.
  - destruct (ca_LastTransitionTime c) as [t|] eqn:Ht; simpl; rewrite ?Ht; split_and!; simpl;
      try done; naive_solver.
Qed.

Lemma SetApplyConditionsLastTransitionTime_spec_witness :
  let old := [set_LastTransitionTime (Some 7%Z) (condition "Degraded" "False" "AsExpected" "")] in
  ∃ c', SetApplyConditionsLastTransitionTime 9 [condition "Degraded" "False" "Other" ""] old !! 0 = Some c' ∧
    ca_LastTransitionTime c' = Some 7%Z.
Proof.
  intros old.
  destruct (SetApplyConditionsLastTransitionTime_spec 9 [condition "Degraded" "False" "Other" ""] old 0
    (condition "Degraded" "False" "Other" "") eq_refl) as (c' & H & _ & _ & _ & _ & _ & Hk & _).
  exists c'. split; [exact H|]. eapply Hk; reflexivity.
Defined.

(** The conditions reported for a missing cert-manager and for an
    unsupported TLS profile are Degraded, neither Available nor Progressing. *)
Theorem blocked_conditions (e : error) :
  Forall (λ cs, status_of "Degraded" cs = Some ConditionTrue ∧
                status_of "Available" cs = Some ConditionFalse ∧
                status_of "Progressing" cs = Some ConditionFalse)
    [buildCertManagerMissingConditions; buildUnsupportedTLSProfileConditions e].
Proof. repeat constructor. Qed.
