(* ===== verification/CachedApply.v ===== *)
(** * Applying with the resource cache

    library-go's [resourceCache] ([SafeToSkipApply],
    [UpdateCachedResourceMetadata]) and the eight [apply*WithCache] methods of
    [target_config_reconciler.go]: read the informer's copy, skip the apply
    when neither the manifest nor the object changed since the last one,
    otherwise apply and remember. *)
From S2P Require Import Prelude GoStd K8s ApiTypes DraHelpers ConfigMap TlsProfile K8sObjects.
From S2P Require Import Effects Monad ResourceApply Reconciler.

(** ** The cache *)

Section cache.
Context `{Env}.

(** [getResourceMetadata]: an object whose group and kind cannot be
    determined (built in Go, outside the core group) has no key. *)
Definition cacheKey {k} (o : obj k) : option cachedVersionKey :=
  let key kind group := {|
    ck_name := ko_Name o; ck_namespace := ko_Namespace o; ck_kind := kind; ck_group := group |} in
  if negb (ko_Kind o =s "") then Some (key (ko_Kind o) (ko_Group o))
  else match k with
       | KService => Some (key "Service" "")
       | KServiceAccount => Some (key "ServiceAccount" "")
       | KConfigMap => Some (key "ConfigMap" "")
       | KSecret => Some (key "Secret" "")
       | _ => None
       end.

(** [getResourceVersion]: an error when empty. *)
Definition resourceVersion {k} (o : obj k) : option string :=
  let rv := om_ResourceVersion (ko_meta o) in if rv =s "" then None else Some rv.

Definition UpdateCachedResourceMetadata {k} (required actual : obj k) (c : ResourceCache)
    : ResourceCache :=
  match cacheKey required, resourceVersion actual with
  | Some key, Some rv => <[key := (hashOfResourceStruct k required, rv)]> c
  | _, _ => c
  end.

Definition SafeToSkipApply {k} (required existing : obj k) (c : ResourceCache) : bool :=
  match cacheKey required, resourceVersion existing with
  | Some key, Some rv => bool_decide (c !! key = Some (hashOfResourceStruct k required, rv))
  | _, _ => false
  end.
End cache.

(** ** The methods *)

Section methods.
Context `{Env}.

(** The shape the methods share. [ns] is the lister's namespace. *)
Definition applyWithCache (k : kind) (ns : string)
    (prepare : option (obj k) → obj k → obj k)
    (apply : obj k → M TCR (obj k * bool)) (required : obj k) : M TCR (obj k * bool) :=
  r ← try (lister k ns (ko_Name required));
  match r with
  | inl err =>
      if negb (IsNotFound err) then throw err
      else
        let required := prepare None required in
        '(actual, updated) ← apply required;
        mmodify (λ t, tcr_set_resourceCache
          (UpdateCachedResourceMetadata required actual (resourceCache t)) t) ;;
        mret (actual, updated)
  | inr existing =>
      let required := prepare (Some existing) required in
      t ← mget;
      if SafeToSkipApply required existing (resourceCache t) then mret (existing, false)
      else
        '(actual, updated) ← apply required;
        mmodify (λ t, tcr_set_resourceCache
          (UpdateCachedResourceMetadata required actual (resourceCache t)) t) ;;
        mret (actual, updated)
  end.

(** A library-go [ApplyFoo] call. *)
Definition resourceapply_Apply (k : kind) (expectedGeneration : Z) (required : obj k)
    : M TCR (obj k * bool) :=
  r ← mcall (CApply k required expectedGeneration); of_sum r.

Definition no_prepare {A} (_ : option A) (required : A) : A := required.

Definition applyClusterRoleWithCache (required : ClusterRole) : M TCR (ClusterRole * bool) :=
  applyWithCache KClusterRole "" no_prepare (resourceapply_Apply KClusterRole 0) required.
Definition applyClusterRoleBindingWithCache (required : ClusterRoleBinding)
    : M TCR (ClusterRoleBinding * bool) :=
  applyWithCache KClusterRoleBinding "" no_prepare (resourceapply_Apply KClusterRoleBinding 0) required.
Definition applyRoleWithCache (required : Role) : M TCR (Role * bool) :=
  applyWithCache KRole (ko_Namespace required) no_prepare (resourceapply_Apply KRole 0) required.
Definition applyRoleBindingWithCache (required : RoleBinding) : M TCR (RoleBinding * bool) :=
  applyWithCache KRoleBinding (ko_Namespace required) no_prepare
    (resourceapply_Apply KRoleBinding 0) required.
Definition applyNetworkPolicyWithCache (required : NetworkPolicy) : M TCR (NetworkPolicy * bool) :=
  applyWithCache KNetworkPolicy (ko_Namespace required) no_prepare ApplyNetworkPolicy required.
Definition applyPriorityLevelConfigurationWithCache (required : PriorityLevelConfiguration)
    : M TCR (PriorityLevelConfiguration * bool) :=
  applyWithCache KPriorityLevelConfiguration "" no_prepare ApplyPriorityLevelConfiguration required.
Definition applyDeploymentWithCache (required : Deployment) (expectedGeneration : Z)
    : M TCR (Deployment * bool) :=
  applyWithCache KDeployment (ko_Namespace required) no_prepare
    (resourceapply_Apply KDeployment expectedGeneration) required.

(** The [caBundle] that cert-manager injected into the conversion webhook of
    the existing CRD is kept. *)
Definition crdClientConfig (c : CRDBody) : option WebhookClientConfig :=
  conv ← crd_Conversion c; wh ← crc_Webhook conv; wcv_ClientConfig wh.
Definition client_config_set_CABundle (ca : string) (c : WebhookClientConfig) : WebhookClientConfig :=
  {| wcc_Service := wcc_Service c; wcc_CABundle := ca; wcc_other := wcc_other c |}.
Definition crd_map_ClientConfig (f : WebhookClientConfig → WebhookClientConfig) (c : CRDBody) : CRDBody := {|
  crd_Versions := crd_Versions c;
  crd_Conversion := (λ conv, {|
    crc_Strategy := crc_Strategy conv;
    crc_Webhook := (λ wh, {|
      wcv_ClientConfig := f <$> wcv_ClientConfig wh;
      wcv_ConversionReviewVersions := wcv_ConversionReviewVersions wh |}) <$> crc_Webhook conv |})
    <$> crd_Conversion c;
  crd_other := crd_other c |}.
Definition preserveCABundle (existing : option CustomResourceDefinition)
    (required : CustomResourceDefinition) : CustomResourceDefinition :=
  match existing with
  | None => required
  | Some e =>
      match crdClientConfig (ko_body e) with
      | None => required
      | Some cc => set_body (crd_map_ClientConfig (client_config_set_CABundle (wcc_CABundle cc))) required
      end
  end.
Definition applyCustomResourceDefinitionWithCache (required : CustomResourceDefinition)
    : M TCR (CustomResourceDefinition * bool) :=
  applyWithCache KCRD "" preserveCABundle (resourceapply_Apply KCRD 0) required.
End methods.

(** ** The cache is sound *)

Section properties.
Context `{Env}.

Lemma SafeToSkipApply_true {k} (required existing : obj k) c :
  SafeToSkipApply required existing c = true ↔
  ∃ key rv, cacheKey required = Some key ∧ resourceVersion existing = Some rv ∧
    c !! key = Some (hashOfResourceStruct k required, rv).
Proof.
  unfold SafeToSkipApply.
  destruct (cacheKey required) as [key|], (resourceVersion existing) as [rv|]; [|naive_solver..].
  rewrite bool_decide_eq_true. naive_solver.
Qed.

(** C21: The cache is exact. After an apply of [required] was remembered with
    the object [actual] it produced, a manifest of the same object is skipped
    exactly when its hash is that of [required] and the existing object still
    has [actual]'s resource version; what was remembered for other objects is
    unchanged. *)
Theorem SafeToSkipApply_after_update {k} (required actual required' existing : obj k) key rv
    (c : ResourceCache) :
  cacheKey required = Some key → resourceVersion actual = Some rv →
  let c' := UpdateCachedResourceMetadata required actual c in
  (cacheKey required' = Some key →
     (SafeToSkipApply required' existing c' = true ↔
        hashOfResourceStruct k required' = hashOfResourceStruct k required ∧
        resourceVersion existing = Some rv)) ∧
  (∀ k2 (r2 e2 : obj k2), cacheKey r2 ≠ Some key →
     SafeToSkipApply r2 e2 c' = SafeToSkipApply r2 e2 c).
Proof.
  intros Hk Hv c'. assert (c' = <[key := (hashOfResourceStruct k required, rv)]> c) as Hc'.
  { subst c'. unfold UpdateCachedResourceMetadata. by rewrite Hk, Hv. }
  clearbody c'. subst c'. split.
  - intros Hk'. rewrite SafeToSkipApply_true. setoid_rewrite Hk'. split.
    + intros (key' & rv' & [= <-] & He & Hl). rewrite lookup_insert_eq in Hl.
      injection Hl as Hh ->. done.
    + intros [Hh He]. exists key, rv. rewrite lookup_insert_eq. by rewrite Hh.
  - intros k2 r2 e2 Hne. unfold SafeToSkipApply.
    destruct (cacheKey r2) as [key2|]; [|done]. destruct (resourceVersion e2); [|done].
    by rewrite lookup_insert_ne by congruence.
Qed.

(** An object the operator builds in Go, without type metadata and
    outside the core group, is never skipped: its key cannot be determined,
    so nothing is remembered for it. *)
Theorem untyped_never_skipped {k} (required existing actual : obj k) (c : ResourceCache) :
  ko_Kind required = "" → k ∉ [KService; KServiceAccount; KConfigMap; KSecret] →
  SafeToSkipApply required existing c = false ∧
  UpdateCachedResourceMetadata required actual c = c.
Proof.
  intros Hk Hin. assert (cacheKey required = None) as Hc.
  { unfold cacheKey. rewrite Hk. cbn. destruct k; try done; set_solver. }
  unfold SafeToSkipApply, UpdateCachedResourceMetadata. by rewrite Hc.
Qed.

(** *** One apply *)

Lemma runs_try_lister {k ns n S B} (f : error + obj k → M S B) (s : S) tr p :
  runs ((try (lister k ns n) ≫= f) s) tr (Some p) →
  ∃ r tr', tr = Ev (CLister k ns n) r :: tr' ∧ runs (f r s) tr' (Some p).
Proof.
  intros Hr. apply runs_vis_inv in Hr as (r & tr' & -> & Hr). exists r, tr'. split; [done|].
  by destruct r.
Qed.

Lemma runs_pbind_inv {A B} (p : prog A) (f : A → prog B) tr b :
  runs (pbind p f) tr (Some b) →
  ∃ tr1 a tr2, tr = tr1 ++ tr2 ∧ runs p tr1 (Some a) ∧ runs (f a) tr2 (Some b).
Proof.
  revert tr. induction p as [a|c k IH]; simpl; intros tr Hr.
  - exists [], a, tr. split_and!; [done|constructor|done].
  - apply runs_vis_inv in Hr as (r & tr' & -> & Hr).
    destruct (IH _ _ Hr) as (tr1 & a & tr2 & -> & H1 & H2).
    exists (Ev c r :: tr1), a, tr2. split_and!; [done|by constructor|done].
Qed.

(** What the cache remembers after an outcome of the apply. *)
Definition remembered {k} (required : obj k) (r : res (obj k * bool)) (t : TCR) : TCR :=
  match r with
  | Ok (actual, _) =>
      tcr_set_resourceCache (UpdateCachedResourceMetadata required actual (resourceCache t)) t
  | _ => t
  end.

Lemma runs_apply_remember {k} (apply : M TCR (obj k * bool)) (required : obj k) t tr t' r :
  runs (('(actual, updated) ← apply;
         mmodify (λ t, tcr_set_resourceCache
           (UpdateCachedResourceMetadata required actual (resourceCache t)) t) ;;
         mret (actual, updated)) t) tr (Some (t', r)) →
  ∃ t1, runs (apply t) tr (Some (t1, r)) ∧ t' = remembered required r t1.
Proof.
  intros Hr. apply runs_pbind_inv in Hr as (tr1 & [t1 r1] & tr2 & -> & H1 & H2).
  destruct r1 as [[actual updated]|e|p]; simpl in H2; apply runs_ret_inv in H2 as [-> [= -> ->]];
    rewrite app_nil_r; by eexists.
Qed.

(** C22: What one cached apply does. It asks the informer once. An informer
    error other than NotFound is returned and nothing else happens; an
    unchanged object is returned as it is, without any other call and with
    the cache untouched; in every other case the apply runs, its outcome is
    returned as it is, and the cache changes only if it succeeded. *)
Theorem applyWithCache_spec (k : kind) ns prepare apply (required : obj k) (t t' : TCR) tr r :
  runs (applyWithCache k ns prepare apply required t) tr (Some (t', r)) →
  ∃ a tr', tr = Ev (CLister k ns (ko_Name required)) a :: tr' ∧
    match a with
    | inr existing =>
        let required := prepare (Some existing) required in
        if SafeToSkipApply required existing (resourceCache t)
        then tr' = [] ∧ t' = t ∧ r = Ok (existing, false)
        else ∃ t1, runs (apply required t) tr' (Some (t1, r)) ∧ t' = remembered required r t1
    | inl e =>
        if IsNotFound e
        then ∃ t1, runs (apply (prepare None required) t) tr' (Some (t1, r)) ∧
                   t' = remembered (prepare None required) r t1
        else tr' = [] ∧ t' = t ∧ r = Err e
    end.
Proof.
  intros Hr. apply runs_try_lister in Hr as (a & tr' & -> & Hr). exists a, tr'. split; [done|].
  destruct a as [e|existing].
  - destruct (IsNotFound e); cbn [negb] in Hr.
    + by apply runs_apply_remember.
    + apply runs_ret_inv in Hr as [-> [= -> ->]]. done.
  - cbv zeta in *. change (runs ((λ t : TCR,
      (if SafeToSkipApply (prepare (Some existing) required) existing (resourceCache t)
       then mret (existing, false)
       else '(actual, updated) ← apply (prepare (Some existing) required);
            mmodify (λ t, tcr_set_resourceCache
              (UpdateCachedResourceMetadata (prepare (Some existing) required) actual
                 (resourceCache t)) t) ;;
            mret (actual, updated)) t) t) tr' (Some (t', r))) in Hr. cbv beta in Hr.
    destruct (SafeToSkipApply _ _ _).
    + apply runs_ret_inv in Hr as [-> [= -> ->]]. done.
    + by apply runs_apply_remember.
Qed.

(** Applying a CRD never overwrites the CA bundle that cert-manager
    injected: what is applied has the existing conversion webhook's bundle,
    and is otherwise the manifest. *)
Theorem preserveCABundle_spec (existing : option CustomResourceDefinition)
    (required : CustomResourceDefinition) :
  let required' := preserveCABundle existing required in
  (∀ e cc cc', existing = Some e → crdClientConfig (ko_body e) = Some cc →
     crdClientConfig (ko_body required) = Some cc' →
     crdClientConfig (ko_body required') =
       Some (client_config_set_CABundle (wcc_CABundle cc) cc')) ∧
  ko_meta required' = ko_meta required ∧
  crd_Versions (ko_body required') = crd_Versions (ko_body required) ∧
  wcc_Service <$> crdClientConfig (ko_body required') =
    wcc_Service <$> crdClientConfig (ko_body required).
Proof.
  assert (Hmap : ∀ f c, crdClientConfig (crd_map_ClientConfig f c) = f <$> crdClientConfig c).
  { intros f [v [[s [[[cc|] vs]|]]|] o]; reflexivity. }
  cbv zeta. split.
  - intros e cc cc' -> He Hr. unfold preserveCABundle. rewrite He.
    cbn [set_body ko_body]. rewrite Hmap. cbn in *. by rewrite Hr.
  - destruct existing as [e|]; [|done]. unfold preserveCABundle.
    destruct (crdClientConfig (ko_body e)) as [cc|]; [|done].
    cbn [set_body ko_body ko_meta]. rewrite Hmap. split_and!; [done..|].
    by destruct (crdClientConfig _).
Qed.
End properties.

(** ** Concrete instances *)

Definition example_role (typ name version annotation : string) : ClusterRole :=
  example_obj KClusterRole typ
    (meta_set_ResourceVersion version (meta_set_Annotations (Some {["hash" := annotation]}) (meta_named "" name))).

Definition example_key (name : string) : cachedVersionKey :=
  {| ck_name := name; ck_namespace := ""; ck_kind := "ClusterRole"; ck_group := "" |}.

Lemma SafeToSkipApply_after_update_witness :
  let env := example_env in
  SafeToSkipApply (example_role "ClusterRole" "r" "" "a") (example_role "ClusterRole" "r" "7" "a")
    (UpdateCachedResourceMetadata (example_role "ClusterRole" "r" "" "a")
       (example_role "ClusterRole" "r" "7" "a") ∅) = true.
Proof.
  cbv zeta.
  refine (proj2 (proj1 (@SafeToSkipApply_after_update example_env KClusterRole
    (example_role "ClusterRole" "r" "" "a") (example_role "ClusterRole" "r" "7" "a")
    (example_role "ClusterRole" "r" "" "a") (example_role "ClusterRole" "r" "7" "a")
    (example_key "r") "7" ∅ _ _) _) _); [vm_compute; reflexivity..|].
  split; vm_compute; reflexivity.
Defined.

Lemma untyped_never_skipped_witness :
  let env := example_env in
  SafeToSkipApply (example_role "" "r" "" "a") (example_role "" "r" "7" "a") ∅ = false.
Proof.
  refine (proj1 (@untyped_never_skipped example_env KClusterRole (example_role "" "r" "" "a")
    (example_role "" "r" "7" "a") (example_role "" "r" "7" "a") ∅ _ _)); [reflexivity|].
  rewrite !not_elem_of_cons. split_and!; [discriminate..|apply not_elem_of_nil].
Defined.

(** An API server that has nothing and stores what is applied at version 7. *)
Definition example_role_handler : handler unit := λ s c,
  match c return option (resp c * unit) with
  | CLister _ _ name => Some (inl (StatusError StatusReasonNotFound 404 name), s)
  | CApply k required _ => Some (inr (set_meta (meta_set_ResourceVersion "7") required, true), s)
  | _ => None
  end.

Lemma applyWithCache_spec_witness :
  let env := example_env in
  ∃ tr t' r a tr',
    runs (applyClusterRoleWithCache (example_role "ClusterRole" "r" "" "a") example_tcr) tr (Some (t', r)) ∧
    tr = Ev (CLister KClusterRole "" "r") a :: tr' ∧ length tr' = 1.
Proof.
  cbv zeta.
  destruct (run example_role_handler
    (@applyClusterRoleWithCache example_env (example_role "ClusterRole" "r" "" "a") example_tcr) tt)
    as [[tr o] s'] eqn:E.
  pose proof (run_runs _ _ _ _ _ _ E) as Hr. vm_compute in E. injection E as <- <- <-.
  destruct (applyWithCache_spec KClusterRole "" no_prepare (resourceapply_Apply KClusterRole 0)
    (example_role "ClusterRole" "r" "" "a") example_tcr _ _ _ Hr) as (a & tr' & Htr & _).
  do 5 eexists. split; [exact Hr|]. split; [exact Htr|].
  apply (f_equal (@length _)) in Htr. by injection Htr.
Defined.
