(* ===== verification/Cleanup.v ===== *)
(** * Removing what the operator created

    The five [cleanUp*] methods of [target_config_reconciler.go] that run while
    the Kueue resource is being deleted: they list cluster-wide resources,
    select the operand's by name, and delete them one by one, retrying on
    throttling and conflicts, going on after a failure and reporting all the
    failures at the end. *)
From S2P Require Import Prelude GoStd K8s ApiTypes ConfigMap TlsProfile K8sObjects Effects Monad.
From S2P Require Import Reconciler.

(** ** What is deleted *)

(** An object to delete: [Delete(ctx, name)] of a typed or of the dynamic
    client. *)
Inductive target : Type :=
  | TObj (k : kind) (ns name : string)
  | TDyn (r : dyn_resource) (ns name : string).
#[export] Instance target_eq_dec : EqDecision target.
Proof. solve_decision. Defined.

(** The conditions of the loops. *)
Definition isKueueWebhook (name : string) : bool := Contains name "kueue".

Definition bundleClusterRoleNames : list string :=
  ["kueue-batch-user-role"; "kueue-batch-admin-role"].
Definition skipClusterRole (name : string) : bool :=
  negb (Contains name "kueue") || Contains name "kueue-operator" ||
  Contains name "openshift.io" || slices_Contains bundleClusterRoleNames name.
Definition skipClusterRoleBinding (name : string) : bool :=
  negb (Contains name "kueue") || Contains name "kueue-operator".

Section cleanup.
Context {S : Type}.

Definition delete_target (t : target) : M S unit :=
  match t with
  | TObj k ns name => client_delete k ns name
  | TDyn r ns name => dyn_delete r ns name
  end.

(** [retry.OnError(..., IsTooManyRequests, func() { return retry.RetryOnConflict(...) })] *)
Definition retryDelete (t : target) : M S unit :=
  OnError DefaultBackoff IsTooManyRequests (RetryOnConflict DefaultBackoff (delete_target t)).

(** [if err != nil { errorList = append(errorList, err) }] *)
Definition attempt (errorList : list error) (m : M S unit) : M S (list error) :=
  r ← try m; mret (match r with inl e => errorList ++ [e] | inr _ => errorList end).

(** [if len(errorList) > 0 { return utilerror.NewAggregate(errorList) }] *)
Definition aggregate (errorList : list error) : M S unit := of_err (NewAggregate errorList).
End cleanup.

Definition cleanUpResources : M TCR unit :=
  c ← mget;
  let ns := operatorNamespace c in
  errs ← attempt [] (retryDelete (TObj KConfigMap ns "kueue-manager-config"));
  errs ← attempt errs (retryDelete (TObj KSecret ns "kueue-webhook-server-cert"));
  errs ← attempt errs (retryDelete (TObj KSecret ns "metrics-server-cert"));
  aggregate errs.

(** The entries of [webhookTypes]: both list and filter the same way. *)
Definition listFunc (k : kind) : M TCR (list string) :=
  items ← client_list k;
  mret (List.filter isKueueWebhook (map ko_Name items)).

Definition cleanUpWebhookType (errorList : list error) (k : kind) : M TCR (list error) :=
  r ← try (listFunc k);
  match r with
  | inl e => mret (errorList ++ [e])
  | inr names =>
      mfold (λ errs name,
        attempt errs (OnError DefaultBackoff IsTooManyRequests (delete_target (TObj k "" name))))
        errorList names
  end.

Definition cleanUpWebhooks : M TCR unit :=
  errs ← mfold cleanUpWebhookType []
    [KMutatingWebhookConfiguration; KValidatingWebhookConfiguration];
  aggregate errs.

Definition cleanUpCertManagerType (errorList : list error) (r : dyn_resource) : M TCR (list error) :=
  c ← mget;
  l ← try (dyn_list r (operatorNamespace c));
  match l with
  | inl e => mret (errorList ++ [e])
  | inr items =>
      mfold (λ errs cr, attempt errs (retryDelete (TDyn r (json_Namespace cr) (json_Name cr))))
        errorList items
  end.

Definition cleanUpCertificatesAndIssuers : M TCR unit :=
  errs ← mfold cleanUpCertManagerType [] [RCertificates; RIssuers];
  aggregate errs.

Definition cleanUpClusterRoles : M TCR unit :=
  items ← client_list KClusterRole;
  errs ← mfold (λ errs role,
    if skipClusterRole (ko_Name role) then mret errs
    else attempt errs (retryDelete (TObj KClusterRole "" (ko_Name role)))) [] items;
  aggregate errs.

Definition cleanUpClusterRoleBindings : M TCR unit :=
  items ← client_list KClusterRoleBinding;
  errs ← mfold (λ errs binding,
    if skipClusterRoleBinding (ko_Name binding) then mret errs
    else attempt errs (retryDelete (TObj KClusterRoleBinding "" (ko_Name binding)))) [] items;
  aggregate errs.

(** What the names mean. *)
Definition mentions (name sub : string) : Prop := ∃ p t, name = p +:+ sub +:+ t.
Definition operand_webhook (name : string) : Prop := mentions name "kueue".
Definition operand_cluster_role (name : string) : Prop :=
  mentions name "kueue" ∧ ¬ mentions name "kueue-operator" ∧ ¬ mentions name "openshift.io" ∧
  name ≠ "kueue-batch-user-role" ∧ name ≠ "kueue-batch-admin-role".
Definition operand_cluster_role_binding (name : string) : Prop :=
  mentions name "kueue" ∧ ¬ mentions name "kueue-operator".

Lemma Contains_false name sub : Contains name sub = false ↔ ¬ mentions name sub.
Proof. unfold mentions. by rewrite <-Contains_spec, not_true_iff_false. Qed.
Lemma isKueueWebhook_true name : isKueueWebhook name = true ↔ operand_webhook name.
Proof. apply Contains_spec. Qed.
Lemma skipClusterRole_false name : skipClusterRole name = false ↔ operand_cluster_role name.
Proof.
  unfold skipClusterRole, operand_cluster_role, bundleClusterRoleNames, slices_Contains.
  rewrite !orb_false_iff, negb_false_iff, !Contains_false, bool_decide_eq_false, Contains_spec.
  unfold mentions. set_solver.
Qed.
Lemma skipClusterRoleBinding_false name :
  skipClusterRoleBinding name = false ↔ operand_cluster_role_binding name.
Proof.
  unfold skipClusterRoleBinding, operand_cluster_role_binding.
  by rewrite orb_false_iff, negb_false_iff, Contains_false, Contains_spec.
Qed.

(** ** What may be deleted

    The contract of the cleanup: only named resources of the operator's
    namespace, cluster-scoped resources that a list returned and whose name is
    the operand's, and the cert-manager resources listed in the operator's
    namespace. *)
Definition listed (k : kind) (name : string) (h : trace) : Prop :=
  ∃ items o, Ev (CList k) (inr items) ∈ h ∧ o ∈ items ∧ ko_Name o = name.
Definition dyn_listed (r : dyn_resource) (opns ns name : string) (h : trace) : Prop :=
  ∃ items j, Ev (CDynList r opns) (inr items) ∈ h ∧ j ∈ items ∧ json_Namespace j = ns ∧ json_Name j = name.

(** The cleanups, in the order [sync] runs them. *)
Inductive stage : Type :=
  | Webhooks | CertificatesAndIssuers | ClusterRoles | ClusterRoleBindings | NamedResources.

Definition stage_target (opns : string) (st : stage) (h : trace) (t : target) : Prop :=
  match st, t with
  | Webhooks, TObj (KMutatingWebhookConfiguration as k) ns n
  | Webhooks, TObj (KValidatingWebhookConfiguration as k) ns n =>
      ns = "" ∧ operand_webhook n ∧ listed k n h
  | CertificatesAndIssuers, TDyn RCertificates ns n => dyn_listed RCertificates opns ns n h
  | CertificatesAndIssuers, TDyn RIssuers ns n => dyn_listed RIssuers opns ns n h
  | ClusterRoles, TObj (KClusterRole as k) ns n => ns = "" ∧ operand_cluster_role n ∧ listed k n h
  | ClusterRoleBindings, TObj (KClusterRoleBinding as k) ns n =>
      ns = "" ∧ operand_cluster_role_binding n ∧ listed k n h
  | NamedResources, TObj KConfigMap ns n => ns = opns ∧ n = "kueue-manager-config"
  | NamedResources, TObj KSecret ns n => ns = opns ∧ n ∈ ["kueue-webhook-server-cert"; "metrics-server-cert"]
  | _, _ => False
  end.

Definition stage_lists (st : stage) (k : kind) : Prop :=
  match st with
  | Webhooks => k = KMutatingWebhookConfiguration ∨ k = KValidatingWebhookConfiguration
  | ClusterRoles => k = KClusterRole
  | ClusterRoleBindings => k = KClusterRoleBinding
  | _ => False
  end.

(** The calls of one cleanup: its lists, the waits between retries, and the
    deletion of its own targets. *)
Definition stage_allowed (opns : string) (st : stage) (h : trace) (c : call) : Prop :=
  match c with
  | CList k => stage_lists st k
  | CDynList r ns => st = CertificatesAndIssuers ∧ (r = RCertificates ∨ r = RIssuers) ∧ ns = opns
  | CSleepBackoff => True
  | CDelete k ns n => stage_target opns st h (TObj k ns n)
  | CDynDelete r ns n => stage_target opns st h (TDyn r ns n)
  | _ => False
  end.

(** What any of them may do. *)
Definition cleanup_allowed (opns : string) (h : trace) (c : call) : Prop :=
  ∃ st, stage_allowed opns st h c.

(** What the history says of a deletion. *)
Definition answered (t : target) (a : option error) (h : trace) : Prop :=
  match t with
  | TObj k ns n => Ev (CDelete k ns n) a ∈ h
  | TDyn r ns n => Ev (CDynDelete r ns n) a ∈ h
  end.
Definition deleted (t : target) (h : trace) : Prop := answered t None h.
Definition refused (t : target) (h : trace) : Prop := ∃ e, answered t (Some e) h.

Lemma answered_app t a h t' : answered t a h → answered t a (h ++ t').
Proof. destruct t; apply elem_of_earlier. Qed.
Lemma deleted_app t h t' : deleted t h → deleted t (h ++ t').
Proof. apply answered_app. Qed.
Lemma refused_app t h t' : refused t h → refused t (h ++ t').
Proof. intros [e He]. exists e. by apply answered_app. Qed.

Lemma listed_app k n h t : listed k n h → listed k n (h ++ t).
Proof. intros (i & o & ? & ?). exists i, o. split; [by apply elem_of_earlier|done]. Qed.
Lemma dyn_listed_app r o ns n h t : dyn_listed r o ns n h → dyn_listed r o ns n (h ++ t).
Proof. intros (i & j & ? & ?). exists i, j. split; [by apply elem_of_earlier|done]. Qed.

Lemma stage_target_app opns st h t x : stage_target opns st h x → stage_target opns st (h ++ t) x.
Proof.
  destruct st, x as [k ns n|r ns n]; try destruct k; try destruct r; cbn; try done;
    naive_solver eauto using listed_app, dyn_listed_app.
Qed.

(** ** One deletion *)

Section one.
Context (opns : string) (st : stage).

Lemma delete_target_wp (t : target) (s : TCR) h :
  stage_target opns st h t →
  wpM (stage_allowed opns st) (delete_target t) s h (λ h' s' r, s' = s ∧ (∃ t', h' = h ++ t') ∧
    match r with Ok _ => deleted t h' | Err _ => refused t h' | Panic _ => False end).
Proof.
  intros Ht. destruct t as [k ns n|r ns n]; unfold delete_target, client_delete, dyn_delete.
  - apply (wpM_call_err _ (CDelete k ns n) (λ r, r)); [done|].
    intros [e|]; (split; [done|]); (split; [by eexists|]); [eexists|]; apply elem_of_last.
  - apply (wpM_call_err _ (CDynDelete r ns n) (λ r, r)); [done|].
    intros [e|]; (split; [done|]); (split; [by eexists|]); [eexists|]; apply elem_of_last.
Qed.

(** A retried deletion ends with the object deleted, or with an error that
    the server gave. *)
Lemma retry_wp steps retriable (m : M TCR unit) (t : target) (s : TCR) h0 :
  0 < steps →
  (∀ h, stage_target opns st h t →
    wpM (stage_allowed opns st) m s h (λ h' s' r, s' = s ∧ (∃ t', h' = h ++ t') ∧
      match r with Ok _ => deleted t h' | Err _ => refused t h' | Panic _ => False end)) →
  stage_target opns st h0 t →
  wpM (stage_allowed opns st) (OnError steps retriable m) s h0 (λ h' s' r, s' = s ∧ (∃ t', h' = h0 ++ t') ∧
    match r with Ok _ => deleted t h' | Err _ => refused t h' | Panic _ => False end).
Proof.
  intros Hn Hm Ht.
  eapply wpM_mono; [|eapply wpM_extends, (wpM_OnError_failed (stage_allowed opns st) steps retriable m s h0
    (λ h s', s' = s ∧ stage_target opns st h t) (λ h _, refused t h)
    (λ h s' _, s' = s ∧ deleted t h)); [| |done|done]].
  - intros h s' [a|e|p]; naive_solver.
  - intros h s' [-> Hc]. split; [exact I|]. split; [done|]. by apply stage_target_app.
  - intros h s' [-> Hc]. eapply wpM_mono; [|by apply Hm].
    intros h' s' [a|e|p] (-> & (t' & ->) & ?); [done| |done].
    split; [|done]. split; [done|]. by apply stage_target_app.
Qed.

Lemma retryDelete_wp (t : target) (s : TCR) h :
  stage_target opns st h t →
  wpM (stage_allowed opns st) (retryDelete t) s h (λ h' s' r, s' = s ∧ (∃ t', h' = h ++ t') ∧
    match r with Ok _ => deleted t h' | Err _ => refused t h' | Panic _ => False end).
Proof.
  intros Ht. apply retry_wp; [unfold DefaultBackoff; lia| |done]. clear h Ht. intros h Ht.
  apply retry_wp; [unfold DefaultBackoff; lia| |done]. clear h Ht. intros h Ht.
  by apply delete_target_wp.
Qed.
End one.

(** ** The loops *)

Section loops.
Context (opns : string) (st : stage).

(** What a sequence of deletions left: every target was answered, the error
    list grew exactly when one was refused. *)
Definition swept (ts : list target) (h : trace) (errs errs' : list error) : Prop :=
  (∀ t, t ∈ ts → deleted t h ∨ refused t h) ∧
  ∃ more, errs' = errs ++ more ∧
    (more = [] → ∀ t, t ∈ ts → deleted t h) ∧
    (more ≠ [] → ∃ t, t ∈ ts ∧ refused t h).

Lemma swept_nil h errs : swept [] h errs errs.
Proof.
  split; [set_solver|]. exists []. rewrite app_nil_r. split; [done|]. split; [set_solver|done].
Qed.

Lemma swept_later ts h t errs errs' : swept ts h errs errs' → swept ts (h ++ t) errs errs'.
Proof.
  intros (H1 & more & -> & H2 & H3). split.
  - intros x Hx. destruct (H1 x Hx); [left; by apply deleted_app|right; by apply refused_app].
  - exists more. split; [done|]. split.
    + intros Hm x Hx. apply deleted_app. by apply H2.
    + intros Hm. destruct (H3 Hm) as (x & ? & ?). exists x. split; [done|]. by apply refused_app.
Qed.

Lemma swept_app ts1 ts2 h errs errs1 errs2 :
  swept ts1 h errs errs1 → swept ts2 h errs1 errs2 → swept (ts1 ++ ts2) h errs errs2.
Proof.
  intros (A1 & m1 & -> & A2 & A3) (B1 & m2 & -> & B2 & B3). split.
  - intros x [Hx|Hx]%elem_of_app; auto.
  - exists (m1 ++ m2). rewrite <-app_assoc. split; [done|]. split.
    + intros [-> ->]%app_eq_nil x [Hx|Hx]%elem_of_app; auto.
    + intros Hm. destruct m1 as [|e m1].
      * destruct (B3 Hm) as (x & ? & ?). exists x. set_solver.
      * destruct (A3 ltac:(done)) as (x & ? & ?). exists x. set_solver.
Qed.

Lemma attempt_wp errs (m : M TCR unit) (t : target) (s : TCR) h :
  wpM (stage_allowed opns st) m s h (λ h' s' r, s' = s ∧ (∃ t', h' = h ++ t') ∧
    match r with Ok _ => deleted t h' | Err _ => refused t h' | Panic _ => False end) →
  wpM (stage_allowed opns st) (attempt errs m) s h (λ h' s' r, s' = s ∧ (∃ t', h' = h ++ t') ∧
    ∃ errs', r = Ok errs' ∧ swept [t] h' errs errs').
Proof.
  intros Hm. unfold attempt. apply wpM_bind, wpM_try. eapply wpM_mono; [|exact Hm].
  intros h' s' [a|e|p] (-> & Hext & H); [| |done]; apply wpM_ret; (split; [done|]); (split; [done|]).
  - exists errs. split; [done|]. split; [intros x ->%list_elem_of_singleton; by left|].
    exists []. rewrite app_nil_r. split; [done|]. split; [intros _ x ->%list_elem_of_singleton; done|done].
  - exists (errs ++ [e]). split; [done|].
    split; [intros x ->%list_elem_of_singleton; by right|].
    exists [e]. split; [done|]. split; [done|]. intros _. exists t. set_solver.
Qed.

Lemma loop_wp {A} (skip : A → bool) (m : A → M TCR unit) (tgt : A → target) (l : list A)
    errs (s : TCR) h0 :
  (∀ a h, stage_target opns st h (tgt a) →
    wpM (stage_allowed opns st) (m a) s h (λ h' s' r, s' = s ∧ (∃ t', h' = h ++ t') ∧
      match r with Ok _ => deleted (tgt a) h' | Err _ => refused (tgt a) h' | Panic _ => False end)) →
  (∀ a, a ∈ l → skip a = false → stage_target opns st h0 (tgt a)) →
  wpM (stage_allowed opns st)
    (mfold (λ errs a, if skip a then mret errs else attempt errs (m a)) errs l) s h0
    (λ h' s' r, s' = s ∧ (∃ t', h' = h0 ++ t') ∧
      ∃ errs', r = Ok errs' ∧ swept (map tgt (List.filter (λ a, negb (skip a)) l)) h' errs errs').
Proof.
  intros Hm Hl.
  eapply wpM_mono; [|apply (wpM_mfold _ _ l errs s h0
    (λ dn h s' errs', s' = s ∧ (∃ t', h = h0 ++ t') ∧
       swept (map tgt (List.filter (λ a, negb (skip a)) dn)) h errs errs')
    (λ _ _ _, False) (λ _ _ _, False))].
  - intros h' s' [errs'|e|p]; naive_solver.
  - intros dn a todo errs1 h s' -> (-> & (t1 & ->) & Hsw).
    rewrite List.filter_app, map_app. cbn [List.filter].
    destruct (skip a) eqn:Hs; cbn [negb].
    + apply wpM_ret. split; [done|]. split; [by eexists|]. cbn. by rewrite app_nil_r.
    + eapply wpM_mono; [|apply (attempt_wp errs1 (m a) (tgt a)), Hm].
      * intros h' s2 r (-> & (t' & ->) & errs2 & -> & Hsw2). split; [done|].
        split; [eexists; by rewrite app_assoc|].
        eapply swept_app; [by apply swept_later|done].
      * apply stage_target_app. apply Hl; [set_solver|done].
  - split; [done|]. split; [exists []; by rewrite app_nil_r|]. apply swept_nil.
Qed.
End loops.

(** ** What each cleanup guarantees when it succeeds *)

Definition resources_cleaned (opns : string) (h : trace) : Prop :=
  deleted (TObj KConfigMap opns "kueue-manager-config") h ∧
  deleted (TObj KSecret opns "kueue-webhook-server-cert") h ∧
  deleted (TObj KSecret opns "metrics-server-cert") h.

(** Everything a list returned and that is selected was deleted. *)
Definition kind_cleaned (k : kind) (sel : string → Prop) (h : trace) : Prop :=
  ∃ items, Ev (CList k) (inr items) ∈ h ∧
    ∀ o, o ∈ items → sel (ko_Name o) → deleted (TObj k "" (ko_Name o)) h.
Definition dyn_cleaned (opns : string) (r : dyn_resource) (h : trace) : Prop :=
  ∃ items, Ev (CDynList r opns) (inr items) ∈ h ∧
    ∀ j, j ∈ items → deleted (TDyn r (json_Namespace j) (json_Name j)) h.

Definition webhooks_cleaned (h : trace) : Prop :=
  kind_cleaned KMutatingWebhookConfiguration operand_webhook h ∧
  kind_cleaned KValidatingWebhookConfiguration operand_webhook h.
Definition certificates_cleaned (opns : string) (h : trace) : Prop :=
  dyn_cleaned opns RCertificates h ∧ dyn_cleaned opns RIssuers h.
Definition clusterroles_cleaned (h : trace) : Prop :=
  kind_cleaned KClusterRole operand_cluster_role h.
Definition clusterrolebindings_cleaned (h : trace) : Prop :=
  kind_cleaned KClusterRoleBinding operand_cluster_role_binding h.

(** A list or a deletion was refused. *)
Definition trouble (h : trace) : Prop :=
  (∃ t, refused t h) ∨ (∃ k e, Ev (CList k) (inl e) ∈ h) ∨ (∃ r ns e, Ev (CDynList r ns) (inl e) ∈ h).

Lemma kind_cleaned_app k sel h t : kind_cleaned k sel h → kind_cleaned k sel (h ++ t).
Proof.
  intros (items & Hi & Hd). exists items. split; [by apply elem_of_earlier|].
  intros o Ho Hs. apply deleted_app. by apply Hd.
Qed.
Lemma dyn_cleaned_app opns r h t : dyn_cleaned opns r h → dyn_cleaned opns r (h ++ t).
Proof.
  intros (items & Hi & Hd). exists items. split; [by apply elem_of_earlier|].
  intros o Ho. apply deleted_app. by apply Hd.
Qed.
Lemma trouble_app h t : trouble h → trouble (h ++ t).
Proof.
  intros [[x Hx]|[(k & e & He)|(r & ns & e & He)]].
  - left. exists x. by apply refused_app.
  - right; left. exists k, e. by apply elem_of_earlier.
  - right; right. exists r, ns, e. by apply elem_of_earlier.
Qed.
Lemma swept_trouble ts h errs errs' : swept ts h errs errs' → errs' ≠ errs → trouble h.
Proof.
  intros (_ & more & -> & _ & H) Hne. destruct more as [|e more].
  - by rewrite app_nil_r in Hne.
  - destruct (H ltac:(done)) as (x & _ & Hx). left. by exists x.
Qed.

(** ** The methods *)

(** What a cleanup does: [done] when it succeeds, and when it fails a request
    was refused; the receiver is not touched and nothing panics. *)
Definition cleanup_post (c : TCR) (h0 : trace) (done : trace → Prop)
    (h : trace) (c' : TCR) (r : res unit) : Prop :=
  c' = c ∧ (∃ t, h = h0 ++ t) ∧
  match r with Ok _ => done h | Err _ => trouble h | Panic _ => False end.

Lemma aggregate_wp allowed (c : TCR) errs h h0 (Done : trace → Prop) :
  (∃ t, h = h0 ++ t) → (errs = [] → Done h) → (errs ≠ [] → trouble h) →
  wpM allowed (aggregate errs) c h (cleanup_post c h0 Done).
Proof.
  intros Hext Hd Ht. unfold aggregate. destruct errs as [|e errs]; (split; [done|]); (split; [done|]);
    [by apply Hd|by apply Ht].
Qed.

Section methods.
Context (opns : string).

Lemma cleanUpResources_wp (c : TCR) h :
  operatorNamespace c = opns →
  wpM (stage_allowed opns NamedResources) cleanUpResources c h (cleanup_post c h (resources_cleaned opns)).
Proof.
  intros Hns. unfold cleanUpResources. apply wpM_bind, wpM_get. rewrite Hns.
  apply wpM_bind. eapply wpM_mono; [|apply attempt_wp, retryDelete_wp; done].
  intros h1 c1 r1 (-> & (t1 & ->) & e1 & -> & H1).
  apply wpM_bind. eapply wpM_mono; [|apply attempt_wp, retryDelete_wp; cbn; set_solver].
  intros h2 c2 r2 (-> & (t2 & ->) & e2 & -> & H2).
  apply wpM_bind. eapply wpM_mono; [|apply attempt_wp, retryDelete_wp; cbn; set_solver].
  intros h3 c3 r3 (-> & (t3 & ->) & e3 & -> & H3).
  pose proof (swept_app _ _ _ _ _ _ (swept_app _ _ _ _ _ _
    (swept_later _ _ t3 _ _ (swept_later _ _ t2 _ _ H1)) (swept_later _ _ t3 _ _ H2)) H3) as H.
  apply aggregate_wp.
  - eexists. by rewrite <-!app_assoc.
  - intros ->. destruct H as (_ & more & Hm & Hd & _). symmetry in Hm. cbn in Hm. specialize (Hd Hm).
    split_and!; apply Hd; set_solver.
  - intros Hne. by eapply swept_trouble.
Qed.

(** A list of a kind, then the deletion of what is selected in it. *)
Lemma cleanUpListed_wp (st : stage) (k : kind) (skip : string → bool) (sel : string → Prop) (c : TCR) h :
  (∀ n, skip n = false ↔ sel n) →
  stage_lists st k →
  (∀ h n, listed k n h → sel n → stage_target opns st h (TObj k "" n)) →
  wpM (stage_allowed opns st)
    (items ← client_list k;
     errs ← mfold (λ errs o, if skip (ko_Name o) then mret errs
                            else attempt errs (retryDelete (TObj k "" (ko_Name o)))) [] items;
     aggregate errs) c h
    (cleanup_post c h (kind_cleaned k sel)).
Proof.
  intros Hskip Hst Hsel. apply wpM_bind. unfold client_list.
  apply (wpM_call_sum _ (CList k) (λ r, r)); [exact Hst|]. intros [e|items].
  { split; [done|]. split; [by eexists|]. right; left. exists k, e. apply elem_of_last. }
  apply wpM_bind. eapply wpM_mono; [|apply (loop_wp opns _ (λ o : obj k, skip (ko_Name o))
    (λ o, retryDelete (TObj k "" (ko_Name o))) (λ o, TObj k "" (ko_Name o)))].
  - intros h' c' r (-> & (t & ->) & errs & -> & Hsw). apply aggregate_wp.
    + eexists. by rewrite <-app_assoc.
    + intros ->. exists items. split; [apply elem_of_earlier, elem_of_last|].
      destruct Hsw as (_ & more & Hm & Hd & _). symmetry in Hm. cbn in Hm.
      intros o Ho Hs. apply (Hd Hm). apply list_elem_of_In, in_map_iff. exists o. split; [done|].
      apply filter_In. split; [by apply list_elem_of_In|]. by apply negb_true_iff, Hskip.
    + intros Hne. by eapply swept_trouble.
  - intros o h' Ho. by apply retryDelete_wp.
  - intros o Ho Hs. apply Hsel; [|by apply Hskip]. exists items, o.
    split; [apply elem_of_last|]. done.
Qed.

Lemma cleanUpClusterRoles_wp (c : TCR) h :
  wpM (stage_allowed opns ClusterRoles) cleanUpClusterRoles c h (cleanup_post c h clusterroles_cleaned).
Proof. by apply cleanUpListed_wp; [apply skipClusterRole_false|..]. Qed.

Lemma cleanUpClusterRoleBindings_wp (c : TCR) h :
  wpM (stage_allowed opns ClusterRoleBindings) cleanUpClusterRoleBindings c h
    (cleanup_post c h clusterrolebindings_cleaned).
Proof. by apply cleanUpListed_wp; [apply skipClusterRoleBinding_false|..]. Qed.

(** One kind of a two-kind loop: the error list tells what happened. *)
Definition type_post (h0 : trace) (c : TCR) (errs : list error) (Done : trace → Prop)
    (h : trace) (c' : TCR) (r : res (list error)) : Prop :=
  c' = c ∧ (∃ t, h = h0 ++ t) ∧ ∃ more, r = Ok (errs ++ more) ∧
    (more = [] → Done h) ∧ (more ≠ [] → trouble h).

Lemma cleanUpWebhookType_wp (k : kind) errs (c : TCR) h :
  stage_lists Webhooks k →
  wpM (stage_allowed opns Webhooks) (cleanUpWebhookType errs k) c h
    (type_post h c errs (kind_cleaned k operand_webhook)).
Proof.
  intros Hst. unfold cleanUpWebhookType, listFunc, client_list.
  apply wpM_bind, wpM_try, wpM_bind, (wpM_call_sum _ (CList k) (λ r, r)); [exact Hst|].
  intros [e|items].
  { apply wpM_ret. split; [done|]. split; [by eexists|]. exists [e]. split; [done|]. split; [done|].
    intros _. right; left. exists k, e. apply elem_of_last. }
  apply wpM_ret. eapply wpM_mono; [|apply (loop_wp opns _ (λ _ : string, false)
    (λ name, OnError DefaultBackoff IsTooManyRequests (delete_target (TObj k "" name)))
    (λ name, TObj k "" name))].
  - intros h' c' r (-> & (t & ->) & errs' & -> & Hsw). split; [done|].
    split; [eexists; by rewrite <-app_assoc|].
    pose proof (swept_trouble _ _ _ _ Hsw) as Htr. destruct Hsw as (_ & more & -> & Hd & Hr).
    exists more. split; [done|]. split.
    + intros Hm. exists items. split; [apply elem_of_earlier, elem_of_last|].
      intros o Ho Hs. apply (Hd Hm). apply list_elem_of_In, in_map_iff. exists (ko_Name o).
      split; [done|]. apply filter_In. split; [|done]. apply filter_In. split; [|by apply isKueueWebhook_true].
      apply in_map_iff. exists o. split; [done|]. by apply list_elem_of_In.
    + intros Hm. apply Htr. intros H. apply Hm. by apply (app_inv_head errs); rewrite app_nil_r.
  - intros n h' Ht. apply (retry_wp opns _); [unfold DefaultBackoff; lia| |done].
    intros h2 Ht2. by apply delete_target_wp.
  - intros n Hn _. apply list_elem_of_In, filter_In in Hn as [Hn Hk].
    apply in_map_iff in Hn as (o & <- & Ho). assert (listed k (ko_Name o) (h ++ [Ev (CList k) (inr items)])) as Hl.
    { exists items, o. split; [apply elem_of_last|]. split; [by apply list_elem_of_In|done]. }
    apply isKueueWebhook_true in Hk. by destruct Hst as [-> | ->].
Qed.

Lemma cleanUpCertManagerType_wp (r : dyn_resource) errs (c : TCR) h :
  operatorNamespace c = opns → r = RCertificates ∨ r = RIssuers →
  wpM (stage_allowed opns CertificatesAndIssuers) (cleanUpCertManagerType errs r) c h
    (type_post h c errs (dyn_cleaned opns r)).
Proof.
  intros Hns Hr. unfold cleanUpCertManagerType, dyn_list. apply wpM_bind, wpM_get. rewrite Hns.
  apply wpM_bind, wpM_try, (wpM_call_sum _ (CDynList r opns) (λ r, r)); [done|].
  intros [e|items].
  { apply wpM_ret. split; [done|]. split; [by eexists|]. exists [e]. split; [done|]. split; [done|].
    intros _. right; right. exists r, opns, e. apply elem_of_last. }
  eapply wpM_mono; [|apply (loop_wp opns _ (λ _ : json, false)
    (λ cr, retryDelete (TDyn r (json_Namespace cr) (json_Name cr)))
    (λ cr, TDyn r (json_Namespace cr) (json_Name cr)))].
  - intros h' c' p (-> & (t & ->) & errs' & -> & Hsw). split; [done|].
    split; [eexists; by rewrite <-app_assoc|].
    pose proof (swept_trouble _ _ _ _ Hsw) as Htr. destruct Hsw as (_ & more & -> & Hd & _).
    exists more. split; [done|]. split.
    + intros Hm. exists items. split; [apply elem_of_earlier, elem_of_last|].
      intros j Hj. apply (Hd Hm). apply list_elem_of_In, in_map_iff. exists j. split; [done|].
      apply filter_In. split; [by apply list_elem_of_In|done].
    + intros Hm. apply Htr. intros H. apply Hm. by apply (app_inv_head errs); rewrite app_nil_r.
  - intros j h' Ht. by apply retryDelete_wp.
  - intros j Hj _. assert (dyn_listed r opns (json_Namespace j) (json_Name j)
      (h ++ [Ev (CDynList r opns) (inr items)])) as Hl.
    { exists items, j. split; [apply elem_of_last|done]. }
    by destruct Hr as [-> | ->].
Qed.

(** Two kinds one after the other. *)
Lemma cleanUpTwo_wp {K} allowed (f : list error → K → M TCR (list error)) (k1 k2 : K)
    (Done : K → trace → Prop) (c : TCR) h :
  (∀ k h t, Done k h → Done k (h ++ t)) →
  (∀ k errs h, k = k1 ∨ k = k2 →
    wpM allowed (f errs k) c h (type_post h c errs (Done k))) →
  wpM allowed (errs ← mfold f [] [k1; k2]; aggregate errs) c h
    (cleanup_post c h (λ h, Done k1 h ∧ Done k2 h)).
Proof.
  intros Hmono Hf. apply wpM_bind. cbn [mfold].
  apply wpM_bind. eapply wpM_mono; [|apply Hf; by left].
  intros h1 c1 r1 (-> & (t1 & ->) & m1 & -> & Hd1 & Ht1).
  apply wpM_bind. eapply wpM_mono; [|apply Hf; by right].
  intros h2 c2 r2 (-> & (t2 & ->) & m2 & -> & Hd2 & Ht2).
  apply wpM_ret, aggregate_wp.
  - eexists. by rewrite <-app_assoc.
  - intros [H1 H2]%app_eq_nil. split; [|by apply Hd2]. apply Hmono. by apply Hd1.
  - intros Hne. destruct m1 as [|e m1]; [|apply trouble_app; by apply Ht1].
    apply Ht2. intros ->. by apply Hne.
Qed.

Lemma cleanUpWebhooks_wp (c : TCR) h :
  wpM (stage_allowed opns Webhooks) cleanUpWebhooks c h (cleanup_post c h webhooks_cleaned).
Proof.
  unfold cleanUpWebhooks, webhooks_cleaned.
  apply (cleanUpTwo_wp _ cleanUpWebhookType KMutatingWebhookConfiguration
    KValidatingWebhookConfiguration (λ k, kind_cleaned k operand_webhook) c h).
  - intros k h' t. apply kind_cleaned_app.
  - intros k errs h' Hk. by apply cleanUpWebhookType_wp.
Qed.

Lemma cleanUpCertificatesAndIssuers_wp (c : TCR) h :
  operatorNamespace c = opns →
  wpM (stage_allowed opns CertificatesAndIssuers) cleanUpCertificatesAndIssuers c h
    (cleanup_post c h (certificates_cleaned opns)).
Proof.
  intros Hns. unfold cleanUpCertificatesAndIssuers, certificates_cleaned.
  apply (cleanUpTwo_wp _ cleanUpCertManagerType RCertificates RIssuers (dyn_cleaned opns) c h).
  - intros k h' t. apply dyn_cleaned_app.
  - intros r errs h' Hr. by apply cleanUpCertManagerType_wp.
Qed.
End methods.

(** ** The contract of the cleanups *)

Section contract.
Context (c : TCR).
Let opns := operatorNamespace c.

Lemma cleanup_runs (st : stage) (m : M TCR unit) Done tr o :
  wpM (stage_allowed opns st) m c [] (cleanup_post c [] Done) → runs (m c) tr o →
  trace_allowed (stage_allowed opns st) [] tr ∧
  ∀ c' r, o = Some (c', r) → cleanup_post c [] Done tr c' r.
Proof.
  intros Hm Hr. destruct (wp_runs _ _ _ _ _ _ Hr Hm) as [H1 H2]. split; [done|].
  intros c' r ->. apply (H2 (c', r) eq_refl).
Qed.

(** C26: Deleting the operand's cluster roles. In every run, also one cut
    short, nothing is called but the list of the cluster roles, the waits
    between retries, and the deletion of cluster roles that the list returned,
    whose name contains [kueue] but neither [kueue-operator] nor
    [openshift.io], and that are not one of the two bundle roles; on success
    every such role of the list was deleted; a failure means that a request
    was refused; it does not panic, and the receiver does not change. *)
Theorem cleanUpClusterRoles_spec tr o :
  runs (cleanUpClusterRoles c) tr o →
  trace_allowed (stage_allowed opns ClusterRoles) [] tr ∧
  ∀ c' r, o = Some (c', r) → cleanup_post c [] clusterroles_cleaned tr c' r.
Proof. apply cleanup_runs, cleanUpClusterRoles_wp. Qed.

(** Deleting the certificates and issuers: only those the list of the
    operator's namespace returned, and all of them on success. *)
Theorem cleanUpCertificatesAndIssuers_spec tr o :
  runs (cleanUpCertificatesAndIssuers c) tr o →
  trace_allowed (stage_allowed opns CertificatesAndIssuers) [] tr ∧
  ∀ c' r, o = Some (c', r) → cleanup_post c [] (certificates_cleaned opns) tr c' r.
Proof. apply cleanup_runs. by apply cleanUpCertificatesAndIssuers_wp. Qed.

(** The cleanup of named resources does not tolerate an absent object:
    when the ConfigMap no longer exists, it fails, however often it runs. *)
Theorem cleanUpResources_absent tr c' r :
  runs (cleanUpResources c) tr (Some (c', r)) →
  (∀ a, Ev (CDelete KConfigMap opns "kueue-manager-config") a ∈ tr →
     ∃ e, a = Some e ∧ IsNotFound e = true) →
  ∃ e, r = Err e.
Proof.
  intros Hr Habs. destruct (cleanup_runs _ _ _ _ _ (cleanUpResources_wp opns c [] eq_refl) Hr)
    as [_ Hpost]. destruct (Hpost c' r eq_refl) as (_ & _ & H).
  destruct r as [[]|e|p]; [|by eexists|done].
  destruct H as (Hd & _). apply Habs in Hd as (e & [=] & _).
Qed.

Definition is_delete (x : call) : bool :=
  match x with CDelete _ _ _ | CDynDelete _ _ _ => true | _ => false end.

Lemma retryDelete_at_most (t : target) : at_mostM (S := TCR) is_delete 16 (retryDelete t).
Proof.
  apply (at_mostM_OnError is_delete 4 DefaultBackoff); [done|].
  apply (at_mostM_OnError is_delete 1 DefaultBackoff); [done|].
  destruct t; intros s; cbn; intros [?|]; exact I.
Qed.

Lemma attempt_at_most n errs (m : M TCR unit) :
  at_mostM is_delete n m → at_mostM is_delete n (attempt errs m).
Proof.
  intros Hm. rewrite <-(Nat.add_0_r n). apply at_mostM_bind; [by apply at_mostM_try|].
  intros r s. exact I.
Qed.

(** The retries are bounded: the cleanup of the named resources sends at
    most 48 deletions, 16 per object, whatever the server answers. *)
Theorem cleanUpResources_bounded tr o :
  runs (cleanUpResources c) tr o → count is_delete tr ≤ 48.
Proof.
  intros Hr. apply (at_most_runs _ _ _ _ _ Hr). clear Hr.
  assert (at_mostM is_delete 48 cleanUpResources) as H; [|apply H].
  unfold cleanUpResources. apply (at_mostM_bind _ 0 48); [intros s; exact I|]. intros c1.
  apply (at_mostM_bind _ 16 32); [apply attempt_at_most, retryDelete_at_most|]. intros e1.
  apply (at_mostM_bind _ 16 16); [apply attempt_at_most, retryDelete_at_most|]. intros e2.
  apply (at_mostM_bind _ 16 0); [apply attempt_at_most, retryDelete_at_most|]. intros e3.
  destruct e3; intros s; exact I.
Qed.
End contract.

(** ** Concrete instances *)

Definition example_list (k : kind) : list (obj k) :=
  map (λ n, example_obj k "" (meta_named "" n))
    ["kueue-manager-role"; "kueue-operator"; "kueue-batch-admin-role"; "admin"].

(** A server that lists [example_list], deletes what it is asked to, and has
    no ConfigMap. *)
Definition example_cleanup_handler : handler unit := λ s c,
  match c return option (resp c * unit) with
  | CList k => Some (inr (example_list k), s)
  | CDynList _ ns => Some (inr [JObj [("metadata", JObj [("name", JStr "selfsigned"); ("namespace", JStr ns)])]], s)
  | CDelete KConfigMap _ n => Some (Some (StatusError StatusReasonNotFound 404 n), s)
  | CDelete _ _ _ => Some (None, s)
  | CDynDelete _ _ _ => Some (None, s)
  | _ => None
  end.

Lemma cleanUpClusterRoles_spec_witness :
  ∃ tr, runs (cleanUpClusterRoles example_tcr) tr (Some (example_tcr, Ok tt)) ∧
    count is_delete tr = 1 ∧ clusterroles_cleaned tr.
Proof.
  destruct (run example_cleanup_handler (cleanUpClusterRoles example_tcr) tt)
    as [[tr o] s'] eqn:E.
  pose proof (run_runs _ _ _ _ _ _ E) as Hr. vm_compute in E. injection E as <- <- <-.
  eexists. split; [exact Hr|]. split; [vm_compute; reflexivity|].
  exact (proj2 (proj2 (proj2 (cleanUpClusterRoles_spec example_tcr _ _ Hr) _ _ eq_refl))).
Defined.

Lemma cleanUpCertificatesAndIssuers_spec_witness :
  ∃ tr, runs (cleanUpCertificatesAndIssuers example_tcr) tr (Some (example_tcr, Ok tt)) ∧
    count is_delete tr = 2 ∧ certificates_cleaned (operatorNamespace example_tcr) tr.
Proof.
  destruct (run example_cleanup_handler (cleanUpCertificatesAndIssuers example_tcr) tt)
    as [[tr o] s'] eqn:E.
  pose proof (run_runs _ _ _ _ _ _ E) as Hr. vm_compute in E. injection E as <- <- <-.
  eexists. split; [exact Hr|]. split; [vm_compute; reflexivity|].
  exact (proj2 (proj2 (proj2 (cleanUpCertificatesAndIssuers_spec example_tcr _ _ Hr) _ _ eq_refl))).
Defined.

Lemma cleanUpResources_absent_witness :
  ∃ tr e, runs (cleanUpResources example_tcr) tr (Some (example_tcr, Err e)).
Proof.
  destruct (run example_cleanup_handler (cleanUpResources example_tcr) tt)
    as [[tr o] s'] eqn:E.
  pose proof (run_runs _ _ _ _ _ _ E) as Hr. vm_compute in E. injection E as <- <- <-.
  edestruct (cleanUpResources_absent example_tcr _ _ _ Hr) as [e He].
  - intros a Ha. rewrite !elem_of_cons in Ha. destruct Ha as [Ha|[Ha|[Ha|Ha]]].
    + eexists. split; [|shelve].
      exact (f_equal (λ e, match e with Ev (CDelete KConfigMap _ _) a => a | _ => None end) Ha).
    + apply (f_equal (λ e, match ev_call e with CDelete KConfigMap _ _ => true | _ => false end)) in Ha.
      discriminate Ha.
    + apply (f_equal (λ e, match ev_call e with CDelete KConfigMap _ _ => true | _ => false end)) in Ha.
      discriminate Ha.
    + by apply elem_of_nil in Ha.
    Unshelve. vm_compute. reflexivity.
  - eexists _, e. rewrite <-He. exact Hr.
Defined.

Lemma cleanUpResources_bounded_witness :
  ∃ tr o, runs (cleanUpResources example_tcr) tr o ∧ count is_delete tr = 3 ∧ count is_delete tr ≤ 48.
Proof.
  destruct (run example_cleanup_handler (cleanUpResources example_tcr) tt)
    as [[tr o] s'] eqn:E.
  pose proof (run_runs _ _ _ _ _ _ E) as Hr. vm_compute in E. injection E as <- <- <-.
  eexists _, _. split; [exact Hr|]. split; [vm_compute; reflexivity|].
  exact (cleanUpResources_bounded example_tcr _ _ Hr).
Defined.
