(* ===== verification/Manage.v ===== *)
(** * Managing the operand's resources

    The [manage*] methods of [target_config_reconciler.go]: read a manifest,
    adapt it (owner, namespaces, certificate annotations, platform, role
    scoping, the deployment's settings), apply it, and record the hash of the
    result. *)
From S2P Require Import Prelude GoStd K8s ApiTypes DraHelpers ConfigMap TlsProfile K8sObjects.
From S2P Require Import PodWebhook Effects Monad Cert ResourceApply Finalizer Reconciler.
From S2P Require Import Discovery CachedApply.

(** ** Applying *)

Section apply.
Context `{Env}.

(** The [Improved] applies of library-go read and extend the cache they are
    given. *)
Definition applyImproved (k : kind) (required : obj k) : M TCR (obj k * bool) :=
  c ← mget;
  r ← mcall (CApplyImproved k required (resourceCache c));
  mmodify (tcr_set_resourceCache r.2) ;;
  of_sum r.1.

Definition ApplyUnstructuredResourceImproved (d : dyn_resource) (required : json)
    : M TCR (json * bool) :=
  c ← mget;
  r ← mcall (CDynApply d required (resourceCache c));
  mmodify (tcr_set_resourceCache r.2) ;;
  of_sum r.1.

(** [resourceread.ReadFooOrDie(bindata.MustAsset(path))] *)
Definition readAsset (k : kind) (path : string) : M TCR (obj k) := of_res (ReadOrDie k path).
End apply.

(** [controller.EnsureOwnerRef(required, owner)] *)
Definition ensure_owner {B} (owner : OwnerReference) : KObj B → KObj B :=
  set_meta (λ m, meta_set_OwnerReferences (fst (EnsureOwnerRef owner (om_OwnerReferences m))) m).

(** [o.Annotations = cert.InjectCertAnnotation(o.Annotations, ns)] *)
Definition with_cert_annotation {B} (ns : string) : KObj B → KObj B :=
  set_meta (λ m, meta_set_Annotations (InjectCertAnnotation (om_Annotations m) ns) m).

Definition nil_dereference : string :=
  "runtime error: invalid memory address or nil pointer dereference".
Definition index_out_of_range : string := "runtime error: index out of range [0] with length 0".

(** ** The ConfigMap *)

Section manage.
Context `{Env}.

Definition KueueConfigMap : string := "kueue-manager-config".

Definition buildAndApplyConfigMap (oldCfgMap : option ConfigMap) (kueueCfg : KueueConfiguration)
    (gvrToKind : gmap string string) (tlsOpts : option Config.TLSOptions) : M TCR (ConfigMap * bool) :=
  c ← mget;
  cfgMap ← of_res (BuildConfigMap (operatorNamespace c) kueueCfg gvrToKind
                     (draConsumableCapacityEnabled c) tlsOpts);
  let data (m : gmap string string) := default "" (m !! "controller_manager_config.yaml") in
  match oldCfgMap with
  | Some old =>
      if data (ko_body old) =s data (cfm_Data cfgMap) then mret (old, false)
      else applyImproved KConfigMap (ConfigMap_of cfgMap)
  | None => applyImproved KConfigMap (ConfigMap_of cfgMap)
  end.

Definition manageConfigMap (kueue : Kueue) (tlsOpts : option Config.TLSOptions) : M TCR (ConfigMap * bool) :=
  c ← mget;
  r ← try (client_get KConfigMap (operatorNamespace c) KueueConfigMap);
  let config := ks_Config (ku_Spec kueue) in
  gvrToKind ← match kc_MultiKueue config with
              | Some m => resolveGVRsToKinds (mk_ExternalFrameworks m)
              | None => mret ∅
              end;
  match r with
  | inl err =>
      if IsNotFound err then buildAndApplyConfigMap None config gvrToKind tlsOpts
      else throw err
  | inr required => buildAndApplyConfigMap (Some required) config gvrToKind tlsOpts
  end.

Definition manageServiceAccount (ownerReference : OwnerReference) : M TCR (obj KServiceAccount * bool) :=
  c ← mget;
  required ← readAsset KServiceAccount "assets/kueue-operator/serviceaccount.yaml";
  applyImproved KServiceAccount
    (ensure_owner ownerReference (with_owner ownerReference
       (with_namespace (operatorNamespace c) required))).

(** ** Flow control *)

Definition manageFlowSchema (specAnnotations : gmap string string) (ownerReference : OwnerReference)
    : M TCR (gmap string string) :=
  want ← readAsset KFlowSchema "assets/kueue-operator/flowschema.yaml";
  '(flowSchema, _) ← ApplyFlowSchema (with_owner ownerReference want);
  annotateHash "FlowSchema spec" ("flowschema/" +:+ ko_Name flowSchema)
    (HSpec KFlowSchema (ko_body flowSchema)) specAnnotations.

Definition managePriorityLevelConfiguration (specAnnotations : gmap string string)
    (ownerReference : OwnerReference) : M TCR (gmap string string) :=
  want ← readAsset KPriorityLevelConfiguration "assets/kueue-operator/prioritylevelconfiguration.yaml";
  '(plc, _) ← applyPriorityLevelConfigurationWithCache (with_owner ownerReference want);
  annotateHash "PriorityLevelConfiguration spec" ("prioritylevelconfiguration/" +:+ ko_Name plc)
    (HSpec KPriorityLevelConfiguration (ko_body plc)) specAnnotations.

(** ** Webhooks *)

(** [Webhooks[i].ClientConfig.Service.Namespace = ns] *)
Definition webhook_set_service_namespace (ns : string) (w : Webhook) : res Webhook :=
  let cc := wh_ClientConfig w in
  match wcc_Service cc with
  | None => Panic nil_dereference
  | Some svc => Ok (webhook_set_ClientConfig
      {| wcc_Service := Some (service_set_Namespace ns svc);
         wcc_CABundle := wcc_CABundle cc; wcc_other := wcc_other cc |} w)
  end.

Definition desiredMutatingWebhook (ns : string) (config : KueueConfiguration)
    (ownerReference : OwnerReference) (required : MutatingWebhookConfiguration)
    : res MutatingWebhookConfiguration :=
  rlet newWebhook := ModifyPodBasedMutatingWebhook config (with_owner ownerReference required) in
  rlet webhooks := res_map (webhook_set_service_namespace ns) (wc_Webhooks (ko_body newWebhook)) in
  Ok (with_cert_annotation ns (set_body (λ _, {| wc_Webhooks := webhooks |}) newWebhook)).

Definition manageMutatingWebhook (kueue : Kueue) (ownerReference : OwnerReference)
    : M TCR (MutatingWebhookConfiguration * bool) :=
  c ← mget;
  required ← readAsset KMutatingWebhookConfiguration "assets/kueue-operator/mutatingwebhook.yaml";
  newWebhook ← of_res (desiredMutatingWebhook (operatorNamespace c) (ks_Config (ku_Spec kueue))
                         ownerReference required);
  applyImproved KMutatingWebhookConfiguration newWebhook.

Definition desiredValidatingWebhook (ns : string) (config : KueueConfiguration)
    (ownerReference : OwnerReference) (required : ValidatingWebhookConfiguration)
    : res ValidatingWebhookConfiguration :=
  rlet newWebhook := ModifyPodBasedValidatingWebhook config
    (ensure_owner ownerReference (with_owner ownerReference required)) in
  rlet webhooks := res_map (webhook_set_service_namespace ns) (wc_Webhooks (ko_body newWebhook)) in
  Ok (with_cert_annotation ns (set_body (λ _, {| wc_Webhooks := webhooks |}) newWebhook)).

Definition manageValidatingWebhook (kueue : Kueue) (ownerReference : OwnerReference)
    : M TCR (ValidatingWebhookConfiguration * bool) :=
  c ← mget;
  required ← readAsset KValidatingWebhookConfiguration "assets/kueue-operator/validatingwebhook.yaml";
  newWebhook ← of_res (desiredValidatingWebhook (operatorNamespace c) (ks_Config (ku_Spec kueue))
                         ownerReference required);
  applyImproved KValidatingWebhookConfiguration newWebhook.

(** ** RBAC *)

(** The loop over [required.Subjects] that skips what is not a service
    account. *)
Definition setServiceAccountNamespace (ns : string) (b : BindingBody) : BindingBody := {|
  bi_Subjects := map (λ s, if negb (sb_Kind s =s "ServiceAccount") then s
                           else subject_set_Namespace ns s) (bi_Subjects b);
  bi_RoleRef := bi_RoleRef b |}.

Definition manageRoleBindingsByNamespace (namespace assetPath : string)
    (ownerReference : OwnerReference) (setServiceAccountToOperatorNamespace : bool)
    : M TCR (RoleBinding * bool) :=
  c ← mget;
  required ← readAsset KRoleBinding assetPath;
  let required := with_namespace namespace (with_owner ownerReference required) in
  applyRoleBindingWithCache
    (if setServiceAccountToOperatorNamespace
     then set_body (setServiceAccountNamespace (operatorNamespace c)) required else required).

Definition manageRoleBindings (assetPath : string) (ownerReference : OwnerReference)
    (setServiceAccountToOperatorNamespace : bool) : M TCR (RoleBinding * bool) :=
  c ← mget;
  manageRoleBindingsByNamespace (operatorNamespace c) assetPath ownerReference
    setServiceAccountToOperatorNamespace.

Definition manageSystemRoleBindings (assetPath : string) (ownerReference : OwnerReference)
    (setServiceAccountToOperatorNamespace : bool) : M TCR (RoleBinding * bool) :=
  manageRoleBindingsByNamespace "kube-system" assetPath ownerReference
    setServiceAccountToOperatorNamespace.

Definition setSubjectsNamespace (ns : string) (b : BindingBody) : BindingBody := {|
  bi_Subjects := map (subject_set_Namespace ns) (bi_Subjects b); bi_RoleRef := bi_RoleRef b |}.

Definition manageClusterRoleBindings (assetDir : string) (ownerReference : OwnerReference)
    : M TCR (ClusterRoleBinding * bool) :=
  c ← mget;
  required ← readAsset KClusterRoleBinding assetDir;
  applyClusterRoleBindingWithCache
    (set_body (setSubjectsNamespace (operatorNamespace c)) (with_owner ownerReference required)).

Definition manageClusterRoleBindingsWithoutNamespaceOverride (assetDir : string)
    (ownerReference : OwnerReference) : M TCR (ClusterRoleBinding * bool) :=
  required ← readAsset KClusterRoleBinding assetDir;
  applyClusterRoleBindingWithCache (with_owner ownerReference required).

Definition manageRole (assetPath : string) (ownerReference : OwnerReference) : M TCR (Role * bool) :=
  c ← mget;
  required ← readAsset KRole assetPath;
  applyRoleWithCache (with_namespace (operatorNamespace c) (with_owner ownerReference required)).

Definition manageService (assetPath : string) (ownerReference : OwnerReference)
    : M TCR (obj KService * bool) :=
  c ← mget;
  required ← readAsset KService assetPath;
  applyImproved KService (with_namespace (operatorNamespace c) (with_owner ownerReference required)).

(** ** API services *)

Definition apiServiceFiles : list string :=
  ["assets/kueue-operator/apiservice-v1beta1.visibility.kueue.x-k8s.io.yaml";
   "assets/kueue-operator/apiservice-v1beta2.visibility.kueue.x-k8s.io.yaml"].

(** What one iteration applies. *)
Definition desiredAPIService (ns : string) (ownerReference : OwnerReference)
    (required : APIService) : res APIService :=
  let b : APIServiceBody := ko_body required in
  match as_Service b with
  | None => Panic nil_dereference
  | Some svc =>
      let required := set_body (λ _, {|
        as_Service := Some {| sr_Namespace := ns; sr_Name := "kueue-visibility-server";
                              sr_other := sr_other svc |};
        as_InsecureSkipTLSVerify := false; as_other := as_other b |} : body KAPIService) required in
      let required := with_cert_annotation ns required in
      let required := set_meta (λ m, meta_set_Annotations
        (Some (<["cert-manager.io/inject-ca-from" := ns +:+ "/kueue-visibility-server-cert"]>
                 (default ∅ (om_Annotations m)))) m) required in
      Ok (with_owner ownerReference required)
  end.

Definition manageAPIService (specAnnotations : gmap string string) (ownerReference : OwnerReference)
    : M TCR (gmap string string) :=
  mfold (λ specAnnotations assetPath,
    c ← mget;
    required ← readAsset KAPIService assetPath;
    required ← of_res (desiredAPIService (operatorNamespace c) ownerReference required);
    '(apiService, _) ← resourceapply_Apply KAPIService 0 required;
    annotateHash "APIService spec" ("apiservice/" +:+ ko_Name apiService)
      (HSpec KAPIService (ko_body apiService)) specAnnotations)
    specAnnotations apiServiceFiles.

(** ** Cluster roles *)

Definition crdDir : string := "assets/kueue-operator/crds".

(** The loop over [Spec.Versions]. *)
Definition isAlphaVersion (crd : CustomResourceDefinition) : bool :=
  existsb (λ version, HasPrefix (cv_Name version) "v1alpha") (crd_Versions (ko_body crd)).

(** The loop of [kueueCRDNames], before sorting. *)
Fixpoint crdNames_loop (files : list string) : res (list string) :=
  match files with
  | [] => Ok []
  | file :: files =>
      rlet crd := ReadOrDie KCRD (filepath_Join crdDir file) in
      rlet names := crdNames_loop files in
      Ok (if isAlphaVersion crd then names else ko_Name crd :: names)
  end.

Definition kueueCRDNames : res (list string) :=
  match AssetDir crdDir with
  | inl err => Err (WrapError "failed to read crd directory: " err)
  | inr files => rlet names := crdNames_loop files in Ok (slices_Sort names)
  end.

Definition isWebhookConfigurationRule (rule : PolicyRule) : bool :=
  slices_Contains (pr_APIGroups rule) "admissionregistration.k8s.io" &&
  (slices_Contains (pr_Resources rule) "mutatingwebhookconfigurations" ||
   slices_Contains (pr_Resources rule) "validatingwebhookconfigurations").
Definition isCRDRule (rule : PolicyRule) : bool :=
  slices_Contains (pr_APIGroups rule) "apiextensions.k8s.io" &&
  slices_Contains (pr_Resources rule) "customresourcedefinitions".

Definition rule_set_ResourceNames (names : list string) (r : PolicyRule) : PolicyRule := {|
  pr_Verbs := pr_Verbs r; pr_APIGroups := pr_APIGroups r; pr_Resources := pr_Resources r;
  pr_ResourceNames := names; pr_NonResourceURLs := pr_NonResourceURLs r |}.

Definition kueueManagerRoleName : string := "kueue-manager-role".
Definition kueueWebhookConfigurationNames : list string :=
  ["kueue-mutating-webhook-configuration"; "kueue-validating-webhook-configuration"].

Definition scopeRule (crdNames : list string) (rule : PolicyRule) : PolicyRule :=
  let rule := if isWebhookConfigurationRule rule
              then rule_set_ResourceNames kueueWebhookConfigurationNames rule else rule in
  if isCRDRule rule then rule_set_ResourceNames crdNames rule else rule.

Definition scopeManagerRoleResourceNames (role : ClusterRole) : res ClusterRole :=
  match kueueCRDNames with
  | Ok crdNames => Ok (set_body (λ b : ClusterRoleBody, {|
      cr_Rules := map (scopeRule crdNames) (cr_Rules b);
      cr_AggregationRule := cr_AggregationRule b |} : body KClusterRole) role)
  | Err err => Err (WrapError "failed to derive CRD resource names: " err)
  | Panic p => Panic p
  end.

Definition clusterRoleDir : string := "assets/kueue-operator/clusterroles".

(** One iteration of [manageClusterRoles]. *)
Definition manageClusterRole (ownerReference : OwnerReference) (specAnnotations : gmap string string)
    (file : string) : M TCR (gmap string string) :=
  required ← readAsset KClusterRole (filepath_Join clusterRoleDir file);
  match cr_AggregationRule (ko_body required) with
  | Some _ => mret specAnnotations
  | None =>
      let required := with_owner ownerReference required in
      required ← (if ko_Name required =s kueueManagerRoleName
                  then wrap "failed to scope manager role resource names: "
                         (of_res (scopeManagerRoleResourceNames required))
                  else mret required);
      '(role, _) ← applyClusterRoleWithCache required;
      annotateHash "ClusterRole rules" ("clusterrole/" +:+ ko_Name role)
        (HRules (cr_Rules (ko_body role))) specAnnotations
  end.

Definition manageClusterRoles (specAnnotations : gmap string string) (ownerReference : OwnerReference)
    : M TCR (gmap string string) :=
  match AssetDir clusterRoleDir with
  | inl err => throw (WrapError "failed to read clusterroles directory: " err)
  | inr files => mfold (manageClusterRole ownerReference) specAnnotations files
  end.
End manage.

(** ** Network policies *)

Definition selector_set_MatchLabels (l : gmap string string) (s : LabelSelector) : LabelSelector :=
  {| ls_MatchLabels := l; ls_MatchExpressions := ls_MatchExpressions s |}.

Definition adjustDNSNetworkPolicyForPlatform (isOpenShift : bool) (policy : NetworkPolicy)
    : NetworkPolicy :=
  if isOpenShift then policy
  else set_body (λ spec : NetworkPolicySpec,
    match nps_Egress spec with
    | e :: es =>
        match npe_To e with
        | peer :: peers =>
            let peer := {|
              npp_PodSelector := selector_set_MatchLabels {["k8s-app" := "kube-dns"]} <$> npp_PodSelector peer;
              npp_NamespaceSelector :=
                selector_set_MatchLabels {["kubernetes.io/metadata.name" := "kube-system"]} <$>
                  npp_NamespaceSelector peer;
              npp_IPBlock := npp_IPBlock peer |} in
            {| nps_PodSelector := nps_PodSelector spec; nps_Ingress := nps_Ingress spec;
               nps_Egress := {| npe_Ports := npe_Ports e; npe_To := peer :: peers |} :: es;
               nps_PolicyTypes := nps_PolicyTypes spec |}
        | [] => spec
        end
    | [] => spec
    end : body KNetworkPolicy) policy.

(** [From = nil] and [To = nil] of the first rules: traffic from and to
    everywhere. *)
Definition allowAnyPeer (spec : NetworkPolicySpec) : NetworkPolicySpec := {|
  nps_PodSelector := nps_PodSelector spec;
  nps_Ingress := match nps_Ingress spec with
                 | i :: rest => {| npi_Ports := npi_Ports i; npi_From := [] |} :: rest | [] => [] end;
  nps_Egress := match nps_Egress spec with
                | e :: rest => {| npe_Ports := npe_Ports e; npe_To := [] |} :: rest | [] => [] end;
  nps_PolicyTypes := nps_PolicyTypes spec |}.

Definition adjustVisibilityNetworkPolicyForPlatform (isOpenShift : bool) (policy : NetworkPolicy)
    : NetworkPolicy :=
  if isOpenShift then policy else set_body allowAnyPeer policy.

Definition adjustWebhookNetworkPolicyForPlatform (isOpenShift : bool) (policy : NetworkPolicy)
    : NetworkPolicy :=
  if isOpenShift then policy else set_body allowAnyPeer policy.

Definition desiredNetworkPolicy (ns : string) (isOpenShift : bool) (ownerReference : OwnerReference)
    (want : NetworkPolicy) : NetworkPolicy :=
  let want := with_owner ownerReference (with_namespace ns want) in
  let want := if ko_Name want =s "kueue-allow-egress-cluster-dns"
              then adjustDNSNetworkPolicyForPlatform isOpenShift want else want in
  let want := if ko_Name want =s "kueue-allow-ingress-egress-visibility"
              then adjustVisibilityNetworkPolicyForPlatform isOpenShift want else want in
  if ko_Name want =s "kueue-allow-ingress-egress-webhook"
  then adjustWebhookNetworkPolicyForPlatform isOpenShift want else want.

Section manage_more.
Context `{Env}.

Definition networkPolicyDir : string := "assets/kueue-operator/networkpolicy".

Definition manageNetworkPolicy (ownerReference : OwnerReference)
    (specAnnotations : gmap string string) (file : string) : M TCR (gmap string string) :=
  c ← mget;
  want ← readAsset KNetworkPolicy (filepath_Join networkPolicyDir file);
  '(policy, _) ← applyNetworkPolicyWithCache
    (desiredNetworkPolicy (operatorNamespace c) (isOpenShift c) ownerReference want);
  annotateHash "NetworkPolicy spec" ("networkpolicy/" +:+ ko_Name policy)
    (HSpec KNetworkPolicy (ko_body policy)) specAnnotations.

Definition manageNetworkPolicies (specAnnotations : gmap string string)
    (ownerReference : OwnerReference) : M TCR (gmap string string) :=
  match AssetDir networkPolicyDir with
  | inl err => throw (WrapError ("failed to read networkpolicy from directory " +:+
                                 Quote networkPolicyDir +:+ ": ") err)
  | inr files => mfold (manageNetworkPolicy ownerReference) specAnnotations files
  end.

(** ** The role for OpenShift's configuration *)

Definition openshiftClusterRoleBinding (ns : string) : ClusterRoleBinding := {|
  ko_Kind := ""; ko_Group := "";
  ko_meta := meta_named "" "kueue-openshift-cluster-role-binding";
  ko_body := {|
    bi_Subjects := [{| sb_Kind := "ServiceAccount"; sb_APIGroup := "";
                       sb_Name := "kueue-controller-manager"; sb_Namespace := ns |}];
    bi_RoleRef := {| rr_APIGroup := "rbac.authorization.k8s.io"; rr_Kind := "ClusterRole";
                     rr_Name := "kueue-openshift-roles" |} |} |}.

Definition manageOpenshiftClusterRolesBindingForKueue (ownerReference : OwnerReference)
    : M TCR (ClusterRoleBinding * bool) :=
  c ← mget;
  applyClusterRoleBindingWithCache
    (with_owner ownerReference (openshiftClusterRoleBinding (operatorNamespace c))).

Definition openshiftClusterRole : ClusterRole := {|
  ko_Kind := ""; ko_Group := "";
  ko_meta := meta_set_Labels (Some (list_to_map
    [("app.kubernetes.io/component", "controller"); ("app.kubernetes.io/name", "kueue");
     ("control-plane", "controller-manager")])) (meta_named "" "kueue-openshift-roles");
  ko_body := {|
    cr_Rules := [{| pr_Verbs := ["get"; "watch"; "list"]; pr_APIGroups := ["config.openshift.io"];
                    pr_Resources := ["infrastructures"; "apiservers"];
                    pr_ResourceNames := []; pr_NonResourceURLs := [] |}];
    cr_AggregationRule := None |} |}.

Definition manageOpenshiftClusterRolesForKueue (ownerReference : OwnerReference)
    : M TCR (ClusterRole * bool) :=
  applyClusterRoleWithCache
    (ensure_owner ownerReference (with_owner ownerReference openshiftClusterRole)).

(** ** Custom resource definitions *)

Definition crd_set_conversion_namespace (ns : string) (crd : CRDBody) : CRDBody :=
  match crd_Conversion crd with
  | Some conv =>
      if crc_Strategy conv =s "Webhook" then
        crd_map_ClientConfig (λ cc, {|
          wcc_Service := service_set_Namespace ns <$> wcc_Service cc;
          wcc_CABundle := wcc_CABundle cc; wcc_other := wcc_other cc |}) crd
      else crd
  | None => crd
  end.

Definition desiredCRD (ns : string) (required : CustomResourceDefinition) : CustomResourceDefinition :=
  set_body (crd_set_conversion_namespace ns) (with_cert_annotation ns required).

(** One iteration of [manageCustomResources]. *)
Definition manageCustomResource (specAnnotations : gmap string string) (file : string)
    : M TCR (gmap string string) :=
  c ← mget;
  required ← readAsset KCRD (filepath_Join crdDir file);
  if isAlphaVersion required then mret specAnnotations
  else
    '(crd, _) ← applyCustomResourceDefinitionWithCache (desiredCRD (operatorNamespace c) required);
    annotateHash "CRD spec" ("crd/" +:+ ko_Name crd) (HSpec KCRD (ko_body crd)) specAnnotations.

Definition manageCustomResources (specAnnotations : gmap string string) : M TCR (gmap string string) :=
  match AssetDir crdDir with
  | inl err => throw (WrapError "failed to read crd directory: " err)
  | inr files => mfold manageCustomResource specAnnotations files
  end.
End manage_more.

(** ** The deployment *)

(** library-go's [resourcemerge] on generations. *)
Definition GenerationFor (generations : list GenerationStatus) (group resource namespace name : string)
    : option GenerationStatus :=
  List.find (λ g, (gn_Namespace g =s namespace) && (gn_Name g =s name) && (gn_Group g =s group) &&
                  (gn_Resource g =s resource)) generations.

Definition ExpectedDeploymentGeneration (required : Deployment)
    (previousGenerations : list GenerationStatus) : Z :=
  match GenerationFor previousGenerations "apps" "deployments" (ko_Namespace required) (ko_Name required) with
  | Some g => gn_LastGeneration g
  | None => (-1)%Z
  end.

Fixpoint SetGeneration (generations : list GenerationStatus) (new : GenerationStatus)
    : list GenerationStatus :=
  match generations with
  | [] => [new]
  | g :: gs =>
      if (gn_Namespace g =s gn_Namespace new) && (gn_Name g =s gn_Name new) &&
         (gn_Group g =s gn_Group new) && (gn_Resource g =s gn_Resource new)
      then {| gn_Group := gn_Group g; gn_Resource := gn_Resource g; gn_Namespace := gn_Namespace g;
              gn_Name := gn_Name g; gn_LastGeneration := gn_LastGeneration new |} :: gs
      else g :: SetGeneration gs new
  end.

Definition SetDeploymentGeneration (generations : list GenerationStatus) (actual : Deployment)
    : list GenerationStatus :=
  SetGeneration generations {|
    gn_Group := "apps"; gn_Resource := "deployments"; gn_Namespace := ko_Namespace actual;
    gn_Name := ko_Name actual; gn_LastGeneration := om_Generation (ko_meta actual) |}.

Definition kueue_Generations (k : Kueue) : list GenerationStatus :=
  ost_Generations (kst_OperatorStatus (ku_Status k)).
Definition kueue_set_Generations (gs : list GenerationStatus) (k : Kueue) : Kueue :=
  let st := kst_OperatorStatus (ku_Status k) in {|
  ku_ObjectMeta := ku_ObjectMeta k; ku_Spec := ku_Spec k;
  ku_Status := {| kst_OperatorStatus := {|
    ost_Conditions := ost_Conditions st; ost_Generations := gs;
    ost_ReadyReplicas := ost_ReadyReplicas st; ost_other := ost_other st |} |} |}.

Definition secretMetricsServerCert : string := "metrics-server-cert".
Definition certMetricsCerts : string := "metrics-certs".
Definition secretKueueVisibilityServerCert : string := "kueue-visibility-server-cert".
Definition OperandName : string := "kueue-controller-manager".

Definition secret_volume (name : string) (items : list KeyToPath) (opt : option bool) : VolumeSource := {|
  vs_Secret := Some {| svs_SecretName := name; svs_Items := items; svs_Optional := opt;
                       svs_DefaultMode := None |};
  vs_EmptyDir := None; vs_other := None |}.

Definition metricsCertVolume : Volume :=
  {| vo_Name := certMetricsCerts; vo_VolumeSource := secret_volume secretMetricsServerCert [] None |}.
Definition visibilityVolumeSource : VolumeSource :=
  secret_volume secretKueueVisibilityServerCert
    [{| kp_Key := "ca.crt"; kp_Path := "ca.crt" |}; {| kp_Key := "tls.crt"; kp_Path := "tls.crt" |};
     {| kp_Key := "tls.key"; kp_Path := "tls.key" |}] (Some false).
Definition metricsCertVolumeMount : VolumeMount := {|
  vm_Name := certMetricsCerts; vm_MountPath := "/etc/kueue/metrics/certs"; vm_ReadOnly := true;
  vm_other := JNull |}.

(** The first volume named [visibility] becomes the secret. *)
Fixpoint replaceVisibilityVolume (volumes : list Volume) : list Volume :=
  match volumes with
  | [] => []
  | v :: vs =>
      if vo_Name v =s "visibility"
      then {| vo_Name := vo_Name v; vo_VolumeSource := visibilityVolumeSource |} :: vs
      else v :: replaceVisibilityVolume vs
  end.

Definition operandStrategy : DeploymentStrategy :=
  {| dst_Type := "RollingUpdate"; dst_MaxUnavailable := Some 1%Z |}.
Definition operandAffinity : Affinity := {|
  aff_PodAntiAffinity_Preferred := [{|
    wpa_Weight := 100%Z;
    wpa_LabelSelector := Some {|
      ls_MatchLabels := list_to_map [("control-plane", "controller-manager");
                                     ("app.kubernetes.io/name", "kueue")];
      ls_MatchExpressions := [] |};
    wpa_TopologyKey := "kubernetes.io/hostname" |}] |}.
Definition operandResources : ResourceRequirements := {|
  rq_Limits := ∅; rq_Requests := list_to_map [("cpu", "500m"); ("memory", "512Mi")] |}.

(** The verbosity of an [operatorv1.LogLevel]. *)
Definition zapLogLevel (level : string) : Z :=
  if level =s "Normal" then 2 else if level =s "Debug" then 4
  else if level =s "Trace" then 6 else if level =s "TraceAll" then 8 else 2.

Definition zapLogPrefix : string := "--zap-log-level=".
Definition zapLogArg (level : string) : string := zapLogPrefix +:+ FormatInt (zapLogLevel level).

(** Replace the first [--zap-log-level] argument; [None] when there is none. *)
Fixpoint replaceZapLogArg (zapLogArg : string) (args : list string) : option (list string) :=
  match args with
  | [] => None
  | arg :: args =>
      if HasPrefix arg zapLogPrefix then Some (zapLogArg :: args)
      else cons arg <$> replaceZapLogArg zapLogArg args
  end.
Definition setZapLogArg (zapLogArg : string) (args : list string) : list string :=
  default (args ++ [zapLogArg]) (replaceZapLogArg zapLogArg args).

(** The changes to [Containers[0]]. *)
Definition desiredContainer (image logLevel : string) (c : Container) : res Container :=
  match co_SecurityContext c with
  | None => Panic nil_dereference
  | Some sc => Ok {|
      co_Name := co_Name c; co_Image := image;
      co_Args := setZapLogArg (zapLogArg logLevel) (co_Args c);
      co_VolumeMounts := co_VolumeMounts c ++ [metricsCertVolumeMount];
      co_SecurityContext := Some {| sc_ReadOnlyRootFilesystem := Some true; sc_other := sc_other sc |};
      co_Resources := operandResources; co_other := co_other c |}
  end.

Definition desiredPodSpec (image logLevel : string) (ps : PodSpec) : res PodSpec :=
  match ps_Containers ps with
  | [] => Panic index_out_of_range
  | container :: others =>
      rlet container := desiredContainer image logLevel container in
      Ok {| ps_Volumes := replaceVisibilityVolume (ps_Volumes ps) ++ [metricsCertVolume];
            ps_Containers := container :: others;
            ps_Affinity := Some operandAffinity;
            ps_PriorityClassName := "system-cluster-critical";
            ps_other := ps_other ps |}
  end.

(** Everything [manageDeployment] sets before applying. *)
Definition desiredDeployment (ns image logLevel : string) (specAnnotations : gmap string string)
    (ownerReference : OwnerReference) (required : Deployment) : res Deployment :=
  let spec := dep_Spec (ko_body required) in
  rlet podSpec := desiredPodSpec image logLevel (dp_TemplateSpec spec) in
  let '(_, annotations) := MergeMap false (dp_TemplateAnnotations spec) (Some specAnnotations) in
  Ok (set_body (λ b : DeploymentBody, {|
        dep_Spec := {| dp_Replicas := Some 2%Z; dp_Strategy := operandStrategy;
          dp_TemplateAnnotations := Some annotations; dp_TemplateSpec := podSpec;
          dp_other := dp_other spec |};
        dep_Status := dep_Status b |} : body KDeployment)
      (with_owner ownerReference (with_namespace ns (set_meta (meta_set_Name OperandName) required)))).

Section deployment.
Context `{Env}.

(** [SetDeploymentGeneration] writes through the pointer of the informer's
    cache; the result has the Kueue resource as it is afterwards. *)
Definition manageDeployment (kueueoperator : Kueue) (specAnnotations : gmap string string)
    (ownerReference : OwnerReference) : M TCR (Deployment * bool * Kueue) :=
  c ← mget;
  required ← readAsset KDeployment "assets/kueue-operator/deployment.yaml";
  required ← of_res (desiredDeployment (operatorNamespace c) (kueueImage c)
    (os_LogLevel (ks_OperatorSpec (ku_Spec kueueoperator))) specAnnotations ownerReference required);
  '(deploy, updated) ← applyDeploymentWithCache required
    (ExpectedDeploymentGeneration required (kueue_Generations kueueoperator));
  if updated : bool then
    let kueue' := kueue_set_Generations
      (SetDeploymentGeneration (kueue_Generations kueueoperator) deploy) kueueoperator in
    mcall (CCacheStoreKueue kueue') ;;
    mret (deploy, updated, kueue')
  else mret (deploy, updated, kueueoperator).
End deployment.

(** ** cert-manager resources *)

Definition kueueAPIVersion : string := "kueue.openshift.io/v1".
Definition kindKueue : string := "Kueue".

Definition json_owner (kueue : Kueue) : json := JObj
  [("apiVersion", JStr kueueAPIVersion); ("kind", JStr kindKueue);
   ("name", JStr (om_Name (ku_ObjectMeta kueue))); ("uid", JStr (om_UID (ku_ObjectMeta kueue)));
   ("controller", JBool false); ("blockOwnerDeletion", JBool false)].

Definition json_metadata (kueue : Kueue) (name namespace : string) : json := JObj
  [("ownerReferences", JArr [json_owner kueue]); ("name", JStr name); ("namespace", JStr namespace)].

Definition issuerCR (ns : string) (kueue : Kueue) : json := JObj
  [("apiVersion", JStr "cert-manager.io/v1"); ("kind", JStr "Issuer");
   ("metadata", json_metadata kueue "selfsigned" ns);
   ("spec", JObj [("selfSigned", JObj [])])].

(** What the certificates differ in. *)
Record certificate_data := {
  cd_dnsNames : list string;
  cd_commonName : string;
  cd_secretName : string;
  cd_certificateName : string;
}.

Definition certificateCR (ns : string) (kueue : Kueue) (d : certificate_data) : json := JObj
  [("apiVersion", JStr "cert-manager.io/v1"); ("kind", JStr "Certificate");
   ("metadata", json_metadata kueue (cd_certificateName d) ns);
   ("spec", JObj ([("dnsNames", JArr (map JStr (cd_dnsNames d)));
                   ("issuerRef", JObj [("kind", JStr "Issuer"); ("name", JStr "selfsigned")]);
                   ("secretName", JStr (cd_secretName d))] ++
                  (if negb (cd_commonName d =s "") then [("commonName", JStr (cd_commonName d))] else [])))].

(** ** The ServiceMonitor *)

Definition metricsServerName : string := "kueue-controller-manager-metrics-service.openshift-kueue-operator.svc".

Definition metrics_secret (key : string) : SecretKeySelector :=
  {| sks_Name := secretMetricsServerCert; sks_Key := key |}.

Definition desiredServiceMonitor (ns : string) (kueue : Kueue) : ServiceMonitor := {|
  sm_Kind := "ServiceMonitor"; sm_APIVersion := "monitoring.coreos.com/v1";
  sm_ObjectMeta := meta_set_OwnerReferences [{|
      or_APIVersion := "kueue.openshift.io/v1"; or_Kind := "Kueue";
      or_Name := om_Name (ku_ObjectMeta kueue); or_UID := om_UID (ku_ObjectMeta kueue);
      or_Controller := None; or_BlockOwnerDeletion := None |}] (meta_named ns "kueue-metrics");
  sm_Selector := {|
    ls_MatchLabels := list_to_map [("app.kubernetes.io/component", "metrics-service");
                                   ("app.kubernetes.io/name", "kueue")];
    ls_MatchExpressions := [] |};
  sm_Endpoints := [{|
    sme_Interval := "30s"; sme_Path := "/metrics"; sme_Port := "https"; sme_Scheme := Some "https";
    sme_BearerTokenFile := "/var/run/secrets/kubernetes.io/serviceaccount/token";
    sme_TLSConfig := Some {|
      smt_InsecureSkipVerify := Some false;
      smt_CA := metrics_secret "ca.crt"; smt_Cert := metrics_secret "tls.crt";
      smt_KeySecret := metrics_secret "tls.key";
      smt_ServerName := Some metricsServerName |} |}] |}.

Section unstructured.
Context `{Env}.

Definition manageIssuerCR (kueue : Kueue) : M TCR (json * bool) :=
  c ← mget;
  ApplyUnstructuredResourceImproved RIssuers (issuerCR (operatorNamespace c) kueue).

Definition manageCertificateCR (kueue : Kueue) (d : certificate_data) : M TCR (json * bool) :=
  c ← mget;
  ApplyUnstructuredResourceImproved RCertificates (certificateCR (operatorNamespace c) kueue d).

(** An error of the conversion is not looked at: the object stays empty. *)
Definition convertObj2Unstructured (m : ServiceMonitor) : json :=
  match json_ServiceMonitor m with inl _ => JObj [] | inr j => j end.

Definition manageServiceMonitor (kueue : Kueue) : M TCR (json * bool) :=
  c ← mget;
  r ← mcall (CApplyServiceMonitor
    (convertObj2Unstructured (desiredServiceMonitor (operatorNamespace c) kueue)));
  of_sum r.
End unstructured.

(** ** Properties *)

(** *** The deployment *)

Lemma replaceZapLogArg_Some arg args args' :
  replaceZapLogArg arg args = Some args' →
  ∃ pre old post, args = pre ++ old :: post ∧ args' = pre ++ arg :: post ∧
    HasPrefix old zapLogPrefix = true ∧ ∀ a, a ∈ pre → HasPrefix a zapLogPrefix = false.
Proof.
  revert args'. induction args as [|a args IH]; intros args'; cbn; [done|].
  destruct (HasPrefix a zapLogPrefix) eqn:Hp.
  - intros [= <-]. exists [], a, args. split_and!; [done..|set_solver].
  - intros (args2 & H & ->)%fmap_Some. destruct (IH _ H) as (pre & old & post & -> & -> & Ho & Hpre).
    exists (a :: pre), old, post. split_and!; [done..|]. intros b [->|Hb]%elem_of_cons; auto.
Qed.

Lemma replaceZapLogArg_None arg args :
  replaceZapLogArg arg args = None → ∀ a, a ∈ args → HasPrefix a zapLogPrefix = false.
Proof.
  induction args as [|a args IH]; cbn; [set_solver|].
  destruct (HasPrefix a zapLogPrefix) eqn:Hp; [done|]. intros H%fmap_None.
  intros b [->|Hb]%elem_of_cons; auto.
Qed.

Lemma zapLogArg_prefix level : HasPrefix (zapLogArg level) zapLogPrefix = true.
Proof. apply HasPrefix_app. Qed.

Lemma zapLogArg_text level :
  zapLogArg level = "--zap-log-level=" +:+
    (if level =s "Debug" then "4" else if level =s "Trace" then "6"
     else if level =s "TraceAll" then "8" else "2").
Proof.
  unfold zapLogArg, zapLogLevel.
  destruct (decide (level = "Normal")) as [->|]; [done|].
  rewrite (bool_decide_false (level = "Normal")) by done.
  by destruct (level =s "Debug"), (level =s "Trace"), (level =s "TraceAll").
Qed.

(** The log level reaches the operand: whatever the manifest's arguments,
    the first [--zap-log-level] argument afterwards is the one of the
    resource's level (2 unless Debug, Trace or TraceAll), the other arguments
    are unchanged and keep their order, and a manifest with at most one such
    argument gives exactly one. *)
Theorem setZapLogArg_spec (level : string) (args : list string) :
  let args' := setZapLogArg (zapLogArg level) args in
  let zap a := HasPrefix a zapLogPrefix in
  List.find zap args' = Some (zapLogArg level) ∧
  List.filter (λ a, negb (zap a)) args' = List.filter (λ a, negb (zap a)) args ∧
  length (List.filter zap args') = Nat.max 1 (length (List.filter zap args)) ∧
  zapLogArg level = "--zap-log-level=" +:+
    (if level =s "Debug" then "4" else if level =s "Trace" then "6"
     else if level =s "TraceAll" then "8" else "2").
Proof.
  cbv zeta. pose proof (zapLogArg_prefix level) as Hz. pose proof (zapLogArg_text level) as Ht.
  unfold setZapLogArg.
  destruct (replaceZapLogArg (zapLogArg level) args) as [args'|] eqn:E; cbn [from_option id].
  - apply replaceZapLogArg_Some in E as (pre & old & post & -> & -> & Ho & Hpre).
    pose proof (filter_no_hit _ _ Hpre) as Hf.
    split_and!.
    + rewrite (find_skip _ _ _ Hpre). cbn. by rewrite Hz.
    + rewrite !List.filter_app. f_equal. cbn [List.filter]. by rewrite Hz, Ho.
    + rewrite !List.filter_app, Hf. cbn [List.filter app]. rewrite Hz, Ho. cbn [length]. lia.
    + exact Ht.
  - pose proof (replaceZapLogArg_None _ _ E) as Hn.
    pose proof (filter_no_hit _ _ Hn) as Hf.
    split_and!.
    + rewrite (find_skip _ _ _ Hn). cbn. by rewrite Hz.
    + rewrite List.filter_app. cbn [List.filter]. rewrite Hz. cbn [negb]. by rewrite app_nil_r.
    + rewrite List.filter_app, Hf. cbn [List.filter app]. by rewrite Hz.
    + exact Ht.
Qed.

(** What the operand's pod must look like. *)
Record operand_pod (image logLevel : string) (required p : PodSpec) : Prop := {
  op_container : ∃ c0 cs c, ps_Containers required = c0 :: cs ∧ ps_Containers p = c :: cs ∧
    co_Image c = image ∧ co_Args c = setZapLogArg (zapLogArg logLevel) (co_Args c0) ∧
    sc_ReadOnlyRootFilesystem <$> co_SecurityContext c = Some (Some true) ∧
    metricsCertVolumeMount ∈ co_VolumeMounts c ∧ co_VolumeMounts c0 ⊆ co_VolumeMounts c;
  op_metrics : metricsCertVolume ∈ ps_Volumes p;
  op_visibility : ∀ v, v ∈ ps_Volumes required → vo_Name v = "visibility" →
    ∃ v', v' ∈ ps_Volumes p ∧ vo_Name v' = "visibility" ∧ vo_VolumeSource v' = visibilityVolumeSource;
  op_volumes : ∀ v, v ∈ ps_Volumes required → vo_Name v ≠ "visibility" → v ∈ ps_Volumes p;
  op_priority : ps_PriorityClassName p = "system-cluster-critical";
}.

Lemma replaceVisibilityVolume_other volumes v :
  v ∈ volumes → vo_Name v ≠ "visibility" → v ∈ replaceVisibilityVolume volumes.
Proof.
  induction volumes as [|w vs IH]; cbn; [set_solver|]. intros [<-|Hv]%elem_of_cons Hn.
  - rewrite bool_decide_false by done. constructor.
  - destruct (vo_Name w =s "visibility"); constructor; auto.
Qed.

Lemma replaceVisibilityVolume_visibility volumes v :
  v ∈ volumes → vo_Name v = "visibility" →
  ∃ v', v' ∈ replaceVisibilityVolume volumes ∧ vo_Name v' = "visibility" ∧
        vo_VolumeSource v' = visibilityVolumeSource.
Proof.
  induction volumes as [|w vs IH]; cbn; [set_solver|]. intros Hv Hn.
  destruct (decide (vo_Name w = "visibility")) as [Hw|Hw].
  - rewrite bool_decide_true by done. eexists. split; [constructor|done].
  - rewrite bool_decide_false by done. apply elem_of_cons in Hv as [->|Hv]; [done|].
    destruct (IH Hv Hn) as (v' & ? & ? & ?). exists v'. split; [by constructor|done].
Qed.

Lemma desiredPodSpec_ok image logLevel required p :
  desiredPodSpec image logLevel required = Ok p → operand_pod image logLevel required p.
Proof.
  unfold desiredPodSpec. destruct (ps_Containers required) as [|c0 cs] eqn:Hc; [done|].
  rewrite res_bind_Ok. intros (c & Hd & [= <-]). unfold desiredContainer in Hd.
  destruct (co_SecurityContext c0) as [sc|]; [|done]. injection Hd as <-.
  split; cbn [ps_Containers ps_Volumes ps_PriorityClassName].
  - eexists _, _, _. split_and!; [done|reflexivity|done..| |].
    + cbn. set_solver.
    + cbn. set_solver.
  - set_solver.
  - intros v Hv Hn. destruct (replaceVisibilityVolume_visibility _ _ Hv Hn) as (v' & ? & ? & ?).
    exists v'. set_solver.
  - intros v Hv Hn. apply elem_of_app. left. by apply replaceVisibilityVolume_other.
  - done.
Qed.

(** C16: The deployment that is applied: the operand's name in the operator's
    namespace, owned by the Kueue resource, two replicas that roll one at a
    time, the configured image and log level, a read-only root file system,
    the metrics and visibility certificates mounted from their secrets, and a
    pod template that records every hash the reconciliation collected, so that
    a change of any applied object rolls the operand out. *)
Theorem desiredDeployment_spec ns image logLevel specAnnotations owner (required d : Deployment) :
  plain_keys specAnnotations →
  desiredDeployment ns image logLevel specAnnotations owner required = Ok d →
  ko_Name d = OperandName ∧ ko_Namespace d = ns ∧ om_OwnerReferences (ko_meta d) = [owner] ∧
  dp_Replicas (dep_Spec (ko_body d)) = Some 2%Z ∧
  dp_Strategy (dep_Spec (ko_body d)) = operandStrategy ∧
  operand_pod image logLevel (dp_TemplateSpec (dep_Spec (ko_body required)))
    (dp_TemplateSpec (dep_Spec (ko_body d))) ∧
  dp_TemplateAnnotations (dep_Spec (ko_body d)) =
    Some (specAnnotations ∪ default ∅ (dp_TemplateAnnotations (dep_Spec (ko_body required)))).
Proof.
  intros Hp. unfold desiredDeployment. rewrite res_bind_Ok. intros (p & Hpod & Hd).
  rewrite MergeMap_plain_eq in Hd by done. injection Hd as <-. cbn.
  split_and!; try done. by apply desiredPodSpec_ok.
Qed.

(** The generation that was recorded is the one expected by the next
    reconciliation, and the generations of other resources are kept. *)
Theorem SetDeploymentGeneration_expected (gs : list GenerationStatus) (d required : Deployment) :
  ko_Namespace required = ko_Namespace d → ko_Name required = ko_Name d →
  ExpectedDeploymentGeneration required (SetDeploymentGeneration gs d) = om_Generation (ko_meta d) ∧
  (∀ g r n m, (g, r, n, m) ≠ ("apps", "deployments", ko_Namespace d, ko_Name d) →
     GenerationFor (SetDeploymentGeneration gs d) g r n m = GenerationFor gs g r n m).
Proof.
  intros Hns Hn. unfold ExpectedDeploymentGeneration, SetDeploymentGeneration. rewrite Hns, Hn.
  set (new := {| gn_Group := "apps"; gn_Resource := "deployments"; gn_Namespace := ko_Namespace d;
                 gn_Name := ko_Name d; gn_LastGeneration := om_Generation (ko_meta d) |}).
  change "apps" with (gn_Group new). change "deployments" with (gn_Resource new).
  change (ko_Namespace d) with (gn_Namespace new). change (ko_Name d) with (gn_Name new).
  change (om_Generation (ko_meta d)) with (gn_LastGeneration new).
  clearbody new. clear. split.
  - unfold GenerationFor. induction gs as [|g gs IH]; cbn [SetGeneration List.find];
      [by rewrite !(bool_decide_true (_ = _)) by reflexivity|].
    destruct ((gn_Namespace g =s gn_Namespace new) && (gn_Name g =s gn_Name new) &&
      (gn_Group g =s gn_Group new) && (gn_Resource g =s gn_Resource new)) eqn:E; cbn [List.find gn_Namespace gn_Name gn_Group gn_Resource];
      rewrite E; [done|].
    exact IH.
  - intros gr r n m Hne. unfold GenerationFor. induction gs as [|g gs IH]; cbn [SetGeneration List.find].
    + destruct ((gn_Namespace new =s n) && (gn_Name new =s m) && (gn_Group new =s gr) &&
        (gn_Resource new =s r)) eqn:E; [|done]. bsplit. congruence.
    + destruct ((gn_Namespace g =s gn_Namespace new) && (gn_Name g =s gn_Name new) &&
        (gn_Group g =s gn_Group new) && (gn_Resource g =s gn_Resource new)) eqn:E;
        cbn [List.find gn_Namespace gn_Name gn_Group gn_Resource].
      * destruct ((gn_Namespace g =s n) && (gn_Name g =s m) && (gn_Group g =s gr) &&
          (gn_Resource g =s r)) eqn:E2; [|done]. bsplit. congruence.
      * destruct ((gn_Namespace g =s n) && (gn_Name g =s m) && (gn_Group g =s gr) &&
          (gn_Resource g =s r)); [done|]. exact IH.
Qed.

(** *** Role scoping *)

Section scoping.
Context `{Env}.

(** The manifests of a directory, as they are read one by one. *)
Definition crd_manifests (files : list string) (crds : list CustomResourceDefinition) : Prop :=
  Forall2 (λ file crd, ReadOrDie KCRD (filepath_Join crdDir file) = Ok crd) files crds.

Lemma crdNames_loop_ok files names :
  crdNames_loop files = Ok names →
  ∃ crds, crd_manifests files crds ∧
    names = map ko_Name (List.filter (λ crd, negb (isAlphaVersion crd)) crds).
Proof.
  revert names. induction files as [|f files IH]; intros names; cbn [crdNames_loop].
  - intros [= <-]. exists []. split; [constructor|done].
  - rewrite res_bind_Ok. intros (crd & Hcrd & Hn). rewrite res_bind_Ok in Hn.
    destruct Hn as (names' & Hn & [= <-]). destruct (IH _ Hn) as (crds & Hc & ->).
    exists (crd :: crds). split; [by constructor|]. cbn [List.filter].
    by destruct (isAlphaVersion crd).
Qed.

(** A rule before and after scoping. *)
Definition scoped (names : list string) (r r' : PolicyRule) : Prop :=
  (pr_Verbs r', pr_APIGroups r', pr_Resources r', pr_NonResourceURLs r') =
    (pr_Verbs r, pr_APIGroups r, pr_Resources r, pr_NonResourceURLs r) ∧
  pr_ResourceNames r' =
    (if isCRDRule r then names
     else if isWebhookConfigurationRule r then kueueWebhookConfigurationNames
     else pr_ResourceNames r).

Lemma scopeRules_spec names rules : Forall2 (scoped names) rules (map (scopeRule names) rules).
Proof.
  induction rules as [|r rs IH]; [constructor|].
  cbn [map]. constructor; [|exact IH]. unfold scoped, scopeRule.
  destruct (isWebhookConfigurationRule r) eqn:Hw.
  - change (isCRDRule (rule_set_ResourceNames kueueWebhookConfigurationNames r)) with (isCRDRule r).
    by destruct (isCRDRule r).
  - by destruct (isCRDRule r).
Qed.

Lemma isCRDRule_true r : isCRDRule r = true ↔
  "apiextensions.k8s.io" ∈ pr_APIGroups r ∧ "customresourcedefinitions" ∈ pr_Resources r.
Proof. unfold isCRDRule, slices_Contains. by rewrite andb_true_iff, !bool_decide_eq_true. Qed.
Lemma isWebhookConfigurationRule_true r : isWebhookConfigurationRule r = true ↔
  "admissionregistration.k8s.io" ∈ pr_APIGroups r ∧
  ("mutatingwebhookconfigurations" ∈ pr_Resources r ∨ "validatingwebhookconfigurations" ∈ pr_Resources r).
Proof.
  unfold isWebhookConfigurationRule, slices_Contains.
  by rewrite andb_true_iff, orb_true_iff, !bool_decide_eq_true.
Qed.

(** C15: The manager role is confined to the operand's own resources: after
    scoping, every rule that lists the CRDs' group and resource names exactly,
    in sorted order, the CRDs of the shipped directory that have no alpha
    version; every other rule that lists the group of webhook configurations
    and one of their two resources names only the two of Kueue (a rule that
    lists both gets the names of the CRDs alone: the second assignment
    overwrites the first); nothing else of a rule changes, the rules that list
    neither are untouched, and so are the metadata and the aggregation. *)
Theorem scopeManagerRoleResourceNames_spec (role role' : ClusterRole) :
  scopeManagerRoleResourceNames role = Ok role' →
  (∀ r, isCRDRule r = true ↔ "apiextensions.k8s.io" ∈ pr_APIGroups r ∧
     "customresourcedefinitions" ∈ pr_Resources r) ∧
  (∀ r, isWebhookConfigurationRule r = true ↔ "admissionregistration.k8s.io" ∈ pr_APIGroups r ∧
     ("mutatingwebhookconfigurations" ∈ pr_Resources r ∨
      "validatingwebhookconfigurations" ∈ pr_Resources r)) ∧
  ∃ files crds names, AssetDir crdDir = inr files ∧ crd_manifests files crds ∧
    names ≡ₚ map ko_Name (List.filter (λ crd, negb (isAlphaVersion crd)) crds) ∧
    StronglySorted String.le names ∧
    ko_meta role' = ko_meta role ∧
    cr_AggregationRule (ko_body role') = cr_AggregationRule (ko_body role) ∧
    Forall2 (scoped names) (cr_Rules (ko_body role)) (cr_Rules (ko_body role')).
Proof.
  intros Hrole. split; [exact isCRDRule_true|]. split; [exact isWebhookConfigurationRule_true|]. revert Hrole.
  unfold scopeManagerRoleResourceNames, kueueCRDNames.
  destruct (AssetDir crdDir) as [e|files] eqn:Hdir; [done|].
  destruct (crdNames_loop files) as [names|e|p] eqn:Hn; cbn [res_bind]; [|done..].
  intros [= <-]. destruct (crdNames_loop_ok _ _ Hn) as (crds & Hc & ->).
  eexists files, crds, _. split; [done|]. split; [done|]. split; [apply slices_Sort_Permutation|].
  split; [apply slices_Sort_Sorted|]. split; [done|]. split; [done|]. cbn [set_body ko_body cr_Rules].
  apply (scopeRules_spec _ (cr_Rules (ko_body role : ClusterRoleBody))).
Qed.
End scoping.

(** *** Network policies *)

(** On a cluster that is not OpenShift the DNS policy opens the egress to
    the cluster's DNS pods: the first peer of a rule that selects by labels
    alone then matches a pod exactly when it is labelled as kube-dns in the
    namespace kube-system, the other peers, rules, ports and the pods the
    policy applies to are as in the manifest; on OpenShift nothing changes. *)
Theorem adjustDNSNetworkPolicyForPlatform_spec (b : bool) (policy : NetworkPolicy) peer peers ports rules :
  nps_Egress (ko_body policy) = {| npe_Ports := ports; npe_To := peer :: peers |} :: rules →
  let policy' := adjustDNSNetworkPolicyForPlatform b policy in
  ko_meta policy' = ko_meta policy ∧
  nps_PodSelector (ko_body policy') = nps_PodSelector (ko_body policy) ∧
  nps_Ingress (ko_body policy') = nps_Ingress (ko_body policy) ∧
  (b = true → policy' = policy) ∧
  (b = false → ∃ peer',
     nps_Egress (ko_body policy') = {| npe_Ports := ports; npe_To := peer' :: peers |} :: rules ∧
     npp_IPBlock peer' = npp_IPBlock peer ∧
     (∀ s, npp_PodSelector peer = Some s → ls_MatchExpressions s = [] →
        ∃ s', npp_PodSelector peer' = Some s' ∧
          ∀ labels, selector_matches s' labels = bool_decide (labels !! "k8s-app" = Some "kube-dns")) ∧
     (∀ s, npp_NamespaceSelector peer = Some s → ls_MatchExpressions s = [] →
        ∃ s', npp_NamespaceSelector peer' = Some s' ∧
          ∀ labels, selector_matches s' labels =
            bool_decide (labels !! "kubernetes.io/metadata.name" = Some "kube-system"))).
Proof.
  assert (Hsel : ∀ (k v : string) (s : LabelSelector) labels, ls_MatchExpressions s = [] →
    selector_matches (selector_set_MatchLabels {[k := v]} s) labels = bool_decide (labels !! k = Some v)).
  { intros k v s labels Hs. unfold selector_matches, selector_set_MatchLabels.
    cbn [ls_MatchLabels ls_MatchExpressions]. rewrite Hs. cbn [forallb]. rewrite andb_true_r.
    apply bool_decide_ext. by rewrite map_singleton_subseteq_l. }
  destruct policy as [kd gr m [ps ing eg pt]]. cbn [ko_body nps_Egress]. intros ->.
  unfold adjustDNSNetworkPolicyForPlatform. destruct b; cbv zeta.
  { split_and!; done. }
  cbn. split_and!; [done..|].
  intros _. eexists. split; [reflexivity|]. split; [done|]. split.
  - intros s Hs Hm. cbn [npp_PodSelector]. rewrite Hs. eexists. split; [reflexivity|].
    intros labels. by apply Hsel.
  - intros s Hs Hm. cbn [npp_NamespaceSelector]. rewrite Hs. eexists. split; [reflexivity|].
    intros labels. by apply Hsel.
Qed.

(** *** Webhooks *)

Lemma webhook_set_service_namespace_ok ns w w' :
  webhook_set_service_namespace ns w = Ok w' →
  wh_Name w' = wh_Name w ∧ wh_NamespaceSelector w' = wh_NamespaceSelector w ∧
  ∃ svc svc', wcc_Service (wh_ClientConfig w) = Some svc ∧ wcc_Service (wh_ClientConfig w') = Some svc' ∧
    sr_Namespace svc' = ns ∧ sr_Name svc' = sr_Name svc ∧
    wcc_CABundle (wh_ClientConfig w') = wcc_CABundle (wh_ClientConfig w).
Proof.
  unfold webhook_set_service_namespace. destruct (wcc_Service (wh_ClientConfig w)) as [svc|]; [|done].
  intros [= <-]. split_and!; [done..|]. by eexists _, _.
Qed.

(** A webhook as applied: the one of the modified manifest, served from the
    operator's namespace. *)
Definition served_from (ns : string) (w w' : Webhook) : Prop :=
  wh_Name w' = wh_Name w ∧ wh_NamespaceSelector w' = wh_NamespaceSelector w ∧
  ∃ svc svc', wcc_Service (wh_ClientConfig w) = Some svc ∧ wcc_Service (wh_ClientConfig w') = Some svc' ∧
    sr_Namespace svc' = ns ∧ sr_Name svc' = sr_Name svc ∧
    wcc_CABundle (wh_ClientConfig w') = wcc_CABundle (wh_ClientConfig w).

(** The mutating webhooks that are applied are those the configuration
    enables, with the namespace selector of the configuration, each served by
    its service in the operator's namespace, owned by the Kueue resource and
    annotated for the injection of the CA of the webhook certificate. *)
Theorem desiredMutatingWebhook_spec ns config owner (required new : MutatingWebhookConfiguration) :
  desiredMutatingWebhook ns config owner required = Ok new →
  ∃ modified, ModifyPodBasedMutatingWebhook config (with_owner owner required) = Ok modified ∧
    Forall2 (served_from ns) (wc_Webhooks (ko_body modified)) (wc_Webhooks (ko_body new)) ∧
    om_OwnerReferences (ko_meta new) = [owner] ∧
    default ∅ (om_Annotations (ko_meta new)) !! injectCAFrom = Some (ns +:+ "/webhook-cert").
Proof.
  unfold desiredMutatingWebhook. rewrite res_bind_Ok. intros (m & Hm & Hn).
  rewrite res_bind_Ok in Hn. destruct Hn as (ws & Hws & [= <-]).
  exists m. split; [done|]. split; [|split].
  - apply res_map_Ok in Hws. cbn. eapply Forall2_impl; [exact Hws|].
    intros w w'. apply webhook_set_service_namespace_ok.
  - unfold ModifyPodBasedMutatingWebhook in Hm. rewrite res_bind_Ok in Hm.
    destruct Hm as (k & _ & Hm). rewrite res_bind_Ok in Hm. by destruct Hm as (? & _ & [= <-]).
  - cbn. by rewrite lookup_insert_eq.
Qed.

(** The visibility API services that are applied verify the certificate
    of the visibility server and reach it in the operator's namespace: the CA
    annotation names the certificate whose DNS names are those of the
    service. *)
Theorem desiredAPIService_spec ns owner (required new : APIService) :
  desiredAPIService ns owner required = Ok new →
  as_InsecureSkipTLSVerify (ko_body new) = false ∧
  (∃ svc, as_Service (ko_body new) = Some svc ∧ sr_Namespace svc = ns ∧
     sr_Name svc = "kueue-visibility-server") ∧
  default ∅ (om_Annotations (ko_meta new)) !! injectCAFrom =
    Some (ns +:+ "/" +:+ secretKueueVisibilityServerCert) ∧
  om_OwnerReferences (ko_meta new) = [owner] ∧ ko_Name new = ko_Name required.
Proof.
  unfold desiredAPIService. destruct (as_Service (ko_body required)) as [svc|]; [|done].
  intros [= <-]. split; [done|]. split; [by eexists|]. split; [|done].
  cbn. by rewrite lookup_insert_eq.
Qed.

(** ** Concrete instances *)

Definition example_owner : OwnerReference := {|
  or_APIVersion := kueueAPIVersion; or_Kind := kindKueue; or_Name := "cluster"; or_UID := "42";
  or_Controller := None; or_BlockOwnerDeletion := None |}.

Definition example_deployment : Deployment :=
  example_obj KDeployment "Deployment" (meta_named "default" "kueue-controller-manager").

Lemma desiredDeployment_spec_witness :
  ∃ d, desiredDeployment "ns" "kueue:v1" "Debug" {["role/x" := "h"]} example_owner example_deployment = Ok d ∧
    dp_TemplateAnnotations (dep_Spec (ko_body d)) = Some ({["role/x" := "h"]} ∪ ∅).
Proof.
  destruct (desiredDeployment "ns" "kueue:v1" "Debug" {["role/x" := "h"]} example_owner example_deployment)
    as [d|e|p] eqn:E; [|vm_compute in E; discriminate E..].
  exists d. split; [done|].
  refine (proj2 (proj2 (proj2 (proj2 (proj2 (proj2
    (desiredDeployment_spec "ns" "kueue:v1" "Debug" {["role/x" := "h"]} example_owner
       example_deployment d _ E))))))).
  apply (bool_decide_unpack (plain_keys {["role/x" := "h"]})). vm_compute. exact I.
Defined.

Lemma SetDeploymentGeneration_expected_witness :
  ExpectedDeploymentGeneration example_deployment
    (SetDeploymentGeneration [] example_deployment) = 0%Z.
Proof.
  exact (proj1 (SetDeploymentGeneration_expected [] example_deployment example_deployment
    eq_refl eq_refl)).
Defined.

Definition example_manager_role : ClusterRole :=
  set_body (λ _, {| cr_Rules := [{| pr_Verbs := ["update"]; pr_APIGroups := ["apiextensions.k8s.io"];
      pr_Resources := ["customresourcedefinitions"]; pr_ResourceNames := []; pr_NonResourceURLs := [] |}];
    cr_AggregationRule := None |} : body KClusterRole)
    (example_obj KClusterRole "ClusterRole" (meta_named "" kueueManagerRoleName)).

Lemma scopeManagerRoleResourceNames_spec_witness :
  ∃ role' names, @scopeManagerRoleResourceNames example_env example_manager_role = Ok role' ∧
    StronglySorted String.le names ∧
    Forall2 (scoped names) (cr_Rules (ko_body example_manager_role)) (cr_Rules (ko_body role')).
Proof.
  destruct (@scopeManagerRoleResourceNames example_env example_manager_role) as [r|e|p] eqn:E;
    [|vm_compute in E; discriminate E..].
  destruct (@scopeManagerRoleResourceNames_spec example_env _ _ E)
    as (_ & _ & _ & _ & names & _ & _ & _ & Hs & _ & _ & H).
  exists r, names. split; [done|]. split; [exact Hs|exact H].
Defined.

Definition example_dns_policy : NetworkPolicy := {|
  ko_Kind := "NetworkPolicy"; ko_Group := "networking.k8s.io";
  ko_meta := meta_named "ns" "kueue-allow-egress-cluster-dns";
  ko_body := {|
    nps_PodSelector := example_selector; nps_Ingress := [];
    nps_Egress := [{| npe_Ports := []; npe_To := [{|
      npp_PodSelector := Some {|
        ls_MatchLabels := {["dns.operator.openshift.io/daemonset-dns" := "default"]};
        ls_MatchExpressions := [] |};
      npp_NamespaceSelector := Some example_selector; npp_IPBlock := None |}] |}];
    nps_PolicyTypes := ["Egress"] |} |}.

Lemma adjustDNSNetworkPolicyForPlatform_spec_witness :
  nps_Ingress (ko_body (adjustDNSNetworkPolicyForPlatform false example_dns_policy)) = [] ∧
  adjustDNSNetworkPolicyForPlatform true example_dns_policy = example_dns_policy.
Proof.
  pose proof (adjustDNSNetworkPolicyForPlatform_spec false example_dns_policy _ _ _ _ eq_refl)
    as (_ & _ & H & _).
  pose proof (adjustDNSNetworkPolicyForPlatform_spec true example_dns_policy _ _ _ _ eq_refl)
    as (_ & _ & _ & H' & _).
  split; [exact H|exact (H' eq_refl)].
Defined.

Definition example_config : KueueConfiguration := ks_Config (ku_Spec (Finalizer.example_kueue [])).

Lemma desiredMutatingWebhook_spec_witness :
  ∃ new, desiredMutatingWebhook "ns" example_config example_owner
    (example_obj KMutatingWebhookConfiguration "MutatingWebhookConfiguration" (meta_named "" "m")) = Ok new ∧
    om_OwnerReferences (ko_meta new) = [example_owner].
Proof.
  destruct (desiredMutatingWebhook "ns" example_config example_owner
    (example_obj KMutatingWebhookConfiguration "MutatingWebhookConfiguration" (meta_named "" "m")))
    as [new|e|p] eqn:E; [|vm_compute in E; discriminate E..].
  exists new. split; [done|].
  destruct (desiredMutatingWebhook_spec _ _ _ _ _ E) as (m & _ & _ & H & _). exact H.
Defined.

Lemma desiredAPIService_spec_witness :
  ∃ new, desiredAPIService "ns" example_owner
    (example_obj KAPIService "APIService" (meta_named "" "v1beta1.visibility.kueue.x-k8s.io")) = Ok new ∧
    as_InsecureSkipTLSVerify (ko_body new) = false.
Proof.
  eexists. split; [reflexivity|].
  exact (proj1 (desiredAPIService_spec "ns" example_owner
    (example_obj KAPIService "APIService" (meta_named "" "v1beta1.visibility.kueue.x-k8s.io")) _ eq_refl)).
Defined.
