(* ===== verification/Managed.v ===== *)
(** * The contract of the managed resources

    [managed cfg owner k o] says what an object of kind [k] must satisfy to be
    written by the operator: it lies in the operator's namespace where its kind
    has one (a role binding in that namespace or in [kube-system]), belongs to
    the Kueue resource (but for the ConfigMap and the CRDs, which are written
    without an owner), and carries the settings its [manage*] method is there
    for. Every [manage*] method only writes objects that satisfy it, whatever
    the manifests hold and the API server answers. [late] says whether the
    deployment, which comes last, may be written yet. *)
From S2P Require Import Prelude GoStd K8s ApiTypes DraHelpers ConfigMap TlsProfile K8sObjects.
From S2P Require Import PodWebhook Effects Monad Cert ResourceApply Finalizer Reconciler.
From S2P Require Import Discovery CachedApply Manage.

(** What an apply does not change. *)
Definition same_config (cfg s : TCR) : Prop :=
  operatorNamespace s = operatorNamespace cfg ∧ kueueImage s = kueueImage cfg ∧
  isOpenShift s = isOpenShift cfg ∧ serviceMonitorSupport s = serviceMonitorSupport cfg.

Lemma same_config_cache cfg c s : same_config cfg s → same_config cfg (tcr_set_resourceCache c s).
Proof. done. Qed.

Section contract.
Context `{Env} (cfg : TCR) (owner : OwnerReference) (late : bool).

Definition owned {k} (o : obj k) : Prop := om_OwnerReferences (ko_meta o) = [owner].
Definition in_namespace {k} (o : obj k) : Prop := ko_Namespace o = operatorNamespace cfg.
Definition annotated_for (cert : string) {k} (o : obj k) : Prop :=
  default ∅ (om_Annotations (ko_meta o)) !! injectCAFrom =
    Some (operatorNamespace cfg +:+ "/" +:+ cert).
Definition webhooks_served (b : WebhookConfigBody) : Prop :=
  ∀ w, w ∈ wc_Webhooks b →
    ∃ svc, wcc_Service (wh_ClientConfig w) = Some svc ∧ sr_Namespace svc = operatorNamespace cfg.

(** The rules of the manager role on webhook configurations and CRDs. *)
Definition rule_confined (names : list string) (r : PolicyRule) : Prop :=
  (isCRDRule r = true → pr_ResourceNames r = names) ∧
  (isCRDRule r = false → isWebhookConfigurationRule r = true →
     pr_ResourceNames r = kueueWebhookConfigurationNames).

Definition deployment_ok (b : DeploymentBody) : Prop :=
  dp_Replicas (dep_Spec b) = Some 2%Z ∧ dp_Strategy (dep_Spec b) = operandStrategy ∧
  ∃ c cs, ps_Containers (dp_TemplateSpec (dep_Spec b)) = c :: cs ∧ co_Image c = kueueImage cfg ∧
    sc_ReadOnlyRootFilesystem <$> co_SecurityContext c = Some (Some true).

Definition managed (k : kind) : obj k → Prop :=
  match k return obj k → Prop with
  | KConfigMap => λ o, in_namespace o ∧ ko_Name o = KueueConfigMap
  | KServiceAccount => λ o, in_namespace o ∧ owned o
  | KService => λ o, in_namespace o ∧ owned o
  | KRole => λ o, in_namespace o ∧ owned o
  | KRoleBinding => λ o, (in_namespace o ∨ ko_Namespace o = "kube-system") ∧ owned o
  | KClusterRole => λ o, owned o ∧
      (ko_Name o = kueueManagerRoleName →
         ∃ names, kueueCRDNames = Ok names ∧ Forall (rule_confined names) (cr_Rules (ko_body o)))
  | KClusterRoleBinding => λ o, owned o
  | KFlowSchema => λ o, owned o
  | KPriorityLevelConfiguration => λ o, owned o
  | KNetworkPolicy => λ o, in_namespace o ∧ owned o
  | KCRD => λ o, isAlphaVersion o = false ∧ annotated_for "webhook-cert" o
  | KAPIService => λ o, owned o ∧ as_InsecureSkipTLSVerify (ko_body o) = false ∧
      annotated_for "kueue-visibility-server-cert" o
  | KMutatingWebhookConfiguration => λ o,
      owned o ∧ webhooks_served (ko_body o) ∧ annotated_for "webhook-cert" o
  | KValidatingWebhookConfiguration => λ o,
      owned o ∧ webhooks_served (ko_body o) ∧ annotated_for "webhook-cert" o
  | KDeployment => λ o, late = true ∧ in_namespace o ∧ owned o ∧ ko_Name o = OperandName ∧ deployment_ok (ko_body o)
  | KSecret => λ _, False
  end.

(** A new flow schema, priority level or network policy is created without
    the removal markers of its metadata. *)
Definition created (k : kind) (o : obj k) : Prop := ∃ want : obj k,
  o = set_meta WithCleanLabelsAndAnnotations want ∧ managed k want.

(** An update of one carries the body of an object within the contract, whose
    metadata are merged into those of the stored object. *)
Definition updated (k : kind) (o : obj k) : Prop := ∃ stored want : obj k,
  o = set_body (λ _, ko_body want)
        (set_meta (λ _, (EnsureObjectMeta false (ko_meta stored) (ko_meta want)).2) stored) ∧
  managed k want.

(** The listers the methods read: of the cluster-wide factories whatever the
    namespace, of the namespaced ones in the operator's namespace only. *)
Definition informed (k : kind) (ns : string) : Prop :=
  match k with
  | KClusterRole | KClusterRoleBinding | KRole | KRoleBinding | KPriorityLevelConfiguration
  | KCRD => True
  | KNetworkPolicy | KDeployment => ns = operatorNamespace cfg
  | _ => False
  end.

(** The calls of [manageDeployment]: nothing but the deployment is written. *)
Definition is_deployment_call (c : call) : Prop :=
  match c with
  | CLister KDeployment ns _ => ns = operatorNamespace cfg
  | CApply KDeployment o _ => managed KDeployment o
  | CCacheStoreKueue _ => True
  | _ => False
  end.

(** The calls of the [manage*] methods. *)
Definition is_manage_call (c : call) : Prop :=
  match c with
  | CLister k ns _ => informed k ns
  | CGet _ _ _ | CEvent _ _ _ | CServerResourcesForGroupVersion _ => True
  | CCacheStoreKueue _ => True
  | CApply k o _ => managed k o
  | CApplyImproved k o _ => managed k o
  | CCreate k o => created k o
  | CUpdate k o => (k = KFlowSchema ∨ k = KNetworkPolicy ∨ k = KPriorityLevelConfiguration) ∧ updated k o
  | CApplyServiceMonitor j => serviceMonitorSupport cfg = true ∧
      ∃ kueue, j = convertObj2Unstructured (desiredServiceMonitor (operatorNamespace cfg) kueue)
  | _ => False
  end.

Notation In := (inM (same_config cfg) is_manage_call).

(** *** Applying *)

Lemma in_applyImproved k (o : obj k) : managed k o → In (applyImproved k o).
Proof.
  intros Ho. unfold applyImproved. apply inM_bind_get. intros s _.
  apply inM_bind; [by apply inM_call|]. intros [r c]. apply inM_bind; [|intros _; apply inM_of_sum].
  apply inM_modify. intros s'. apply same_config_cache.
Qed.

Lemma inM_resourceapply C k n (o : obj k) :
  C (CApply k o n) → inM (same_config cfg) C (resourceapply_Apply k n o).
Proof. intros Ho. unfold resourceapply_Apply. apply inM_bind; [by apply inM_call|]. intros r. apply inM_of_sum. Qed.
Lemma in_resourceapply k n (o : obj k) : managed k o → In (resourceapply_Apply k n o).
Proof. intros Ho. by apply inM_resourceapply. Qed.

Lemma in_applyObject k ns keep (o : obj k) :
  k = KFlowSchema ∨ k = KNetworkPolicy ∨ k = KPriorityLevelConfiguration →
  managed k o → In (applyObject k ns keep o).
Proof.
  intros Hk Ho. unfold applyObject, client_get, client_create, client_update, ReportCreateEvent,
    ReportUpdateEvent, Eventf, Warningf. apply inM_bind; [solve_in|]. intros [e|stored].
  - destruct (negb (IsNotFound e)); [apply inM_throw|]. solve_in. by exists o.
  - destruct (EnsureObjectMeta _ _ _) as [d m] eqn:E. destruct (negb d && _); [apply inM_ret|].
    apply inM_bind; [apply inM_of_res|]. intros [|]; [apply inM_ret|]. solve_in.
    split; [exact Hk|]. exists stored, o. by rewrite E.
Qed.

Lemma inM_applyWithCache C k ns (prepare : option (obj k) → obj k → obj k) apply (o : obj k) :
  C (CLister k ns (ko_Name o)) → (∀ o', inM (same_config cfg) C (apply (prepare o' o))) →
  inM (same_config cfg) C (applyWithCache k ns prepare apply o).
Proof.
  intros Hi Ha. unfold applyWithCache. unfold lister. apply inM_bind; [solve_in|]. intros [e|ex].
  - destruct (negb (IsNotFound e)); [apply inM_throw|].
    apply inM_bind; [apply Ha|]. intros [actual updated]. apply inM_bind; [|intros _; apply inM_ret].
    apply inM_modify. intros s. apply same_config_cache.
  - apply inM_bind_get. intros s _. destruct (SafeToSkipApply _ _ _); [apply inM_ret|].
    apply inM_bind; [apply Ha|]. intros [actual updated]. apply inM_bind; [|intros _; apply inM_ret].
    apply inM_modify. intros s'. apply same_config_cache.
Qed.

Lemma in_applyWithCache k ns (prepare : option (obj k) → obj k → obj k) apply (o : obj k) :
  informed k ns → (∀ o', In (apply (prepare o' o))) → In (applyWithCache k ns prepare apply o).
Proof. intros Hi Ha. by apply inM_applyWithCache. Qed.

Lemma in_readAsset k path : In (readAsset k path).
Proof. apply inM_of_res. Qed.
Lemma in_annotateHash what key o ann : In (annotateHash what key o ann).
Proof. unfold annotateHash. solve_in. Qed.
End contract.

#[export] Hint Resolve in_readAsset in_annotateHash : calls.

(** ** Every method keeps the contract *)

(** The chain every method follows: read the receiver, read the manifest. *)
Ltac in_read s o Hs :=
  apply inM_bind_get; intros s Hs; apply inM_bind; [apply inM_of_res|]; intros o.

Section methods.
Context `{Env} (cfg : TCR) (owner : OwnerReference) (late : bool).
Notation In := (inM (same_config cfg) (is_manage_call cfg owner late)).

Lemma same_ns s : same_config cfg s → operatorNamespace s = operatorNamespace cfg.
Proof. by intros []. Qed.

Lemma ensured_owned {k} (o : obj k) :
  om_OwnerReferences (ko_meta (ensure_owner owner (with_owner owner o))) = [owner].
Proof.
  unfold ensure_owner, with_owner, set_meta. cbn [ko_meta om_OwnerReferences meta_set_OwnerReferences].
  by rewrite EnsureOwnerRef_present.
Qed.

Lemma in_cached k ns (o : obj k) apply :
  informed cfg k ns → In (apply o) → In (applyWithCache k ns no_prepare apply o).
Proof. intros Hi Ha. apply in_applyWithCache; [exact Hi|]. intros o'. exact Ha. Qed.

Lemma in_manageServiceAccount : In (manageServiceAccount owner).
Proof.
  unfold manageServiceAccount. in_read s o Hs. apply in_applyImproved.
  split; [|apply ensured_owned]. apply (same_ns _ Hs).
Qed.

Lemma in_manageService path : In (manageService path owner).
Proof.
  unfold manageService. in_read s o Hs. apply in_applyImproved.
  split; [apply (same_ns _ Hs)|done].
Qed.

Lemma in_manageRole path : In (manageRole path owner).
Proof.
  unfold manageRole. in_read s o Hs. apply in_cached; [exact I|]; apply in_resourceapply.
  split; [apply (same_ns _ Hs)|done].
Qed.

Lemma in_manageRoleBindingsByNamespace ns path b :
  ns = operatorNamespace cfg ∨ ns = "kube-system" →
  In (manageRoleBindingsByNamespace ns path owner b).
Proof.
  intros Hns. unfold manageRoleBindingsByNamespace. in_read s o Hs.
  apply in_cached; [exact I|]; apply in_resourceapply. split; by destruct b.
Qed.

Lemma in_manageRoleBindings path b : In (manageRoleBindings path owner b).
Proof.
  unfold manageRoleBindings. apply inM_bind_get. intros s Hs.
  apply in_manageRoleBindingsByNamespace. left. apply (same_ns _ Hs).
Qed.

Lemma in_manageSystemRoleBindings path b : In (manageSystemRoleBindings path owner b).
Proof. apply in_manageRoleBindingsByNamespace. by right. Qed.

Lemma in_manageClusterRoleBindings path : In (manageClusterRoleBindings path owner).
Proof.
  unfold manageClusterRoleBindings. in_read s o Hs.
  apply in_cached; [exact I|]; by apply in_resourceapply.
Qed.

Lemma in_manageClusterRoleBindingsWithoutNamespaceOverride path :
  In (manageClusterRoleBindingsWithoutNamespaceOverride path owner).
Proof.
  unfold manageClusterRoleBindingsWithoutNamespaceOverride.
  apply inM_bind; [apply inM_of_res|]. intros o. apply in_cached; [exact I|]; by apply in_resourceapply.
Qed.

Lemma in_manageOpenshiftClusterRolesBindingForKueue :
  In (manageOpenshiftClusterRolesBindingForKueue owner).
Proof.
  unfold manageOpenshiftClusterRolesBindingForKueue. apply inM_bind_get. intros s Hs.
  apply in_cached; [exact I|]; by apply in_resourceapply.
Qed.

Lemma in_manageOpenshiftClusterRolesForKueue : In (manageOpenshiftClusterRolesForKueue owner).
Proof.
  unfold manageOpenshiftClusterRolesForKueue. apply in_cached; [exact I|]; apply in_resourceapply.
  split; [apply ensured_owned|]. vm_compute. discriminate.
Qed.

Lemma in_manageFlowSchema ann : In (manageFlowSchema ann owner).
Proof.
  unfold manageFlowSchema. apply inM_bind; [apply inM_of_res|]. intros o.
  apply inM_bind; [apply in_applyObject; [by left|done]|]. intros [fs b]. apply in_annotateHash.
Qed.

Lemma in_managePriorityLevelConfiguration ann : In (managePriorityLevelConfiguration ann owner).
Proof.
  unfold managePriorityLevelConfiguration. apply inM_bind; [apply inM_of_res|]. intros o.
  apply inM_bind; [|intros [plc b]; apply in_annotateHash].
  apply in_cached; [exact I|]; apply in_applyObject; [by right; right|done].
Qed.

Lemma desiredNetworkPolicy_meta ns b (o : NetworkPolicy) :
  ko_meta (desiredNetworkPolicy ns b owner o) =
    meta_set_OwnerReferences [owner] (meta_set_Namespace ns (ko_meta o)).
Proof.
  unfold desiredNetworkPolicy, adjustDNSNetworkPolicyForPlatform,
    adjustVisibilityNetworkPolicyForPlatform, adjustWebhookNetworkPolicyForPlatform.
  by repeat case_match.
Qed.

Lemma in_manageNetworkPolicies ann : In (manageNetworkPolicies ann owner).
Proof.
  unfold manageNetworkPolicies. destruct (AssetDir _); [apply inM_throw|].
  apply inM_mfold. intros ann' file. unfold manageNetworkPolicy. in_read s o Hs.
  apply inM_bind; [|intros [p b]; apply in_annotateHash].
  assert (in_namespace cfg (desiredNetworkPolicy (operatorNamespace s) (isOpenShift s) owner o)) as Hn.
  { unfold in_namespace, ko_Namespace. rewrite desiredNetworkPolicy_meta. apply (same_ns _ Hs). }
  apply in_cached; [exact Hn|]. apply in_applyObject; [by right; left|].
  split; unfold in_namespace, owned, ko_Namespace; rewrite desiredNetworkPolicy_meta; [|done].
  apply (same_ns _ Hs).
Qed.

Lemma scopeRule_confined names rules : Forall (rule_confined names) (map (scopeRule names) rules).
Proof.
  pose proof (scopeRules_spec names rules) as H0.
  induction H0 as [|r r' rs rs' [Hr Hn] _ IH]; [constructor|]. constructor; [|exact IH].
  assert (isCRDRule r' = isCRDRule r ∧ isWebhookConfigurationRule r' = isWebhookConfigurationRule r)
    as [H1 H2].
  { injection Hr as Hv Hg Hrs Hu. unfold isCRDRule, isWebhookConfigurationRule. by rewrite Hg, Hrs. }
  unfold rule_confined. rewrite H1, H2, Hn.
  destruct (isCRDRule r), (isWebhookConfigurationRule r); done.
Qed.

Lemma in_manageClusterRoles ann : In (manageClusterRoles ann owner).
Proof.
  unfold manageClusterRoles. destruct (AssetDir _); [apply inM_throw|].
  apply inM_mfold. intros ann' file. unfold manageClusterRole.
  apply inM_bind; [apply inM_of_res|]. intros o.
  destruct (cr_AggregationRule (ko_body o)); [apply inM_ret|]. cbv zeta.
  destruct (decide (ko_Name (with_owner owner o) = kueueManagerRoleName)) as [Hn|Hn].
  - rewrite bool_decide_true by done. intros s Hs. unfold wrap, try, of_res, scopeManagerRoleResourceNames.
    destruct kueueCRDNames as [names|e|p] eqn:Hk; [|exact Hs|exact Hs].
    apply (inM_bind _ _ (applyClusterRoleWithCache _)); [|intros [r b]; apply in_annotateHash|exact Hs].
    apply in_cached; [exact I|]; apply in_resourceapply. split; [done|]. intros _. exists names. split; [done|].
    apply scopeRule_confined.
  - rewrite bool_decide_false by done. intros s Hs.
    apply (inM_bind _ _ (applyClusterRoleWithCache (with_owner owner o)));
      [|intros [r b]; apply in_annotateHash|exact Hs].
    apply in_cached; [exact I|]; apply in_resourceapply. by split.
Qed.

Lemma isAlphaVersion_prepared ex (o : CustomResourceDefinition) :
  isAlphaVersion (preserveCABundle ex o) = isAlphaVersion o ∧
  ko_meta (preserveCABundle ex o) = ko_meta o.
Proof.
  unfold preserveCABundle. destruct ex as [e|]; [|done].
  by destruct (crdClientConfig (ko_body e)).
Qed.

Lemma isAlphaVersion_desired ns (o : CustomResourceDefinition) :
  isAlphaVersion (desiredCRD ns o) = isAlphaVersion o.
Proof.
  unfold desiredCRD, isAlphaVersion, crd_set_conversion_namespace. cbn [set_body ko_body].
  by repeat case_match.
Qed.

Lemma in_manageCustomResources ann : In (manageCustomResources ann).
Proof.
  unfold manageCustomResources. destruct (AssetDir _); [apply inM_throw|].
  apply inM_mfold. intros ann' file. unfold manageCustomResource. in_read s o Hs.
  destruct (isAlphaVersion o) eqn:Ha; [apply inM_ret|].
  apply inM_bind; [|intros [r b]; apply in_annotateHash].
  apply in_applyWithCache; [exact I|]. intros ex. apply in_resourceapply.
  destruct (isAlphaVersion_prepared ex (desiredCRD (operatorNamespace s) o)) as [H1 H2].
  split; [by rewrite H1, isAlphaVersion_desired|]. unfold annotated_for. rewrite H2.
  unfold desiredCRD. cbn. by rewrite lookup_insert_eq, (same_ns _ Hs).
Qed.

Lemma in_manageAPIService ann : In (manageAPIService ann owner).
Proof.
  unfold manageAPIService. apply inM_mfold. intros ann' path. in_read s o Hs.
  apply inM_bind_of_res. intros new Hnew.
  apply inM_bind; [|intros [r b]; apply in_annotateHash]. apply in_resourceapply.
  rewrite (same_ns _ Hs) in Hnew. unfold desiredAPIService in Hnew.
  destruct (as_Service (ko_body o)); [|done]. injection Hnew as <-.
  split_and!; [done..|]. unfold annotated_for. cbn. by rewrite lookup_insert_eq.
Qed.

(** The webhooks after their namespaces were set. *)
Lemma served_all ns ws ws' :
  ns = operatorNamespace cfg → res_map (webhook_set_service_namespace ns) ws = Ok ws' →
  webhooks_served cfg {| wc_Webhooks := ws' |}.
Proof.
  intros -> Hr w Hw. cbn in Hw. apply res_map_Ok in Hr.
  apply list_elem_of_lookup in Hw as [i Hi]. destruct (Forall2_lookup_r _ _ _ _ _ Hr Hi) as (w0 & _ & Hw0).
  destruct (webhook_set_service_namespace_ok _ _ _ Hw0) as (_ & _ & svc & svc' & _ & H1 & H2 & _).
  by exists svc'.
Qed.

Lemma desiredMutatingWebhook_managed ns config (o new : MutatingWebhookConfiguration) :
  ns = operatorNamespace cfg → desiredMutatingWebhook ns config owner o = Ok new →
  managed cfg owner late KMutatingWebhookConfiguration new.
Proof.
  intros Hns. unfold desiredMutatingWebhook, ModifyPodBasedMutatingWebhook.
  rewrite res_bind_Ok. intros (m & Hm & Hn). rewrite res_bind_Ok in Hm.
  destruct Hm as (kept & _ & Hm). rewrite res_bind_Ok in Hm. destruct Hm as (merged & _ & [= <-]).
  rewrite res_bind_Ok in Hn. destruct Hn as (ws & Hws & [= <-]).
  split; [done|]. split; [by eapply served_all|]. unfold annotated_for. cbn.
  by rewrite lookup_insert_eq, Hns.
Qed.

Lemma desiredValidatingWebhook_managed ns config (o new : ValidatingWebhookConfiguration) :
  ns = operatorNamespace cfg → desiredValidatingWebhook ns config owner o = Ok new →
  managed cfg owner late KValidatingWebhookConfiguration new.
Proof.
  intros Hns. unfold desiredValidatingWebhook, ModifyPodBasedValidatingWebhook.
  rewrite res_bind_Ok. intros (m & Hm & Hn). rewrite res_bind_Ok in Hm.
  destruct Hm as (kept & _ & Hm). rewrite res_bind_Ok in Hm. destruct Hm as (merged & _ & [= <-]).
  rewrite res_bind_Ok in Hn. destruct Hn as (ws & Hws & [= <-]).
  split; [apply (ensured_owned o)|]. split; [by eapply served_all|]. unfold annotated_for. cbn.
  by rewrite lookup_insert_eq, Hns.
Qed.

Lemma in_manageMutatingWebhook kueue : In (manageMutatingWebhook kueue owner).
Proof.
  unfold manageMutatingWebhook. in_read s o Hs. apply inM_bind_of_res. intros new Hnew.
  apply in_applyImproved. eapply desiredMutatingWebhook_managed; [|exact Hnew]. apply (same_ns _ Hs).
Qed.

Lemma in_manageValidatingWebhook kueue : In (manageValidatingWebhook kueue owner).
Proof.
  unfold manageValidatingWebhook. in_read s o Hs. apply inM_bind_of_res. intros new Hnew.
  apply in_applyImproved. eapply desiredValidatingWebhook_managed; [|exact Hnew]. apply (same_ns _ Hs).
Qed.

Lemma BuildConfigMap_meta ns c g b t m :
  BuildConfigMap ns c g b t = Ok m → cfm_ObjectMeta m = meta_named ns KueueConfigMap.
Proof.
  unfold BuildConfigMap. rewrite res_bind_Ok. intros (y & _ & Hm).
  destruct (yaml_Marshal y); [done|]. by injection Hm as <-.
Qed.

Lemma in_buildAndApplyConfigMap old config g tls : In (buildAndApplyConfigMap old config g tls).
Proof.
  unfold buildAndApplyConfigMap. apply inM_bind_get. intros s Hs. apply inM_bind_of_res. intros m Hm.
  assert (managed cfg owner late KConfigMap (ConfigMap_of m)) as Hmg.
  { unfold managed, in_namespace, ko_Namespace, ko_Name, ConfigMap_of. cbn [ko_meta].
    rewrite (BuildConfigMap_meta _ _ _ _ _ _ Hm). split; [apply (same_ns _ Hs)|done]. }
  destruct old as [o|]; [case_match; [apply inM_ret|]|]; by apply in_applyImproved.
Qed.

Lemma in_manageConfigMap kueue tls : In (manageConfigMap kueue tls).
Proof.
  unfold manageConfigMap, client_get. apply inM_bind_get. intros s Hs.
  apply inM_bind; [solve_in|]. intros r. apply inM_bind.
  - destruct (kc_MultiKueue _); [|apply inM_ret].
    unfold resolveGVRsToKinds, resolveGVR, ServerResourcesForGroupVersion. solve_in.
  - intros g. destruct r as [e|old]; [|apply in_buildAndApplyConfigMap].
    destruct (IsNotFound e); [apply in_buildAndApplyConfigMap|apply inM_throw].
Qed.

Lemma desiredDeployment_managed ns image level ann (o d : Deployment) :
  late = true → ns = operatorNamespace cfg → image = kueueImage cfg →
  desiredDeployment ns image level ann owner o = Ok d → managed cfg owner late KDeployment d.
Proof.
  intros Hl Hns Hi. unfold desiredDeployment. rewrite res_bind_Ok. intros (p & Hp & Hd).
  destruct (MergeMap _ _ _) as [b m]. injection Hd as <-.
  split; [exact Hl|]. split; [exact Hns|]. split; [done|]. split; [done|]. split; [done|].
  split; [done|]. destruct (op_container _ _ _ _ (desiredPodSpec_ok _ _ _ _ Hp)) as (c0 & cs & c & _ & Hc & Hci & _ & Hr & _).
  exists c, cs. split_and!; [exact Hc|by rewrite Hci|exact Hr].
Qed.

Lemma in_manageDeployment_only kueue ann :
  late = true → inM (same_config cfg) (is_deployment_call cfg owner late) (manageDeployment kueue ann owner).
Proof.
  intros Hl. unfold manageDeployment. in_read s o Hs. apply inM_bind_of_res. intros d Hd.
  apply inM_bind.
  - pose proof (desiredDeployment_managed _ _ _ _ _ _ Hl (proj1 Hs) (proj1 (proj2 Hs)) Hd) as Hm.
    apply inM_applyWithCache; [exact (proj1 (proj2 Hm))|]. intros o'. by apply inM_resourceapply.
  - intros [dep b]. destruct b; [|apply inM_ret].
    apply inM_bind; [by apply inM_call|]. intros []. apply inM_ret.
Qed.

Lemma in_manageDeployment kueue ann : late = true → In (manageDeployment kueue ann owner).
Proof.
  intros Hl. eapply inM_mono; [|by apply in_manageDeployment_only]. intros c Hc. destruct c; try done; by destruct k.
Qed.

Lemma in_manageServiceMonitor kueue :
  serviceMonitorSupport cfg = true → In (manageServiceMonitor kueue).
Proof.
  intros Hsm. unfold manageServiceMonitor. apply inM_bind_get. intros s Hs.
  apply inM_bind; [|intros r; apply inM_of_sum]. apply inM_call. split; [exact Hsm|].
  exists kueue. by rewrite (same_ns _ Hs).
Qed.
End methods.

Lemma is_manage_call_late `{Env} cfg owner c :
  is_manage_call cfg owner false c → is_manage_call cfg owner true c.
Proof.
  assert (Hm : ∀ k o, managed cfg owner false k o → managed cfg owner true k o).
  { intros k o. destruct k; try done. by intros [? _]. }
  destruct c; try done; cbn; try apply Hm.
  - intros (want & -> & Hw). exists want. split; [done|]. by apply Hm.
  - intros (Hk & stored & want & -> & Hw). split; [done|]. exists stored, want. split; [done|]. by apply Hm.
Qed.

#[export] Hint Resolve in_manageServiceAccount in_manageService in_manageRole in_manageRoleBindings
  in_manageSystemRoleBindings in_manageClusterRoleBindings
  in_manageClusterRoleBindingsWithoutNamespaceOverride in_manageOpenshiftClusterRolesBindingForKueue
  in_manageOpenshiftClusterRolesForKueue in_manageFlowSchema in_managePriorityLevelConfiguration
  in_manageNetworkPolicies in_manageClusterRoles in_manageCustomResources in_manageAPIService
  in_manageMutatingWebhook in_manageValidatingWebhook in_manageConfigMap in_manageDeployment
  in_manageServiceMonitor : calls.
