(* ===== verification/Sync.v ===== *)
(** * The reconciliation loop: [sync]

    [TargetConfigReconciler.sync], cut at its comments and blank-line blocks
    into one definition per block and composed in the code's order. Every
    early [return] of the Go function is kept: a block that can end the
    reconciliation returns [None] (for [return nil]) or throws (for
    [return err]). *)
From S2P Require Import Prelude GoStd K8s ApiTypes DraHelpers ConfigMap TlsProfile K8sObjects.
From S2P Require Import PodWebhook Effects Monad Cert ResourceApply Finalizer Reconciler.
From S2P Require Import Discovery Conditions CachedApply Cleanup Manage.

Definition OperatorConfigName : string := "cluster".

(** ** Dependencies *)

Section dependencies.
(** The Kueue resource from the informer's cache, [None] after the event for
    a resource that cannot be used. *)
Definition readKueue : M TCR (option Kueue) :=
  r ← mcall (CCacheGetKueue OperatorConfigName);
  match r with
  | inl _ => Eventf "unconfigured" "unable to get operator configuration from cache" ;; mret None
  | inr None => Eventf "unconfigured" "operator configuration not found" ;; mret None
  | inr (Some None) => Eventf "unconfigured" "unable to convert cached object to Kueue" ;; mret None
  | inr (Some (Some kueue)) => mret (Some kueue)
  end.

Definition certManagerIssuer : GroupVersionKind :=
  {| gvk_Group := "cert-manager.io"; gvk_Version := "v1"; gvk_Kind := "Issuer" |}.

(** One framework of the loop: the names of the operators it misses. An
    error of the check is logged and the operator counts as missing. *)
Definition missingOperator (operatorName : string) (getConfig : operator_config) (framework : string)
    : M TCR (list string) :=
  r ← try (isOperatorAvailability operatorName getConfig);
  mret (match r with inr true => [] | _ => [framework] end).

Definition frameworkDependencies (missing : list string) (framework : string) : M TCR (list string) :=
  if framework =s KueueIntegrationJobSet then
    m ← missingOperator "JobSetOperator" JobSetOperatorConfig framework; mret (missing ++ m)
  else if framework =s KueueIntegrationLeaderWorkerSet then
    m ← missingOperator "LeaderWorkerSetOperator" LeaderWorkerSetOperatorConfig framework;
    mret (missing ++ m)
  else mret missing.

(** An error leaves [draAPIsAvailable] false. *)
Definition checkDRAAPIs : M TCR bool :=
  r ← try (isResourceRegistered
    {| gvk_Group := "resource.k8s.io"; gvk_Version := "v1"; gvk_Kind := "DeviceClass" |});
  mret (match r with inr found => found | inl _ => false end).

Definition draMissingDependency : string :=
  "DRA (Dynamic Resource Allocation) requires Kubernetes 1.34+ (OCP 4.21+)".

Definition draAPIDependencies (resources : Resources) (draAPIsAvailable : bool)
    (missing : list string) : M TCR (list string) :=
  if (0 <? length (rc_DeviceClassMappings resources)) && negb draAPIsAvailable then
    Eventf "DRAUnsupported" "DRA APIs not available, deviceClassMappings will not take effect until the cluster is upgraded" ;;
    mret (missing ++ [draMissingDependency])
  else mret missing.

(** The switch over the enabled gates: partitionable devices, consumable
    capacity. *)
Definition scanGate (st : bool * bool) (gate : string) : bool * bool :=
  let '(partitionable, capacity) := st in
  if gate =s "DRAPartitionableDevices" then (true, capacity)
  else if gate =s "DRAConsumableCapacity" then (partitionable, true)
  else (partitionable, capacity).

Definition scanFeatureGate (fg : FeatureGateSpec) (versionEnablesConsumableCapacity : bool)
    : bool * bool :=
  match fg_CustomNoUpgrade_Enabled fg with
  | Some enabled =>
      if fg_FeatureSet fg =s "CustomNoUpgrade"
      then foldl scanGate (false, versionEnablesConsumableCapacity) enabled
      else (false, versionEnablesConsumableCapacity)
  | None => (false, versionEnablesConsumableCapacity)
  end.

Definition updateDRAGates (draAPIsAvailable : bool) : M TCR unit :=
  versionEnablesConsumableCapacity ←
    (if draAPIsAvailable then isKubernetesMinorAtLeast 36 else mret false);
  c ← mget;
  let previousConsumableCapacityEnabled := draConsumableCapacityEnabled c in
  mmodify (tcr_set_draConsumableCapacityEnabled versionEnablesConsumableCapacity) ;;
  if isOpenShift c && draAPIsAvailable then
    r ← mcall (CFeatureGateGet "cluster");
    match r with
    | inl _ =>
        if negb versionEnablesConsumableCapacity
        then mmodify (tcr_set_draConsumableCapacityEnabled previousConsumableCapacityEnabled)
        else mret tt
    | inr fg =>
        let '(partitionable, capacity) := scanFeatureGate fg versionEnablesConsumableCapacity in
        mmodify (λ t, tcr_set_draConsumableCapacityEnabled capacity
                        (tcr_set_draPartitionableDevicesEnabled partitionable t))
    end
  else mret tt.

Definition partitionableMissingDependency : string :=
  "DRA Partitionable Devices requires the DRAPartitionableDevices K8s feature gate to be enabled".

Definition draGateDependencies (resources : Resources) (missing : list string)
    : M TCR (list string) :=
  c ← mget;
  missing ←
    (if HasSourceOfType resources DeviceClassSourceTypeCounter && negb (draPartitionableDevicesEnabled c)
     then Eventf "DRAPartitionableDevicesUnsupported" "DRAPartitionableDevices K8s feature gate is not enabled, counter sources will not take effect until the feature gate is enabled" ;;
          mret (missing ++ [partitionableMissingDependency])
     else mret missing);
  match missingConsumableCapacityDependencies resources (draConsumableCapacityEnabled c) with
  | [] => mret missing
  | deps =>
      Eventf "DRAConsumableCapacityUnsupported" "DRAConsumableCapacity K8s feature gate is not enabled, capacity sources will not take effect until the feature gate is enabled" ;;
      mret (missing ++ deps)
  end.

Definition buildDependencyCondition (missingDependencies : list string)
    : option OperatorConditionApply :=
  match missingDependencies with
  | [] => None
  | _ => Some (condition "Degraded" ConditionTrue "MissingDependencies"
           ("Please install the following on your cluster: " +:+ Join missingDependencies ", "))
  end.

Definition checkDependencies (kueue : Kueue) : M TCR (option OperatorConditionApply) :=
  let config := ks_Config (ku_Spec kueue) in
  missing ← mfold frameworkDependencies [] (in_Frameworks (kc_Integrations config));
  draAPIsAvailable ← checkDRAAPIs;
  missing ← draAPIDependencies (kc_Resources config) draAPIsAvailable missing;
  updateDRAGates draAPIsAvailable ;;
  missing ← draGateDependencies (kc_Resources config) missing;
  mret (buildDependencyCondition missing).
End dependencies.

(** The owner of what the reconciliation creates. *)
Definition kueueOwnerReference (kueue : Kueue) : OwnerReference := {|
  or_APIVersion := kueueAPIVersion; or_Kind := kindKueue; or_Name := om_Name (ku_ObjectMeta kueue);
  or_UID := om_UID (ku_ObjectMeta kueue); or_Controller := None; or_BlockOwnerDeletion := None |}.

(** ** Deletion *)

(** The cleanup steps in order, then the finalizer; a failure to remove it is
    only logged. *)
Definition finalizeKueue (kueue : Kueue) : M TCR unit :=
  cleanUpWebhooks ;;
  cleanUpCertificatesAndIssuers ;;
  cleanUpClusterRoles ;;
  cleanUpClusterRoleBindings ;;
  cleanUpResources ;;
  _ ← try (removeFinalizerFromKueueInstance kueue);
  mret tt.

(** ** Certificates *)

Definition certificateData (ns : string) : list certificate_data :=
  let names svc := [svc +:+ "." +:+ ns +:+ ".svc"; svc +:+ "." +:+ ns +:+ ".svc.cluster.local"] in
  [{| cd_dnsNames := names "kueue-webhook-service"; cd_commonName := "";
      cd_secretName := "kueue-webhook-server-cert"; cd_certificateName := "webhook-cert" |};
   {| cd_dnsNames := names "kueue-controller-manager-metrics-service"; cd_commonName := "kueue-metrics";
      cd_secretName := secretMetricsServerCert; cd_certificateName := certMetricsCerts |};
   {| cd_dnsNames := names "kueue-visibility-server"; cd_commonName := "kueue-visibility-server";
      cd_secretName := secretKueueVisibilityServerCert;
      cd_certificateName := secretKueueVisibilityServerCert |}].

(** [u.Object["spec"]]: nil when absent. *)
Definition json_spec (j : json) : json :=
  match j with JObj m => default JNull (jlookup "spec" m) | _ => JNull end.

Section sync.
Context `{Env}.

Definition manageIssuer (kueue : Kueue) (ann : gmap string string) : M TCR (gmap string string) :=
  '(issuer, _) ← manageIssuerCR kueue;
  annotateHash "Issuer spec" ("issuer/" +:+ json_Name issuer) (HJson (json_spec issuer)) ann.

Definition manageCertificates (kueue : Kueue) (ann : gmap string string)
    : M TCR (gmap string string) :=
  c ← mget;
  mfold (λ ann certificate,
    '(cert, _) ← manageCertificateCR kueue certificate;
    annotateHash "Certificate spec" ("certificate/" +:+ json_Name cert) (HJson (json_spec cert)) ann)
    ann (certificateData (operatorNamespace c)).

Definition waitForCertificates : M TCR unit :=
  c ← mget;
  let wait name :=
    WaitForCertificateReady certificateFuel (operatorNamespace c) name (2 * Minute) in
  wait "webhook-cert" ;; wait certMetricsCerts ;; wait secretKueueVisibilityServerCert.

(** The second read of the resource, after waits that can take minutes. *)
Definition rereadKueue : M TCR Kueue :=
  r ← mcall (CCacheGetKueue OperatorConfigName);
  match r with
  | inl err => throw (WrapError "failed to re-read operator configuration after certificate wait: " err)
  | inr None => throw (ErrorString ("operator configuration " +:+ Quote OperatorConfigName +:+
                                    " not found after certificate wait"))
  | inr (Some None) =>
      throw (ErrorString "unable to convert cached object to Kueue type after certificate wait")
  | inr (Some (Some kueue)) => mret kueue
  end.

(** ** The TLS profile *)

Definition FetchAPIServerTLSProfile : M TCR (option TLSSecurityProfile) :=
  r ← mcall (CAPIServerGet "cluster");
  match r with
  | inl err => throw (WrapError "failed to get APIServer CR: " err)
  | inr profile => mret profile
  end.

(** [fmt.Sprintf("%v", l)] *)
Definition format_strings (l : list string) : string := "[" +:+ Join l " " +:+ "]".

(** [Some tlsOpts] to go on; [None] when the profile is not supported, after
    reporting it. *)
Definition resolveTLS (kueue : Kueue) : M TCR (option (option Config.TLSOptions)) :=
  c ← mget;
  if negb (isOpenShift c) then mret (Some None)
  else
    clusterProfile ← FetchAPIServerTLSProfile;
    r ← try (of_res (TLSOptionsFromProfile clusterProfile));
    match r with
    | inl err =>
        Eventf "UnsupportedTLSProfile" (Error err) ;;
        updateKueueStatus kueue (buildUnsupportedTLSProfileConditions err) None ;;
        mret None
    | inr (tlsOpts, unmappedCiphers, unmappedGroups) =>
        (if 0 <? length unmappedCiphers
         then Warningf "InvalidTLSCipherSuites" ("The following TLS cipher suites from the APIServer CR could not be mapped and were excluded: " +:+ format_strings unmappedCiphers)
         else mret tt) ;;
        (if 0 <? length unmappedGroups
         then Warningf "InvalidTLSGroups" ("The following TLS groups from the APIServer CR could not be mapped and were excluded: " +:+ format_strings unmappedGroups)
         else mret tt) ;;
        mret (Some (Some tlsOpts))
    end.

(** ** The operand's resources

    Each step manages one resource and records its hash. *)
Definition annotations := gmap string string.

Definition syncConfigMap (kueue : Kueue) (tlsOpts : option Config.TLSOptions) (ann : annotations)
    : M TCR annotations :=
  '(cm, _) ← manageConfigMap kueue tlsOpts;
  annotateHash "ConfigMap data" ("configmap/" +:+ ko_Name cm) (HData (ko_body cm)) ann.

Definition syncServiceAccount (owner : OwnerReference) (ann : annotations) : M TCR annotations :=
  '(sa, _) ← manageServiceAccount owner;
  annotateHash "ServiceAccount" ("serviceaccounts/" +:+ ko_Name sa) (HString (ko_Name sa)) ann.

Definition syncRole (asset : string) (owner : OwnerReference) (ann : annotations) : M TCR annotations :=
  '(role, _) ← manageRole asset owner;
  annotateHash "Role rules" ("role/" +:+ ko_Name role) (HRules (ro_Rules (ko_body role))) ann.

Definition hashRoleBinding (rb : RoleBinding) (ann : annotations) : M TCR annotations :=
  annotateHash "RoleBinding" ("rolebinding/" +:+ ko_Name rb)
    (HBinding (bi_Subjects (ko_body rb)) (bi_RoleRef (ko_body rb))) ann.

Definition syncRoleBinding (asset : string) (owner : OwnerReference) (setNamespace : bool)
    (ann : annotations) : M TCR annotations :=
  '(rb, _) ← manageRoleBindings asset owner setNamespace; hashRoleBinding rb ann.

Definition syncService (asset : string) (owner : OwnerReference) (ann : annotations)
    : M TCR annotations :=
  '(svc, _) ← manageService asset owner;
  annotateHash "Service spec" ("service/" +:+ ko_Name svc) (HSpec KService (ko_body svc)) ann.

Definition hashClusterRoleBinding (crb : ClusterRoleBinding) (ann : annotations) : M TCR annotations :=
  annotateHash "ClusterRoleBinding" ("clusterrolebinding/" +:+ ko_Name crb)
    (HBinding (bi_Subjects (ko_body crb)) (bi_RoleRef (ko_body crb))) ann.

Definition syncClusterRoleBinding (asset : string) (owner : OwnerReference) (ann : annotations)
    : M TCR annotations :=
  '(crb, _) ← manageClusterRoleBindings asset owner; hashClusterRoleBinding crb ann.

(** The block guarded by [serviceMonitorSupport] for Prometheus. *)
Definition syncPrometheus (owner : OwnerReference) (ann : annotations) : M TCR annotations :=
  c ← mget;
  if serviceMonitorSupport c then
    ann ← syncRole "assets/kueue-operator/role-prometheus.yaml" owner ann;
    ann ← syncRoleBinding "assets/kueue-operator/rolebinding-prometheus.yaml" owner false ann;
    ann ← syncService "assets/kueue-operator/controller-manager-metrics-service.yaml" owner ann;
    '(promCRB, _) ← manageClusterRoleBindingsWithoutNamespaceOverride
      "assets/kueue-operator/clusterrolebinding-metrics-monitoring.yaml" owner;
    hashClusterRoleBinding promCRB ann
  else mret ann.

Definition syncNamespaced (owner : OwnerReference) (ann : annotations) : M TCR annotations :=
  ann ← syncServiceAccount owner ann;
  ann ← syncRole "assets/kueue-operator/role-leader-election.yaml" owner ann;
  ann ← syncRoleBinding "assets/kueue-operator/rolebinding-leader-election.yaml" owner true ann;
  ann ← syncRole "assets/kueue-operator/role-manager-secrets.yaml" owner ann;
  ann ← syncRoleBinding "assets/kueue-operator/rolebinding-manager-secrets.yaml" owner true ann;
  ann ← syncPrometheus owner ann;
  syncService "assets/kueue-operator/visibility-server.yaml" owner ann.

Definition syncOpenshiftRoles (owner : OwnerReference) (ann : annotations) : M TCR annotations :=
  '(clusterRole, _) ← manageOpenshiftClusterRolesForKueue owner;
  ann ← annotateHash "ClusterRole rules" ("clusterrole/" +:+ ko_Name clusterRole)
          (HRules (cr_Rules (ko_body clusterRole))) ann;
  '(crb, _) ← manageOpenshiftClusterRolesBindingForKueue owner;
  hashClusterRoleBinding crb ann.

(** The block guarded by [serviceMonitorSupport] for metrics access. *)
Definition syncMetricsBindings (owner : OwnerReference) (ann : annotations) : M TCR annotations :=
  c ← mget;
  if serviceMonitorSupport c then
    ann ← syncClusterRoleBinding "assets/kueue-operator/clusterrolebinding-metrics.yaml" owner ann;
    syncClusterRoleBinding "assets/kueue-operator/clusterrolebinding-metrics-auth.yaml" owner ann
  else mret ann.

Definition syncClusterWide (owner : OwnerReference) (ann : annotations) : M TCR annotations :=
  ann ← manageAPIService ann owner;
  ann ← managePriorityLevelConfiguration ann owner;
  ann ← manageFlowSchema ann owner;
  ann ← manageCustomResources ann;
  ann ← manageNetworkPolicies ann owner;
  ann ← manageClusterRoles ann owner;
  ann ← syncOpenshiftRoles owner ann;
  ann ← syncClusterRoleBinding "assets/kueue-operator/clusterrolebinding-proxy.yaml" owner ann;
  ann ← syncClusterRoleBinding "assets/kueue-operator/clusterrolebinding-manager.yaml" owner ann;
  ann ← syncMetricsBindings owner ann;
  '(rb, _) ← manageSystemRoleBindings
    "assets/kueue-operator/rolebinding-visibility-server-auth-reader.yaml" owner true;
  hashRoleBinding rb ann.

Definition syncWebhooks (kueue : Kueue) (owner : OwnerReference) (ann : annotations)
    : M TCR annotations :=
  '(kueueWH, _) ← manageMutatingWebhook kueue owner;
  ann ← annotateHash "MutatingWebhookConfiguration webhooks" ("mutatingwebhook/" +:+ ko_Name kueueWH)
          (HWebhooks (wc_Webhooks (ko_body kueueWH))) ann;
  '(kueueVWH, _) ← manageValidatingWebhook kueue owner;
  ann ← annotateHash "ValidatingWebhookConfiguration webhooks"
          ("validatingwebhook/" +:+ ko_Name kueueVWH)
          (HWebhooks (wc_Webhooks (ko_body kueueVWH))) ann;
  syncService "assets/kueue-operator/webhook-service.yaml" owner ann.

Definition syncServiceMonitor (kueue : Kueue) (ann : annotations) : M TCR annotations :=
  c ← mget;
  if serviceMonitorSupport c then
    '(sm, _) ← manageServiceMonitor kueue;
    annotateHash "ServiceMonitor spec" ("servicemonitor/" +:+ json_Name sm) (HJson (json_spec sm)) ann
  else mret ann.

(** The deployment last, with every hash; then the status. *)
Definition syncDeployment (kueue : Kueue) (owner : OwnerReference)
    (dependencyCondition : option OperatorConditionApply) (ann : annotations) : M TCR unit :=
  '(deployment, _, kueue) ← manageDeployment kueue ann owner;
  updateKueueStatus kueue (buildOperatorConditions deployment dependencyCondition)
    (Some (ds_ReadyReplicas (dep_Status (ko_body deployment)))).

(** Everything after the TLS profile was resolved. *)
Definition syncOperand (kueue : Kueue) (tlsOpts : option Config.TLSOptions) (owner : OwnerReference)
    (dependencyCondition : option OperatorConditionApply) (ann : annotations) : M TCR unit :=
  ann ← syncConfigMap kueue tlsOpts ann;
  ann ← syncNamespaced owner ann;
  ann ← syncClusterWide owner ann;
  ann ← syncWebhooks kueue owner ann;
  ann ← syncServiceMonitor kueue ann;
  syncDeployment kueue owner dependencyCondition ann.

(** ** [sync] *)

Definition syncLive (kueue : Kueue) (owner : OwnerReference)
    (dependencyCondition : option OperatorConditionApply) (ann : annotations) : M TCR unit :=
  ann ← manageIssuer kueue ann;
  ann ← manageCertificates kueue ann;
  waitForCertificates ;;
  kueue ← rereadKueue;
  tls ← resolveTLS kueue;
  match tls with
  | None => mret tt
  | Some tlsOpts => syncOperand kueue tlsOpts owner dependencyCondition ann
  end.

Definition syncInstalled (kueue : Kueue) : M TCR unit :=
  dependencyCondition ← checkDependencies kueue;
  let owner := kueueOwnerReference kueue in
  kueue ← addFinalizerToKueueInstance kueue;
  let ann : annotations := {["kueueoperator.kueue.openshift.io/cluster" :=
                               FormatInt (om_Generation (ku_ObjectMeta kueue))]} in
  match om_DeletionTimestamp (ku_ObjectMeta kueue) with
  | Some _ => finalizeKueue kueue
  | None => syncLive kueue owner dependencyCondition ann
  end.

Definition reportCertManagerMissing (kueue : Kueue) : M TCR unit :=
  Eventf "CertManagerMissing" "cert-manager is not installed" ;;
  _ ← try (updateKueueStatus kueue buildCertManagerMissingConditions None);
  mret tt.

Definition sync : M TCR unit :=
  r ← readKueue;
  match r with
  | None => mret tt
  | Some kueue =>
      found ← isResourceRegisteredCached certManagerIssuer;
      if negb found then reportCertManagerMissing kueue else syncInstalled kueue
  end.
End sync.

(** ** The gates of the feature detection *)

Lemma scanGate_fold p c gates :
  foldl scanGate (p, c) gates =
    (p || bool_decide ("DRAPartitionableDevices" ∈ gates), c || bool_decide ("DRAConsumableCapacity" ∈ gates)).
Proof.
  revert p c. induction gates as [|g gates IH]; intros p c; cbn [foldl].
  - rewrite !bool_decide_false by set_solver. by rewrite !orb_false_r.
  - unfold scanGate at 2.
    destruct (decide (g = "DRAPartitionableDevices")) as [->|H1].
    { rewrite bool_decide_true, IH by done. cbn [orb]. f_equal.
      - rewrite (bool_decide_true (_ ∈ _ :: _)) by set_solver. by rewrite orb_true_r.
      - f_equal. apply bool_decide_ext. set_solver. }
    rewrite bool_decide_false by done.
    destruct (decide (g = "DRAConsumableCapacity")) as [->|H2].
    { rewrite bool_decide_true, IH by done. cbn [orb]. f_equal.
      - f_equal. apply bool_decide_ext. set_solver.
      - rewrite (bool_decide_true (_ ∈ _ :: _)) by set_solver. by rewrite orb_true_r. }
    rewrite bool_decide_false, IH by done. f_equal; f_equal; apply bool_decide_ext; set_solver.
Qed.

Lemma scanFeatureGate_spec fg v :
  let custom gate := (fg_FeatureSet fg =s "CustomNoUpgrade") &&
    bool_decide (gate ∈ default [] (fg_CustomNoUpgrade_Enabled fg)) in
  scanFeatureGate fg v = (custom "DRAPartitionableDevices", v || custom "DRAConsumableCapacity").
Proof.
  cbv zeta. unfold scanFeatureGate. destruct (fg_CustomNoUpgrade_Enabled fg) as [gates|]; cbn [default from_option id].
  - destruct (fg_FeatureSet fg =s "CustomNoUpgrade"); cbn [andb]; [by rewrite scanGate_fold|].
    by rewrite orb_false_r.
  - rewrite !(bool_decide_false (_ ∈ [])) by set_solver. by rewrite !andb_false_r, orb_false_r.
Qed.

(** What an answer to the version request says. *)
Definition minor_at_least (n : Z) (a : error + string) : bool :=
  match a with
  | inl _ => false
  | inr v => match parseMinor v with Some m => (n <=? m)%Z | None => false end
  end.

Lemma isKubernetesMinorAtLeast_wp n (c : TCR) h :
  wpM (λ _ _, True) (isKubernetesMinorAtLeast n) c h
    (λ h' c' r, c' = c ∧ ∃ a, h' = h ++ [Ev CServerVersion a] ∧ r = Ok (minor_at_least n a)).
Proof.
  unfold isKubernetesMinorAtLeast. apply wpM_bind, wpM_call; [done|]. intros [e|v].
  - split; [done|]. by exists (inl e).
  - destruct (parseMinor v) eqn:E; (split; [done|]); exists (inr v); cbn; by rewrite E.
Qed.

(** What is known of the gates after the update from receiver [c], with the
    answers of [h]. *)
Definition gates_post (c : TCR) (dra : bool) (h : trace) (c' : TCR) : Prop :=
  ∃ version,
    (dra = false → h = [] ∧ version = false) ∧
    (dra = true → ∃ a, Ev CServerVersion a ∈ h ∧ version = minor_at_least 36 a) ∧
    (isOpenShift c && dra = false →
       draConsumableCapacityEnabled c' = version ∧
       draPartitionableDevicesEnabled c' = draPartitionableDevicesEnabled c) ∧
    (isOpenShift c && dra = true → ∃ a, Ev (CFeatureGateGet "cluster") a ∈ h ∧
       match a with
       | inl _ =>
           draConsumableCapacityEnabled c' = version || draConsumableCapacityEnabled c ∧
           draPartitionableDevicesEnabled c' = draPartitionableDevicesEnabled c
       | inr fg =>
           let custom gate := (fg_FeatureSet fg =s "CustomNoUpgrade") &&
             bool_decide (gate ∈ default [] (fg_CustomNoUpgrade_Enabled fg)) in
           draConsumableCapacityEnabled c' = version || custom "DRAConsumableCapacity" ∧
           draPartitionableDevicesEnabled c' = custom "DRAPartitionableDevices"
       end).

Lemma updateDRAGates_wp (c : TCR) (dra : bool) :
  wpM (λ _ _, True) (updateDRAGates dra) c [] (λ h c' r, r = Ok tt ∧ gates_post c dra h c').
Proof.
  unfold updateDRAGates. apply wpM_bind. destruct dra.
  2:{ apply wpM_ret, wpM_bind, wpM_get, wpM_bind, wpM_modify. rewrite andb_false_r. apply wpM_ret.
      split; [done|]. exists false. rewrite andb_false_r. by split_and!. }
  eapply wpM_mono; [|apply isKubernetesMinorAtLeast_wp].
  intros h1 c1 r1 (-> & a & -> & ->). cbn [app]. set (v := minor_at_least 36 a).
  apply wpM_bind, wpM_get, wpM_bind, wpM_modify. rewrite andb_true_r.
  assert (Hv : ∀ h, ∃ a', Ev CServerVersion a' ∈ Ev CServerVersion a :: h ∧ v = minor_at_least 36 a').
  { intros h. exists a. split; [constructor|done]. }
  unfold gates_post. rewrite andb_true_r. destruct (isOpenShift c) eqn:Ho.
  2:{ apply wpM_ret. split; [done|]. exists v. by split_and!. }
  apply wpM_bind, wpM_call; [done|]. intros [e|fg].
  - destruct (negb v) eqn:Ev; (split; [done|]); exists v; (split_and!; [done|intros _; apply Hv|done|]);
      intros _; exists (inl e); (split; [set_solver|]).
    + apply negb_true_iff in Ev. by rewrite Ev.
    + apply negb_false_iff in Ev. by rewrite Ev.
  - rewrite scanFeatureGate_spec. apply wpM_modify. split; [done|]. exists v.
    split_and!; [done|intros _; apply Hv|done|]. intros _. exists (inr fg). split; [set_solver|]. done.
Qed.

(** What a reconciliation believes of the cluster's DRA gates. Without the
    DRA API nothing is asked and consumable capacity counts as disabled; off
    OpenShift the server's version decides; on OpenShift a readable
    FeatureGate decides both, a gate counting only when it is enabled under
    CustomNoUpgrade, and an unreadable one leaves partitionable devices as
    they were and never turns consumable capacity off. *)
Theorem updateDRAGates_spec (c : TCR) (dra : bool) tr c' r :
  runs (updateDRAGates dra c) tr (Some (c', r)) → r = Ok tt ∧ gates_post c dra tr c'.
Proof.
  intros Hr. destruct (wp_runs _ _ _ _ [] _ Hr (updateDRAGates_wp c dra)) as [_ Hq].
  exact (Hq _ eq_refl).
Qed.

(** ** The metrics endpoint *)

(** The ServiceMonitor verifies the metrics certificate under a fixed
    server name, so it matches the DNS names the certificate is issued for
    exactly when the operator runs in the namespace [openshift-kueue-operator]:
    anywhere else every scrape fails the verification. *)
Theorem metricsServerName_matches (ns : string) (kueue : Kueue) :
  (∃ cert ep tls name, cert ∈ certificateData ns ∧ cd_secretName cert = secretMetricsServerCert ∧
     ep ∈ sm_Endpoints (desiredServiceMonitor ns kueue) ∧ sme_TLSConfig ep = Some tls ∧
     smt_InsecureSkipVerify tls = Some false ∧ smt_ServerName tls = Some name ∧
     name ∈ cd_dnsNames cert) ↔
  ns = "openshift-kueue-operator".
Proof.
  split.
  - intros (cert & ep & tls & name & Hc & Hs & He & Ht & _ & Hn & Hin).
    apply list_elem_of_singleton in He as ->. injection Ht as <-. injection Hn as <-.
    unfold certificateData in Hc. rewrite !elem_of_cons in Hc.
    destruct Hc as [-> |[-> |[-> |Hc]]]; [discriminate Hs| |discriminate Hs|by apply elem_of_nil in Hc].
    cbn [cd_dnsNames] in Hin. rewrite !elem_of_cons in Hin.
    set (svc := "kueue-controller-manager-metrics-service") in Hin.
    assert (metricsServerName = svc +:+ ".openshift-kueue-operator.svc") as Hm by reflexivity.
    rewrite Hm in Hin. clear Hm.
    destruct Hin as [Hin|[Hin|Hin]]; [| |by apply elem_of_nil in Hin];
      apply (f_equal (λ s, TrimPrefix s svc)) in Hin;
      rewrite !TrimPrefix_app in Hin; apply (f_equal (λ s, TrimPrefix s ".")) in Hin;
      rewrite (TrimPrefix_app ".") in Hin.
    + apply (f_equal (λ s, TrimSuffix s ".svc")) in Hin. rewrite TrimSuffix_app in Hin.
      by vm_compute in Hin.
    + apply (f_equal (λ s, HasSuffix s ".svc.cluster.local")) in Hin. rewrite HasSuffix_app in Hin.
      by vm_compute in Hin.
  - intros ->. eexists _, _, _, _. split; [apply elem_of_cons; right; apply elem_of_cons; by left|].
    split; [done|]. split; [by constructor|]. split; [done|]. split; [done|]. split; [done|].
    vm_compute. constructor.
Qed.

(** ** Concrete instances *)

Definition example_feature_gate : FeatureGateSpec := {|
  fg_FeatureSet := "CustomNoUpgrade";
  fg_CustomNoUpgrade_Enabled := Some ["Other"; "DRAPartitionableDevices"] |}.

Definition kueue_deleted (k : Kueue) : Kueue := kueue_set_meta (
  let m := ku_ObjectMeta k in {|
  om_Name := om_Name m; om_Namespace := om_Namespace m; om_UID := om_UID m;
  om_ResourceVersion := om_ResourceVersion m; om_Generation := om_Generation m;
  om_DeletionTimestamp := Some "2025-01-01T00:00:00Z"; om_Labels := om_Labels m;
  om_Annotations := om_Annotations m; om_OwnerReferences := om_OwnerReferences m;
  om_Finalizers := om_Finalizers m |}) k.

(** A cluster on which everything is installed and nothing of the operand
    exists yet. The state is the clock. *)
Definition example_cluster (kueue : Kueue) (certManager : bool) : handler Z := λ clock c,
  match c return option (resp c * Z) with
  | CCacheGetKueue _ => Some (inr (Some (Some kueue)), clock)
  | CCacheStoreKueue _ => Some (tt, clock)
  | CEvent _ _ _ => Some (tt, clock)
  | CLister k ns n =>
      Some (if certManager && (n =s "issuers.cert-manager.io")
            then inr (example_obj k "" (meta_named ns n))
            else inl (StatusError StatusReasonNotFound 404 n), clock)
  | CServerResourcesForGroupVersion _ => Some (inr [{| ar_Name := "deviceclasses"; ar_Kind := "DeviceClass" |}], clock)
  | CServerVersion => Some (inr "36+", clock)
  | CFeatureGateGet _ => Some (inr example_feature_gate, clock)
  | CAPIServerGet _ => Some (inr None, clock)
  | CGet _ _ n => Some (inl (StatusError StatusReasonNotFound 404 n), clock)
  | CList k => Some (inr [], clock)
  | CDynList _ _ => Some (inr [], clock)
  | CDelete _ _ _ => Some (None, clock)
  | CDynDelete _ _ _ => Some (None, clock)
  | CCreate _ o => Some (inr o, clock)
  | CApply _ o _ => Some (inr (o, true), clock)
  | CApplyImproved _ o cache => Some ((inr (o, true), cache), clock)
  | CDynApply _ j cache => Some ((inr (j, true), cache), clock)
  | CApplyServiceMonitor j => Some (inr (j, true), clock)
  | CDynGet RCertificates _ _ => Some (inr example_certificate, clock)
  | CDynGet _ _ _ => Some (inr example_secret, clock)
  | CKueueGet _ => Some (inr kueue, clock)
  | CKueuePatch _ patch =>
      Some (inr (kueue_set_meta (meta_set_Finalizers
        (doc_finalizers (json_merge_patch (finalizers_doc (om_Finalizers (ku_ObjectMeta kueue))) patch))
        (ku_ObjectMeta kueue)) kueue), clock)
  | CKueueApplyStatus _ _ _ => Some (None, clock)
  | CNow => Some (clock, clock)
  | CSleep d => Some (tt, (clock + Z.max 0 d)%Z)
  | CSleepBackoff => Some (tt, clock)
  | CSleepOrDone _ => Some (false, clock)
  | CUpdate _ o => Some (inr o, clock)
  | CKueueUpdate k => Some (inr k, clock)
  | CKueueUpdateStatus k => Some (inr k, clock)
  | CKueueApply _ _ _ => Some (None, clock)
  | COperatorConfigGet _ _ => Some (None, clock)
  | CDiverge => None
  end.

Lemma updateDRAGates_spec_witness :
  ∃ tr c', runs (updateDRAGates true example_tcr) tr (Some (c', Ok tt)) ∧ gates_post example_tcr true tr c' ∧
    draPartitionableDevicesEnabled c' = true.
Proof.
  destruct (run (example_cluster (example_kueue []) true) (updateDRAGates true example_tcr) 0%Z)
    as [[tr o] w] eqn:E.
  pose proof (run_runs _ _ _ _ _ _ E) as Hr. vm_compute in E. injection E as <- <- <-.
  eexists _, _. split; [exact Hr|]. split; [exact (proj2 (updateDRAGates_spec _ _ _ _ _ Hr))|].
  reflexivity.
Defined.
