(* ===== verification/Inventory.v ===== *)
(** * The inventory of the operand

    The complete list of the objects a reconciliation is responsible for, and
    the proof that each step of [sync] that succeeds leaves its part of the
    list in place: the object was accepted by the API server, or one of its
    name was already there (and, by [applyWithCache_spec], unchanged since the
    last apply). *)
From S2P Require Import Prelude GoStd K8s ApiTypes DraHelpers ConfigMap TlsProfile K8sObjects.
From S2P Require Import PodWebhook Effects Monad Cert ResourceApply Finalizer Reconciler Discovery.
From S2P Require Import Conditions CachedApply Cleanup Manage Managed Sync.

(** ** Presence *)

(** The answers of [h] show an object of kind [k] named [name] in the cluster. *)
Definition present (k : kind) (name : string) (h : trace) : Prop :=
  (∃ ns o, Ev (CLister k ns name) (inr o) ∈ h) ∨
  (∃ ns o, Ev (CGet k ns name) (inr o) ∈ h) ∨
  (∃ o gen a, Ev (CApply k o gen) (inr a) ∈ h ∧ ko_Name o = name) ∨
  (∃ o cache a cache', Ev (CApplyImproved k o cache) (inr a, cache') ∈ h ∧ ko_Name o = name) ∨
  (∃ o a, Ev (CCreate k o) (inr a) ∈ h ∧ ko_Name o = name).

(** The object of a manifest unless it is skipped, the same of every manifest
    of a directory, an object known by its name, an unstructured object that
    was applied, the ServiceMonitor, and the generated configuration. *)
Inductive item : Type :=
  | Manifest (k : kind) (path : string) (skip : obj k → bool)
  | Directory (k : kind) (dir : string) (skip : obj k → bool)
  | Named (k : kind) (name : string)
  | Unstructured (r : dyn_resource) (name : string)
  | Monitor
  | Generated (ns : string) (config : KueueConfiguration) (tlsOpts : option Config.TLSOptions).

(** A manifest that is never skipped. *)
Definition manifest (k : kind) (path : string) : item := Manifest k path (λ _, false).

Section items.
Context `{Env}.

Definition present_item (h : trace) (i : item) : Prop :=
  match i with
  | Manifest k path skip =>
      ∃ o, ReadOrDie k path = Ok o ∧ (skip o = false → present k (ko_Name o) h)
  | Directory k dir skip =>
      ∃ files, AssetDir dir = inr files ∧
        ∀ file, file ∈ files → ∃ o, ReadOrDie k (filepath_Join dir file) = Ok o ∧
          (skip o = false → present k (ko_Name o) h)
  | Named k name => present k name h
  | Unstructured r name =>
      ∃ j cache a cache', Ev (CDynApply r j cache) (inr a, cache') ∈ h ∧ json_Name j = name
  | Monitor => ∃ j a, Ev (CApplyServiceMonitor j) (inr a) ∈ h
  | Generated ns config tlsOpts =>
      ∃ gvrToKind capacity cm,
        BuildConfigMap ns config gvrToKind capacity tlsOpts = Ok cm ∧
        ((∃ old, Ev (CGet KConfigMap ns KueueConfigMap) (inr old) ∈ h ∧
            default "" (ko_body old !! "controller_manager_config.yaml") =
            default "" (cfm_Data cm !! "controller_manager_config.yaml")) ∨
         (∃ cache a cache', Ev (CApplyImproved KConfigMap (ConfigMap_of cm) cache) (inr a, cache') ∈ h))
  end.

Lemma present_app k name h t : present k name h → present k name (h ++ t).
Proof.
  intros [?|[?|[?|[?|?]]]]; [left|right; left|do 2 right; left|do 3 right; left|do 4 right];
    naive_solver eauto using elem_of_earlier.
Qed.

Lemma present_item_app h t i : present_item h i → present_item (h ++ t) i.
Proof.
  destruct i as [k path skip|k dir skip|k name|r name| |ns config tls]; cbn.
  - intros (o & ? & Ho). exists o. split; [done|]. eauto using present_app.
  - intros (files & ? & Hf). exists files. split; [done|]. intros file Hfile.
    destruct (Hf _ Hfile) as (o & ? & ?). exists o. split; [done|]. eauto using present_app.
  - apply present_app.
  - naive_solver eauto using elem_of_earlier.
  - naive_solver eauto using elem_of_earlier.
  - intros (g & b & cm & ? & [?|?]); exists g, b, cm; (split; [done|]); [left|right];
      naive_solver eauto using elem_of_earlier.
Qed.

(** ** Steps that put items in place

    [puts cfg m L]: when [m] succeeds, everything in [L] is present; the
    settings of the receiver stay those of [cfg]. *)
Context (cfg : TCR).

Definition puts {A} (m : M TCR A) (L : list item) : Prop := ∀ s h, same_config cfg s →
  wpM (λ _ _, True) m s h (λ h' s' r,
    same_config cfg s' ∧ (∀ a, r = Ok a → Forall (present_item h') L)).

Lemma puts_weaken {A} (m : M TCR A) L L' : L' ⊆ L → puts m L → puts m L'.
Proof.
  intros HL Hm s h Hs. eapply wpM_mono; [|by apply Hm]. intros h' s' r [? Hr]. split; [done|].
  intros a Ha. specialize (Hr a Ha). rewrite Forall_forall in *. set_solver.
Qed.
Lemma puts_ret {A} (a : A) : puts (mret a) [].
Proof. intros s h Hs. by split. Qed.
Lemma puts_throw {A} e L : puts (throw (A := A) e) L.
Proof. intros s h Hs. by split. Qed.
Lemma puts_of_sum {A} (r : error + A) : puts (of_sum r) [].
Proof. intros s h Hs. destruct r; by split. Qed.
Lemma puts_of_err r : puts (of_err r) [].
Proof. intros s h Hs. destruct r; by split. Qed.
Lemma puts_call c : puts (mcall c) [].
Proof. intros s h Hs. by split. Qed.
Lemma puts_modify f : (∀ s, same_config cfg s → same_config cfg (f s)) → puts (mmodify f) [].
Proof. intros Hf s h Hs. split; [by apply Hf|done]. Qed.

Lemma puts_bind {A B} (m : M TCR A) (f : A → M TCR B) L1 L2 :
  puts m L1 → (∀ a, puts (f a) L2) → puts (m ≫= f) (L1 ++ L2).
Proof.
  intros Hm Hf s h Hs. apply wpM_bind. eapply wpM_mono; [|by apply Hm].
  intros h1 s1 [a|e|p] [Hs1 HL]; [|split; [done|by intros ? [=]]..].
  eapply wpM_mono; [|apply wpM_extends, (Hf a s1 h1 Hs1)].
  intros h2 s2 r [(t & ->) [Hs2 HL2]]. split; [done|]. intros b Hb. apply Forall_app. split.
  - eapply Forall_impl; [by eapply HL|]. intros i. apply present_item_app.
  - by eapply HL2.
Qed.
(** The two ends of a sequence. *)
Lemma puts_then {A B} (m : M TCR A) (f : A → M TCR B) L :
  puts m [] → (∀ a, puts (f a) L) → puts (m ≫= f) L.
Proof. apply (puts_bind m f [] L). Qed.
Lemma puts_first {A B} (m : M TCR A) (f : A → M TCR B) L :
  puts m L → (∀ a, puts (f a) []) → puts (m ≫= f) L.
Proof. intros Hm Hf. rewrite <-(app_nil_r L). by apply puts_bind. Qed.
Lemma puts_get {B} (f : TCR → M TCR B) L :
  (∀ s, same_config cfg s → puts (f s) L) → puts (mget ≫= f) L.
Proof. intros Hf s h Hs. by apply Hf. Qed.
Lemma puts_res {A B} (r : res A) (f : A → M TCR B) L :
  (∀ a, r = Ok a → puts (f a) L) → puts (of_res r ≫= f) L.
Proof. intros Hf s h Hs. destruct r; [by apply Hf|split; [done|by intros ? [=]]..]. Qed.
Lemma puts_try {A} (m : M TCR A) : puts m [] → puts (try m) [].
Proof.
  intros Hm s h Hs. apply wpM_try. eapply wpM_mono; [|by apply Hm].
  intros h' s' [a|e|p] [Hs' _]; by split.
Qed.
Lemma puts_wrap {A} p (m : M TCR A) : puts m [] → puts (wrap p m) [].
Proof.
  intros Hm. apply puts_then; [by apply puts_try|]. intros [e|a]; [apply puts_throw|apply puts_ret].
Qed.

(** A loop over files puts the items of every file in place. *)
Lemma puts_mfold {A B} (f : B → A → M TCR B) (items : A → list item) b l :
  (∀ b a, puts (f b a) (items a)) → puts (mfold f b l) (l ≫= items).
Proof.
  intros Hf. revert b. induction l as [|a l IH]; intros b; cbn [mfold]; [apply puts_ret|].
  apply puts_bind; [apply Hf|done].
Qed.

Lemma puts_mfold_none {A B} (f : B → A → M TCR B) b l :
  (∀ b a, puts (f b a) []) → puts (mfold f b l) [].
Proof.
  intros Hf. eapply puts_weaken; [|by apply (puts_mfold f (λ _, []))].
  induction l; [done|by apply IHl].
Qed.
End items.

#[export] Hint Resolve puts_ret puts_throw puts_of_sum puts_of_err puts_call : puts.

(** Steps that put nothing in place. *)
Ltac puts_step :=
  match goal with
  | |- puts _ (mget ≫= _) _ => apply puts_get; intros ? ?
  | |- puts _ (of_res _ ≫= _) [] => apply puts_res; intros ? _
  | |- puts _ (_ ≫= _) [] => apply puts_then; [|intros ?]
  | |- puts _ (match ?x with _ => _ end) _ => destruct x
  | |- puts _ (try _) [] => apply puts_try
  | |- puts _ (wrap _ _) [] => apply puts_wrap
  | |- puts _ _ _ => solve [auto with puts nocore]
  end.
Ltac solve_puts := repeat puts_step; try done.

Section steps.
Context `{Env} (cfg : TCR).
Notation puts := (puts cfg).

(** *** Applying *)

Lemma puts_annotateHash what key o ann : puts (annotateHash what key o ann) [].
Proof. unfold annotateHash. solve_puts. Qed.

Lemma puts_applyImproved k (o : obj k) : puts (applyImproved k o) [Named k (ko_Name o)].
Proof.
  intros s h Hs. unfold applyImproved. apply wpM_bind, wpM_get, wpM_bind, wpM_call; [exact I|].
  intros [r c]. apply wpM_bind, wpM_modify. destruct r as [e|a]; (split; [done|]); [by intros ? [=]|].
  intros a' [= <-]. constructor; [|done]. do 3 right; left. eexists _, _, _, _.
  split; [apply elem_of_last|done].
Qed.

Lemma puts_dynApply r j :
  puts (ApplyUnstructuredResourceImproved r j) [Unstructured r (json_Name j)].
Proof.
  intros s h Hs. unfold ApplyUnstructuredResourceImproved.
  apply wpM_bind, wpM_get, wpM_bind, wpM_call; [exact I|].
  intros [a c]. apply wpM_bind, wpM_modify. destruct a as [e|a]; (split; [done|]); [by intros ? [=]|].
  intros a' [= <-]. constructor; [|done]. eexists _, _, _, _. split; [apply elem_of_last|done].
Qed.

Lemma puts_resourceapply k n (o : obj k) : puts (resourceapply_Apply k n o) [Named k (ko_Name o)].
Proof.
  intros s h Hs. unfold resourceapply_Apply. apply wpM_bind, wpM_call; [exact I|].
  intros [e|a]; (split; [done|]); [by intros ? [=]|]. intros a' [= <-]. constructor; [|done].
  right; right; left. eexists _, _, _. split; [apply elem_of_last|done].
Qed.

Lemma puts_applyObject k ns keep (o : obj k) : puts (applyObject k ns keep o) [Named k (ko_Name o)].
Proof.
  intros s h Hs. unfold applyObject, client_get, client_create, client_update.
  apply wpM_bind, wpM_try. apply (wpM_call_sum _ (CGet k ns (ko_Name o)) (λ r, r)); [exact I|].
  intros [e|current].
  - destruct (negb (IsNotFound e)); [split; [done|by intros ? [=]]|].
    apply wpM_bind, wpM_try. apply (wpM_call_sum _ (CCreate k _) (λ r, r)); [exact I|].
    intros r. assert (wpM (λ _ _, True) (ReportCreateEvent o (err_of r) ;; current ← of_sum r; mret (current, false))
      s ((h ++ [Ev (CGet k ns (ko_Name o)) (inl e)]) ++
         [Ev (CCreate k (set_meta WithCleanLabelsAndAnnotations o)) r])
      (λ h' s' r, same_config cfg s' ∧ ∀ a, r = Ok a → Forall (present_item h') [Named k (ko_Name o)])).
    { unfold ReportCreateEvent, Eventf, Warningf. apply wpM_bind.
      destruct r as [e'|a]; cbn [err_of]; (apply wpM_call; [exact I|]); intros [];
        (split; [done|]); [by intros ? [=]|]. intros a' [= <-]. constructor; [|done].
      do 4 right. eexists _, _. split; [apply elem_of_earlier, elem_of_last|done]. }
    by destruct r.
  - destruct (EnsureObjectMeta _ _ _) as [diff meta].
    assert (present_item (h ++ [Ev (CGet k ns (ko_Name o)) (inr current)]) (Named k (ko_Name o))) as Hp.
    { right; left. eexists _, _. apply elem_of_last. }
    destruct (negb diff && _); [split; [done|]; by constructor|].
    apply wpM_bind, wpM_of_res. destruct (keep current o) as [kept|e|p]; [|split; [done|by intros ? [=]]..].
    destruct kept; [split; [done|]; by constructor|].
    apply wpM_bind, wpM_try. apply (wpM_call_sum _ (CUpdate k _) (λ r, r)); [exact I|].
    intros [e'|a]; unfold ReportUpdateEvent, Eventf, Warningf; apply wpM_bind; cbn [err_of];
      (apply wpM_call; [exact I|]); intros []; (split; [done|]); [by intros ? [=]|].
    intros a' _. constructor; [|done]. by do 2 apply present_item_app.
Qed.

Lemma puts_applyWithCache k ns (prepare : option (obj k) → obj k → obj k) apply (o : obj k) :
  (∀ e, ko_Name (prepare e o) = ko_Name o) →
  (∀ o', puts (apply o') [Named k (ko_Name o')]) →
  puts (applyWithCache k ns prepare apply o) [Named k (ko_Name o)].
Proof.
  intros Hn Ha s h Hs. unfold applyWithCache, lister.
  apply wpM_bind, wpM_try. apply (wpM_call_sum _ (CLister k ns (ko_Name o)) (λ r, r)); [exact I|].
  assert (∀ e, puts (apply (prepare e o)) [Named k (ko_Name o)]) as Ha' by (intros e; by rewrite <-(Hn e)).
  assert (∀ o', puts ('(actual, updated) ← apply o';
     mmodify (λ t, tcr_set_resourceCache (UpdateCachedResourceMetadata o' actual (resourceCache t)) t) ;;
     mret (actual, updated)) [Named k (ko_Name o')]) as Hrem.
  { intros o'. apply puts_first; [apply Ha|]. intros [actual updated].
    apply puts_then; [|intros _; apply puts_ret]. apply puts_modify. intros s'. apply same_config_cache. }
  intros [e|existing].
  - destruct (negb (IsNotFound e)); [split; [done|by intros ? [=]]|].
    specialize (Hrem (prepare None o)). rewrite Hn in Hrem. by apply Hrem.
  - apply wpM_bind, wpM_get. destruct (SafeToSkipApply _ _ _).
    + split; [done|]. intros a _. constructor; [|done]. left. eexists _, _. apply elem_of_last.
    + specialize (Hrem (prepare (Some existing) o)). rewrite Hn in Hrem. by apply Hrem.
Qed.
End steps.

#[export] Hint Resolve puts_annotateHash : puts.

(** *** The [manage*] methods *)

(** The name of a resource is its manifest's. *)
Lemma desiredAPIService_name ns owner (o new : APIService) :
  desiredAPIService ns owner o = Ok new → ko_Name new = ko_Name o.
Proof. unfold desiredAPIService. destruct (as_Service (ko_body o)); [|done]. by intros [= <-]. Qed.

Lemma desiredMutatingWebhook_name ns config owner (o new : MutatingWebhookConfiguration) :
  desiredMutatingWebhook ns config owner o = Ok new → ko_Name new = ko_Name o.
Proof.
  unfold desiredMutatingWebhook, ModifyPodBasedMutatingWebhook. rewrite res_bind_Ok.
  intros (m & Hm & Hn). rewrite res_bind_Ok in Hm. destruct Hm as (kept & _ & Hm).
  rewrite res_bind_Ok in Hm. destruct Hm as (merged & _ & [= <-]).
  rewrite res_bind_Ok in Hn. by destruct Hn as (ws & _ & [= <-]).
Qed.

Lemma desiredValidatingWebhook_name ns config owner (o new : ValidatingWebhookConfiguration) :
  desiredValidatingWebhook ns config owner o = Ok new → ko_Name new = ko_Name o.
Proof.
  unfold desiredValidatingWebhook, ModifyPodBasedValidatingWebhook. rewrite res_bind_Ok.
  intros (m & Hm & Hn). rewrite res_bind_Ok in Hm. destruct Hm as (kept & _ & Hm).
  rewrite res_bind_Ok in Hm. destruct Hm as (merged & _ & [= <-]).
  rewrite res_bind_Ok in Hn. by destruct Hn as (ws & _ & [= <-]).
Qed.

Lemma desiredDeployment_name ns image level ann owner (o d : Deployment) :
  desiredDeployment ns image level ann owner o = Ok d → ko_Name d = OperandName.
Proof.
  unfold desiredDeployment. rewrite res_bind_Ok. intros (p & _ & Hd).
  destruct (MergeMap _ _ _). by injection Hd as <-.
Qed.

Lemma scopeManagerRoleResourceNames_name `{Env} (role role' : ClusterRole) :
  scopeManagerRoleResourceNames role = Ok role' → ko_Name role' = ko_Name role.
Proof. unfold scopeManagerRoleResourceNames. destruct kueueCRDNames; [|done..]. by intros [= <-]. Qed.

Section methods.
Context `{Env} (cfg : TCR) (owner : OwnerReference).
Notation puts := (puts cfg).

(** From the object by its name to its manifest. *)
Lemma puts_named {A} k path skip (o : obj k) name (m : M TCR A) :
  ReadOrDie k path = Ok o → ko_Name o = name → puts m [Named k name] → puts m [Manifest k path skip].
Proof.
  intros Ho <- Hm s h Hs. eapply wpM_mono; [|by apply Hm]. intros h' s' r [Hs' Hr].
  split; [done|]. intros a Ha. specialize (Hr a Ha). inversion_clear Hr as [|? ? Hp _].
  constructor; [|constructor]. by exists o.
Qed.

Lemma puts_skipped {A} k path (skip : obj k → bool) (o : obj k) (m : M TCR A) :
  ReadOrDie k path = Ok o → skip o = true → puts m [] → puts m [Manifest k path skip].
Proof.
  intros Ho Hsk Hm s h Hs. eapply wpM_mono; [|by apply Hm]. intros h' s' r [Hs' _].
  split; [done|]. intros a Ha. constructor; [|constructor]. exists o. split; [done|]. congruence.
Qed.

(** Reading the manifest of an item. *)
Lemma puts_read {A} k path skip (f : obj k → M TCR A) :
  (∀ o, ReadOrDie k path = Ok o →
     (skip o = true ∧ puts (f o) []) ∨ puts (f o) [Named k (ko_Name o)]) →
  puts (readAsset k path ≫= f) [Manifest k path skip].
Proof.
  intros Hf. apply puts_res. intros o Ho. destruct (Hf o Ho) as [[? ?]|?].
  - by eapply puts_skipped.
  - by eapply puts_named.
Qed.

(** Every manifest of a directory. *)
Lemma puts_directory {B} k dir skip (f : B → string → M TCR B) b wrapped :
  (∀ b file, puts (f b file) [Manifest k (filepath_Join dir file) skip]) →
  puts (match AssetDir dir with inl err => throw (wrapped err) | inr files => mfold f b files end)
    [Directory k dir skip].
Proof.
  intros Hf. destruct (AssetDir dir) as [e|files] eqn:Hd; [apply puts_throw|].
  intros s h Hs. eapply wpM_mono; [|apply (puts_mfold cfg f
    (λ file, [Manifest k (filepath_Join dir file) skip])); done].
  intros h' s' r [Hs' Hr]. split; [done|]. intros a Ha. constructor; [|constructor].
  exists files. split; [done|]. intros file Hfile. specialize (Hr a Ha).
  rewrite Forall_forall in Hr. apply (Hr (Manifest k (filepath_Join dir file) skip)).
  apply list_elem_of_bind. exists file. split; [constructor|done].
Qed.

Lemma puts_cached k ns apply (o : obj k) :
  (∀ o', puts (apply o') [Named k (ko_Name o')]) →
  puts (applyWithCache k ns no_prepare apply o) [Named k (ko_Name o)].
Proof. by apply puts_applyWithCache. Qed.
End methods.

(** Reads the receiver where the method does, then its manifest. *)
Ltac puts_read o Ho :=
  repeat match goal with |- puts _ (mget ≫= _) _ => apply puts_get; intros ? ? end;
  match goal with |- puts _ (readAsset ?k ?path ≫= ?f) _ => apply (puts_read _ k path _ f) end;
  intros o Ho; cbv beta.

Section managed.
Context `{Env} (cfg : TCR) (owner : OwnerReference).
Notation puts := (puts cfg).

Lemma puts_manageServiceAccount :
  puts (manageServiceAccount owner)
    [manifest KServiceAccount "assets/kueue-operator/serviceaccount.yaml"].
Proof. unfold manageServiceAccount. puts_read o Ho. right. refine (puts_applyImproved _ _ _). Qed.

Lemma puts_manageService path : puts (manageService path owner) [manifest KService path].
Proof. unfold manageService. puts_read o Ho. right. refine (puts_applyImproved _ _ _). Qed.

Lemma puts_manageRole path : puts (manageRole path owner) [manifest KRole path].
Proof.
  unfold manageRole. puts_read o Ho. right. refine (puts_cached cfg KRole _ _ _ (puts_resourceapply _ _ _)).
Qed.

Lemma puts_manageRoleBindingsByNamespace ns path b :
  puts (manageRoleBindingsByNamespace ns path owner b) [manifest KRoleBinding path].
Proof.
  unfold manageRoleBindingsByNamespace. puts_read o Ho. right.
  destruct b; refine (puts_cached cfg KRoleBinding _ _ _ (puts_resourceapply _ _ _)).
Qed.

Lemma puts_manageClusterRoleBindings path :
  puts (manageClusterRoleBindings path owner) [manifest KClusterRoleBinding path].
Proof.
  unfold manageClusterRoleBindings. puts_read o Ho. right.
  refine (puts_cached cfg KClusterRoleBinding _ _ _ (puts_resourceapply _ _ _)).
Qed.

Lemma puts_manageClusterRoleBindingsWithoutNamespaceOverride path :
  puts (manageClusterRoleBindingsWithoutNamespaceOverride path owner) [manifest KClusterRoleBinding path].
Proof.
  unfold manageClusterRoleBindingsWithoutNamespaceOverride. puts_read o Ho. right.
  refine (puts_cached cfg KClusterRoleBinding _ _ _ (puts_resourceapply _ _ _)).
Qed.

Lemma puts_manageOpenshiftClusterRolesForKueue :
  puts (manageOpenshiftClusterRolesForKueue owner) [Named KClusterRole "kueue-openshift-roles"].
Proof. refine (puts_cached cfg KClusterRole _ _ _ (puts_resourceapply _ _ _)). Qed.

Lemma puts_manageOpenshiftClusterRolesBindingForKueue :
  puts (manageOpenshiftClusterRolesBindingForKueue owner)
    [Named KClusterRoleBinding "kueue-openshift-cluster-role-binding"].
Proof.
  unfold manageOpenshiftClusterRolesBindingForKueue. apply puts_get. intros s _.
  refine (puts_cached cfg KClusterRoleBinding _ _ _ (puts_resourceapply _ _ _)).
Qed.

Lemma puts_manageFlowSchema ann :
  puts (manageFlowSchema ann owner) [manifest KFlowSchema "assets/kueue-operator/flowschema.yaml"].
Proof.
  unfold manageFlowSchema. puts_read o Ho. right.
  apply puts_first; [refine (puts_applyObject _ _ _ _ _)|]. intros [? ?]. apply puts_annotateHash.
Qed.

Lemma puts_managePriorityLevelConfiguration ann :
  puts (managePriorityLevelConfiguration ann owner)
    [manifest KPriorityLevelConfiguration "assets/kueue-operator/prioritylevelconfiguration.yaml"].
Proof.
  unfold managePriorityLevelConfiguration. puts_read o Ho. right.
  apply puts_first; [|intros [? ?]; apply puts_annotateHash].
  refine (puts_cached cfg KPriorityLevelConfiguration _ _ _ (puts_applyObject _ _ _ _)).
Qed.

Lemma puts_manageAPIService ann :
  puts (manageAPIService ann owner) (map (manifest KAPIService) apiServiceFiles).
Proof.
  unfold manageAPIService. apply (puts_mfold cfg _ (λ path, [manifest KAPIService path])).
  intros ann' path. puts_read o Ho. right. apply puts_res. intros new Hnew.
  rewrite <-(desiredAPIService_name _ _ _ _ Hnew).
  apply puts_first; [apply puts_resourceapply|]. intros [? ?]. apply puts_annotateHash.
Qed.

(** A role that aggregates others is left to the API server. *)
Definition aggregated (role : ClusterRole) : bool :=
  match cr_AggregationRule (ko_body role) with Some _ => true | None => false end.

Lemma puts_manageClusterRoles ann :
  puts (manageClusterRoles ann owner) [Directory KClusterRole clusterRoleDir aggregated].
Proof.
  unfold manageClusterRoles. apply puts_directory. intros ann' file. unfold manageClusterRole.
  puts_read o Ho.
  match goal with |- context [puts (match ?rule with _ => _ end) []] =>
    change (aggregated o) with (match rule with Some _ => true | None => false end); destruct rule end;
    [left; split; [done|apply puts_ret]|right].
  cbv zeta. assert (∀ role, ko_Name role = ko_Name o →
    puts ('(role, _) ← applyClusterRoleWithCache role;
          annotateHash "ClusterRole rules" ("clusterrole/" +:+ ko_Name role)
            (HRules (cr_Rules (ko_body role))) ann') [Named KClusterRole (ko_Name o)]) as Happly.
  { intros role <-. apply puts_first; [|intros [? ?]; apply puts_annotateHash].
    apply (puts_cached cfg KClusterRole _ _ _ (puts_resourceapply _ _ _)). }
  intros s h Hs. destruct (ko_Name _ =s kueueManagerRoleName); [|by apply Happly].
  apply wpM_bind, wpM_bind, wpM_try, wpM_of_res.
  destruct (scopeManagerRoleResourceNames _) as [role|e|p] eqn:Hr; [|split; [done|by intros ? [=]]..].
  apply Happly; [|done]. apply (scopeManagerRoleResourceNames_name _ _ Hr).
Qed.

Lemma puts_manageNetworkPolicies ann :
  puts (manageNetworkPolicies ann owner) [Directory KNetworkPolicy networkPolicyDir (λ _, false)].
Proof.
  unfold manageNetworkPolicies. apply puts_directory. intros ann' file. unfold manageNetworkPolicy.
  puts_read o Ho. right. apply puts_first; [|intros [? ?]; apply puts_annotateHash].
  match goal with |- puts (applyNetworkPolicyWithCache ?o') _ =>
    assert (ko_Name o' = ko_Name o) as Hn
      by (unfold ko_Name; rewrite (desiredNetworkPolicy_meta owner); reflexivity); rewrite <-Hn end.
  refine (puts_cached cfg KNetworkPolicy _ _ _ (puts_applyObject _ _ _ _)).
Qed.

Lemma puts_manageCustomResources ann :
  puts (manageCustomResources ann) [Directory KCRD crdDir isAlphaVersion].
Proof.
  unfold manageCustomResources. apply puts_directory. intros ann' file. unfold manageCustomResource.
  puts_read o Ho. destruct (isAlphaVersion o) eqn:Ha; [left; split; [done|apply puts_ret]|right].
  apply puts_first; [|intros [? ?]; apply puts_annotateHash].
  apply (puts_applyWithCache cfg KCRD _ preserveCABundle _ (desiredCRD _ o));
    [|intros o'; apply puts_resourceapply].
  intros e. unfold ko_Name. by rewrite (proj2 (isAlphaVersion_prepared _ _)).
Qed.

Lemma puts_manageMutatingWebhook kueue :
  puts (manageMutatingWebhook kueue owner)
    [manifest KMutatingWebhookConfiguration "assets/kueue-operator/mutatingwebhook.yaml"].
Proof.
  unfold manageMutatingWebhook. puts_read o Ho. right. apply puts_res. intros new Hnew.
  rewrite <-(desiredMutatingWebhook_name _ _ _ _ _ Hnew). apply puts_applyImproved.
Qed.

Lemma puts_manageValidatingWebhook kueue :
  puts (manageValidatingWebhook kueue owner)
    [manifest KValidatingWebhookConfiguration "assets/kueue-operator/validatingwebhook.yaml"].
Proof.
  unfold manageValidatingWebhook. puts_read o Ho. right. apply puts_res. intros new Hnew.
  rewrite <-(desiredValidatingWebhook_name _ _ _ _ _ Hnew). apply puts_applyImproved.
Qed.

Lemma puts_manageServiceMonitor kueue : puts (manageServiceMonitor kueue) [Monitor].
Proof.
  unfold manageServiceMonitor. apply puts_get. intros s' _ s h Hs. apply wpM_bind, wpM_call; [exact I|].
  intros [e|a]; (split; [done|]); [by intros ? [=]|]. intros a' _. constructor; [|constructor].
  eexists _, _. apply elem_of_last.
Qed.

(** The deployment's name is fixed, whatever the manifest says. *)
Lemma puts_manageDeployment kueue ann :
  puts (manageDeployment kueue ann owner) [Named KDeployment OperandName].
Proof.
  unfold manageDeployment. apply puts_get. intros s _. apply puts_res. intros o _.
  apply puts_res. intros d Hd. rewrite <-(desiredDeployment_name _ _ _ _ _ _ _ Hd).
  apply puts_first.
  - apply (puts_cached cfg KDeployment _ _ _ (puts_resourceapply _ _ _)).
  - intros [dep b]. solve_puts.
Qed.
End managed.

#[export] Hint Resolve puts_manageServiceAccount puts_manageService puts_manageRole
  puts_manageRoleBindingsByNamespace puts_manageClusterRoleBindings
  puts_manageClusterRoleBindingsWithoutNamespaceOverride puts_manageOpenshiftClusterRolesForKueue
  puts_manageOpenshiftClusterRolesBindingForKueue puts_manageFlowSchema
  puts_managePriorityLevelConfiguration puts_manageAPIService puts_manageClusterRoles
  puts_manageNetworkPolicies puts_manageCustomResources puts_manageMutatingWebhook
  puts_manageValidatingWebhook puts_manageServiceMonitor puts_manageDeployment : puts.

(** *** The steps of [sync] *)

Section sync.
Context `{Env} (cfg : TCR).
Notation puts := (puts cfg).

(** The ConfigMap is the generated one, or one with the same data. *)
Definition puts_generated (config : KueueConfiguration) (tls : option Config.TLSOptions)
    (h : trace) (s : TCR) (r : res (ConfigMap * bool)) : Prop :=
  same_config cfg s ∧
  ∀ a, r = Ok a → Forall (present_item h) [Generated (operatorNamespace cfg) config tls].

Lemma buildAndApplyConfigMap_wp config tls old (r : error + obj KConfigMap) g h s :
  same_config cfg s → Ev (CGet KConfigMap (operatorNamespace cfg) KueueConfigMap) r ∈ h →
  (∀ o, old = Some o → r = inr o) →
  wpM (λ _ _, True) (buildAndApplyConfigMap old config g tls) s h (puts_generated config tls).
Proof.
  intros Hs Hget Hold. unfold buildAndApplyConfigMap. apply wpM_bind, wpM_get, wpM_bind, wpM_of_res.
  destruct (BuildConfigMap _ _ _ _ _) as [cm|e|p] eqn:Hcm; [|split; [done|by intros ? [=]]..].
  rewrite (same_ns _ _ Hs) in Hcm. cbv zeta.
  assert (wpM (λ _ _, True) (applyImproved KConfigMap (ConfigMap_of cm)) s h
    (puts_generated config tls)) as Hap.
  { unfold applyImproved. apply wpM_bind, wpM_get, wpM_bind, wpM_call; [exact I|]. intros [a c].
    apply wpM_bind, wpM_modify. destruct a as [e|a]; (split; [done|]); [by intros ? [=]|].
    intros a' _. constructor; [|constructor]. exists g, (draConsumableCapacityEnabled s), cm.
    split; [done|]. right. eexists _, _, _. apply elem_of_last. }
  destruct old as [o|]; [|exact Hap]. destruct (_ =s _) eqn:Heq; [|exact Hap].
  rewrite (Hold o eq_refl) in Hget. apply bool_decide_eq_true in Heq.
  split; [done|]. intros a _. constructor; [|constructor].
  exists g, (draConsumableCapacityEnabled s), cm. split; [done|]. left. by exists o.
Qed.

Lemma puts_resolveGVRsToKinds l : puts (resolveGVRsToKinds l) [].
Proof.
  unfold resolveGVRsToKinds. apply puts_mfold_none. intros ? ?.
  unfold resolveGVR, ServerResourcesForGroupVersion. solve_puts.
Qed.

Lemma puts_manageConfigMap kueue tls :
  puts (manageConfigMap kueue tls)
    [Generated (operatorNamespace cfg) (ks_Config (ku_Spec kueue)) tls].
Proof.
  intros s h Hs. unfold manageConfigMap, client_get. apply wpM_bind, wpM_get, wpM_bind, wpM_try.
  apply (wpM_call_sum _ (CGet KConfigMap (operatorNamespace s) KueueConfigMap) (λ r, r)); [exact I|].
  rewrite (same_ns _ _ Hs). set (config := ks_Config (ku_Spec kueue)).
  assert (∀ r h', Ev (CGet KConfigMap (operatorNamespace cfg) KueueConfigMap) r ∈ h' →
    wpM (λ _ _, True) (gvrToKind ← match kc_MultiKueue config with
        | Some m => resolveGVRsToKinds (mk_ExternalFrameworks m) | None => mret ∅ end;
      match r with
      | inl err => if IsNotFound err then buildAndApplyConfigMap None config gvrToKind tls else throw err
      | inr required => buildAndApplyConfigMap (Some required) config gvrToKind tls
      end) s h' (puts_generated config tls)) as Hrest.
  2:{ intros [e|o]; [apply (Hrest (inl e))|apply (Hrest (inr o))]; apply elem_of_last. }
  intros r h' Hget. apply wpM_bind. eapply wpM_mono; [|apply wpM_extends, (λ P : puts _ [], P s h' Hs)].
  2:{ destruct (kc_MultiKueue config); [apply puts_resolveGVRsToKinds|apply puts_ret]. }
  intros h2 s2 [g|e|p] [(t & ->) [Hs2 _]]; [|split; [done|by intros ? [=]]..].
  apply (elem_of_earlier _ t) in Hget. destruct r as [e|o].
  - destruct (IsNotFound e); [by eapply buildAndApplyConfigMap_wp|split; [done|by intros ? [=]]].
  - eapply buildAndApplyConfigMap_wp; [done|exact Hget|]. by intros ? [= <-].
Qed.
#[local] Hint Resolve puts_manageConfigMap : puts.

Lemma puts_manageIssuer kueue ann : puts (manageIssuer kueue ann) [Unstructured RIssuers "selfsigned"].
Proof.
  unfold manageIssuer. apply puts_first; [|intros [? ?]; apply puts_annotateHash].
  unfold manageIssuerCR. apply puts_get. intros s _. refine (puts_dynApply _ _ _).
Qed.

Lemma puts_manageCertificates kueue ann :
  puts (manageCertificates kueue ann)
    [Unstructured RCertificates "webhook-cert"; Unstructured RCertificates certMetricsCerts;
     Unstructured RCertificates secretKueueVisibilityServerCert].
Proof.
  unfold manageCertificates. apply puts_get. intros s _.
  apply (puts_mfold cfg _ (λ d, [Unstructured RCertificates (cd_certificateName d)])
    ann (certificateData (operatorNamespace s))).
  intros ann' d. apply puts_first; [|intros [? ?]; apply puts_annotateHash].
  unfold manageCertificateCR. apply puts_get. intros s' _. refine (puts_dynApply _ _ _).
Qed.

(** ** The inventory *)

(** What exists only with the ServiceMonitor CRD. *)
Definition monitored (items : list item) : list item :=
  if serviceMonitorSupport cfg then items else [].

Definition namespacedItems : list item :=
  [manifest KServiceAccount "assets/kueue-operator/serviceaccount.yaml";
   manifest KRole "assets/kueue-operator/role-leader-election.yaml";
   manifest KRoleBinding "assets/kueue-operator/rolebinding-leader-election.yaml";
   manifest KRole "assets/kueue-operator/role-manager-secrets.yaml";
   manifest KRoleBinding "assets/kueue-operator/rolebinding-manager-secrets.yaml"] ++
  monitored
    [manifest KRole "assets/kueue-operator/role-prometheus.yaml";
     manifest KRoleBinding "assets/kueue-operator/rolebinding-prometheus.yaml";
     manifest KService "assets/kueue-operator/controller-manager-metrics-service.yaml";
     manifest KClusterRoleBinding "assets/kueue-operator/clusterrolebinding-metrics-monitoring.yaml"] ++
  [manifest KService "assets/kueue-operator/visibility-server.yaml"].

Definition clusterWideItems : list item :=
  map (manifest KAPIService) apiServiceFiles ++
  [manifest KPriorityLevelConfiguration "assets/kueue-operator/prioritylevelconfiguration.yaml";
   manifest KFlowSchema "assets/kueue-operator/flowschema.yaml";
   Directory KCRD crdDir isAlphaVersion;
   Directory KNetworkPolicy networkPolicyDir (λ _, false);
   Directory KClusterRole clusterRoleDir aggregated;
   Named KClusterRole "kueue-openshift-roles";
   Named KClusterRoleBinding "kueue-openshift-cluster-role-binding";
   manifest KClusterRoleBinding "assets/kueue-operator/clusterrolebinding-proxy.yaml";
   manifest KClusterRoleBinding "assets/kueue-operator/clusterrolebinding-manager.yaml"] ++
  monitored
    [manifest KClusterRoleBinding "assets/kueue-operator/clusterrolebinding-metrics.yaml";
     manifest KClusterRoleBinding "assets/kueue-operator/clusterrolebinding-metrics-auth.yaml"] ++
  [manifest KRoleBinding "assets/kueue-operator/rolebinding-visibility-server-auth-reader.yaml"].

Definition webhookItems : list item :=
  [manifest KMutatingWebhookConfiguration "assets/kueue-operator/mutatingwebhook.yaml";
   manifest KValidatingWebhookConfiguration "assets/kueue-operator/validatingwebhook.yaml";
   manifest KService "assets/kueue-operator/webhook-service.yaml"].

Definition inventory (config : KueueConfiguration) (tls : option Config.TLSOptions) : list item :=
  [Generated (operatorNamespace cfg) config tls] ++ namespacedItems ++ clusterWideItems ++
  webhookItems ++ monitored [Monitor] ++ [Named KDeployment OperandName].

(** *** Each step and its part of the inventory *)

Context (owner : OwnerReference).

Lemma puts_hashRoleBinding rb ann : puts (hashRoleBinding rb ann) [].
Proof. apply puts_annotateHash. Qed.
Lemma puts_hashClusterRoleBinding rb ann : puts (hashClusterRoleBinding rb ann) [].
Proof. apply puts_annotateHash. Qed.
#[local] Hint Resolve puts_hashRoleBinding puts_hashClusterRoleBinding : puts.

(** A step that manages one resource and records its hash. *)
Ltac puts_one := apply puts_first; [auto with puts|intros [? ?]; auto with puts].

Lemma puts_syncRole path ann : puts (syncRole path owner ann) [manifest KRole path].
Proof. unfold syncRole. puts_one. Qed.
Lemma puts_syncRoleBinding path b ann :
  puts (syncRoleBinding path owner b ann) [manifest KRoleBinding path].
Proof. unfold syncRoleBinding, manageRoleBindings. puts_one. apply puts_get. auto with puts. Qed.
Lemma puts_syncService path ann : puts (syncService path owner ann) [manifest KService path].
Proof. unfold syncService. puts_one. Qed.
Lemma puts_syncClusterRoleBinding path ann :
  puts (syncClusterRoleBinding path owner ann) [manifest KClusterRoleBinding path].
Proof. unfold syncClusterRoleBinding. puts_one. Qed.
Lemma puts_syncServiceAccount ann :
  puts (syncServiceAccount owner ann)
    [manifest KServiceAccount "assets/kueue-operator/serviceaccount.yaml"].
Proof. unfold syncServiceAccount. puts_one. Qed.
Lemma puts_syncConfigMap kueue tls ann :
  puts (syncConfigMap kueue tls ann)
    [Generated (operatorNamespace cfg) (ks_Config (ku_Spec kueue)) tls].
Proof. unfold syncConfigMap. puts_one. Qed.
#[local] Hint Resolve puts_syncRole puts_syncRoleBinding puts_syncService puts_syncClusterRoleBinding
  puts_syncServiceAccount puts_syncConfigMap : puts.

(** A block under [serviceMonitorSupport]. *)
Lemma puts_monitored (m : M TCR annotations) ann items :
  puts m items → puts (c ← mget; if serviceMonitorSupport c then m else mret ann) (monitored items).
Proof.
  intros Hm. apply puts_get. intros s (_ & _ & _ & Hs). unfold monitored. rewrite Hs.
  destruct (serviceMonitorSupport cfg); [done|apply puts_ret].
Qed.

(** The steps in the order of the list. *)
Ltac puts_next :=
  match goal with
  | |- puts (?m ≫= ?f) (?i :: ?L) => apply (puts_bind cfg m f [i] L); [auto with puts|]
  | |- puts (?m ≫= ?f) (?L1 ++ ?L2) => apply (puts_bind cfg m f L1 L2); [auto with puts|]
  | |- puts (match ?x with _ => _ end) _ => destruct x
  | |- ∀ _, _ => intros ?
  end.
Ltac puts_all := repeat (cbv beta; puts_next); auto with puts.

Lemma puts_syncPrometheus ann :
  puts (syncPrometheus owner ann) (monitored
    [manifest KRole "assets/kueue-operator/role-prometheus.yaml";
     manifest KRoleBinding "assets/kueue-operator/rolebinding-prometheus.yaml";
     manifest KService "assets/kueue-operator/controller-manager-metrics-service.yaml";
     manifest KClusterRoleBinding "assets/kueue-operator/clusterrolebinding-metrics-monitoring.yaml"]).
Proof. apply puts_monitored. puts_all. Qed.

Lemma puts_syncMetricsBindings ann :
  puts (syncMetricsBindings owner ann) (monitored
    [manifest KClusterRoleBinding "assets/kueue-operator/clusterrolebinding-metrics.yaml";
     manifest KClusterRoleBinding "assets/kueue-operator/clusterrolebinding-metrics-auth.yaml"]).
Proof. apply puts_monitored. puts_all. Qed.

Lemma puts_syncServiceMonitor kueue ann : puts (syncServiceMonitor kueue ann) (monitored [Monitor]).
Proof. apply puts_monitored. puts_one. Qed.

Lemma puts_syncOpenshiftRoles ann :
  puts (syncOpenshiftRoles owner ann)
    [Named KClusterRole "kueue-openshift-roles";
     Named KClusterRoleBinding "kueue-openshift-cluster-role-binding"].
Proof.
  unfold syncOpenshiftRoles. puts_next. intros [? ?]. apply puts_then; [auto with puts|]. intros ?. puts_one.
Qed.
#[local] Hint Resolve puts_syncPrometheus puts_syncMetricsBindings puts_syncServiceMonitor
  puts_syncOpenshiftRoles : puts.

Lemma puts_syncNamespaced ann : puts (syncNamespaced owner ann) namespacedItems.
Proof. unfold syncNamespaced, namespacedItems. cbn [app]. puts_all. Qed.

Lemma puts_syncClusterWide ann : puts (syncClusterWide owner ann) clusterWideItems.
Proof.
  unfold syncClusterWide, clusterWideItems. puts_next. intros ann1. cbn [app].
  do 5 (puts_next; intros ?).
  match goal with |- puts (?m ≫= ?f) (?i :: ?j :: ?L) => apply (puts_bind cfg m f [i; j] L) end;
    [auto with puts|]. intros ?.
  do 3 (puts_next; intros ?). unfold manageSystemRoleBindings. puts_one.
Qed.

Lemma puts_syncWebhooks kueue ann : puts (syncWebhooks kueue owner ann) webhookItems.
Proof.
  unfold syncWebhooks, webhookItems. puts_next. intros [? ?]. apply puts_then; [auto with puts|].
  intros ?. puts_next. intros [? ?]. apply puts_then; auto with puts.
Qed.

Lemma puts_syncDeployment kueue dep ann :
  puts (syncDeployment kueue owner dep ann) [Named KDeployment OperandName].
Proof.
  unfold syncDeployment. apply puts_first; [auto with puts|]. intros [[? ?] ?].
  unfold updateKueueStatus, now. solve_puts.
Qed.
#[local] Hint Resolve puts_syncNamespaced puts_syncClusterWide puts_syncWebhooks puts_syncDeployment
  : puts.

Lemma puts_syncOperand kueue tls dep ann :
  puts (syncOperand kueue tls owner dep ann) (inventory (ks_Config (ku_Spec kueue)) tls).
Proof. unfold syncOperand, inventory. cbn [app]. puts_all. Qed.
End sync.

#[export] Hint Resolve puts_manageIssuer puts_manageCertificates puts_syncConfigMap puts_syncNamespaced
  puts_syncClusterWide puts_syncWebhooks puts_syncServiceMonitor puts_syncDeployment puts_syncOperand
  : puts.

(** What a step that succeeded has put in place. *)
Lemma puts_runs `{Env} {A} cfg (m : M TCR A) L s tr s' a :
  puts cfg m L → same_config cfg s → runs (m s) tr (Some (s', Ok a)) → Forall (present_item tr) L.
Proof.
  intros Hm Hs Hr. destruct (wp_runs _ _ _ _ _ _ Hr (Hm s [] Hs)) as [_ HQ].
  destruct (HQ _ eq_refl) as [_ HL]. by eapply HL.
Qed.

(** C5: A reconciliation of the operand that succeeds is complete: every
    object of the inventory is there. The generated configuration is stored;
    every manifest that applies to this cluster was read and its object was
    accepted by the API server or found in the cluster; so is every CRD that
    is not alpha, every network policy and every cluster role that does not
    aggregate others; with the ServiceMonitor CRD also the metrics objects;
    and the deployment. No step is skipped by an error of an earlier one. *)
Theorem syncOperand_complete `{Env} (kueue : Kueue) tls owner dep ann (c c' : TCR) tr :
  runs (syncOperand kueue tls owner dep ann c) tr (Some (c', Ok tt)) →
  Forall (present_item tr) (inventory c (ks_Config (ku_Spec kueue)) tls).
Proof. eapply (puts_runs c); [apply (puts_syncOperand c)|done]. Qed.

(** ** Concrete instances *)

#[local] Existing Instance example_env.

Definition example_operand : prog (TCR * res unit) :=
  syncOperand (example_kueue []) None example_owner None ∅ example_tcr.

Example syncOperand_fresh :
  snd <$> (run (example_cluster (example_kueue []) true) example_operand 0%Z).1.2 = Some (Ok tt).
Proof. vm_compute. reflexivity. Qed.

Lemma syncOperand_complete_witness :
  ∃ tr c', runs example_operand tr (Some (c', Ok tt)) ∧
    length (inventory example_tcr (ks_Config (ku_Spec (example_kueue []))) None) = 30 ∧
    Forall (present_item tr) (inventory example_tcr (ks_Config (ku_Spec (example_kueue []))) None).
Proof.
  destruct (run (example_cluster (example_kueue []) true) example_operand 0%Z) as [[tr o] w] eqn:E.
  pose proof (run_runs _ _ _ _ _ _ E) as Hr. pose proof syncOperand_fresh as Ho.
  rewrite E in Ho. cbn [fst snd] in Ho.
  destruct o as [[c' r]|]; [|discriminate Ho]. injection Ho as ->.
  exists tr, c'. split; [exact Hr|]. split; [reflexivity|].
  exact (syncOperand_complete _ _ _ _ _ _ _ _ Hr).
Defined.
