(* ===== verification/Termination.v ===== *)
(** * The reconciliation always returns

    Whatever a responsive cluster answers, [sync] comes to an end: its loops
    run over finite lists, its retries are bounded, and the waits for
    certificates stop at their deadline. *)
From S2P Require Import Prelude GoStd K8s ApiTypes DraHelpers ConfigMap TlsProfile K8sObjects.
From S2P Require Import PodWebhook Effects Monad Cert ResourceApply Finalizer Reconciler Discovery.
From S2P Require Import Conditions CachedApply Cleanup Manage Sync.

(** Every call is answered, time does not go back, and a sleep lasts. Nothing
    is said of the answers. *)
Record responsive {σ} (H : handler σ) (clock : σ → Z) : Prop := {
  responsive_answers : ∀ w c, c ≠ CDiverge →
    ∃ r w', H w c = Some (r, w') ∧ (clock w ≤ clock w')%Z;
  responsive_now : ∀ w r w', H w CNow = Some (r, w') → r = clock w;
  responsive_sleep : ∀ w d r w', H w (CSleep d) = Some (r, w') → (clock w + d ≤ clock w')%Z;
}.

Lemma responsive_clocked {σ} (H : handler σ) clock : responsive H clock → clocked H clock.
Proof.
  intros [Ha Hn Hs]. split.
  - intros w. destruct (Ha w CNow) as (r & w' & Hr & Hc); [done|].
    rewrite (Hn _ _ _ Hr) in Hr. eauto.
  - intros w d. destruct (Ha w (CSleep d)) as ([] & w' & Hr & Hc); [done|]. eauto.
  - intros w r ns n. destruct (Ha w (CDynGet r ns n)) as (a & w' & Hr & Hc); [done|]. eauto.
Qed.

(** [totalM H m]: run by [H], [m] returns. *)
Definition totalM {S σ A} (H : handler σ) (m : M S A) : Prop :=
  ∀ s w, twpM H m s w (λ _ _ _, True).

Create HintDb total.

Section rules.
Context {S σ : Type} (H : handler σ).

Lemma totalM_ret {A} (a : A) : totalM H (mret (M := M S) a).
Proof. by intros s w. Qed.
Lemma totalM_throw {A} e : totalM H (throw (S := S) (A := A) e).
Proof. by intros s w. Qed.
Lemma totalM_of_res {A} (r : res A) : totalM H (of_res (S := S) r).
Proof. by intros s w. Qed.
Lemma totalM_of_sum {A} (r : error + A) : totalM H (of_sum (S := S) r).
Proof. intros s w. by destruct r. Qed.
Lemma totalM_of_err r : totalM H (of_err (S := S) r).
Proof. intros s w. by destruct r. Qed.
Lemma totalM_get : totalM H (mget (S := S)).
Proof. by intros s w. Qed.
Lemma totalM_modify (f : S → S) : totalM H (mmodify f).
Proof. by intros s w. Qed.
Lemma totalM_bind {A B} (m : M S A) (f : A → M S B) :
  totalM H m → (∀ a, totalM H (f a)) → totalM H (m ≫= f).
Proof.
  intros Hm Hf s w. apply twpM_bind. eapply twp_mono; [|apply Hm].
  intros [s' [a|e|p]] w' _; [apply Hf|done..].
Qed.
Lemma totalM_try {A} (m : M S A) : totalM H m → totalM H (try m).
Proof.
  intros Hm s w. apply twpM_try. eapply twp_mono; [|apply Hm]. by intros [s' [a|e|p]] w' _.
Qed.
Lemma totalM_wrap {A} p (m : M S A) : totalM H m → totalM H (wrap p m).
Proof. intros Hm. apply totalM_bind; [by apply totalM_try|]. by intros [e|a] s w. Qed.
Lemma totalM_mfold {A B} (f : B → A → M S B) b l :
  (∀ b a, totalM H (f b a)) → totalM H (mfold f b l).
Proof.
  intros Hf. revert b. induction l as [|a l IH]; intros b; cbn [mfold]; [apply totalM_ret|].
  by apply totalM_bind.
Qed.

Context (clock : σ → Z) (HR : responsive H clock).

Lemma totalM_call c : c ≠ CDiverge → totalM H (mcall (S := S) c).
Proof using HR.
  intros Hc s w. destruct (responsive_answers _ _ HR w c Hc) as (r & w' & Hr & _).
  apply twpM_call. eauto.
Qed.
Lemma totalM_OnError {A} steps retriable (fn : M S A) :
  totalM H fn → totalM H (OnError steps retriable fn).
Proof using HR.
  intros Hf. unfold OnError. generalize (@None error) as lastErr.
  induction steps as [|n IH]; intros lastErr; cbn [OnError_from]; [apply totalM_throw|].
  apply totalM_bind; [by apply totalM_try|]. intros [e|a]; [|apply totalM_ret].
  destruct (retriable e); [|destruct (is_context_error e); apply totalM_throw].
  destruct n; [apply totalM_throw|]. apply totalM_bind; [by apply totalM_call|]. intros _. apply IH.
Qed.
Lemma totalM_wait ns name :
  totalM H (WaitForCertificateReady (S := S) certificateFuel ns name (2 * Minute)).
Proof using HR.
  intros s w. eapply twp_mono; [|eapply WaitForCertificateReady_total, responsive_clocked, HR]. done.
Qed.
End rules.

#[export] Hint Resolve totalM_ret totalM_throw totalM_of_res totalM_of_sum totalM_of_err totalM_get
  totalM_modify : total.

(** Follows the structure of the program; the calls are answered by the
    responsive handler of the context. *)
Ltac total_step :=
  match goal with
  | |- totalM _ (_ ≫= _) => apply totalM_bind; [|intros ?]
  | |- totalM _ (match ?x with _ => _ end) => destruct x
  | |- totalM _ (mfold _ _ _) => apply totalM_mfold; intros ? ?
  | |- totalM _ (wrap _ _) => apply totalM_wrap
  | |- totalM _ (try _) => apply totalM_try
  | |- totalM _ (RetryOnConflict _ _) => eapply totalM_OnError; [eassumption|]
  | |- totalM _ (OnError _ _ _) => eapply totalM_OnError; [eassumption|]
  | |- totalM _ (mcall _) => eapply totalM_call; [eassumption|discriminate]
  | |- totalM _ (WaitForCertificateReady _ _ _ _) => eapply totalM_wait; eassumption
  | |- totalM _ _ => solve [eauto with total nocore]
  end.
Ltac solve_total := repeat total_step.

(** ** The building blocks *)

Section blocks.
Context `{Env} {σ : Type} (h : handler σ) (clock : σ → Z) (HR : responsive h clock).

Lemma totalM_annotateHash {S} what key o ann : totalM (S := S) h (annotateHash what key o ann).
Proof. unfold annotateHash. solve_total. Qed.

Lemma totalM_applyImproved k (o : obj k) : totalM h (applyImproved k o).
Proof using HR. unfold applyImproved. solve_total. Qed.

Lemma totalM_dynApply d o : totalM h (ApplyUnstructuredResourceImproved d o).
Proof using HR. unfold ApplyUnstructuredResourceImproved. solve_total. Qed.

Lemma totalM_readAsset k path : totalM h (readAsset k path).
Proof. unfold readAsset. solve_total. Qed.

Lemma totalM_applyWithCache k ns prepare apply (o : obj k) :
  (∀ o, totalM h (apply o)) → totalM h (applyWithCache k ns prepare apply o).
Proof using HR. intros Ha. unfold applyWithCache, lister. solve_total. Qed.

Lemma totalM_resourceapply k n (o : obj k) : totalM h (resourceapply_Apply k n o).
Proof using HR. unfold resourceapply_Apply. solve_total. Qed.

Lemma totalM_applyObject {S} k ns keep (o : obj k) : totalM (S := S) h (applyObject k ns keep o).
Proof using HR.
  unfold applyObject, client_get, client_create, client_update, ReportCreateEvent, ReportUpdateEvent,
    Eventf, Warningf. solve_total.
Qed.

Lemma totalM_updateKueueStatus {S} k cs n : totalM (S := S) h (updateKueueStatus k cs n).
Proof using HR. unfold updateKueueStatus, now. solve_total. Qed.

Lemma totalM_updateFinalizer {S} k add : totalM (S := S) h (updateFinalizer k add).
Proof using HR.
  unfold updateFinalizer, RetryOnConflict. case_bool_decide; [solve_total|].
  eapply totalM_OnError; [done|]. unfold updateFinalizer_attempt, kueue_get. solve_total.
Qed.

Lemma totalM_isResourceRegistered {S} gvk : totalM (S := S) h (isResourceRegistered gvk).
Proof using HR. unfold isResourceRegistered, ServerResourcesForGroupVersion. solve_total. Qed.
Lemma totalM_isResourceRegisteredCached {S} gvk : totalM (S := S) h (isResourceRegisteredCached gvk).
Proof using HR. unfold isResourceRegisteredCached, lister. solve_total. Qed.

Lemma totalM_retryDelete {S} t : totalM (S := S) h (retryDelete t).
Proof using HR.
  unfold retryDelete, RetryOnConflict. eapply totalM_OnError; [done|]. eapply totalM_OnError; [done|].
  unfold delete_target, client_delete, dyn_delete. solve_total.
Qed.
End blocks.

#[export] Hint Resolve totalM_annotateHash totalM_readAsset totalM_applyImproved totalM_dynApply
  totalM_resourceapply totalM_applyObject totalM_updateKueueStatus totalM_updateFinalizer
  totalM_isResourceRegistered totalM_isResourceRegisteredCached totalM_retryDelete : total.

(** ** The methods of the reconciler *)

Section methods.
Context `{Env} {σ : Type} (h : handler σ) (clock : σ → Z) (HR : responsive h clock).

Ltac unfold_cached := unfold applyClusterRoleWithCache, applyClusterRoleBindingWithCache,
  applyRoleWithCache, applyRoleBindingWithCache, applyNetworkPolicyWithCache,
  applyPriorityLevelConfigurationWithCache, applyDeploymentWithCache,
  applyCustomResourceDefinitionWithCache, ApplyNetworkPolicy, ApplyPriorityLevelConfiguration,
  ApplyFlowSchema.
Ltac cached := unfold_cached; eapply totalM_applyWithCache; [eassumption|intros ?; eauto with total].
Ltac total_method := repeat first [total_step | cached | progress unfold_cached].

Lemma totalM_checkDependencies kueue : totalM h (checkDependencies kueue).
Proof using HR.
  unfold checkDependencies, frameworkDependencies, missingOperator, isOperatorAvailability,
    checkDRAAPIs, draAPIDependencies, updateDRAGates, isKubernetesMinorAtLeast, draGateDependencies,
    Eventf. solve_total.
Qed.

Lemma totalM_manageConfigMap kueue tls : totalM h (manageConfigMap kueue tls).
Proof using HR.
  unfold manageConfigMap, client_get, resolveGVRsToKinds, resolveGVR, buildAndApplyConfigMap,
    ServerResourcesForGroupVersion. solve_total.
Qed.

Lemma totalM_certificates kueue ann : totalM h (manageCertificates kueue ann).
Proof using HR. unfold manageCertificates, manageCertificateCR. solve_total. Qed.

Lemma totalM_waitForCertificates : totalM h waitForCertificates.
Proof using HR. unfold waitForCertificates. solve_total. Qed.

Lemma totalM_resolveTLS kueue : totalM h (resolveTLS kueue).
Proof using HR. unfold resolveTLS, FetchAPIServerTLSProfile, Eventf, Warningf. solve_total. Qed.

Lemma totalM_syncRole asset owner ann : totalM h (syncRole asset owner ann).
Proof using HR. unfold syncRole, manageRole. total_method. Qed.
Lemma totalM_syncRoleBinding asset owner b ann : totalM h (syncRoleBinding asset owner b ann).
Proof using HR.
  unfold syncRoleBinding, hashRoleBinding, manageRoleBindings, manageRoleBindingsByNamespace.
  total_method.
Qed.
Lemma totalM_syncService asset owner ann : totalM h (syncService asset owner ann).
Proof using HR. unfold syncService, manageService. total_method. Qed.
Lemma totalM_syncClusterRoleBinding asset owner ann :
  totalM h (syncClusterRoleBinding asset owner ann).
Proof using HR.
  unfold syncClusterRoleBinding, hashClusterRoleBinding, manageClusterRoleBindings. total_method.
Qed.
#[local] Hint Resolve totalM_syncRole totalM_syncRoleBinding totalM_syncService
  totalM_syncClusterRoleBinding : total.

Lemma totalM_syncNamespaced owner ann : totalM h (syncNamespaced owner ann).
Proof using HR.
  unfold syncNamespaced, syncServiceAccount, manageServiceAccount, syncPrometheus,
    manageClusterRoleBindingsWithoutNamespaceOverride, hashClusterRoleBinding. total_method.
Qed.

Lemma totalM_manageClusterRoles ann owner : totalM h (manageClusterRoles ann owner).
Proof using HR. unfold manageClusterRoles, manageClusterRole. total_method. Qed.
Lemma totalM_manageNetworkPolicies ann owner : totalM h (manageNetworkPolicies ann owner).
Proof using HR. unfold manageNetworkPolicies, manageNetworkPolicy. total_method. Qed.
Lemma totalM_manageCustomResources ann : totalM h (manageCustomResources ann).
Proof using HR. unfold manageCustomResources, manageCustomResource. total_method. Qed.
#[local] Hint Resolve totalM_manageClusterRoles totalM_manageNetworkPolicies
  totalM_manageCustomResources : total.

Lemma totalM_syncClusterWide owner ann : totalM h (syncClusterWide owner ann).
Proof using HR.
  unfold syncClusterWide, manageAPIService, managePriorityLevelConfiguration, manageFlowSchema,
    syncOpenshiftRoles, manageOpenshiftClusterRolesForKueue,
    manageOpenshiftClusterRolesBindingForKueue, syncMetricsBindings, manageSystemRoleBindings,
    manageRoleBindingsByNamespace, hashClusterRoleBinding, hashRoleBinding.
  total_method.
Qed.

Lemma totalM_syncWebhooks kueue owner ann : totalM h (syncWebhooks kueue owner ann).
Proof using HR.
  unfold syncWebhooks, manageMutatingWebhook, manageValidatingWebhook. total_method.
Qed.

Lemma totalM_syncServiceMonitor kueue ann : totalM h (syncServiceMonitor kueue ann).
Proof using HR. unfold syncServiceMonitor, manageServiceMonitor. total_method. Qed.

Lemma totalM_syncDeployment kueue owner dep ann : totalM h (syncDeployment kueue owner dep ann).
Proof using HR. unfold syncDeployment, manageDeployment. total_method. Qed.
#[local] Hint Resolve totalM_checkDependencies totalM_manageConfigMap totalM_certificates
  totalM_waitForCertificates totalM_resolveTLS totalM_syncNamespaced totalM_syncClusterWide
  totalM_syncWebhooks totalM_syncServiceMonitor totalM_syncDeployment : total.

Lemma totalM_finalizeKueue kueue : totalM h (finalizeKueue kueue).
Proof using HR.
  unfold finalizeKueue, cleanUpWebhooks, cleanUpWebhookType, listFunc, cleanUpCertificatesAndIssuers,
    cleanUpCertManagerType, cleanUpClusterRoles, cleanUpClusterRoleBindings, cleanUpResources,
    attempt, aggregate, client_list, dyn_list, delete_target, client_delete, dyn_delete,
    removeFinalizerFromKueueInstance.
  total_method.
Qed.

Lemma totalM_syncLive kueue owner dep ann : totalM h (syncLive kueue owner dep ann).
Proof using HR.
  unfold syncLive, manageIssuer, manageIssuerCR, rereadKueue, syncOperand, syncConfigMap. total_method.
Qed.
#[local] Hint Resolve totalM_finalizeKueue totalM_syncLive : total.

Lemma totalM_sync : totalM h sync.
Proof using HR.
  unfold sync, readKueue, syncInstalled, addFinalizerToKueueInstance, reportCertManagerMissing, Eventf.
  total_method.
Qed.
End methods.

(** C7: A reconciliation always returns: whatever the cluster answers, as long
    as it answers and its clock runs, [sync] comes back with a result, an error
    or a panic, and the fuel of its waits is not exhausted. *)
Theorem sync_terminates `{Env} {σ} (h : handler σ) (clock : σ → Z) (c : TCR) (w : σ) :
  responsive h clock →
  ∃ tr c' r w', run h (sync c) w = (tr, Some (c', r), w').
Proof.
  intros HR. destruct (twp_run _ _ _ _ (totalM_sync h clock HR c w)) as (tr & [c' r] & w' & Hr & _).
  eauto 6.
Qed.

Lemma example_cluster_responsive kueue certManager :
  responsive (example_cluster kueue certManager) (λ clock, clock).
Proof.
  split.
  - intros w c Hc. destruct c; try done; cbn [example_cluster]; try (eexists _, _; split; [reflexivity|lia]).
    destruct r; eexists _, _; (split; [reflexivity|lia]).
  - by intros w r w' [= <- <-].
  - intros w d r w' [= <- <-]. lia.
Qed.

Lemma sync_terminates_witness :
  ∃ tr c' r w', run (example_cluster (example_kueue []) true) (@sync example_env example_tcr) 0%Z =
    (tr, Some (c', r), w').
Proof.
  exact (@sync_terminates example_env _ _ _ example_tcr 0%Z
           (example_cluster_responsive (example_kueue []) true)).
Defined.
