(* ===== verification/SyncSafety.v ===== *)
(** * What a reconciliation may do, and when

    [sync_allowed cfg] monitors a run of [Sync.sync]: which call is allowed
    after which history. The theorem of this file is that every run, also one
    that stops anywhere, only makes allowed calls. *)
From S2P Require Import Prelude GoStd K8s ApiTypes DraHelpers ConfigMap TlsProfile K8sObjects.
From S2P Require Import PodWebhook Effects Monad Cert ResourceApply Finalizer Reconciler.
From S2P Require Import Discovery Conditions CachedApply Cleanup Manage Managed Sync.

(** ** Facts of a history *)

(** The informer had cert-manager's Issuer CRD. *)
Definition cert_manager_seen (h : trace) : Prop :=
  ∃ crd, Ev (CLister KCRD "" "issuers.cert-manager.io") (inr crd) ∈ h.

(** The Kueue resource [kueue] was read, its finalizer is settled, and [k'] is
    the resource after that. *)
Definition admitted (kueue k' : Kueue) (h : trace) : Prop :=
  cert_manager_seen h ∧ Ev (CCacheGetKueue OperatorConfigName) (inr (Some (Some kueue))) ∈ h ∧
  finalizer_settled kueue true h k'.

Definition certificate_ready (ns name : string) (h : trace) : Prop :=
  ∃ h1 h2, h = h1 ++ h2 ∧ certificate_seen_ready ns name h1.
Definition certificates_ready (ns : string) (h : trace) : Prop :=
  certificate_ready ns "webhook-cert" h ∧ certificate_ready ns certMetricsCerts h ∧
  certificate_ready ns secretKueueVisibilityServerCert h.

(** Off OpenShift no profile is read; on OpenShift the cluster's profile is
    one that Kueue supports. *)
Definition tls_supported (cfg : TCR) (h : trace) : Prop :=
  isOpenShift cfg = false ∨
  ∃ profile opts, Ev (CAPIServerGet "cluster") (inr profile) ∈ h ∧ TLSOptionsFromProfile profile = Ok opts.

Definition webhooks_applied (h : trace) : Prop :=
  (∃ o c a c', Ev (CApplyImproved KMutatingWebhookConfiguration o c) (inr a, c') ∈ h) ∧
  (∃ o c a c', Ev (CApplyImproved KValidatingWebhookConfiguration o c) (inr a, c') ∈ h).

(** Nothing was deleted, nor listed in order to delete. *)
Definition is_cleanup_call (c : call) : bool :=
  match c with CList _ | CDynList _ _ | CDelete _ _ _ | CDynDelete _ _ _ => true | _ => false end.
Definition no_cleanup (h : trace) : Prop := Forall (λ e, is_cleanup_call (ev_call e) = false) h.

Definition all_cleaned (opns : string) (h : trace) : Prop :=
  webhooks_cleaned h ∧ certificates_cleaned opns h ∧ clusterroles_cleaned h ∧
  clusterrolebindings_cleaned h ∧ resources_cleaned opns h.

Definition deleting (k : Kueue) : Prop := om_DeletionTimestamp (ku_ObjectMeta k) ≠ None.

(** Reads, events, the clock, the pointer into the informer's cache, and the
    status of the resource itself. *)
Definition is_observation (c : call) : Prop :=
  match c with
  | CCacheGetKueue _ | CCacheStoreKueue _ | CEvent _ _ _ | CLister KCRD _ _
  | CServerResourcesForGroupVersion _ | CServerVersion | CGet _ _ _ | CDynGet _ _ _ | CKueueGet _
  | CKueueApplyStatus _ _ _ | COperatorConfigGet _ _ | CFeatureGateGet _ | CAPIServerGet _
  | CNow | CSleep _ | CSleepBackoff | CSleepOrDone _ | CDiverge => True
  | _ => False
  end.

(** ** The monitor *)
Section monitor.
Context `{Env} (cfg : TCR).
Let opns := operatorNamespace cfg.

(** The issuer and the certificates, owned by [kueue]. *)
Definition is_certificate_apply (kueue : Kueue) (c : call) : Prop :=
  match c with
  | CDynApply RIssuers j _ => j = issuerCR opns kueue
  | CDynApply RCertificates j _ => ∃ d, d ∈ certificateData opns ∧ j = certificateCR opns kueue d
  | _ => False
  end.

Definition sync_allowed (h : trace) (c : call) : Prop :=
  match c with
  (* the finalizer: added before any cleanup, removed after all of it *)
  | CKueuePatch n p => cert_manager_seen h ∧ ∃ m original, Ev (CKueueGet m) (inr original) ∈ h ∧
      ((no_cleanup h ∧ finalizer_patch true original n p) ∨
       (all_cleaned opns h ∧ finalizer_patch false original n p ∧
          ∃ kueue k', admitted kueue k' h ∧ deleting k'))
  (* the cleanup: only of a resource that is being deleted *)
  | CList _ | CDynList _ _ | CDelete _ _ _ | CDynDelete _ _ _ =>
      cleanup_allowed opns h c ∧ ∃ kueue k', admitted kueue k' h ∧ deleting k'
  (* issuer and certificates: only for one that is not *)
  | CDynApply _ _ _ => ∃ kueue k', admitted kueue k' h ∧ ¬ deleting k' ∧ is_certificate_apply k' c
  (* the operand *)
  | CApply _ _ _ | CApplyImproved _ _ _ | CCreate _ _ | CUpdate _ _ | CApplyServiceMonitor _ =>
      (∃ kueue k', admitted kueue k' h ∧ ¬ deleting k' ∧
        is_manage_call cfg (kueueOwnerReference kueue) true c) ∧
      certificates_ready opns h ∧ tls_supported cfg h ∧
      match c with
      | CApply KDeployment _ _ => webhooks_applied h
      | _ => True
      end
  (* the informers' caches: those that are filled *)
  | CLister k ns _ => informed cfg k ns
  | _ => is_observation c
  end.
End monitor.

(** ** The facts persist *)

Lemma cert_manager_seen_app h t : cert_manager_seen h → cert_manager_seen (h ++ t).
Proof. intros [crd Hc]. exists crd. by apply elem_of_earlier. Qed.

Lemma finalizer_settled_app kueue b h t k' :
  finalizer_settled kueue b h k' → finalizer_settled kueue b (h ++ t) k'.
Proof.
  intros [?|[(? & n & o & Ho & ?)|(n & p & Hp)]]; [by left|right; left|right; right].
  - split; [done|]. exists n, o. split; [by apply elem_of_earlier|done].
  - exists n, p. by apply elem_of_earlier.
Qed.

Lemma admitted_app kueue k' h t : admitted kueue k' h → admitted kueue k' (h ++ t).
Proof.
  intros (H1 & H2 & H3). split; [by apply cert_manager_seen_app|].
  split; [by apply elem_of_earlier|by apply finalizer_settled_app].
Qed.

Lemma certificate_ready_app ns n h t : certificate_ready ns n h → certificate_ready ns n (h ++ t).
Proof. intros (h1 & h2 & -> & Hr). exists h1, (h2 ++ t). by rewrite app_assoc. Qed.
Lemma certificates_ready_app ns h t : certificates_ready ns h → certificates_ready ns (h ++ t).
Proof. intros (? & ? & ?). split_and!; by apply certificate_ready_app. Qed.

Lemma tls_supported_app cfg h t : tls_supported cfg h → tls_supported cfg (h ++ t).
Proof.
  intros [?|(p & o & Hp & Ho)]; [by left|]. right. exists p, o. split; [by apply elem_of_earlier|done].
Qed.

Lemma webhooks_applied_app h t : webhooks_applied h → webhooks_applied (h ++ t).
Proof.
  intros [(o & c & a & c' & H1) (o2 & c2 & a2 & c2' & H2)].
  split; [exists o, c, a, c'|exists o2, c2, a2, c2']; by apply elem_of_earlier.
Qed.

Lemma no_cleanup_app h t : no_cleanup h → no_cleanup t → no_cleanup (h ++ t).
Proof. intros ??. by apply Forall_app. Qed.

Lemma webhooks_cleaned_app h t : webhooks_cleaned h → webhooks_cleaned (h ++ t).
Proof. intros []. split; by apply kind_cleaned_app. Qed.
Lemma certificates_cleaned_app ns h t : certificates_cleaned ns h → certificates_cleaned ns (h ++ t).
Proof. intros []. split; by apply dyn_cleaned_app. Qed.

Lemma all_cleaned_app ns h t : all_cleaned ns h → all_cleaned ns (h ++ t).
Proof.
  intros (H1 & H2 & H3 & H4 & H5 & H6 & H7). split_and!.
  - by apply webhooks_cleaned_app.
  - by apply certificates_cleaned_app.
  - by apply kind_cleaned_app.
  - by apply kind_cleaned_app.
  - split_and!; by apply deleted_app.
Qed.

Lemma observation_allowed `{Env} cfg h c : is_observation c → sync_allowed cfg h c.
Proof. destruct c; try done. by destruct k. Qed.
Lemma observation_no_cleanup C t :
  (∀ c, C c → is_cleanup_call c = false) → Forall (C ∘ ev_call) t → no_cleanup t.
Proof. intros HC Ht. eapply Forall_impl; [exact Ht|]. intros e. apply HC. Qed.
Lemma observation_is_no_cleanup c : is_observation c → is_cleanup_call c = false.
Proof. by destruct c. Qed.

(** ** The operand *)

Section operand.
Context `{Env} (cfg : TCR) (kueue k' : Kueue).
Let opns := operatorNamespace cfg.
Let owner := kueueOwnerReference kueue.

(** What holds while the operand is applied. *)
Record operand_facts (h : trace) : Prop := {
  of_admitted : admitted kueue k' h;
  of_live : ¬ deleting k';
  of_certificates : certificates_ready opns h;
  of_tls : tls_supported cfg h;
}.

Lemma operand_facts_app h t : operand_facts h → operand_facts (h ++ t).
Proof.
  intros []. split; [by apply admitted_app|done|by apply certificates_ready_app|by apply tls_supported_app].
Qed.

Lemma operand_allowed h c :
  operand_facts h → is_manage_call cfg owner false c → sync_allowed cfg h c.
Proof.
  intros [] Hc. pose proof (is_manage_call_late _ _ _ Hc) as Hl.
  destruct c; try done; cbn; (split || idtac); try (by exists kueue, k'); split_and!; try done.
  destruct k; try done. destruct Hc as [[=] _].
Qed.

Lemma operand_step {A} (m : M TCR A) s h Q :
  inM (same_config cfg) (is_manage_call cfg owner false) m →
  same_config cfg s → operand_facts h →
  (∀ h' s' r, same_config cfg s' → operand_facts h' → (∃ t, h' = h ++ t) → Q h' s' r) →
  wpM (sync_allowed cfg) m s h Q.
Proof.
  intros Hm Hs Hf HQ. eapply (wpM_inM _ _ _ _ _ _ _ Hm Hs).
  - intros t c Hc _. apply operand_allowed; [by apply operand_facts_app|done].
  - intros t s' r _ Hs'. apply HQ; [done|by apply operand_facts_app|by eexists].
Qed.

(** Most steps: the rest goes on under the same facts. *)
Lemma operand_bind {A B} (m : M TCR A) (f : A → M TCR B) s h Q :
  inM (same_config cfg) (is_manage_call cfg owner false) m →
  same_config cfg s → operand_facts h →
  (∀ h' s' r, same_config cfg s' → operand_facts h' → (∃ t, h' = h ++ t) →
     match r with
     | Ok a => wpM (sync_allowed cfg) (f a) s' h' Q
     | Err e => Q h' s' (Err e)
     | Panic p => Q h' s' (Panic p)
     end) →
  wpM (sync_allowed cfg) (m ≫= f) s h Q.
Proof. intros Hm Hs Hf Hk. apply wpM_bind. by eapply operand_step. Qed.
End operand.

(** *** The steps keep the contract *)

Section steps.
Context `{Env} (cfg : TCR) (owner : OwnerReference) (late : bool).
Notation In := (inM (same_config cfg) (is_manage_call cfg owner late)).

Lemma in_syncRole asset ann : In (syncRole asset owner ann).
Proof. unfold syncRole. apply inM_bind; [auto with calls|]. intros [r b]. apply in_annotateHash. Qed.
Lemma in_hashRoleBinding rb ann : In (hashRoleBinding rb ann).
Proof. apply in_annotateHash. Qed.
Lemma in_hashClusterRoleBinding rb ann : In (hashClusterRoleBinding rb ann).
Proof. apply in_annotateHash. Qed.
Lemma in_syncRoleBinding asset b ann : In (syncRoleBinding asset owner b ann).
Proof.
  unfold syncRoleBinding. apply inM_bind; [auto with calls|]. intros [r u]. apply in_hashRoleBinding.
Qed.
Lemma in_syncService asset ann : In (syncService asset owner ann).
Proof. unfold syncService. apply inM_bind; [auto with calls|]. intros [r u]. apply in_annotateHash. Qed.
Lemma in_syncClusterRoleBinding asset ann : In (syncClusterRoleBinding asset owner ann).
Proof.
  unfold syncClusterRoleBinding. apply inM_bind; [auto with calls|]. intros [r u].
  apply in_hashClusterRoleBinding.
Qed.
Hint Resolve in_syncRole in_hashRoleBinding in_hashClusterRoleBinding in_syncRoleBinding
  in_syncService in_syncClusterRoleBinding : calls.

Lemma in_syncConfigMap kueue tls ann : In (syncConfigMap kueue tls ann).
Proof. unfold syncConfigMap. apply inM_bind; [auto with calls|]. intros [r u]. apply in_annotateHash. Qed.

Lemma in_syncPrometheus ann : In (syncPrometheus owner ann).
Proof. unfold syncPrometheus. solve_in. Qed.
Lemma in_syncMetricsBindings ann : In (syncMetricsBindings owner ann).
Proof. unfold syncMetricsBindings. solve_in. Qed.
Lemma in_syncOpenshiftRoles ann : In (syncOpenshiftRoles owner ann).
Proof. unfold syncOpenshiftRoles. solve_in. Qed.
Lemma in_syncServiceAccount ann : In (syncServiceAccount owner ann).
Proof. unfold syncServiceAccount. apply inM_bind; [auto with calls|]. intros [r u]. apply in_annotateHash. Qed.
Hint Resolve in_syncPrometheus in_syncMetricsBindings in_syncOpenshiftRoles in_syncServiceAccount : calls.

Lemma in_syncNamespaced ann : In (syncNamespaced owner ann).
Proof. unfold syncNamespaced. solve_in. Qed.
Lemma in_syncClusterWide ann : In (syncClusterWide owner ann).
Proof. unfold syncClusterWide. solve_in. Qed.

Lemma in_syncServiceMonitor kueue ann : In (syncServiceMonitor kueue ann).
Proof.
  unfold syncServiceMonitor. apply inM_bind_get. intros s (_ & _ & _ & Hs).
  destruct (serviceMonitorSupport s) eqn:Hsm; [|apply inM_ret].
  apply inM_bind; [apply in_manageServiceMonitor; congruence|]. intros [r u]. apply in_annotateHash.
Qed.
End steps.
#[export] Hint Resolve in_syncConfigMap in_syncNamespaced in_syncClusterWide in_syncServiceMonitor
  in_syncService : calls.

(** *** Webhooks before the deployment *)

Section webhooks.
Context `{Env} (cfg : TCR) (kueue k' : Kueue).
Let owner := kueueOwnerReference kueue.

Definition applied (k : kind) (h : trace) : Prop :=
  ∃ o c a c', Ev (CApplyImproved k o c) (inr a, c') ∈ h.
Lemma applied_app k h t : applied k h → applied k (h ++ t).
Proof. intros (o & c & a & c' & Ha). exists o, c, a, c'. by apply elem_of_earlier. Qed.

Lemma applyImproved_applied k (o : obj k) s h :
  wpM (λ _ _, True) (applyImproved k o) s h (λ h' _ r, ∀ a, r = Ok a → applied k h').
Proof.
  unfold applyImproved. apply wpM_bind, wpM_get, wpM_bind, wpM_call; [exact I|]. intros [r c].
  apply wpM_bind, wpM_modify. destruct r as [e|a]; [by intros ? [=]|].
  intros a' [= <-]. exists o, (resourceCache s), a, c. apply elem_of_last.
Qed.

Lemma manageMutatingWebhook_applied kq s h :
  wpM (λ _ _, True) (manageMutatingWebhook kq owner) s h
    (λ h' _ r, ∀ a, r = Ok a → applied KMutatingWebhookConfiguration h').
Proof.
  unfold manageMutatingWebhook. apply wpM_bind, wpM_get, wpM_bind, wpM_of_res.
  destruct (ReadOrDie _ _) as [o|e|p]; [|by intros ? [=]..].
  apply wpM_bind, wpM_of_res. destruct (desiredMutatingWebhook _ _ _ _); [|by intros ? [=]..].
  apply applyImproved_applied.
Qed.

Lemma manageValidatingWebhook_applied kq s h :
  wpM (λ _ _, True) (manageValidatingWebhook kq owner) s h
    (λ h' _ r, ∀ a, r = Ok a → applied KValidatingWebhookConfiguration h').
Proof.
  unfold manageValidatingWebhook. apply wpM_bind, wpM_get, wpM_bind, wpM_of_res.
  destruct (ReadOrDie _ _) as [o|e|p]; [|by intros ? [=]..].
  apply wpM_bind, wpM_of_res. destruct (desiredValidatingWebhook _ _ _ _); [|by intros ? [=]..].
  apply applyImproved_applied.
Qed.

(** The webhook step, knowing that its success means applied webhooks. *)
Lemma syncWebhooks_wp kq ann s h :
  same_config cfg s → operand_facts cfg kueue k' h →
  wpM (sync_allowed cfg) (syncWebhooks kq owner ann) s h (λ h' s' r,
    same_config cfg s' ∧ operand_facts cfg kueue k' h' ∧ (∀ a, r = Ok a → webhooks_applied h')).
Proof.
  intros Hs Hf. unfold syncWebhooks. apply wpM_bind.
  eapply wpM_mono; [|apply (wpM_and _ (λ _ _, True));
    [apply (operand_step cfg kueue k' (manageMutatingWebhook kq owner) s h
       (λ h' s' _, same_config cfg s' ∧ operand_facts cfg kueue k' h')); auto with calls
    |apply manageMutatingWebhook_applied]].
  intros h1 s1 [[wh b]|e|p] [[Hs1 Hf1] Ha]; [|by split_and!..].
  specialize (Ha _ eq_refl).
  apply (operand_bind cfg kueue k'); [apply in_annotateHash|done..|].
  intros h2 s2 [ann2|e|p] Hs2 Hf2 [t2 ->]; [|by split_and!..].
  apply (applied_app _ _ t2) in Ha. apply wpM_bind.
  eapply wpM_mono; [|apply (wpM_and _ (λ _ _, True));
    [apply (operand_step cfg kueue k' (manageValidatingWebhook kq owner) s2 (h1 ++ t2)
       (λ h' s' _, same_config cfg s' ∧ operand_facts cfg kueue k' h' ∧ ∃ t, h' = (h1 ++ t2) ++ t)); auto with calls
    |apply manageValidatingWebhook_applied]].
  intros h3 s3 [[vwh b3]|e|p] [(Hs3 & Hf3 & t3 & ->) Hv]; [|by split_and!..].
  specialize (Hv _ eq_refl). apply (applied_app _ _ t3) in Ha.
  apply (operand_bind cfg kueue k'); [apply in_annotateHash|done..|].
  intros h4 s4 [ann4|e|p] Hs4 Hf4 [t4 ->]; [|by split_and!..].
  apply (operand_step cfg kueue k'); [auto with calls|done..|].
  intros h5 s5 r Hs5 Hf5 [t5 ->]. split; [done|]. split; [done|]. intros _ _.
  apply webhooks_applied_app, webhooks_applied_app.
  destruct Ha as (o1 & c1 & a1 & c1' & Ha), Hv as (o2 & c2 & a2 & c2' & Hv).
  split; [by exists o1, c1, a1, c1'|by exists o2, c2, a2, c2'].
Qed.

(** The deployment, then the status. *)
Lemma syncDeployment_wp kq dep ann s h :
  same_config cfg s → operand_facts cfg kueue k' h → webhooks_applied h →
  wpM (sync_allowed cfg) (syncDeployment kq owner dep ann) s h (λ _ _ _, True).
Proof.
  intros Hs Hf Hw. unfold syncDeployment. apply wpM_bind.
  eapply (wpM_inM _ (same_config cfg) (is_manage_call cfg owner true));
    [by apply in_manageDeployment|done| |].
  - intros t c Hc _. destruct (operand_facts_app _ _ _ _ t Hf).
    assert (∃ kueue k', admitted kueue k' (h ++ t) ∧ ¬ deleting k' ∧
      is_manage_call cfg (kueueOwnerReference kueue) true c) by (by exists kueue, k').
    destruct c; try done. split_and!; [done..|]. destruct k; try done. by apply webhooks_applied_app.
  - intros t s' [[[d u] kq']|e|p] _ Hs'; [|done..].
    eapply (wpM_calls _ is_status_call); [apply updateKueueStatus_calls| |done].
    intros t' c Hc _. by destruct c.
Qed.
End webhooks.

(** ** The live path *)

Section live.
Context `{Env} (cfg : TCR) (kueue k' : Kueue).
Let opns := operatorNamespace cfg.
Let owner := kueueOwnerReference kueue.

Lemma syncOperand_wp kq tls dep ann s h :
  same_config cfg s → operand_facts cfg kueue k' h →
  wpM (sync_allowed cfg) (syncOperand kq tls owner dep ann) s h (λ _ _ _, True).
Proof.
  intros Hs Hf. unfold syncOperand.
  apply (operand_bind cfg kueue k'); [auto with calls|done..|]. intros h1 s1 [a1|?|?] Hs1 Hf1 _; [|done..].
  apply (operand_bind cfg kueue k'); [auto with calls|done..|]. intros h2 s2 [a2|?|?] Hs2 Hf2 _; [|done..].
  apply (operand_bind cfg kueue k'); [auto with calls|done..|]. intros h3 s3 [a3|?|?] Hs3 Hf3 _; [|done..].
  apply wpM_bind. eapply wpM_mono; [|by apply (syncWebhooks_wp cfg kueue k')].
  intros h4 s4 [a4|?|?] (Hs4 & Hf4 & Hw); [|done..]. specialize (Hw _ eq_refl).
  apply (operand_bind cfg kueue k'); [auto with calls|done..|].
  intros h5 s5 [a5|?|?] Hs5 Hf5 [t5 ->]; [|done..].
  apply (syncDeployment_wp cfg kueue k'); [done..|by apply webhooks_applied_app].
Qed.

(** *** Issuer and certificates *)

Lemma in_certificate_apply C r (f : TCR → json) :
  (∀ s cache, same_config cfg s → C (CDynApply r (f s) cache)) →
  inM (same_config cfg) C (c ← mget; ApplyUnstructuredResourceImproved r (f c)).
Proof.
  intros Hf. apply inM_bind_get. intros s Hs. unfold ApplyUnstructuredResourceImproved.
  apply inM_bind_get. intros s' _. apply inM_bind; [apply inM_call; by apply Hf|].
  intros [a c]. apply inM_bind; [|intros _; apply inM_of_sum].
  apply inM_modify. intros s2. apply same_config_cache.
Qed.

Lemma in_annotateHash' C what key o ann :
  inM (same_config cfg) C (annotateHash what key o ann).
Proof. unfold annotateHash. solve_in. Qed.

Lemma in_manageIssuer kq ann : inM (same_config cfg) (is_certificate_apply cfg kq) (manageIssuer kq ann).
Proof.
  unfold manageIssuer. apply inM_bind; [|intros [j b]; apply in_annotateHash'].
  apply (in_certificate_apply _ RIssuers (λ c, issuerCR (operatorNamespace c) kq)).
  intros s cache Hs. cbn. by rewrite (same_ns _ _ Hs).
Qed.

Lemma in_mfold_elem {A B} C (f : B → A → M TCR B) b l :
  (∀ b a, a ∈ l → inM (same_config cfg) C (f b a)) → inM (same_config cfg) C (mfold f b l).
Proof.
  revert b. induction l as [|a l IH]; intros b Hf; cbn [mfold]; [apply inM_ret|].
  apply inM_bind; [apply Hf; set_solver|]. intros b'. apply IH. intros b2 a2 Ha. apply Hf. set_solver.
Qed.

Lemma in_manageCertificates kq ann :
  inM (same_config cfg) (is_certificate_apply cfg kq) (manageCertificates kq ann).
Proof.
  unfold manageCertificates. apply inM_bind_get. intros s Hs. apply in_mfold_elem. intros ann' d Hd.
  apply inM_bind; [|intros [j b]; apply in_annotateHash'].
  apply (in_certificate_apply _ RCertificates (λ c, certificateCR (operatorNamespace c) kq d)).
  intros s' cache Hs'. cbn. rewrite (same_ns _ _ Hs'). exists d. split; [|done]. by rewrite <-(same_ns _ _ Hs).
Qed.

Lemma certificate_apply_allowed h c :
  admitted kueue k' h → ¬ deleting k' → is_certificate_apply cfg k' c → sync_allowed cfg h c.
Proof. intros Ha Hl Hc. destruct c; try done. by exists kueue, k'. Qed.

(** *** The waits *)

Lemma wait_wp name s h :
  operatorNamespace s = opns →
  wpM (sync_allowed cfg) (WaitForCertificateReady certificateFuel (operatorNamespace s) name (2 * Minute)) s h
    (λ h' s' r, s' = s ∧ (∃ t, h' = h ++ t) ∧ (r = Ok tt → certificate_ready opns name h')).
Proof.
  intros Hns. rewrite Hns. eapply wpM_mono; [|apply wpM_extends,
    (WaitForCertificateReady_wp (sync_allowed cfg) certificateFuel opns name (2 * Minute) s h)].
  - intros h' s' r (Hext & -> & Hr). split; [done|]. split; [done|]. intros Hok.
    exists h', []. split; [by rewrite app_nil_r|]. by apply Hr.
  - intros h' c Hc. apply observation_allowed. by destruct c.
Qed.

Lemma waitForCertificates_wp s h :
  operatorNamespace s = opns →
  wpM (sync_allowed cfg) waitForCertificates s h
    (λ h' s' r, s' = s ∧ (∃ t, h' = h ++ t) ∧ (r = Ok tt → certificates_ready opns h')).
Proof.
  intros Hns. unfold waitForCertificates. apply wpM_bind, wpM_get. cbv zeta.
  apply wpM_bind. eapply wpM_mono; [|by apply wait_wp].
  intros h1 s1 [[]|e|p] (-> & [t1 ->] & H1); [|by split_and!; eauto..].
  apply wpM_bind. eapply wpM_mono; [|by apply wait_wp].
  intros h2 s2 [[]|e|p] (-> & [t2 ->] & H2);
    [|split_and!; [done|eexists; by rewrite <-app_assoc|done]..].
  eapply wpM_mono; [|by apply wait_wp].
  intros h3 s3 r (-> & [t3 ->] & H3).
  split_and!; [done|eexists; by rewrite <-!app_assoc|]. intros Hr. split_and!.
  - apply certificate_ready_app, certificate_ready_app. by apply H1.
  - apply certificate_ready_app. by apply H2.
  - by apply H3.
Qed.

(** *** The TLS profile *)

Lemma resolveTLS_wp kq s h :
  same_config cfg s →
  wpM (sync_allowed cfg) (resolveTLS kq) s h (λ h' s' r,
    same_config cfg s' ∧ (∃ t, h' = h ++ t) ∧ (∀ tls, r = Ok (Some tls) → tls_supported cfg h')).
Proof.
  intros Hs. unfold resolveTLS. apply wpM_bind, wpM_get.
  destruct (isOpenShift s) eqn:Ho; cbn [negb].
  2:{ apply wpM_ret. split; [done|]. split; [exists []; by rewrite app_nil_r|]. intros tls _. left.
      destruct Hs as (_ & _ & Hs & _). congruence. }
  unfold FetchAPIServerTLSProfile. apply wpM_bind, wpM_bind, wpM_call; [done|].
  intros [e|profile]; [split_and!; [done|by eexists|done]|]. apply wpM_ret.
  apply wpM_bind, wpM_try, wpM_of_res.
  destruct (TLSOptionsFromProfile profile) as [[[opts uc] ug]|e|p] eqn:Et;
    [| |split_and!; [done|by eexists|done]].
  - eapply wpM_mono; [|apply wpM_extends, (wpM_inM _ (same_config cfg) is_observation _ _ _
      (λ h' s' r, same_config cfg s' ∧ Ev (CAPIServerGet "cluster") (inr profile) ∈ h'))].
    + intros h' s' r ([t ->] & Hs' & Hin). split; [done|].
      split; [eexists; by rewrite <-app_assoc|]. intros tls _. right. by exists profile, (opts, uc, ug).
    + unfold Warningf. solve_in.
    + done.
    + intros t c Hc _. by apply observation_allowed.
    + intros t s' r _ Hs'. split; [done|]. apply elem_of_earlier, elem_of_last.
  - unfold Eventf. apply wpM_bind, wpM_call; [done|]. intros [].
    apply wpM_bind. eapply (wpM_inM _ (same_config cfg) is_observation);
      [by apply updateKueueStatus_inM; intros []|done| |].
    + intros t c Hc _. by apply observation_allowed.
    + intros t s' [u|e'|p] _ Hs'; (split_and!; [done|eexists; by rewrite <-!app_assoc|done]).
Qed.

(** *** The live path *)

Lemma syncLive_wp dep ann s h :
  same_config cfg s → admitted kueue k' h → ¬ deleting k' →
  wpM (sync_allowed cfg) (syncLive k' owner dep ann) s h (λ _ _ _, True).
Proof.
  intros Hs Ha Hl. unfold syncLive. apply wpM_bind.
  eapply (wpM_inM _ (same_config cfg) (is_certificate_apply cfg k')); [apply in_manageIssuer|done| |].
  { intros t c Hc _. apply certificate_apply_allowed; [by apply admitted_app|done..]. }
  intros t1 s1 [a1|?|?] _ Hs1; [|done..]. apply (admitted_app _ _ _ t1) in Ha.
  apply wpM_bind. eapply (wpM_inM _ (same_config cfg) (is_certificate_apply cfg k'));
    [apply in_manageCertificates|done| |].
  { intros t c Hc _. apply certificate_apply_allowed; [by apply admitted_app|done..]. }
  intros t2 s2 [a2|?|?] _ Hs2; [|done..]. apply (admitted_app _ _ _ t2) in Ha.
  apply wpM_bind. eapply wpM_mono; [|apply waitForCertificates_wp; apply Hs2].
  intros h3 s3 [[]|?|?] (-> & [t3 ->] & Hc); [|done..]. specialize (Hc eq_refl).
  apply (admitted_app _ _ _ t3) in Ha.
  unfold rereadKueue. apply wpM_bind, wpM_bind, wpM_call; [done|].
  intros [e|[[kq'|]|]]; [done| |done..]. apply wpM_ret.
  apply wpM_bind. eapply wpM_mono; [|by apply resolveTLS_wp].
  intros h4 s4 [[tls|]|?|?] (Hs4 & [t4 ->] & Ht); [|done..].
  apply syncOperand_wp; [done|]. split; [by do 2 apply admitted_app|done| |by eapply Ht].
  by do 2 apply certificates_ready_app.
Qed.
End live.

(** ** The deletion path *)

(** Proved for any monitor that allows the cleanup under facts [F] that
    persist, and the finalizer's update once everything is cleaned. *)
Section deletion.
Context (opns : string) (allowed : trace → call → Prop) (F : trace → Prop).
Context (F_app : ∀ h t, F h → F (h ++ t)).
Context (F_cleanup : ∀ h c, F h → cleanup_allowed opns h c → allowed h c).
Context (F_finalizer : ∀ h c, F h → all_cleaned opns h → finalizer_call false h c → allowed h c).

(** One step of the deletion path: what it cleaned is added to what was. *)
Lemma cleanup_step (st : stage) (m : M TCR unit) (Before Done : trace → Prop) s h (f : unit → M TCR unit) Q :
  (∀ h t, Before h → Before (h ++ t)) →
  (∀ h, wpM (stage_allowed opns st) m s h (cleanup_post s h Done)) →
  F h → Before h →
  (∀ h', F h' → Before h' → Done h' → wpM allowed (f tt) s h' Q) →
  (∀ h' e, Q h' s (Err e)) →
  wpM allowed (m ≫= f) s h Q.
Proof using F_app F_cleanup.
  intros Hmono Hm Hf HB Hk HQ. apply wpM_bind. eapply wpM_mono; [|eapply wpM_weaken; [apply Hm|]].
  - intros h' s' [[]|e|p] (-> & [t ->] & HD); [|apply HQ|done].
    apply Hk; [by apply F_app|by apply Hmono|done].
  - intros t c Hc. apply F_cleanup; [by apply F_app|by exists st].
Qed.

Lemma finalizeKueue_wp kq s h :
  operatorNamespace s = opns → F h →
  wpM allowed (finalizeKueue kq) s h
    (λ h' s' r, s' = s ∧ (∀ p, r ≠ Panic p) ∧ (r = Ok tt → all_cleaned opns h')).
Proof using F_app F_cleanup F_finalizer.
  intros Hns Hf. unfold finalizeKueue.
  apply (cleanup_step Webhooks _ (λ _, True) webhooks_cleaned); [done|intros h0; apply cleanUpWebhooks_wp|done..| |intros ? ?; by split_and!].
  intros h1 Hf1 _ H1.
  apply (cleanup_step CertificatesAndIssuers _ webhooks_cleaned (certificates_cleaned opns));
    [apply webhooks_cleaned_app|intros h0; by apply cleanUpCertificatesAndIssuers_wp|done..| |intros ? ?; by split_and!].
  intros h2 Hf2 Hw2 H2.
  apply (cleanup_step ClusterRoles _ (λ h, webhooks_cleaned h ∧ certificates_cleaned opns h) clusterroles_cleaned);
    [intros h0 t [? ?]; split; [by apply webhooks_cleaned_app|by apply certificates_cleaned_app]
    |intros h0; apply cleanUpClusterRoles_wp|done..| |intros ? ?; by split_and!].
  intros h3 Hf3 [Hw3 Hc3] H3.
  apply (cleanup_step ClusterRoleBindings _ (λ h, webhooks_cleaned h ∧ certificates_cleaned opns h ∧ clusterroles_cleaned h)
      clusterrolebindings_cleaned);
    [intros h0 t (? & ? & ?); split_and!;
       [by apply webhooks_cleaned_app|by apply certificates_cleaned_app|by apply kind_cleaned_app]
    |intros h0; apply cleanUpClusterRoleBindings_wp|done..| |intros ? ?; by split_and!].
  intros h4 Hf4 (Hw4 & Hc4 & Hr4) H4.
  apply (cleanup_step NamedResources _ (λ h, webhooks_cleaned h ∧ certificates_cleaned opns h ∧
      clusterroles_cleaned h ∧ clusterrolebindings_cleaned h) (resources_cleaned opns));
    [intros h0 t (? & ? & ? & ?); split_and!; [by apply webhooks_cleaned_app
       |by apply certificates_cleaned_app|by apply kind_cleaned_app|by apply kind_cleaned_app]
    |intros h0; by apply cleanUpResources_wp|done..| |intros ? ?; by split_and!].
  intros h5 Hf5 (Hw5 & Hc5 & Hr5 & Hb5) H5.
  assert (all_cleaned opns h5) as Hall by done.
  apply wpM_bind, wpM_try. unfold removeFinalizerFromKueueInstance.
  eapply wpM_mono; [|apply (wpM_along is_finalizer_call (finalizer_call false));
    [by apply updateFinalizer_wp|intros t c; apply finalizer_call_is|]].
  - intros h' s' [x|e|p] [[-> Hx] (t & -> & _)]; [| |done];
      (split; [done|split; [done|intros _; by apply all_cleaned_app]]).
  - intros t c Hc _. apply F_finalizer; [by apply F_app|by apply all_cleaned_app|done].
Qed.
End deletion.

(** ** The whole reconciliation *)

Section whole.
Context `{Env} (cfg : TCR).
Let opns := operatorNamespace cfg.

(** The calls of the dependency checks. *)
Definition is_dependency_call (c : call) : Prop :=
  is_discovery_call c ∨ match c with CEvent _ _ _ | CFeatureGateGet _ => True | _ => False end.

Lemma same_config_capacity b s : same_config cfg s → same_config cfg (tcr_set_draConsumableCapacityEnabled b s).
Proof. done. Qed.
Lemma same_config_partitionable b s : same_config cfg s → same_config cfg (tcr_set_draPartitionableDevicesEnabled b s).
Proof. done. Qed.

Lemma in_updateDRAGates b : inM (same_config cfg) is_dependency_call (updateDRAGates b).
Proof.
  unfold updateDRAGates, isKubernetesMinorAtLeast. apply inM_bind.
  { solve_in. by left. }
  intros v. apply inM_bind_get. intros s _. apply inM_bind; [by apply inM_modify|]. intros [].
  destruct (isOpenShift s && b); [|apply inM_ret]. apply inM_bind; [apply inM_call; by right|].
  intros [e|fg]; [destruct (negb v); [by apply inM_modify|apply inM_ret]|].
  destruct (scanFeatureGate fg v). by apply inM_modify.
Qed.

Lemma in_missingOperator n g f : inM (same_config cfg) is_dependency_call (missingOperator n g f).
Proof.
  unfold missingOperator, isOperatorAvailability, isResourceRegisteredCached, lister.
  solve_in; by left.
Qed.

Lemma in_checkDependencies kueue : inM (same_config cfg) is_dependency_call (checkDependencies kueue).
Proof.
  unfold checkDependencies. apply inM_bind.
  { apply inM_mfold. intros ms f. unfold frameworkDependencies. pose proof in_missingOperator. solve_in. }
  intros ms. apply inM_bind.
  { unfold checkDRAAPIs, isResourceRegistered, ServerResourcesForGroupVersion. solve_in. by left. }
  intros b. apply inM_bind.
  { unfold draAPIDependencies, Eventf. solve_in. by right. }
  intros ms'. apply inM_bind; [apply in_updateDRAGates|]. intros []. apply inM_bind; [|intros ?; apply inM_ret].
  unfold draGateDependencies, Eventf. solve_in; by right.
Qed.

Lemma dependency_observation c : is_dependency_call c → is_observation c.
Proof. intros [Hc|Hc]; by destruct c. Qed.

Lemma syncInstalled_wp kueue s h :
  same_config cfg s → no_cleanup h → cert_manager_seen h →
  Ev (CCacheGetKueue OperatorConfigName) (inr (Some (Some kueue))) ∈ h →
  wpM (sync_allowed cfg) (syncInstalled kueue) s h (λ _ _ _, True).
Proof.
  intros Hs Hnc Hcm Hk. unfold syncInstalled. apply wpM_bind.
  eapply (wpM_inM _ (same_config cfg) is_dependency_call); [apply in_checkDependencies|done| |].
  { intros t c Hc _. by apply observation_allowed, dependency_observation. }
  intros t s1 [dep|?|?] Ht Hs1; [|done..].
  assert (no_cleanup (h ++ t)) as Hnc1.
  { apply no_cleanup_app; [done|]. eapply observation_no_cleanup; [|exact Ht].
    intros c Hc. by apply observation_is_no_cleanup, dependency_observation. }
  cbv zeta. apply wpM_bind.
  unfold addFinalizerToKueueInstance.
  eapply wpM_mono; [|apply (wpM_along is_finalizer_call (finalizer_call true));
    [by apply updateFinalizer_wp|intros t2 c; apply finalizer_call_is|]].
  - intros h2 s2 [k'|e|p] [[-> Hset] (t2 & -> & Ht2)]; [|done..].
    assert (admitted kueue k' ((h ++ t) ++ t2)) as Ha.
    { split; [by do 2 apply cert_manager_seen_app|].
      split; [by do 2 apply elem_of_earlier|done]. }
    destruct (om_DeletionTimestamp (ku_ObjectMeta k')) as [ts|] eqn:Hd.
    + eapply wpM_mono; [|apply (finalizeKueue_wp opns (sync_allowed cfg)
        (λ h, admitted kueue k' h ∧ deleting k'))]; [done|..].
      * intros h' t' []. split; [by apply admitted_app|done].
      * intros h' c [Ha' Hd'] [st Hst]. destruct c; try done; (split; [by exists st|by exists kueue, k']).
      * intros h' c [Ha' Hd'] Hall Hc. destruct c; try done. split; [apply Ha'|].
        destruct Hc as (m & original & Hm & Hp). exists m, original. split; [done|]. right. eauto 6.
      * apply Hs1.
      * split; [done|]. unfold deleting. by rewrite Hd.
    + apply (syncLive_wp cfg kueue k'); [done..|]. unfold deleting. rewrite Hd. tauto.
  - intros t2 c Hc Ht2. destruct c; try done. split; [by do 2 apply cert_manager_seen_app|].
    destruct Hc as (m & original & Hm & Hp). exists m, original. split; [done|]. left. split; [|done].
    apply no_cleanup_app; [done|]. eapply observation_no_cleanup; [|exact Ht2].
    intros c Hc'. by destruct c.
Qed.

Lemma sync_wp : wpM (sync_allowed cfg) sync cfg [] (λ _ _ _, True).
Proof.
  unfold sync, readKueue, Eventf. apply wpM_bind, wpM_bind, wpM_call; [done|].
  intros [e|[[kueue|]|]].
  1,3,4: apply wpM_bind, wpM_call; [done|]; intros []; exact I.
  apply wpM_ret. unfold isResourceRegisteredCached, lister.
  apply wpM_bind, wpM_bind, wpM_try.
  apply (wpM_call_sum _ (CLister KCRD "" "issuers.cert-manager.io") (λ r, r)); [done|].
  intros [e|crd].
  - destruct (IsNotFound e); [|done]. apply wpM_ret. cbn [negb]. unfold reportCertManagerMissing, Eventf.
    apply wpM_bind, wpM_call; [done|]. intros []. apply wpM_bind, wpM_try.
    eapply (wpM_calls _ is_status_call); [apply updateKueueStatus_calls| |].
    + intros t c Hc _. by destruct c.
    + intros t s' [?|?|?] _; done.
  - apply wpM_ret. cbn [negb]. apply syncInstalled_wp; [done| | |].
    + by repeat constructor.
    + exists crd. set_solver.
    + set_solver.
Qed.

(** C1: The reconciliation is safe at every point, whatever the cluster
    answers and wherever it stops. Without cert-manager nothing is written
    but the status; the finalizer is settled before anything is created;
    objects are created only for a resource that is not being deleted and
    deleted only for one that is; the operand is applied only when the three
    certificates were seen ready and the cluster's TLS profile is supported,
    the deployment only after both webhook configurations. A patch of the
    resource that is sent before the cleanup adds the finalizer to a resource
    that was read without it; one that removes it is sent only for a resource
    that is being deleted, when every cleanup step succeeded. What is written:
    the issuer and the certificates of the code in the operator's namespace,
    owned by the resource; objects that meet the contract of their kind
    ([managed]: in the operator's namespace where the kind has one, or
    [kube-system] for a role binding; owned by the resource, but for the
    ConfigMap and the CRDs); updates that carry the body of such an object and
    its metadata merged into the stored ones; and the ServiceMonitor built for
    a Kueue resource, where the cluster has that kind. Only the operand's
    resources are deleted. *)
Theorem sync_safe tr o : runs (sync cfg) tr o → trace_allowed (sync_allowed cfg) [] tr.
Proof. intros Hr. exact (proj1 (wp_runs _ _ _ _ _ _ Hr sync_wp)). Qed.

(** The deletion path on its own: deletions within the cleanup's contract,
    and the finalizer's update only once everything is cleaned. *)
Definition deletion_allowed (h : trace) (c : call) : Prop :=
  cleanup_allowed opns h c ∨ (finalizer_call false h c ∧ all_cleaned opns h).

(** C12: A deletion that reports success, including one whose finalizer could
    not be removed, has cleaned everything: every selected webhook
    configuration, certificate, issuer, cluster role and cluster role binding
    that was listed, the ConfigMap and the two secrets. The finalizer is not
    touched before that; nothing else is deleted; it does not panic and
    leaves the receiver as it was. *)
Theorem finalizeKueue_spec kueue tr o :
  runs (finalizeKueue kueue cfg) tr o →
  trace_allowed deletion_allowed [] tr ∧
  ∀ c' r, o = Some (c', r) → c' = cfg ∧ (∀ p, r ≠ Panic p) ∧ (r = Ok tt → all_cleaned opns tr).
Proof.
  intros Hr. destruct (wp_runs deletion_allowed _ _ _ [] _ Hr
    (finalizeKueue_wp opns deletion_allowed (λ _, True) (λ _ _ _, I) (λ h c _ Hc, or_introl Hc)
       (λ h c _ Hall Hc, or_intror (conj Hc Hall)) kueue cfg [] eq_refl I)) as [H1 H2].
  split; [done|]. intros c' r ->. exact (H2 _ eq_refl).
Qed.
End whole.

(** ** Without cert-manager *)

Definition is_report_call (c : call) : Prop :=
  match c with CEvent _ _ _ | CNow | CKueueApplyStatus _ _ _ => True | _ => False end.

Lemma reportCertManagerMissing_wp `{Env} kueue (c : TCR) h :
  wpM (λ _, is_report_call) (reportCertManagerMissing kueue) c h
    (λ _ c' r, c' = c ∧ r = Ok tt).
Proof.
  unfold reportCertManagerMissing, Eventf, updateKueueStatus, now.
  apply wpM_bind, wpM_call; [done|]. intros []. apply wpM_bind, wpM_try, wpM_bind, wpM_call; [done|].
  intros t. apply (wpM_call_err _ (CKueueApplyStatus _ _ _) (λ r, r)); [done|].
  by intros [e|].
Qed.

Definition is_quiet_call (c : call) : Prop :=
  match c with
  | CCacheGetKueue _ => True
  | CLister KCRD _ n => n = "issuers.cert-manager.io"
  | _ => is_report_call c
  end.

(** While cert-manager is not installed a reconciliation reads the Kueue
    resource, reports, and succeeds, also for a resource that is being deleted:
    nothing is cleaned up and its finalizer stays. *)
Theorem sync_without_cert_manager `{Env} (c c' : TCR) tr r :
  runs (sync c) tr (Some (c', r)) →
  (∀ a, Ev (CLister KCRD "" "issuers.cert-manager.io") a ∈ tr → ∃ e, a = inl e ∧ IsNotFound e = true) →
  c' = c ∧ Forall (is_quiet_call ∘ ev_call) tr ∧ r = Ok tt.
Proof.
  intros Hr. revert c' r Hr.
  assert (wpM (λ _ _, True) sync c [] (λ h c' r,
    (∀ a, Ev (CLister KCRD "" "issuers.cert-manager.io") a ∈ h → ∃ e, a = inl e ∧ IsNotFound e = true) →
    c' = c ∧ Forall (is_quiet_call ∘ ev_call) h ∧ r = Ok tt)) as Hwp.
  2:{ intros c' r Hr. destruct (wp_runs _ _ _ _ _ _ Hr Hwp) as [_ H1]. exact (H1 _ eq_refl). }
  unfold sync, readKueue, Eventf. apply wpM_bind, wpM_bind, wpM_call; [done|].
  intros [e|[[kueue|]|]].
  1,3,4: apply wpM_bind, wpM_call; [done|]; intros []; intros _;
    (split_and!; [done|by repeat constructor|done]).
  apply wpM_ret. unfold isResourceRegisteredCached, lister.
  apply wpM_bind, wpM_bind, wpM_try.
  apply (wpM_call_sum _ (CLister KCRD "" "issuers.cert-manager.io") (λ r, r)); [done|].
  intros [e|crd].
  - destruct (IsNotFound e) eqn:He.
    + apply wpM_ret. cbn [negb].
      eapply wpM_mono; [|apply (wpM_along is_report_call (λ _, is_report_call) (λ _ _, True)); [apply reportCertManagerMissing_wp|done..]].
      intros h' c1 r1 [[-> Hne] (t & -> & Ht)] _. split; [done|]. split; [|done].
      apply Forall_app. split; [by repeat constructor|]. eapply Forall_impl; [exact Ht|].
      intros [[] ?]; done.
    + intros Ha. destruct (Ha (inl e)) as (e' & [= <-] & He'); [set_solver|congruence].
  - apply wpM_ret. cbn [negb]. eapply wp_mono; [|apply wp_trivial].
    intros h' [c1 r1] [t ->] Ha. destruct (Ha (inr crd)) as (e & [=] & _).
    apply elem_of_earlier. set_solver.
Qed.

(** ** Concrete instances *)

Definition is_write (c : call) : bool :=
  match c with
  | CCreate _ _ | CUpdate _ _ | CApply _ _ _ | CApplyImproved _ _ _ | CDynApply _ _ _
  | CApplyServiceMonitor _ | CKueuePatch _ _ => true
  | _ => false
  end.

#[local] Existing Instance example_env.

(** What a run left: how many writes and deletions, and how it ended. *)
Definition summary (p : prog (TCR * res unit)) (kueue : Kueue) (certManager : bool)
    : nat * nat * option (res unit) :=
  let '(tr, o, _) := run (example_cluster kueue certManager) p 0%Z in
  (count is_write tr, count is_cleanup_call tr, snd <$> o).

(** The first reconciliation of a fresh resource adds the finalizer and writes
    everything, without a deletion. *)
Example sync_fresh : summary (sync example_tcr) (example_kueue []) true = (35, 0, Some (Ok tt)).
Proof. vm_compute. reflexivity. Qed.

(** The deletion of a resource that carries the finalizer. *)
Example sync_deleted :
  summary (sync example_tcr) (kueue_deleted (example_kueue [KueueFinalizer])) true = (1, 9, Some (Ok tt)).
Proof. vm_compute. reflexivity. Qed.

Example sync_no_cert_manager :
  summary (sync example_tcr) (kueue_deleted (example_kueue [KueueFinalizer])) false = (0, 0, Some (Ok tt)).
Proof. vm_compute. reflexivity. Qed.

(** A resource that is being deleted and does not carry the finalizer gets it
    first: the addition does not look at the deletion timestamp. *)
Example sync_deleted_without_finalizer :
  let p := run (example_cluster (kueue_deleted (example_kueue [])) true) (sync example_tcr) 0%Z in
  List.find is_write (map ev_call p.1.1) =
    Some (CKueuePatch "cluster" (CreateTwoWayMergePatch [] [KueueFinalizer])).
Proof. vm_compute. reflexivity. Qed.

Lemma sync_safe_witness :
  ∃ tr o, runs (sync example_tcr) tr o ∧ count is_write tr = 35 ∧
    trace_allowed (sync_allowed example_tcr) [] tr.
Proof.
  destruct (run (example_cluster (example_kueue []) true) (sync example_tcr) 0%Z)
    as [[tr o] w] eqn:E.
  pose proof (run_runs _ _ _ _ _ _ E) as Hr.
  exists tr, o. split; [exact Hr|]. split; [|exact (sync_safe example_tcr tr o Hr)].
  pose proof sync_fresh as Hs. unfold summary in Hs. rewrite E in Hs. by injection Hs.
Defined.

Lemma finalizeKueue_spec_witness :
  ∃ tr, runs (finalizeKueue (kueue_deleted (example_kueue [KueueFinalizer])) example_tcr) tr
          (Some (example_tcr, Ok tt)) ∧
    all_cleaned (operatorNamespace example_tcr) tr.
Proof.
  destruct (run (example_cluster (kueue_deleted (example_kueue [KueueFinalizer])) true)
    (finalizeKueue (kueue_deleted (example_kueue [KueueFinalizer])) example_tcr) 0%Z)
    as [[tr o] w] eqn:E.
  pose proof (run_runs _ _ _ _ _ _ E) as Hr. vm_compute in E. injection E as <- <- <-.
  eexists. split; [exact Hr|].
  exact (proj2 (proj2 (proj2 (finalizeKueue_spec example_tcr _ _ _ Hr) _ _ eq_refl)) eq_refl).
Defined.

Definition ev_crd_error (e : event) : option (option error) :=
  match e with
  | Ev (CLister KCRD _ _) r => Some (match r with inl e => Some e | inr _ => None end)
  | _ => None
  end.

Lemma sync_without_cert_manager_witness :
  ∃ tr, runs (sync example_tcr) tr (Some (example_tcr, Ok tt)) ∧
    Forall (is_quiet_call ∘ ev_call) tr ∧ length tr = 5.
Proof.
  destruct (run (example_cluster (kueue_deleted (example_kueue [KueueFinalizer])) false)
    (sync example_tcr) 0%Z) as [[tr o] w] eqn:E.
  pose proof (run_runs _ _ _ _ _ _ E) as Hr. vm_compute in E. injection E as <- <- <-.
  eexists. split; [exact Hr|]. split; [|reflexivity].
  refine (proj1 (proj2 (sync_without_cert_manager example_tcr example_tcr _ (Ok tt) Hr _))).
  intros a Ha. rewrite !elem_of_cons in Ha.
  destruct Ha as [Ha|[Ha|[Ha|[Ha|[Ha|Ha]]]]]; [| | | | |by apply elem_of_nil in Ha];
    apply (f_equal ev_crd_error) in Ha; cbn in Ha; try discriminate Ha.
  destruct a as [e|crd]; [|discriminate Ha]. injection Ha as ->. by eexists.
Defined.
