(* ===== verification/Refinement.v ===== *)
(** * The reconciliation refines a phase machine

    An abstract specification of a reconciliation: the phases it goes through,
    what lets it enter the next one, and which calls it may make in each. The
    refinement theorem says that every run of [sync], also one that stops, fails
    or panics anywhere, is an execution of this machine; what a reconciliation
    that reports success has achieved follows by induction on executions. *)
From S2P Require Import Prelude GoStd K8s ApiTypes DraHelpers ConfigMap TlsProfile K8sObjects.
From S2P Require Import PodWebhook Effects Monad Cert ResourceApply Finalizer Reconciler Discovery.
From S2P Require Import Conditions CachedApply Cleanup Manage Managed Sync Inventory SyncSafety.

(** ** The machine *)

(** The parts of the cleanup. *)
Definition cleanup_order : list stage :=
  [Webhooks; CertificatesAndIssuers; ClusterRoles; ClusterRoleBindings; NamedResources].

Definition stage_done (opns : string) (st : stage) : trace → Prop :=
  match st with
  | Webhooks => webhooks_cleaned
  | CertificatesAndIssuers => certificates_cleaned opns
  | ClusterRoles => clusterroles_cleaned
  | ClusterRoleBindings => clusterrolebindings_cleaned
  | NamedResources => resources_cleaned opns
  end.

(** The certificates in the order they are waited for. *)
Definition certificateNames : list string :=
  ["webhook-cert"; certMetricsCerts; secretKueueVisibilityServerCert].

(** Five ways to report success. *)
Inductive verdict : Type := Unreadable | NoCertManager | Deleted | UnsupportedTLS | Reported.

(** [k] is the Kueue resource as it was read, [k2] as it was read again after
    the waits, [tls] the options of the cluster's TLS profile. *)
Inductive phase : Type :=
  | Starting
  | Loaded (k : Kueue)
  | Unsupported (k : Kueue)
  | Supported (k : Kueue)
  | Checked (k : Kueue)
  | Deleting (todo : list stage)
  | Issuing (k : Kueue)
  | Certifying (k : Kueue)
  | Waiting (k : Kueue) (todo : list string)
  | Profiling (k k2 : Kueue)
  | Applying (k k2 : Kueue) (tls : option Config.TLSOptions) (todo : list (list item))
  | Finished (v : verdict).

Section machine.
Context `{Env} (cfg : TCR).
Let opns := operatorNamespace cfg.

(** The steps that apply the operand, the deployment last. *)
Definition operand_stages (config : KueueConfiguration) (tls : option Config.TLSOptions)
    : list (list item) :=
  [[Generated opns config tls]; namespacedItems cfg; clusterWideItems cfg; webhookItems;
   monitored cfg [Monitor]; [Named KDeployment OperandName]].

Definition kueue_config (k : Kueue) : KueueConfiguration := ks_Config (ku_Spec k).

(** The resource was read. *)
Definition kueue_read (k : Kueue) (t : trace) : Prop :=
  Ev (CCacheGetKueue OperatorConfigName) (inr (Some (Some k))) ∈ t.
Definition nothing_read (t : trace) : Prop := ∀ k, ¬ kueue_read k t.

(** The TLS options are those of the cluster's profile; there are none off
    OpenShift. *)
Definition tls_resolved (tls : option Config.TLSOptions) (t : trace) : Prop :=
  if isOpenShift cfg then
    ∃ profile opts unmapped, Ev (CAPIServerGet "cluster") (inr profile) ∈ t ∧
      TLSOptionsFromProfile profile = Ok (opts, unmapped.1, unmapped.2) ∧ tls = Some opts
  else tls = None.
Definition tls_rejected (t : trace) : Prop :=
  isOpenShift cfg = true ∧ ∃ profile e, Ev (CAPIServerGet "cluster") (inr profile) ∈ t ∧
    TLSOptionsFromProfile profile = Err e.

Definition status_reported (t : trace) : Prop :=
  ∃ config force manager, Ev (CKueueApplyStatus config force manager) None ∈ t.

Definition cert_manager_absent (t : trace) : Prop :=
  ∃ e, Ev (CLister KCRD "" "issuers.cert-manager.io") (inl e) ∈ t ∧ IsNotFound e = true.

(** [step ph t ph']: the events [t] lead from [ph] to [ph']. *)
Inductive step : phase → trace → phase → Prop :=
  | step_unreadable t : nothing_read t → step Starting t (Finished Unreadable)
  | step_load k t : kueue_read k t → step Starting t (Loaded k)
  | step_unsupported k t : cert_manager_absent t → step (Loaded k) t (Unsupported k)
  | step_report_missing k t : step (Unsupported k) t (Finished NoCertManager)
  | step_support k t : cert_manager_seen t → step (Loaded k) t (Supported k)
  | step_check k t : step (Supported k) t (Checked k)
  | step_delete k k' t :
      finalizer_settled k true t k' → deleting k' → step (Checked k) t (Deleting cleanup_order)
  | step_live k k' t :
      finalizer_settled k true t k' → ¬ deleting k' → step (Checked k) t (Issuing k)
  | step_clean st todo t : stage_done opns st t → step (Deleting (st :: todo)) t (Deleting todo)
  | step_release t : step (Deleting []) t (Finished Deleted)
  | step_issue k t :
      Forall (present_item t) [Unstructured RIssuers "selfsigned"] →
      step (Issuing k) t (Certifying k)
  | step_certify k t :
      Forall (present_item t) (Unstructured RCertificates <$> certificateNames) →
      step (Certifying k) t (Waiting k certificateNames)
  | step_ready k name todo t :
      certificate_seen_ready opns name t → step (Waiting k (name :: todo)) t (Waiting k todo)
  | step_reread k k2 t : kueue_read k2 t → step (Waiting k []) t (Profiling k k2)
  | step_rejected k k2 t :
      tls_rejected t → status_reported t → step (Profiling k k2) t (Finished UnsupportedTLS)
  | step_profile k k2 tls t :
      tls_resolved tls t →
      step (Profiling k k2) t (Applying k k2 tls (operand_stages (kueue_config k2) tls))
  | step_apply k k2 tls items todo t :
      Forall (present_item t) items →
      step (Applying k k2 tls (items :: todo)) t (Applying k k2 tls todo)
  | step_report k k2 tls t :
      status_reported t → step (Applying k k2 tls []) t (Finished Reported).

(** The calls of a phase, by its own history: reads and reports, the finalizer
    (added first, removed after the cleanup), the lists and deletions of one
    cleanup, issuer and certificates, objects within the contract of [managed]
    (when only the deployment is left, nothing but the deployment). *)

Definition allowed_in (ph : phase) (h : trace) (c : call) : Prop :=
  match ph with
  | Starting => match c with CCacheGetKueue _ | CEvent _ _ _ => True | _ => False end
  | Loaded _ => match c with CLister KCRD _ n => n = "issuers.cert-manager.io" | _ => False end
  | Unsupported _ => is_report_call c
  | Supported _ => is_dependency_call c
  | Checked _ => finalizer_call true h c
  | Deleting [] => finalizer_call false h c
  | Deleting (st :: _) => stage_allowed opns st h c
  | Issuing _ | Certifying _ => ∃ k', is_certificate_apply cfg k' c
  | Waiting _ [] => match c with CCacheGetKueue _ => True | _ => False end
  | Waiting _ _ => is_wait_call c
  | Profiling _ _ =>
      match c with CAPIServerGet _ | CEvent _ _ _ => True | _ => is_status_call c end
  | Applying _ _ _ [] => is_status_call c
  | Applying k _ _ [_] => is_deployment_call cfg (kueueOwnerReference k) true c
  | Applying k _ _ _ => is_manage_call cfg (kueueOwnerReference k) false c
  | Finished _ => False
  end.

Inductive execution (ph : phase) : trace → phase → Prop :=
  | execution_here : execution ph [] ph
  | execution_step h ph1 t ph2 :
      execution ph h ph1 → trace_allowed (allowed_in ph1) [] t → step ph1 t ph2 →
      execution ph (h ++ t) ph2.

(** [refines ph p]: every run of [p] is an execution from [ph], followed by
    calls of the phase it reached; it reports success exactly when the machine
    has finished. *)
Definition accounts (o : option (TCR * res unit)) (t : trace) (ph : phase) : Prop :=
  match o with
  | None => True
  | Some (_, Ok _) => t = [] ∧ ∃ v, ph = Finished v
  | Some (_, _) => ∀ v, ph ≠ Finished v
  end.
Definition refines (ph : phase) (p : prog (TCR * res unit)) : Prop := ∀ tr o, runs p tr o →
  ∃ h t ph', tr = h ++ t ∧ execution ph h ph' ∧ trace_allowed (allowed_in ph') [] t ∧ accounts o t ph'.

(** ** Rules *)

Lemma execution_trans ph1 h1 ph2 h2 ph3 :
  execution ph1 h1 ph2 → execution ph2 h2 ph3 → execution ph1 (h1 ++ h2) ph3.
Proof.
  intros H1. induction 1 as [|h ph t ph' _ IH Ht Hs]; [by rewrite app_nil_r|].
  rewrite app_assoc. by eapply execution_step.
Qed.

Lemma execution_cons ph1 t ph2 h ph3 :
  trace_allowed (allowed_in ph1) [] t → step ph1 t ph2 → execution ph2 h ph3 →
  execution ph1 (t ++ h) ph3.
Proof.
  intros Ht Hs. apply execution_trans. apply (execution_step ph1 [] ph1); [constructor|done..].
Qed.

Lemma runs_bind {S A B} (m : M S A) (f : A → M S B) s tr o :
  runs ((m ≫= f) s) tr o →
  (∃ tr1 s1 a tr2, tr = tr1 ++ tr2 ∧ runs (m s) tr1 (Some (s1, Ok a)) ∧ runs (f a s1) tr2 o) ∨
  (∃ o1, runs (m s) tr o1 ∧ match o1 with
     | None => o = None
     | Some (s1, Ok _) => o = None
     | Some (s1, Err e) => o = Some (s1, Err e) ∨ o = None
     | Some (s1, Panic p) => o = Some (s1, Panic p) ∨ o = None
     end).
Proof.
  unfold mbind, M_bind. generalize (m s) as p. intros p. revert tr.
  induction p as [[s1 r]|c k IH]; intros tr Hr.
  - destruct r as [a|e|p]; cbn [pbind fst snd] in Hr.
    + left. exists [], s1, a, tr. split_and!; [done|constructor|done].
    + apply runs_inv in Hr as [-> Ho]. right. exists (Some (s1, Err e)). split; [constructor|naive_solver].
    + apply runs_inv in Hr as [-> Ho]. right. exists (Some (s1, Panic p)). split; [constructor|naive_solver].
  - apply runs_inv in Hr as [[-> ->]|(r & tr' & -> & Hr)].
    + right. exists None. split; [constructor|done].
    + destruct (IH r _ Hr) as [(tr1 & s1 & a & tr2 & -> & H1 & H2)|(o1 & H1 & Ho)].
      * left. exists (Ev c r :: tr1), s1, a, tr2. split_and!; [done|by constructor|done].
      * right. exists o1. split; [by constructor|done].
Qed.

(** A phase whose step did not complete: nothing more happened. *)
Lemma refines_stuck ph tr (o : option (TCR * res unit)) :
  trace_allowed (allowed_in ph) [] tr → accounts o tr ph →
  ∃ h t ph', tr = h ++ t ∧ execution ph h ph' ∧ trace_allowed (allowed_in ph') [] t ∧ accounts o t ph'.
Proof. intros Ht Ho. exists [], tr, ph. split_and!; [done|constructor|done..]. Qed.

(** The rule for a phase: [m] keeps within its calls, and its success is a
    step to a phase that the rest refines. *)
Lemma refines_bind {A} ph (m : M TCR A) (f : A → M TCR unit) s :
  (∀ v, ph ≠ Finished v) →
  wpM (allowed_in ph) m s [] (λ t s' r, ∀ a, r = Ok a → ∃ ph', step ph t ph' ∧ refines ph' (f a s')) →
  refines ph ((m ≫= f) s).
Proof.
  intros Hph Hm tr o Hr. apply runs_bind in Hr as [(tr1 & s1 & a & tr2 & -> & H1 & H2)|(o1 & H1 & Ho)].
  - destruct (wp_runs _ _ _ _ _ _ H1 Hm) as [Ht HQ].
    destruct (HQ _ eq_refl a eq_refl) as (ph' & Hs & Hf). destruct (Hf _ _ H2) as (h & t & ph2 & -> & He & Ht2 & Ho).
    exists (tr1 ++ h), t, ph2. rewrite app_assoc. split_and!; [done|by eapply execution_cons|done..].
  - destruct (wp_runs _ _ _ _ _ _ H1 Hm) as [Ht _]. apply refines_stuck; [done|].
    destruct o1 as [[s1 [a|e|p]]|]; naive_solver.
Qed.

(** The last step of a path. *)
Lemma refines_last ph (m : M TCR unit) s :
  (∀ v, ph ≠ Finished v) →
  wpM (allowed_in ph) m s [] (λ t _ r, ∀ a, r = Ok a → ∃ v, step ph t (Finished v)) →
  refines ph (m s).
Proof.
  intros Hph Hm tr o Hr. destruct (wp_runs _ _ _ _ _ _ Hr Hm) as [Ht HQ].
  destruct o as [[s1 [a|e|p]]|]; [|by apply refines_stuck..].
  destruct (HQ _ eq_refl a eq_refl) as (v & Hs). exists tr, [], (Finished v).
  rewrite app_nil_r. split_and!; [done| |done|by split; eauto].
  rewrite <-(app_nil_r tr). eapply execution_cons; [done..|constructor].
Qed.

Lemma refines_finished v s : refines (Finished v) (mret (M := M TCR) tt s).
Proof.
  intros tr o Hr. apply runs_inv in Hr as [-> [->| ->]]; (apply refines_stuck; [done|]); cbn; eauto.
Qed.

(** A step whose calls lie in one set, and that keeps the settings. *)
Lemma refines_bind_in {A} ph (C : call → Prop) (m : M TCR A) (f : A → M TCR unit) s
    (P : trace → A → Prop) :
  (∀ v, ph ≠ Finished v) → (∀ h c, C c → allowed_in ph h c) →
  inM (same_config cfg) C m → same_config cfg s →
  wpM (λ _ _, True) m s [] (λ t _ r, ∀ a, r = Ok a → P t a) →
  (∀ t s' a, same_config cfg s' → P t a → ∃ ph', step ph t ph' ∧ refines ph' (f a s')) →
  refines ph ((m ≫= f) s).
Proof.
  intros Hph HC Hm Hs HP Hk. apply refines_bind; [done|].
  eapply wpM_mono; [|apply (wpM_and _ (λ _ _, True)); [apply (wpM_inM _ (same_config cfg) C _ _ _
    (λ _ s' _, same_config cfg s')); [done..| |done]|exact HP]].
  - intros t s' r [Hs' Ha] a Hr. eapply Hk; [done|]. by apply Ha.
  - intros h c Hc _. by apply HC.
Qed.

(** ** The phases of [sync] *)

Section path.
Context (k k2 : Kueue).
Let owner := kueueOwnerReference k.

Lemma refines_stage {A} C tls items todo (m : M TCR A) (f : A → M TCR unit) s :
  (∀ h c, C c → allowed_in (Applying k k2 tls (items :: todo)) h c) →
  inM (same_config cfg) C m → puts cfg m items → same_config cfg s →
  (∀ a s', same_config cfg s' → refines (Applying k k2 tls todo) (f a s')) →
  refines (Applying k k2 tls (items :: todo)) ((m ≫= f) s).
Proof.
  intros HC Hm Hp Hs Hf. eapply (refines_bind_in _ C _ _ _
    (λ t _, Forall (present_item t) items)); [done|exact HC|exact Hm|done| |].
  - eapply wpM_mono; [|by apply Hp]. by intros h s' r [_ Hr].
  - intros t s' a Hs' Hi. exists (Applying k k2 tls todo). split; [by constructor|by apply Hf].
Qed.

(** The status is sent, and accepted when the update succeeds. *)
Lemma updateKueueStatus_wp kq conditions n (s : TCR) h :
  wpM (λ _, is_status_call) (updateKueueStatus kq conditions n) s h
    (λ h' s' r, s' = s ∧ (∃ t, h' = h ++ t) ∧ ∀ u, r = Ok u → status_reported h').
Proof.
  unfold updateKueueStatus, now. apply wpM_bind, wpM_call; [done|]. intros t.
  apply (wpM_call_err _ (CKueueApplyStatus _ _ _) (λ r, r)); [done|].
  intros [e|]; (split; [done|]); (split; [eexists; by rewrite <-app_assoc|]); [by intros ? [=]|].
  intros u _. eexists _, _, _. apply elem_of_last.
Qed.

Lemma refines_report tls kq conditions n s :
  refines (Applying k k2 tls []) (updateKueueStatus kq conditions n s).
Proof.
  apply refines_last; [done|]. eapply wpM_mono; [|apply updateKueueStatus_wp].
  intros h s' r (_ & _ & Hr) u Hu. exists Reported. constructor. by eapply Hr.
Qed.

Lemma in_syncWebhooks late kq ann :
  inM (same_config cfg) (is_manage_call cfg owner late) (syncWebhooks kq owner ann).
Proof. unfold syncWebhooks. solve_in. Qed.
#[local] Hint Resolve in_syncWebhooks : calls.

Lemma refines_operand tls dep ann s :
  same_config cfg s →
  refines (Applying k k2 tls (operand_stages (kueue_config k2) tls)) (syncOperand k2 tls owner dep ann s).
Proof.
  intros Hs. unfold syncOperand, operand_stages.
  do 5 (apply (refines_stage (is_manage_call cfg owner false));
    [by intros h c Hc|auto with calls|auto with puts|done|clear s Hs; intros ? s Hs]).
  unfold syncDeployment. apply (refines_stage (is_deployment_call cfg owner true));
    [by intros h c Hc|by apply in_manageDeployment_only|apply puts_manageDeployment|done|intros [[d u] kq] s' _].
  apply refines_report.
Qed.

(** The TLS profile: its options, or a report that it is not supported. *)
Lemma resolveTLS_phase kq s :
  same_config cfg s →
  wpM (allowed_in (Profiling k k2)) (resolveTLS kq) s [] (λ t s' r,
    same_config cfg s' ∧ ∀ x, r = Ok x → match x with
      | Some tls => tls_resolved tls t
      | None => tls_rejected t ∧ status_reported t
      end).
Proof.
  intros Hs. pose proof Hs as (_ & _ & Ho & _). unfold resolveTLS, tls_resolved, tls_rejected.
  apply wpM_bind, wpM_get. rewrite Ho. destruct (isOpenShift cfg) eqn:Hos; cbn [negb].
  2:{ split; [done|]. by intros x [= <-]. }
  unfold FetchAPIServerTLSProfile. apply wpM_bind, wpM_bind, wpM_call; [done|].
  intros [e|profile]; [split; [done|by intros ? [=]]|]. apply wpM_ret, wpM_bind, wpM_try, wpM_of_res.
  set (h0 := [] ++ [Ev (CAPIServerGet "cluster") (inr profile)]).
  assert (Ev (CAPIServerGet "cluster") (inr profile) ∈ h0) as Hin by apply elem_of_last.
  destruct (TLSOptionsFromProfile profile) as [[[opts uc] ug]|e|p] eqn:Et; [| |split; [done|by intros ? [=]]].
  - assert (∀ n w h (Q : trace → TCR → res unit → Prop), Q h s (Ok tt) →
      (∀ e, Q (h ++ [e]) s (Ok tt)) → wpM (allowed_in (Profiling k k2))
        (if 0 <? n then Warningf w.1 w.2 else mret tt) s h Q) as Hwarn.
    { intros n w h Q H1 H2. destruct (0 <? n); [|done]. apply wpM_call; [done|]. intros []. apply H2. }
    assert (∀ t, same_config cfg s ∧ ∀ x, Ok (Some (Some opts)) = Ok x → match x with
      | Some tls => ∃ profile opts unmapped, Ev (CAPIServerGet "cluster") (inr profile) ∈ h0 ++ t ∧
          TLSOptionsFromProfile profile = Ok (opts, unmapped.1, unmapped.2) ∧ tls = Some opts
      | None => (true = true ∧ ∃ profile e, Ev (CAPIServerGet "cluster") (inr profile) ∈ h0 ++ t ∧
          TLSOptionsFromProfile profile = Err e) ∧ status_reported (h0 ++ t) end) as Hdone.
    { intros t. split; [done|]. intros x [= <-]. exists profile, opts, (uc, ug).
      split; [by apply elem_of_earlier|done]. }
    apply wpM_bind, (Hwarn _ (_, _)); [|intros w1]; apply wpM_bind, (Hwarn _ (_, _)); try intros w2;
      apply wpM_ret; rewrite <-?app_assoc; apply Hdone.
  - unfold Eventf. apply wpM_bind, wpM_call; [done|]. intros []. apply wpM_bind.
    eapply wpM_mono; [|apply (wpM_weaken (λ _, is_status_call)); [apply updateKueueStatus_wp|]].
    + intros h' s' [u|e'|p] (-> & (t & ->) & Hr); (split; [done|]); [|by intros ? [=]..].
      intros x [= <-]. split; [|by eapply Hr]. split; [done|]. exists profile, e.
      split; [by do 2 apply elem_of_earlier|done].
    + intros t c Hc. by destruct c.
Qed.

Lemma refines_profile dep ann s :
  same_config cfg s →
  refines (Profiling k k2)
    ((tls ← resolveTLS k2;
      match tls with None => mret tt | Some tlsOpts => syncOperand k2 tlsOpts owner dep ann end) s).
Proof.
  intros Hs. apply refines_bind; [done|]. eapply wpM_mono; [|by apply resolveTLS_phase].
  intros t s' r [Hs' Hr] x Hx. specialize (Hr x Hx). destruct x as [tls|].
  - exists (Applying k k2 tls (operand_stages (kueue_config k2) tls)).
    split; [by constructor|by apply refines_operand].
  - exists (Finished UnsupportedTLS). destruct Hr. split; [by constructor|apply refines_finished].
Qed.
End path.

Lemma refines_reread k dep ann s :
  same_config cfg s →
  refines (Waiting k []) ((kueue ← rereadKueue; tls ← resolveTLS kueue;
    match tls with None => mret tt
    | Some tlsOpts => syncOperand kueue tlsOpts (kueueOwnerReference k) dep ann end) s).
Proof.
  intros Hs. apply refines_bind; [done|]. unfold rereadKueue. apply wpM_bind, wpM_call; [exact I|].
  intros [e|[[k2|]|]]; [by intros ? [=]| |by intros ? [=]..]. intros a [= <-].
  exists (Profiling k k2). split; [|by apply refines_profile]. constructor. apply elem_of_last.
Qed.

Lemma refines_wait k name todo (f : unit → M TCR unit) s :
  same_config cfg s → (∀ s', same_config cfg s' → refines (Waiting k todo) (f tt s')) →
  refines (Waiting k (name :: todo))
    ((WaitForCertificateReady certificateFuel opns name (2 * Minute) ≫= f) s).
Proof.
  intros Hs Hf. apply refines_bind; [done|].
  eapply wpM_mono; [|apply WaitForCertificateReady_wp; by intros h c Hc].
  intros t s' r [-> Hr] [] Ha. exists (Waiting k todo). split; [constructor; by apply Hr|by apply Hf].
Qed.

(** A step that applies unstructured objects. *)
Lemma refines_certificate {A} kq ph ph' items (m : M TCR A) (f : A → M TCR unit) s :
  (∀ v, ph ≠ Finished v) → (∀ h c, is_certificate_apply cfg kq c → allowed_in ph h c) →
  (∀ t, Forall (present_item t) items → step ph t ph') →
  inM (same_config cfg) (is_certificate_apply cfg kq) m → puts cfg m items → same_config cfg s →
  (∀ a s', same_config cfg s' → refines ph' (f a s')) → refines ph ((m ≫= f) s).
Proof.
  intros Hph HC Hstep Hm Hp Hs Hf.
  apply (refines_bind_in _ (is_certificate_apply cfg kq) _ _ _ (λ t _, Forall (present_item t) items)); try done.
  - eapply wpM_mono; [|by apply Hp]. by intros h s' r [_ Hr].
  - intros t s' a Hs' Hi. exists ph'. eauto.
Qed.

(** Binding is associative. *)
Lemma runs_bind_assoc {S A B C} (m : M S A) (f : A → M S B) (g : B → M S C) s tr o :
  runs (((m ≫= f) ≫= g) s) tr o → runs ((m ≫= λ a, f a ≫= g) s) tr o.
Proof.
  unfold mbind, M_bind. generalize (m s) as p. intros p. revert tr.
  induction p as [[s1 r]|c q IH]; intros tr; cbn [pbind fst snd].
  - destruct r; cbn [pbind fst snd]; done.
  - intros Hr. apply runs_inv in Hr as [[-> ->]|(r & tr' & -> & Hr)]; constructor. by apply IH.
Qed.
Lemma refines_assoc {A B} ph (m : M TCR A) (f : A → M TCR B) (g : B → M TCR unit) s :
  refines ph ((m ≫= λ a, f a ≫= g) s) → refines ph (((m ≫= f) ≫= g) s).
Proof. intros Hp tr o Hr. by apply Hp, runs_bind_assoc. Qed.
Lemma refines_get ph (f : TCR → M TCR unit) s : refines ph (f s s) → refines ph ((mget ≫= f) s).
Proof. done. Qed.

Lemma refines_live k k' dep ann s :
  same_config cfg s →
  refines (Issuing k) (syncLive k' (kueueOwnerReference k) dep ann s).
Proof.
  intros Hs. unfold syncLive.
  eapply (refines_certificate k' _ (Certifying k)); [done|by intros h c Hc; exists k'|by constructor
    |apply in_manageIssuer|apply puts_manageIssuer|done|clear s Hs ann; intros ann s Hs].
  eapply (refines_certificate k' _ (Waiting k certificateNames)); [done|by intros h c Hc; exists k'|by constructor
    |apply in_manageCertificates|apply puts_manageCertificates|done|clear s Hs ann; intros ann s Hs].
  unfold waitForCertificates. apply refines_assoc, refines_get. rewrite (same_ns _ _ Hs). cbv zeta.
  apply refines_assoc, refines_wait; [done|]. intros s1 Hs1.
  apply refines_assoc, refines_wait; [done|]. intros s2 Hs2.
  apply refines_wait; [done|]. intros s3 Hs3. by apply refines_reread.
Qed.

(** *** Deletion *)

Lemma refines_clean st todo (m : M TCR unit) (f : unit → M TCR unit) s :
  wpM (stage_allowed opns st) m s [] (cleanup_post s [] (stage_done opns st)) →
  refines (Deleting todo) (f tt s) → refines (Deleting (st :: todo)) ((m ≫= f) s).
Proof.
  intros Hm Hf. apply refines_bind; [done|]. eapply wpM_mono; [|exact Hm].
  intros t s' r (-> & _ & Hr) [] ->. exists (Deleting todo). split; [by constructor|done].
Qed.

Lemma refines_finalize kq s :
  same_config cfg s → refines (Deleting cleanup_order) (finalizeKueue kq s).
Proof.
  intros Hs. pose proof (same_ns _ _ Hs : operatorNamespace s = opns) as Hns. unfold finalizeKueue.
  apply refines_clean; [apply cleanUpWebhooks_wp|].
  apply refines_clean; [by apply cleanUpCertificatesAndIssuers_wp|].
  apply refines_clean; [apply cleanUpClusterRoles_wp|].
  apply refines_clean; [apply cleanUpClusterRoleBindings_wp|].
  apply refines_clean; [by apply cleanUpResources_wp|].
  apply refines_bind; [done|]. apply wpM_try. unfold removeFinalizerFromKueueInstance.
  eapply wpM_mono; [|apply (updateFinalizer_wp (allowed_in (Deleting [])) kq false); by intros h c Hc].
  intros t s' r _. assert (step (Deleting []) t (Finished Deleted)) as Hstep by constructor.
  destruct r; [| |by intros ? [=]]; intros x _; (eexists; split; [exact Hstep|apply refines_finished]).
Qed.

(** *** The start *)

Lemma refines_installed k s : same_config cfg s → refines (Supported k) (syncInstalled k s).
Proof.
  intros Hs. unfold syncInstalled.
  apply (refines_bind_in _ is_dependency_call _ _ _ (λ _ _, True));
    [done|by intros h c Hc|apply in_checkDependencies|done| |].
  { eapply wp_mono; [|apply wp_trivial]. done. }
  intros t1 s1 dep Hs1 _. exists (Checked k). split; [constructor|]. cbv zeta.
  apply refines_bind; [done|].
  eapply wpM_mono; [|apply (updateFinalizer_wp (allowed_in (Checked k)) k true s1 []); by intros h c Hc].
  intros t s' r [-> Hr] k' ->. destruct (om_DeletionTimestamp (ku_ObjectMeta k')) as [ts|] eqn:Hd.
  - exists (Deleting cleanup_order). split; [|by apply refines_finalize].
    apply (step_delete k k'); [done|]. unfold deleting. by rewrite Hd.
  - exists (Issuing k). split; [|by apply refines_live].
    apply (step_live k k'); [done|]. unfold deleting. rewrite Hd. tauto.
Qed.

Definition ev_kueue (e : event) : option Kueue :=
  match e with Ev (CCacheGetKueue _) (inr (Some (Some k))) => Some k | _ => None end.
Lemma nothing_read_intro t : Forall (λ e, ev_kueue e = None) t → nothing_read t.
Proof. intros Ht k Hk. rewrite Forall_forall in Ht. by apply Ht in Hk. Qed.

Lemma readKueue_phase s :
  wpM (allowed_in Starting) readKueue s [] (λ t s' r, s' = s ∧ ∃ x, r = Ok x ∧
    match x with Some k => kueue_read k t | None => nothing_read t end).
Proof.
  unfold readKueue, Eventf. apply wpM_bind, wpM_call; [exact I|].
  intros [e|[[k|]|]].
  2:{ apply wpM_ret. split; [done|]. exists (Some k). split; [done|]. apply elem_of_last. }
  all: apply wpM_bind, wpM_call; [exact I|]; intros []; (split; [done|]); exists None; (split; [done|]);
    apply nothing_read_intro; by repeat constructor.
Qed.

Lemma refines_loaded k s :
  same_config cfg s →
  refines (Loaded k) ((found ← isResourceRegisteredCached certManagerIssuer;
    if negb found then reportCertManagerMissing k else syncInstalled k) s).
Proof.
  intros Hs. apply refines_bind; [done|]. unfold isResourceRegisteredCached, lister.
  apply wpM_bind, wpM_try. apply (wpM_call_sum _ (CLister KCRD "" "issuers.cert-manager.io") (λ r, r)); [done|].
  intros [e|crd].
  - destruct (IsNotFound e) eqn:He; [|by intros ? [=]]. intros found [= <-]. exists (Unsupported k). split.
    + constructor. exists e. split; [apply elem_of_last|done].
    + apply refines_last; [done|]. eapply wpM_mono; [|apply (reportCertManagerMissing_wp k)].
      intros t s' r _ u _. exists NoCertManager. constructor.
  - intros found [= <-]. exists (Supported k). split; [|by apply refines_installed].
    constructor. exists crd. apply elem_of_last.
Qed.

Lemma refines_sync s : same_config cfg s → refines Starting (sync s).
Proof.
  intros Hs. unfold sync. apply refines_bind; [done|]. eapply wpM_mono; [|apply readKueue_phase].
  intros t s' r (-> & x & -> & Hx) a [= <-]. destruct x as [k|].
  - exists (Loaded k). split; [by constructor|by apply refines_loaded].
  - exists (Finished Unreadable). split; [by constructor|apply refines_finished].
Qed.

(** ** What an execution has achieved *)

(** [order] was treated up to [todo]. *)
Definition treated {A} (P : A → Prop) (order todo : list A) : Prop :=
  ∃ done, order = done ++ todo ∧ Forall P done.

(** A resource that was read and admitted, with its finalizer settled. *)
Definition live (k : Kueue) (h : trace) : Prop := ∃ k', admitted k k' h ∧ ¬ deleting k'.

Definition unstructured_present (h : trace) : Prop :=
  Forall (present_item h) (Unstructured RIssuers "selfsigned" :: (Unstructured RCertificates <$> certificateNames)).

Definition prepared (k k2 : Kueue) (h : trace) : Prop :=
  live k h ∧ unstructured_present h ∧ certificates_ready opns h ∧ kueue_read k2 h.

(** The meaning of each way to report success. *)
Definition outcome (v : verdict) (h : trace) : Prop :=
  match v with
  | Unreadable => nothing_read h
  | NoCertManager => cert_manager_absent h
  | Deleted => (∃ k k', admitted k k' h ∧ deleting k') ∧ all_cleaned opns h
  | UnsupportedTLS => (∃ k k2, prepared k k2 h) ∧ tls_rejected h ∧ status_reported h
  | Reported => ∃ k k2 tls, prepared k k2 h ∧ tls_resolved tls h ∧
      Forall (present_item h) (inventory cfg (kueue_config k2) tls) ∧ status_reported h
  end.

Definition evidence (ph : phase) (h : trace) : Prop :=
  match ph with
  | Starting => h = []
  | Loaded k => kueue_read k h
  | Unsupported k => kueue_read k h ∧ cert_manager_absent h
  | Supported k | Checked k => kueue_read k h ∧ cert_manager_seen h
  | Deleting todo => (∃ k k', admitted k k' h ∧ deleting k') ∧
      treated (λ st, stage_done opns st h) cleanup_order todo
  | Issuing k => live k h
  | Certifying k => live k h ∧ present_item h (Unstructured RIssuers "selfsigned")
  | Waiting k todo => live k h ∧ unstructured_present h ∧
      treated (λ name, certificate_ready opns name h) certificateNames todo
  | Profiling k k2 => prepared k k2 h
  | Applying k k2 tls todo => prepared k k2 h ∧ tls_resolved tls h ∧
      treated (Forall (present_item h)) (operand_stages (kueue_config k2) tls) todo
  | Finished v => outcome v h
  end.

(** The facts persist. *)
Lemma kueue_read_app k h t : kueue_read k h → kueue_read k (h ++ t).
Proof. apply elem_of_earlier. Qed.
Lemma stage_done_app st h t : stage_done opns st h → stage_done opns st (h ++ t).
Proof.
  destruct st; cbn; [apply webhooks_cleaned_app|apply certificates_cleaned_app|apply kind_cleaned_app..|].
  intros (? & ? & ?). split_and!; by apply deleted_app.
Qed.
Lemma treated_app {A} (P Q : A → Prop) order todo :
  (∀ a, P a → Q a) → treated P order todo → treated Q order todo.
Proof. intros HPQ (dn & -> & Hd). exists dn. split; [done|]. by eapply Forall_impl. Qed.
Lemma treated_step {A} (P Q : A → Prop) order a todo :
  (∀ a, P a → Q a) → Q a → treated P order (a :: todo) → treated Q order todo.
Proof.
  intros HPQ Ha (dn & -> & Hd). exists (dn ++ [a]). rewrite <-app_assoc. split; [done|].
  apply Forall_app. split; [by eapply Forall_impl|by constructor].
Qed.
Lemma treated_start {A} (P : A → Prop) order : treated P order order.
Proof. by exists []. Qed.
Lemma treated_end {A} (P : A → Prop) order : treated P order [] → Forall P order.
Proof. intros (dn & -> & Hd). by rewrite app_nil_r. Qed.
Lemma live_app k h t : live k h → live k (h ++ t).
Proof. intros (k' & ? & ?). exists k'. split; [by apply admitted_app|done]. Qed.
Lemma present_items_app h t L : Forall (present_item h) L → Forall (present_item (h ++ t)) L.
Proof. intros HL. eapply Forall_impl; [exact HL|]. intros i. apply present_item_app. Qed.
Lemma prepared_app k k2 h t : prepared k k2 h → prepared k k2 (h ++ t).
Proof.
  intros (? & ? & ? & ?). split_and!;
    [by apply live_app|by apply present_items_app|by apply certificates_ready_app|by apply kueue_read_app].
Qed.
Lemma tls_resolved_app tls h t : tls_resolved tls h → tls_resolved tls (h ++ t).
Proof.
  unfold tls_resolved. destruct (isOpenShift cfg); [|done].
  intros (p & o & u & Hp & ?). exists p, o, u. split; [by apply elem_of_earlier|done].
Qed.

(** What a segment shows holds of the whole. *)
Lemma elem_of_later (h t : trace) e : e ∈ t → e ∈ h ++ t.
Proof. intros He. apply elem_of_app. by right. Qed.
Lemma answered_later x a h t : Cleanup.answered x a t → Cleanup.answered x a (h ++ t).
Proof. destruct x; apply elem_of_later. Qed.
Lemma kind_cleaned_later k sel h t : kind_cleaned k sel t → kind_cleaned k sel (h ++ t).
Proof.
  intros (items & Hl & Hd). exists items. split; [by apply elem_of_later|].
  intros o Ho Hs. by apply answered_later, Hd.
Qed.
Lemma dyn_cleaned_later r h t : dyn_cleaned opns r t → dyn_cleaned opns r (h ++ t).
Proof.
  intros (items & Hl & Hd). exists items. split; [by apply elem_of_later|].
  intros j Hj. by apply answered_later, Hd.
Qed.
Lemma stage_done_later st h t : stage_done opns st t → stage_done opns st (h ++ t).
Proof.
  destruct st; cbn.
  - intros []. split; by apply kind_cleaned_later.
  - intros []. split; by apply dyn_cleaned_later.
  - apply kind_cleaned_later.
  - apply kind_cleaned_later.
  - intros (? & ? & ?). split_and!; by apply answered_later.
Qed.
Lemma finalizer_settled_later k b h t k' : finalizer_settled k b t k' → finalizer_settled k b (h ++ t) k'.
Proof.
  intros [?|[(? & n & o & Ho & ?)|(n & p & Hp)]]; [by left|right; left|right; right].
  - split; [done|]. exists n, o. split; [by apply elem_of_later|done].
  - exists n, p. by apply elem_of_later.
Qed.
Lemma certificate_ready_later name h t :
  certificate_seen_ready opns name t → certificate_ready opns name (h ++ t).
Proof.
  intros (h0 & cert & sn & secret & -> & Hc). exists (h ++ h0 ++ [Ev (CDynGet RCertificates opns name) (inr cert);
    Ev (CDynGet RSecrets opns sn) (inr secret)]), []. split; [by rewrite app_nil_r|].
  exists (h ++ h0), cert, sn, secret. by rewrite app_assoc.
Qed.
Lemma present_later k n h t : present k n t → present k n (h ++ t).
Proof.
  intros [?|[?|[?|[?|?]]]]; [left|right; left|do 2 right; left|do 3 right; left|do 4 right];
    naive_solver eauto using elem_of_later.
Qed.
Lemma present_item_later h t i : present_item t i → present_item (h ++ t) i.
Proof.
  destruct i as [k path skip|k dir skip|k name|r name| |ns config tls]; cbn.
  - intros (o & ? & Ho). exists o. split; [done|]. eauto using present_later.
  - intros (files & ? & Hf). exists files. split; [done|]. intros file Hfile.
    destruct (Hf _ Hfile) as (o & ? & ?). exists o. split; [done|]. eauto using present_later.
  - apply present_later.
  - naive_solver eauto using elem_of_later.
  - naive_solver eauto using elem_of_later.
  - intros (g & b & cm & ? & [?|?]); exists g, b, cm; (split; [done|]); [left|right];
      naive_solver eauto using elem_of_later.
Qed.
Lemma present_items_later h t L : Forall (present_item t) L → Forall (present_item (h ++ t)) L.
Proof. intros HL. eapply Forall_impl; [exact HL|]. intros i. apply present_item_later. Qed.
Lemma tls_resolved_later tls h t : tls_resolved tls t → tls_resolved tls (h ++ t).
Proof.
  unfold tls_resolved. destruct (isOpenShift cfg); [|done].
  intros (p & o & u & Hp & ?). exists p, o, u. split; [by apply elem_of_later|done].
Qed.
Lemma tls_rejected_later h t : tls_rejected t → tls_rejected (h ++ t).
Proof. intros (? & p & e & Hp & ?). split; [done|]. exists p, e. split; [by apply elem_of_later|done]. Qed.
Lemma status_reported_later h t : status_reported t → status_reported (h ++ t).
Proof. intros (c & f & m & Hs). exists c, f, m. by apply elem_of_later. Qed.
Lemma admitted_later k k' h t :
  kueue_read k h → cert_manager_seen h → finalizer_settled k true t k' → admitted k k' (h ++ t).
Proof.
  intros Hk Hc Hf. split; [by apply cert_manager_seen_app|].
  split; [by apply kueue_read_app|by apply finalizer_settled_later].
Qed.

Lemma step_evidence ph h t ph' : evidence ph h → step ph t ph' → evidence ph' (h ++ t).
Proof.
  intros He Hs. destruct Hs; cbn [evidence outcome] in *.
  - by subst h.
  - by apply elem_of_later.
  - split; [by apply kueue_read_app|]. destruct H0 as (e & ? & ?). exists e.
    split; [by apply elem_of_later|done].
  - destruct He as (_ & e & ? & ?). exists e. split; [by apply elem_of_earlier|done].
  - split; [by apply kueue_read_app|]. destruct H0 as (crd & ?). exists crd. by apply elem_of_later.
  - destruct He. split; [by apply kueue_read_app|by apply cert_manager_seen_app].
  - destruct He. split; [|apply treated_start]. exists k, k'. split; [by apply admitted_later|done].
  - destruct He. exists k'. split; [by apply admitted_later|done].
  - destruct He as [(k & k' & ? & ?) He]. split; [exists k, k'; split; [by apply admitted_app|done]|].
    eapply treated_step; [|by apply stage_done_later|exact He]. intros st'. apply stage_done_app.
  - destruct He as [(k & k' & ? & ?) He]. split; [exists k, k'; split; [by apply admitted_app|done]|].
    apply treated_end in He. unfold cleanup_order in He. rewrite !Forall_cons in He.
    destruct He as (? & ? & ? & ? & ? & _).
    by apply all_cleaned_app.
  - split; [by apply live_app|]. apply (present_items_later h) in H0. by inversion H0.
  - destruct He as [? ?]. split; [by apply live_app|]. split; [|apply treated_start].
    constructor; [by apply present_item_app|by apply present_items_later].
  - destruct He as (? & ? & He). split; [by apply live_app|]. split; [by apply present_items_app|].
    eapply treated_step; [|by apply certificate_ready_later|exact He]. intros n. apply certificate_ready_app.
  - destruct He as (? & ? & He). apply treated_end in He. unfold certificateNames in He.
    rewrite !Forall_cons in He. destruct He as (? & ? & ? & _). split_and!; [by apply live_app|by apply present_items_app| |by apply elem_of_later].
    apply certificates_ready_app. by split_and!.
  - split_and!; [exists k, k2; by apply prepared_app|by apply tls_rejected_later|by apply status_reported_later].
  - split_and!; [by apply prepared_app|by apply tls_resolved_later|apply treated_start].
  - destruct He as (? & ? & He). split_and!; [by apply prepared_app|by apply tls_resolved_app|].
    eapply treated_step; [|by apply present_items_later|exact He]. intros L. apply present_items_app.
  - destruct He as (? & ? & He). apply treated_end in He. exists k, k2, tls.
    split_and!; [by apply prepared_app|by apply tls_resolved_app| |by apply status_reported_later].
    apply present_items_app. unfold operand_stages in He. rewrite !Forall_cons in He.
    unfold inventory. rewrite !Forall_app. rewrite ?Forall_cons. unfold opns in He. tauto.
Qed.

(** Rule induction: whatever phase was reached, its evidence is in the trace. *)
Lemma execution_evidence h ph : execution Starting h ph → evidence ph h.
Proof. induction 1 as [|h ph1 t ph2 _ IH _ Hs]; [done|]. by eapply step_evidence. Qed.
End machine.

(** A run that succeeds has come to a verdict. *)
Lemma sync_verdict `{Env} (c c' : TCR) tr :
  runs (sync c) tr (Some (c', Ok tt)) → ∃ v, outcome c v tr.
Proof.
  intros Hr. destruct (refines_sync c c (ltac:(done)) _ _ Hr) as (h & t & ph & -> & He & _ & -> & v & ->).
  exists v. rewrite app_nil_r. apply (execution_evidence c _ _ He).
Qed.

(** ** The refinement *)

(** C2: The reconciliation refines the phase machine. Every run of [sync],
    also one that stops, fails or panics anywhere, is an execution of the
    machine from its start, followed by calls that the phase it reached
    allows; it returns without an error exactly when the machine has
    finished, with nothing left over. In particular the deployment is the only
    object that is applied once everything else of the operand is in place,
    and it is not applied before; nothing is installed before the finalizer is
    settled or for a resource that is being deleted; of the cleanups, the first
    four delete only what they listed themselves, each of its own kinds, and
    the last one the ConfigMap and the two secrets by name; the finalizer is
    added before anything of the operand is written, and removed only after
    the last of them. *)
Theorem sync_refines `{Env} (c : TCR) : refines c Starting (sync c).
Proof. by apply refines_sync. Qed.

(** In an execution of the machine every phase is entered with its evidence. *)
Theorem execution_invariant `{Env} (c : TCR) h ph :
  execution c Starting h ph → evidence c ph h.
Proof. apply execution_evidence. Qed.

(** C6: The invariant of a reconciliation. Wherever [sync] is, also when it is
    stopped, fails or panics there, it is in a phase of the machine and the
    trace holds that phase's evidence: what the phases before it were to
    achieve is done and visible in the answers of the cluster. The calls made
    since the phase was entered are calls of that phase. *)
Theorem sync_invariant `{Env} (c : TCR) tr o :
  runs (sync c) tr o →
  ∃ h t ph, tr = h ++ t ∧ execution c Starting h ph ∧ evidence c ph h ∧
    trace_allowed (allowed_in c ph) [] t.
Proof.
  intros Hr. destruct (refines_sync c c (ltac:(done)) _ _ Hr) as (h & t & ph & -> & He & Ht & _).
  exists h, t, ph. split_and!; [done..|by apply execution_evidence|done].
Qed.


(** ** Concrete instances *)

#[local] Existing Instance example_env.

Lemma sync_invariant_witness :
  ∃ tr o h t ph, runs (sync example_tcr) tr o ∧ count is_write tr = 35 ∧ tr = h ++ t ∧
    evidence example_tcr ph h.
Proof.
  destruct (run (example_cluster (example_kueue []) true) (sync example_tcr) 0%Z) as [[tr o] w] eqn:E.
  pose proof (run_runs _ _ _ _ _ _ E) as Hr. pose proof sync_fresh as Hs. unfold summary in Hs.
  rewrite E in Hs. injection Hs as Hn _ _.
  destruct (sync_invariant _ _ _ Hr) as (h & t & ph & Ht & _ & Hev & _).
  exists tr, o, h, t, ph. split; [exact Hr|split; [exact Hn|split; [exact Ht|exact Hev]]].
Defined.

