(* ===== verification/Liveness.v ===== *)
(** * On a healthy cluster a reconciliation gets everything done

    Safety says what a reconciliation may do and [sync_terminates] that it
    comes back. Here: when the API server accepts requests, cert-manager issues
    the certificates and the manifests are usable, one reconciliation succeeds,
    and its success is the installation of the operand, not one of the other
    ways to return without an error. *)
From S2P Require Import Prelude GoStd K8s ApiTypes DraHelpers ConfigMap TlsProfile K8sObjects.
From S2P Require Import PodWebhook Effects Monad Cert ResourceApply Finalizer Reconciler Discovery.
From S2P Require Import Conditions CachedApply Cleanup Manage Managed Sync Inventory Termination.
From S2P Require Import SyncSafety Refinement.

(** ** Usable manifests *)

Section usable.
Context `{Env} (cfg : TCR).

(** A webhook of a known framework that is served by a service. *)
Definition webhook_usable (getFramework : string → res string) (w : Webhook) : Prop :=
  registered getFramework (wh_Name w) ∧ is_Some (wcc_Service (wh_ClientConfig w)).

(** What the code takes for granted of the object of a manifest. *)
Definition usable (k : kind) : obj k → Prop :=
  match k return obj k → Prop with
  | KAPIService => λ o, is_Some (as_Service (ko_body o : APIServiceBody))
  | KMutatingWebhookConfiguration => λ o,
      Forall (webhook_usable getFrameworkForMutatingWebhook) (wc_Webhooks (ko_body o))
  | KValidatingWebhookConfiguration => λ o,
      Forall (webhook_usable getFrameworkForValidatingWebhook) (wc_Webhooks (ko_body o))
  | KPriorityLevelConfiguration => λ o, ∃ n, shares o = Ok n
  | KDeployment => λ o, ∃ c cs, ps_Containers (dp_TemplateSpec (dep_Spec (ko_body o))) = c :: cs ∧
      is_Some (co_SecurityContext c)
  | _ => λ _, True
  end.

Definition manifest_usable (k : kind) (path : string) : Prop :=
  ∃ o, ReadOrDie k path = Ok o ∧ usable k o.

(** What an item of the inventory needs. *)
Definition item_usable (i : item) : Prop :=
  match i with
  | Manifest k path _ => manifest_usable k path
  | Directory k dir _ =>
      ∃ files, AssetDir dir = inr files ∧ ∀ file, file ∈ files → manifest_usable k (filepath_Join dir file)
  | Named KDeployment _ => manifest_usable KDeployment "assets/kueue-operator/deployment.yaml"
  | Generated ns config tls => ∀ gvrToKind capacity, ∃ cm, BuildConfigMap ns config gvrToKind capacity tls = Ok cm
  | _ => True
  end.

(** A resource that is not being deleted and whose operand can be installed. *)
Definition installable (k : Kueue) : Prop :=
  ¬ deleting k ∧ ∀ tls, Forall item_usable (inventory cfg (kueue_config k) tls).

(** ** A healthy cluster *)

Definition accepted {A} (r : error + A) : Prop := ∃ a, r = inr a.
(** A read finds the object, or nothing of its name. *)
Definition readable {A} (r : error + A) : Prop := ∀ e, r = inl e → IsNotFound e = true.

Definition good_answer (c : call) : resp c → Prop :=
  match c return resp c → Prop with
  | CCacheGetKueue _ => λ r, ∃ k, r = inr (Some (Some k)) ∧ installable k
  | CLister k _ name => λ r, readable r ∧ (name = "issuers.cert-manager.io" → accepted r)
  | CGet k _ _ => λ r, readable r ∧ ∀ o, r = inr o →
      match k return obj k → Prop with
      | KPriorityLevelConfiguration => λ o, ∃ n, shares o = Ok n
      | _ => λ _, True
      end o
  | CCreate k _ => accepted (A := obj k)
  | CUpdate k _ => accepted (A := obj k)
  | CApply k _ _ => accepted (A := obj k * bool)
  | CApplyImproved k _ _ => λ r, accepted (A := obj k * bool) r.1
  | CDynApply _ _ _ => λ r, accepted r.1
  | CApplyServiceMonitor _ => accepted (A := json * bool)
  (* the certificates are issued *)
  | CDynGet RCertificates _ _ => λ r, ∃ cert secretName, r = inr cert ∧ certificate_issued cert secretName
  | CDynGet RSecrets _ _ => λ r, ∃ secret, r = inr secret ∧ holds_key_pair secret
  | CKueueGet _ => accepted (A := Kueue)
  | CKueuePatch _ _ => λ r, ∃ k, r = inr k ∧ ¬ deleting k
  | CKueueApplyStatus _ _ _ => λ r, r = None
  | CAPIServerGet _ => λ r, ∃ profile x, r = inr profile ∧ TLSOptionsFromProfile profile = Ok x
  | _ => λ _, True
  end.

Record healthy {σ} (h : handler σ) (clock : σ → Z) : Prop := {
  healthy_responsive : responsive h clock;
  healthy_answers : ∀ w c r w', h w c = Some (r, w') → good_answer c r;
  healthy_prompt : ∀ w r w', h w CNow = Some (r, w') → (clock w' ≤ clock w + 2 * Minute)%Z;
}.

(** Everything that is hashed has a JSON form. *)
Definition marshals : Prop := ∀ o, ∃ s, json_Marshal o = inr s.
End usable.

(** ** Steps that succeed

    [okM m Q]: [m] returns a value that satisfies [Q] and keeps the settings
    of the receiver; [calm m]: it returns, perhaps with an error, but does not
    panic. *)
Section rules.
Context `{Env} (cfg : TCR) {σ : Type} (h : handler σ) (clock : σ → Z).
Context (HH : healthy cfg h clock) (HM : marshals).

Definition endsM {A} (m : M TCR A) (Q : res A → Prop) : Prop := ∀ s w, same_config cfg s →
  twpM h m s w (λ r s' _, same_config cfg s' ∧ Q r).
Definition okM {A} (m : M TCR A) (Q : A → Prop) : Prop := endsM m (λ r, ∃ a, r = Ok a ∧ Q a).
Definition calm {A} (m : M TCR A) : Prop := endsM m (λ r, ∀ p, r ≠ Panic p).

Lemma endsM_mono {A} (m : M TCR A) (Q Q' : res A → Prop) :
  (∀ r, Q r → Q' r) → endsM m Q → endsM m Q'.
Proof. intros HQ Hm s w Hs. eapply twp_mono; [|by apply Hm]. intros p w' [? ?]. split; [done|by apply HQ]. Qed.
Lemma okM_mono {A} (m : M TCR A) (Q Q' : A → Prop) : (∀ a, Q a → Q' a) → okM m Q → okM m Q'.
Proof. intros HQ. apply endsM_mono. naive_solver. Qed.
Lemma okM_calm {A} (m : M TCR A) Q : okM m Q → calm m.
Proof. apply endsM_mono. naive_solver. Qed.

Lemma okM_ret {A} (a : A) (Q : A → Prop) : Q a → okM (mret a) Q.
Proof. intros HQ s w Hs. split; [done|by eexists]. Qed.
Lemma okM_of_res {A} (r : res A) a (Q : A → Prop) : r = Ok a → Q a → okM (of_res r) Q.
Proof. intros -> HQ s w Hs. split; [done|by eexists]. Qed.
Lemma okM_modify f : (∀ s, same_config cfg s → same_config cfg (f s)) → okM (mmodify f) (λ _, True).
Proof. intros Hf s w Hs. split; [by apply Hf|by eexists]. Qed.
Lemma okM_bind {A B} (m : M TCR A) (f : A → M TCR B) Q1 Q :
  okM m Q1 → (∀ a, Q1 a → okM (f a) Q) → okM (m ≫= f) Q.
Proof.
  intros Hm Hf s w Hs. apply twpM_bind. eapply twp_mono; [|by apply Hm].
  intros [s' r] w' [Hs' (a & Hr & Ha)]. cbn in Hr. subst r. cbn. by apply Hf.
Qed.
Lemma okM_get {B} (f : TCR → M TCR B) Q : (∀ s, same_config cfg s → okM (f s) Q) → okM (mget ≫= f) Q.
Proof. intros Hf s w Hs. by apply Hf. Qed.
Lemma okM_call c : c ≠ CDiverge → okM (mcall c) (good_answer cfg c).
Proof using HH.
  intros Hc s w Hs. destruct (responsive_answers _ _ (healthy_responsive _ _ _ HH) w c Hc) as (r & w' & Hr & _).
  apply twpM_call. exists r, w'. split; [done|]. split; [done|]. exists r. split; [done|].
  by eapply healthy_answers.
Qed.
Lemma okM_bind_call {B} c (f : resp c → M TCR B) Q :
  c ≠ CDiverge → (∀ r, good_answer cfg c r → okM (f r) Q) → okM (mcall c ≫= f) Q.
Proof using HH. intros Hc Hf. eapply okM_bind; [by apply okM_call|done]. Qed.
Lemma okM_call_accepted {A} c (f : resp c → error + A) :
  c ≠ CDiverge → (∀ r, good_answer cfg c r → accepted (f r)) →
  okM (r ← mcall c; of_sum (f r)) (λ _, True).
Proof using HH.
  intros Hc Hf. eapply okM_bind; [by apply okM_call|]. intros r Hr.
  destruct (Hf r Hr) as [a ->]. by apply okM_ret.
Qed.
Lemma okM_try {A} (m : M TCR A) Q : okM m Q → okM (try m) (λ x, ∃ a, x = inr a ∧ Q a).
Proof.
  intros Hm s w Hs. apply twpM_try. eapply twp_mono; [|by apply Hm].
  intros [s' r] w' [Hs' (a & Hr & Ha)]. cbn in Hr. subst r. split; [done|]. eauto.
Qed.
Lemma okM_mfold {A B} (f : B → A → M TCR B) b l :
  (∀ b a, a ∈ l → okM (f b a) (λ _, True)) → okM (mfold f b l) (λ _, True).
Proof.
  revert b. induction l as [|a l IH]; intros b Hf; cbn [mfold]; [by apply okM_ret|].
  eapply okM_bind; [apply Hf; constructor|]. intros b' _. apply IH. intros ? ? ?. apply Hf. by constructor.
Qed.
(** [v, err := client.Get(...)] *)
Lemma okM_try_call {A} c (f : resp c → error + A) :
  c ≠ CDiverge →
  okM (try (r ← mcall c; of_sum (f r))) (λ x, ∃ r, good_answer cfg c r ∧ x = f r).
Proof using HH.
  intros Hc s w Hs. apply twpM_try, (twpM_call_sum _ c f).
  destruct (responsive_answers _ _ (healthy_responsive _ _ _ HH) w c Hc) as (r & w' & Hr & _).
  exists r, w'. split; [done|]. apply (healthy_answers _ _ _ HH) in Hr.
  destruct (f r) eqn:Hf; (split; [done|]); eauto 6.
Qed.
(** [try] makes a success of every error. *)
Lemma okM_try_calm {A} (m : M TCR A) : calm m → okM (try m) (λ _, True).
Proof.
  intros Hm s w Hs. apply twpM_try. eapply twp_mono; [|by apply Hm].
  intros [s' r] w' [Hs' Hr]. cbn in *. destruct r as [a|e|p]; [..|by destruct (Hr p)]; eauto.
Qed.

Lemma calm_bind {A B} (m : M TCR A) (f : A → M TCR B) : calm m → (∀ a, calm (f a)) → calm (m ≫= f).
Proof.
  intros Hm Hf s w Hs. apply twpM_bind. eapply twp_mono; [|by apply Hm].
  intros [s' r] w' [Hs' Hr]. cbn in *. destruct r as [a|e|p]; [by apply Hf|split; [done|by intros ? [=]]|by destruct (Hr p)].
Qed.
Lemma calm_ret {A} (a : A) : calm (mret a).
Proof. by eapply okM_calm, (okM_ret _ (λ _, True)). Qed.
Lemma calm_throw {A} e : calm (throw (A := A) e).
Proof. intros s w Hs. split; [done|by intros ? [=]]. Qed.
Lemma calm_of_sum {A} (r : error + A) : calm (of_sum r).
Proof. destruct r; [apply calm_throw|apply calm_ret]. Qed.
Lemma calm_call c : c ≠ CDiverge → calm (mcall c).
Proof using HH. intros Hc. by eapply okM_calm, okM_call. Qed.
Lemma calm_try {A} (m : M TCR A) : calm m → calm (try m).
Proof. intros Hm. by eapply okM_calm, okM_try_calm. Qed.

Lemma okM_annotateHash what key o ann : okM (annotateHash what key o ann) (λ _, True).
Proof using HM.
  unfold annotateHash, computeSpecHash. destruct (HM o) as [s ->]. by apply okM_ret.
Qed.
End rules.

(** ** The building blocks *)

Section blocks.
Context `{Env} (cfg : TCR) {σ : Type} (h : handler σ) (clock : σ → Z).
Context (HH : healthy cfg h clock) (HM : marshals).
Notation okM := (okM cfg h).
Notation ok m := (okM m (λ _, True)).

Lemma ok_bind {A B} (m : M TCR A) (f : A → M TCR B) : ok m → (∀ a, ok (f a)) → ok (m ≫= f).
Proof. intros Hm Hf. by eapply okM_bind. Qed.

Lemma ok_applyImproved k (o : obj k) : ok (applyImproved k o).
Proof using HH.
  unfold applyImproved. apply okM_get. intros s _. eapply (okM_bind_call _ _ _ HH); [done|].
  intros r Hr. apply ok_bind; [apply okM_modify; intros s'; apply same_config_cache|]. intros [].
  destruct Hr as [a ->]. by apply okM_ret.
Qed.

Lemma ok_dynApply d j : ok (ApplyUnstructuredResourceImproved d j).
Proof using HH.
  unfold ApplyUnstructuredResourceImproved. apply okM_get. intros s _.
  eapply (okM_bind_call _ _ _ HH); [done|]. intros r Hr.
  apply ok_bind; [apply okM_modify; intros s'; apply same_config_cache|]. intros [].
  destruct Hr as [a ->]. by apply okM_ret.
Qed.

Lemma ok_resourceapply k n (o : obj k) : ok (resourceapply_Apply k n o).
Proof using HH. apply (okM_call_accepted _ _ _ HH (CApply k o n) (λ r, r)); [done|by intros r]. Qed.

Lemma ok_applyWithCache k ns prepare apply (o : obj k) :
  (∀ e, ok (apply (prepare e o))) → ok (applyWithCache k ns prepare apply o).
Proof using HH.
  intros Ha. unfold applyWithCache, lister.
  eapply okM_bind; [by apply (okM_try_call _ _ _ HH (CLister k ns (ko_Name o)) (λ r, r))|].
  assert (∀ e, let o' := prepare e o in ok ('(actual, updated) ← apply o';
     mmodify (λ t, tcr_set_resourceCache (UpdateCachedResourceMetadata o' actual (resourceCache t)) t) ;;
     mret (actual, updated))) as Hrem.
  { intros e. apply ok_bind; [done|]. intros [a u].
    apply ok_bind; [apply okM_modify; intros s'; apply same_config_cache|]. intros []. by apply okM_ret. }
  intros x (r & [Hr _] & ->). destruct r as [e|existing]; [rewrite (Hr e eq_refl); apply (Hrem None)|].
  cbv zeta. apply okM_get. intros s _. destruct (SafeToSkipApply _ _ _); [by apply okM_ret|apply (Hrem (Some existing))].
Qed.

(** What [good_answer] says of an object that a client reads. *)
Definition good_object (k : kind) : obj k → Prop :=
  match k return obj k → Prop with
  | KPriorityLevelConfiguration => λ o, ∃ n, shares o = Ok n
  | _ => λ _, True
  end.

Lemma ok_applyObject k ns keep (o : obj k) :
  (∀ current, good_object k current → ∃ b, keep current o = Ok b) → ok (applyObject k ns keep o).
Proof using HH.
  intros Hkeep. unfold applyObject, client_get, client_create, client_update, ReportCreateEvent,
    ReportUpdateEvent, Eventf, Warningf.
  assert (∀ b reason message, okM (mcall (CEvent b reason message)) (λ _, True)) as Hev.
  { intros b r m. by eapply okM_call. }
  eapply okM_bind; [by apply (okM_try_call _ _ _ HH (CGet k ns (ko_Name o)) (λ r, r))|].
  intros x (r & [Hr Ho] & ->). destruct r as [e|current].
  - rewrite (Hr e eq_refl). cbn [negb]. eapply okM_bind; [eapply okM_try,
      (okM_call_accepted _ _ _ HH (CCreate k _) (λ r, r)); [done|by intros r]|].
    intros x (a & -> & _). cbn [err_of]. apply ok_bind; [apply Hev|]. intros [].
    apply ok_bind; [by apply okM_ret|]. intros c. by apply okM_ret.
  - destruct (EnsureObjectMeta _ _ _) as [diff meta]. destruct (negb diff && _); [by apply okM_ret|].
    destruct (Hkeep current (Ho current eq_refl)) as [b ->]. apply ok_bind; [by eapply okM_of_res|]. intros [|]; [by apply okM_ret|].
    eapply okM_bind; [eapply okM_try, (okM_call_accepted _ _ _ HH (CUpdate k _) (λ r, r)); [done|by intros r]|].
    intros x (a & -> & _). cbn [err_of]. apply ok_bind; [apply Hev|]. intros [].
    apply ok_bind; [by apply okM_ret|]. intros c. by apply okM_ret.
Qed.

Lemma keepShares_total (want current : PriorityLevelConfiguration) :
  (∃ n, shares want = Ok n) → good_object KPriorityLevelConfiguration current →
  ∃ b, keepShares current want = Ok b.
Proof.
  intros [n Hn] [m Hm]. unfold keepShares. case_bool_decide; [|by eexists]. rewrite Hm, Hn. by eexists.
Qed.
End blocks.

(** ** The [manage*] methods

    [goes m L]: [m] succeeds when the items of [L] are usable. The lists are
    those of [puts]. *)
Section goes.
Context `{Env} (cfg : TCR) {σ : Type} (h : handler σ) (clock : σ → Z).
Context (HH : healthy cfg h clock) (HM : marshals).

Definition goes {A} (m : M TCR A) (L : list item) : Prop :=
  Forall item_usable L → okM cfg h m (λ _, True).

Lemma goes_ok {A} (m : M TCR A) L : okM cfg h m (λ _, True) → goes m L.
Proof. by intros Hm _. Qed.
Lemma goes_bind {A B} (m : M TCR A) (f : A → M TCR B) L1 L2 :
  goes m L1 → (∀ a, goes (f a) L2) → goes (m ≫= f) (L1 ++ L2).
Proof. intros Hm Hf [H1 H2]%Forall_app. apply ok_bind; [by apply Hm|]. intros a. by apply Hf. Qed.
Lemma goes_first {A B} (m : M TCR A) (f : A → M TCR B) L :
  goes m L → (∀ a, okM cfg h (f a) (λ _, True)) → goes (m ≫= f) L.
Proof. intros Hm Hf HL. apply ok_bind; [by apply Hm|done]. Qed.
Lemma goes_then {A B} (m : M TCR A) (f : A → M TCR B) L :
  okM cfg h m (λ _, True) → (∀ a, goes (f a) L) → goes (m ≫= f) L.
Proof. intros Hm Hf HL. apply ok_bind; [done|]. intros a. by apply Hf. Qed.
Lemma goes_get {B} (f : TCR → M TCR B) L :
  (∀ s, same_config cfg s → goes (f s) L) → goes (mget ≫= f) L.
Proof. intros Hf HL. apply okM_get. intros s Hs. by apply Hf. Qed.
Lemma goes_read {A} k path skip (f : obj k → M TCR A) :
  (∀ o, usable k o → okM cfg h (f o) (λ _, True)) → goes (readAsset k path ≫= f) [Manifest k path skip].
Proof.
  intros Hf [(o & Ho & Hu) _]%Forall_cons. eapply okM_bind; [by apply (okM_of_res _ _ _ o (eq o))|].
  intros o' <-. by apply Hf.
Qed.
Lemma goes_directory {B} k dir skip (f : B → string → M TCR B) b wrapped :
  (∀ b file, goes (f b file) [Manifest k (filepath_Join dir file) skip]) →
  goes (match AssetDir dir with inl err => throw (wrapped err) | inr files => mfold f b files end)
    [Directory k dir skip].
Proof.
  intros Hf [(files & -> & Hfiles) _]%Forall_cons. apply okM_mfold. intros b' file Hfile.
  apply Hf. constructor; [by apply Hfiles|constructor].
Qed.

Lemma ok_hash what key o ann : okM cfg h (annotateHash what key o ann) (λ _, True).
Proof using HM. by apply okM_annotateHash. Qed.
Lemma ok_cached k ns (apply : obj k → M TCR (obj k * bool)) (o : obj k) :
  okM cfg h (apply o) (λ _, True) →
  okM cfg h (applyWithCache k ns no_prepare apply o) (λ _, True).
Proof using HH. intros Ha. eapply ok_applyWithCache; [exact HH|]. by intros e. Qed.
Lemma ok_applied k ns (o : obj k) n :
  okM cfg h (applyWithCache k ns no_prepare (resourceapply_Apply k n) o) (λ _, True).
Proof using HH. apply ok_cached. by eapply ok_resourceapply. Qed.
Lemma ok_improved k (o : obj k) : okM cfg h (applyImproved k o) (λ _, True).
Proof using HH. by eapply ok_applyImproved. Qed.

(** *** What usable manifests give *)

Lemma res_map_total {A B} (f : A → res B) l :
  Forall (λ a, ∃ b, f a = Ok b) l → ∃ bs, res_map f l = Ok bs.
Proof.
  induction 1 as [|a l [b Hb] _ [bs IH]]; [by exists []|]. exists (b :: bs).
  cbn. by rewrite Hb, IH.
Qed.

(** Selecting and merging keep the webhooks served. *)
Lemma webhooks_total g enabled ns l :
  Forall (webhook_usable g) l → ∃ kept merged served, keep_enabled g enabled l = Ok kept ∧
    mergeNamespaceSelectors g defaultLabelSelector kept = Ok merged ∧
    res_map (webhook_set_service_namespace ns) merged = Ok served.
Proof.
  intros Hl. destruct (keep_enabled_spec g enabled l) as (kept & Hk & _ & Hin).
  { apply Forall_map. eapply Forall_impl; [exact Hl|]. by intros w []. }
  assert (Forall (webhook_usable g) kept) as Hkept.
  { rewrite Forall_forall in *. intros w [Hw _]%Hin. by apply Hl. }
  destruct (res_map_total (λ w, rlet framework := g (wh_Name w) in
    Ok (if isClusterScopedFramework framework then w
        else webhook_set_NamespaceSelector
               (mergeSelectors (Some defaultLabelSelector) (wh_NamespaceSelector w)) w)) kept) as [merged Hm].
  { eapply Forall_impl; [exact Hkept|]. intros w [[f Hf] _]. rewrite Hf. by eexists. }
  exists kept, merged. destruct (res_map_total (webhook_set_service_namespace ns) merged) as [served Hs].
  2:{ by exists served. }
  apply res_map_Ok in Hm. rewrite Forall_forall in *. intros w Hw.
  apply list_elem_of_lookup in Hw as [i Hi]. destruct (Forall2_lookup_r _ _ _ _ _ Hm Hi) as (w0 & Hw0 & Hf).
  apply list_elem_of_lookup_2, Hkept in Hw0 as [[f Hgf] [svc Hsvc]]. rewrite Hgf in Hf. cbn in Hf.
  injection Hf as <-. unfold webhook_set_service_namespace.
  destruct (isClusterScopedFramework f); cbn; rewrite Hsvc; by eexists.
Qed.

Lemma desiredMutatingWebhook_total ns config owner (o : MutatingWebhookConfiguration) :
  usable KMutatingWebhookConfiguration o → ∃ new, desiredMutatingWebhook ns config owner o = Ok new.
Proof.
  intros Ho. destruct (webhooks_total _ (buildEnabledFrameworks config) ns _ Ho) as (kept & merged & served & H1 & H2 & H3).
  unfold desiredMutatingWebhook, ModifyPodBasedMutatingWebhook.
  match goal with |- context [keep_enabled ?g ?e ?l] =>
    replace (keep_enabled g e l) with (Ok kept) by (symmetry; exact H1) end.
  cbn [res_bind]. rewrite H2. cbn. rewrite H3. by eexists.
Qed.
Lemma desiredValidatingWebhook_total ns config owner (o : ValidatingWebhookConfiguration) :
  usable KValidatingWebhookConfiguration o → ∃ new, desiredValidatingWebhook ns config owner o = Ok new.
Proof.
  intros Ho. destruct (webhooks_total _ (buildEnabledFrameworks config) ns _ Ho) as (kept & merged & served & H1 & H2 & H3).
  unfold desiredValidatingWebhook, ModifyPodBasedValidatingWebhook.
  match goal with |- context [keep_enabled ?g ?e ?l] =>
    replace (keep_enabled g e l) with (Ok kept) by (symmetry; exact H1) end.
  cbn [res_bind]. rewrite H2. cbn. rewrite H3. by eexists.
Qed.
Lemma desiredDeployment_total ns image level ann owner (o : Deployment) :
  usable KDeployment o → ∃ d, desiredDeployment ns image level ann owner o = Ok d.
Proof.
  intros (c & cs & Hc & [sc Hsc]). unfold desiredDeployment, desiredPodSpec, desiredContainer.
  rewrite Hc, Hsc. cbn. destruct (MergeMap _ _ _). by eexists.
Qed.
Lemma kueueCRDNames_total :
  item_usable (Directory KCRD crdDir isAlphaVersion) → ∃ names, kueueCRDNames = Ok names.
Proof.
  intros (files & Hd & Hf). unfold kueueCRDNames. rewrite Hd.
  assert (∃ names, crdNames_loop files = Ok names) as [names ->]; [|by eexists]. clear Hd.
  induction files as [|file files IH]; [by eexists|]. cbn.
  destruct (Hf file) as (o & -> & _); [constructor|]. cbn.
  destruct IH as [names ->]; [intros; apply Hf; by constructor|]. by eexists.
Qed.
End goes.

(** *** The methods *)

Section methods.
Context `{Env} (cfg : TCR) {σ : Type} (h : handler σ) (clock : σ → Z).
Context (HH : healthy cfg h clock) (HM : marshals) (owner : OwnerReference).
Notation goes := (goes cfg h).
Notation ok m := (okM cfg h m (λ _, True)).

(** Reads the receiver where the method does, then its manifest. *)
Ltac goes_read o Ho :=
  repeat match goal with |- goes (mget ≫= _) _ => apply goes_get; intros ? ? end;
  match goal with |- goes (readAsset ?k ?path ≫= ?f) _ => apply (goes_read _ _ k path _ f) end;
  intros o Ho; cbv beta.
Ltac hash := intros [? ?]; by apply ok_hash.
Ltac applied k := refine (ok_applied _ _ _ HH k _ _ _).

Lemma goes_manageServiceAccount :
  goes (manageServiceAccount owner) [manifest KServiceAccount "assets/kueue-operator/serviceaccount.yaml"].
Proof using HH. unfold manageServiceAccount. goes_read o Ho. refine (ok_improved _ _ _ HH _ _). Qed.
Lemma goes_manageService path : goes (manageService path owner) [manifest KService path].
Proof using HH. unfold manageService. goes_read o Ho. refine (ok_improved _ _ _ HH _ _). Qed.
Lemma goes_manageRole path : goes (manageRole path owner) [manifest KRole path].
Proof using HH. unfold manageRole. goes_read o Ho. applied KRole. Qed.
Lemma goes_manageRoleBindingsByNamespace ns path b :
  goes (manageRoleBindingsByNamespace ns path owner b) [manifest KRoleBinding path].
Proof using HH.
  unfold manageRoleBindingsByNamespace. goes_read o Ho. destruct b; applied KRoleBinding.
Qed.
Lemma goes_manageClusterRoleBindings path :
  goes (manageClusterRoleBindings path owner) [manifest KClusterRoleBinding path].
Proof using HH. unfold manageClusterRoleBindings. goes_read o Ho. applied KClusterRoleBinding. Qed.
Lemma goes_manageClusterRoleBindingsWithoutNamespaceOverride path :
  goes (manageClusterRoleBindingsWithoutNamespaceOverride path owner) [manifest KClusterRoleBinding path].
Proof using HH.
  unfold manageClusterRoleBindingsWithoutNamespaceOverride. goes_read o Ho. applied KClusterRoleBinding.
Qed.
Lemma goes_manageOpenshiftClusterRolesForKueue :
  goes (manageOpenshiftClusterRolesForKueue owner) [Named KClusterRole "kueue-openshift-roles"].
Proof using HH. apply goes_ok. applied KClusterRole. Qed.
Lemma goes_manageOpenshiftClusterRolesBindingForKueue :
  goes (manageOpenshiftClusterRolesBindingForKueue owner)
    [Named KClusterRoleBinding "kueue-openshift-cluster-role-binding"].
Proof using HH.
  apply goes_ok. unfold manageOpenshiftClusterRolesBindingForKueue. apply okM_get. intros s _.
  applied KClusterRoleBinding.
Qed.

Lemma goes_manageFlowSchema ann :
  goes (manageFlowSchema ann owner) [manifest KFlowSchema "assets/kueue-operator/flowschema.yaml"].
Proof using HH HM.
  unfold manageFlowSchema. goes_read o Ho. apply ok_bind; [|hash].
  refine (ok_applyObject _ _ _ HH KFlowSchema _ _ _ _). intros ? _. by eexists.
Qed.

Lemma goes_managePriorityLevelConfiguration ann :
  goes (managePriorityLevelConfiguration ann owner)
    [manifest KPriorityLevelConfiguration "assets/kueue-operator/prioritylevelconfiguration.yaml"].
Proof using HH HM.
  unfold managePriorityLevelConfiguration. goes_read o Ho. apply ok_bind; [|hash].
  refine (ok_cached _ _ _ HH KPriorityLevelConfiguration _ _ _ _).
  refine (ok_applyObject _ _ _ HH KPriorityLevelConfiguration _ _ _ _).
  intros current Hc. apply keepShares_total; [exact Ho|exact Hc].
Qed.

Lemma goes_manageAPIService ann :
  goes (manageAPIService ann owner) (map (manifest KAPIService) apiServiceFiles).
Proof using HH HM.
  intros HL. unfold manageAPIService. apply okM_mfold. intros ann' path Hpath.
  assert (goes (c ← mget; required ← readAsset KAPIService path;
    required ← of_res (desiredAPIService (operatorNamespace c) owner required);
    '(apiService, _) ← resourceapply_Apply KAPIService 0 required;
    annotateHash "APIService spec" ("apiservice/" +:+ ko_Name apiService)
      (HSpec KAPIService (ko_body apiService)) ann') [manifest KAPIService path]) as Hgo.
  { goes_read o Ho. destruct Ho as [svc Hsvc].
    assert (∃ new, desiredAPIService (operatorNamespace s) owner o = Ok new) as [new Hnew].
    { unfold desiredAPIService. destruct (as_Service (ko_body o)) eqn:E; [by eexists|].
      exfalso. clear -Hsvc E. change (as_Service (ko_body o : APIServiceBody) = None) in E. congruence. }
    rewrite Hnew. apply ok_bind; [by eapply okM_of_res|]. intros new'.
    apply ok_bind; [by eapply ok_resourceapply|hash]. }
  apply Hgo. rewrite Forall_forall in HL. constructor; [|constructor]. apply HL.
  apply list_elem_of_fmap. by exists path.
Qed.

Lemma goes_manageNetworkPolicies ann :
  goes (manageNetworkPolicies ann owner) [Directory KNetworkPolicy networkPolicyDir (λ _, false)].
Proof using HH HM.
  unfold manageNetworkPolicies. apply goes_directory. intros ann' file. unfold manageNetworkPolicy.
  goes_read o Ho. apply ok_bind; [|hash]. refine (ok_cached _ _ _ HH KNetworkPolicy _ _ _ _).
  refine (ok_applyObject _ _ _ HH KNetworkPolicy _ _ _ _). intros ? _. by eexists.
Qed.

Lemma goes_manageCustomResources ann :
  goes (manageCustomResources ann) [Directory KCRD crdDir isAlphaVersion].
Proof using HH HM.
  unfold manageCustomResources. apply goes_directory. intros ann' file. unfold manageCustomResource.
  goes_read o Ho. destruct (isAlphaVersion o); [by apply okM_ret|]. apply ok_bind; [|hash].
  refine (ok_applyWithCache _ _ _ HH KCRD _ _ _ _ _). intros e. by eapply ok_resourceapply.
Qed.

(** The manager role is scoped to the CRDs. *)
Lemma goes_manageClusterRoles ann :
  goes (manageClusterRoles ann owner)
    [Directory KCRD crdDir isAlphaVersion; Directory KClusterRole clusterRoleDir aggregated].
Proof using HH HM.
  intros [Hcrd HL]%Forall_cons. destruct (kueueCRDNames_total Hcrd) as [names Hnames].
  revert HL. change (goes (manageClusterRoles ann owner) [Directory KClusterRole clusterRoleDir aggregated]).
  unfold manageClusterRoles. apply goes_directory. intros ann' file. unfold manageClusterRole.
  goes_read o Ho. destruct (cr_AggregationRule _); [by apply okM_ret|]. cbv zeta.
  apply ok_bind.
  - destruct (_ =s kueueManagerRoleName); [|by apply okM_ret].
    unfold wrap. eapply okM_bind; [eapply okM_try, (okM_of_res _ _ _ _ (λ _, True));
      [unfold scopeManagerRoleResourceNames; by rewrite Hnames|done]|].
    intros x (role & -> & _). by apply okM_ret.
  - intros role. apply ok_bind; [applied KClusterRole|hash].
Qed.

Lemma goes_manageMutatingWebhook kueue :
  goes (manageMutatingWebhook kueue owner)
    [manifest KMutatingWebhookConfiguration "assets/kueue-operator/mutatingwebhook.yaml"].
Proof using HH.
  unfold manageMutatingWebhook. goes_read o Ho.
  destruct (desiredMutatingWebhook_total (operatorNamespace s) (ks_Config (ku_Spec kueue)) owner o Ho) as [new ->].
  apply ok_bind; [by eapply okM_of_res|]. intros new'. refine (ok_improved _ _ _ HH _ _).
Qed.
Lemma goes_manageValidatingWebhook kueue :
  goes (manageValidatingWebhook kueue owner)
    [manifest KValidatingWebhookConfiguration "assets/kueue-operator/validatingwebhook.yaml"].
Proof using HH.
  unfold manageValidatingWebhook. goes_read o Ho.
  destruct (desiredValidatingWebhook_total (operatorNamespace s) (ks_Config (ku_Spec kueue)) owner o Ho) as [new ->].
  apply ok_bind; [by eapply okM_of_res|]. intros new'. refine (ok_improved _ _ _ HH _ _).
Qed.

Lemma goes_manageServiceMonitor kueue : goes (manageServiceMonitor kueue) [Monitor].
Proof using HH.
  apply goes_ok. unfold manageServiceMonitor. apply okM_get. intros s _.
  apply (okM_call_accepted _ _ _ HH (CApplyServiceMonitor _) (λ r, r)); [done|by intros r].
Qed.

Lemma goes_manageDeployment kueue ann :
  goes (manageDeployment kueue ann owner) [Named KDeployment OperandName].
Proof using HH.
  intros [(o & Ho & Hu) _]%Forall_cons. unfold manageDeployment. apply okM_get. intros s _.
  eapply okM_bind; [by apply (okM_of_res _ _ _ o (eq o))|]. intros o' <-.
  destruct (desiredDeployment_total (operatorNamespace s) (kueueImage s)
    (os_LogLevel (ks_OperatorSpec (ku_Spec kueue))) ann owner o Hu) as [d ->].
  apply ok_bind; [by eapply okM_of_res|]. intros d'.
  apply ok_bind; [applied KDeployment|]. intros [dep [|]]; [|by apply okM_ret].
  apply (okM_bind_call _ _ _ HH); [done|]. intros ? _. by apply okM_ret.
Qed.

Lemma goes_manageConfigMap kueue tls :
  goes (manageConfigMap kueue tls) [Generated (operatorNamespace cfg) (ks_Config (ku_Spec kueue)) tls].
Proof using HH.
  intros [Hcm _]%Forall_cons. unfold manageConfigMap, client_get. apply okM_get. intros s Hs.
  assert (∀ old g, ok (buildAndApplyConfigMap old (ks_Config (ku_Spec kueue)) g tls)) as Hbuild.
  { intros old g. unfold buildAndApplyConfigMap. apply okM_get. intros s' Hs'.
    rewrite (same_ns _ _ Hs'). destruct (Hcm g (draConsumableCapacityEnabled s')) as [cm ->].
    apply ok_bind; [by eapply okM_of_res|]. intros cm'. cbv zeta.
    destruct old as [o|]; [case_match; [by apply okM_ret|]|]; by eapply ok_applyImproved. }
  eapply okM_bind;
    [by apply (okM_try_call _ _ _ HH (CGet KConfigMap (operatorNamespace s) KueueConfigMap) (λ r, r))|].
  intros x (r & [Hx _] & ->). apply ok_bind.
  - destruct (kc_MultiKueue _); [|by apply okM_ret]. unfold resolveGVRsToKinds. apply okM_mfold.
    intros acc fw _. unfold resolveGVR, ServerResourcesForGroupVersion. apply ok_bind.
    + apply okM_try_calm, calm_bind; [by eapply calm_call|]. intros a. apply calm_of_sum.
    + intros [e|l]; [by apply okM_ret|]. destruct (List.find _ l); by apply okM_ret.
  - intros g. destruct r as [e|old]; [rewrite (Hx e eq_refl)|]; apply Hbuild.
Qed.
End methods.

(** Syntactic matching only: the methods are not unfolded. *)
Create HintDb goes discriminated.
#[export] Hint Constants Opaque : goes.
#[export] Hint Variables Opaque : goes.
#[export] Hint Transparent obj body ConfigMap Role RoleBinding ClusterRole ClusterRoleBinding
  NetworkPolicy CustomResourceDefinition APIService FlowSchema PriorityLevelConfiguration
  MutatingWebhookConfiguration ValidatingWebhookConfiguration Deployment annotations : goes.
#[export] Hint Resolve goes_manageServiceAccount goes_manageService goes_manageRole
  goes_manageRoleBindingsByNamespace goes_manageClusterRoleBindings
  goes_manageClusterRoleBindingsWithoutNamespaceOverride goes_manageOpenshiftClusterRolesForKueue
  goes_manageOpenshiftClusterRolesBindingForKueue goes_manageFlowSchema
  goes_managePriorityLevelConfiguration goes_manageAPIService goes_manageClusterRoles
  goes_manageNetworkPolicies goes_manageCustomResources goes_manageMutatingWebhook
  goes_manageValidatingWebhook goes_manageServiceMonitor goes_manageDeployment goes_manageConfigMap
  okM_annotateHash : goes.

(** ** The operand *)

Section operand.
Context `{Env} (cfg : TCR) {σ : Type} (h : handler σ) (clock : σ → Z).
Context (HH : healthy cfg h clock) (HM : marshals) (owner : OwnerReference).
Notation goes := (goes cfg h).
Notation ok m := (okM cfg h m (λ _, True)).

Ltac goes_one :=
  apply goes_first; [eauto with goes|intros [? ?]; by apply okM_annotateHash].

Lemma goes_syncRole path ann : goes (syncRole path owner ann) [manifest KRole path].
Proof using HH HM. unfold syncRole. goes_one. Qed.
Lemma goes_syncRoleBinding path b ann :
  goes (syncRoleBinding path owner b ann) [manifest KRoleBinding path].
Proof using HH HM.
  unfold syncRoleBinding, manageRoleBindings. goes_one. apply goes_get. intros. eauto with goes.
Qed.
Lemma goes_syncService path ann : goes (syncService path owner ann) [manifest KService path].
Proof using HH HM. unfold syncService. goes_one. Qed.
Lemma goes_syncClusterRoleBinding path ann :
  goes (syncClusterRoleBinding path owner ann) [manifest KClusterRoleBinding path].
Proof using HH HM. unfold syncClusterRoleBinding. goes_one. Qed.
Lemma goes_syncServiceAccount ann :
  goes (syncServiceAccount owner ann) [manifest KServiceAccount "assets/kueue-operator/serviceaccount.yaml"].
Proof using HH HM. unfold syncServiceAccount. goes_one. Qed.
Lemma goes_syncConfigMap kueue tls ann :
  goes (syncConfigMap kueue tls ann) [Generated (operatorNamespace cfg) (ks_Config (ku_Spec kueue)) tls].
Proof using HH HM. unfold syncConfigMap. goes_one. Qed.
#[local] Hint Resolve goes_syncRole goes_syncRoleBinding goes_syncService goes_syncClusterRoleBinding
  goes_syncServiceAccount goes_syncConfigMap : goes.

Lemma goes_monitored (m : M TCR annotations) ann items :
  goes m items → goes (c ← mget; if serviceMonitorSupport c then m else mret ann) (monitored cfg items).
Proof.
  intros Hm. apply goes_get. intros s (_ & _ & _ & Hs). unfold monitored. rewrite Hs.
  destruct (serviceMonitorSupport cfg); [done|]. by apply goes_ok, okM_ret.
Qed.

Ltac goes_next :=
  match goal with
  | |- goes (?m ≫= ?f) (?i :: ?L) => apply (goes_bind _ _ m f [i] L); [eauto with goes|]
  | |- goes (?m ≫= ?f) (?L1 ++ ?L2) => apply (goes_bind _ _ m f L1 L2); [eauto with goes|]
  | |- goes (match ?x with _ => _ end) _ => destruct x
  | |- ∀ _, _ => intros ?
  end.
Ltac goes_all := repeat (cbv beta; goes_next); eauto with goes.

Lemma goes_syncPrometheus ann :
  goes (syncPrometheus owner ann) (monitored cfg
    [manifest KRole "assets/kueue-operator/role-prometheus.yaml";
     manifest KRoleBinding "assets/kueue-operator/rolebinding-prometheus.yaml";
     manifest KService "assets/kueue-operator/controller-manager-metrics-service.yaml";
     manifest KClusterRoleBinding "assets/kueue-operator/clusterrolebinding-metrics-monitoring.yaml"]).
Proof using HH HM. apply goes_monitored. do 3 (goes_next; intros ?). goes_one. Qed.

Lemma goes_syncMetricsBindings ann :
  goes (syncMetricsBindings owner ann) (monitored cfg
    [manifest KClusterRoleBinding "assets/kueue-operator/clusterrolebinding-metrics.yaml";
     manifest KClusterRoleBinding "assets/kueue-operator/clusterrolebinding-metrics-auth.yaml"]).
Proof using HH HM. apply goes_monitored. goes_all. Qed.

Lemma goes_syncServiceMonitor kueue ann :
  goes (syncServiceMonitor kueue ann) (monitored cfg [Monitor]).
Proof using HH HM. apply goes_monitored. goes_one. Qed.
#[local] Hint Resolve goes_syncPrometheus goes_syncMetricsBindings goes_syncServiceMonitor : goes.

Lemma goes_syncNamespaced ann : goes (syncNamespaced owner ann) (namespacedItems cfg).
Proof using HH HM. unfold syncNamespaced, namespacedItems. cbn [app]. goes_all. Qed.

Lemma ok_syncOpenshiftRoles ann : ok (syncOpenshiftRoles owner ann).
Proof using HH HM.
  unfold syncOpenshiftRoles.
  apply ok_bind; [apply (goes_manageOpenshiftClusterRolesForKueue _ _ _ HH); by repeat constructor|].
  intros [? ?]. apply ok_bind; [by apply okM_annotateHash|]. intros ?.
  apply ok_bind; [apply (goes_manageOpenshiftClusterRolesBindingForKueue _ _ _ HH); by repeat constructor|].
  intros [? ?]. by apply okM_annotateHash.
Qed.

(** The roles need the directory of CRDs, too. *)
Lemma goes_syncClusterWide ann : goes (syncClusterWide owner ann) (clusterWideItems cfg).
Proof using HH HM.
  intros HL. pose proof HL as HL'. revert HL'. unfold clusterWideItems at 1. rewrite !Forall_app.
  rewrite !Forall_cons. intros (Hapi & (Hplc & Hfs & Hcrd & Hnp & Hcr & _ & _ & Hproxy & Hmgr & _) & Hmon & Hrb & _).
  assert (∀ i, item_usable i → Forall item_usable [i]) as H1 by (intros; by repeat constructor).
  unfold syncClusterWide.
  apply ok_bind; [by eapply goes_manageAPIService|]. intros ?.
  apply ok_bind; [by eapply goes_managePriorityLevelConfiguration; eauto|]. intros ?.
  apply ok_bind; [by eapply goes_manageFlowSchema; eauto|]. intros ?.
  apply ok_bind; [by eapply goes_manageCustomResources; eauto|]. intros ?.
  apply ok_bind; [by eapply goes_manageNetworkPolicies; eauto|]. intros ?.
  apply ok_bind; [eapply goes_manageClusterRoles; [done..|by repeat constructor]|]. intros ?.
  apply ok_bind; [apply ok_syncOpenshiftRoles|]. intros ?.
  apply ok_bind; [by eapply goes_syncClusterRoleBinding; eauto|]. intros ?.
  apply ok_bind; [by eapply goes_syncClusterRoleBinding; eauto|]. intros ?.
  apply ok_bind; [by apply goes_syncMetricsBindings|]. intros ?.
  apply ok_bind; [eapply goes_manageRoleBindingsByNamespace; eauto|].
  intros [? ?]. by apply okM_annotateHash.
Qed.

Lemma goes_syncWebhooks kueue ann : goes (syncWebhooks kueue owner ann) webhookItems.
Proof using HH HM.
  unfold syncWebhooks, webhookItems. goes_next. intros [? ?].
  apply goes_then; [by apply okM_annotateHash|]. intros ?. goes_next. intros [? ?].
  apply goes_then; [by apply okM_annotateHash|]. eauto with goes.
Qed.

Lemma ok_updateKueueStatus kueue cs n : ok (updateKueueStatus kueue cs n).
Proof using HH.
  unfold updateKueueStatus, now. apply (okM_bind_call _ _ _ HH); [done|]. intros t _.
  apply (okM_bind_call _ _ _ HH); [done|]. intros r Hr. cbn in Hr. subst r. by apply okM_ret.
Qed.

Lemma goes_syncDeployment kueue dep ann :
  goes (syncDeployment kueue owner dep ann) [Named KDeployment OperandName].
Proof using HH.
  unfold syncDeployment. apply goes_first; [eauto with goes|]. intros [[? ?] ?].
  apply ok_updateKueueStatus.
Qed.
#[local] Hint Resolve goes_syncNamespaced goes_syncClusterWide goes_syncWebhooks goes_syncDeployment
  : goes.

Lemma goes_syncOperand kueue tls dep ann :
  goes (syncOperand kueue tls owner dep ann) (inventory cfg (ks_Config (ku_Spec kueue)) tls).
Proof using HH HM. unfold syncOperand, inventory. cbn [app]. goes_all. Qed.
End operand.

(** ** The whole reconciliation *)

Section whole.
Context `{Env} (cfg : TCR) {σ : Type} (h : handler σ) (clock : σ → Z).
Context (HH : healthy cfg h clock) (HM : marshals).
Notation okM := (okM cfg h).
Notation ok m := (okM m (λ _, True)).
Notation calm := (calm cfg h).

Lemma ok_call c : c ≠ CDiverge → ok (mcall c).
Proof using HH. intros Hc. by eapply okM_mono, okM_call. Qed.

(** Steps whose answers do not matter. *)
Ltac ok_step :=
  match goal with
  | |- okM (mget ≫= _) _ => apply okM_get; intros ? ?
  | |- okM (_ ≫= _) _ => apply ok_bind; [|intros ?]
  | |- okM (mret _) _ => by apply okM_ret
  | |- okM (mmodify _) _ => by apply okM_modify
  | |- okM (mcall _) _ => by apply ok_call
  | |- okM (try _) _ => apply okM_try_calm
  | |- okM (mfold _ _ _) _ => apply okM_mfold; intros ? ? ?
  | |- okM (annotateHash _ _ _ _) _ => by apply okM_annotateHash
  | |- okM (match ?x with _ => _ end) _ => destruct x
  | |- calm (mcall _) => by eapply calm_call
  | |- calm (_ ≫= _) => apply calm_bind; [|intros ?]
  | |- calm (mret _) => apply calm_ret
  | |- calm (throw _) => apply calm_throw
  | |- calm (of_sum _) => apply calm_of_sum
  | |- calm (try _) => apply calm_try
  | |- calm (match ?x with _ => _ end) => destruct x
  end.
Ltac solve_ok := repeat ok_step.

Lemma ok_checkDependencies kueue : ok (checkDependencies kueue).
Proof using HH.
  unfold checkDependencies, frameworkDependencies, missingOperator, isOperatorAvailability,
    isResourceRegisteredCached, checkDRAAPIs, isResourceRegistered, lister,
    ServerResourcesForGroupVersion, draAPIDependencies, updateDRAGates, isKubernetesMinorAtLeast, draGateDependencies, Eventf.
  solve_ok.
Qed.

Lemma ok_addFinalizer kueue :
  ¬ deleting kueue → okM (addFinalizerToKueueInstance kueue) (λ k', ¬ deleting k').
Proof using HH.
  intros Hd. unfold addFinalizerToKueueInstance, updateFinalizer. case_bool_decide; [by apply okM_ret|].
  eapply okM_bind; [apply (okM_try _ _ _ (λ k', ¬ deleting k'))
    |intros x (k' & -> & Hk'); by apply okM_ret].
  unfold updateFinalizer_attempt, kueue_get.
  eapply okM_bind; [by apply (okM_call_accepted _ _ _ HH (CKueueGet _) (λ r, r)); [|intros r]|].
  intros original _. case_bool_decide; [by apply okM_ret|]. cbv zeta.
  apply (okM_bind_call _ _ _ HH); [done|]. intros r (k' & -> & Hk').
  eapply okM_bind; [by apply (okM_ret _ _ k' (eq k'))|]. intros p <-.
  eapply okM_bind; [by apply ok_call|]. intros u _. by apply okM_ret.
Qed.

Lemma issued_ready cert secretName :
  certificate_issued cert secretName → readyCertificateSecret cert = Some secretName.
Proof.
  intros (l & Hl & Hr & Hi & Hs & Hne). unfold readyCertificateSecret, NestedSlice, NestedString.
  rewrite Hl, scanConditions_exists. apply has_condition_exists in Hr.
  rewrite <-has_condition_exists, not_true_iff_false in Hi. rewrite Hr, Hi, Hs. cbn.
  by rewrite bool_decide_false.
Qed.
Lemma key_pair_complete secret : holds_key_pair secret → secretComplete secret = true.
Proof.
  intros (data & crt & key & Hd & Hc & Hcn & Hk & Hkn). unfold secretComplete, NestedMap.
  rewrite Hd, Hc, Hk. by rewrite !bool_decide_false.
Qed.

Lemma ok_wait ns name : ok (WaitForCertificateReady certificateFuel ns name (2 * Minute)).
Proof using HH.
  intros s w Hs. unfold WaitForCertificateReady, now. apply twpM_bind, twpM_call.
  pose proof (healthy_responsive _ _ _ HH) as HR.
  destruct (responsive_answers _ _ HR w CNow) as (t & w1 & H1 & _); [done|].
  exists t, w1. split; [done|]. pose proof (healthy_prompt _ _ _ HH _ _ _ H1) as Hp.
  apply (responsive_now _ _ HR) in H1 as ->. unfold certificateFuel. cbn [waitLoop].
  apply twpM_bind, twpM_call.
  destruct (responsive_answers _ _ HR w1 CNow) as (t & w2 & H2 & _); [done|].
  exists t, w2. split; [done|]. apply (responsive_now _ _ HR) in H2 as ->.
  rewrite (proj2 (Z.ltb_ge _ _)) by lia.
  assert (okM (checkCertificate ns name) (eq true)) as Hcheck.
  { unfold checkCertificate, dyn_get.
    eapply okM_bind; [by apply (okM_try_call _ _ _ HH (CDynGet RCertificates ns name) (λ r, r))|].
    intros x (r & (cert & secretName & -> & Hc) & ->). rewrite (issued_ready _ _ Hc).
    eapply okM_bind; [by apply (okM_try_call _ _ _ HH (CDynGet RSecrets ns secretName) (λ r, r))|].
    intros x (r & (secret & -> & Hk) & ->). rewrite (key_pair_complete _ Hk). by apply okM_ret. }
  apply twpM_bind. eapply twp_mono; [|by apply Hcheck].
  intros [s' r] w' [Hs' (b & Hr & <-)]. cbn in Hr. subst r. by split; eauto.
Qed.

Lemma okM_resolveTLS kueue : okM (resolveTLS kueue) (λ x, ∃ tls, x = Some tls).
Proof using HH.
  unfold resolveTLS, FetchAPIServerTLSProfile, Warningf. apply okM_get. intros s _.
  destruct (negb (isOpenShift s)); [apply okM_ret; by eexists|].
  eapply okM_bind with (Q1 := λ p, ∃ x, TLSOptionsFromProfile p = Ok x).
  { apply (okM_bind_call _ _ _ HH); [done|]. intros r (p & x & -> & Hx). apply okM_ret. by eexists. }
  intros p [x Hx]. eapply okM_bind; [eapply okM_try, (okM_of_res _ _ _ x (eq x)); [exact Hx|done]|].
  intros y (? & -> & <-). destruct x as [[opts uc] ug].
  eapply okM_bind; [instantiate (1 := λ _, True); solve_ok|intros ? _].
  eapply okM_bind; [instantiate (1 := λ _, True); solve_ok|intros ? _]. apply okM_ret. by eexists.
Qed.

Lemma okM_readKueue : okM readKueue (λ x, ∃ k, x = Some k ∧ installable cfg k).
Proof using HH.
  unfold readKueue. apply (okM_bind_call _ _ _ HH); [done|]. intros r (k & -> & Hk).
  apply okM_ret. by exists k.
Qed.
Lemma okM_rereadKueue : okM rereadKueue (installable cfg).
Proof using HH.
  unfold rereadKueue. apply (okM_bind_call _ _ _ HH); [done|]. intros r (k & -> & Hk). by apply okM_ret.
Qed.

Lemma ok_syncLive kueue owner dep ann : ok (syncLive kueue owner dep ann).
Proof using HH HM.
  unfold syncLive. apply ok_bind.
  { unfold manageIssuer, manageIssuerCR. apply ok_bind; [|intros [? ?]; by apply okM_annotateHash].
    apply okM_get. intros s _. by eapply ok_dynApply. }
  intros ann1. apply ok_bind.
  { unfold manageCertificates, manageCertificateCR. apply okM_get. intros s _. apply okM_mfold. intros a d _.
    apply ok_bind; [|intros [? ?]; by apply okM_annotateHash]. apply okM_get. intros s' _. by eapply ok_dynApply. }
  intros ann2. apply ok_bind.
  { unfold waitForCertificates. apply okM_get. intros s _. cbv zeta.
    do 2 (apply ok_bind; [apply ok_wait|intros _]). apply ok_wait. }
  intros []. eapply okM_bind; [apply okM_rereadKueue|]. intros k2 [_ Hk2].
  eapply okM_bind; [apply okM_resolveTLS|]. intros x [tls ->].
  eapply goes_syncOperand; [done..|apply Hk2].
Qed.

Lemma ok_sync : ok sync.
Proof using HH HM.
  unfold sync. eapply okM_bind; [apply okM_readKueue|]. intros x (k & -> & Hd & _).
  eapply okM_bind with (Q1 := eq true).
  { unfold isResourceRegisteredCached, lister.
    eapply okM_bind; [by apply (okM_try_call _ _ _ HH (CLister KCRD "" "issuers.cert-manager.io") (λ r, r))|].
    intros x (r & [_ Hr] & ->). destruct (Hr eq_refl) as [crd ->]. by apply okM_ret. }
  intros ? <-. cbn [negb]. unfold syncInstalled. apply ok_bind; [apply ok_checkDependencies|]. intros dep.
  eapply okM_bind; [by apply ok_addFinalizer|]. intros k' Hk'. cbv zeta.
  destruct (om_DeletionTimestamp (ku_ObjectMeta k')) eqn:E; [|apply ok_syncLive].
  destruct Hk'. unfold deleting. by rewrite E.
Qed.
End whole.

(** A run that returned has made its first call. *)
Lemma run_first {A σ} (h : handler σ) c (k : resp c → prog A) w tr a w' :
  run h (Vis c k) w = (tr, Some a, w') → ∃ r, Ev c r ∈ tr.
Proof.
  cbn [run]. destruct (h w c) as [[r w1]|]; [|done].
  destruct (run h (k r) w1) as [[tr1 o1] w2]. intros [= <- _ _]. exists r. constructor.
Qed.

(** C3: Liveness. On a healthy cluster, with an installable Kueue resource, one
    reconciliation succeeds, and what it has achieved is the installation: the
    finalizer is settled, issuer and certificates are applied and ready, the
    whole inventory of the operand is present, and the status was accepted.
    Healthy means that the API server accepts what is written, that reads find
    an object or nothing, that cert-manager is installed and issues the
    certificates, that the TLS profile is supported, and that the clock runs;
    the answers to discovery and to everything else are arbitrary. *)
Theorem sync_live `{Env} {σ} (h : handler σ) (clock : σ → Z) (c : TCR) (w : σ) :
  healthy c h clock → marshals →
  ∃ tr c' w', run h (sync c) w = (tr, Some (c', Ok tt), w') ∧ outcome c Reported tr.
Proof.
  intros HH HM. destruct (twp_run _ _ _ _ (ok_sync c h clock HH HM c w ltac:(done)))
    as (tr & [c' r] & w' & Hrun & _ & [[] [Hr _]]). cbn in Hr. subst r.
  exists tr, c', w'. split; [exact Hrun|].
  assert (∀ x r, Ev x r ∈ tr → good_answer c x r) as Hgood.
  { intros x r Hx. pose proof (run_answers _ _ _ _ _ _ Hrun) as Hall. rewrite Forall_forall in Hall.
    destruct (Hall _ Hx) as (w1 & w2 & Ha).
    by apply (healthy_answers _ _ _ HH) in Ha. }
  destruct (sync_verdict _ _ _ (run_runs _ _ _ _ _ _ Hrun)) as [[] Hv]; cbn [outcome] in Hv.
  - destruct (run_first h (CCacheGetKueue OperatorConfigName) _ _ _ _ _ Hrun) as [r Hr].
    destruct (Hgood _ _ Hr) as (k & -> & _). by destruct (Hv k).
  - destruct Hv as (e & He & _). apply Hgood in He as [_ He]. by destruct (He eq_refl).
  - destruct Hv as [(k & k' & (_ & Hk & Hf) & Hd) _]. cut (¬ deleting k'); [done|].
    apply Hgood in Hk as (k1 & [= <-] & Hk & _).
    destruct Hf as [[-> _]|[[-> _]|(n & p & Hp)]]; [done..|]. by apply Hgood in Hp as (k2 & [= <-] & ?).
  - destruct Hv as (_ & (_ & p & e & Hp & He) & _). apply Hgood in Hp as (p' & x & [= <-] & Hx). congruence.
  - exact Hv.
Qed.

(** ** Concrete instances *)

#[local] Existing Instance example_env.

Lemma example_marshals : marshals.
Proof. intros o. by eexists. Qed.

(** Every manifest of the example environment is usable. *)
Lemma example_usable k path : usable k (example_obj k "Kind" (meta_named "default" path)).
Proof.
  destruct k; cbn; try exact I; try (by eexists).
  - repeat constructor; try (by eexists); by vm_compute; eexists.
  - repeat constructor; try (by eexists); by vm_compute; eexists.
  - by do 2 eexists.
Qed.
Lemma example_manifest_usable k path : manifest_usable k path.
Proof. exists (example_obj k "Kind" (meta_named "default" path)). split; [done|apply example_usable]. Qed.

Lemma example_installable fs : installable example_tcr (example_kueue fs).
Proof.
  split; [by intros []|]. intros tls. apply Forall_forall. intros [k path skip|k dir skip|k name|r name| |ns config tls'] Hi.
  - apply example_manifest_usable.
  - exists ["one.yaml"]. split; [done|]. intros file _. apply example_manifest_usable.
  - destruct k; try exact I. apply example_manifest_usable.
  - exact I.
  - exact I.
  - apply (elem_of_app [_]) in Hi as [Hi|Hi].
    + apply list_elem_of_singleton in Hi as [= -> -> ->]. intros g b. by eexists.
    + exfalso. revert Hi. unfold namespacedItems, clusterWideItems, monitored. cbn.
      rewrite !elem_of_cons. by intros Hi; repeat destruct Hi as [[=]|Hi]; apply elem_of_nil in Hi.
Qed.

Lemma example_cluster_healthy :
  healthy example_tcr (example_cluster (example_kueue []) true) (λ clock, clock).
Proof.
  split; [apply example_cluster_responsive| |].
  - intros w c r w' Hr. destruct c; try exact I; cbn [example_cluster] in Hr.
    8:{ destruct r0; [exact I| | |exact I]; injection Hr as <- _.
        - exists example_certificate, "kueue-webhook-server-cert". split; [done|].
          by apply readyCertificateSecret_issued.
        - exists example_secret. split; [done|]. by eexists _, _, _. }
    all: injection Hr as <- _; cbn.
    + exists (example_kueue []). split; [done|]. apply example_installable.
    + case_bool_decide; (split; [by intros ? [= <-]|]); [by eexists|done].
    + split; [by intros ? [= <-]|by intros ? [=]].
    + by eexists.
    + by eexists.
    + by eexists.
    + by eexists.
    + by eexists.
    + by eexists.
    + by eexists.
    + eexists. split; [done|]. by intros [].
    + done.
    + by eexists _, _.
  - intros w r w' [= _ <-]. assert (0 ≤ 2 * Minute)%Z by (vm_compute; discriminate). lia.
Qed.

(** The reconciliation of a new resource on an empty cluster. *)
Lemma sync_live_witness :
  ∃ tr c' w', run (example_cluster (example_kueue []) true) (sync example_tcr) 0%Z =
    (tr, Some (c', Ok tt), w') ∧ outcome example_tcr Reported tr.
Proof.
  exact (sync_live (example_cluster (example_kueue []) true) (λ clock, clock) example_tcr 0%Z
           example_cluster_healthy example_marshals).
Defined.
