(* ===== verification/Steady.v ===== *)
(** * Running a program twice in a settled cluster

    The cluster is settled: an object that is read or applied is the one that
    is stored. [steady K Q m m2] relates two runs: what the first leaves in
    the resource cache under the keys [K] makes the second quiet. The rules
    follow the monad; the lemmas on the applies are the base cases. *)
From S2P Require Import Prelude GoStd K8s ApiTypes DraHelpers ConfigMap TlsProfile K8sObjects.
From S2P Require Import PodWebhook Effects Monad Cert ResourceApply Finalizer Reconciler Discovery.
From S2P Require Import Conditions CachedApply Cleanup Manage Managed Sync.

(** ** Calls and answers

    [awp p Q]: as long as the answers are those of [ans], every call of [p] is
    allowed and its result satisfies [Q]. *)
Section awp.
Context (allowed : call → Prop) (ans : ∀ c, resp c → Prop).

Definition answered_by (tr : trace) : Prop := Forall (λ '(Ev c r), ans c r) tr.

Fixpoint awp {A} (p : prog A) (Q : A → Prop) : Prop :=
  match p with
  | Ret a => Q a
  | Vis c k => allowed c ∧ ∀ r, ans c r → awp (k r) Q
  end.

Lemma awp_mono {A} (p : prog A) (Q Q' : A → Prop) : (∀ a, Q a → Q' a) → awp p Q → awp p Q'.
Proof. intros HQ. induction p as [a|c k IH]; cbn; [apply HQ|]. intros [? Hk]. split; [done|]. eauto. Qed.
Lemma awp_bind {A B} (p : prog A) (f : A → prog B) Q : awp p (λ a, awp (f a) Q) → awp (pbind p f) Q.
Proof. induction p as [a|c k IH]; cbn; [done|]. intros [? Hk]. split; [done|]. eauto. Qed.
Lemma awp_runs {A} (p : prog A) tr o Q :
  runs p tr o → answered_by tr → awp p Q → Forall (allowed ∘ ev_call) tr ∧ ∀ a, o = Some a → Q a.
Proof.
  intros Hr. induction Hr as [p|a|c k r tr o Hr IH]; cbn.
  - intros _ _. split; [done|]. by intros ? [=].
  - intros _ HQ. split; [done|]. by intros ? [= <-].
  - intros [Ha Ht]%Forall_cons [Hc Hk]. destruct (IH Ht (Hk r Ha)). split; [by constructor|done].
Qed.
(** A program whose calls are all allowed. *)
Lemma awp_prog_in {A} C (R : A → Prop) (p : prog A) : (∀ c, C c → allowed c) → prog_in C R p → awp p R.
Proof. intros HC. induction p as [a|c k IH]; cbn; [done|]. intros [? Hk]. split; [by apply HC|]. eauto. Qed.
End awp.

Lemma awp_weaken {A} (allowed allowed' : call → Prop) (ans ans' : ∀ c, resp c → Prop) (p : prog A) Q :
  (∀ c, allowed c → allowed' c) → (∀ c r, ans' c r → ans c r) → awp allowed ans p Q → awp allowed' ans' p Q.
Proof.
  intros Hal Han. induction p as [a|c k IH]; cbn; [done|]. intros [Hc Hk]. split; [by apply Hal|]. eauto.
Qed.

(** ** A settled cluster *)

Definition cluster_scoped (k : kind) : bool :=
  match k with
  | KClusterRole | KClusterRoleBinding | KFlowSchema | KPriorityLevelConfiguration | KCRD
  | KAPIService | KMutatingWebhookConfiguration | KValidatingWebhookConfiguration => true
  | _ => false
  end.

(** The stored objects by kind, namespace and name, what discovery says of a
    group version, and the answer to an apply of the ServiceMonitor. *)
Record cluster := {
  cl_objects : ∀ k, string → string → option (obj k);
  cl_resources : string → error + list APIResource;
  cl_monitor : json → error + json * bool;
}.

Section cluster.
Context `{Env} (cl : cluster).

(** What is stored under the name of [o]. *)
Definition object_of {k} (o : obj k) : option (obj k) :=
  cl_objects cl k (if cluster_scoped k then "" else ko_Namespace o) (ko_Name o).

(** Objects are stored under their names, and the API server gives them
    versions. *)
Record well_stored : Prop := {
  ws_name k ns n e : cl_objects cl k ns n = Some e → ko_Name e = n;
  ws_namespace k ns n e : cl_objects cl k ns n = Some e → cluster_scoped k = false → ko_Namespace e = ns;
  ws_version k ns n e : cl_objects cl k ns n = Some e → om_ResourceVersion (ko_meta e) ≠ "";
}.

Definition found {k} (name : string) (o : option (obj k)) : error + obj k :=
  match o with Some o => inr o | None => inl (StatusError StatusReasonNotFound 404 name) end.

(** The answers of the settled cluster. A write is answered with the object
    that was already there. library-go's [Improved] applies skip and remember
    as [applyWithCache] does. Everything else is arbitrary. *)
Definition answers (c : call) : resp c → Prop :=
  match c return resp c → Prop with
  | CLister k ns n | CGet k ns n => λ r, r = found n (cl_objects cl k ns n)
  | CCreate k o | CUpdate k o => λ r, ∃ e, object_of o = Some e ∧ r = inr e
  | CApply k o _ => λ r, ∃ e changed, object_of o = Some e ∧ r = inr (e, changed)
  | CApplyImproved k o cache => λ r, ∃ e changed, object_of o = Some e ∧
      r = (inr (e, changed),
           if SafeToSkipApply o e cache then cache else UpdateCachedResourceMetadata o e cache)
  | CServerResourcesForGroupVersion gv => λ r, r = cl_resources cl gv
  | CApplyServiceMonitor j => λ r, r = cl_monitor cl j
  | _ => λ _, True
  end.
Definition answered (tr : trace) : Prop := answered_by answers tr.

(** The calls of a quiet run: reads, events, the status, and the applies that
    the cache does not cover. Those of library-go that get the cache find their
    object in it. *)
Definition quiet (c : call) : Prop :=
  match c with
  | CLister _ _ _ | CGet _ _ _ | CServerResourcesForGroupVersion _ | CEvent _ _ _ | CNow => True
  | CKueueApplyStatus _ _ _ | CApplyServiceMonitor _ | CCacheStoreKueue _ => True
  | CApply k o _ => k = KAPIService ∨ cacheKey o = None
  | CApplyImproved k o cache => ∃ e, object_of o = Some e ∧ SafeToSkipApply o e cache = true
  | CUpdate k _ => k = KFlowSchema
  | _ => False
  end.

End cluster.

(** ** Two runs of one program

    [steady K Q m m2]: from any cache, a run of [m] in the settled cluster that
    does not panic changes the receiver's cache at the keys [K] only. When
    [m2] then runs with a cache that has these entries, it is quiet, its result
    is related to the first by [Q], and it leaves the receiver as it is. *)
Section steady.
Context `{Env} (cl : cluster) (cfg : TCR).
Notation answered := (answered cl).
Notation awp := (awp (quiet cl) (answers cl)).
Notation answers := (answers cl).
Notation cached c := (tcr_set_resourceCache c cfg).

Definition agree_on (K : list cachedVersionKey) (c c2 : ResourceCache) : Prop :=
  ∀ key, key ∈ K → c2 !! key = c !! key.

Definition steady {A B} (K : list cachedVersionKey) (Q : res A → res B → Prop)
    (m : M TCR A) (m2 : M TCR B) : Prop :=
  NoDup K → ∀ c tr s' r, runs (m (cached c)) tr (Some (s', r)) → answered tr → (∀ p, r ≠ Panic p) →
  ∃ c', s' = cached c' ∧ (∀ key, key ∉ K → c' !! key = c !! key) ∧
    ∀ c2, agree_on K c' c2 → awp (m2 (cached c2)) (λ p, p.1 = cached c2 ∧ Q r p.2).

(** Related values, or the same error. *)
Definition same {A B} (R : A → B → Prop) (r : res A) (r2 : res B) : Prop :=
  match r, r2 with
  | Ok a, Ok b => R a b
  | Err e, Err e2 => e = e2
  | _, _ => False
  end.
(** A rule may end in any relation that holds of the same error twice. *)
Class Fails {A B} (Q : res A → res B → Prop) : Prop := fails e : Q (Err e) (Err e).
#[export] Instance same_fails {A B} (R : A → B → Prop) : Fails (same R).
Proof. done. Qed.
#[export] Instance any_fails {A B} : Fails (λ (_ : res A) (_ : res B), True).
Proof. done. Qed.

(** *** Rules *)

Lemma agree_on_sub K K' c c2 : K ⊆ K' → agree_on K' c c2 → agree_on K c c2.
Proof. intros HK Ha key Hk. apply Ha. set_solver. Qed.

Lemma steady_sub {A B} K K' Q (m : M TCR A) (m2 : M TCR B) :
  K ⊆+ K' → steady K Q m m2 → steady K' Q m m2.
Proof.
  intros HK Hm Hn c tr s' r Hr Ha Hp. assert (K ⊆ K') as Hs by (intros x Hx; by eapply elem_of_submseteq).
  assert (NoDup K) as Hn'.
  { apply submseteq_Permutation in HK as [L HL]. rewrite HL in Hn. by apply NoDup_app in Hn as [? _]. }
  destruct (Hm Hn' c tr s' r Hr Ha Hp) as (c' & -> & Hf & Hq). exists c'. split; [done|]. split.
  - intros key Hk. apply Hf. set_solver.
  - intros c2 Hc2. apply Hq. by eapply agree_on_sub.
Qed.

Lemma steady_ret {A B} (Q : res A → res B → Prop) a b :
  Q (Ok a) (Ok b) → steady [] Q (mret a) (mret b).
Proof. intros HQ _ c tr s' r [-> [= -> ->]]%runs_ret_inv _ _. by exists c. Qed.
Lemma steady_throw {A B} (Q : res A → res B → Prop) `{!Fails Q} e : steady [] Q (throw e) (throw e).
Proof. intros _ c tr s' r [-> [= -> ->]]%runs_ret_inv _ _. exists c. by split_and!. Qed.
Lemma steady_of_sum {A} (r : error + A) : steady [] (same eq) (of_sum r) (of_sum r).
Proof. destruct r; [apply steady_throw, _|by apply steady_ret]. Qed.

Lemma steady_call {A B} (Q : res A → res B → Prop) c (f : resp c → M TCR A) (f2 : resp c → M TCR B) K :
  quiet cl c → (∀ r r2, answers c r → answers c r2 → steady K Q (f r) (f2 r2)) →
  steady K Q (mcall c ≫= f) (mcall c ≫= f2).
Proof.
  intros Hc Hf Hn c1 tr s' r Hr Ha Hp. apply runs_vis_inv in Hr as (a & tr' & -> & Hr).
  apply Forall_cons in Ha as [Ha Htr].
  (* a later answer may differ from the first *)
  assert (∃ c', s' = cached c' ∧ (∀ key, key ∉ K → c' !! key = c1 !! key)) as (c' & -> & Hk).
  { destruct (Hf a a Ha Ha Hn c1 tr' s' r Hr Htr Hp) as (c' & ? & ? & _). by exists c'. }
  exists c'. split; [done|]. split; [done|]. intros c2 Hc2. split; [done|]. intros a2 Ha2.
  destruct (Hf a a2 Ha Ha2 Hn c1 tr' _ r Hr Htr Hp) as (c'' & Heq & _ & Hq).
  assert (c'' = c') as -> by exact (eq_sym (f_equal resourceCache Heq)). by apply Hq.
Qed.

Lemma steady_bind {A B B2} K1 K2 (R : A → A → Prop) `{!Reflexive R} (Q : res B → res B2 → Prop)
    `{!Fails Q} (m m2 : M TCR A) (f : A → M TCR B) (f2 : A → M TCR B2) :
  steady K1 (same R) m m2 → (∀ a a2, R a a2 → steady K2 Q (f a) (f2 a2)) →
  steady (K1 ++ K2) Q (m ≫= f) (m2 ≫= f2).
Proof.
  intros Hm Hf Hn c tr s' r Hr Ha Hp. apply NoDup_app in Hn as (Hn1 & Hdisj & Hn2).
  apply runs_pbind_inv in Hr as (tr1 & [s1 r1] & tr2 & -> & Hr1 & Hr2).
  apply Forall_app in Ha as [Ha1 Ha2].
  assert (∀ p, r1 ≠ Panic p) as Hp1.
  { intros p ->. apply runs_ret_inv in Hr2 as [_ [= _ ->]]. by eapply Hp. }
  destruct (Hm Hn1 _ _ _ _ Hr1 Ha1 Hp1) as (c1 & -> & Hk1 & Hq1).
  destruct r1 as [a|e|p]; cbn in Hr2; [|apply runs_ret_inv in Hr2 as [-> [= -> ->]]|by destruct (Hp1 p)].
  - destruct (Hf a a (reflexivity a) Hn2 _ _ _ _ Hr2 Ha2 Hp) as (c' & -> & Hk2 & _).
    exists c'. split; [done|]. split.
    { intros key Hk. rewrite Hk2, Hk1; set_solver. }
    intros c2 Hc2. apply awp_bind. eapply awp_mono; [|apply Hq1].
    2:{ intros key Hk. rewrite Hc2 by set_solver. apply Hk2. by apply Hdisj. }
    intros [s2 [a2|e2|p2]] [Hs2 HR]; cbn in Hs2, HR; [|done..]. subst s2. cbn.
    destruct (Hf a a2 HR Hn2 _ _ _ _ Hr2 Ha2 Hp) as (c'' & Heq & _ & Hq2).
    assert (c'' = c') as -> by exact (eq_sym (f_equal resourceCache Heq)).
    apply Hq2. eapply agree_on_sub; [|done]. set_solver.
  - exists c1. split; [done|]. split; [intros key Hk; apply Hk1; set_solver|].
    intros c2 Hc2. apply awp_bind. eapply awp_mono; [|apply Hq1; eapply agree_on_sub; [|done]; set_solver].
    intros [s2 [a2|e2|p2]] [Hs2 HR]; cbn in Hs2, HR; [done| |done]. subst s2 e2. cbn. split; [done|apply fails].
Qed.
(** The two ends of a sequence. *)
Lemma steady_then {A B B2} K (R : A → A → Prop) `{!Reflexive R} (Q : res B → res B2 → Prop)
    `{!Fails Q} (m m2 : M TCR A) (f : A → M TCR B) (f2 : A → M TCR B2) :
  steady [] (same R) m m2 → (∀ a a2, R a a2 → steady K Q (f a) (f2 a2)) → steady K Q (m ≫= f) (m2 ≫= f2).
Proof. intros Hm Hf. exact (steady_bind [] K R Q m m2 f f2 Hm Hf). Qed.
Lemma steady_first {A B B2} K (R : A → A → Prop) `{!Reflexive R} (Q : res B → res B2 → Prop)
    `{!Fails Q} (m m2 : M TCR A) (f : A → M TCR B) (f2 : A → M TCR B2) :
  steady K (same R) m m2 → (∀ a a2, R a a2 → steady [] Q (f a) (f2 a2)) → steady K Q (m ≫= f) (m2 ≫= f2).
Proof. intros Hm Hf. rewrite <-(app_nil_r K). by eapply steady_bind. Qed.

Lemma steady_get {A B} K Q (f : TCR → M TCR A) (f2 : TCR → M TCR B) :
  (∀ c c2, steady K Q (f (cached c)) (f2 (cached c2))) → steady K Q (mget ≫= f) (mget ≫= f2).
Proof.
  intros Hf Hn c tr s' r Hr Ha Hp.
  destruct (Hf c c Hn c tr s' r Hr Ha Hp) as (c' & -> & Hk & _). exists c'. split; [done|]. split; [done|].
  intros c2 Hc2. destruct (Hf c c2 Hn c tr _ r Hr Ha Hp) as (c'' & Heq & _ & Hq).
  assert (c'' = c') as -> by exact (eq_sym (f_equal resourceCache Heq)). by apply Hq.
Qed.
(** A result that is already there. *)
Lemma steady_result {A B} K (Q : res A → res B → Prop) (r : res A) (r2 : res B) :
  ((∀ p, r ≠ Panic p) → Q r r2) → steady K Q (of_res r) (of_res r2).
Proof.
  intros HQ _ c tr s' r' [-> [= -> ->]]%runs_ret_inv _ Hp. exists c. split_and!; [done..|].
  intros c2 _. split; [done|by apply HQ].
Qed.
Lemma steady_res {A B B2} K (Q : res B → res B2 → Prop) `{!Fails Q} (r : res A)
    (f : A → M TCR B) (f2 : A → M TCR B2) :
  (∀ a, r = Ok a → steady K Q (f a) (f2 a)) → steady K Q (of_res r ≫= f) (of_res r ≫= f2).
Proof.
  intros Hf. destruct r as [a|e|p]; [by apply Hf| |].
  - intros _ c tr s' r [-> [= -> ->]]%runs_ret_inv _ _. exists c. split_and!; [done..|].
    intros c2 _. cbn. split; [done|apply fails].
  - intros _ c tr s' r [-> [= -> ->]]%runs_ret_inv _ Hp. by destruct (Hp p).
Qed.
Lemma steady_try {A} K (m m2 : M TCR A) :
  steady K (same eq) m m2 → steady K (same eq) (try m) (try m2).
Proof.
  intros Hm Hn c tr s' r Hr Ha Hp. apply runs_pbind_inv in Hr as (tr1 & [s1 r1] & tr2 & -> & Hr1 & Hr2).
  apply Forall_app in Ha as [Ha1 Ha2]. assert (∀ p, r1 ≠ Panic p) as Hp1.
  { intros p ->. apply runs_ret_inv in Hr2 as [_ [= _ ->]]. by eapply Hp. }
  destruct (Hm Hn _ _ _ _ Hr1 Ha1 Hp1) as (c1 & -> & Hk1 & Hq1).
  destruct r1 as [a|e|p]; [| |by destruct (Hp1 p)]; apply runs_ret_inv in Hr2 as [-> [= -> ->]];
    exists c1; (split; [done|]; split; [done|]); intros c2 Hc2; apply awp_bind;
    (eapply awp_mono; [|by apply Hq1]); intros [s2 [a2|e2|p2]] [Hs2 HR]; cbn in Hs2, HR; try done; by subst.
Qed.
Lemma steady_wrap {A} K p (m m2 : M TCR A) :
  steady K (same eq) m m2 → steady K (same eq) (wrap p m) (wrap p m2).
Proof.
  intros Hm. apply (steady_first _ eq); [apply _..|by apply steady_try|].
  intros r _ <-. destruct r; [apply steady_throw, _|by apply steady_ret].
Qed.
Lemma steady_mfold {A B} (f : B → A → M TCR B) (keys : A → list cachedVersionKey) b l :
  (∀ b a, steady (keys a) (same eq) (f b a) (f b a)) →
  steady (l ≫= keys) (same eq) (mfold f b l) (mfold f b l).
Proof.
  intros Hf. revert b. induction l as [|a l IH]; intros b; cbn [mfold]; [by apply steady_ret|].
  apply (steady_bind (keys a) _ eq); [apply _..|apply Hf|]. intros b1 _ <-. apply IH.
Qed.
Lemma steady_mfold_none {A B} (f : B → A → M TCR B) b l :
  (∀ b a, steady [] (same eq) (f b a) (f b a)) → steady [] (same eq) (mfold f b l) (mfold f b l).
Proof.
  intros Hf. eapply steady_sub; [|by apply (steady_mfold f (λ _, []))]. induction l; [done|by apply IHl].
Qed.
End steady.

(** ** Applying twice *)

Definition on_object {A} (x y : A * bool) : Prop := x.1 = y.1.
#[export] Instance on_object_refl {A} : Reflexive (on_object (A := A)).
Proof. done. Qed.

(** What the key of an object depends on. *)
Lemma cacheKey_meta `{Env} {k} (o o' : obj k) :
  ko_Kind o' = ko_Kind o → ko_Group o' = ko_Group o → ko_Name o' = ko_Name o →
  ko_Namespace o' = ko_Namespace o → cacheKey o' = cacheKey o.
Proof. intros Hk Hg Hn Hns. unfold cacheKey. by rewrite Hk, Hg, Hn, Hns. Qed.

Lemma SafeToSkipApply_lookup `{Env} {k} (o e : obj k) key c c2 :
  cacheKey o = Some key → c2 !! key = c !! key → SafeToSkipApply o e c2 = SafeToSkipApply o e c.
Proof. intros Hk Hc. unfold SafeToSkipApply. rewrite Hk. destruct (resourceVersion e); [|done]. by rewrite Hc. Qed.

Section applying.
Context `{Env} (cl : cluster) (cfg : TCR) (Hcl : well_stored cl).
Notation answered := (answered cl).
Notation awp := (awp (quiet cl) (answers cl)).
Notation steady := (steady cl cfg).
Notation cached c := (tcr_set_resourceCache c cfg).

Definition keyOf {k} (o : obj k) : list cachedVersionKey := option_list (cacheKey o).

Lemma stored_version k ns n (e : obj k) :
  cl_objects cl k ns n = Some e → resourceVersion e = Some (om_ResourceVersion (ko_meta e)).
Proof using Hcl. intros He. unfold resourceVersion. rewrite bool_decide_false; [done|]. by eapply ws_version. Qed.

(** An update of the cache makes the next apply of the object safe to skip,
    and touches no other key. *)
Lemma update_skips {k} (o e : obj k) key c :
  cacheKey o = Some key → object_of cl o = Some e →
  SafeToSkipApply o e (UpdateCachedResourceMetadata o e c) = true ∧
  ∀ key', key' ≠ key → UpdateCachedResourceMetadata o e c !! key' = c !! key'.
Proof using Hcl.
  intros Hk He. unfold SafeToSkipApply, UpdateCachedResourceMetadata.
  rewrite Hk, (stored_version _ _ _ _ He). split.
  - apply bool_decide_eq_true_2, lookup_insert_eq.
  - intros key' Hne. by apply lookup_insert_ne.
Qed.

(** *** library-go's applies *)

Lemma steady_applyImproved k (o : obj k) :
  is_Some (cacheKey o) → steady (keyOf o) (same on_object) (applyImproved k o) (applyImproved k o).
Proof using Hcl.
  intros [key Hk] _ c tr s' r Hr Ha _. unfold keyOf. rewrite Hk. cbn [option_list option_rect].
  apply runs_vis_inv in Hr as (a & tr' & -> & Hr). apply Forall_cons in Ha as [(e & b & He & Ha) _].
  cbn in Ha. subst a. apply runs_ret_inv in Hr as [-> [= -> ->]]. cbn.
  destruct (update_skips o e key c Hk He) as [Hs Hother].
  set (c' := if SafeToSkipApply o e c then c else UpdateCachedResourceMetadata o e c).
  assert (SafeToSkipApply o e c' = true) as Hs' by (subst c'; by destruct (SafeToSkipApply o e c) eqn:E).
  exists c'. split; [done|]. split.
  { intros key' Hn. rewrite list_elem_of_singleton in Hn. subst c'. destruct (SafeToSkipApply o e c); [done|by apply Hother]. }
  intros c2 Hc2.
  assert (SafeToSkipApply o e c2 = true) as Hs2.
  { rewrite <-Hs'. eapply SafeToSkipApply_lookup; [done|]. apply Hc2. by constructor. }
  split; [by exists e|]. intros a (e2 & b2 & He2 & ->). assert (e2 = e) as -> by congruence.
  cbn. rewrite Hs2. by split.
Qed.

(** What an apply does in the settled cluster. *)
Definition settles {k} (apply : obj k → M TCR (obj k * bool)) (o : obj k) : Prop :=
  ∀ c tr s' r, runs (apply o (cached c)) tr (Some (s', r)) → answered tr → (∀ p, r ≠ Panic p) →
    s' = cached c ∧ ∃ e b, object_of cl o = Some e ∧ r = Ok (e, b).

Lemma settles_resourceapply k n (o : obj k) : settles (resourceapply_Apply k n) o.
Proof.
  intros c tr s' r Hr Ha _. apply runs_vis_inv in Hr as (a & tr' & -> & Hr).
  apply Forall_cons in Ha as [(e & b & He & ->) _]. apply runs_ret_inv in Hr as [_ [= -> ->]].
  split; [done|]. by exists e, b.
Qed.

Lemma EnsureObjectMeta_name b e r b' m :
  EnsureObjectMeta b e r = (b', m) →
  om_Name m = (if om_Name r =s "" then om_Name e else om_Name r) ∧
  om_Namespace m = (if om_Namespace r =s "" then om_Namespace e else om_Namespace r).
Proof.
  unfold EnsureObjectMeta.
  destruct (SetStringIfSet b _ _) as [b1 ns] eqn:E1. destruct (SetStringIfSet b1 _ _) as [b2 nm] eqn:E2.
  destruct (MergeMap b2 _ _) as [b3 l]. destruct (MergeMap b3 _ _) as [b4 a].
  destruct (MergeOwnerRefs _ _ _) as [b5 os]. intros [= <- <-]. cbn.
  unfold SetStringIfSet in E1, E2. repeat case_bool_decide; by simplify_eq.
Qed.

(** The object that is written over a stored one is stored under its name. *)
Lemma object_of_update {k} (o e : obj k) b meta bd :
  object_of cl o = Some e → EnsureObjectMeta false (ko_meta e) (ko_meta o) = (b, meta) →
  object_of cl (set_body bd (set_meta (λ _, meta) e)) = Some e.
Proof using Hcl.
  intros He Hm. pose proof He as He'. unfold object_of in *.
  apply EnsureObjectMeta_name in Hm as [Hn Hns].
  pose proof (ws_name _ Hcl _ _ _ _ He) as Hen.
  replace (ko_Name (set_body bd (set_meta (λ _, meta) e))) with (ko_Name o).
  2:{ unfold ko_Name in *; cbn. rewrite Hn. destruct (om_Name (ko_meta o) =s "") eqn:E; [|done].
      apply bool_decide_eq_true in E. by rewrite Hen, E. }
  destruct (cluster_scoped k) eqn:Ek; [done|].
  pose proof (ws_namespace _ Hcl _ _ _ _ He Ek) as Hens.
  replace (ko_Namespace (set_body bd (set_meta (λ _, meta) e))) with (ko_Namespace o); [done|].
  unfold ko_Namespace in *; cbn. rewrite Hns. destruct (om_Namespace (ko_meta o) =s "") eqn:E; [|done].
  apply bool_decide_eq_true in E. by rewrite Hens, E.
Qed.

Lemma settles_applyObject k ns keep (o : obj k) :
  ns = (if cluster_scoped k then "" else ko_Namespace o) → (∀ e w err, keep e w ≠ Err err) →
  settles (applyObject k ns keep) o.
Proof using Hcl.
  intros -> Hkeep c tr s' r Hr Ha Hp. unfold applyObject in Hr.
  apply runs_vis_inv in Hr as (a & tr' & -> & Hr). apply Forall_cons in Ha as [Hr1 Ha]. cbn in Hr1.
  change (cl_objects cl k _ (ko_Name o)) with (object_of cl o) in Hr1.
  destruct (object_of cl o) as [e|] eqn:He; cbn [found] in Hr1; subst a; cbn in Hr.
  - destruct (EnsureObjectMeta _ _ _) as [diff meta] eqn:Hm.
    destruct (negb diff && _).
    { apply runs_ret_inv in Hr as [_ [= -> ->]]. split; [done|]. by exists e, false. }
    destruct (keep e o) as [[]|e'|p] eqn:Hk; cbn in Hr.
    + apply runs_ret_inv in Hr as [_ [= -> ->]]. split; [done|]. by exists e, false.
    + apply runs_vis_inv in Hr as (a & tr2 & -> & Hr). apply Forall_cons in Ha as [(e2 & He2 & ->) Ha].
      rewrite (object_of_update o e diff meta _ He Hm) in He2. injection He2 as <-. cbn in Hr.
      apply runs_vis_inv in Hr as ([] & tr3 & -> & Hr). apply runs_ret_inv in Hr as [_ [= -> ->]].
      split; [done|]. by exists e, true.
    + by destruct (Hkeep e o e').
    + apply runs_ret_inv in Hr as [_ [= _ ->]]. by destruct (Hp p).
  - apply runs_vis_inv in Hr as (a & tr2 & -> & Hr). apply Forall_cons in Ha as [(e2 & He2 & ->) Ha].
    change (object_of cl o = Some e2) in He2. congruence.
Qed.

(** *** The cached applies *)

Lemma runs_get {B} (f : TCR → M TCR B) t tr o : runs ((mget ≫= f) t) tr o → runs (f t t) tr o.
Proof. done. Qed.

(** [prepare] keeps what identifies the object. *)
Definition keeps_identity {k} (prepare : option (obj k) → obj k → obj k) (o : obj k) : Prop :=
  ∀ e, object_of cl (prepare e o) = object_of cl o ∧ cacheKey (prepare e o) = cacheKey o.

Lemma runs_applyWithCache k ns prepare apply (o : obj k) c tr s' r :
  ns = (if cluster_scoped k then "" else ko_Namespace o) → keeps_identity prepare o →
  (∀ o', settles apply o') →
  runs (applyWithCache k ns prepare apply o (cached c)) tr (Some (s', r)) → answered tr →
  (∀ p, r ≠ Panic p) →
  ∃ e b, object_of cl o = Some e ∧ r = Ok (e, b) ∧
    s' = cached (if SafeToSkipApply (prepare (Some e) o) e c then c
                 else UpdateCachedResourceMetadata (prepare (Some e) o) e c).
Proof.
  intros -> Hprep Happly Hr Ha Hp. apply runs_try_lister in Hr as (a & tr' & -> & Hr).
  apply Forall_cons in Ha as [Hr1 Ha]. cbn in Hr1.
  change (cl_objects cl k _ (ko_Name o)) with (object_of cl o) in Hr1.
  destruct (object_of cl o) as [e|] eqn:He; cbn [found] in Hr1; subst a; cbn in Hr.
  - exists e. apply runs_get in Hr. cbn [resourceCache tcr_set_resourceCache] in Hr.
    destruct (SafeToSkipApply (prepare (Some e) o) e c).
    + apply runs_ret_inv in Hr as [_ [= -> ->]]. by exists false.
    + apply runs_apply_remember in Hr as (t1 & Hr & ->).
      destruct (Happly _ _ _ _ _ Hr Ha Hp) as (-> & e2 & b & He2 & ->).
      rewrite (proj1 (Hprep _)), He in He2. injection He2 as <-. by exists b.
  - apply runs_apply_remember in Hr as (t1 & Hr & ->).
    destruct (Happly _ _ _ _ _ Hr Ha Hp) as (_ & e2 & b & He2 & _).
    rewrite (proj1 (Hprep _)) in He2. congruence.
Qed.

(** A later apply of a stored object, after its lister. *)
Lemma awp_applyWithCache k ns prepare apply (o : obj k) e c Q :
  ns = (if cluster_scoped k then "" else ko_Namespace o) → object_of cl o = Some e →
  let o' := prepare (Some e) o in
  awp ((if SafeToSkipApply o' e c then mret (e, false) else
        '(actual, updated) ← apply o';
        mmodify (λ t, tcr_set_resourceCache (UpdateCachedResourceMetadata o' actual (resourceCache t)) t) ;;
        mret (actual, updated)) (cached c)) Q →
  awp (applyWithCache k ns prepare apply o (cached c)) Q.
Proof.
  intros -> He o' Hq. split; [done|]. intros a Ha. cbn in Ha.
  change (cl_objects cl k _ (ko_Name o)) with (object_of cl o) in Ha. rewrite He in Ha. cbn in Ha. subst a.
  exact Hq.
Qed.

(** The second run does not apply: its [apply2] may be another. *)
Lemma steady_applyWithCache k ns prepare apply apply2 (o : obj k) :
  ns = (if cluster_scoped k then "" else ko_Namespace o) → keeps_identity prepare o →
  (∀ o', settles apply o') → is_Some (cacheKey o) →
  steady (keyOf o) (same on_object) (applyWithCache k ns prepare apply o) (applyWithCache k ns prepare apply2 o).
Proof using Hcl.
  intros Hns Hprep Happly [key Hk] _ c tr s' r Hr Ha Hp. unfold keyOf. rewrite Hk. cbn [option_list option_rect].
  destruct (runs_applyWithCache _ _ _ _ _ _ _ _ _ Hns Hprep Happly Hr Ha Hp) as (e & b & He & -> & ->).
  set (o' := prepare (Some e) o). destruct (Hprep (Some e)) as [Ho' Hk']. rewrite Hk in Hk'. rewrite He in Ho'.
  destruct (update_skips o' e key c Hk' Ho') as [Hs Hother].
  set (c' := if SafeToSkipApply o' e c then c else UpdateCachedResourceMetadata o' e c).
  assert (SafeToSkipApply o' e c' = true) as Hs' by (subst c'; by destruct (SafeToSkipApply o' e c) eqn:E).
  exists c'. split; [done|]. split.
  { intros key' Hn. rewrite list_elem_of_singleton in Hn. subst c'. destruct (SafeToSkipApply o' e c); [done|by apply Hother]. }
  intros c2 Hc2. assert (SafeToSkipApply o' e c2 = true) as Hs2.
  { rewrite <-Hs'. eapply SafeToSkipApply_lookup; [done|]. apply Hc2. by constructor. }
  apply (awp_applyWithCache _ _ _ _ _ e); [done..|]. fold o'. rewrite Hs2. by split.
Qed.

(** An object without a key is applied again, with the same result. *)
Lemma steady_untyped k ns n (o : obj k) :
  ns = (if cluster_scoped k then "" else ko_Namespace o) → cacheKey o = None →
  let m := applyWithCache k ns no_prepare (resourceapply_Apply k n) o in steady [] (same on_object) m m.
Proof.
  intros Hns Hk m _ c tr s' r Hr Ha Hp. subst m.
  assert (∀ c e, SafeToSkipApply o e c = false) as Hskip by (intros; unfold SafeToSkipApply; by rewrite Hk).
  assert (∀ c e, UpdateCachedResourceMetadata o e c = c) as Hupd
    by (intros; unfold UpdateCachedResourceMetadata; by rewrite Hk).
  destruct (runs_applyWithCache _ _ _ _ _ _ _ _ _ Hns (λ _, conj eq_refl eq_refl)
    (settles_resourceapply k n) Hr Ha Hp) as (e & b & He & -> & ->).
  exists c. unfold no_prepare. rewrite Hupd. split; [by destruct (SafeToSkipApply _ _ _)|]. split; [done|].
  intros c2 _. apply (awp_applyWithCache _ _ _ _ _ e); [done..|]. unfold no_prepare. rewrite Hskip.
  split; [by right|]. intros a (e2 & b2 & He2 & ->). assert (e2 = e) as -> by congruence. cbn [awp].
  split; [|done]. cbn. rewrite Hupd. done.
Qed.

(** *** The applies without the cache *)

Lemma steady_APIService (o : APIService) :
  steady [] (same on_object) (resourceapply_Apply KAPIService 0 o) (resourceapply_Apply KAPIService 0 o).
Proof.
  intros _ c tr s' r Hr Ha Hp. destruct (settles_resourceapply _ _ _ _ _ _ _ Hr Ha Hp) as (-> & e & b & He & ->).
  exists c. split_and!; [done..|]. intros c2 _. split; [by left|]. intros a (e2 & b2 & He2 & ->).
  change (object_of cl o = Some e2) in He2. rewrite He in He2. injection He2 as <-. by split.
Qed.

Lemma steady_FlowSchema (o : FlowSchema) :
  steady [] (same on_object) (ApplyFlowSchema o) (ApplyFlowSchema o).
Proof using Hcl.
  intros _ c tr s' r Hr Ha Hp.
  destruct (settles_applyObject KFlowSchema "" (λ _ _, Ok false) o eq_refl ltac:(discriminate) _ _ _ _ Hr Ha Hp)
    as (-> & e & b & He & ->).
  exists c. split_and!; [done..|]. intros c2 _. split; [done|]. intros a Ha2. cbn in Ha2.
  change (cl_objects cl _ _ (ko_Name o)) with (object_of cl o) in Ha2. rewrite He in Ha2. cbn in Ha2. subst a. cbn.
  destruct (EnsureObjectMeta _ _ _) as [diff meta] eqn:Hm. destruct (negb diff && _); [by split|].
  split; [done|]. intros a (e2 & He2 & ->). rewrite (object_of_update o e diff meta _ He Hm) in He2.
  injection He2 as <-. cbn. split; [done|]. by intros [].
Qed.
End applying.
