(* ===== verification/SteadyState.v ===== *)
(** * The steady state

    Reconciling twice a cluster in which everything is as it should be. The
    keys of the operand's objects ([operandKeys]) follow the blocks of
    [sync]; every [manage*] method is [steady] for its keys, and so is the
    installation of the operand: the second writes nothing that the resource
    cache covers, although the first may have started with any cache. *)
From S2P Require Import Prelude GoStd K8s ApiTypes DraHelpers ConfigMap TlsProfile K8sObjects.
From S2P Require Import PodWebhook Effects Monad Cert ResourceApply Finalizer Reconciler Discovery.
From S2P Require Import Conditions CachedApply Cleanup Manage Managed Sync Steady.

(** ** The keys of the operand *)

Section keys.
Context `{Env} (cfg : TCR).

(** The key of a manifest's object as it is applied: [place] puts it into its
    namespace; skipped manifests have none. *)
Definition manifestKeys (k : kind) (place : obj k → obj k) (skip : obj k → bool) (path : string)
    : list cachedVersionKey :=
  match ReadOrDie k path with Ok o => if skip o then [] else keyOf (place o) | _ => [] end.
Definition directoryKeys (k : kind) (place : obj k → obj k) (skip : obj k → bool) (dir : string)
    : list cachedVersionKey :=
  match AssetDir dir with
  | inl _ => []
  | inr files => files ≫= λ file, manifestKeys k place skip (filepath_Join dir file)
  end.
Definition never {k} (_ : obj k) : bool := false.
Definition as_is {k} (o : obj k) : obj k := o.
Definition in_operator_namespace {k} : obj k → obj k := with_namespace (operatorNamespace cfg).

Notation namespaced k path := (manifestKeys k in_operator_namespace never path).
Notation clusterWide k path := (manifestKeys k as_is never path).
Definition monitoredKeys (K : list cachedVersionKey) : list cachedVersionKey :=
  if serviceMonitorSupport cfg then K else [].

Definition configMapKeys : list cachedVersionKey :=
  keyOf (k := KConfigMap) {| ko_Kind := ""; ko_Group := ""; ko_body := ∅;
                             ko_meta := meta_named (operatorNamespace cfg) KueueConfigMap |}.

Definition namespacedKeys : list cachedVersionKey :=
  namespaced KServiceAccount "assets/kueue-operator/serviceaccount.yaml" ++
  namespaced KRole "assets/kueue-operator/role-leader-election.yaml" ++
  namespaced KRoleBinding "assets/kueue-operator/rolebinding-leader-election.yaml" ++
  namespaced KRole "assets/kueue-operator/role-manager-secrets.yaml" ++
  namespaced KRoleBinding "assets/kueue-operator/rolebinding-manager-secrets.yaml" ++
  monitoredKeys
    (namespaced KRole "assets/kueue-operator/role-prometheus.yaml" ++
     namespaced KRoleBinding "assets/kueue-operator/rolebinding-prometheus.yaml" ++
     namespaced KService "assets/kueue-operator/controller-manager-metrics-service.yaml" ++
     clusterWide KClusterRoleBinding "assets/kueue-operator/clusterrolebinding-metrics-monitoring.yaml") ++
  namespaced KService "assets/kueue-operator/visibility-server.yaml".

(** The aggregated roles of the directory. *)
Definition aggregated (r : ClusterRole) : bool :=
  match cr_AggregationRule (ko_body r) with Some _ => true | None => false end.

Definition clusterWideKeys : list cachedVersionKey :=
  clusterWide KPriorityLevelConfiguration "assets/kueue-operator/prioritylevelconfiguration.yaml" ++
  directoryKeys KCRD as_is isAlphaVersion crdDir ++
  directoryKeys KNetworkPolicy in_operator_namespace never networkPolicyDir ++
  directoryKeys KClusterRole as_is aggregated clusterRoleDir ++
  clusterWide KClusterRoleBinding "assets/kueue-operator/clusterrolebinding-proxy.yaml" ++
  clusterWide KClusterRoleBinding "assets/kueue-operator/clusterrolebinding-manager.yaml" ++
  monitoredKeys
    (clusterWide KClusterRoleBinding "assets/kueue-operator/clusterrolebinding-metrics.yaml" ++
     clusterWide KClusterRoleBinding "assets/kueue-operator/clusterrolebinding-metrics-auth.yaml") ++
  manifestKeys KRoleBinding (with_namespace "kube-system") never
    "assets/kueue-operator/rolebinding-visibility-server-auth-reader.yaml".

Definition webhookKeys : list cachedVersionKey :=
  clusterWide KMutatingWebhookConfiguration "assets/kueue-operator/mutatingwebhook.yaml" ++
  clusterWide KValidatingWebhookConfiguration "assets/kueue-operator/validatingwebhook.yaml" ++
  namespaced KService "assets/kueue-operator/webhook-service.yaml".

Definition deploymentKeys : list cachedVersionKey :=
  manifestKeys KDeployment (λ o, in_operator_namespace (set_meta (meta_set_Name OperandName) o)) never
    "assets/kueue-operator/deployment.yaml".

(** In the order of the reconciliation. *)
Definition operandKeys : list cachedVersionKey :=
  configMapKeys ++ namespacedKeys ++ clusterWideKeys ++ webhookKeys ++ deploymentKeys.

(** The decoders fill in the kind of what they read. *)
Definition manifests_typed : Prop := ∀ k path o, ReadOrDie k path = Ok o → ko_Kind o ≠ "".
End keys.

(** ** The [manage*] methods *)

(** The state a method reads: its settings are those of [cfg]. *)
Ltac steady_get :=
  repeat match goal with
  | |- steady _ _ _ _ (mget ≫= _) (mget ≫= _) => apply steady_get; intros ? ?
  end;
  cbn [operatorNamespace kueueImage isOpenShift serviceMonitorSupport draConsumableCapacityEnabled
       resourceCache tcr_set_resourceCache].

Section methods.
Context `{Env} (cl : cluster) (cfg : TCR) (Hcl : well_stored cl) (Htyped : manifests_typed).
Context (owner : OwnerReference).
Notation steady := (steady cl cfg).
Notation in_ns := (in_operator_namespace cfg).

Lemma typed_key {k} path (o o' : obj k) :
  ReadOrDie k path = Ok o → ko_Kind o' = ko_Kind o → is_Some (cacheKey o').
Proof using Htyped.
  intros Ho Hk. unfold cacheKey. rewrite Hk, bool_decide_false by by eapply Htyped. by eexists.
Qed.

Lemma steady_annotateHash what key o ann :
  steady [] (same eq) (annotateHash what key o ann) (annotateHash what key o ann).
Proof. unfold annotateHash. destruct (computeSpecHash o); [apply steady_throw, _|by apply steady_ret]. Qed.

(** Reading the manifest of an object. *)
Lemma steady_read {A B} k (place : obj k → obj k) (skip : obj k → bool) path
    (Q : res A → res B → Prop) `{!Fails Q}
    (f : obj k → M TCR A) (f2 : obj k → M TCR B) :
  (∀ o, ReadOrDie k path = Ok o →
     steady (if skip o then [] else keyOf (place o)) Q (f o) (f2 o)) →
  steady (manifestKeys k place skip path) Q (readAsset k path ≫= f) (readAsset k path ≫= f2).
Proof.
  intros Hf. apply (steady_res cl cfg _ Q). intros o Ho. unfold manifestKeys. rewrite Ho. by apply Hf.
Qed.

Ltac steady_read o Ho :=
  steady_get;
  match goal with
  | |- steady (manifestKeys ?k ?p ?s ?path) ?Q _ _ =>
      refine (steady_read k p s path Q _ _ _); intros o Ho
  end.

Lemma steady_keyed {A B} {k} (o o' : obj k) (Q : res A → res B → Prop)
    (m : M TCR A) (m2 : M TCR B) :
  cacheKey o = cacheKey o' → steady (keyOf o) Q m m2 → steady (keyOf o') Q m m2.
Proof. unfold keyOf. by intros ->. Qed.

(** Applying the object [o'] made from the manifest [o]. *)
Lemma steady_improved k path (place : obj k → obj k) (o o' : obj k) :
  ReadOrDie k path = Ok o → ko_Kind o' = ko_Kind o → cacheKey o' = cacheKey (place o) →
  steady (keyOf (place o)) (same on_object) (applyImproved k o') (applyImproved k o').
Proof using Hcl Htyped.
  intros Ho Hk Hkey. apply (steady_keyed o' _ _ _ _ Hkey), steady_applyImproved; [done|by eapply typed_key].
Qed.
Lemma steady_cached k path (place : obj k → obj k) ns apply apply2 (o o' : obj k) :
  (∀ o', settles cl cfg apply o') →
  ReadOrDie k path = Ok o → ko_Kind o' = ko_Kind o → cacheKey o' = cacheKey (place o) →
  ns = (if cluster_scoped k then "" else ko_Namespace o') →
  steady (keyOf (place o)) (same on_object) (applyWithCache k ns no_prepare apply o')
    (applyWithCache k ns no_prepare apply2 o').
Proof using Hcl Htyped.
  intros Happly Ho Hk Hkey Hns. apply (steady_keyed o' _ _ _ _ Hkey), steady_applyWithCache; try done.
  by eapply typed_key.
Qed.

(** A method that applies one manifest with the cache. *)
Ltac steady_manage k :=
  let o := fresh "o" in let Ho := fresh "Ho" in
  steady_read o Ho; eapply (steady_cached k); [apply settles_resourceapply|exact Ho|reflexivity..].

Lemma steady_manageServiceAccount :
  let m := manageServiceAccount owner in
  steady (manifestKeys KServiceAccount in_ns never "assets/kueue-operator/serviceaccount.yaml")
    (same on_object) m m.
Proof using Hcl Htyped.
  intros m. subst m. unfold manageServiceAccount. steady_read o Ho.
  eapply (steady_improved KServiceAccount); [exact Ho|reflexivity..].
Qed.

Lemma steady_manageService path :
  let m := manageService path owner in steady (manifestKeys KService in_ns never path) (same on_object) m m.
Proof using Hcl Htyped.
  intros m. subst m. unfold manageService. steady_read o Ho.
  eapply (steady_improved KService); [exact Ho|reflexivity..].
Qed.

Lemma steady_manageRole path :
  let m := manageRole path owner in steady (manifestKeys KRole in_ns never path) (same on_object) m m.
Proof using Hcl Htyped. intros m. subst m. unfold manageRole. steady_manage KRole. Qed.

Lemma steady_manageRoleBindingsByNamespace ns path b :
  let m := manageRoleBindingsByNamespace ns path owner b in
  steady (manifestKeys KRoleBinding (with_namespace ns) never path) (same on_object) m m.
Proof using Hcl Htyped.
  intros m. subst m. unfold manageRoleBindingsByNamespace. destruct b; steady_manage KRoleBinding.
Qed.
Lemma steady_manageRoleBindings path b :
  let m := manageRoleBindings path owner b in
  steady (manifestKeys KRoleBinding in_ns never path) (same on_object) m m.
Proof using Hcl Htyped.
  intros m. subst m. unfold manageRoleBindings. steady_get. apply steady_manageRoleBindingsByNamespace.
Qed.
Lemma steady_manageSystemRoleBindings path b :
  let m := manageSystemRoleBindings path owner b in
  steady (manifestKeys KRoleBinding (with_namespace "kube-system") never path) (same on_object) m m.
Proof using Hcl Htyped. apply steady_manageRoleBindingsByNamespace. Qed.

Lemma steady_manageClusterRoleBindings path :
  let m := manageClusterRoleBindings path owner in
  steady (manifestKeys KClusterRoleBinding as_is never path) (same on_object) m m.
Proof using Hcl Htyped.
  intros m. subst m. unfold manageClusterRoleBindings. steady_manage KClusterRoleBinding.
Qed.
Lemma steady_manageClusterRoleBindingsWithoutNamespaceOverride path :
  let m := manageClusterRoleBindingsWithoutNamespaceOverride path owner in
  steady (manifestKeys KClusterRoleBinding as_is never path) (same on_object) m m.
Proof using Hcl Htyped.
  intros m. subst m. unfold manageClusterRoleBindingsWithoutNamespaceOverride.
  steady_manage KClusterRoleBinding.
Qed.

(** The role and the binding that are built in Go have no key. *)
Lemma steady_manageOpenshiftClusterRolesForKueue :
  let m := manageOpenshiftClusterRolesForKueue owner in steady [] (same on_object) m m.
Proof. refine (steady_untyped cl cfg KClusterRole "" 0 _ eq_refl _). done. Qed.
Lemma steady_manageOpenshiftClusterRolesBindingForKueue :
  let m := manageOpenshiftClusterRolesBindingForKueue owner in steady [] (same on_object) m m.
Proof.
  intros m. subst m. unfold manageOpenshiftClusterRolesBindingForKueue. steady_get.
  refine (steady_untyped cl cfg KClusterRoleBinding "" 0 _ eq_refl _). done.
Qed.

(** A method that applies an object and records its hash. *)
Lemma steady_recorded {k} K (m : M TCR (obj k * bool)) (what : obj k → string) (key : obj k → string)
    (h : obj k → hashable) ann :
  steady K (same on_object) m m →
  let m' := '(o, _) ← m; annotateHash (what o) (key o) (h o) ann in steady K (same eq) m' m'.
Proof.
  intros Hm m'. refine (steady_first _ _ K on_object _ _ _ _ _ Hm _).
  intros [e b] [e2 b2] He. change (e = e2) in He. subst e2. apply steady_annotateHash.
Qed.

Lemma steady_manageFlowSchema ann :
  let m := manageFlowSchema ann owner in steady [] (same eq) m m.
Proof using Hcl.
  intros m. subst m. unfold manageFlowSchema. refine (steady_res _ _ _ _ _ _ _ _). intros o Ho.
  refine (steady_recorded [] _ (λ _, _) (λ o, _) (λ o, _) _ _). by apply steady_FlowSchema.
Qed.

Lemma steady_managePriorityLevelConfiguration ann :
  let m := managePriorityLevelConfiguration ann owner in
  steady (manifestKeys KPriorityLevelConfiguration as_is never
            "assets/kueue-operator/prioritylevelconfiguration.yaml") (same eq) m m.
Proof using Hcl Htyped.
  intros m. subst m. unfold managePriorityLevelConfiguration. steady_read o Ho.
  refine (steady_recorded _ _ (λ _, _) (λ o, _) (λ o, _) _ _).
  eapply (steady_cached KPriorityLevelConfiguration); [|exact Ho|reflexivity..].
  intros o'. apply settles_applyObject; [done|done|]. intros e w err. unfold keepShares.
  repeat case_match; try done; cbn; unfold shares; repeat case_match; by try done.
Qed.

(** *** Directories *)

(** Every manifest of a directory. *)
Lemma steady_directory {B} k (place : obj k → obj k) (skip : obj k → bool) dir (f : B → string → M TCR B)
    b (wrapped : error → error) :
  (∀ b file, steady (manifestKeys k place skip (filepath_Join dir file)) (same eq) (f b file) (f b file)) →
  let m := match AssetDir dir with inl err => throw (wrapped err) | inr files => mfold f b files end in
  steady (directoryKeys k place skip dir) (same eq) m m.
Proof.
  intros Hf m. subst m. unfold directoryKeys. destruct (AssetDir dir); [apply steady_throw, _|].
  by apply steady_mfold.
Qed.

Lemma prepare_keeps e (o : CustomResourceDefinition) :
  object_of cl (preserveCABundle e o) = object_of cl o ∧ cacheKey (preserveCABundle e o) = cacheKey o.
Proof. unfold preserveCABundle. destruct e as [e|]; [|done]. by destruct (crdClientConfig (ko_body e)). Qed.

Lemma steady_manageCustomResources ann :
  let m := manageCustomResources ann in
  steady (directoryKeys KCRD as_is isAlphaVersion crdDir) (same eq) m m.
Proof using Hcl Htyped.
  apply (steady_directory KCRD). intros ann' file. unfold manageCustomResource. steady_read o Ho.
  destruct (isAlphaVersion o); [by apply steady_ret|].
  refine (steady_recorded _ _ (λ _, _) (λ o, _) (λ o, _) _ _).
  apply (steady_keyed (desiredCRD (operatorNamespace cfg) o)); [done|].
  refine (steady_applyWithCache cl cfg Hcl KCRD "" preserveCABundle _ _ _ eq_refl _ _ _).
  - intros e. apply prepare_keeps.
  - apply settles_resourceapply.
  - by eapply typed_key.
Qed.

Lemma desiredNetworkPolicy_identity (b : bool) (o : NetworkPolicy) :
  let o' := desiredNetworkPolicy (operatorNamespace cfg) b owner o in
  ko_Kind o' = ko_Kind o ∧ cacheKey o' = cacheKey (in_ns o) ∧ ko_Namespace o' = operatorNamespace cfg.
Proof using H.
  intros o'. assert (ko_Kind o' = ko_Kind o ∧ ko_Group o' = ko_Group o) as [Hk Hg].
  { subst o'. unfold desiredNetworkPolicy, adjustDNSNetworkPolicyForPlatform,
      adjustVisibilityNetworkPolicyForPlatform, adjustWebhookNetworkPolicyForPlatform.
    by repeat case_match. }
  pose proof (desiredNetworkPolicy_meta owner (operatorNamespace cfg) b o) as Hm.
  split; [done|]. unfold ko_Namespace. split; [|subst o'; by rewrite Hm].
  apply cacheKey_meta; [done|done|..]; unfold ko_Name, ko_Namespace; subst o'; by rewrite Hm.
Qed.

Lemma steady_manageNetworkPolicies ann :
  let m := manageNetworkPolicies ann owner in
  steady (directoryKeys KNetworkPolicy in_ns never networkPolicyDir) (same eq) m m.
Proof using Hcl Htyped.
  apply (steady_directory KNetworkPolicy). intros ann' file. unfold manageNetworkPolicy. steady_read o Ho.
  destruct (desiredNetworkPolicy_identity (isOpenShift cfg) o) as (Hk & Hkey & Hns).
  refine (steady_recorded _ _ (λ _, _) (λ o, _) (λ o, _) _ _).
  eapply (steady_cached KNetworkPolicy); [|exact Ho|done|exact Hkey|done].
  intros o'. by apply settles_applyObject.
Qed.

Lemma scope_keeps (role role' : ClusterRole) :
  scopeManagerRoleResourceNames role = Ok role' →
  ko_Kind role' = ko_Kind role ∧ ko_Group role' = ko_Group role ∧ ko_meta role' = ko_meta role.
Proof. unfold scopeManagerRoleResourceNames. destruct kueueCRDNames; [|done..]. by intros [= <-]. Qed.

Lemma steady_manageClusterRoles ann :
  let m := manageClusterRoles ann owner in
  steady (directoryKeys KClusterRole as_is aggregated clusterRoleDir) (same eq) m m.
Proof using Hcl Htyped.
  apply (steady_directory KClusterRole). intros ann' file. unfold manageClusterRole. steady_read o Ho.
  unfold aggregated. set (rule := cr_AggregationRule (ko_body (o : KObj ClusterRoleBody))).
  change (cr_AggregationRule (@ko_body (body KClusterRole) o)) with rule. destruct rule; [by apply steady_ret|]. cbv zeta.
  assert (∀ o', ko_Kind o' = ko_Kind o → cacheKey o' = cacheKey o →
    let m := '(role, _) ← applyClusterRoleWithCache o';
      annotateHash "ClusterRole rules" ("clusterrole/" +:+ ko_Name role)
        (HRules (cr_Rules (ko_body role))) ann' in steady (keyOf o) (same eq) m m) as Happly.
  { intros o' Hk Hkey.
    refine (steady_recorded (k := KClusterRole) _ _ (λ _, _) (λ _, _) (λ r : ClusterRole, HRules (cr_Rules (ko_body r))) _ _).
    eapply (steady_cached KClusterRole _ as_is); [apply settles_resourceapply|exact Ho|done..]. }
  change (ko_Name (with_owner owner o)) with (ko_Name o).
  case_bool_decide; [|by apply Happly].
  unfold wrap, try, of_res. destruct (scopeManagerRoleResourceNames _) as [role|e|p] eqn:Hs.
  - apply scope_keeps in Hs as (Hk & Hg & Hm).
    apply (Happly role); [done|]. by apply cacheKey_meta; unfold ko_Name, ko_Namespace; rewrite ?Hm.
  - by apply (steady_result _ _ _ _ (Err (WrapError _ e)) (Err (WrapError _ e))).
  - apply (steady_result _ _ _ _ (Panic p) (Panic p)). intros Hp. by destruct (Hp p).
Qed.

(** *** API services and webhooks *)

Lemma steady_manageAPIService ann :
  let m := manageAPIService ann owner in steady [] (same eq) m m.
Proof.
  apply steady_mfold_none. intros ann' path. steady_get.
  refine (steady_res _ _ _ _ _ _ _ _). intros o _. refine (steady_res _ _ _ _ _ _ _ _). intros new _.
  refine (steady_recorded (k := KAPIService) [] _ (λ _, _) (λ _, _) (λ o, _) _ _). apply steady_APIService.
Qed.

(** What identifies the webhook configurations is that of their manifests. *)
Lemma desiredMutatingWebhook_identity ns config (o new : MutatingWebhookConfiguration) :
  desiredMutatingWebhook ns config owner o = Ok new → ko_Kind new = ko_Kind o ∧ cacheKey new = cacheKey o.
Proof using H.
  unfold desiredMutatingWebhook, ModifyPodBasedMutatingWebhook. rewrite res_bind_Ok. intros (m & Hm & Hn).
  rewrite res_bind_Ok in Hm. destruct Hm as (kept & _ & Hm). rewrite res_bind_Ok in Hm.
  destruct Hm as (merged & _ & [= <-]). rewrite res_bind_Ok in Hn. by destruct Hn as (ws & _ & [= <-]).
Qed.
Lemma desiredValidatingWebhook_identity ns config (o new : ValidatingWebhookConfiguration) :
  desiredValidatingWebhook ns config owner o = Ok new → ko_Kind new = ko_Kind o ∧ cacheKey new = cacheKey o.
Proof using H.
  unfold desiredValidatingWebhook, ModifyPodBasedValidatingWebhook. rewrite res_bind_Ok. intros (m & Hm & Hn).
  rewrite res_bind_Ok in Hm. destruct Hm as (kept & _ & Hm). rewrite res_bind_Ok in Hm.
  destruct Hm as (merged & _ & [= <-]). rewrite res_bind_Ok in Hn. by destruct Hn as (ws & _ & [= <-]).
Qed.

Lemma steady_manageMutatingWebhook kueue :
  let m := manageMutatingWebhook kueue owner in
  steady (manifestKeys KMutatingWebhookConfiguration as_is never "assets/kueue-operator/mutatingwebhook.yaml")
    (same on_object) m m.
Proof using Hcl Htyped.
  intros m. subst m. unfold manageMutatingWebhook. steady_read o Ho.
  refine (steady_res _ _ _ _ _ _ _ _). intros new Hnew.
  apply desiredMutatingWebhook_identity in Hnew as [Hk Hkey].
  eapply (steady_improved KMutatingWebhookConfiguration); [exact Ho|done..].
Qed.
Lemma steady_manageValidatingWebhook kueue :
  let m := manageValidatingWebhook kueue owner in
  steady (manifestKeys KValidatingWebhookConfiguration as_is never "assets/kueue-operator/validatingwebhook.yaml")
    (same on_object) m m.
Proof using Hcl Htyped.
  intros m. subst m. unfold manageValidatingWebhook. steady_read o Ho.
  refine (steady_res _ _ _ _ _ _ _ _). intros new Hnew.
  apply desiredValidatingWebhook_identity in Hnew as [Hk Hkey].
  eapply (steady_improved KValidatingWebhookConfiguration); [exact Ho|done..].
Qed.

(** *** The ConfigMap *)

Lemma steady_client_get k ns n : steady [] (same eq) (client_get k ns n) (client_get k ns n).
Proof. apply steady_call; [done|]. intros r r2 -> ->. apply steady_of_sum. Qed.

Lemma steady_resolveGVRsToKinds frameworks :
  let m := resolveGVRsToKinds frameworks in steady [] (same eq) m m.
Proof.
  apply steady_mfold_none. intros mapping fw. unfold resolveGVR.
  refine (steady_then _ _ _ eq _ _ _ _ _ _ _).
  - apply steady_try, steady_call; [done|]. intros r r2 -> ->. apply steady_of_sum.
  - intros r _ <-. destruct r as [e|rs]; [by apply steady_ret|]. case_match; by apply steady_ret.
Qed.

Lemma steady_buildAndApplyConfigMap old config g tls :
  let m := buildAndApplyConfigMap old config g tls in steady (configMapKeys cfg) (same on_object) m m.
Proof using Hcl.
  intros m. subst m. unfold buildAndApplyConfigMap. steady_get.
  refine (steady_res _ _ _ _ _ _ _ _). intros cm Hcm. cbv zeta.
  assert (steady (configMapKeys cfg) (same on_object) (applyImproved KConfigMap (ConfigMap_of cm))
    (applyImproved KConfigMap (ConfigMap_of cm))) as Happly.
  { refine (steady_keyed (ConfigMap_of cm) _ _ _ _ _ (steady_applyImproved _ _ Hcl _ _ _)); [|by eexists].
    apply (cacheKey_meta (k := KConfigMap)); [done|done|..]; unfold ko_Name, ko_Namespace, ConfigMap_of;
      cbn [ko_meta]; by rewrite (BuildConfigMap_meta _ _ _ _ _ _ Hcm). }
  destruct old as [o|]; [|exact Happly]. case_bool_decide; [|exact Happly].
  eapply steady_sub; [|by apply steady_ret]. apply submseteq_nil_l.
Qed.

Lemma steady_manageConfigMap kueue tls :
  let m := manageConfigMap kueue tls in steady (configMapKeys cfg) (same on_object) m m.
Proof using Hcl.
  intros m. subst m. unfold manageConfigMap. steady_get.
  refine (steady_then _ _ _ eq _ _ _ _ _ _ _); [apply steady_try, steady_client_get|]. intros r _ <-. cbv zeta.
  refine (steady_then _ _ _ eq _ _ _ _ _ _ _).
  { destruct (kc_MultiKueue _); [apply steady_resolveGVRsToKinds|by apply steady_ret]. }
  intros g _ <-. destruct r as [e|old]; [|apply steady_buildAndApplyConfigMap].
  destruct (IsNotFound e); [apply steady_buildAndApplyConfigMap|].
  eapply steady_sub; [|apply steady_throw, _]. apply submseteq_nil_l.
Qed.

(** *** The ServiceMonitor and the deployment *)

Lemma steady_manageServiceMonitor kueue :
  let m := manageServiceMonitor kueue in steady [] (same eq) m m.
Proof.
  intros m. subst m. unfold manageServiceMonitor. steady_get. apply steady_call; [done|].
  intros r r2 -> ->. apply steady_of_sum.
Qed.

Lemma desiredDeployment_identity image level ann (o d : Deployment) :
  desiredDeployment (operatorNamespace cfg) image level ann owner o = Ok d →
  ko_Kind d = ko_Kind o ∧ cacheKey d = cacheKey (in_ns (set_meta (meta_set_Name OperandName) o)).
Proof using H.
  unfold desiredDeployment. rewrite res_bind_Ok. intros (p & _ & Hd). destruct (MergeMap _ _ _).
  by injection Hd as <-.
Qed.

(** Two states of the Kueue resource that ask for the same operand: their
    status and the rest of their metadata may differ. *)
Definition same_intent (kueue kueue2 : Kueue) : Prop :=
  ku_Spec kueue2 = ku_Spec kueue ∧
  om_Name (ku_ObjectMeta kueue2) = om_Name (ku_ObjectMeta kueue) ∧
  om_UID (ku_ObjectMeta kueue2) = om_UID (ku_ObjectMeta kueue).

(** The first run may update the deployment and note its generation where the
    second does not. *)
Definition on_deployment (x y : Deployment * bool * Kueue) : Prop := x.1.1 = y.1.1.
#[local] Instance on_deployment_refl : Reflexive on_deployment.
Proof. done. Qed.

Lemma steady_generation (d : Deployment) (kueue kueue' kueue2 kueue2' : Kueue) (b b2 : bool) :
  let m (b : bool) kueue kueue' : M TCR (Deployment * bool * Kueue) :=
    if b then mcall (CCacheStoreKueue kueue') ;; mret (d, b, kueue') else mret (d, b, kueue) in
  steady [] (same on_deployment) (m b kueue kueue') (m b2 kueue2 kueue2').
Proof.
  intros m _ c tr s' r Hr _ _. exists c.
  assert (s' = tcr_set_resourceCache c cfg ∧ ∃ x, r = Ok x ∧ x.1.1 = d) as (-> & x & -> & <-).
  { subst m. cbv beta in Hr. destruct b; [apply runs_vis_inv in Hr as (a & tr' & -> & Hr)|];
      apply runs_ret_inv in Hr as [_ [= -> ->]]; (split; [done|]); by eexists. }
  split_and!; [done..|]. intros c2 _. by destruct b2.
Qed.

Lemma steady_manageDeployment kueue kueue2 ann :
  same_intent kueue kueue2 →
  steady (deploymentKeys cfg) (same on_deployment)
    (manageDeployment kueue ann owner) (manageDeployment kueue2 ann owner).
Proof using Hcl Htyped.
  intros (Hspec & _). unfold manageDeployment, deploymentKeys. rewrite Hspec. steady_read o Ho.
  refine (steady_res _ _ _ _ _ _ _ _). intros d Hd. apply desiredDeployment_identity in Hd as [Hk Hkey].
  refine (steady_first _ _ _ on_object _ _ _ _ _ _ _).
  - eapply (steady_cached KDeployment _ (λ o, in_ns (set_meta (meta_set_Name OperandName) o)));
      [apply settles_resourceapply|exact Ho|done|exact Hkey|done].
  - intros [d1 b] [d2 b2] He. change (d1 = d2) in He. subst d2. apply steady_generation.
Qed.

(** The status is reported again, whatever the API server says. *)
Lemma steady_updateKueueStatus kueue kueue2 conditions conditions2 n n2 :
  steady [] (λ _ _, True) (updateKueueStatus kueue conditions n) (updateKueueStatus kueue2 conditions2 n2).
Proof.
  intros _ c tr s' r Hr _ _. exists c. apply runs_vis_inv in Hr as (t & tr' & -> & Hr). cbn in Hr.
  apply runs_vis_inv in Hr as (a & tr2 & -> & Hr). assert (s' = tcr_set_resourceCache c cfg) as ->.
  { destruct a; by apply runs_ret_inv in Hr as [_ [= -> _]]. }
  split_and!; [done..|]. intros c2 _. split; [done|]. intros t2 _. split; [done|]. by intros [].
Qed.

(** *** The blocks of [sync] *)

(** A block that manages a resource and records its hash. *)
Ltac steady_record k lem :=
  refine (steady_recorded (k := k) _ _ (λ _, _) (λ _, _) (λ o, _) _ _); apply lem.

Lemma steady_syncConfigMap kueue tls ann :
  let m := syncConfigMap kueue tls ann in steady (configMapKeys cfg) (same eq) m m.
Proof using Hcl. steady_record KConfigMap steady_manageConfigMap. Qed.

Lemma steady_syncServiceAccount ann :
  let m := syncServiceAccount owner ann in
  steady (manifestKeys KServiceAccount in_ns never "assets/kueue-operator/serviceaccount.yaml") (same eq) m m.
Proof using Hcl Htyped. steady_record KServiceAccount steady_manageServiceAccount. Qed.
Lemma steady_syncRole path ann :
  let m := syncRole path owner ann in steady (manifestKeys KRole in_ns never path) (same eq) m m.
Proof using Hcl Htyped. steady_record KRole steady_manageRole. Qed.
Lemma steady_syncRoleBinding path b ann :
  let m := syncRoleBinding path owner b ann in
  steady (manifestKeys KRoleBinding in_ns never path) (same eq) m m.
Proof using Hcl Htyped. steady_record KRoleBinding steady_manageRoleBindings. Qed.
Lemma steady_syncService path ann :
  let m := syncService path owner ann in steady (manifestKeys KService in_ns never path) (same eq) m m.
Proof using Hcl Htyped. steady_record KService steady_manageService. Qed.
Lemma steady_syncClusterRoleBinding path ann :
  let m := syncClusterRoleBinding path owner ann in
  steady (manifestKeys KClusterRoleBinding as_is never path) (same eq) m m.
Proof using Hcl Htyped. steady_record KClusterRoleBinding steady_manageClusterRoleBindings. Qed.

(** A block that runs when service monitors are supported. *)
Lemma steady_monitored K (m : M TCR (gmap string string)) ann :
  steady K (same eq) m m →
  let m' := (c ← mget; if serviceMonitorSupport c then m else mret ann) in
  steady (monitoredKeys cfg K) (same eq) m' m'.
Proof.
  intros Hm m'. subst m'. steady_get. unfold monitoredKeys.
  destruct (serviceMonitorSupport cfg); [done|by apply steady_ret].
Qed.

(** One block after the other. *)
Ltac steady_next := refine (steady_bind _ _ _ _ eq _ _ _ _ _ _ _); [|intros ? _ <-].
Ltac steady_skip := refine (steady_then _ _ _ eq _ _ _ _ _ _ _); [|intros ? _ <-].

Lemma steady_syncNamespaced ann :
  let m := syncNamespaced owner ann in steady (namespacedKeys cfg) (same eq) m m.
Proof using Hcl Htyped.
  intros m. subst m. unfold syncNamespaced, namespacedKeys.
  steady_next; [apply steady_syncServiceAccount|]. steady_next; [apply steady_syncRole|].
  steady_next; [apply steady_syncRoleBinding|]. steady_next; [apply steady_syncRole|].
  steady_next; [apply steady_syncRoleBinding|]. steady_next; [|apply steady_syncService].
  apply steady_monitored. steady_next; [apply steady_syncRole|].
  steady_next; [apply steady_syncRoleBinding|]. steady_next; [apply steady_syncService|].
  steady_record KClusterRoleBinding steady_manageClusterRoleBindingsWithoutNamespaceOverride.
Qed.

Lemma steady_syncOpenshiftRoles ann :
  let m := syncOpenshiftRoles owner ann in steady [] (same eq) m m.
Proof.
  intros m. subst m. unfold syncOpenshiftRoles.
  refine (steady_then _ _ _ on_object _ _ _ _ _ (steady_manageOpenshiftClusterRolesForKueue) _).
  intros [r b] [r2 b2] He. change (r = r2) in He. subst r2.
  steady_skip; [apply steady_annotateHash|].
  steady_record KClusterRoleBinding steady_manageOpenshiftClusterRolesBindingForKueue.
Qed.

Lemma steady_syncClusterWide ann :
  let m := syncClusterWide owner ann in steady (clusterWideKeys cfg) (same eq) m m.
Proof using Hcl Htyped.
  intros m. subst m. unfold syncClusterWide, clusterWideKeys.
  steady_skip; [apply steady_manageAPIService|]. steady_next; [apply steady_managePriorityLevelConfiguration|].
  steady_skip; [apply steady_manageFlowSchema|]. steady_next; [apply steady_manageCustomResources|].
  steady_next; [apply steady_manageNetworkPolicies|]. steady_next; [apply steady_manageClusterRoles|].
  steady_skip; [apply steady_syncOpenshiftRoles|]. steady_next; [apply steady_syncClusterRoleBinding|].
  steady_next; [apply steady_syncClusterRoleBinding|]. steady_next.
  - apply steady_monitored. steady_next; apply steady_syncClusterRoleBinding.
  - steady_record KRoleBinding steady_manageSystemRoleBindings.
Qed.

Lemma steady_syncWebhooks kueue ann :
  let m := syncWebhooks kueue owner ann in steady (webhookKeys cfg) (same eq) m m.
Proof using Hcl Htyped.
  intros m. subst m. unfold syncWebhooks, webhookKeys.
  refine (steady_bind _ _ _ _ on_object _ _ _ _ _ (steady_manageMutatingWebhook kueue) _).
  intros [w b] [w2 b2] He. change (w = w2) in He. subst w2. steady_skip; [apply steady_annotateHash|].
  refine (steady_bind _ _ _ _ on_object _ _ _ _ _ (steady_manageValidatingWebhook kueue) _).
  intros [v c] [v2 c2] He. change (v = v2) in He. subst v2. steady_skip; [apply steady_annotateHash|].
  apply steady_syncService.
Qed.

Lemma steady_syncServiceMonitor kueue ann :
  let m := syncServiceMonitor kueue ann in steady [] (same eq) m m.
Proof.
  intros m. subst m. unfold syncServiceMonitor. steady_get.
  destruct (serviceMonitorSupport cfg); [|by apply steady_ret].
  steady_skip; [apply steady_manageServiceMonitor|]. case_match. apply steady_annotateHash.
Qed.

Lemma steady_syncDeployment kueue kueue2 dep dep2 ann :
  same_intent kueue kueue2 →
  steady (deploymentKeys cfg) (λ _ _, True)
    (syncDeployment kueue owner dep ann) (syncDeployment kueue2 owner dep2 ann).
Proof using Hcl Htyped.
  intros Hk. unfold syncDeployment.
  refine (steady_first _ _ _ on_deployment _ _ _ _ _ (steady_manageDeployment _ _ _ Hk) _).
  intros [[d b] k] [[d2 b2] k2] _. apply steady_updateKueueStatus.
Qed.

(** Only the deployment's block sees the status. *)
Lemma same_intent_blocks kueue kueue2 tls ann :
  same_intent kueue kueue2 →
  syncConfigMap kueue2 tls ann = syncConfigMap kueue tls ann ∧
  syncWebhooks kueue2 owner ann = syncWebhooks kueue owner ann ∧
  syncServiceMonitor kueue2 ann = syncServiceMonitor kueue ann.
Proof.
  intros (Hs & Hn & Hu).
  unfold syncConfigMap, manageConfigMap, syncWebhooks, manageMutatingWebhook, manageValidatingWebhook,
    syncServiceMonitor, manageServiceMonitor, desiredServiceMonitor. by rewrite Hs, Hn, Hu.
Qed.

Lemma steady_syncOperand kueue kueue2 tls dep dep2 ann :
  same_intent kueue kueue2 →
  steady (operandKeys cfg) (λ _ _, True)
    (syncOperand kueue tls owner dep ann) (syncOperand kueue2 tls owner dep2 ann).
Proof using Hcl Htyped.
  intros Hk. unfold syncOperand, operandKeys. rewrite (proj1 (same_intent_blocks _ _ tls ann Hk)).
  steady_next; [apply steady_syncConfigMap|]. steady_next; [apply steady_syncNamespaced|].
  steady_next; [apply steady_syncClusterWide|].
  match goal with |- steady _ _ (syncWebhooks _ _ ?ann' ≫= _) _ =>
    rewrite (proj1 (proj2 (same_intent_blocks _ _ tls ann' Hk))) end.
  steady_next; [apply steady_syncWebhooks|].
  match goal with |- steady _ _ (syncServiceMonitor _ ?ann' ≫= _) _ =>
    rewrite (proj2 (proj2 (same_intent_blocks _ _ tls ann' Hk))) end.
  steady_skip; [apply steady_syncServiceMonitor|]. by apply steady_syncDeployment.
Qed.
End methods.

(** ** The operand *)

(** Installing the operand in a settled cluster again writes nothing the resource cache
    covers. Once the operand was installed in a cluster that answers every
    write with the object it already stores (from any cache, and also when
    the installation ended with an error), installing it again for the same
    specification only reads, records events and reports the status: every
    object the cache covers is found in the cache and not applied, although
    the status of the Kueue resource, the dependencies and the answers to the
    status reports may differ. Nothing is created or deleted, and the
    receiver does not change. The API services, the ServiceMonitor and the
    objects built in Go are applied every time; the flow schema is compared
    with the stored one instead. *)
Theorem syncOperand_steady `{Env} (cl : cluster) kueue kueue2 tls owner dep dep2 ann (s s1 : TCR) tr r tr2 o2 :
  well_stored cl → manifests_typed → NoDup (operandKeys s) → same_intent kueue kueue2 →
  runs (syncOperand kueue tls owner dep ann s) tr (Some (s1, r)) → answered cl tr → (∀ p, r ≠ Panic p) →
  runs (syncOperand kueue2 tls owner dep2 ann s1) tr2 o2 → answered cl tr2 →
  Forall (quiet cl ∘ ev_call) tr2 ∧ ∀ s2 r2, o2 = Some (s2, r2) → s2 = s1.
Proof.
  intros Hcl Hty Hnd Hk Hr Ha Hp Hr2 Ha2.
  replace s with (tcr_set_resourceCache (resourceCache s) s) in Hr by by destruct s.
  destruct (steady_syncOperand cl s Hcl Hty owner kueue kueue2 tls dep dep2 ann Hk Hnd _ _ _ _ Hr Ha Hp)
    as (c' & -> & _ & Hq).
  destruct (awp_runs _ _ _ _ _ _ Hr2 Ha2 (Hq c' (λ _ _, eq_refl))) as [Hquiet Ho].
  split; [done|]. intros s2 r2 ->. by destruct (Ho _ eq_refl).
Qed.

(** ** Concrete instances *)

#[local] Existing Instance example_env.

Definition stored (k : kind) (ns n : string) : obj k :=
  example_obj k "Kind" (meta_set_ResourceVersion "7" (meta_named (if cluster_scoped k then "" else ns) n)).
Definition example_settled : cluster := {|
  cl_objects k ns n := Some (stored k ns n);
  cl_resources _ := inr [];
  cl_monitor j := inr (j, false) |}.

(** It reports every apply as a change. *)
Definition settled_server : handler unit := λ _ c,
  match c as c return option (resp c * unit) with
  | CLister k ns n => Some (inr (stored k ns n), tt)
  | CGet k ns n => Some (inr (stored k ns n), tt)
  | CCreate k o => Some (inr (stored k (ko_Namespace o) (ko_Name o)), tt)
  | CUpdate k o => Some (inr (stored k (ko_Namespace o) (ko_Name o)), tt)
  | CApply k o _ => Some (inr (stored k (ko_Namespace o) (ko_Name o), true), tt)
  | CApplyImproved k o cache =>
      let e := stored k (ko_Namespace o) (ko_Name o) in
      Some ((inr (e, true), if SafeToSkipApply o e cache then cache
                            else UpdateCachedResourceMetadata o e cache), tt)
  | CServerResourcesForGroupVersion _ => Some (inr [], tt)
  | CApplyServiceMonitor j => Some (inr (j, false), tt)
  | CEvent _ _ _ => Some (tt, tt)
  | CCacheStoreKueue _ => Some (tt, tt)
  | CNow => Some (0%Z, tt)
  | CKueueApplyStatus _ _ _ => Some (None, tt)
  | _ => None
  end.

Lemma example_settled_well_stored : well_stored example_settled.
Proof.
  split; intros k ns n e [= <-]; [done| |done]. intros Hk. unfold stored, ko_Namespace. cbn. by rewrite Hk.
Qed.

Lemma settled_server_answers w c r w' : settled_server w c = Some (r, w') → answers example_settled c r.
Proof.
  intros Ha.
  assert (∀ k (o : obj k), object_of example_settled o = Some (stored k (ko_Namespace o) (ko_Name o))) as Hof.
  { intros k o'. unfold object_of, example_settled, stored. cbn. by destruct (cluster_scoped k). }
  destruct c; injection Ha as <- <- || discriminate Ha; cbn [answers]; try done;
    (eexists; split; [apply Hof|done]) || (do 2 eexists; split; [apply Hof|done]).
Qed.
Lemma settled_server_answered {A} (p : prog A) tr o :
  run settled_server p tt = (tr, o, tt) → answered example_settled tr.
Proof.
  intros Hr. eapply Forall_impl; [exact (run_answers _ _ _ _ _ _ Hr)|].
  intros [c r] (w1 & w2 & Ha). by eapply settled_server_answers.
Qed.

Definition example_steady (s : TCR) : prog (TCR * res unit) :=
  syncOperand (example_kueue []) None example_owner None ∅ s.

(** The first run applies; the second leaves out what the cache covers. *)
Example example_steady_runs :
  let '(tr, o, _) := run settled_server (example_steady example_tcr) tt in
  match o with
  | Some (s1, r) =>
      let '(tr2, o2, _) := run settled_server (example_steady s1) tt in
      (r, snd <$> o2, length tr, length tr2)
  | None => (Panic "", None, 0, 0)
  end = (Ok tt, Some (Ok tt), 59, 37).
Proof. vm_compute. reflexivity. Qed.

Lemma syncOperand_steady_witness :
  ∃ tr tr2 s1 s2, runs (example_steady example_tcr) tr (Some (s1, Ok tt)) ∧ length tr = 59 ∧
    runs (example_steady s1) tr2 (Some (s2, Ok tt)) ∧ length tr2 = 37 ∧
    Forall (quiet example_settled ∘ ev_call) tr2 ∧ s2 = s1.
Proof.
  pose proof example_steady_runs as H.
  destruct (run settled_server (example_steady example_tcr) tt) as [[tr o] []] eqn:E.
  destruct o as [[s1 r]|]; [|discriminate H].
  destruct (run settled_server (example_steady s1) tt) as [[tr2 o2] []] eqn:E2.
  destruct o2 as [[s2 r2]|]; [|discriminate H]. injection H as -> -> Hl Hl2.
  pose proof (run_runs _ _ _ _ _ _ E) as Hr. pose proof (run_runs _ _ _ _ _ _ E2) as Hr2.
  assert (manifests_typed) as Hty by (by intros k path o [= <-]).
  assert (NoDup (operandKeys example_tcr)) as Hnd by (apply (bool_decide_unpack _); vm_compute; exact I).
  destruct (syncOperand_steady example_settled (example_kueue []) (example_kueue []) None example_owner
    None None ∅ example_tcr s1 tr (Ok tt) tr2 _ example_settled_well_stored Hty Hnd
    (conj eq_refl (conj eq_refl eq_refl)) Hr (settled_server_answered _ _ _ E) ltac:(discriminate)
    Hr2 (settled_server_answered _ _ _ E2)) as [Hq Hs].
  exists tr, tr2, s1, s2. split_and!; [exact Hr|exact Hl|exact Hr2|exact Hl2|exact Hq|exact (Hs _ _ eq_refl)].
Defined.
