(* ===== verification/SteadySync.v ===== *)
(** * The steady state of a reconciliation

    [SteadyState] is about the installation of the operand; here the whole of
    [sync], from the Kueue resource in the informer's cache to the status. The
    steps before the operand are deterministic in a settled cluster: [yields]
    says what a step returns there and how it leaves the receiver. *)
From S2P Require Import Prelude GoStd K8s ApiTypes DraHelpers ConfigMap TlsProfile K8sObjects.
From S2P Require Import PodWebhook Effects Monad Cert ResourceApply Finalizer Reconciler Discovery.
From S2P Require Import Conditions CachedApply Cleanup Manage Managed Sync Steady SteadyState.

(** ** A settled environment *)

(** Besides the objects: the Kueue resource, the unstructured objects, the
    server's version, the feature gates and the TLS profile. *)
Record environment := {
  en_cluster : cluster;
  en_kueue : Kueue;
  en_unstructured : dyn_resource → json → error + json;
  en_version : error + string;
  en_featureGate : error + FeatureGateSpec;
  en_tlsProfile : error + option TLSSecurityProfile;
}.

(** The keys of the cache that the certificates and their issuer use: they
    are applied through it as well. *)
Definition groupCertManager : string := "cert-manager.io".
Definition for_cert_manager (key : cachedVersionKey) : Prop := ck_group key = groupCertManager.

(** The resource as its owner wants it: installed, not being deleted. Its
    status and the rest of its metadata vary. *)
Record settled_kueue (kueue k : Kueue) : Prop := {
  sk_intent : same_intent kueue k;
  sk_generation : om_Generation (ku_ObjectMeta k) = om_Generation (ku_ObjectMeta kueue);
  sk_finalizer : ContainsFinalizer k KueueFinalizer = true;
  sk_live : om_DeletionTimestamp (ku_ObjectMeta k) = None;
}.

Section environment.
Context `{Env} (en : environment).

Definition sync_answers (c : call) : resp c → Prop :=
  match c return resp c → Prop with
  | CCacheGetKueue _ => λ r, ∃ k, r = inr (Some (Some k)) ∧ settled_kueue (en_kueue en) k
  | CDynApply d j cache => λ r,
      match en_unstructured en d j with
      | inl err => r.1 = inl err
      | inr e => ∃ changed, r.1 = inr (e, changed)
      end ∧
      ∀ key, ¬ for_cert_manager key → r.2 !! key = cache !! key
  | CServerVersion => λ r, r = en_version en
  | CFeatureGateGet _ => λ r, r = en_featureGate en
  | CAPIServerGet _ => λ r, r = en_tlsProfile en
  | c => answers (en_cluster en) c
  end.
Definition sync_answered (tr : trace) : Prop := answered_by sync_answers tr.

(** The calls of a quiet reconciliation: besides those of a quiet
    installation further reads, the waits, and the applies of the issuer and
    the certificates. *)
Definition sync_quiet (c : call) : Prop :=
  match c with
  | CCacheGetKueue _ | CServerVersion | CFeatureGateGet _ | CAPIServerGet _ | COperatorConfigGet _ _ => True
  | CDynGet _ _ _ | CSleep _ | CDiverge => True
  | CDynApply d _ _ => d = RIssuers ∨ d = RCertificates
  | c => quiet (en_cluster en) c
  end.

Lemma quiet_sync_quiet c : quiet (en_cluster en) c → sync_quiet c.
Proof. by destruct c. Qed.
Lemma sync_answers_answers c r : sync_answers c r → answers (en_cluster en) c r.
Proof. by destruct c. Qed.

(** ** What a step yields *)

Notation awp := (awp sync_quiet sync_answers).

Definition yields {A} (m : M TCR A) (s : TCR) (Q : A → TCR → Prop) : Prop :=
  awp (m s) (λ p, ∀ a, p.2 = Ok a → Q a p.1).

Lemma yields_mono {A} (m : M TCR A) s (Q Q' : A → TCR → Prop) :
  yields m s Q → (∀ a s', Q a s' → Q' a s') → yields m s Q'.
Proof. intros Hm HQ. eapply awp_mono; [|exact Hm]. cbn. eauto. Qed.
Lemma yields_ret {A} (a : A) s (Q : A → TCR → Prop) : Q a s → yields (mret a) s Q.
Proof. intros HQ a' [= <-]. exact HQ. Qed.
Lemma yields_throw {A} e s (Q : A → TCR → Prop) : yields (throw e) s Q.
Proof. by intros a [=]. Qed.
Lemma yields_of_sum {A} (r : error + A) s (Q : A → TCR → Prop) :
  (∀ a, r = inr a → Q a s) → yields (of_sum r) s Q.
Proof. intros HQ. destruct r; intros a' [= <-]. by apply HQ. Qed.
Lemma yields_bind {A B} (m : M TCR A) (f : A → M TCR B) s (Q : B → TCR → Prop) :
  yields m s (λ a s', yields (f a) s' Q) → yields (m ≫= f) s Q.
Proof.
  intros Hm. apply awp_bind. eapply awp_mono; [|exact Hm]. intros [s' [a|e|p]]; cbn; [|by intros _ ? [=]..].
  intros Ha. by apply Ha.
Qed.
Lemma yields_get {B} (f : TCR → M TCR B) s (Q : B → TCR → Prop) : yields (f s) s Q → yields (mget ≫= f) s Q.
Proof. done. Qed.
Lemma yields_modify {B} g (f : unit → M TCR B) s (Q : B → TCR → Prop) :
  yields (f tt) (g s) Q → yields (mmodify g ≫= f) s Q.
Proof. done. Qed.
Lemma yields_call {B} c (f : resp c → M TCR B) s (Q : B → TCR → Prop) :
  sync_quiet c → (∀ r, sync_answers c r → yields (f r) s Q) → yields (mcall c ≫= f) s Q.
Proof. intros Hc Hf. split; [exact Hc|]. exact Hf. Qed.

Lemma yields_try_of_res {A} (r : res A) s (Q : error + A → TCR → Prop) :
  match r with Ok a => Q (inr a) s | Err e => Q (inl e) s | Panic _ => True end →
  yields (try (of_res r)) s Q.
Proof. intros HQ. destruct r; [intros a' [= <-]; exact HQ..|by intros a' [=]]. Qed.

(** Reads leave the receiver as it is. *)
Lemma yields_reads {A} C (m : M TCR A) s (Q : A → TCR → Prop) :
  inM (eq s) C m → (∀ c, C c → sync_quiet c) → (∀ a, Q a s) → yields m s Q.
Proof.
  intros Hm HC HQ. eapply awp_mono; [|exact (awp_prog_in _ _ C _ _ HC (Hm s eq_refl))].
  intros [s' r] <- a _. apply HQ.
Qed.

(** A loop, given what each step computes. *)
Fixpoint res_fold {A B} (g : B → A → res B) (b : B) (l : list A) : res B :=
  match l with [] => Ok b | a :: l => rlet b' := g b a in res_fold g b' l end.
Lemma yields_mfold {A B} (f : B → A → M TCR B) (g : B → A → res B) (I : TCR → Prop) b l s :
  I s → (∀ b a s, I s → yields (f b a) s (λ b' s', I s' ∧ g b a = Ok b')) →
  yields (mfold f b l) s (λ b' s', I s' ∧ res_fold g b l = Ok b').
Proof.
  intros HI Hf. revert b s HI. induction l as [|a l IH]; intros b s HI; cbn [mfold res_fold].
  - by apply yields_ret.
  - apply yields_bind. eapply yields_mono; [by apply Hf|]. intros b1 s1 [HI1 ->]. by apply IH.
Qed.

(** The first step of a run that succeeds. *)
Lemma yields_first {A B} (m : M TCR A) (f : A → M TCR B) s Q tr s' b :
  yields m s Q → runs ((m ≫= f) s) tr (Some (s', Ok b)) → sync_answered tr →
  ∃ a s1 tr', Q a s1 ∧ runs (f a s1) tr' (Some (s', Ok b)) ∧ sync_answered tr'.
Proof.
  intros Hm Hr Ha. apply runs_pbind_inv in Hr as (tr1 & [s1 r] & tr2 & -> & Hr1 & Hr2).
  apply Forall_app in Ha as [Ha1 Ha2]. destruct (awp_runs _ _ _ _ _ _ Hr1 Ha1 Hm) as [_ HQ].
  destruct r as [a|e|p]; [|by apply runs_ret_inv in Hr2 as [_ [=]]..].
  exists a, s1, tr2. split; [by apply (HQ _ eq_refl)|]. by split.
Qed.
Lemma yields_end {A} (m : M TCR A) s Q tr s' a :
  yields m s Q → runs (m s) tr (Some (s', Ok a)) → sync_answered tr → Q a s'.
Proof. intros Hm Hr Ha. destruct (awp_runs _ _ _ _ _ _ Hr Ha Hm) as [_ HQ]. by apply (HQ _ eq_refl). Qed.
End environment.

(** ** The steps before the operand *)

Section steps.
Context `{Env} (en : environment).
Notation yields := (yields en).
Notation sync_quiet := (sync_quiet en).
Notation kueue := (en_kueue en).

(** The same receiver but for what the cache holds for cert-manager. *)
Definition near (s s' : TCR) : Prop := ∃ c, s' = tcr_set_resourceCache c s ∧
  ∀ key, ¬ for_cert_manager key → c !! key = resourceCache s !! key.
Lemma near_refl s : near s s.
Proof. exists (resourceCache s). split; [by destruct s|done]. Qed.
Lemma near_trans s1 s2 s3 : near s1 s2 → near s2 s3 → near s1 s3.
Proof.
  intros (c & -> & Hc) (c' & -> & Hc'). exists c'. split; [done|]. intros key Hk.
  rewrite Hc' by done. by apply Hc.
Qed.

(** *** The resource *)

Lemma yields_readKueue s :
  yields readKueue s (λ r s', s' = s ∧ ∃ k, r = Some k ∧ settled_kueue kueue k).
Proof. apply yields_call; [done|]. intros r (k & -> & Hk). apply yields_ret. eauto. Qed.
Lemma yields_rereadKueue s :
  yields rereadKueue s (λ k s', s' = s ∧ settled_kueue kueue k).
Proof. apply yields_call; [done|]. intros r (k & -> & Hk). by apply yields_ret. Qed.

(** *** Discovery *)

(** Whether device classes are served: the discovery endpoint answers. *)
Definition dra_available : bool :=
  match cl_resources (en_cluster en) "resource.k8s.io/v1" with
  | inl _ => false
  | inr resources => existsb (λ r, ar_Kind r =s "DeviceClass") resources
  end.
Lemma yields_checkDRAAPIs s : yields checkDRAAPIs s (λ b s', s' = s ∧ b = dra_available).
Proof.
  split; [done|]. intros r ->. unfold dra_available. cbn.
  destruct (cl_resources _ _) as [e|rs]; cbn; [destruct (IsNotFound e)|]; by intros a [= <-].
Qed.

(** Whether the CRD of issuers is there. *)
Definition cert_manager_found : bool :=
  match cl_objects (en_cluster en) KCRD "" "issuers.cert-manager.io" with Some _ => true | None => false end.
Lemma yields_cert_manager s :
  yields (isResourceRegisteredCached certManagerIssuer) s (λ b s', s' = s ∧ b = cert_manager_found).
Proof.
  split; [done|]. intros r ->. unfold cert_manager_found. cbn.
  change (ToLower "Issuer" +:+ "s" +:+ "." +:+ "cert-manager.io") with "issuers.cert-manager.io".
  destruct (cl_objects _ _ _ _); by intros a [= <-].
Qed.

(** *** The feature gates *)

(** What the version and the feature gates make of the receiver. *)
Definition settled_gates (s : TCR) : TCR :=
  let version := dra_available && minor_at_least 36 (en_version en) in
  let s' := tcr_set_draConsumableCapacityEnabled version s in
  if isOpenShift s && dra_available then
    match en_featureGate en with
    | inl _ => if negb version
               then tcr_set_draConsumableCapacityEnabled (draConsumableCapacityEnabled s) s' else s'
    | inr fg =>
        let '(partitionable, capacity) := scanFeatureGate fg version in
        tcr_set_draConsumableCapacityEnabled capacity (tcr_set_draPartitionableDevicesEnabled partitionable s')
    end
  else s'.
(** The cluster has not changed, so neither do the gates. *)
Lemma gates_idemp s : settled_gates (settled_gates s) = settled_gates s.
Proof.
  unfold settled_gates. set (v := dra_available && _). clearbody v. destruct s as [ns c img sm os p k]; cbn.
  destruct os, dra_available; cbn; try done. destruct (en_featureGate en) as [e|fg]; [by destruct v|].
  by destruct (scanFeatureGate fg v).
Qed.
Lemma gates_cache s c : settled_gates (tcr_set_resourceCache c s) = tcr_set_resourceCache c (settled_gates s).
Proof.
  unfold settled_gates. cbn [isOpenShift tcr_set_resourceCache]. destruct (_ && _); [|done].
  destruct (en_featureGate en); [by destruct (negb _)|]. by destruct (scanFeatureGate _ _).
Qed.
Lemma gates_keys s : operandKeys (settled_gates s) = operandKeys s.
Proof.
  unfold settled_gates. destruct (_ && _); [|done]. destruct (en_featureGate en); [by destruct (negb _)|].
  by destruct (scanFeatureGate _ _).
Qed.

Lemma yields_updateDRAGates s :
  yields (updateDRAGates dra_available) s (λ _ s', s' = settled_gates s).
Proof.
  apply yields_bind. eapply (yields_mono _ _ _ (λ v s', s' = s ∧ v = dra_available && minor_at_least 36 (en_version en))).
  { destruct dra_available; [|by apply yields_ret]. apply yields_call; [done|]. intros r ->.
    unfold minor_at_least. destruct (en_version en) as [e|v]; [by apply yields_ret|].
    destruct (parseMinor v); by apply yields_ret. }
  intros v s' [-> ->]. apply yields_get, yields_modify. unfold settled_gates.
  set (version := dra_available && _). destruct (isOpenShift s && dra_available); [|by apply yields_ret].
  apply yields_call; [done|]. intros r ->. destruct (en_featureGate en) as [e|fg].
  - destruct (negb version); [|by apply yields_ret]. by intros a [= <-].
  - destruct (scanFeatureGate fg version) as [p k]. by intros a [= <-].
Qed.

(** *** The dependencies *)

Definition is_dependency_call (c : call) : Prop :=
  match c with
  | CLister KCRD _ _ | CServerResourcesForGroupVersion _ | COperatorConfigGet _ _ | CEvent _ _ _ => True
  | _ => False
  end.
Lemma dependency_call_quiet c : is_dependency_call c → sync_quiet c.
Proof. by destruct c. Qed.

Lemma yields_checkDependencies k s :
  yields (checkDependencies k) s (λ _ s', s' = settled_gates s).
Proof.
  apply yields_bind, (yields_reads _ is_dependency_call); [|apply dependency_call_quiet|].
  { unfold frameworkDependencies, missingOperator, isOperatorAvailability, isResourceRegisteredCached, lister.
    solve_in. }
  intros missing. apply yields_bind. eapply yields_mono; [apply yields_checkDRAAPIs|]. intros b s' [-> ->].
  apply yields_bind, (yields_reads _ is_dependency_call); [|apply dependency_call_quiet|].
  { unfold draAPIDependencies, Eventf. solve_in. }
  intros missing2. apply yields_bind. eapply yields_mono; [apply yields_updateDRAGates|]. intros _ s' ->.
  apply yields_bind, (yields_reads _ is_dependency_call); [|apply dependency_call_quiet|].
  { unfold draGateDependencies, Eventf. solve_in. }
  intros missing3. by apply yields_ret.
Qed.

(** *** The issuer and the certificates *)

Lemma yields_dynApply d j s :
  d = RIssuers ∨ d = RCertificates →
  yields (ApplyUnstructuredResourceImproved d j) s
    (λ p s', near s s' ∧ en_unstructured en d j = inr p.1).
Proof.
  intros Hd. apply yields_get, yields_call; [exact Hd|]. intros [r c] [Hr Hc]. apply yields_modify.
  apply yields_of_sum. intros [e b] He. cbn in Hr, Hc, He |- *. split; [by exists c|].
  destruct (en_unstructured en d j) as [err|e']; [congruence|]. destruct Hr as [b' Hr]. congruence.
Qed.

(** [annotateHash], as a function. *)
Definition hashed (what key : string) (o : hashable) (ann : annotations) : res annotations :=
  match computeSpecHash o with
  | inl e => Err (WrapError ("failed to hash " +:+ what +:+ ": ") e)
  | inr hash => Ok (<[key := hash]> ann)
  end.
Lemma yields_annotateHash what key o ann s :
  yields (annotateHash what key o ann) s (λ ann' s', s' = s ∧ hashed what key o ann = Ok ann').
Proof.
  unfold annotateHash, hashed. destruct (computeSpecHash o); [apply yields_throw|by apply yields_ret].
Qed.

(** Applying an unstructured object and recording its hash. *)
Definition recorded (what prefix : string) (d : dyn_resource) (j : json) (ann : annotations) : res annotations :=
  match en_unstructured en d j with
  | inl e => Err e
  | inr e => hashed what (prefix +:+ json_Name e) (HJson (json_spec e)) ann
  end.
Lemma yields_recorded what prefix d j ann s :
  d = RIssuers ∨ d = RCertificates →
  yields ('(o, _) ← ApplyUnstructuredResourceImproved d j;
          annotateHash what (prefix +:+ json_Name o) (HJson (json_spec o)) ann) s
    (λ ann' s', near s s' ∧ recorded what prefix d j ann = Ok ann').
Proof.
  intros Hd. apply yields_bind. eapply yields_mono; [by apply yields_dynApply|]. intros [o b] s' [Hs Ho].
  cbn in Ho. unfold recorded. rewrite Ho. eapply yields_mono; [apply yields_annotateHash|].
  by intros ann' s'' [-> ?].
Qed.

Lemma same_intent_CRs ns k : same_intent kueue k →
  issuerCR ns k = issuerCR ns kueue ∧ ∀ d, certificateCR ns k d = certificateCR ns kueue d.
Proof.
  intros (_ & Hn & Hu). unfold issuerCR, certificateCR, json_metadata, json_owner. by rewrite Hn, Hu.
Qed.

Definition issuer_annotation (ns : string) (ann : annotations) : res annotations :=
  recorded "Issuer spec" "issuer/" RIssuers (issuerCR ns kueue) ann.
Lemma yields_manageIssuer k ann s :
  same_intent kueue k →
  yields (manageIssuer k ann) s
    (λ ann' s', near s s' ∧ issuer_annotation (operatorNamespace s) ann = Ok ann').
Proof.
  intros Hk. unfold manageIssuer, manageIssuerCR, issuer_annotation.
  rewrite <-(proj1 (same_intent_CRs _ _ Hk)). by apply (yields_recorded "Issuer spec" "issuer/"); left.
Qed.

Definition certificate_annotations (ns : string) (ann : annotations) : res annotations :=
  res_fold (λ ann d, recorded "Certificate spec" "certificate/" RCertificates (certificateCR ns kueue d) ann)
    ann (certificateData ns).
Lemma yields_manageCertificates k ann s :
  same_intent kueue k →
  yields (manageCertificates k ann) s
    (λ ann' s', near s s' ∧ certificate_annotations (operatorNamespace s) ann = Ok ann').
Proof.
  intros Hk. apply yields_get. unfold certificate_annotations.
  apply (yields_mfold _ _ _ (near s)); [apply near_refl|]. intros ann' d s1 Hs1.
  assert (operatorNamespace s1 = operatorNamespace s) as <- by (by destruct Hs1 as (c & -> & _)).
  rewrite <-(proj2 (same_intent_CRs _ _ Hk)).
  eapply (yields_mono _ _ _ (λ ann2 s2, near s1 s2 ∧ _)).
  - by apply (yields_recorded "Certificate spec" "certificate/"); right.
  - intros ann2 s2 [Hs2 Hr]. split; [by eapply near_trans|exact Hr].
Qed.

Lemma yields_waitForCertificates s : yields waitForCertificates s (λ _ s', s' = s).
Proof.
  apply (yields_reads _ is_wait_call); [|by intros []|done].
  unfold waitForCertificates. apply inM_bind_get. intros s' <-.
  assert (∀ name, inM (eq s) is_wait_call
    (WaitForCertificateReady (S := TCR) certificateFuel (operatorNamespace s) name (2 * Minute))) as Hw.
  { intros name. unfold WaitForCertificateReady, now. apply inM_bind; [by apply inM_call|]. intros t.
    generalize certificateFuel. intros fuel. induction fuel as [|fuel IH]; cbn [waitLoop].
    - intros s' _. split; [done|]. intros [].
    - unfold now, sleep, checkCertificate, dyn_get. solve_in. }
  cbv zeta. solve_in; apply Hw.
Qed.

(** *** The TLS profile *)

(** The result of [resolveTLS] when there is one. *)
Definition tls_result (openshift : bool) (t : option (option Config.TLSOptions)) : Prop :=
  if negb openshift then t = Some None
  else ∃ profile, en_tlsProfile en = inr profile ∧
    match TLSOptionsFromProfile profile with
    | Ok (opts, _, _) => t = Some (Some opts)
    | Err _ => t = None
    | Panic _ => False
    end.
Lemma tls_result_unique b t t' : tls_result b t → tls_result b t' → t = t'.
Proof.
  unfold tls_result. destruct b; cbn; [|congruence]. intros (p & -> & Ht) (p' & [= <-] & Ht').
  destruct (TLSOptionsFromProfile p) as [[[o u] g]|e|m]; [congruence..|done].
Qed.

Lemma yields_updateKueueStatus k conditions n s :
  yields (updateKueueStatus k conditions n) s (λ _ s', s' = s).
Proof.
  apply (yields_reads _ is_status_call); [|by intros []|done]. by apply updateKueueStatus_inM.
Qed.

Lemma yields_resolveTLS k s :
  yields (resolveTLS k) s (λ t s', s' = s ∧ tls_result (isOpenShift s) t).
Proof.
  apply yields_get. unfold tls_result. destruct (isOpenShift s); cbn [negb]; [|by apply yields_ret].
  apply yields_bind, yields_call; [done|]. intros r ->. destruct (en_tlsProfile en) as [e|profile]; [apply yields_throw|].
  apply yields_ret, yields_bind, yields_try_of_res.
  destruct (TLSOptionsFromProfile profile) as [[[opts u] g]|e|m] eqn:E; [| |done].
  - apply yields_bind, (yields_reads _ is_dependency_call); [|apply dependency_call_quiet|].
    { unfold Warningf. solve_in. }
    intros _. apply yields_bind, (yields_reads _ is_dependency_call); [|apply dependency_call_quiet|].
    { unfold Warningf. solve_in. }
    intros _. apply yields_ret. split; [done|]. exists profile. by rewrite E.
  - apply yields_call; [done|]. intros [] _. apply yields_bind.
    eapply yields_mono; [apply yields_updateKueueStatus|]. intros _ s' ->. apply yields_ret.
    split; [done|]. exists profile. by rewrite E.
Qed.

(** *** Up to the operand *)

Definition live_annotations (ns : string) (ann : annotations) : res annotations :=
  rlet ann := issuer_annotation ns ann in certificate_annotations ns ann.

(** What the steps of [syncLive] lead to: the operand's arguments. *)
Definition prepared (s : TCR) (ann : annotations) (s' : TCR) (k : Kueue) (ann' : annotations)
    (t : option (option Config.TLSOptions)) : Prop :=
  near s s' ∧ settled_kueue kueue k ∧ live_annotations (operatorNamespace s) ann = Ok ann' ∧
  tls_result (isOpenShift s) t.

Lemma near_config s s' : near s s' → operatorNamespace s' = operatorNamespace s ∧ isOpenShift s' = isOpenShift s.
Proof. by intros (c & -> & _). Qed.

Lemma yields_syncLive k owner dep ann s Q :
  same_intent kueue k →
  (∀ s' k' ann' t, prepared s ann s' k' ann' t →
     match t with None => Q tt s' | Some tls => yields (syncOperand k' tls owner dep ann') s' Q end) →
  yields (syncLive k owner dep ann) s Q.
Proof.
  intros Hk HQ. apply yields_bind. eapply yields_mono; [by apply yields_manageIssuer|]. intros a1 s1 [H1 Ha1].
  apply yields_bind. eapply yields_mono; [by apply yields_manageCertificates|]. intros a2 s2 [H2 Ha2].
  apply yields_bind. eapply yields_mono; [apply yields_waitForCertificates|]. intros _ s3 ->.
  apply yields_bind. eapply yields_mono; [apply yields_rereadKueue|]. intros k' s3 [-> Hk'].
  apply yields_bind. eapply yields_mono; [apply yields_resolveTLS|]. intros t s3 [-> Ht].
  destruct (near_config _ _ H1) as [Hn1 _]. pose proof (near_trans _ _ _ H1 H2) as H12.
  destruct (near_config _ _ H12) as [_ Ho]. rewrite Hn1 in Ha2. rewrite Ho in Ht.
  specialize (HQ s2 k' a2 t). unfold prepared, live_annotations in HQ. rewrite Ha1 in HQ. cbn [res_bind] in HQ.
  specialize (HQ (conj H12 (conj Hk' (conj Ha2 Ht)))). destruct t as [tls|]; [exact HQ|by apply yields_ret].
Qed.

Lemma runs_syncLive k owner dep ann s tr s1 :
  same_intent kueue k →
  runs (syncLive k owner dep ann s) tr (Some (s1, Ok tt)) → sync_answered en tr →
  ∃ s' k' ann' t, prepared s ann s' k' ann' t ∧
    match t with
    | None => s1 = s'
    | Some tls => ∃ tr', runs (syncOperand k' tls owner dep ann' s') tr' (Some (s1, Ok tt)) ∧ sync_answered en tr'
    end.
Proof.
  intros Hk Hr Ha.
  destruct (yields_first _ _ _ _ _ _ _ _ (yields_manageIssuer _ _ _ Hk) Hr Ha) as (a1 & s2 & tr2 & [H1 Ha1] & Hr2 & Ht2).
  destruct (yields_first _ _ _ _ _ _ _ _ (yields_manageCertificates _ _ _ Hk) Hr2 Ht2) as (a2 & s3 & tr3 & [H2 Ha2] & Hr3 & Ht3).
  destruct (yields_first _ _ _ _ _ _ _ _ (yields_waitForCertificates _) Hr3 Ht3) as (u & s4 & tr4 & -> & Hr4 & Ht4).
  destruct (yields_first _ _ _ _ _ _ _ _ (yields_rereadKueue _) Hr4 Ht4) as (k' & s4 & tr5 & [-> Hk'] & Hr5 & Ht5).
  destruct (yields_first _ _ _ _ _ _ _ _ (yields_resolveTLS _ _) Hr5 Ht5) as (t & s4 & tr6 & [-> Ht] & Hr6 & Ht6).
  destruct (near_config _ _ H1) as [Hn1 _]. pose proof (near_trans _ _ _ H1 H2) as H12.
  destruct (near_config _ _ H12) as [_ Ho]. rewrite Hn1 in Ha2. rewrite Ho in Ht.
  exists s3, k', a2, t. split.
  - unfold prepared, live_annotations. rewrite Ha1. done.
  - destruct t; [eauto|]. by apply runs_ret_inv in Hr6 as [_ [= ->]].
Qed.

(** *** The whole reconciliation *)

Definition generation_annotation (k : Kueue) : annotations :=
  {["kueueoperator.kueue.openshift.io/cluster" := FormatInt (om_Generation (ku_ObjectMeta k))]}.

Lemma settled_owner k : settled_kueue kueue k →
  kueueOwnerReference k = kueueOwnerReference kueue ∧ generation_annotation k = generation_annotation kueue.
Proof.
  intros [(_ & Hn & Hu) Hg _ _]. unfold kueueOwnerReference, generation_annotation. by rewrite Hn, Hu, Hg.
Qed.

(** With a settled resource [syncInstalled] goes on to [syncLive]. *)
Lemma syncInstalled_settled k dep :
  settled_kueue kueue k →
  (let ann : annotations := generation_annotation k in
   (λ k', match om_DeletionTimestamp (ku_ObjectMeta k') with
          | Some _ => finalizeKueue k'
          | None => syncLive k' (kueueOwnerReference k) dep
                      {["kueueoperator.kueue.openshift.io/cluster" := FormatInt (om_Generation (ku_ObjectMeta k'))]}
          end) k = syncLive k (kueueOwnerReference kueue) dep (generation_annotation kueue)) ∧
  addFinalizerToKueueInstance (S := TCR) k = mret k.
Proof.
  intros Hk. destruct (settled_owner _ Hk) as [Ho Hg]. destruct Hk as [_ _ Hf Hd]. split.
  - cbv zeta beta. rewrite Hd, Ho. unfold generation_annotation in Hg. by rewrite Hg.
  - unfold addFinalizerToKueueInstance, updateFinalizer. by rewrite Hf.
Qed.

Lemma yields_reportCertManagerMissing k s : yields (reportCertManagerMissing k) s (λ _ s', s' = s).
Proof.
  apply (yields_reads _ (λ c, is_status_call c ∨ is_dependency_call c)); [|by intros [] []|done].
  unfold reportCertManagerMissing, Eventf. apply inM_bind; [apply inM_call; by right|]. intros [].
  apply inM_bind; [|intros r; apply inM_ret]. apply inM_try, updateKueueStatus_inM. by left.
Qed.

Lemma yields_sync s Q :
  (cert_manager_found = false → Q tt s) →
  (∀ k dep, cert_manager_found = true → settled_kueue kueue k →
     yields (syncLive k (kueueOwnerReference kueue) dep (generation_annotation kueue)) (settled_gates s) Q) →
  yields sync s Q.
Proof.
  intros Hno Hyes. apply yields_bind. eapply yields_mono; [apply yields_readKueue|].
  intros r s' (-> & k & -> & Hk). apply yields_bind. eapply yields_mono; [apply yields_cert_manager|].
  intros b s' [-> ->]. destruct cert_manager_found; cbn [negb].
  - apply yields_bind. eapply yields_mono; [apply yields_checkDependencies|]. intros dep s' ->. cbv zeta.
    destruct (syncInstalled_settled k dep Hk) as [Hl ->]. apply (yields_bind _ (mret k)), yields_ret.
    cbv zeta beta in Hl. rewrite Hl. by apply Hyes.
  - eapply yields_mono; [apply yields_reportCertManagerMissing|]. intros [] s' ->. by apply Hno.
Qed.

Lemma runs_sync s tr s1 :
  runs (sync s) tr (Some (s1, Ok tt)) → sync_answered en tr →
  (cert_manager_found = false ∧ s1 = s) ∨
  (cert_manager_found = true ∧ ∃ k dep tr', settled_kueue kueue k ∧ sync_answered en tr' ∧
     runs (syncLive k (kueueOwnerReference kueue) dep (generation_annotation kueue) (settled_gates s)) tr' (Some (s1, Ok tt))).
Proof.
  intros Hr Ha.
  destruct (yields_first _ _ _ _ _ _ _ _ (yields_readKueue _) Hr Ha) as (r & s2 & tr2 & (-> & k & -> & Hk) & Hr2 & Ht2).
  destruct (yields_first _ _ _ _ _ _ _ _ (yields_cert_manager _) Hr2 Ht2) as (b & s3 & tr3 & [-> ->] & Hr3 & Ht3).
  destruct cert_manager_found; cbn [negb] in Hr3.
  - right. split; [done|].
    destruct (yields_first _ _ _ _ _ _ _ _ (yields_checkDependencies _ _) Hr3 Ht3) as (dep & s4 & tr4 & -> & Hr4 & Ht4).
    cbv zeta in Hr4. destruct (syncInstalled_settled k dep Hk) as [Hl Hf]. rewrite Hf in Hr4.
    destruct (yields_first _ (mret k) _ _ (λ a s', a = k ∧ s' = settled_gates s) _ _ _ (yields_ret _ _ _ _ (conj eq_refl eq_refl)) Hr4 Ht4)
      as (a & s5 & tr5 & [-> ->] & Hr5 & Ht5).
    cbv zeta beta in Hl. rewrite Hl in Hr5. eauto 10.
  - left. split; [done|]. by apply (yields_end _ _ _ _ _ _ _ (yields_reportCertManagerMissing _ _) Hr3 Ht3).
Qed.

(** The second installation of the operand, from what the first has left. *)
Lemma yields_operand_again k k2 tls owner dep dep2 ann s s1 s2 tr :
  well_stored (en_cluster en) → manifests_typed → NoDup (operandKeys s) →
  Forall (λ key, ¬ for_cert_manager key) (operandKeys s) → same_intent k k2 →
  runs (syncOperand k tls owner dep ann s) tr (Some (s1, Ok tt)) → sync_answered en tr →
  near s1 s2 →
  yields (syncOperand k2 tls owner dep2 ann) s2 (λ _ s', s' = s2) ∧ ∃ c, s1 = tcr_set_resourceCache c s.
Proof.
  intros Hcl Hty Hnd Hkeys Hk Hr Ha (c2 & -> & Hc2).
  replace s with (tcr_set_resourceCache (resourceCache s) s) in Hr by by destruct s.
  assert (answered (en_cluster en) tr) as Ha'.
  { eapply Forall_impl; [exact Ha|]. intros [c r]. apply sync_answers_answers. }
  destruct (steady_syncOperand (en_cluster en) s Hcl Hty owner k k2 tls dep dep2 ann Hk Hnd _ _ _ _ Hr Ha'
    ltac:(discriminate)) as (c' & -> & _ & Hq).
  split; [|by eexists]. eapply awp_mono.
  2:{ eapply awp_weaken; [apply quiet_sync_quiet|apply sync_answers_answers|]. apply (Hq c2).
      intros key Hkey. cbn in Hc2. apply Hc2. rewrite Forall_forall in Hkeys. by apply Hkeys. }
  intros [s' r] [Hs' _] a _. exact Hs'.
Qed.
End steps.

Lemma settled_same_intent kueue k k2 : settled_kueue kueue k → settled_kueue kueue k2 → same_intent k k2.
Proof. intros [(Hs & Hn & Hu) _ _ _] [(Hs2 & Hn2 & Hu2) _ _ _]. split_and!; congruence. Qed.

(** C11: Reconciling an unchanged cluster again is quiet. After a reconciliation
    that succeeded, from any state of the receiver, the next one makes no
    write that the resource cache covers, provided the cluster has settled:
    the Kueue resource is as it was (its status may differ), every write was
    answered with the object that is already stored, and what is read stays
    the same. It creates and deletes nothing, patches nothing, and applies
    only what never goes through the cache or is decided there: the API
    services, the ServiceMonitor, the objects built in Go, the flow schema (by
    an update, when it differs from what was read), and cert-manager's objects. Where it succeeds the receiver is unchanged, but for the entries
    of the issuer and the certificates in the cache. The manifests of the
    operand have distinct keys, none of them cert-manager's. *)
Theorem sync_steady `{Env} (en : environment) (s s1 : TCR) tr tr2 o2 :
  well_stored (en_cluster en) → manifests_typed → NoDup (operandKeys s) →
  Forall (λ key, ¬ for_cert_manager key) (operandKeys s) →
  runs (sync s) tr (Some (s1, Ok tt)) → sync_answered en tr →
  runs (sync s1) tr2 o2 → sync_answered en tr2 →
  Forall (sync_quiet en ∘ ev_call) tr2 ∧ ∀ s2, o2 = Some (s2, Ok tt) → near s1 s2.
Proof.
  intros Hcl Hty Hnd Hkeys Hr Ha Hr2 Ha2.
  assert (yields en sync s1 (λ _ s2, near s1 s2)) as Hy.
  2:{ destruct (awp_runs _ _ _ _ _ _ Hr2 Ha2 Hy) as [Hq HQ]. split; [exact Hq|]. intros s2 ->. exact (HQ _ eq_refl tt eq_refl). }
  destruct (runs_sync en s tr s1 Hr Ha) as [[Hno ->]|(Hfound & k & dep & tr' & Hk & Ha' & Hr')].
  { apply yields_sync; [intros _; apply near_refl|congruence]. }
  apply yields_sync; [congruence|]. intros k2 dep2 _ Hk2.
  destruct (runs_syncLive en k _ _ _ _ _ _ (sk_intent _ _ Hk) Hr' Ha')
    as (s' & k' & ann' & t & (Hs' & Hk' & Hann & Ht) & Hrest).
  rewrite <-(gates_keys en) in Hnd, Hkeys.
  assert (∃ c, s1 = tcr_set_resourceCache c (settled_gates en s)) as [c ->].
  { destruct Hs' as (c & -> & _). destruct t as [tls|]; [|by eexists].
    destruct Hrest as (tr'' & Hro & Hao).
    destruct (yields_operand_again en k' k' tls _ _ dep ann' (tcr_set_resourceCache c (settled_gates en s)) _ _ _
      Hcl Hty Hnd Hkeys (settled_same_intent _ _ _ Hk' Hk') Hro Hao (near_refl _)) as [_ [c1 ->]].
    by exists c1. }
  rewrite gates_cache, gates_idemp. set (s1 := tcr_set_resourceCache c (settled_gates en s)) in *.
  apply yields_syncLive; [exact (sk_intent _ _ Hk2)|]. intros s2 k3 ann2 t2 (Hs2 & Hk3 & Hann2 & Ht2).
  assert (operatorNamespace s1 = operatorNamespace (settled_gates en s) ∧ isOpenShift s1 = isOpenShift (settled_gates en s))
    as [Hns Hos] by done.
  rewrite Hns, Hann in Hann2. injection Hann2 as <-. rewrite Hos in Ht2.
  rewrite <-(tls_result_unique _ _ _ _ Ht Ht2). destruct t as [tls|]; [|exact Hs2].
  destruct Hrest as (tr'' & Hro & Hao). eapply yields_mono.
  - destruct Hs' as (c' & -> & _).
    by apply (yields_operand_again en k' k3 tls _ _ dep2 ann' (tcr_set_resourceCache c' (settled_gates en s)) _ s2 _ Hcl Hty Hnd Hkeys
      (settled_same_intent _ _ _ Hk' Hk3) Hro Hao Hs2).
  - by intros _ s3 ->.
Qed.

(** ** Concrete instances *)

#[local] Existing Instance example_env.

Definition example_environment : environment := {|
  en_cluster := example_settled;
  en_kueue := example_kueue [KueueFinalizer];
  en_unstructured d j := inr j;
  en_version := inr "36+";
  en_featureGate := inr example_feature_gate;
  en_tlsProfile := inr None |}.

(** The key of an unstructured object of cert-manager. *)
Definition example_key (j : json) : cachedVersionKey := {|
  ck_name := json_Name j; ck_namespace := json_Namespace j; ck_kind := "Certificate"; ck_group := groupCertManager |}.

(** The settled server with what [sync] asks for before the operand. *)
Definition settled_sync_server : handler unit := λ w c,
  match c as c return option (resp c * unit) with
  | CCacheGetKueue _ => Some (inr (Some (Some (example_kueue [KueueFinalizer]))), tt)
  | CDynApply d j cache => Some ((inr (j, true), <[example_key j := ("hash", "7")]> cache), tt)
  | CDynGet RCertificates _ _ => Some (inr example_certificate, tt)
  | CDynGet _ _ _ => Some (inr example_secret, tt)
  | CServerVersion => Some (inr "36+", tt)
  | CFeatureGateGet _ => Some (inr example_feature_gate, tt)
  | CAPIServerGet _ => Some (inr None, tt)
  | COperatorConfigGet _ _ => Some (None, tt)
  | c => settled_server w c
  end.

Lemma settled_sync_server_answered {A} (p : prog A) tr o :
  run settled_sync_server p tt = (tr, o, tt) → sync_answered example_environment tr.
Proof.
  intros Hr. eapply Forall_impl; [exact (run_answers _ _ _ _ _ _ Hr)|]. intros [c r] (w1 & w2 & Ha).
  assert (settled_server w1 c = Some (r, w2) → answers example_settled c r) as Hs.
  { apply settled_server_answers. }
  destruct c; try exact (Hs Ha).
  all: cbn in Ha; try (injection Ha as <- <-); cbn [sync_answers]; try done.
  - eexists. split; [done|]. by split.
  - split; [by eexists|]. intros key Hk. apply lookup_insert_ne. intros <-. by apply Hk.
Qed.

(** The first reconciliation applies; the second leaves out what the cache
    covers. *)
Example sync_steady_runs :
  let '(tr, o, _) := run settled_sync_server (sync example_tcr) tt in
  match o with
  | Some (s1, r) =>
      let '(tr2, o2, _) := run settled_sync_server (sync s1) tt in
      (r, snd <$> o2, length tr, length tr2)
  | None => (Panic "", None, 0, 0)
  end = (Ok tt, Some (Ok tt), 80, 58).
Proof. vm_compute. reflexivity. Qed.

Lemma sync_steady_witness :
  ∃ tr tr2 s1 s2, runs (sync example_tcr) tr (Some (s1, Ok tt)) ∧ length tr = 80 ∧
    runs (sync s1) tr2 (Some (s2, Ok tt)) ∧ length tr2 = 58 ∧
    Forall (sync_quiet example_environment ∘ ev_call) tr2 ∧ near s1 s2.
Proof.
  pose proof sync_steady_runs as H.
  destruct (run settled_sync_server (sync example_tcr) tt) as [[tr o] []] eqn:E.
  destruct o as [[s1 r]|]; [|discriminate H].
  destruct (run settled_sync_server (sync s1) tt) as [[tr2 o2] []] eqn:E2.
  destruct o2 as [[s2 r2]|]; [|discriminate H]. injection H as -> -> Hl Hl2.
  pose proof (run_runs _ _ _ _ _ _ E) as Hr. pose proof (run_runs _ _ _ _ _ _ E2) as Hr2.
  assert (manifests_typed) as Hty by (by intros k path o [= <-]).
  assert (NoDup (operandKeys example_tcr)) as Hnd by (apply (bool_decide_unpack _); vm_compute; exact I).
  assert (Forall (λ key, ¬ for_cert_manager key) (operandKeys example_tcr)) as Hkeys.
  { vm_compute. repeat (constructor; [discriminate|]). constructor. }
  destruct (sync_steady example_environment example_tcr s1 tr tr2 _ example_settled_well_stored Hty Hnd Hkeys
    Hr (settled_sync_server_answered _ _ _ E) Hr2 (settled_sync_server_answered _ _ _ E2)) as [Hq Hs].
  exists tr, tr2, s1, s2. split_and!; [exact Hr|exact Hl|exact Hr2|exact Hl2|exact Hq|exact (Hs _ eq_refl)].
Defined.
