(* ===== verification/OperatorClient.v ===== *)
(** * The operator client

    [pkg/operator/operatorclient/interfaces.go]: the [OperatorClient] that
    library-go's controllers use on the Kueue resource. *)
From S2P Require Import Prelude GoStd K8s ApiTypes DraHelpers ConfigMap TlsProfile K8sObjects.
From S2P Require Import Effects Monad Cert Finalizer Reconciler Discovery Conditions CachedApply.
From S2P Require Import Cleanup Manage Sync.

(** The data of the client. The methods below get the context and the client
    of the resource as calls. *)
Record KueueClient {Context SharedIndexInformer KueueV1Interface : Type} := {
  kuc_Ctx : Context;
  kuc_SharedInformer : SharedIndexInformer;
  kuc_OperatorClient : KueueV1Interface;
}.
Definition KueueClient_Informer {C I O} (c : @KueueClient C I O) : I := kuc_SharedInformer c.

(** ** Reads and updates *)

Definition kueue_set_OperatorSpec (s : OperatorSpec) (k : Kueue) : Kueue := {|
  ku_ObjectMeta := ku_ObjectMeta k;
  ku_Spec := {| ks_OperatorSpec := s; ks_Config := ks_Config (ku_Spec k) |};
  ku_Status := ku_Status k |}.
Definition kueue_set_OperatorStatus (s : OperatorStatus) (k : Kueue) : Kueue := {|
  ku_ObjectMeta := ku_ObjectMeta k; ku_Spec := ku_Spec k;
  ku_Status := {| kst_OperatorStatus := s |} |}.
Definition kueue_set_ResourceVersion (v : string) (k : Kueue) : Kueue :=
  kueue_set_meta (meta_set_ResourceVersion v (ku_ObjectMeta k)) k.

Section client.
Context `{Env} {S : Type}.

Definition GetOperatorState : M S (OperatorSpec * OperatorStatus * string) :=
  instance ← kueue_get OperatorConfigName;
  mret (ks_OperatorSpec (ku_Spec instance), kst_OperatorStatus (ku_Status instance),
        om_ResourceVersion (ku_ObjectMeta instance)).

Definition GetOperatorStateWithQuorum : M S (OperatorSpec * OperatorStatus * string) :=
  GetOperatorState.

(** Does nothing and reports success. *)
Definition PatchOperatorStatus (patch : json) : M S unit := mret tt.

Definition GetObjectMeta : M S ObjectMeta :=
  instance ← kueue_get OperatorConfigName; mret (ku_ObjectMeta instance).

Definition UpdateOperatorSpec (resourceVersion : string) (spec : OperatorSpec)
    : M S (OperatorSpec * string) :=
  original ← kueue_get OperatorConfigName;
  let copy := kueue_set_OperatorSpec spec (kueue_set_ResourceVersion resourceVersion original) in
  r ← mcall (CKueueUpdate copy);
  ret ← of_sum r;
  mret (ks_OperatorSpec (ku_Spec ret), om_ResourceVersion (ku_ObjectMeta ret)).

Definition UpdateOperatorStatus (resourceVersion : string) (status : OperatorStatus)
    : M S OperatorStatus :=
  original ← kueue_get OperatorConfigName;
  let copy := kueue_set_OperatorStatus status (kueue_set_ResourceVersion resourceVersion original) in
  r ← mcall (CKueueUpdateStatus copy);
  ret ← of_sum r;
  mret (kst_OperatorStatus (ku_Status ret)).

(** ** Server-side apply *)

Definition ApplyOperatorSpec (fieldManager : string) (desiredConfiguration : option json) : M S unit :=
  match desiredConfiguration with
  | None => throw (ErrorString "applyConfiguration must have a value")
  | Some desiredSpec =>
      let desired := {| kac_Name := OperatorConfigName; kac_Spec := Some desiredSpec; kac_Status := None |} in
      let apply :=
        r ← mcall (CKueueApply desired true fieldManager);
        match r with
        | Some err => throw (WrapError ("unable to Apply for operator using fieldManager " +:+
                                        Quote fieldManager +:+ ": ") err)
        | None => mret tt
        end in
      r ← try (kueue_get OperatorConfigName);
      match r with
      | inl err =>
          if IsNotFound err then apply
          else throw (WrapError "unable to get operator configuration: " err)
      | inr instance =>
          match ExtractKueue instance fieldManager with
          | inl err => throw (WrapError "unable to extract operator configuration from spec: " err)
          | inr original => if bool_decide (original = desired) then mret tt else apply
          end
      end
  end.

Definition status_set_Conditions (cs : list OperatorConditionApply) (s : KueueStatusApply)
    : KueueStatusApply :=
  {| ksa_Conditions := cs; ksa_ReadyReplicas := ksa_ReadyReplicas s; ksa_other := ksa_other s |}.

(** The transition times are filled in after the comparison. *)
Definition ApplyOperatorStatus (fieldManager : string) (desiredConfiguration : option KueueStatusApply)
    : M S unit :=
  match desiredConfiguration with
  | None => throw (ErrorString "applyConfiguration must have a value")
  | Some desiredStatus =>
      let desired s := {| kac_Name := OperatorConfigName; kac_Spec := None; kac_Status := Some s |} in
      let apply old :=
        t ← now;
        r ← mcall (CKueueApplyStatus (desired (status_set_Conditions
              (SetApplyConditionsLastTransitionTime t (ksa_Conditions desiredStatus) old)
              desiredStatus)) true fieldManager);
        match r with
        | Some err => throw (WrapError ("unable to ApplyStatus for operator using fieldManager " +:+
                                        Quote fieldManager +:+ ": ") err)
        | None => mret tt
        end in
      r ← try (kueue_get OperatorConfigName);
      match r with
      | inl err =>
          if IsNotFound err then apply []
          else throw (WrapError "unable to get operator configuration: " err)
      | inr instance =>
          match ExtractKueueStatus instance fieldManager with
          | inl err => throw (WrapError "unable to extract operator configuration from status: " err)
          | inr original =>
              if bool_decide (original = desired desiredStatus) then mret tt
              else apply (match kac_Status original with Some st => ksa_Conditions st | None => [] end)
          end
      end
  end.
End client.

(** ** Properties *)

(** Two facts of one answered call after the other, in a completed run. *)
Lemma kueue_get_runs {S B} (f : Kueue → M S B) (s : S) n tr p :
  runs ((kueue_get n ≫= f) s) tr (Some p) →
  ∃ r tr', tr = Ev (CKueueGet n) r :: tr' ∧
    match r with
    | inl e => tr' = [] ∧ p = (s, Err e)
    | inr k => runs (f k s) tr' (Some p)
    end.
Proof.
  intros Hr. apply runs_vis_inv in Hr as (r & tr' & -> & Hr). exists r, tr'. split; [done|].
  destruct r as [e|k]; [|exact Hr]. by apply runs_ret_inv in Hr.
Qed.

(** Updating the operator spec writes the resource that was just read with
    only the operator spec and the caller's resource version changed, so a
    stale version is refused by the server and the configuration cannot be
    lost; the result is what the server returned. *)
Theorem UpdateOperatorSpec_spec {S} rv spec (s s' : S) tr r :
  runs (UpdateOperatorSpec rv spec s) tr (Some (s', r)) →
  s' = s ∧ ((∃ e, tr = [Ev (CKueueGet OperatorConfigName) (inl e)] ∧ r = Err e) ∨
  ∃ original copy a, tr = [Ev (CKueueGet OperatorConfigName) (inr original); Ev (CKueueUpdate copy) a] ∧
    ks_OperatorSpec (ku_Spec copy) = spec ∧ om_ResourceVersion (ku_ObjectMeta copy) = rv ∧
    ks_Config (ku_Spec copy) = ks_Config (ku_Spec original) ∧ ku_Status copy = ku_Status original ∧
    om_Finalizers (ku_ObjectMeta copy) = om_Finalizers (ku_ObjectMeta original) ∧
    match a with
    | inl e => r = Err e
    | inr ret => r = Ok (ks_OperatorSpec (ku_Spec ret), om_ResourceVersion (ku_ObjectMeta ret))
    end).
Proof.
  intros Hr. apply kueue_get_runs in Hr as (a & tr' & -> & Hr). destruct a as [e|original].
  { destruct Hr as [-> [= -> ->]]. split; [done|]. left. by exists e. }
  cbv zeta in Hr. apply runs_vis_inv in Hr as (a & tr2 & -> & Hr).
  assert (tr2 = [] ∧ s' = s ∧ match a with
    | inl e => r = Err e
    | inr ret => r = Ok (ks_OperatorSpec (ku_Spec ret), om_ResourceVersion (ku_ObjectMeta ret)) end)
    as (-> & -> & Ha).
  { destruct a as [e|ret]; apply runs_ret_inv in Hr as [-> [= -> ->]]; done. }
  split; [done|]. right. eexists original, _, a. split; [reflexivity|]. by split_and!.
Qed.

(** The status apply never skips: the comparison comes before the
    transition times are filled in, so as soon as the desired status has a
    condition without a time, while every stored condition has one, every
    successful apply writes the status again, although nothing changed. *)
Theorem ApplyOperatorStatus_never_skips `{Env} {S} fm (status : KueueStatusApply) (s s' : S) tr :
  (∀ instance original st c, ExtractKueueStatus instance fm = inr original →
     kac_Status original = Some st → c ∈ ksa_Conditions st → ca_LastTransitionTime c ≠ None) →
  (∃ c, c ∈ ksa_Conditions status ∧ ca_LastTransitionTime c = None) →
  runs (ApplyOperatorStatus fm (Some status) s) tr (Some (s', Ok tt)) →
  ∃ cfg a, Ev (CKueueApplyStatus cfg true fm) a ∈ tr.
Proof.
  intros Ht (c0 & Hc0 & Hn) Hr.
  assert (Happly : ∀ (old : list OperatorConditionApply) (desired : KueueStatusApply → KueueApply) h,
    wpM (S := S) (λ _ _, True)
      (t ← now;
       r ← mcall (CKueueApplyStatus (desired (status_set_Conditions
             (SetApplyConditionsLastTransitionTime t (ksa_Conditions status) old) status)) true fm);
       match r with
       | Some err => throw (WrapError ("unable to ApplyStatus for operator using fieldManager " +:+
                                       Quote fm +:+ ": ") err)
       | None => mret tt
       end) s h (λ h' _ r, r = Ok tt → ∃ cfg a, Ev (CKueueApplyStatus cfg true fm) a ∈ h')).
  { intros old desired h. unfold now. apply wpM_bind, wpM_call; [done|]. intros t.
    apply wpM_bind, wpM_call; [done|]. intros [e|]; [done|]. intros _. eexists _, _. apply elem_of_last. }
  assert (wpM (λ _ _, True) (ApplyOperatorStatus fm (Some status)) s []
    (λ h' _ r, r = Ok tt → ∃ cfg a, Ev (CKueueApplyStatus cfg true fm) a ∈ h')) as Hwp.
  { unfold ApplyOperatorStatus, kueue_get. cbv zeta.
    apply wpM_bind, wpM_try, (wpM_call_sum _ (CKueueGet _) (λ r, r)); [done|]. intros [e|instance].
    { destruct (IsNotFound e); [|done]. exact (Happly [] (λ st, {| kac_Name := OperatorConfigName;
        kac_Spec := None; kac_Status := Some st |}) _). }
    destruct (ExtractKueueStatus instance fm) as [e|original] eqn:Hx; [done|].
    rewrite bool_decide_false.
    { exact (Happly _ (λ st, {| kac_Name := OperatorConfigName; kac_Spec := None;
        kac_Status := Some st |}) _). }
    intros ->.
    exact (Ht instance _ status c0 Hx eq_refl Hc0 Hn). }
  destruct (wp_runs _ _ _ _ [] _ Hr Hwp) as [_ Hq]. by apply (Hq _ eq_refl).
Qed.

(** ** Concrete instances *)

Lemma UpdateOperatorSpec_spec_witness :
  ∃ tr r, runs (UpdateOperatorSpec "7" (ks_OperatorSpec (ku_Spec (example_kueue []))) tt) tr (Some (tt, r)) ∧
    length tr = 1.
Proof.
  set (e := StatusError StatusReasonNotFound 404 "cluster").
  assert (runs (UpdateOperatorSpec "7" (ks_OperatorSpec (ku_Spec (example_kueue []))) tt)
    [Ev (CKueueGet OperatorConfigName) (inl e)] (Some (tt, Err e))) as Hr.
  { apply (runs_vis (CKueueGet OperatorConfigName) _ (inl e)). apply runs_ret. }
  destruct (UpdateOperatorSpec_spec _ _ _ _ _ _ Hr) as [_ _].
  eexists _, _. split; [exact Hr|reflexivity].
Defined.

Definition example_status : KueueStatusApply := {|
  ksa_Conditions := [condition "Available" "True" "AsExpected" ""]; ksa_ReadyReplicas := None;
  ksa_other := JNull |}.

Lemma ApplyOperatorStatus_never_skips_witness :
  let env := example_env in
  ∃ tr cfg a, runs (ApplyOperatorStatus "m" (Some example_status) tt) tr (Some (tt, Ok tt)) ∧
    Ev (CKueueApplyStatus cfg true "m") a ∈ tr.
Proof.
  cbv zeta.
  destruct (run (example_cluster (example_kueue []) true)
    (@ApplyOperatorStatus example_env unit "m" (Some example_status) tt) 0%Z) as [[tr o] w] eqn:E.
  pose proof (run_runs _ _ _ _ _ _ E) as Hr. vm_compute in E. injection E as <- <- <-.
  edestruct (@ApplyOperatorStatus_never_skips example_env unit "m" example_status tt tt)
    as (cfg & a & Ha); [| |exact Hr|].
  - intros instance original st c [= <-] [=].
  - exists (condition "Available" "True" "AsExpected" ""). split; [constructor|reflexivity].
  - eexists _, cfg, a. split; [exact Hr|exact Ha].
Defined.
