(* ===== verification/Builders.v ===== *)
(** * The apply configurations that the operator sends

    [updateKueueStatus] and the operator client build their apply
    configurations with the methods of [ApplyConfig]; [Conditions] and
    [OperatorClient] send a [KueueApply], which keeps the name, the spec and the
    status. Here the chains of calls of the code are written out and related to
    what those models send. *)
From S2P Require Import Prelude GoStd K8s ApiTypes Effects Monad Reconciler Conditions ApplyConfig.
From S2P Require Import ConfigMap TlsProfile K8sObjects Cert Finalizer Discovery CachedApply Cleanup Manage Sync.
From S2P Require Import OperatorClient.
Import Apply.

(** ** The chains of calls *)

(** [interfaces.go]: [desired] of [ApplyOperatorSpec]. *)
Definition desiredOfSpec (desiredConfiguration : OperatorSpecApplyConfiguration) : KueueApplyConfiguration :=
  let desiredSpec := {| aks_OperatorSpecApplyConfiguration := desiredConfiguration; aks_Config := None |} in
  Kueue_WithSpec (Some desiredSpec) (Apply.Kueue OperatorConfigName).

(** [interfaces.go]: [desired] of [ApplyOperatorStatus]. *)
Definition desiredOfStatus (desiredConfiguration : OperatorStatusApplyConfiguration) : KueueApplyConfiguration :=
  let desiredStatus := {| akst_OperatorStatusApplyConfiguration := desiredConfiguration |} in
  Kueue_WithStatus (Some desiredStatus) (Apply.Kueue OperatorConfigName).

(** [target_config_reconciler.go]: [config] of [updateKueueStatus];
    [conditions] are pointers. *)
Definition statusConfig (now : Z) (conditions : list (option OperatorConditionApply))
    (readyReplicas : option Z) (existingConditions : list OperatorConditionApply)
    : res KueueApplyConfiguration :=
  rlet status := KueueStatus_WithConditions conditions Apply.KueueStatus in
  let st := akst_OperatorStatusApplyConfiguration status in
  let st := match readyReplicas with Some _ => aost_set_ReadyReplicas readyReplicas st | None => st end in
  let st := aost_set_Conditions
              (SetApplyConditionsLastTransitionTime now (aost_Conditions st) existingConditions) st in
  Ok (Kueue_WithStatus (Some {| akst_OperatorStatusApplyConfiguration := st |}) (Apply.Kueue "cluster")).

(** ** What the models send *)

Section abstraction.
(** The JSON of a spec, and of the status fields the operator does not set. *)
Context (encodeSpec : KueueOperandSpecApplyConfiguration → json).
Context (encodeOther : option Z * option string * option Z * list GenerationStatusApplyConfiguration → json).

Definition statusApply (s : KueueStatusApplyConfiguration) : KueueStatusApply :=
  let st := akst_OperatorStatusApplyConfiguration s in {|
  ksa_Conditions := aost_Conditions st;
  ksa_ReadyReplicas := aost_ReadyReplicas st;
  ksa_other := match aost_ObservedGeneration st, aost_Version st, aost_LatestAvailableRevision st,
                     aost_Generations st with
               | None, None, None, [] => JNull
               | g, v, r, gs => encodeOther (g, v, r, gs)
               end |}.
Definition kueueApply (b : KueueApplyConfiguration) : KueueApply := {|
  kac_Name := default "" (Kueue_GetName b).1;
  kac_Spec := encodeSpec <$> aku_Spec b;
  kac_Status := statusApply <$> aku_Status b |}.

(** Nothing but the identity, the spec and the status is set: [kueueApply]
    forgets nothing but the identity's constants. *)
Definition plain (b : KueueApplyConfiguration) : Prop :=
  ∃ name spec status, b = Kueue_WithStatus status (Kueue_WithSpec spec (Apply.Kueue name)).

Lemma plain_spec name spec : plain (Kueue_WithSpec spec (Apply.Kueue name)).
Proof. exists name, spec, None. reflexivity. Qed.
Lemma plain_status name status : plain (Kueue_WithStatus status (Apply.Kueue name)).
Proof. exists name, None, status. reflexivity. Qed.

Context `{Env} {S : Type}.

Lemma statusConfig_Ok t conditions readyReplicas old :
  statusConfig t (Some <$> conditions) readyReplicas old =
  Ok (Kueue_WithStatus (Some {| akst_OperatorStatusApplyConfiguration :=
        aost_set_Conditions (SetApplyConditionsLastTransitionTime t conditions old)
          (aost_set_ReadyReplicas readyReplicas zero_OperatorStatusApplyConfiguration) |})
      (Apply.Kueue "cluster")).
Proof.
  unfold statusConfig, KueueStatus_WithConditions. rewrite non_nil_Some. by destruct readyReplicas.
Qed.

(** What [updateKueueStatus] calls: the clock, and the status with the
    conditions stamped with that time. *)
Definition kueue_status_call (kueue : ApiTypes.Kueue) (conditions : list OperatorConditionApply)
    (readyReplicas : option Z) (h : trace) (c : call) : Prop :=
  match c with
  | CNow => True
  | CKueueApplyStatus cfg force fieldManager => force = false ∧ fieldManager = "kueue-operator" ∧
      ∃ t b, Ev CNow t ∈ h ∧
        statusConfig t (Some <$> conditions) readyReplicas (existingConditions kueue) = Ok b ∧
        plain b ∧ cfg = kueueApply b
  | _ => False
  end.

(** What [ApplyOperatorSpec] calls: a read of the resource, and the spec. *)
Definition operator_spec_call (fieldManager : string) (spec : OperatorSpecApplyConfiguration)
    (h : trace) (c : call) : Prop :=
  match c with
  | CKueueGet _ => True
  | CKueueApply cfg force manager => force = true ∧ manager = fieldManager ∧
      plain (desiredOfSpec spec) ∧ cfg = kueueApply (desiredOfSpec spec)
  | _ => False
  end.

(** The conditions that [fieldManager] owns in the resource as it was read:
    none when there is no resource. *)
Definition conditions_read (fieldManager : string) (h : trace) (old : list OperatorConditionApply) : Prop :=
  (∃ e, Ev (CKueueGet OperatorConfigName) (inl e) ∈ h ∧ IsNotFound e = true ∧ old = []) ∨
  ∃ instance original, Ev (CKueueGet OperatorConfigName) (inr instance) ∈ h ∧
    Reconciler.ExtractKueueStatus instance fieldManager = inr original ∧
    old = match kac_Status original with Some st => ksa_Conditions st | None => [] end.

(** What [ApplyOperatorStatus] calls: a read of the resource, the clock, and
    the status with its conditions stamped with that time. *)
Definition operator_status_call (fieldManager : string) (st : OperatorStatusApplyConfiguration)
    (h : trace) (c : call) : Prop :=
  match c with
  | CKueueGet _ | CNow => True
  | CKueueApplyStatus cfg force manager => force = true ∧ manager = fieldManager ∧
      ∃ t old, Ev CNow t ∈ h ∧ conditions_read fieldManager h old ∧
        let b := desiredOfStatus (aost_set_Conditions
                   (SetApplyConditionsLastTransitionTime t (aost_Conditions st) old) st) in
        plain b ∧ cfg = kueueApply b
  | _ => False
  end.

Lemma updateKueueStatus_builds kueue conditions readyReplicas (s : S) h :
  wpM (kueue_status_call kueue conditions readyReplicas)
    (updateKueueStatus kueue conditions readyReplicas) s h (λ _ _ _, True).
Proof.
  unfold updateKueueStatus, now. apply wpM_bind, wpM_call; [done|]. intros t. apply wpM_bind, wpM_call.
  - split; [done|]. split; [done|]. eexists t, _. split; [apply elem_of_last|].
    rewrite statusConfig_Ok. split; [reflexivity|]. split; [apply plain_status|]. by destruct readyReplicas.
  - by intros [e|].
Qed.

Lemma ApplyOperatorSpec_builds fm spec (s : S) h :
  wpM (operator_spec_call fm spec) (ApplyOperatorSpec fm
    (Some (encodeSpec {| aks_OperatorSpecApplyConfiguration := spec; aks_Config := None |}))) s h
    (λ _ _ _, True).
Proof.
  eapply (wpM_calls _ (operator_spec_call fm spec [])); [|intros t c Hc _; by destruct c|done].
  unfold ApplyOperatorSpec, kueue_get. cbv zeta. solve_calls; (split_and!; [done..|apply plain_spec|done]).
Qed.

Lemma ApplyOperatorStatus_builds fm st (s : S) h :
  wpM (operator_status_call fm st) (ApplyOperatorStatus fm
    (Some (statusApply {| akst_OperatorStatusApplyConfiguration := st |}))) s h (λ _ _ _, True).
Proof.
  assert (Happly : ∀ h old, conditions_read fm h old →
    wpM (S := S) (operator_status_call fm st)
      (t ← now;
       r ← mcall (CKueueApplyStatus {| kac_Name := OperatorConfigName; kac_Spec := None;
             kac_Status := Some (status_set_Conditions (SetApplyConditionsLastTransitionTime t
               (aost_Conditions st) old) (statusApply {| akst_OperatorStatusApplyConfiguration := st |})) |}
             true fm);
       match r with
       | Some err => throw (WrapError ("unable to ApplyStatus for operator using fieldManager " +:+
                                       Quote fm +:+ ": ") err)
       | None => mret tt
       end) s h (λ _ _ _, True)).
  { clear h. intros h old Hold. unfold now. apply wpM_bind, wpM_call; [done|]. intros t.
    apply wpM_bind, wpM_call; [|by intros [e|]]. split; [done|]. split; [done|].
    exists t, old. split; [apply elem_of_last|]. split; [|split; [apply plain_status|reflexivity]].
    destruct Hold as [(e & He & ?)|(i & o & Hi & ?)]; [left; exists e|right; exists i, o];
      (split; [by apply elem_of_earlier|done]). }
  unfold ApplyOperatorStatus, kueue_get. cbv zeta.
  apply wpM_bind, wpM_try, (wpM_call_sum _ (CKueueGet _) (λ r, r)); [done|]. intros [e|instance].
  { destruct (IsNotFound e) eqn:He; [|done]. apply Happly. left. exists e. split; [apply elem_of_last|done]. }
  destruct (Reconciler.ExtractKueueStatus instance fm) as [e|original] eqn:Hx; [done|].
  case_bool_decide; [done|]. apply Happly. right. exists instance, original. split; [apply elem_of_last|done].
Qed.

End abstraction.

(** ** A concrete run *)

#[local] Existing Instance example_env.

Definition example_requested : OperatorStatusApplyConfiguration :=
  aost_set_Conditions [condition "Available" "True" "AsExpected" ""] zero_OperatorStatusApplyConfiguration.

