(* ===== verification/Aliasing.v ===== *)
(** * Code that changes its copy of a resource

    [updateFinalizer] and the operator client change a deep copy of the
    [Kueue] they read. On the heap of [GoHeap] the changes are writes, one of
    them into an array that is already there ([RemoveFinalizer] compacts the
    finalizers in place), so it is proved here that the object read is left as
    it was and that the copy stands for the changed value, as [Finalizer] and
    [OperatorClient] have it. *)
From stdpp Require Import sets.
From S2P Require Import Prelude GoStd K8s ApiTypes GoHeap DeepCopy Effects Monad Finalizer OperatorClient.


(** [append(s, x)]: in place when the array has room, else into a new one. *)
Definition append {A} `{Stored Go.cell (list A)} (s : slice A) (x : A) : Go.Mem (slice A) :=
  match array s with
  | None => l ← new [x]; mret (Slice (Some l) 1)
  | Some l =>
      a ← load (A := list A) l;
      if len s <? length a
      then store l (<[len s := x]> a) ;; mret (Slice (Some l) (S (len s)))
      else l' ← new (take (len s) a ++ [x]); mret (Slice (Some l') (S (len s)))
  end.

(** The elements of a slice. *)
Definition elements {A} `{Stored Go.cell (list A)} (s : slice A) : Go.Mem (list A) :=
  match array s with None => mret [] | Some l => a ← load (A := list A) l; mret (take (len s) a) end.

Module Finalizers.
Import Go.

Definition kueue_set_finalizers (s : slice string) (k : Go.Kueue) : Go.Kueue :=
  let m := ku_ObjectMeta k in
  {| ku_TypeMeta := ku_TypeMeta k;
     ku_ObjectMeta := {|
       om_Name := om_Name m; om_Namespace := om_Namespace m; om_UID := om_UID m;
       om_ResourceVersion := om_ResourceVersion m; om_Generation := om_Generation m;
       om_DeletionTimestamp := om_DeletionTimestamp m; om_Labels := om_Labels m;
       om_Annotations := om_Annotations m; om_OwnerReferences := om_OwnerReferences m;
       om_Finalizers := s |};
     ku_Spec := ku_Spec k; ku_Status := ku_Status k |}.

(** [controllerutil.AddFinalizer] *)
Definition AddFinalizer (o : loc) (finalizer : string) : Mem bool :=
  k ← load o;
  let f := om_Finalizers (ku_ObjectMeta k) in
  fs ← elements f;
  if bool_decide (finalizer ∈ fs) then mret false
  else f' ← append f finalizer; store o (kueue_set_finalizers f' k) ;; mret true.

(** The loop of [controllerutil.RemoveFinalizer] from position [i], with [n]
    elements left: the others are moved to the front of the same array. *)
Fixpoint compact (finalizer : string) (n i index : nat) (f : list string) : list string * nat :=
  match n with
  | 0 => (f, index)
  | S n =>
      match f !! i with
      | Some x =>
          if x =s finalizer then compact finalizer n (S i) index f
          else compact finalizer n (S i) (S index) (<[index := x]> f)
      | None => (f, index)
      end
  end.

(** [controllerutil.RemoveFinalizer]; the writes of the loop at once. *)
Definition RemoveFinalizer (o : loc) (finalizer : string) : Mem bool :=
  k ← load o;
  let f := om_Finalizers (ku_ObjectMeta k) in
  match array f with
  | None => store o (kueue_set_finalizers (Slice None 0) k) ;; mret false
  | Some l =>
      a ← load (A := list string) l;
      let '(a', index) := compact finalizer (len f) 0 0 a in
      store l a' ;; store o (kueue_set_finalizers (Slice (Some l) index) k) ;;
      mret (negb (len f =? index))
  end.

(** The two statements of [updateFinalizer] before the patch is computed:
    [modified := original.DeepCopy(); mutator(modified, KueueFinalizer)]. *)
Definition modifiedKueue (add : bool) (original : ptr Go.Kueue) : Mem (ptr Go.Kueue) :=
  modified ← Kueue_DeepCopy original;
  match addr modified with
  | Some o => (if add then AddFinalizer else RemoveFinalizer) o KueueFinalizer ;; mret modified
  | None => λ _, None
  end.
End Finalizers.

(** ** The copy of the finalizers *)

(** The views of a struct's fields. *)
#[local] Ltac view_fields H :=
  apply (view_struct_inv _ _) in H as (? & ? & H);
  repeat (let H' := fresh "Hv" in apply view_pair_inv in H as (? & ? & -> & H & H');
          try (apply view_flat_inv in H'; subst)); try (apply view_flat_inv in H; subst).

#[local] Ltac exact_view :=
  lazymatch goal with H : view ?h ?x = Some _ |- view ?h ?x = Some _ => exact H | _ => reflexivity end.

Section finalizers.
Import Go Finalizers.

(** The loop keeps the elements other than the finalizer, in their order. *)
Lemma compact_spec f n i index (a : list string) : index ≤ i → i + n ≤ length a →
  ∃ a' j, compact f n i index a = (a', j) ∧ length a' = length a ∧ index ≤ j ≤ i + n ∧
    take j a' = take index a ++ Finalizer.RemoveFinalizer (take n (drop i a)) f.
Proof.
  revert i index a. induction n as [|n IH]; intros i index a Hi Hn; cbn [compact].
  { exists a, index. split_and!; [done..|lia|lia|]. cbn. by rewrite app_nil_r. }
  destruct (a !! i) as [x|] eqn:E; [|apply lookup_ge_None in E; lia].
  rewrite (drop_S _ _ _ E). cbn [take]. unfold Finalizer.RemoveFinalizer. cbn [List.filter].
  fold (Finalizer.RemoveFinalizer (take n (drop (S i) a)) f). case_bool_decide as Hx; cbn [negb].
  - destruct (IH (S i) index a) as (a' & j & Hc & Hl & Hj & Ht); [lia..|].
    exists a', j. split_and!; [done..|lia|lia|done].
  - destruct (IH (S i) (S index) (<[index:=x]> a)) as (a' & j & Hc & Hl & Hj & Ht);
      [lia|rewrite length_insert; lia|].
    rewrite length_insert in Hl. exists a', j. split_and!; [done..|lia|lia|]. rewrite Ht.
    rewrite (take_S_r _ _ x) by (rewrite list_lookup_insert_eq; [done|lia]).
    rewrite take_insert_ge, drop_insert_lt by lia. by rewrite <-app_assoc.
Qed.

Lemma reach_kueue h (k : Go.Kueue) :
  reach h k = reach h (ku_TypeMeta k) ∪ reach h (ku_ObjectMeta k) ∪ reach h (ku_Spec k) ∪ reach h (ku_Status k).
Proof. reflexivity. Qed.
Lemma reach_meta h (m : Go.ObjectMeta) :
  reach h (om_DeletionTimestamp m) ∪ reach h (om_Labels m) ∪ reach h (om_Annotations m) ∪
  reach h (om_OwnerReferences m) ∪ reach h (om_Finalizers m) ⊆ reach h m.
Proof. apply (reach_struct _ _). rewrite !reach_pair. reach_solver. Qed.

Lemma tree_kueue h (k : Go.Kueue) : tree h k →
  tree h (ku_ObjectMeta k) ∧ reach h (ku_ObjectMeta k) ## reach h (ku_Spec k) ∪ reach h (ku_Status k).
Proof.
  intros Ht. apply (tree_struct_inv _ _) in Ht. apply tree_pair_inv in Ht as (Ht & _ & H1).
  apply tree_pair_inv in Ht as (Ht & _ & H2). apply tree_pair_inv in Ht as (_ & Ht & _).
  split; [exact Ht|]. clear Ht.
  change (reach h (ku_TypeMeta k) ∪ reach h (ku_ObjectMeta k) ## reach h (ku_Spec k)) in H2.
  change (reach h (ku_TypeMeta k) ∪ reach h (ku_ObjectMeta k) ∪ reach h (ku_Spec k)
          ## reach h (ku_Status k)) in H1.
  reach_solver.
Qed.
Lemma tree_meta h (m : Go.ObjectMeta) : tree h m →
  reach h (om_DeletionTimestamp m) ∪ reach h (om_Labels m) ∪ reach h (om_Annotations m) ∪
  reach h (om_OwnerReferences m) ## reach h (om_Finalizers m).
Proof.
  intros Ht. apply (tree_struct_inv _ _) in Ht. apply tree_pair_inv in Ht as (_ & _ & Ht).
  rewrite !reach_pair in Ht. reach_solver.
Qed.

#[local] Ltac frame Ha Htm Hd Hm :=
  lazymatch goal with
  | H : view ?h ?x = Some _ |- view ?h ?x = Some _ => exact H
  | H : view _ ?x = Some _ |- view _ ?x = Some _ =>
      apply (view_agree _ _ _ _ H); eapply agree_sub; [|exact Ha]; clear -Htm Hd Hm; reach_solver
  | _ => reflexivity
  end.

(** What a write to the finalizers leaves of the other fields. *)
Lemma view_set_finalizers h h' (k : Go.Kueue) s tm v fs :
  view h k = Some (tm, v) → tree h k →
  agree h h' (reach h k ∖ reach h (om_Finalizers (ku_ObjectMeta k))) →
  view h' s = Some fs →
  view h' (kueue_set_finalizers s k) = Some (tm, kueue_set_meta (meta_set_Finalizers fs (ApiTypes.ku_ObjectMeta v)) v).
Proof.
  intros Hv Ht Ha Hs. rewrite reach_kueue in Ha. pose proof (reach_meta h (ku_ObjectMeta k)) as Hm.
  apply tree_kueue in Ht as (Htm%tree_meta & Hd). view_fields Hv.
  match goal with H : view h (ku_ObjectMeta k) = _ |- _ => view_fields H end.
  simplify_eq.
  eapply (view_struct _ _); [repeat eapply view_pair; [frame Ha Htm Hd Hm| |frame Ha Htm Hd Hm|frame Ha Htm Hd Hm]|reflexivity].
  eapply (view_struct _ _); [repeat eapply view_pair; frame Ha Htm Hd Hm|reflexivity].
Qed.

(** What the mutators rely on and what they do, for a [Kueue] at [o] whose
    parts are not shared. *)
Definition owned (h : gmap loc cell) (o : loc) (v : TypeMeta * ApiTypes.Kueue) : Prop :=
  ∃ k, content h o = Some k ∧ view h k = Some v ∧ tree h k ∧ o ∉ reach h k.
Definition mutates (h : gmap loc cell) (o : loc) (fs : list string) (tm : TypeMeta) (v : ApiTypes.Kueue)
    (m : Mem bool) : Prop :=
  ∃ b h', m h = Some (b, h') ∧ writes_within (reach h (Ptr (A := Go.Kueue) (Some o))) h h' ∧
    view h' (Ptr (A := Go.Kueue) (Some o)) =
      Some (Some (tm, kueue_set_meta (meta_set_Finalizers fs (ApiTypes.ku_ObjectMeta v)) v)).

Lemma owned_copy h (p : ptr Go.Kueue) v :
  view h p = Some (Some v) → tree h p → ∃ o, p = Ptr (Some o) ∧ owned h o v.
Proof.
  intros (o & k & -> & E & Hk)%view_ptr_inv Ht. exists o. split; [done|]. exists k.
  by destruct (tree_ptr_inv _ _ _ E Ht).
Qed.

(** The object is written with a finalizers slice that is its own or new. *)
Lemma store_finalizers h h1 o k l n fs tm v :
  content h o = Some k → view h k = Some (tm, v) → tree h k → o ∉ reach h k →
  agree h h1 ({[o]} ∪ reach h k ∖ reach h (om_Finalizers (ku_ObjectMeta k))) →
  view h1 (Slice (A := string) l n) = Some fs → o ∉ reach h1 (Slice (A := string) l n) →
  view (<[o := inj (kueue_set_finalizers (Slice l n) k)]> h1) (Ptr (A := Go.Kueue) (Some o)) =
    Some (Some (tm, kueue_set_meta (meta_set_Finalizers fs (ApiTypes.ku_ObjectMeta v)) v)).
Proof.
  intros E Hv Ht Ho Ha Hs Hos. eapply view_ptr; [apply content_new|].
  apply (view_set_finalizers h); [done..| |].
  - intros x Hx. rewrite lookup_insert_ne by (clear -Hx Ho; reach_solver).
    apply Ha. clear -Hx. reach_solver.
  - eapply view_agree; [exact Hs|]. by apply agree_store.
Qed.

Lemma finalizers_view h (k : Go.Kueue) tm v : view h k = Some (tm, v) →
  view h (om_Finalizers (ku_ObjectMeta k)) = Some (K8s.om_Finalizers (ApiTypes.ku_ObjectMeta v)).
Proof.
  intros Hv. view_fields Hv.
  match goal with H : view h (ku_ObjectMeta k) = _ |- _ => view_fields H end. by simplify_eq.
Qed.
Lemma finalizers_reach h (k : Go.Kueue) : reach h (om_Finalizers (ku_ObjectMeta k)) ⊆ reach h k.
Proof. rewrite reach_kueue. pose proof (reach_meta h (ku_ObjectMeta k)). reach_solver. Qed.

Lemma RemoveFinalizer_mutates h o tm v f : owned h o (tm, v) →
  mutates h o (Finalizer.RemoveFinalizer (K8s.om_Finalizers (ApiTypes.ku_ObjectMeta v)) f) tm v
    (RemoveFinalizer o f).
Proof.
  intros (k & E & Hv & Ht & Ho). unfold mutates. rewrite (reach_ptr _ _ _ E).
  pose proof (finalizers_view _ _ _ _ Hv) as Hf. pose proof (finalizers_reach h k) as Hr.
  unfold RemoveFinalizer, mbind, Mem_bind, load. rewrite E. cbn.
  destruct (om_Finalizers (ku_ObjectMeta k)) as [[l|] n] eqn:Es; cbn [array len].
  - apply view_slice_inv in Hf as (a & El & Hn & ->). cbn [len array] in *.
    rewrite (reach_slice _ _ _ n El) in Hr. rewrite El. cbn.
    destruct (compact_spec f n 0 0 a) as (a' & j & Hc & Hl & Hj & Htk); [done..|].
    rewrite Hc. cbn. eexists _, _. split; [reflexivity|]. split.
    + intros x _ Hx. clear -Hx Hr. rewrite !lookup_insert_ne; [done|reach_solver..].
    + rewrite drop_0, take_0 in Htk. cbn in Htk. rewrite <-Htk.
      assert (o ≠ l) by (clear -Hr Ho; reach_solver).
      eapply store_finalizers; [exact E|done..| | |].
      * apply agree_store. rewrite Es, (reach_slice _ _ _ n El). clear -H. reach_solver.
      * apply view_slice; [exact (content_new (A := list string) _ _ _)|lia].
      * rewrite (reach_slice _ l a' j) by exact (content_new (A := list string) _ l a'); by apply not_elem_of_singleton.
  - apply view_slice_inv in Hf. cbn in Hf. rewrite Hf. eexists _, _. split; [reflexivity|]. split.
    + clear. intros x _ Hx. rewrite lookup_insert_ne; [done|reach_solver].
    + eapply store_finalizers; [exact E|done..| |apply not_elem_of_empty]. reflexivity.
Qed.

(** The finalizers go to a new array. *)
Lemma fresh_finalizers h o k l (a : list string) n tm v :
  content h o = Some k → view h k = Some (tm, v) → tree h k → o ∉ reach h k → l ∉ dom h → length a = n →
  let h1 := <[l := inj a]> h in
  let h2 := <[o := inj (kueue_set_finalizers (Slice (Some l) n) k)]> h1 in
  writes_within ({[o]} ∪ reach h k) h h2 ∧
  view h2 (Ptr (A := Go.Kueue) (Some o)) =
    Some (Some (tm, kueue_set_meta (meta_set_Finalizers a (ApiTypes.ku_ObjectMeta v)) v)).
Proof.
  intros E Hv Ht Ho Hl <- h1 h2. pose proof (content_dom _ _ _ E) as Hd. split.
  - intros x Hx Hx'. unfold h2, h1. rewrite !lookup_insert_ne; [done| |].
    + by intros ->.
    + clear -Hx'. reach_solver.
  - pose proof (view_reach _ _ _ Hv) as Hk.
    eapply store_finalizers; [exact E|done..| | |].
    + apply agree_store. clear -Hl Hk Hd. intros [?%elem_of_singleton|[? _]%elem_of_difference]%elem_of_union; [by subst|auto].
    + rewrite <-(firstn_all a) at 2. apply view_slice; [apply content_new|done].
    + rewrite (reach_slice _ l a) by apply content_new. intros ->%elem_of_singleton. done.
Qed.

Lemma set_finalizers_same (v : ApiTypes.Kueue) :
  kueue_set_meta (meta_set_Finalizers (K8s.om_Finalizers (ApiTypes.ku_ObjectMeta v)) (ApiTypes.ku_ObjectMeta v)) v = v.
Proof. by destruct v as [[] ? ?]. Qed.

Lemma AddFinalizer_mutates h o tm v f : owned h o (tm, v) →
  mutates h o (Finalizer.AddFinalizer (K8s.om_Finalizers (ApiTypes.ku_ObjectMeta v)) f) tm v
    (AddFinalizer o f).
Proof.
  intros (k & E & Hv & Ht & Ho). unfold mutates. rewrite (reach_ptr _ _ _ E).
  pose proof (finalizers_view _ _ _ _ Hv) as Hf. pose proof (finalizers_reach h k) as Hr.
  unfold AddFinalizer, Finalizer.AddFinalizer, mbind, Mem_bind, load at 1. rewrite E. cbn -[Nat.ltb].
  destruct (om_Finalizers (ku_ObjectMeta k)) as [[l|] n] eqn:Es.
  - apply view_slice_inv in Hf as (a & El & Hn & Hfs). cbn [len array] in *.
    rewrite (reach_slice _ _ _ n El) in Hr. rewrite Hfs.
    unfold elements, append, load, mbind, Mem_bind. cbn [array len]. rewrite El. cbn -[Nat.ltb].
    case_bool_decide as Hin.
    { eexists _, h. split_and!; [done| |]; [by intros x _ _|].
      rewrite <-Hfs, set_finalizers_same. by apply (view_ptr _ _ k). }
    rewrite El. cbn -[Nat.ltb]. destruct (Nat.ltb_spec n (length a)) as [Hlt|Hge]; cbn.
    + assert (o ≠ l) by (clear -Hr Ho; reach_solver).
      eexists _, _. split; [reflexivity|]. split.
      * clear -Hr. intros x _ Hx. rewrite !lookup_insert_ne; [done|reach_solver..].
      * eapply store_finalizers; [exact E|done..| | |].
        -- apply agree_store. rewrite Es, (reach_slice _ _ _ n El). clear -H. reach_solver.
        -- assert (take n a ++ [f] = take (S n) (<[n:=f]> a)) as ->.
           { rewrite (take_S_r _ _ f) by (by rewrite list_lookup_insert_eq). by rewrite take_insert_ge. }
           apply view_slice; [exact (content_new (A := list string) _ _ _)|rewrite length_insert; lia].
        -- rewrite (reach_slice _ _ (<[n:=f]> a));
             [by apply not_elem_of_singleton|exact (content_new (A := list string) _ _ _)].
    + eexists _, _. split; [reflexivity|].
      apply (fresh_finalizers h o k _ (take n a ++ [f])); [done..|apply new_fresh|].
      rewrite length_app, length_take. cbn. lia.
  - apply view_slice_inv in Hf. cbn in Hf. rewrite Hf. cbn. eexists _, _. split; [reflexivity|].
    by apply (fresh_finalizers h o k _ [f]); [done..|apply new_fresh|].
Qed.

(** C20: [updateFinalizer] changes the finalizers of a deep copy: the [Kueue]
    it read keeps its value, although [RemoveFinalizer] moves the elements
    within the array it is given, and [modified] stands for the same resource
    with the finalizers [Finalizer.updateFinalizer_attempt] computes. *)
Theorem modifiedKueue_spec add h (original : ptr Go.Kueue) tm k :
  view h original = Some (Some (tm, k)) →
  ∃ modified h', modifiedKueue add original h = Some (modified, h') ∧
    view h' original = Some (Some (tm, k)) ∧
    view h' modified = Some (Some (tm, kueue_set_meta (meta_set_Finalizers
      ((if add then Finalizer.AddFinalizer else Finalizer.RemoveFinalizer)
         (K8s.om_Finalizers (ApiTypes.ku_ObjectMeta k)) KueueFinalizer)
      (ApiTypes.ku_ObjectMeta k)) k)).
Proof.
  intros Hv. destruct (deep_copies_ptr _ Kueue_copies) as [_ Hc].
  destruct (Hc h original _ Hv) as (m & h1 & E & (_ & _ & Hv1 & Ht & _ & Horig & _) & _).
  destruct (owned_copy _ _ _ Hv1 Ht) as (o & -> & Ho).
  assert (mutates h1 o ((if add then Finalizer.AddFinalizer else Finalizer.RemoveFinalizer)
            (K8s.om_Finalizers (ApiTypes.ku_ObjectMeta k)) KueueFinalizer) tm k
            ((if add then AddFinalizer else RemoveFinalizer) o KueueFinalizer)) as (b & h' & Em & Hw & Hvm).
  { destruct add; [by apply AddFinalizer_mutates|by apply RemoveFinalizer_mutates]. }
  exists (Ptr (Some o)), h'. split_and!; [|by apply Horig|done].
  unfold modifiedKueue, Kueue_DeepCopy, mbind, Mem_bind. rewrite E. cbn [addr]. by rewrite Em.
Qed.
End finalizers.

(** ** The copies of the operator client *)

Module Client.
Import Go.

(** [copy.ResourceVersion = resourceVersion] and [copy.Spec.OperatorSpec = *spec]. *)
Definition kueue_assign (resourceVersion : string) (spec : Go.OperatorSpec) (status : Go.OperatorStatus)
    (k : Go.Kueue) : Go.Kueue :=
  let m := ku_ObjectMeta k in
  {| ku_TypeMeta := ku_TypeMeta k;
     ku_ObjectMeta := {|
       om_Name := om_Name m; om_Namespace := om_Namespace m; om_UID := om_UID m;
       om_ResourceVersion := resourceVersion; om_Generation := om_Generation m;
       om_DeletionTimestamp := om_DeletionTimestamp m; om_Labels := om_Labels m;
       om_Annotations := om_Annotations m; om_OwnerReferences := om_OwnerReferences m;
       om_Finalizers := om_Finalizers m |};
     ku_Spec := {| ks_OperatorSpec := spec; ks_Config := ks_Config (ku_Spec k) |};
     ku_Status := {| kst_OperatorStatus := status |} |}.

(** What [UpdateOperatorSpec] and [UpdateOperatorStatus] send: the copy of
    what they read; [spec] and [status] are the structs behind the arguments. *)
Definition UpdateOperatorSpec_copy (original : ptr Go.Kueue) (resourceVersion : string)
    (spec : Go.OperatorSpec) : Mem (ptr Go.Kueue) :=
  copy ← Kueue_DeepCopy original;
  match addr copy with
  | Some o =>
      k ← load o;
      store o (kueue_assign resourceVersion spec (kst_OperatorStatus (ku_Status k)) k) ;; mret copy
  | None => λ _, None
  end.

Definition UpdateOperatorStatus_copy (original : ptr Go.Kueue) (resourceVersion : string)
    (status : Go.OperatorStatus) : Mem (ptr Go.Kueue) :=
  copy ← Kueue_DeepCopy original;
  match addr copy with
  | Some o =>
      k ← load o;
      store o (kueue_assign resourceVersion (ks_OperatorSpec (ku_Spec k)) status k) ;; mret copy
  | None => λ _, None
  end.
End Client.

Section client.
Import Go Client.

(** A struct of the copy is written over; [k2] is what it becomes. *)
Lemma copy_and_store h (original : ptr Go.Kueue) v v2 (g : Go.Kueue → Go.Kueue) (D : gset loc) :
  view h original = Some (Some v) → D ⊆ dom h →
  (∀ h1 k, h ⊆ h1 → view h1 k = Some v → view h1 (g k) = Some v2 ∧ reach h1 (g k) ⊆ reach h1 k ∪ D) →
  ∃ o h', (copy ← Kueue_DeepCopy original;
           match addr copy with
           | Some o => k ← load o; store o (g k) ;; mret copy
           | None => λ _, None
           end) h = Some (Ptr (Some o), h') ∧
    view h' original = Some (Some v) ∧ view h' (Ptr (A := Go.Kueue) (Some o)) = Some (Some v2).
Proof.
  intros Hv HD Hg.
  destruct (copies_ptr _ Kueue_copies h original _ Hv) as (m & h1 & E & Hs & Hv1 & Hr & Ht).
  destruct (view_ptr_inv _ _ _ Hv1) as (o & k & -> & Ek & Hk).
  destruct (Hg h1 k Hs Hk) as [Hv2 Hr2]. destruct (tree_ptr_inv _ _ _ Ek Ht) as [Ho _].
  rewrite (reach_ptr _ _ _ Ek) in Hr.
  exists o, (<[o := inj (g k)]> h1). split_and!.
  - unfold Kueue_DeepCopy, mbind, Mem_bind, load. rewrite E. cbn [addr]. by rewrite Ek.
  - destruct (view_mono _ _ _ _ Hs Hv) as (Hvo & Hro & _). pose proof (view_reach _ _ _ Hv).
    apply (view_agree h1); [done|]. apply agree_store. rewrite Hro. clear -Hr H. reach_solver.
  - eapply view_ptr; [apply content_new|]. apply (view_agree h1); [done|].
    apply agree_store. clear -Hr Hr2 Ho HD. reach_solver.
Qed.

(** The value and the addresses of the struct after the assignments. *)
Lemma assign_view h (k : Go.Kueue) rv sp st tm v vsp vst :
  view h k = Some (tm, v) → view h sp = Some vsp → view h st = Some vst →
  view h (kueue_assign rv sp st k) = Some (tm,
    kueue_set_OperatorStatus vst (kueue_set_OperatorSpec vsp (kueue_set_ResourceVersion rv v))).
Proof.
  intros Hv Hsp Hst. view_fields Hv.
  repeat match goal with
  | H : view h (ku_ObjectMeta k) = _ |- _ => view_fields H
  | H : view h (ku_Spec k) = _ |- _ => view_fields H
  end. simplify_eq.
  eapply (view_struct _ _); [repeat eapply view_pair; [reflexivity| | |]|reflexivity].
  - eapply (view_struct _ _); [repeat eapply view_pair; first [reflexivity|exact_view]|reflexivity].
  - eapply (view_struct _ _); [repeat eapply view_pair; exact_view|reflexivity].
  - eapply (view_struct _ _); [exact_view|reflexivity].
Qed.

Lemma assign_reach h (k : Go.Kueue) rv sp st :
  reach h (kueue_assign rv sp st k) ⊆ reach h k ∪ reach h sp ∪ reach h st.
Proof.
  rewrite !reach_kueue.
  change (reach h (ku_ObjectMeta (kueue_assign rv sp st k))) with (reach h (ku_ObjectMeta k)).
  change (reach h (ku_Spec (kueue_assign rv sp st k)))
    with (reach h sp ∪ reach h (ks_Config (ku_Spec k))).
  change (reach h (ku_Status (kueue_assign rv sp st k))) with (reach h st).
  change (reach h (ku_Spec k))
    with (reach h (ks_OperatorSpec (ku_Spec k)) ∪ reach h (ks_Config (ku_Spec k))).
  cbn [ku_TypeMeta kueue_assign]. reach_solver.
Qed.

Lemma parts_view h (k : Go.Kueue) tm v : view h k = Some (tm, v) →
  view h (ks_OperatorSpec (ku_Spec k)) = Some (ApiTypes.ks_OperatorSpec (ApiTypes.ku_Spec v)) ∧
  view h (kst_OperatorStatus (ku_Status k)) = Some (ApiTypes.kst_OperatorStatus (ApiTypes.ku_Status v)).
Proof.
  intros Hv. view_fields Hv.
  repeat match goal with
  | H : view h (ku_Spec k) = _ |- _ => view_fields H
  | H : view h (ku_Status k) = _ |- _ => view_fields H
  end. by simplify_eq.
Qed.

Lemma parts_reach h (k : Go.Kueue) :
  reach h (ks_OperatorSpec (ku_Spec k)) ∪ reach h (kst_OperatorStatus (ku_Status k)) ⊆ reach h k.
Proof.
  rewrite reach_kueue.
  change (reach h (ku_Spec k))
    with (reach h (ks_OperatorSpec (ku_Spec k)) ∪ reach h (ks_Config (ku_Spec k))).
  change (reach h (ku_Status k)) with (reach h (kst_OperatorStatus (ku_Status k))). reach_solver.
Qed.

(** C38: the object [UpdateOperatorSpec] and [UpdateOperatorStatus] read is left
    as it was, and the copies they send stand for the resources that
    [OperatorClient] sends: the resource version, and the spec or the status,
    of the arguments, everything else as read. *)
Theorem UpdateOperator_copies_spec h (original : ptr Go.Kueue) rv sp st tm k vsp vst :
  view h original = Some (Some (tm, k)) → view h sp = Some vsp → view h st = Some vst →
  (∃ copy h', UpdateOperatorSpec_copy original rv sp h = Some (copy, h') ∧
     view h' original = Some (Some (tm, k)) ∧
     view h' copy = Some (Some (tm, kueue_set_OperatorSpec vsp (kueue_set_ResourceVersion rv k)))) ∧
  (∃ copy h', UpdateOperatorStatus_copy original rv st h = Some (copy, h') ∧
     view h' original = Some (Some (tm, k)) ∧
     view h' copy = Some (Some (tm, kueue_set_OperatorStatus vst (kueue_set_ResourceVersion rv k)))).
Proof.
  intros Hv Hsp Hst. split.
  - destruct (copy_and_store h original (tm, k)
      (tm, kueue_set_OperatorSpec vsp (kueue_set_ResourceVersion rv k))
      (λ k, kueue_assign rv sp (kst_OperatorStatus (ku_Status k)) k) (reach h sp) Hv
      (view_reach _ _ _ Hsp)) as (o & h' & ?); [|by exists (Ptr (Some o)), h'].
    intros h1 k1 Hs Hk. destruct (view_mono _ _ _ _ Hs Hsp) as (Hsp1 & <- & _).
    destruct (parts_view _ _ _ _ Hk) as [_ Hst1]. split.
    + rewrite (assign_view _ _ _ _ _ _ _ _ _ Hk Hsp1 Hst1). by destruct k as [? ? []].
    + etrans; [apply assign_reach|]. pose proof (parts_reach h1 k1). clear -H. reach_solver.
  - destruct (copy_and_store h original (tm, k)
      (tm, kueue_set_OperatorStatus vst (kueue_set_ResourceVersion rv k))
      (λ k, kueue_assign rv (ks_OperatorSpec (ku_Spec k)) st k) (reach h st) Hv
      (view_reach _ _ _ Hst)) as (o & h' & ?); [|by exists (Ptr (Some o)), h'].
    intros h1 k1 Hs Hk. destruct (view_mono _ _ _ _ Hs Hst) as (Hst1 & <- & _).
    destruct (parts_view _ _ _ _ Hk) as [Hsp1 _]. split.
    + rewrite (assign_view _ _ _ _ _ _ _ _ _ Hk Hsp1 Hst1). by destruct k as [? [] ?].
    + etrans; [apply assign_reach|]. pose proof (parts_reach h1 k1). clear -H. reach_solver.
Qed.
End client.

Lemma modifiedKueue_spec_witness :
  view Example.heap Example.original = Some (Some (Go.ku_TypeMeta Example.kueue, Example.value)) ∧
  ∃ modified h', Finalizers.modifiedKueue false Example.original Example.heap = Some (modified, h') ∧
    view h' Example.original = Some (Some (Go.ku_TypeMeta Example.kueue, Example.value)) ∧
    view h' modified = Some (Some (Go.ku_TypeMeta Example.kueue,
      kueue_set_meta (meta_set_Finalizers ["other"] (ApiTypes.ku_ObjectMeta Example.value)) Example.value)).
Proof. split; [exact example_view|exact (modifiedKueue_spec false _ _ _ _ example_view)]. Defined.

Lemma UpdateOperator_copies_spec_witness :
  view Example.heap Example.original = Some (Some (Go.ku_TypeMeta Example.kueue, Example.value)) ∧
  ∃ copy h', Client.UpdateOperatorSpec_copy Example.original "8"
      (Go.ks_OperatorSpec (Go.ku_Spec Example.kueue)) Example.heap = Some (copy, h') ∧
    view h' Example.original = Some (Some (Go.ku_TypeMeta Example.kueue, Example.value)) ∧
    view h' copy = Some (Some (Go.ku_TypeMeta Example.kueue,
      kueue_set_OperatorSpec (ks_OperatorSpec (ku_Spec Example.value))
        (kueue_set_ResourceVersion "8" Example.value))).
Proof.
  split; [exact example_view|].
  refine (proj1 (UpdateOperator_copies_spec Example.heap Example.original "8" _
    (Go.kst_OperatorStatus (Go.ku_Status Example.kueue)) _ _ _ _ example_view _ _));
    vm_compute; reflexivity.
Defined.
