(* ===== verification/Starter.v ===== *)
(** * The start of the operator

    [pkg/operator/starter.go]: [RunOperator], from the clients to the running
    controllers; [NewTargetConfigReconciler] and the event handlers of
    [target_config_reconciler.go]; [pkg/namespace/namespace.go]. The last
    theorem connects the start to the reconciliation: the caches that [sync]
    reads are those of informers that were started. *)
From S2P Require Import Prelude GoStd K8s ApiTypes DraHelpers ConfigMap TlsProfile K8sObjects.
From S2P Require Import Effects Monad Cert Finalizer Reconciler Discovery Conditions CachedApply.
From S2P Require Import Cleanup Manage Managed Sync SyncSafety.

(** ** The namespace and the initial receiver *)

(** [namespace.GetNamespace]: the service account's file, the environment
    variable, or the default. *)
Definition GetNamespace (serviceAccountNamespace : error + string) (POD_NAMESPACE : string) : string :=
  match serviceAccountNamespace with
  | inr nsBytes => nsBytes
  | inl _ => if 0 <? String.length POD_NAMESPACE then POD_NAMESPACE else "openshift-kueue-operator"
  end.

Definition ServiceMonitorKind : GroupVersionKind :=
  {| gvk_Group := "monitoring.coreos.com"; gvk_Version := "v1"; gvk_Kind := "ServiceMonitor" |}.

(** The data of the new receiver: an empty cache, the gates off. *)
Definition initialTCR (ns image : string) : TCR := {|
  operatorNamespace := ns; resourceCache := ∅; kueueImage := image;
  serviceMonitorSupport := false; isOpenShift := false;
  draPartitionableDevicesEnabled := false; draConsumableCapacityEnabled := false |}.

Definition detectPlatform : M TCR unit :=
  found ← isResourceRegistered ServiceMonitorKind;
  mmodify (tcr_set_serviceMonitorSupport found) ;;
  openshift ← detectOpenShift;
  mmodify (tcr_set_isOpenShift openshift).

(** ** Event handlers *)

(** [eventHandler] and the ConfigMap handler of [NewTargetConfigReconciler]:
    what an informer's event adds to the queue. *)
Record queueItem := { qi_kind : string; qi_name : string }.
Inductive informer_event : Type := OnAdd | OnUpdate | OnDelete.
Definition eventHandler (item : queueItem) (e : informer_event) : list queueItem := [item].
Definition configMapHandler (e : informer_event) (cm : option ConfigMap) : list queueItem :=
  match e, cm with
  | OnAdd, _ => []
  | _, Some cm => [{| qi_kind := "configmap"; qi_name := ko_Name cm |}]
  | _, None => []
  end.

(** [stripStatusTransform] on the objects of the model: only a deployment
    carries its status. *)
Definition stripStatusTransform {k} : obj k → obj k :=
  match k return obj k → obj k with
  | KDeployment => set_body (λ b : DeploymentBody,
      {| dep_Spec := dep_Spec b; dep_Status := {| ds_ReadyReplicas := 0; ds_UnavailableReplicas := 0 |} |})
  | _ => λ o, o
  end.

(** ** Clients, informers, controllers *)

Inductive rest_config : Type := KubeConfig | ProtoKubeConfig.

(** The results of the [NewForConfig] functions, by the variable they are
    assigned to; the last is an argument of the aggregator's factory. *)
Inductive client : Type :=
  | kubeClient | dynamicClient | discoveryClient | operatorConfigClient | lwsOperatorConfigClient
  | jobsetOperatorConfigClient | osrClient | crdClient | crdClientSet | apiRegistrationClient
  | openshiftConfigClient | aggregatorClientset.

Inductive informer_factory : Type :=
  | operatorConfigInformers | kubeInformersForNamespaces | crdInformer | apiregistrationInformer
  | kubeInformer | configInformer.
#[export] Instance informer_factory_eq_dec : EqDecision informer_factory.
Proof. solve_decision. Defined.

Inductive resource : Type := RKind (k : kind) | RKueue | RAPIServer.
#[export] Instance resource_eq_dec : EqDecision resource.
Proof. solve_decision. Defined.

(** An informer: its factory, the namespace it was asked for
    ([InformersFor]; empty for the other factories), its resource. *)
Record informer := { inf_factory : informer_factory; inf_namespace : string; inf_resource : resource }.
#[export] Instance informer_eq_dec : EqDecision informer.
Proof. solve_decision. Defined.

(** [factory.Controller]: the receiver its [sync] runs on, the informers it
    waits for and is triggered by, and the resync interval. *)
Record controller := {
  ctl_receiver : TCR;
  ctl_informers : list informer;
  ctl_resync : Z;
}.

(** What the start does, in order. [AInformer] is a call of [Informer()],
    which asks the factory for the informer: a factory starts only those that
    it was asked for before [AStart]. *)
Inductive action : Type :=
  | ANewClient (cfg : rest_config) (c : client)
  | ANewFactory (f : informer_factory) (resync : Z) (transform : bool)
  | AInformer (i : informer)
  | AAddEventHandler (i : informer)
  | AStart (f : informer_factory)
  | ARunLogLevelController (workers : Z)
  | ARunReconciler (c : controller) (workers : Z).

Definition Minute : Z := 60 * Second.

(** The namespaces of [NewKubeInformersForNamespaces]. *)
Definition informerNamespaces (OperatorNamespace : string) : list string := [""; OperatorNamespace].

Section start.
(** The clients' constructors, client-go's registration of handlers; the
    controller context of library-go and the process's environment. *)
Context (NewForConfig : rest_config → client → option error).
Context (AddEventHandler : informer → option error).
Context (OperatorNamespace : string) (serviceAccountNamespace : error + string).
Context (POD_NAMESPACE RELATED_IMAGE_OPERAND_IMAGE : string).

Notation B := (M (list action)).

Definition act (a : action) : B unit := mmodify (λ log, log ++ [a]).

Definition newClient (cfg : rest_config) (c : client) : B unit :=
  of_err (NewForConfig cfg c) ;; act (ANewClient cfg c).

(** [NewForConfigOrDie] *)
Definition newClientOrDie (cfg : rest_config) (c : client) : B unit :=
  match NewForConfig cfg c with
  | Some err => panic "NewForConfigOrDie"
  | None => act (ANewClient cfg c)
  end.

(** [kubeInformersForNamespaces.InformersFor(ns)...Informer()]: the factory
    of a namespace that is not there is nil. *)
Definition informerOf (i : informer) : B unit :=
  match inf_factory i with
  | kubeInformersForNamespaces =>
      if bool_decide (inf_namespace i ∈ informerNamespaces OperatorNamespace) then act (AInformer i)
      else panic "invalid memory address or nil pointer dereference"
  | _ => act (AInformer i)
  end.

Definition addEventHandler (i : informer) : B unit :=
  informerOf i ;; of_err (AddEventHandler i) ;; act (AAddEventHandler i).

(** Code of the receiver [c], while the start goes on. *)
Definition on_receiver {A} (m : M TCR A) (c : TCR) : B (TCR * A) := λ log,
  pbind (m c) (λ p : TCR * res A,
    match p.2 with
    | Ok a => Ret (log, Ok (p.1, a))
    | Err e => Ret (log, Err e)
    | Panic msg => Ret (log, Panic msg)
    end).

Definition kueueInformer : informer :=
  {| inf_factory := operatorConfigInformers; inf_namespace := ""; inf_resource := RKueue |}.
Definition namespacedInformer (ns : string) (k : kind) : informer :=
  {| inf_factory := kubeInformersForNamespaces; inf_namespace := ns; inf_resource := RKind k |}.
Definition clusterInformer (f : informer_factory) (k : kind) : informer :=
  {| inf_factory := f; inf_namespace := ""; inf_resource := RKind k |}.
Definition apiServerInformer : informer :=
  {| inf_factory := configInformer; inf_namespace := ""; inf_resource := RAPIServer |}.

(** [informerList] after its first element, [kueueClient.Informer()], which
    was asked for when [kueueClient] was made. *)
Definition informerList (ns : string) : list informer :=
  [namespacedInformer ns KDeployment;
   clusterInformer kubeInformer KClusterRole;
   clusterInformer kubeInformer KClusterRoleBinding;
   clusterInformer kubeInformer KRole;
   clusterInformer kubeInformer KRoleBinding;
   clusterInformer crdInformer KCRD;
   namespacedInformer ns KMutatingWebhookConfiguration;
   namespacedInformer ns KValidatingWebhookConfiguration;
   clusterInformer kubeInformer KPriorityLevelConfiguration;
   namespacedInformer ns KConfigMap;
   namespacedInformer ns KSecret;
   namespacedInformer ns KService;
   namespacedInformer ns KServiceAccount;
   namespacedInformer ns KNetworkPolicy;
   clusterInformer kubeInformer KFlowSchema;
   clusterInformer apiregistrationInformer KAPIService].

(** On OpenShift the APIServer resource is watched too, through a factory of
    the reconciler's own. *)
Definition watchAPIServer (openshift : bool) : B (list informer) :=
  if openshift then
    act (ANewFactory configInformer (10 * Minute) false) ;;
    informerOf apiServerInformer ;;
    act (AStart configInformer) ;;
    mret [apiServerInformer]
  else mret [].

Definition NewTargetConfigReconciler : B controller :=
  let c := initialTCR (GetNamespace serviceAccountNamespace POD_NAMESPACE) RELATED_IMAGE_OPERAND_IMAGE in
  addEventHandler kueueInformer ;;
  addEventHandler (namespacedInformer (operatorNamespace c) KConfigMap) ;;
  '(c, _) ← on_receiver detectPlatform c;
  mfold (λ _ i, informerOf i) tt (informerList (operatorNamespace c)) ;;
  apiServers ← watchAPIServer (isOpenShift c);
  mret {| ctl_receiver := c;
          ctl_informers := kueueInformer :: informerList (operatorNamespace c) ++ apiServers;
          ctl_resync := 5 * Minute |}.

(** [RunOperator]; the controllers run until the context is done. *)
Definition newClients : B unit :=
  newClient ProtoKubeConfig kubeClient ;;
  newClient ProtoKubeConfig dynamicClient ;;
  act (ANewFactory kubeInformersForNamespaces (10 * Minute) false) ;;
  newClient KubeConfig discoveryClient ;;
  newClient KubeConfig operatorConfigClient ;;
  newClient KubeConfig lwsOperatorConfigClient ;;
  newClient KubeConfig jobsetOperatorConfigClient ;;
  act (ANewFactory operatorConfigInformers (10 * Minute) false) ;;
  informerOf kueueInformer ;;
  newClient KubeConfig osrClient ;;
  newClient KubeConfig crdClient ;;
  newClient ProtoKubeConfig crdClientSet ;;
  newClient KubeConfig apiRegistrationClient ;;
  newClient KubeConfig openshiftConfigClient.

Definition newFactories : B unit :=
  act (ANewFactory crdInformer (10 * Minute) true) ;;
  newClientOrDie KubeConfig aggregatorClientset ;;
  act (ANewFactory apiregistrationInformer (5 * Minute) true) ;;
  act (ANewFactory kubeInformer (5 * Minute) true).

Definition startInformers : B unit :=
  act (AStart operatorConfigInformers) ;;
  act (AStart kubeInformersForNamespaces) ;;
  act (AStart crdInformer) ;;
  act (AStart apiregistrationInformer) ;;
  act (AStart kubeInformer).

Definition RunOperator : B unit :=
  newClients ;;
  newFactories ;;
  targetConfigReconciler ← NewTargetConfigReconciler;
  startInformers ;;
  act (ARunLogLevelController 1) ;;
  act (ARunReconciler targetConfigReconciler 1).
End start.

(** ** What a start leaves behind *)

(** What starts something: an informer factory or a controller. *)
Definition is_launch (a : action) : Prop :=
  match a with
  | AStart _ => True
  | ARunLogLevelController _ | ARunReconciler _ _ => True
  | _ => False
  end.

Definition precedes {A} (a b : A) (l : list A) : Prop := ∃ l1 l2 l3, l = l1 ++ a :: l2 ++ b :: l3.

(** The informer behind a lister of the receiver, as the methods name it. *)
Definition lister_informer (k : kind) (ns : string) : option informer :=
  match k with
  | KClusterRole | KClusterRoleBinding | KRole | KRoleBinding | KPriorityLevelConfiguration =>
      Some (clusterInformer kubeInformer k)
  | KCRD => Some (clusterInformer crdInformer k)
  | KNetworkPolicy | KDeployment => Some (namespacedInformer ns k)
  | _ => None
  end.

(** The clients with the configuration each is made from. *)
Definition clients : list (rest_config * client) :=
  [(ProtoKubeConfig, kubeClient); (ProtoKubeConfig, dynamicClient); (KubeConfig, discoveryClient);
   (KubeConfig, operatorConfigClient); (KubeConfig, lwsOperatorConfigClient);
   (KubeConfig, jobsetOperatorConfigClient); (KubeConfig, osrClient); (KubeConfig, crdClient);
   (ProtoKubeConfig, crdClientSet); (KubeConfig, apiRegistrationClient);
   (KubeConfig, openshiftConfigClient); (KubeConfig, aggregatorClientset)].

Definition launches (ctl : controller) : list action :=
  [AStart operatorConfigInformers; AStart kubeInformersForNamespaces; AStart crdInformer;
   AStart apiregistrationInformer; AStart kubeInformer; ARunLogLevelController 1; ARunReconciler ctl 1].

Section properties.
Context (NewForConfig : rest_config → client → option error).
Context (AddEventHandler : informer → option error).
Context (OperatorNamespace : string) (sa : error + string) (env image : string).
Let opns := GetNamespace sa env.

Definition ServiceMonitorGV : string := "monitoring.coreos.com/v1".

(** Where an error of the start comes from. *)
Definition start_error (h : trace) (e : error) : Prop :=
  (∃ cfg c, (cfg, c) ∈ clients ∧ NewForConfig cfg c = Some e) ∨ (∃ i, AddEventHandler i = Some e) ∨
  (Ev (CServerResourcesForGroupVersion ServiceMonitorGV) (inl e) ∈ h ∧ IsNotFound e = false).
Definition crashes : Prop :=
  opns ∉ informerNamespaces OperatorNamespace ∨ NewForConfig KubeConfig aggregatorClientset ≠ None.

Notation B := (M (list action)).

(** [boots m Q]: [m] launches nothing; it returns with [Q] of the result and
    the actions it took, or fails for one of the reasons above. *)
Definition boots {A} (m : B A) (Q : A → list action → Prop) : Prop := ∀ log h,
  wpM (λ _ _, True) m log h (λ h' log' r, ∃ t, log' = log ++ t ∧ Forall (λ a, ¬ is_launch a) t ∧
    match r with Ok a => Q a t | Err e => start_error h' e | Panic _ => crashes end).

Lemma boots_mono {A} (m : B A) (Q Q' : A → list action → Prop) :
  boots m Q → (∀ a t, Q a t → Q' a t) → boots m Q'.
Proof.
  intros Hm HQ log h. eapply wpM_mono; [|apply Hm]. intros h' log' r (t & -> & Ht & Hr).
  exists t. split_and!; [done..|]. destruct r; auto.
Qed.

Lemma boots_ret {A} (a : A) (Q : A → list action → Prop) :
  Q a [] → boots (mret a) Q.
Proof. intros HQ log h. apply wpM_ret. exists []. rewrite app_nil_r. split_and!; auto. Qed.

Lemma boots_act a (Q : unit → list action → Prop) :
  ¬ is_launch a → Q tt [a] → boots (act a) Q.
Proof. intros Ha HQ log h. apply wpM_modify. exists [a]. split_and!; auto. Qed.

Lemma boots_bind {A C} (m : B A) (f : A → B C) Q R :
  boots m Q → (∀ a t, Q a t → boots (f a) (λ c t', R c (t ++ t'))) → boots (m ≫= f) R.
Proof.
  intros Hm Hf log h. apply wpM_bind. eapply wpM_mono; [|apply Hm].
  intros h1 log1 [a|e|p] (t & -> & Ht & Hr); [|by exists t..].
  eapply wpM_mono; [|apply (Hf a t Hr)].
  intros h2 log2 r (t' & -> & Ht' & Hr'). exists (t ++ t'). rewrite app_assoc.
  split_and!; [done|by apply Forall_app|done].
Qed.

Lemma boots_newClient cfg c (Q : unit → list action → Prop) :
  (cfg, c) ∈ clients → (NewForConfig cfg c = None → Q tt [ANewClient cfg c]) →
  boots (newClient NewForConfig cfg c) Q.
Proof.
  intros Hc HQ log h. unfold newClient. apply wpM_bind.
  destruct (NewForConfig cfg c) as [e|] eqn:E.
  - exists []. rewrite app_nil_r. split_and!; [done..|]. left. by exists cfg, c.
  - cbn [of_err]. apply wpM_ret, wpM_modify. exists [ANewClient cfg c]. split_and!; [done| |auto].
    repeat constructor. by intros [].
Qed.

Lemma boots_newClientOrDie (Q : unit → list action → Prop) :
  (NewForConfig KubeConfig aggregatorClientset = None →
     Q tt [ANewClient KubeConfig aggregatorClientset]) →
  boots (newClientOrDie NewForConfig KubeConfig aggregatorClientset) Q.
Proof.
  intros HQ. unfold newClientOrDie.
  destruct (NewForConfig KubeConfig aggregatorClientset) as [e|] eqn:E.
  - intros log h. exists []. rewrite app_nil_r. split_and!; [done..|]. right. by rewrite E.
  - apply boots_act; auto.
Qed.

Lemma boots_informerOf i (Q : unit → list action → Prop) :
  (inf_factory i = kubeInformersForNamespaces → inf_namespace i = opns) →
  ((inf_factory i = kubeInformersForNamespaces → opns ∈ informerNamespaces OperatorNamespace) →
     Q tt [AInformer i]) →
  boots (informerOf OperatorNamespace i) Q.
Proof.
  intros Hi HQ. unfold informerOf. destruct (inf_factory i) eqn:Hf; try by (apply boots_act; [auto|apply HQ]).
  rewrite Hi by done. case_bool_decide as Hn; [by apply boots_act; auto|].
  intros log h. exists []. rewrite app_nil_r. split_and!; [done..|]. by left.
Qed.

Lemma boots_addEventHandler i (Q : unit → list action → Prop) :
  (inf_factory i = kubeInformersForNamespaces → inf_namespace i = opns) →
  ((inf_factory i = kubeInformersForNamespaces → opns ∈ informerNamespaces OperatorNamespace) →
     Q tt [AInformer i; AAddEventHandler i]) →
  boots (addEventHandler AddEventHandler OperatorNamespace i) Q.
Proof.
  intros Hi HQ. unfold addEventHandler.
  eapply boots_bind; [apply (boots_informerOf i (λ _ t, t = [AInformer i] ∧
    (inf_factory i = kubeInformersForNamespaces → opns ∈ informerNamespaces OperatorNamespace))); auto|].
  intros [] t [-> Hns]. destruct (AddEventHandler i) as [e|] eqn:E.
  - intros log h. exists []. rewrite app_nil_r. split_and!; [done..|]. right. left. by exists i.
  - eapply boots_bind; [by apply (boots_ret tt (λ _ t, t = []))|]. intros [] t ->.
    apply boots_act; auto.
Qed.

(** [launches_last m Q]: the same, but for what [m] launches once nothing of
    it can fail any more. *)
Definition launches_last {A} (m : B A) (Q : A → list action → Prop) : Prop := ∀ log h,
  wpM (λ _ _, True) m log h (λ h' log' r, ∃ t, log' = log ++ t ∧
    match r with
    | Ok a => Q a t
    | Err e => start_error h' e ∧ Forall (λ a, ¬ is_launch a) t
    | Panic _ => crashes ∧ Forall (λ a, ¬ is_launch a) t
    end).

Lemma launches_last_act a : launches_last (act a) (λ _ t, t = [a]).
Proof. intros log h. apply wpM_modify. by exists [a]. Qed.

(** Nothing fails in [m]. *)
Lemma launches_last_ok {A} (m : B A) (Q : A → list action → Prop) :
  (∀ log, ∃ a t, m log = Ret (log ++ t, Ok a) ∧ Q a t) → launches_last m Q.
Proof.
  intros Hm log h. destruct (Hm log) as (a & t & Hr & HQ). unfold wpM. rewrite Hr. by exists t.
Qed.

Lemma launches_last_bind {A C} (m : B A) (f : A → B C) Q R :
  boots m Q → (∀ a t, Q a t → launches_last (f a) (λ c t', R c (t ++ t'))) → launches_last (m ≫= f) R.
Proof.
  intros Hm Hf log h. apply wpM_bind. eapply wpM_mono; [|apply Hm].
  intros h1 log1 [a|e|p] (t & -> & Ht & Hr); [|by exists t..].
  eapply wpM_mono; [|apply (Hf a t Hr)].
  intros h2 log2 r (t' & -> & Hr'). exists (t ++ t'). rewrite app_assoc. split; [done|].
  destruct r as [c|e|p]; [exact Hr'|..]; (split; [apply Hr'|apply Forall_app; split; [done|apply Hr']]).
Qed.

Lemma boots_act' a : ¬ is_launch a → boots (act a) (λ _ t, t = [a]).
Proof. intros Ha. by apply boots_act. Qed.
Lemma boots_newClient' cfg c :
  (cfg, c) ∈ clients →
  boots (newClient NewForConfig cfg c) (λ _ t, t = [ANewClient cfg c] ∧ NewForConfig cfg c = None).
Proof. intros Hc. by apply boots_newClient. Qed.

(** *** The platform *)

Lemma detectOpenShift_wp {S} (s : S) h :
  wpM (λ _ _, True) detectOpenShift s h (λ h' s' r, s' = s ∧ (∃ t, h' = h ++ t) ∧ ∃ b, r = Ok b).
Proof.
  unfold detectOpenShift. generalize 6. intros n. revert h.
  induction n as [|n IH]; intros h; cbn [detectOpenShift_loop].
  { split; [done|]. split; [exists []; by rewrite app_nil_r|by eexists]. }
  unfold ServerResourcesForGroupVersion. apply wpM_bind, wpM_try.
  apply (wpM_call_sum _ (CServerResourcesForGroupVersion _) (λ r, r)); [done|].
  intros [e|l]; [|split; [done|split; by eexists]].
  destruct (IsNotFound e); [split; [done|split; by eexists]|].
  apply wpM_bind, wpM_call; [done|]. intros [].
  - split; [done|]. split; [eexists; by rewrite <-app_assoc|by eexists].
  - eapply wpM_mono; [|apply IH]. intros h' s' r (-> & [t ->] & Hb).
    split; [done|]. split; [eexists; by rewrite <-!app_assoc|done].
Qed.

(** The receiver that [detectPlatform] leaves, by the answer on
    ServiceMonitors. *)
Definition fresh (c : TCR) : Prop :=
  operatorNamespace c = opns ∧ kueueImage c = image ∧ resourceCache c = ∅ ∧
  draPartitionableDevicesEnabled c = false ∧ draConsumableCapacityEnabled c = false.
Definition monitors_known (h : trace) (c : TCR) (r : res unit) : Prop :=
  ∃ a, Ev (CServerResourcesForGroupVersion ServiceMonitorGV) a ∈ h ∧
    match a with
    | inl e => (IsNotFound e = true ∧ r = Ok tt ∧ serviceMonitorSupport c = false) ∨
               (IsNotFound e = false ∧ r = Err e)
    | inr l => r = Ok tt ∧ serviceMonitorSupport c = existsb (λ x, ar_Kind x =s "ServiceMonitor") l
    end.

Lemma detectPlatform_wp h :
  wpM (λ _ _, True) detectPlatform (initialTCR opns image) h (λ h' c r,
    fresh c ∧ monitors_known h' c r).
Proof.
  unfold detectPlatform, isResourceRegistered, ServerResourcesForGroupVersion.
  apply wpM_bind, wpM_bind, wpM_try.
  apply (wpM_call_sum _ (CServerResourcesForGroupVersion _) (λ r, r)); [done|].
  assert (Hrest : ∀ (a : error + list APIResource) b,
    (match a with inl e => IsNotFound e = true ∧ b = false
                | inr l => b = existsb (λ x, ar_Kind x =s "ServiceMonitor") l end) →
    wpM (λ _ _, True) (mmodify (tcr_set_serviceMonitorSupport b) ;; openshift ← detectOpenShift;
      mmodify (tcr_set_isOpenShift openshift)) (initialTCR opns image)
      (h ++ [Ev (CServerResourcesForGroupVersion ServiceMonitorGV) a])
      (λ h' c r, fresh c ∧ monitors_known h' c r)).
  { intros a b Ha. apply wpM_bind, wpM_modify, wpM_bind.
    eapply wpM_mono; [|apply detectOpenShift_wp]. intros h' s' r (-> & [t ->] & o & ->).
    apply wpM_modify. split; [done|]. exists a. split; [apply elem_of_earlier, elem_of_last|].
    destruct a as [e|l]; [destruct Ha as [He ->]; by left|by subst b]. }
  intros [e|l].
  - destruct (IsNotFound e) eqn:He; [by apply (Hrest (inl e))|].
    split; [done|]. exists (inl e). split; [apply elem_of_last|by right].
  - by apply (Hrest (inr l)).
Qed.

Lemma boots_platform (Q : TCR * unit → list action → Prop) :
  (∀ c, fresh c → Q (c, tt) []) → boots (on_receiver detectPlatform (initialTCR opns image)) Q.
Proof.
  intros HQ log h. unfold wpM, on_receiver. apply wp_bind.
  eapply wp_mono; [|apply detectPlatform_wp]. intros h' [c r] [Hf (a & Ha & Hr)].
  destruct a as [e|l]; [destruct Hr as [(_ & -> & _)|[He ->]]|destruct Hr as [-> _]];
    (exists []; rewrite app_nil_r; split_and!; [done..|]); [by apply HQ| |by apply HQ].
  right. by right.
Qed.

(** *** The steps of the start *)

Ltac boot_bind := first [eapply boots_bind | eapply launches_last_bind].
Ltac boot_step :=
  first
    [ boot_bind; [apply boots_newClient'; set_solver|]; intros [] ? [-> ?]
    | boot_bind;
        [apply (boots_newClientOrDie (λ _ t, t = [ANewClient KubeConfig aggregatorClientset] ∧
           NewForConfig KubeConfig aggregatorClientset = None)); done|]; intros [] ? [-> ?]
    | boot_bind; [apply boots_act'; by intros []|]; intros [] ? ->
    | boot_bind;
        [match goal with |- boots (informerOf _ ?i) _ =>
           by apply (boots_informerOf i (λ _ t, t = [AInformer i])) end|]; intros [] ? ->
    | boot_bind;
        [match goal with |- boots (addEventHandler _ _ ?i) _ =>
           by apply (boots_addEventHandler i (λ _ t, t = [AInformer i; AAddEventHandler i] ∧
             (inf_factory i = kubeInformersForNamespaces → opns ∈ informerNamespaces OperatorNamespace))) end|];
        intros [] ? [-> ?] ].

Definition made (p : rest_config * client) : Prop := NewForConfig p.1 p.2 = None.

Definition clientActions : list action :=
  [ANewClient ProtoKubeConfig kubeClient; ANewClient ProtoKubeConfig dynamicClient;
   ANewFactory kubeInformersForNamespaces (10 * Minute) false;
   ANewClient KubeConfig discoveryClient; ANewClient KubeConfig operatorConfigClient;
   ANewClient KubeConfig lwsOperatorConfigClient; ANewClient KubeConfig jobsetOperatorConfigClient;
   ANewFactory operatorConfigInformers (10 * Minute) false; AInformer kueueInformer;
   ANewClient KubeConfig osrClient; ANewClient KubeConfig crdClient;
   ANewClient ProtoKubeConfig crdClientSet; ANewClient KubeConfig apiRegistrationClient;
   ANewClient KubeConfig openshiftConfigClient].
Definition factoryActions : list action :=
  [ANewFactory crdInformer (10 * Minute) true; ANewClient KubeConfig aggregatorClientset;
   ANewFactory apiregistrationInformer (5 * Minute) true; ANewFactory kubeInformer (5 * Minute) true].
Definition handlerActions : list action :=
  [AInformer kueueInformer; AAddEventHandler kueueInformer;
   AInformer (namespacedInformer opns KConfigMap); AAddEventHandler (namespacedInformer opns KConfigMap)].
Definition watchActions (openshift : bool) : list action :=
  if openshift then [ANewFactory configInformer (10 * Minute) false; AInformer apiServerInformer;
                     AStart configInformer]
  else [].

Lemma boots_newClients : boots (newClients NewForConfig OperatorNamespace)
  (λ _ t, t = clientActions ∧ Forall made (take 11 clients)).
Proof.
  unfold newClients. repeat boot_step. apply boots_newClient; [set_solver|]. intros.
  split; [done|]. by repeat constructor.
Qed.

Lemma boots_newFactories : boots (newFactories NewForConfig)
  (λ _ t, t = factoryActions ∧ made (KubeConfig, aggregatorClientset)).
Proof. unfold newFactories. repeat boot_step. by apply boots_act; [intros []|]. Qed.

Lemma boots_informers l :
  Forall (λ i, inf_factory i = kubeInformersForNamespaces → inf_namespace i = opns) l →
  boots (mfold (λ _ i, informerOf OperatorNamespace i) tt l) (λ _ t, t = map AInformer l).
Proof.
  induction 1 as [|i l Hi _ IH]; cbn [mfold map]; [by apply boots_ret|].
  eapply boots_bind; [by apply (boots_informerOf i (λ _ t, t = [AInformer i]))|]. intros [] t ->.
  eapply boots_mono; [exact IH|]. by intros [] t ->.
Qed.

(** The controller over the receiver [c], and the actions that make it. *)
Definition controllerOf (c : TCR) : controller := {|
  ctl_receiver := c;
  ctl_informers := kueueInformer :: informerList opns ++ if isOpenShift c then [apiServerInformer] else [];
  ctl_resync := 5 * Minute |}.

(** The factory of the APIServer's informer starts when nothing can fail. *)
Lemma watchAPIServer_last (b : bool) (f : list informer → controller) : launches_last
  (apiServers ← watchAPIServer OperatorNamespace b; mret (f apiServers))
  (λ ctl t, t = watchActions b ∧ ctl = f (if b then [apiServerInformer] else [])).
Proof.
  apply launches_last_ok. intros log.
  exists (f (if b then [apiServerInformer] else [])), (watchActions b). split; [|done]. destruct b.
  - transitivity (Ret (((log ++ [ANewFactory configInformer (10 * Minute) false]) ++
      [AInformer apiServerInformer]) ++ [AStart configInformer], Ok (f [apiServerInformer])));
      [reflexivity|by rewrite <-!app_assoc].
  - cbn. by rewrite app_nil_r.
Qed.

Lemma launches_NewTargetConfigReconciler :
  launches_last (NewTargetConfigReconciler AddEventHandler OperatorNamespace sa env image)
    (λ ctl t, opns ∈ informerNamespaces OperatorNamespace ∧ ∃ c, fresh c ∧ ctl = controllerOf c ∧
       t = handlerActions ++ map AInformer (informerList opns) ++ watchActions (isOpenShift c)).
Proof.
  unfold NewTargetConfigReconciler. cbv zeta. fold opns. repeat boot_step.
  eapply launches_last_bind; [by apply (boots_platform (λ p t, t = [] ∧ fresh p.1))|].
  intros [c []] ? [-> Hc]. cbn [fst] in Hc. rewrite (proj1 Hc).
  eapply launches_last_bind; [apply boots_informers; by repeat constructor|]. intros [] ? ->.
  intros log h. eapply wpM_mono; [|apply watchAPIServer_last]. intros h' log' r (t & -> & Hr). exists t.
  split; [done|]. destruct r as [ctl|e|p]; [|exact Hr..]. destruct Hr as [-> ->].
  split; [auto|]. by exists c.
Qed.

(** Everything that comes before the launch. *)
Definition preparation (c : TCR) : list action :=
  clientActions ++ factoryActions ++ handlerActions ++ map AInformer (informerList opns) ++
  watchActions (isOpenShift c).

Lemma RunOperator_wp h :
  wpM (λ _ _, True) (RunOperator NewForConfig AddEventHandler OperatorNamespace sa env image) [] h
    (λ h' log r,
      match r with
      | Ok _ => opns ∈ informerNamespaces OperatorNamespace ∧ Forall made clients ∧ ∃ c, fresh c ∧
          log = preparation c ++ launches (controllerOf c)
      | Err e => start_error h' e ∧ Forall (λ a, ¬ is_launch a) log
      | Panic _ => crashes ∧ Forall (λ a, ¬ is_launch a) log
      end).
Proof.
  unfold RunOperator. apply wpM_bind. eapply wpM_mono; [|apply boots_newClients].
  intros h1 log [[]|e|p] (t1 & -> & Ht1 & H1); [|by split..]. destruct H1 as [-> Hm].
  apply wpM_bind. eapply wpM_mono; [|apply boots_newFactories].
  intros h2 log [[]|e|p] (t2 & -> & Ht2 & H2); [|by (split; [done|apply Forall_app])..].
  destruct H2 as [-> Ha]. apply wpM_bind. eapply wpM_mono; [|apply launches_NewTargetConfigReconciler].
  intros h3 log [ctl|e|p] (t3 & -> & H3);
    [|by (destruct H3; split; [done|apply Forall_app; split; [by apply Forall_app|]])..].
  destruct H3 as (Hns & c & Hc & -> & ->). split; [done|]. split.
  { change clients with (take 11 clients ++ [(KubeConfig, aggregatorClientset)]).
    apply Forall_app. by split; [|constructor]. }
  exists c. split; [done|]. unfold startInformers, act, mmodify, preparation.
  cbn -[clientActions factoryActions handlerActions informerList watchActions app]. by rewrite <-!app_assoc.
Qed.

Lemma preparation_split c : ∃ before, preparation c = before ++ watchActions (isOpenShift c) ∧
  Forall (λ a, ¬ is_launch a) before ∧ ∀ p, p ∈ clients → ANewClient p.1 p.2 ∈ before.
Proof.
  exists (clientActions ++ factoryActions ++ handlerActions ++ map AInformer (informerList opns)).
  split; [unfold preparation; by rewrite <-!app_assoc|]. split.
  - repeat apply Forall_app_2; repeat constructor; by intros [].
  - apply Forall_forall. unfold clientActions, factoryActions. repeat constructor; set_solver.
Qed.

Lemma preparation_no_run c ctl n : ARunReconciler ctl n ∉ preparation c.
Proof.
  destruct (preparation_split c) as (before & -> & Hb & _). intros [Hin|Hin]%elem_of_app.
  - rewrite Forall_forall in Hb. by apply (Hb _ Hin).
  - unfold watchActions in Hin. destruct (isOpenShift c); set_solver.
Qed.

(** C35: The start is all or nothing. If [RunOperator] comes to run, every client
    was made, the five informer factories were started in order after
    everything else was prepared, and the two controllers after them, the
    reconciler on a receiver with an empty cache and the DRA gates off. On
    OpenShift the reconciler's own factory, for the APIServer, was made and
    started just before the five. In every other case nothing was started, no
    factory and no controller: an error is that of a client, of a
    handler's registration or of the check for ServiceMonitors; a panic comes
    from an operator namespace that library-go's controller context does not
    have, or from the aggregator's client. *)
Theorem RunOperator_spec tr log r :
  runs (RunOperator NewForConfig AddEventHandler OperatorNamespace sa env image []) tr (Some (log, r)) →
  match r with
  | Ok _ => Forall made clients ∧ opns ∈ informerNamespaces OperatorNamespace ∧
      ∃ before ctl, log = before ++ watchActions (isOpenShift (ctl_receiver ctl)) ++ launches ctl ∧
        Forall (λ a, ¬ is_launch a) before ∧
        (∀ p, p ∈ clients → ANewClient p.1 p.2 ∈ before) ∧ fresh (ctl_receiver ctl)
  | Err e => start_error tr e ∧ Forall (λ a, ¬ is_launch a) log
  | Panic _ => crashes ∧ Forall (λ a, ¬ is_launch a) log
  end.
Proof.
  intros Hr. destruct (wp_runs _ _ _ _ [] _ Hr (RunOperator_wp [])) as [_ Hq].
  specialize (Hq _ eq_refl). cbn [fst snd app] in Hq. destruct r as [[]|e|p]; [|exact Hq..].
  destruct Hq as (Hns & Hm & c & Hc & ->). split_and!; [done..|].
  destruct (preparation_split c) as (before & -> & Hq & Hcl). exists before, (controllerOf c).
  split_and!; [by rewrite <-app_assoc|done..].
Qed.

Lemma informed_informer (c : TCR) k ns :
  fresh c → informed c k ns →
  ∃ i, lister_informer k ns = Some i ∧ i ∈ informerList opns ∧
    inf_factory i ∈ [kubeInformersForNamespaces; crdInformer; kubeInformer] ∧
    (k = KDeployment → inf_factory i = kubeInformersForNamespaces).
Proof.
  intros (Hn & _) Hi. unfold informed in Hi. rewrite Hn in Hi.
  destruct k; try done; try subst ns; eexists;
    (split; [reflexivity|]; split; [unfold informerList; set_solver|]; split; [cbn; set_solver|done]).
Qed.

(** C36: Once the operator runs, every cache that a reconciliation reads is
    backed: the informer behind the lister is one the reconciler waits for and
    is triggered by, it was asked for before its factory was started, and the
    factory was started before the reconciler. The deployments that are read
    there still carry their status. *)
Theorem sync_reads_informed `{Env} tr log ctl n c tr' o k ns name a :
  runs (RunOperator NewForConfig AddEventHandler OperatorNamespace sa env image []) tr (Some (log, Ok tt)) →
  ARunReconciler ctl n ∈ log →
  same_config (ctl_receiver ctl) c → runs (sync c) tr' o → Ev (CLister k ns name) a ∈ tr' →
  ∃ i, lister_informer k ns = Some i ∧ i ∈ ctl_informers ctl ∧
    precedes (AInformer i) (AStart (inf_factory i)) log ∧
    precedes (AStart (inf_factory i)) (ARunReconciler ctl n) log ∧
    (k = KDeployment → ∀ d, ANewFactory (inf_factory i) d true ∉ log).
Proof.
  intros Hb Hrun Hs Hr Hev.
  destruct (wp_runs _ _ _ _ [] _ Hb (RunOperator_wp [])) as [_ Hq].
  specialize (Hq _ eq_refl). cbn [fst snd] in Hq. destruct Hq as (_ & _ & c0 & Hc0 & ->). clear Hb.
  assert (ctl = controllerOf c0 ∧ n = 1%Z) as [-> ->].
  { apply elem_of_app in Hrun as [Hin|Hin]; [|unfold launches in Hin; set_solver].
    by apply preparation_no_run in Hin. }
  destruct (wp_runs _ _ _ _ _ _ Hr (sync_wp c)) as [Ht _].
  apply list_elem_of_split in Hev as (t1 & t2 & ->).
  apply trace_allowed_split in Ht. change (informed c k ns) in Ht.
  assert (informed c0 k ns) as Hi.
  { unfold informed in *. destruct Hs as [Hs _]. cbn [ctl_receiver controllerOf] in Hs. by rewrite <-Hs. }
  destruct (informed_informer _ _ _ Hc0 Hi) as (i & Hl & Hin & Hf & Hd).
  exists i. split; [done|]. split; [right; apply elem_of_app; by left|].
  assert (AInformer i ∈ preparation c0) as Hp.
  { unfold preparation. apply elem_of_app; right. apply elem_of_app; right. apply elem_of_app; right.
    apply elem_of_app; left. by apply list_elem_of_fmap_2. }
  split_and!.
  - apply list_elem_of_split in Hp as (p1 & p2 & ->).
    assert (AStart (inf_factory i) ∈ launches (controllerOf c0)) as Hst by (unfold launches; set_solver).
    apply list_elem_of_split in Hst as (q1 & q2 & ->).
    exists p1, (p2 ++ q1), q2. by rewrite <-!app_assoc.
  - assert (∃ q1 q2, launches (controllerOf c0) =
      q1 ++ AStart (inf_factory i) :: q2 ++ [ARunReconciler (controllerOf c0) 1]) as (q1 & q2 & ->).
    { unfold launches. rewrite !elem_of_cons in Hf. destruct Hf as [->|[->|[->|Hf]]]; [..|set_solver].
      - by eexists [_], [_; _; _; _].
      - by eexists [_; _], [_; _; _].
      - by eexists [_; _; _; _], [_]. }
    exists (preparation c0 ++ q1), q2, []. by rewrite <-!app_assoc.
  - intros ->. rewrite (Hd eq_refl). intros d Hd'.
    apply elem_of_app in Hd' as [Hd'|Hd']; [|unfold launches in Hd'; set_solver].
    unfold preparation, watchActions, clientActions, factoryActions, handlerActions in Hd'.
    destruct (isOpenShift c0); cbn in Hd'; set_solver.
Qed.
(** *** The reconciler's own start, when its handlers can be registered *)

Hypothesis registers : ∀ i, AddEventHandler i = None.
Hypothesis known : opns ∈ informerNamespaces OperatorNamespace.

Lemma informerOf_ok i log :
  (inf_factory i = kubeInformersForNamespaces → inf_namespace i = opns) →
  informerOf OperatorNamespace i log = Ret (log ++ [AInformer i], Ok tt).
Proof using known.
  intros Hi. unfold informerOf. destruct (inf_factory i); try done.
  rewrite Hi by done. by rewrite bool_decide_true.
Qed.

Lemma addEventHandler_ok i log :
  (inf_factory i = kubeInformersForNamespaces → inf_namespace i = opns) →
  ∃ log', addEventHandler AddEventHandler OperatorNamespace i log = Ret (log', Ok tt).
Proof using registers known.
  intros Hi. unfold addEventHandler, mbind, M_bind. rewrite (informerOf_ok _ _ Hi). cbn.
  rewrite registers. by eexists.
Qed.

Lemma informers_ok l log :
  Forall (λ i, inf_factory i = kubeInformersForNamespaces → inf_namespace i = opns) l →
  ∃ log', mfold (λ _ i, informerOf OperatorNamespace i) tt l log = Ret (log', Ok tt).
Proof using known.
  intros Hl. revert log. induction Hl as [|i l Hi _ IH]; intros log; cbn [mfold]; [by eexists|].
  unfold mbind, M_bind. rewrite (informerOf_ok _ _ Hi). cbn. apply IH.
Qed.

(** The answer on ServiceMonitors decides: an error other than NotFound is
    the result, and otherwise the controller runs on a fresh receiver that
    knows whether there are any. *)
Theorem NewTargetConfigReconciler_spec tr log log' r :
  runs (NewTargetConfigReconciler AddEventHandler OperatorNamespace sa env image log) tr (Some (log', r)) →
  ∃ a, Ev (CServerResourcesForGroupVersion ServiceMonitorGV) a ∈ tr ∧
    let ready b := ∃ c, r = Ok (controllerOf c) ∧ fresh c ∧ serviceMonitorSupport c = b in
    match a with
    | inl e => (IsNotFound e = true ∧ ready false) ∨ (IsNotFound e = false ∧ r = Err e)
    | inr l => ready (existsb (λ x, ar_Kind x =s "ServiceMonitor") l)
    end.
Proof using registers known.
  intros Hr.
  assert (∀ h, wpM (λ _ _, True)
    (NewTargetConfigReconciler AddEventHandler OperatorNamespace sa env image) log h (λ h' _ r,
    ∃ a, Ev (CServerResourcesForGroupVersion ServiceMonitorGV) a ∈ h' ∧
      let ready b := ∃ c, r = Ok (controllerOf c) ∧ fresh c ∧ serviceMonitorSupport c = b in
      match a with
      | inl e => (IsNotFound e = true ∧ ready false) ∨ (IsNotFound e = false ∧ r = Err e)
      | inr l => ready (existsb (λ x, ar_Kind x =s "ServiceMonitor") l)
      end)) as Hwp.
  2:{ destruct (wp_runs _ _ _ _ [] _ Hr (Hwp [])) as [_ Hq]. exact (Hq _ eq_refl). }
  intros h. unfold NewTargetConfigReconciler. cbv zeta. fold opns.
  assert (Hns : inf_factory kueueInformer = kubeInformersForNamespaces →
    inf_namespace kueueInformer = opns) by done.
  apply wpM_bind. unfold wpM at 1. destruct (addEventHandler_ok _ log Hns) as [l1 ->]. cbn [wp fst snd].
  apply wpM_bind. unfold wpM at 1. cbn [operatorNamespace initialTCR].
  destruct (addEventHandler_ok (namespacedInformer opns KConfigMap) l1) as [l2 ->]; [done|].
  cbn [wp fst snd]. apply wpM_bind. unfold wpM at 1, on_receiver. apply wp_bind.
  eapply wp_mono; [|apply detectPlatform_wp]. intros h' [c r'] [Hf (a & Ha & Hr')]. cbn [fst snd] in *.
  assert (Hok : r' = Ok tt → ∀ b, serviceMonitorSupport c = b →
    wpM (λ _ _, True) (mfold (λ _ i, informerOf OperatorNamespace i) tt (informerList (operatorNamespace c)) ;;
      apiServers ← watchAPIServer OperatorNamespace (isOpenShift c);
      mret {| ctl_receiver := c;
              ctl_informers := kueueInformer :: informerList (operatorNamespace c) ++ apiServers;
              ctl_resync := 5 * Minute |}) l2 h' (λ h'' _ r, h'' = h' ∧
        ∃ c, r = Ok (controllerOf c) ∧ fresh c ∧ serviceMonitorSupport c = b)).
  { intros _ b Hb. apply wpM_bind. unfold wpM at 1. rewrite (proj1 Hf).
    destruct (informers_ok (informerList opns) l2) as [l3 ->]; [by repeat constructor|].
    cbn [wp fst snd]. unfold watchAPIServer.
    destruct (isOpenShift c) eqn:Ho; (split; [done|]; exists c; split; [|done]); unfold controllerOf;
      by rewrite Ho. }
  destruct a as [e|l]; [destruct Hr' as [(He & -> & Hb)|[He ->]]|destruct Hr' as [-> Hb]].
  - cbn [wp fst snd]. eapply wpM_mono; [|exact (Hok eq_refl _ Hb)]. intros h2 l3 r2 [-> H2]. exists (inl e).
    split; [done|]. by left.
  - exists (inl e). split; [done|]. by right.
  - cbn [wp fst snd]. eapply wpM_mono; [|exact (Hok eq_refl _ Hb)]. intros h2 l3 r2 [-> H2]. by exists (inr l).
Qed.
End properties.

(** ** Concrete instances *)

#[local] Existing Instance example_env.

Definition example_start : M (list action) unit :=
  RunOperator (λ _ _, None) (λ _, None) "ns" (inr "ns") "" "kueue:v1".

(** A start on the example cluster comes to run. *)
Definition start_result : option (res unit) :=
  (run (example_cluster (example_kueue []) true) (example_start []) 0%Z).1.2 ≫= λ p, Some p.2.
Example example_started : start_result = Some (Ok tt).
Proof. vm_compute. reflexivity. Qed.

Lemma example_start_runs : ∃ tr log, runs (example_start []) tr (Some (log, Ok tt)).
Proof.
  pose proof example_started as He. unfold start_result in He.
  destruct (run (example_cluster (example_kueue []) true) (example_start []) 0%Z) as [[tr o] w] eqn:E.
  cbn [fst snd] in He. destruct o as [[log r]|]; [|done]. injection He as ->.
  exists tr, log. exact (run_runs _ _ _ _ _ _ E).
Qed.

Lemma RunOperator_spec_witness : ∃ tr log, runs (example_start []) tr (Some (log, Ok tt)) ∧
  ∃ before ctl, log = before ++ watchActions (isOpenShift (ctl_receiver ctl)) ++ launches ctl ∧
    Forall (λ a, ¬ is_launch a) before.
Proof.
  destruct example_start_runs as (tr & log & Hr). exists tr, log. split; [exact Hr|].
  destruct (RunOperator_spec _ _ _ _ _ _ _ _ _ Hr) as (_ & _ & before & ctl & Hlog & Hb & _).
  exists before, ctl. split; [exact Hlog|exact Hb].
Defined.

Lemma sync_reads_informed_witness : ∃ tr log ctl,
  runs (example_start []) tr (Some (log, Ok tt)) ∧
  precedes (AInformer (clusterInformer crdInformer KCRD)) (AStart crdInformer) log ∧
  precedes (AStart crdInformer) (ARunReconciler ctl 1) log.
Proof.
  destruct example_start_runs as (tr & log & Hr).
  destruct (wp_runs _ _ _ _ [] _ Hr (RunOperator_wp (λ _ _, None) (λ _, None) "ns" (inr "ns") ""
    "kueue:v1" [])) as [_ Hq].
  specialize (Hq _ eq_refl). cbn [fst snd] in Hq. destruct Hq as (_ & _ & c & _ & Hlog).
  set (ctl := controllerOf (inr "ns") "" c) in Hlog.
  assert (Hin : ARunReconciler ctl 1 ∈ log).
  { rewrite Hlog. apply elem_of_app; right. do 6 right. constructor. }
  set (e := StatusError StatusReasonNotFound 404 "issuers.cert-manager.io").
  assert (runs (sync (ctl_receiver ctl))
    [Ev (CCacheGetKueue OperatorConfigName) (inr (Some (Some (example_kueue []))));
     Ev (CLister KCRD "" "issuers.cert-manager.io") (inl e)] None) as Hs.
  { apply (runs_vis (CCacheGetKueue OperatorConfigName) _ (inr (Some (Some (example_kueue []))))).
    apply (runs_vis (CLister KCRD "" "issuers.cert-manager.io") _ (inl e)). apply runs_stop. }
  destruct (sync_reads_informed _ _ _ _ _ _ _ _ ctl 1 _ _ _ KCRD "" "issuers.cert-manager.io" (inl e)
    Hr Hin (conj eq_refl (conj eq_refl (conj eq_refl eq_refl))) Hs) as (i & Hl & _ & H1 & H2 & _).
  { right. constructor. }
  injection Hl as <-. exists tr, log, ctl. split; [exact Hr|]. split; [exact H1|exact H2].
Defined.

(** The reconciler cannot start in a namespace that the controller context
    does not have. *)
Example start_elsewhere :
  (run (example_cluster (example_kueue []) true)
     (RunOperator (λ _ _, None) (λ _, None) "openshift-config-managed"
        (inl (ErrorString "no such file")) "" "kueue:v1" []) 0%Z).1.2 ≫= (λ p, Some p.2) =
  Some (Panic "invalid memory address or nil pointer dereference").
Proof. vm_compute. reflexivity. Qed.
