(* ===== verification/Command.v ===== *)
(** * The command line

    [cmd/kueue-operator/main.go], [pkg/cmd/operator/cmd.go] and
    [pkg/version/version.go]: the process around [RunOperator]. cobra's
    dispatch of the arguments and library-go's controller command are
    parameters; what the process prints and how it exits is a list of
    actions. *)
From S2P Require Import Prelude GoStd K8s.

(** ** version.go: variables set by the linker *)

Record Info := { Major : string; Minor : string; GitCommit : string; GitVersion : string; BuildDate : string }.
Record ldflags := {
  commitFromGit : string; versionFromGit : string; majorFromGit : string; minorFromGit : string;
  buildDate : string }.
Definition version_Get (v : ldflags) : Info := {|
  Major := majorFromGit v; Minor := minorFromGit v; GitCommit := commitFromGit v;
  GitVersion := versionFromGit v; BuildDate := buildDate v |}.

Section command.
(** [controllercmd.StartFunc]; what a run of the controller command does. *)
Context {StartFunc : Type} (RunOperator : StartFunc) (flags : ldflags).

Record ControllerCommandConfig := {
  componentName : string; config_version : Info; startFunc : StartFunc; DisableServing : bool }.
Definition NewControllerCommandConfig (name : string) (v : Info) (f : StartFunc) : ControllerCommandConfig :=
  {| componentName := name; config_version := v; startFunc := f; DisableServing := false |}.
Definition disable_serving (c : ControllerCommandConfig) : ControllerCommandConfig :=
  {| componentName := componentName c; config_version := config_version c; startFunc := startFunc c;
     DisableServing := true |}.

Inductive process_action : Type :=
  | Help
  | Printf (s : string)
  | Stderr (s : string)
  | Exit (code : Z)
  | RunController (c : ControllerCommandConfig).

(** A [cobra.Command]: [Run] on the arguments. *)
Inductive Command : Type :=
  | command (Use Short : string) (Run : list string → list process_action) (subcommands : list Command).
Definition Use (c : Command) : string := let 'command u _ _ _ := c in u.
Definition Run (c : Command) : list string → list process_action := let 'command _ _ r _ := c in r.
Definition subcommands (c : Command) : list Command := let 'command _ _ _ s := c in s.
Definition AddCommand (sub c : Command) : Command :=
  let 'command u s r l := c in command u s r (l ++ [sub]).

(** [config.NewCommand()]: its [Run]. *)
Context (NewCommand_Run : ControllerCommandConfig → list string → list process_action).

(** cmd.go *)
Definition NewOperator : Command :=
  let config := NewControllerCommandConfig "openshift-kueue-operator" (version_Get flags) RunOperator in
  let config := disable_serving config in
  command "operator" "Start the Cluster Kueue Operator" (NewCommand_Run config) [].

(** main.go. [helpError], [stderrError]: whether printing fails. *)
Context (helpError stderrError : option error).

Definition NewKueueOperatorCommand : Command :=
  let cmd := command "kueue-operator" "OpenShift cluster kueue operator" (λ args,
    [Help] ++
    match helpError with Some err => [Printf ("Unable to print help: " +:+ Error err)] | None => [] end ++
    [Exit 1]) [] in
  AddCommand NewOperator cmd.

(** [command.Execute()]: what it does, and its error. *)
Context (Execute : Command → list string → list process_action * option error).

Definition main (args : list string) : list process_action :=
  let command := NewKueueOperatorCommand in
  let '(acts, err) := Execute command args in
  acts ++
  match err with
  | None => []
  | Some err =>
      [Stderr (Error err +:+ "
")] ++
      match stderrError with
      | Some err => [Printf ("Unable to print err to stderr: " +:+ Error err)]
      | None => []
      end ++ [Exit 1]
  end.

(** cobra's dispatch: without arguments the command itself, with the name of
    a subcommand first the subcommand. *)
Record dispatches : Prop := {
  dispatch_self c : Execute c [] = (Run c [], None);
  dispatch_sub c s args :
    s ∈ subcommands c → (∀ s', s' ∈ subcommands c → Use s' = Use s → s' = s) →
    HasPrefix (hd "" args) "-" = false → Execute c (Use s :: args) = (Run s args, None);
}.

Definition operator_config : ControllerCommandConfig := {|
  componentName := "openshift-kueue-operator"; config_version := version_Get flags;
  startFunc := RunOperator; DisableServing := true |}.

(** [kueue-operator operator] runs the controller command with [RunOperator],
    without the serving endpoint; without arguments the help is printed and
    the exit code is 1, as it is after every error, which is printed. *)
Theorem main_spec (args : list string) :
  dispatches →
  main [] = [Help] ++ (match helpError with
                       | Some err => [Printf ("Unable to print help: " +:+ Error err)] | None => [] end) ++ [Exit 1] ∧
  (HasPrefix (hd "" args) "-" = false → main ("operator" :: args) = NewCommand_Run operator_config args) ∧
  (∀ acts err, Execute NewKueueOperatorCommand args = (acts, Some err) →
     last (main args) = Some (Exit 1) ∧ Stderr (Error err +:+ "
") ∈ main args).
Proof.
  intros [Hself Hsub]. split_and!.
  - unfold main. rewrite Hself. by rewrite app_nil_r.
  - intros Ha. unfold main.
    assert (NewOperator ∈ subcommands NewKueueOperatorCommand) as Hin by (cbn; set_solver).
    pose proof (Hsub NewKueueOperatorCommand NewOperator args Hin) as Hs.
    change (Use NewOperator) with "operator" in Hs. rewrite Hs; [by rewrite app_nil_r| |done].
    intros s' Hs'. cbn in Hs'. set_solver.
  - intros acts err He. unfold main. rewrite He. split; [|set_solver].
    destruct stderrError; rewrite !app_assoc; by rewrite last_snoc.
Qed.
End command.

(** ** Concrete instances *)

(** cobra's dispatch for one level of subcommands. *)
Definition example_Execute {F} (c : Command) (args : list string) : list (@process_action F) * option error :=
  match args with
  | a :: args' =>
      match List.find (λ s, Use s =s a) (subcommands c) with
      | Some s => (Run s args', None)
      | None => ([], Some (ErrorString ("unknown command " +:+ a)))
      end
  | [] => (Run c [], None)
  end.

Lemma main_spec_witness :
  let flags := {| commitFromGit := "abc"; versionFromGit := "v1"; majorFromGit := "1";
                  minorFromGit := "0"; buildDate := "" |} in
  last (main tt flags (λ c _, [RunController c]) None None example_Execute ["oprator"]) = Some (Exit 1) ∧
  main tt flags (λ c _, [RunController c]) None None example_Execute ["operator"] =
    [RunController (operator_config tt flags)].
Proof.
  intros flags. assert (dispatches (@example_Execute unit)) as Hd.
  { split; [done|]. intros c s args Hs Hu _. unfold example_Execute.
    destruct (List.find _ _) as [s'|] eqn:E.
    - apply List.find_some in E as [Hin Hn]. apply bool_decide_eq_true in Hn.
      rewrite (Hu s'); [done|by apply list_elem_of_In|done].
    - apply list_elem_of_In in Hs. apply (List.find_none _ _ E) in Hs. bsplit. congruence. }
  split.
  - exact (proj1 (proj2 (proj2 (main_spec tt flags (λ c _, [RunController c]) None None example_Execute
      ["oprator"] Hd)) _ _ eq_refl)).
  - exact (proj1 (proj2 (main_spec tt flags (λ c _, [RunController c]) None None example_Execute [] Hd)) eq_refl).
Defined.
