(* ===== verification/InformerStart.v ===== *)
(** * The informer of the Kueue resource, from the start to the goroutine

    [RunOperator] asks the generated factory [operatorConfigInformers] for the
    informer of the [Kueue] resource, for the operator client and for the
    reconciler's handler, and starts the factory once.
    Here the log of [Starter] is replayed on the factory of [InformerFactory]. *)
From S2P Require Import Prelude GoStd K8s InformerFactory Effects Monad Reconciler Starter.

Section replay.
Context `{InformerTypes} (c : Interface).

(** [kueueClient.Informer()] and the other accesses to
    [operatorConfigInformers.Kueue().V1().Kueues()]. *)
Definition askKueues (w : world) : world := (Informer (Kueues (V1 (factory_Kueue w))) w).2.

(** The actions of the start on [operatorConfigInformers]; [ctx] is the
    context of the operator. *)
Definition replay_action (ctx : Context) (w : option world) (a : action) : option world :=
  match a with
  | ANewFactory operatorConfigInformers resync _ => Some (new_world (NewSharedInformerFactory c resync))
  | AInformer i => match inf_factory i with operatorConfigInformers => askKueues <$> w | _ => w end
  | AStart operatorConfigInformers => factory_Start ctx <$> w
  | _ => w
  end.
Definition replay (ctx : Context) (log : list action) : option world := foldl (replay_action ctx) None log.
End replay.

(** The informer that the start makes: its list options are those of the
    caller, it is resynced every ten minutes, and it keeps whole objects. *)
Definition kueueInformerOf `{InformerTypes} (c : Interface) : SharedIndexInformer :=
  defaultInformer None {| ki_tweakListOptions := None |} c (10 * Minute)%Z.

Section properties.
Context `{InformerTypes} (c : Interface) (ctx : Context).
Context (NewForConfig : rest_config → Starter.client → option error).
Context (AddEventHandler : informer → option error).
Context (OperatorNamespace : string) (sa : error + string) (env image : string).

Definition running (w : world) : list (reflect_Type * SharedIndexInformer) :=
  (λ g, (go_type g, go_informer g)) <$> w_running w.

(** The factory after the first access; the later ones change nothing. *)
Definition asked : world := askKueues (new_world (NewSharedInformerFactory c (10 * Minute)%Z)).

Lemma asked_informer : informers (w_factory asked) !! KueueType = Some (kueueInformerOf c).
Proof. unfold asked. vm_compute. reflexivity. Qed.

Lemma askKueues_again : askKueues asked = asked.
Proof. unfold askKueues at 1. by rewrite (Informer_had _ _ _ asked_informer). Qed.

Lemma replay_clients : foldl (replay_action c ctx) None clientActions = Some asked.
Proof. reflexivity. Qed.
Lemma replay_handlers : foldl (replay_action c ctx) (Some asked) (handlerActions sa env) = Some asked.
Proof. unfold handlerActions. cbn -[asked askKueues]. by rewrite askKueues_again. Qed.

(** C37: When the operator has started, the generated factory has made exactly
    one informer, that of the [Kueue] resource, and it runs exactly once, in
    the operator's context: the operator client and the reconciler's handler
    share it, no list options restrict it, and it is resynced every ten
    minutes. *)
Theorem kueue_informer_started tr log :
  runs (RunOperator NewForConfig AddEventHandler OperatorNamespace sa env image []) tr (Some (log, Ok tt)) →
  ∃ w, replay c ctx log = Some w ∧ w_made w = [(KueueType, kueueInformerOf c)] ∧
    w_running w = [{| go_type := KueueType; go_informer := kueueInformerOf c; go_ctx := ctx |}].
Proof.
  intros Hr. destruct (wp_runs _ _ _ _ [] _ Hr (RunOperator_wp _ _ _ _ _ _ [])) as [_ Hq].
  specialize (Hq _ eq_refl). destruct Hq as (_ & _ & k & _ & Hlog). cbn [fst snd] in Hlog. rewrite Hlog.
  unfold replay, preparation. rewrite !foldl_app.
  rewrite replay_clients. change (foldl _ (Some asked) factoryActions) with (Some asked).
  rewrite replay_handlers. change (foldl _ (Some asked) (map AInformer _)) with (Some asked).
  assert (foldl (replay_action c ctx) (Some asked) (watchActions (isOpenShift k)) = Some asked) as ->
    by by destruct (isOpenShift k).
  change (foldl _ (Some asked) (launches _)) with (Some (factory_Start ctx asked)).
  eexists. split; [reflexivity|]. split; vm_compute; reflexivity.
Qed.
End properties.

#[local] Existing Instance example_env.

Lemma kueue_informer_started_witness : ∃ tr log w,
  runs (example_start []) tr (Some (log, Ok tt)) ∧
  replay (H := InformerFactory.Example.types) "client" "ctx" log = Some w ∧ length (w_running w) = 1.
Proof.
  destruct example_start_runs as (tr & log & Hr).
  destruct (kueue_informer_started (H := InformerFactory.Example.types) "client" "ctx" _ _ _ _ _ _ _ _ Hr) as (w & Hw & _ & Hg).
  exists tr, log, w. split; [exact Hr|]. split; [exact Hw|]. rewrite Hg. reflexivity.
Defined.
